(* ===== verification/_CoqProject ===== *)
-Q . S2P
Prelude.v
GoStrings.v
NetIP.v
GoEncoding.v
GoURL.v
GoMime.v
GoTime.v
GoFlag.v
GoJson.v
ApiTypes.v
ApiJson.v
DeepCopy.v
GeneratedCopies.v
CopyWitnesses.v
DashboardTypes.v
Kube.v
Governance.v
AuthzServer.v
Checker.v
EgressAudit.v
CheckerService.v
Threads.v
CheckerConcurrency.v
CallerAuth.v
Admission.v
AdmissionProtocol.v
Controller.v
Broker.v
Store.v
Facade.v
Assignmentd.v
ApiServer.v
LeaderElection.v
Principals.v
SessionStore.v
SessionConcurrency.v
TokenValidation.v
DashboardAuth.v
DashboardConfig.v
DashboardCore.v
AccessRequests.v
AccessLifecycle.v
RequesterAuthz.v
BoundaryRules.v
Probe.v
DashboardAdmin.v
DashboardPages.v
DashboardMain.v
DashboardTransport.v
DashboardProcess.v
Doctor.v
DoctorMain.v
Fixtures.v
Witnesses.v
DashboardFixtures.v
DashboardWitnesses.v
ProcessWitnesses.v
