(* ===== verification/Prelude.v ===== *)
(** * A verified model of the OpenSandbox AKS governance service

    The service runs untrusted sandboxes on Kubernetes and decides, for each of them, who may
    create and control it and which outbound requests it may make.  Its parts:

    - an administrator publishes capability bundles (per-backend allow expressions and a
      governance boundary), sandbox templates that pin a bundle revision, tenant policies with
      budgets, and bindings of callers to tenants;
    - the lifecycle facade accepts sandbox creates, pauses, resumes and deletes from bound
      callers, replaces the caller's shape by the template's, passes tenant admission, records
      the operation as a [SandboxAssignment] and talks to the upstream OpenSandbox server;
    - the controller reconciles each assignment until it is bound to exactly one fresh,
      isolated Pod, publishes readiness, and revokes before an assignment disappears;
    - the authorization endpoint answers Envoy for each outbound request: the Pod's token, Pod,
      assignment and bundle must agree, and the bundle or an approved access request must
      allow the exact target; every decision is audited;
    - the credential broker turns such a decision into a short-lived, revocable token;
    - the dashboard signs people in, lets requesters control the sandboxes of their tenants and
      ask for access to a denied target, and lets administrators approve or deny such requests
      and create bundles, templates and tenant policies;
    - the doctor inspects a cluster and reports whether it is ready; the probe asks the
      authorization endpoint what a running sandbox would be answered.

    The commands are [cmd/assignmentd] (facade, controller, authorization endpoint and broker in
    one process), [cmd/aks-sandbox-dashboard], [cmd/sandbox-doctor] and [cmd/egress-probe].

    ** Modelling

    Pure Go functions are Rocq functions.  A function returning [(T, error)] returns
    [result T].  Effectful code is a program over a signature of calls ([Prog], [Kube]): it
    returns, or issues a call and continues with the answer.  [run p tr a] says that [p]
    returns [a] with the calls and answers [tr], in that order.  Nothing is assumed about
    answers, so other clients may act between any two calls, and every theorem about a run
    holds under every interleaving and every failure of the API server.  Theorems point into
    the trace: what was read, and before which write or upstream call.  Go strings are byte
    strings with Go's UTF-8 decoding; durations are 64-bit and wrap; instants are integers of
    nanoseconds.  An unstructured object is its typed content with the paths whose stored JSON
    has an unexpected type.

    ** Files, and the sources they model (under [src/])

    - [Prelude]: errors, results, programs and their runs, machine integers, strings, tactics.
    - [GoStrings], [NetIP], [GoEncoding], [GoURL], [GoMime], [GoTime], [GoFlag], [GoJson]: the
      functions of [strings], [unicode/utf8], [net], [net/netip], [net/url], [mime],
      [encoding/base64], [encoding/hex], [encoding/json], [strconv], [regexp], [time] and [flag]
      that the code uses.  What [GoJson] encodes, it parses back.
    - [ApiTypes]: [api/assignment/v1alpha1/types.go] and the core objects that are read;
      [ApiJson]: the JSON encoding of the two specifications whose revisions are hashed.
    - [DeepCopy], [GeneratedCopies], [CopyWitnesses]: [zz_generated.deepcopy.go] and
      [AddToScheme], on a heap with pointers, slices and maps.  A copy reads as its original and
      shares no memory with it, which is why the other files can treat values as immutable.
    - [DashboardTypes]: identities, sessions and the operations of the services that the
      dashboard calls.
    - [Kube]: the calls of the Kubernetes client, clock, identifiers, context, upstream, session
      store and lifecycle client.
    - [Governance]: [internal/assignment/governance].  Normalization is idempotent except for
      IPv6 hosts; validation accepts exactly the well-formed requests; policy simulation is
      characterised; a revision determines the specification it was computed from.
    - [AuthzServer], [Checker], [EgressAudit], [CheckerService]: [internal/assignment/authz]
      ([server.go], [checker.go], [audit.go]).  An allow answer rests on a complete chain of
      evidence and on a durable audit record; the caches stay bounded and coherent; a stale
      cache denies; retention and expiry touch exactly what is due.  The last file has the
      construction, the loops and the metrics of the running service, and lifts these results
      to every history of it.
    - [Threads], [CheckerConcurrency]: threads that share a state, and the checks and the
      freshness loop as such threads, with each critical section and atomic operation as one
      step.  Uninterrupted, a thread does what [Checker] says; under every interleaving the caches
      stay bounded and coherent, and an allowed request rests on evidence of that execution.
    - [CallerAuth]: [internal/assignment/callerauth].
    - [Admission], [AdmissionProtocol]: [internal/assignment/admission].  Admission is within
      policy and budget and counted under the Lease; the second file interleaves replicas
      around that Lease: the budget holds while no held Lease expires, and a counterexample
      shows what a late release does.
    - [Controller]: [internal/assignment/controller].  Readiness is published only on full
      evidence in every pass of [Run], one write per pass, revocation precedes the removal of
      the finalizer.
    - [Broker]: [internal/assignment/credentialbroker].
    - [Store]: [internal/assignment/types.go] and [store/kubernetes].  [AssignmentStore] is
      the Go interface; [kubernetes_store] implements it.
    - [Facade]: [internal/assignment/opensandboxapi] and its mounting in
      [cmd/assignmentd/main.go].  Proved against the interfaces [AssignmentStore] and
      [TemplateResolver] and their laws [QuietDependencies], which the Kubernetes
      implementations discharge.
    - [Assignmentd], [ApiServer], [LeaderElection]: [cmd/assignmentd/main.go].  Servers are
      started for a checked configuration and stopped in the order of their dependencies; a
      request has an effect only through an authenticated component; the elected controller
      stays within its Lease, and what the election returns is characterised over the
      interleavings of its goroutines.
    - [Principals], [DashboardCore]: [cmd/aks-sandbox-dashboard]'s [principals.go] and the
      shared part of [governance.go]: who is asking, for which tenants, with which form, and
      the access budget of a tenant, which agrees with the admission package's.
    - [SessionStore], [SessionConcurrency], [TokenValidation], [DashboardAuth]: [auth.go],
      [mise.go], [dev_auth.go].  The session store refines a map that ignores expired sessions,
      and is linearizable with respect to it; a session rests on an accepted token and does not
      outlive it.
    - [DashboardConfig]: [config.go]; an accepted configuration is well formed.
    - [AccessRequests], [AccessLifecycle]: the access-request handlers of [governance.go].
      Requests, approvals and denials are written on full evidence; an approval is honoured by
      the authorization endpoint for its whole duration; under every interleaving a request
      follows the specified phases.
    - [RequesterAuthz]: [requester_authorization.go]; every operation on a sandbox is for a
      tenant of the requester.
    - [BoundaryRules], [DashboardAdmin]: [capabilities.go], [templates.go], [tenants.go].  The
      listed targets are the enforced ones; created templates resolve.
    - [DashboardPages]: the pages of [governance.go]; their rows belong to the reader's tenants.
    - [DashboardMain]: the authenticators, the routes and the chain of handlers of [main.go];
      every write comes from a live session.
    - [DashboardTransport]: [capability_transport.go], composed with the facade's handler.
    - [DashboardProcess]: [run] and [main] of [main.go]; a dashboard that listens was built from
      an accepted configuration.
    - [Doctor], [DoctorMain]: [internal/doctor/doctor.go] and [cmd/sandbox-doctor]; what a ready
      report and the exit status 0 have established.
    - [Probe]: [cmd/egress-probe]; it asks as the Pod of the assignment, and probing a listed
      rule asks about the target of the rule.
    - [Fixtures], [Witnesses], [DashboardFixtures], [DashboardWitnesses], [ProcessWitnesses]:
      concrete libraries and a small cluster, and one run per theorem with hypotheses, evaluated
      by the kernel.

    ** Parameters

    Code outside the repository is a class with the operations used and, where a theorem needs
    it, the documented law: CEL, JWT parsing and signing ([JwtLaws]), Kubernetes quantities, name
    and label validation and label selectors, UUID parsing, the SHA-256 digest, the opaque parts
    of the SDK's types and their JSON codecs, Unicode case tables and the quoting of non-ASCII
    text.  The theorems about compiled-program caching assume a digest without collisions and
    bundles whose stored form is text of the API server ([bundles_text]: valid UTF-8, no NUL
    byte in a UID); [revision_determines_spec] asks only that the digest separates the two
    encodings at hand.  The session store's theorems assume that digests of different cookies
    differ, [deepcopy_independent] that the metadata, condition and time types of apimachinery copy
    ([LibraryCopies]), and [enforced_exactly] that CEL reads disjunctions of conjunctions of equalities as
    the language defines them ([cel_reads]).

    ** Bounds

    Two loops wait without a bound of their own: Lease acquisition and [waitReady].  Their
    models take the number of polls to follow and return [None] when they are still waiting
    after it; the theorems hold for every number, and [acquireTenantLease_terminates] and
    [waitReady_cancelled] show that both loops end once the request is cancelled.  The service
    loops ([controller_Run], [freshnessLoop], [cleanupLoop] and their shared versions) take the number
    of ticks to follow; their theorems hold for every number.  [RetryOnConflict] has the library's five attempts.
    The parser of [GoJson] takes fuel of twice the length of the text, which is always enough
    ([json_fuel_enough]), and has the library's nesting limit; [ParseDuration] and
    [media_params] take the length of their text, since each round consumes some of it.

    ** Not modelled

    The HTML templates, the browser script and the embedded OpenSandbox dashboard itself (its
    client's operations are calls); the contents of informer caches, which are arguments; the
    column widths of the doctor's table and the indentation of its JSON; what is logged, except
    for the decision record of the endpoint.  In-process concurrency is modelled where threads share
    memory that decides an answer: the checker, the session store and the goroutines of the
    election.  The other handlers share only what is behind the API server, whose answers are
    arbitrary; the mutex that serializes the creates of one process is left out, since the
    cross-replica protocol of [AdmissionProtocol] and that of access requests in [AccessLifecycle]
    do without it. *)

From stdpp Require Export base gmap strings list sorting.
From stdpp Require Import options.
From Stdlib Require Export ZArith Ascii Lia.

Declare Scope go_scope.
Delimit Scope go_scope with go.
Open Scope Z_scope.

(** ** Go errors and fallible results

    A Go [error] is a message, an API status reason returned by the Kubernetes
    client, or one of those wrapped with [fmt.Errorf("...: %w", err)]. *)

Inductive ApiReason :=
  | ReasonNotFound
  | ReasonAlreadyExists
  | ReasonConflict
  | ReasonForbidden
  | ReasonOther (code : string).

#[export] Instance ApiReason_eq_dec : EqDecision ApiReason.
Proof. solve_decision. Defined.

Inductive error :=
  | ErrMsg (msg : string)
  | ErrApi (r : ApiReason)
  | ErrWrap (msg : string) (inner : error).

#[export] Instance error_eq_dec : EqDecision error.
Proof. solve_decision. Defined.

(** [errors.As] to an API status: look through the wrapping chain. *)
Fixpoint api_reason (e : error) : option ApiReason :=
  match e with
  | ErrMsg _ => None
  | ErrApi r => Some r
  | ErrWrap _ inner => api_reason inner
  end.

(** [errors.Is]. *)
Fixpoint error_Is (e target : error) : bool :=
  bool_decide (e = target) || match e with ErrWrap _ inner => error_Is inner target | _ => false end.

Definition IsNotFound (e : error) : bool :=
  bool_decide (api_reason e = Some ReasonNotFound).
Definition IsAlreadyExists (e : error) : bool :=
  bool_decide (api_reason e = Some ReasonAlreadyExists).
Definition IsConflict (e : error) : bool :=
  bool_decide (api_reason e = Some ReasonConflict).
Definition IsForbidden (e : error) : bool :=
  bool_decide (api_reason e = Some ReasonForbidden).

(** [err.Error()]. *)
Definition reason_string (r : ApiReason) : string :=
  match r with
  | ReasonNotFound => "NotFound"
  | ReasonAlreadyExists => "AlreadyExists"
  | ReasonConflict => "Conflict"
  | ReasonForbidden => "Forbidden"
  | ReasonOther code => code
  end.
Fixpoint error_string (e : error) : string :=
  match e with
  | ErrMsg msg => msg
  | ErrApi r => reason_string r
  | ErrWrap msg inner => msg +:+ ": " +:+ error_string inner
  end.

(** A Go function returning [(T, error)]. *)
Inductive result (A : Type) :=
  | Ok (a : A)
  | Err (e : error).
Arguments Ok {A} a.
Arguments Err {A} e.

Definition is_ok {A} (r : result A) : bool :=
  match r with Ok _ => true | Err _ => false end.

Definition res_bind {A B} (r : result A) (k : A -> result B) : result B :=
  match r with Ok a => k a | Err e => Err e end.

Notation "x <-! r ;; k" := (res_bind r (fun x => k))
  (at level 20, r at level 99, k at level 200, only parsing) : go_scope.

(** [if cond { return error }]. *)
Definition guard_err (c : bool) (e : error) : result unit :=
  if c then Err e else Ok tt.

(** ** Effectful code

    A handler talks to the Kubernetes API server, the clock, an identifier generator
    and other services.  Its model is the tree of the calls it makes: a [Prog] returns,
    or issues an operation of a signature [E] and continues with the answer.  Nothing is
    assumed about the answers, so other clients may act between any two calls; the
    laws of a particular service are stated on runs where a theorem needs them. *)

Inductive Prog (E : Type -> Type) (A : Type) : Type :=
  | Ret (a : A)
  | Vis {R : Type} (op : E R) (k : R -> Prog E A).
Arguments Ret {E A} a.
Arguments Vis {E A R} op k.

Fixpoint prog_bind {E A B} (p : Prog E A) (k : A -> Prog E B) : Prog E B :=
  match p with
  | Ret a => k a
  | Vis op c => Vis op (fun r => prog_bind (c r) k)
  end.

Definition call {E R} (op : E R) : Prog E R := Vis op Ret.

(** Go's [x, err := c; if err != nil { return err }]. *)
Definition prog_try {E A B} (c : Prog E (result A)) (k : A -> Prog E (result B))
  : Prog E (result B) :=
  prog_bind c (fun r => match r with Ok a => k a | Err e => Ret (Err e) end).

Notation "x <-- c ;; k" := (prog_bind c (fun x => k))
  (at level 20, c at level 99, k at level 200, only parsing) : go_scope.
Notation "x <-? c ;; k" := (prog_try c (fun x => k))
  (at level 20, c at level 99, k at level 200, only parsing) : go_scope.

(** One call together with its answer. *)
Inductive Event (E : Type -> Type) : Type :=
  | Ev {R : Type} (op : E R) (r : R).
Arguments Ev {E R} op r.

(** [run p tr a]: with the calls and answers [tr], in this order, [p] returns [a]. *)
Fixpoint run {E A} (p : Prog E A) (tr : list (Event E)) (a : A) : Prop :=
  match p with
  | Ret x => tr = [] /\ x = a
  | Vis op k => exists r tr', tr = Ev op r :: tr' /\ run (k r) tr' a
  end.

(** A service that answers calls from a state. *)
Definition Handler (E : Type -> Type) (W : Type) := forall R, E R -> W -> R * W.

Lemma run_bind {E A B} (p : Prog E A) (k : A -> Prog E B) tr b :
  run (prog_bind p k) tr b <->
  exists a tr1 tr2, tr = tr1 ++ tr2 /\ run p tr1 a /\ run (k a) tr2 b.
Proof.
  revert tr. induction p as [x|R op c IH]; intros tr; cbn [prog_bind run].
  - split; [intros Hr; by exists x, [], tr|]. intros (a & t1 & t2 & -> & [-> ->] & Hr). done.
  - split.
    + intros (r & tr' & -> & (a & t1 & t2 & -> & H1 & H2)%IH).
      exists a, (Ev op r :: t1), t2. split; [done|]. eauto 10.
    + intros (a & t1 & t2 & -> & (r & t & -> & H1) & H2).
      exists r, (t ++ t2). split; [done|]. apply IH. eauto 10.
Qed.

Lemma run_try {E A B} (p : Prog E (result A)) (k : A -> Prog E (result B)) tr b :
  run (prog_try p k) tr b <->
  (exists e, run p tr (Err e) /\ b = Err e) \/
  (exists a tr1 tr2, tr = tr1 ++ tr2 /\ run p tr1 (Ok a) /\ run (k a) tr2 b).
Proof.
  unfold prog_try. rewrite run_bind. split.
  - intros ([a|e] & t1 & t2 & -> & H1 & H2); [right; eauto 10|].
    destruct H2 as [-> <-]. rewrite app_nil_r. left. eauto.
  - intros [(e & H1 & ->)|(a & t1 & t2 & -> & H1 & H2)].
    + exists (Err e), tr, []. by rewrite app_nil_r.
    + by exists (Ok a), t1, t2.
Qed.

Lemma run_call {E R} (op : E R) tr r : run (call op) tr r <-> tr = [Ev op r].
Proof.
  unfold call. cbn [run]. split.
  - by intros (x & t & -> & -> & ->).
  - intros ->. by exists r, [].
Qed.

(** The run against such a service: its trace and its outcome. *)
Fixpoint record_trace {E A W} (h : Handler E W) (p : Prog E A) (w : W) : list (Event E) * A :=
  match p with
  | Ret a => ([], a)
  | Vis op k => let '(r, w') := h _ op w in
                let '(tr, a) := record_trace h (k r) w' in (Ev op r :: tr, a)
  end.

Lemma record_trace_run {E A W} (h : Handler E W) (p : Prog E A) w a :
  (record_trace h p w).2 = a -> run p (record_trace h p w).1 a.
Proof.
  intros <-. revert w. induction p as [x|R op k IH]; intros w; cbn [record_trace run]; [done|].
  destruct (h _ op w) as [r w']. specialize (IH r w'). destruct (record_trace h (k r) w') as [tr b].
  by exists r, tr.
Qed.

(** A program over one service as part of a program over a larger one. *)
Fixpoint within {E F : Type -> Type} {A} (f : forall R, E R -> F R) (p : Prog E A) : Prog F A :=
  match p with
  | Ret a => Ret a
  | Vis op k => Vis (f _ op) (fun r => within f (k r))
  end.

Definition event_within {E F : Type -> Type} (f : forall R, E R -> F R) (e : Event E) : Event F :=
  match e with Ev op r => Ev (f _ op) r end.

Lemma run_within {E F : Type -> Type} {A} (f : forall R, E R -> F R) (p : Prog E A) tr a :
  run (within f p) tr a <-> exists t, tr = event_within f <$> t /\ run p t a.
Proof.
  revert tr. induction p as [x|R op k IH]; intros tr; cbn [within run].
  - split; [intros [-> ->]; by exists []|]. intros (t & -> & -> & ->). done.
  - split.
    + intros (r & tr' & -> & (t & -> & Hr)%IH). exists (Ev op r :: t). eauto.
    + intros (t & -> & r & t' & -> & Hr). exists r, (event_within f <$> t'). split; [done|]. apply IH. eauto.
Qed.

Open Scope go_scope.

(** ** Machine integers, durations and instants

    [time.Duration] is a signed 64-bit count of nanoseconds; products and sums
    of durations wrap around.  An instant is an unbounded count of nanoseconds
    since the Unix epoch; the zero [time.Time] is 1 January of year 1. *)

Definition wrap64 (z : Z) : Z := (z + 2 ^ 63) mod 2 ^ 64 - 2 ^ 63.
Definition max_int64 : Z := 2 ^ 63 - 1.
Definition min_int64 : Z := - 2 ^ 63.

Definition in_int64 (z : Z) : Prop := min_int64 <= z <= max_int64.
Definition in_int32 (z : Z) : Prop := - 2 ^ 31 <= z <= 2 ^ 31 - 1.

Definition Time := Z.
Definition Duration := Z.

Definition Nanosecond : Duration := 1.
Definition Second : Duration := 1000000000.
Definition Minute : Duration := 60 * Second.
Definition Hour : Duration := 60 * Minute.

(** [time.Duration(n) * unit]: the product wraps at 64 bits. *)
Definition dur_mul (n unit : Z) : Duration := wrap64 (n * unit).

(** [t.Add(d)], [t.Sub(u)]: the difference saturates at the 64-bit range. *)
Definition time_add (t : Time) (d : Duration) : Time := t + d.
Definition time_sub (t u : Time) : Duration :=
  Z.max min_int64 (Z.min max_int64 (t - u)).

Definition time_after (t u : Time) : bool := u <? t.
Definition time_before (t u : Time) : bool := t <? u.

Definition zero_time : Time := - 62135596800 * Second.
Definition time_is_zero (t : Time) : bool := t =? zero_time.

Lemma wrap64_id z : in_int64 z -> wrap64 z = z.
Proof.
  unfold in_int64, min_int64, max_int64, wrap64. intros H.
  rewrite Z.mod_small; lia.
Qed.

Lemma wrap64_range z : in_int64 (wrap64 z).
Proof.
  unfold in_int64, min_int64, max_int64, wrap64.
  pose proof (Z.mod_pos_bound (z + 2 ^ 63) (2 ^ 64)). lia.
Qed.

Lemma dur_mul_seconds_int32 n : in_int32 n -> dur_mul n Second = n * Second.
Proof.
  intros H. apply wrap64_id.
  unfold in_int32, in_int64, min_int64, max_int64, Second in *. lia.
Qed.

Lemma time_sub_bounded t u d :
  0 <= d <= max_int64 - 1 -> (time_sub t u <= d <-> t - u <= d).
Proof. unfold time_sub, min_int64, max_int64. lia. Qed.

(** ** Byte strings *)

(** Go's [len(s)] counts bytes. *)
Definition slen (s : string) : Z := Z.of_nat (String.length s).

Definition seqb (s t : string) : bool := bool_decide (s = t).

Infix "=?s" := seqb (at level 70) : go_scope.
Notation "s <>?s t" := (negb (seqb s t)) (at level 70) : go_scope.

Lemma seqb_eq s t : seqb s t = true <-> s = t.
Proof. unfold seqb. by rewrite bool_decide_eq_true. Qed.

Lemma seqb_neq s t : seqb s t = false <-> s <> t.
Proof. unfold seqb. by rewrite bool_decide_eq_false. Qed.

Lemma seqb_refl s : seqb s s = true.
Proof. by apply seqb_eq. Qed.

Lemma slen_nonneg s : 0 <= slen s.
Proof. unfold slen. lia. Qed.

Lemma slen_zero s : slen s = 0 <-> s = "".
Proof. unfold slen. destruct s; cbn; split; intros; [done|done|lia|done]. Qed.

(** [slices.Contains]. *)
Definition contains {A} `{EqDecision A} (x : A) (l : list A) : bool :=
  bool_decide (x ∈ l).

Lemma contains_true {A} `{EqDecision A} (x : A) l : contains x l = true <-> x ∈ l.
Proof. unfold contains. by rewrite bool_decide_eq_true. Qed.

(** Reading a Go [map[string]string]: the zero value on a missing key. *)
Definition map_get (m : gmap string string) (k : string) : string :=
  default "" (m !! k).

Lemma map_get_insert m k v : map_get (<[k:=v]> m) k = v.
Proof. unfold map_get. by rewrite lookup_insert_eq. Qed.

Lemma map_get_insert_ne m k k' v :
  k <> k' -> map_get (<[k:=v]> m) k' = map_get m k'.
Proof. unfold map_get. intros. by rewrite lookup_insert_ne. Qed.

Lemma map_get_delete m k : map_get (delete k m) k = "".
Proof. unfold map_get. by rewrite lookup_delete_eq. Qed.

Lemma map_get_delete_ne m k k' :
  k <> k' -> map_get (delete k m) k' = map_get m k'.
Proof. unfold map_get. intros. by rewrite lookup_delete_ne. Qed.

(** ** Automation

    [gov_cases] reduces a handler run to its branches: every [if] and [match]
    scrutinee in a hypothesis is split, keeping its equation; [bool_to_prop]
    turns the boolean guards of the code into propositions. *)

Create HintDb gov.
Create Rewrite HintDb gov.
#[export] Hint Rewrite map_get_insert map_get_delete : gov.
#[export] Hint Rewrite map_get_insert_ne map_get_delete_ne using done : gov.
#[export] Hint Resolve wrap64_range slen_nonneg : gov.

Ltac bool_to_prop :=
  repeat match goal with
  | H : (_ && _) = true |- _ => apply andb_true_iff in H; destruct H
  | H : (_ || _) = false |- _ => apply orb_false_iff in H; destruct H
  | H : negb _ = true |- _ => apply negb_true_iff in H
  | H : negb _ = false |- _ => apply negb_false_iff in H
  | H : seqb _ _ = true |- _ => apply seqb_eq in H
  | H : seqb _ _ = false |- _ => apply seqb_neq in H
  | H : bool_decide _ = true |- _ => apply bool_decide_eq_true in H
  | H : bool_decide _ = false |- _ => apply bool_decide_eq_false in H
  | H : contains _ _ = true |- _ => apply contains_true in H
  | H : (_ <? _) = true |- _ => apply Z.ltb_lt in H
  | H : (_ <? _) = false |- _ => apply Z.ltb_ge in H
  | H : (_ <=? _) = true |- _ => apply Z.leb_le in H
  | H : (_ <=? _) = false |- _ => apply Z.leb_gt in H
  | H : (_ =? _) = true |- _ => apply Z.eqb_eq in H
  | H : (_ =? _) = false |- _ => apply Z.eqb_neq in H
  end.

Ltac split_match_in H :=
  match type of H with
  | context [match ?x with _ => _ end] =>
      lazymatch x with
      | context [match _ with _ => _ end] => fail
      | _ => let E := fresh "E" in destruct x eqn:E
      end
  end.

Ltac gov_cases H :=
  repeat (split_match_in H; try discriminate H; simplify_eq; try done).

(** ** Wrapped errors *)

(** [fmt.Errorf("message: %w", err)] around a failing call. *)
Definition wrapped {E A} (message : string) (c : Prog E (result A)) : Prog E (result A) :=
  r <-- c ;; Ret (match r with Ok a => Ok a | Err e => Err (ErrWrap message e) end).

Lemma run_wrapped_Ok {E A} message (c : Prog E (result A)) tr a :
  run (wrapped message c) tr (Ok a) <-> run c tr (Ok a).
Proof.
  unfold wrapped. rewrite run_bind. split.
  - intros (r & t1 & t2 & -> & Hc & [-> Hr]). rewrite app_nil_r. destruct r; simplify_eq. done.
  - intros Hc. exists (Ok a), tr, []. by rewrite app_nil_r.
Qed.

(** A call under [wrapped] has exactly one event. *)
Lemma run_wrapped_call {E A} message (op : E (result A)) tr r :
  run (wrapped message (call op)) tr r -> exists answer, tr = [Ev op answer].
Proof.
  unfold wrapped. intros (x & t1 & t2 & -> & ->%run_call & [-> _])%run_bind. by exists x.
Qed.

(** One wrapped call and what follows its success. *)
Lemma run_wrapped_try {E A B} message (op : E (result A)) (k : A -> Prog E (result B)) tr b :
  run (prog_try (wrapped message (call op)) k) tr b ->
  (exists a tr', tr = Ev op (Ok a) :: tr' /\ run (k a) tr' b) \/
  (exists e, tr = [Ev op (Err e)] /\ b = Err (ErrWrap message e)).
Proof.
  intros [(e & Hr & ->)|(a & t1 & t2 & -> & Hr & Hk)]%run_try.
  - right. unfold wrapped in Hr. apply run_bind in Hr as (r & t1 & t2 & -> & ->%run_call & [-> Hr]).
    destruct r as [|e']; simplify_eq. by exists e'.
  - left. apply run_wrapped_Ok, run_call in Hr as ->. by exists a, t2.
Qed.

(** [run_step H] takes one step of a run apart: a bind, a call, a return; the branches of
    [prog_try] that contradict the outcome are dropped. *)
Ltac run_step H :=
  cbn beta iota zeta in H;
  lazymatch type of H with
  | run (prog_bind _ _) _ _ =>
      let a := fresh "a" in let t1 := fresh "tr" in let t2 := fresh "tr" in
      let H1 := fresh "Hr" in
      apply run_bind in H as (a & t1 & t2 & -> & H1 & H); run_step H1
  | run (prog_try _ _) _ _ =>
      let a := fresh "a" in let t1 := fresh "tr" in let t2 := fresh "tr" in
      let H1 := fresh "Hr" in let e := fresh "e" in let E := fresh "E" in
      apply run_try in H as [(e & H1 & E)|(a & t1 & t2 & -> & H1 & H)]; run_step H1;
      [try discriminate E|]
  | run (call _) _ _ => apply run_call in H; try subst
  | run (Ret _) _ _ => destruct H as [-> H]; try discriminate H; simplify_eq
  | _ => idtac
  end.

(** Membership of a known event in a trace. *)
Ltac in_trace :=
  lazymatch goal with
  | |- _ ∈ _ :: _ => first [apply list_elem_of_here | apply list_elem_of_further; in_trace]
  | |- _ ∈ _ ++ _ => apply elem_of_app; first [left; in_trace | right; in_trace]
  | |- _ => assumption
  end.

(** ** Loops that issue one call per selected item

    [for _, item := range items { if !selected(item) { continue }; if err := op(item); err !=
    nil && !tolerated(err) { return err } }]. *)

Fixpoint each_selected {E T R} (selected : T -> bool) (op : T -> E (result R))
  (tolerated : error -> bool) (items : list T) : Prog E (result unit) :=
  match items with
  | [] => Ret (Ok tt)
  | item :: rest =>
      if negb (selected item) then each_selected selected op tolerated rest
      else
        r <-- call (op item) ;;
        match r with
        | Err e => if tolerated e then each_selected selected op tolerated rest else Ret (Err e)
        | Ok _ => each_selected selected op tolerated rest
        end
  end.

(** Only selected items are acted on, and a loop that succeeds has acted on all of them. *)
Lemma each_selected_run {E T R} selected (op : T -> E (result R)) tolerated items tr r :
  run (each_selected selected op tolerated items) tr r ->
  (forall e, e ∈ tr -> exists item answer, item ∈ items /\ selected item = true /\ e = Ev (op item) answer) /\
  (r = Ok tt -> forall item, item ∈ items -> selected item = true ->
     exists answer, Ev (op item) answer ∈ tr).
Proof.
  revert tr. induction items as [|item rest IH]; intros tr; cbn [each_selected].
  { intros Hr. run_step Hr. set_solver. }
  destruct (selected item) eqn:Ee; cbn [negb].
  2: { intros [Hd Hc]%IH. split; [set_solver|].
       intros Hok x [->|Hin]%elem_of_cons Hex; [congruence|eauto]. }
  intros Hr. run_step Hr.
  assert (run (each_selected selected op tolerated rest) tr1 r ->
    (forall e, e ∈ [Ev (op item) a] ++ tr1 ->
       exists x answer, x ∈ item :: rest /\ selected x = true /\ e = Ev (op x) answer) /\
    (r = Ok tt -> forall x, x ∈ item :: rest -> selected x = true ->
     exists answer, Ev (op x) answer ∈ [Ev (op item) a] ++ tr1)) as Hcont.
  { intros [Hd Hc]%IH. split.
    - intros e [->|Hin]%elem_of_cons; [exists item, a; set_solver|].
      destruct (Hd e Hin) as (x & an & ? & ? & ->). exists x, an. set_solver.
    - intros Hok x [->|Hin]%elem_of_cons Hex; [exists a; set_solver|].
      destruct (Hc Hok x Hin Hex) as [an ?]. exists an. set_solver. }
  destruct a as [u|err]; [auto|]. destruct (tolerated err); [auto|]. run_step Hr.
  split; [|done]. intros e ->%list_elem_of_singleton. exists item, (Err err). set_solver.
Qed.

(** ** Programs that make no call of some kind *)

Definition quiet {E A} (kind : Event E -> bool) (p : Prog E A) : Prop :=
  forall tr a, run p tr a -> existsb kind tr = false.

Lemma quiet_ret {E A} (kind : Event E -> bool) (a : A) : quiet kind (Ret a).
Proof. intros tr b Hr. by run_step Hr. Qed.

Lemma quiet_bind {E A B} (kind : Event E -> bool) (p : Prog E A) (k : A -> Prog E B) :
  quiet kind p -> (forall a, quiet kind (k a)) -> quiet kind (prog_bind p k).
Proof.
  intros Hp Hk tr b (a & t1 & t2 & -> & H1 & H2)%run_bind.
  by rewrite existsb_app, (Hp _ _ H1), (Hk _ _ _ H2).
Qed.

Lemma quiet_try {E A B} (kind : Event E -> bool) (p : Prog E (result A)) (k : A -> Prog E (result B)) :
  quiet kind p -> (forall a, quiet kind (k a)) -> quiet kind (prog_try p k).
Proof. intros Hp Hk. apply quiet_bind; [done|]. intros [a|e]; [apply Hk|apply quiet_ret]. Qed.

Lemma quiet_call {E R} (kind : Event E -> bool) (op : E R) :
  (forall r, kind (Ev op r) = false) -> quiet kind (call op).
Proof. intros Hop tr r ->%run_call. cbn. by rewrite Hop. Qed.

(** A quiet program contributes no event of that kind. *)
Lemma quiet_elem {E A} (kind : Event E -> bool) (p : Prog E A) tr a e :
  quiet kind p -> run p tr a -> e ∈ tr -> kind e = true -> False.
Proof.
  intros Hq Hr Hin Hk. specialize (Hq _ _ Hr). assert (existsb kind tr = true); [|congruence].
  apply existsb_exists. exists e. by rewrite <- list_elem_of_In.
Qed.

#[export] Hint Resolve quiet_ret : gov.

(** [solve_quiet] follows the structure of a program down to its calls; the remaining
    subprograms are left to the hints of [gov]. *)
Ltac solve_quiet :=
  lazymatch goal with
  | |- quiet _ (Ret _) => apply quiet_ret
  | |- quiet _ (prog_bind _ _) => apply quiet_bind; [solve_quiet|intros ?; solve_quiet]
  | |- quiet _ (prog_try _ _) => apply quiet_try; [solve_quiet|intros ?; solve_quiet]
  | |- quiet _ (call _) => apply quiet_call; intros ?; reflexivity
  | |- quiet _ (match ?x with _ => _ end) => destruct x; solve_quiet
  | |- quiet _ (let '_ := _ in _) => cbv zeta; solve_quiet
  | |- _ => solve [auto with gov | eauto 4 with gov]
  end.

(** ** Programs whose calls of some kind are guarded

    [guarded kind P p]: whenever [p] makes a call of that kind, [P] holds of the calls made
    before it and of the call itself.  A handler is a sequence of checks followed by its writes;
    the rules below follow that structure, and leave for each write the runs of the checks
    before it. *)

Definition guarded {E A} (kind : Event E -> bool) (P : list (Event E) -> Event E -> Prop) (p : Prog E A) : Prop :=
  forall tr a, run p tr a -> forall t1 e t2, tr = t1 ++ e :: t2 -> kind e = true -> P t1 e.

Lemma guarded_quiet {E A} kind P (p : Prog E A) : quiet kind p -> guarded kind P p.
Proof.
  intros Hq tr a Hr t1 e t2 -> Hk. specialize (Hq _ _ Hr). rewrite existsb_app in Hq.
  apply orb_false_iff in Hq as [_ Hq]. cbn in Hq. by rewrite Hk in Hq.
Qed.

Lemma guarded_ret {E A} kind P (a : A) : guarded (E := E) kind P (Ret a).
Proof. apply guarded_quiet, quiet_ret. Qed.

Lemma guarded_call {E R} (kind : Event E -> bool) P (op : E R) :
  (forall r, P [] (Ev op r)) -> guarded kind P (call op).
Proof.
  intros HP tr a ->%run_call t1 e t2 Ht _. destruct t1 as [|x t1]; [|by destruct t1].
  injection Ht as <- _. apply HP.
Qed.

Lemma guarded_bind {E A B} kind P (p : Prog E A) (k : A -> Prog E B) :
  guarded kind P p ->
  (forall a t1, run p t1 a -> guarded kind (fun t2 e => P (t1 ++ t2) e) (k a)) ->
  guarded kind P (prog_bind p k).
Proof.
  intros Hp Hk tr b (a & t1 & t2 & -> & H1 & H2)%run_bind l e r Hl He.
  destruct (app_eq_inv _ _ _ _ Hl) as [(m & -> & Em)|(m & -> & ->)]; [|by eapply Hk].
  destruct m as [|x m]; cbn in Em.
  - subst t2. rewrite app_nil_r in *. specialize (Hk a l H1 _ _ H2 [] e r eq_refl He). cbv beta in Hk. by rewrite app_nil_r in Hk.
  - injection Em as <- ->. by eapply Hp.
Qed.

Lemma guarded_try {E A B} kind P (p : Prog E (result A)) (k : A -> Prog E (result B)) :
  guarded kind P p ->
  (forall a t1, run p t1 (Ok a) -> guarded kind (fun t2 e => P (t1 ++ t2) e) (k a)) ->
  guarded kind P (prog_try p k).
Proof. intros Hp Hk. apply guarded_bind; [done|]. intros [a|e] t1 Hr; [by apply Hk|apply guarded_ret]. Qed.

Lemma guarded_weaken {E A} kind P Q (p : Prog E A) :
  guarded kind P p -> (forall t e, P t e -> Q t e) -> guarded kind Q p.
Proof. intros Hp HPQ tr a Hr t1 e t2 Ht Hk. eauto. Qed.

(** Use of a guard for one event of a run. *)
Lemma guarded_elem {E A} (kind : Event E -> bool) P (p : Prog E A) tr a e :
  guarded kind P p -> run p tr a -> e ∈ tr -> kind e = true ->
  exists t1 t2, tr = t1 ++ e :: t2 /\ P t1 e.
Proof. intros Hg Hr (t1 & t2 & ->)%list_elem_of_split Hk. exists t1, t2. eauto. Qed.
