(* ===== verification/GoStrings.v ===== *)
(** * The parts of Go's [strings], [unicode], [utf8] and [strconv] the service uses

    A Go string is a sequence of bytes, here a [string] of 8-bit characters.
    Functions that walk a string by rune decode UTF-8 the way [utf8.DecodeRune]
    does: an invalid byte counts as the replacement rune of width one.  The case
    mappings of non-ASCII runes are Unicode data tables; they are an argument
    ([UnicodeTables]) and every theorem holds for any table. *)

From S2P Require Import Prelude.
From stdpp Require Import options.

Local Open Scope N_scope.

(** ** Bytes and runes *)

Definition byte (c : ascii) : N := N_of_ascii c.
Definition chr (n : N) : ascii := ascii_of_N n.

Definition in_range (lo hi x : N) : bool := (lo <=? x) && (x <=? hi).

Definition RuneError : N := 65533.

Definition cont (c : ascii) : bool := in_range 128 191 (byte c).
Definition low6 (c : ascii) : N := N.land (byte c) 63.

(** Lower and upper bound of the second byte of a three or four byte sequence. *)
Definition second_ok (b0 b1 : ascii) : bool :=
  let x := byte b0 in
  if x =? 224 then in_range 160 191 (byte b1)
  else if x =? 237 then in_range 128 159 (byte b1)
  else if x =? 240 then in_range 144 191 (byte b1)
  else if x =? 244 then in_range 128 143 (byte b1)
  else cont b1.

Definition rune2 (b0 b1 : ascii) : N :=
  N.lor (N.shiftl (N.land (byte b0) 31) 6) (low6 b1).
Definition rune3 (b0 b1 b2 : ascii) : N :=
  N.lor (N.shiftl (N.land (byte b0) 15) 12) (N.lor (N.shiftl (low6 b1) 6) (low6 b2)).
Definition rune4 (b0 b1 b2 b3 : ascii) : N :=
  N.lor (N.shiftl (N.land (byte b0) 7) 18)
    (N.lor (N.shiftl (low6 b1) 12) (N.lor (N.shiftl (low6 b2) 6) (low6 b3))).

(** [for _, r := range s]: the runes of a string. *)
Fixpoint runes (s : string) : list N :=
  match s with
  | EmptyString => []
  | String b0 s1 =>
      let x := byte b0 in
      if x <? 128 then x :: runes s1
      else if in_range 194 223 x then
        match s1 with
        | String b1 s2 => if cont b1 then rune2 b0 b1 :: runes s2 else RuneError :: runes s1
        | EmptyString => RuneError :: runes s1
        end
      else if in_range 224 239 x then
        match s1 with
        | String b1 (String b2 s3) =>
            if second_ok b0 b1 && cont b2 then rune3 b0 b1 b2 :: runes s3
            else RuneError :: runes s1
        | _ => RuneError :: runes s1
        end
      else if in_range 240 244 x then
        match s1 with
        | String b1 (String b2 (String b3 s4)) =>
            if second_ok b0 b1 && cont b2 && cont b3 then rune4 b0 b1 b2 b3 :: runes s4
            else RuneError :: runes s1
        | _ => RuneError :: runes s1
        end
      else RuneError :: runes s1
  end.

Definition cont_byte (r : N) (sh : N) : ascii := chr (N.lor 128 (N.land (N.shiftr r sh) 63)).

(** [utf8.AppendRune]: surrogates and out-of-range values encode as the
    replacement rune. *)
Definition encode_rune (r : N) : string :=
  let r := if in_range 55296 57343 r || (1114111 <? r) then RuneError else r in
  if r <? 128 then String (chr r) ""
  else if r <? 2048 then
    String (chr (N.lor 192 (N.shiftr r 6))) (String (cont_byte r 0) "")
  else if r <? 65536 then
    String (chr (N.lor 224 (N.shiftr r 12)))
      (String (cont_byte r 6) (String (cont_byte r 0) ""))
  else
    String (chr (N.lor 240 (N.shiftr r 18)))
      (String (cont_byte r 12) (String (cont_byte r 6) (String (cont_byte r 0) ""))).

Definition encode_runes (l : list N) : string :=
  foldr (fun r acc => encode_rune r +:+ acc) "" l.

(** [strings.Map]: a mapping to [None] (a negative rune) drops the character. *)
Definition strings_Map (f : N -> option N) (s : string) : string :=
  encode_runes (omap f (runes s)).

(** ** Character classes *)

Definition ascii_space (c : ascii) : bool :=
  let x := byte c in in_range 9 13 x || (x =? 32).

(** Two and three byte encodings of the non-ASCII [unicode.IsSpace] runes:
    U+0085, U+00A0; U+1680, U+2000-U+200A, U+2028, U+2029, U+202F, U+205F, U+3000. *)
Definition space2 (b0 b1 : ascii) : bool :=
  (byte b0 =? 194) && ((byte b1 =? 133) || (byte b1 =? 160)).
Definition space3 (b0 b1 b2 : ascii) : bool :=
  ((byte b0 =? 225) && (byte b1 =? 154) && (byte b2 =? 128))
  || ((byte b0 =? 226) && (byte b1 =? 128) &&
        (in_range 128 138 (byte b2) || (byte b2 =? 168) || (byte b2 =? 169) || (byte b2 =? 175)))
  || ((byte b0 =? 226) && (byte b1 =? 129) && (byte b2 =? 159))
  || ((byte b0 =? 227) && (byte b1 =? 128) && (byte b2 =? 128)).

Definition IsSpace (r : N) : bool :=
  in_range 9 13 r || (r =? 32) || (r =? 133) || (r =? 160) || (r =? 5760)
  || in_range 8192 8202 r || (r =? 8232) || (r =? 8233) || (r =? 8239)
  || (r =? 8287) || (r =? 12288).

(** [unicode.IsControl]: the C0 and C1 controls. *)
Definition IsControl (r : N) : bool := (r <? 32) || in_range 127 159 r.

Definition is_lower (c : ascii) : bool := in_range 97 122 (byte c).
Definition is_upper (c : ascii) : bool := in_range 65 90 (byte c).
Definition is_digit (c : ascii) : bool := in_range 48 57 (byte c).

(** ** Unicode case tables *)

Class UnicodeTables := {
  upper_table : N -> N;
  lower_table : N -> N;
  fold_table : N -> N
}.

Section unicode.
Context `{UnicodeTables}.

Definition rune_ToUpper (r : N) : N :=
  if r <? 128 then (if in_range 97 122 r then r - 32 else r) else upper_table r.
Definition rune_ToLower (r : N) : N :=
  if r <? 128 then (if in_range 65 90 r then r + 32 else r) else lower_table r.

Definition ToUpper (s : string) : string := strings_Map (fun r => Some (rune_ToUpper r)) s.
Definition ToLower (s : string) : string := strings_Map (fun r => Some (rune_ToLower r)) s.

(** [unicode.SimpleFold] orbits: ASCII letters fold with their other case, and
    U+017F, U+212A fold with s and k. *)
Definition rune_fold (r : N) : N :=
  if r <? 128 then (if in_range 65 90 r then r + 32 else r)
  else if r =? 383 then 115 else if r =? 8490 then 107 else fold_table r.

Definition EqualFold (s t : string) : bool :=
  bool_decide (rune_fold <$> runes s = rune_fold <$> runes t).

End unicode.

(** ** Searching, cutting, trimming *)

Fixpoint string_rev_app (s acc : string) : string :=
  match s with EmptyString => acc | String c s' => string_rev_app s' (String c acc) end.
Definition string_rev (s : string) : string := string_rev_app s "".

(** [strings.TrimLeftFunc(s, unicode.IsSpace)]. *)
Fixpoint trim_left (s : string) : string :=
  match s with
  | EmptyString => s
  | String b0 s1 =>
      if ascii_space b0 then trim_left s1
      else match s1 with
           | EmptyString => s
           | String b1 s2 =>
               if space2 b0 b1 then trim_left s2
               else match s2 with
                    | EmptyString => s
                    | String b2 s3 => if space3 b0 b1 b2 then trim_left s3 else s
                    end
           end
  end.

(** The same walk over a reversed string, last byte first. *)
Fixpoint trim_rev (s : string) : string :=
  match s with
  | EmptyString => s
  | String b0 s1 =>
      if ascii_space b0 then trim_rev s1
      else match s1 with
           | EmptyString => s
           | String b1 s2 =>
               if space2 b1 b0 then trim_rev s2
               else match s2 with
                    | EmptyString => s
                    | String b2 s3 => if space3 b2 b1 b0 then trim_rev s3 else s
                    end
           end
  end.

Definition TrimSpace (s : string) : string :=
  string_rev (trim_rev (string_rev (trim_left s))).

Fixpoint HasPrefix (s p : string) {struct p} : bool :=
  match p, s with
  | EmptyString, _ => true
  | String c p', String d s' => bool_decide (c = d) && HasPrefix s' p'
  | String _ _, EmptyString => false
  end.

(** [strings.CutPrefix]. *)
Fixpoint CutPrefix (s p : string) {struct p} : option string :=
  match p, s with
  | EmptyString, _ => Some s
  | String c p', String d s' => if bool_decide (c = d) then CutPrefix s' p' else None
  | String _ _, EmptyString => None
  end.

Definition TrimPrefix (s p : string) : string := default s (CutPrefix s p).

Definition HasSuffix (s p : string) : bool := HasPrefix (string_rev s) (string_rev p).
Definition TrimSuffix (s p : string) : string :=
  match CutPrefix (string_rev s) (string_rev p) with
  | Some r => string_rev r
  | None => s
  end.

Fixpoint string_forallb (p : ascii -> bool) (s : string) : bool :=
  match s with EmptyString => true | String c s' => p c && string_forallb p s' end.

Definition string_existsb (p : ascii -> bool) (s : string) : bool :=
  negb (string_forallb (fun c => negb (p c)) s).

(** [strings.Contains(s, c)] for a one-byte [c], and [strings.ContainsAny] for a
    set of ASCII characters. *)
Definition contains_byte (c : ascii) (s : string) : bool :=
  string_existsb (fun d => bool_decide (d = c)) s.
Fixpoint byte_in (c : ascii) (chars : string) : bool :=
  match chars with
  | EmptyString => false
  | String d t => bool_decide (c = d) || byte_in c t
  end.
Definition ContainsAny (s chars : string) : bool :=
  string_existsb (fun c => byte_in c chars) s.

(** [strings.Cut(s, c)] for a one-byte separator. *)
Fixpoint cut_byte (c : ascii) (s : string) : option (string * string) :=
  match s with
  | EmptyString => None
  | String d s' =>
      if bool_decide (d = c) then Some ("", s')
      else '(a, b) ← cut_byte c s'; Some (String d a, b)
  end.

(** [strings.Split(s, c)] for a one-byte separator. *)
Fixpoint split_byte (c : ascii) (s : string) : list string :=
  match s with
  | EmptyString => [""]
  | String d s' =>
      if bool_decide (d = c) then "" :: split_byte c s'
      else match split_byte c s' with
           | [] => [String d ""]
           | x :: l => String d x :: l
           end
  end.

Fixpoint strings_Join (l : list string) (sep : string) : string :=
  match l with
  | [] => ""
  | [x] => x
  | x :: l' => x +:+ sep +:+ strings_Join l' sep
  end.

(** [strings.IndexFunc(s, unicode.IsControl) >= 0]. *)
Definition has_control (s : string) : bool := existsb IsControl (runes s).

(** ** Facts about bytes and ASCII strings *)

Ltac all_bytes c := destruct c as [[] [] [] [] [] [] [] []]; try done.

Lemma chr_byte c : chr (byte c) = c.
Proof. apply ascii_N_embedding. Qed.

Definition is_ascii (c : ascii) : bool := byte c <? 128.

Lemma string_forallb_impl (p q : ascii -> bool) s :
  (forall c, p c = true -> q c = true) ->
  string_forallb p s = true -> string_forallb q s = true.
Proof.
  intros Hpq. induction s as [|c s IH]; cbn; [done|].
  rewrite !andb_true_iff. intros [? ?]; auto.
Qed.

Lemma string_app_cons c (s t : string) : String c s +:+ t = String c (s +:+ t).
Proof. done. Qed.

Lemma string_app_nil_r s : s +:+ "" = s.
Proof. induction s as [|c s IH]; [done|]. by rewrite string_app_cons, IH. Qed.

Lemma string_app_assoc (a b c : string) : (a +:+ b) +:+ c = a +:+ (b +:+ c).
Proof. induction a as [|x a IH]; [done|]. by rewrite !string_app_cons, IH. Qed.

Lemma string_forallb_app p s t :
  string_forallb p (s +:+ t) = string_forallb p s && string_forallb p t.
Proof.
  induction s as [|c s IH]; [done|]. rewrite string_app_cons. cbn.
  by rewrite IH, andb_assoc.
Qed.

Lemma string_existsb_false p s :
  string_existsb p s = false <-> string_forallb (fun c => negb (p c)) s = true.
Proof. unfold string_existsb. by rewrite negb_false_iff. Qed.

Lemma string_existsb_app p s t :
  string_existsb p (s +:+ t) = string_existsb p s || string_existsb p t.
Proof. unfold string_existsb. by rewrite string_forallb_app, negb_andb. Qed.

Lemma slen_app s t : slen (s +:+ t) = (slen s + slen t)%Z.
Proof.
  unfold slen. induction s as [|c s IH]; [done|]. rewrite string_app_cons. cbn. lia.
Qed.

Lemma encode_ascii c : is_ascii c = true -> encode_rune (byte c) = String c "".
Proof. all_bytes c. Qed.

Lemma runes_cons_ascii c s : is_ascii c = true -> runes (String c s) = byte c :: runes s.
Proof. unfold is_ascii. cbn. intros ->. done. Qed.

(** A mapping that fixes every byte of an ASCII string leaves it unchanged. *)
Lemma strings_Map_id (f : N -> option N) s :
  string_forallb (fun c => is_ascii c && bool_decide (f (byte c) = Some (byte c))) s = true ->
  strings_Map f s = s.
Proof.
  unfold strings_Map. induction s as [|c s IH]; [done|].
  change (string_forallb ?p (String c s)) with (p c && string_forallb p s).
  cbv beta. rewrite !andb_true_iff. intros [[Ha Hf] Hs].
  rewrite runes_cons_ascii by done. apply bool_decide_eq_true in Hf.
  cbn [omap list_omap]. rewrite Hf. cbn [encode_runes foldr].
  rewrite encode_ascii by done. change (String c "" +:+ ?t) with (String c t).
  f_equal. by apply IH.
Qed.

Section case_id.
Context `{UnicodeTables}.

Lemma ToUpper_id s :
  string_forallb (fun c => is_ascii c && negb (is_lower c)) s = true -> ToUpper s = s.
Proof.
  intros Hs. apply strings_Map_id. revert Hs. apply string_forallb_impl.
  intros c. all_bytes c.
Qed.

Lemma ToLower_id s :
  string_forallb (fun c => is_ascii c && negb (is_upper c)) s = true -> ToLower s = s.
Proof.
  intros Hs. apply strings_Map_id. revert Hs. apply string_forallb_impl.
  intros c. all_bytes c.
Qed.

End case_id.

(** ** Reversal *)

Lemma string_rev_app_spec s acc : string_rev_app s acc = string_rev s +:+ acc.
Proof.
  unfold string_rev. revert acc.
  enough (forall t acc, string_rev_app s (t +:+ acc) = string_rev_app s t +:+ acc) as E.
  { intros acc. apply (E "" acc). }
  induction s as [|c s IH]; intros t acc; [done|].
  cbn. rewrite <- string_app_cons. apply IH.
Qed.

Lemma string_rev_cons c s : string_rev (String c s) = string_rev s +:+ String c "".
Proof. unfold string_rev at 1. cbn. apply string_rev_app_spec. Qed.

Lemma string_rev_app_distr s t : string_rev (s +:+ t) = string_rev t +:+ string_rev s.
Proof.
  induction s as [|c s IH].
  - change ("" +:+ t) with t. by rewrite string_app_nil_r.
  - change (String c s +:+ t) with (String c (s +:+ t)).
    by rewrite !string_rev_cons, IH, string_app_assoc.
Qed.

Lemma string_rev_involutive s : string_rev (string_rev s) = s.
Proof.
  induction s as [|c s IH]; [done|].
  by rewrite string_rev_cons, string_rev_app_distr, IH.
Qed.

Lemma string_forallb_rev p s : string_forallb p (string_rev s) = string_forallb p s.
Proof.
  induction s as [|c s IH]; [done|].
  rewrite string_rev_cons, string_forallb_app, IH. cbn.
  by rewrite andb_true_r, andb_comm.
Qed.

(** ** Trimming *)

Definition plain (c : ascii) : bool := is_ascii c && negb (ascii_space c).

Lemma trim_left_plain s : string_forallb plain s = true -> trim_left s = s.
Proof.
  destruct s as [|c s]; [done|]. cbn. rewrite andb_true_iff. intros [Hc _].
  unfold plain in Hc. apply andb_true_iff in Hc as [Ha Hs]. apply negb_true_iff in Hs.
  rewrite Hs. unfold is_ascii in Ha. apply N.ltb_lt in Ha.
  assert (forall d, space2 c d = false) as H2.
  { intros d. unfold space2. destruct (N.eqb_spec (byte c) 194); [lia|done]. }
  destruct s as [|d s]; [done|]. rewrite H2.
  destruct s as [|e s]; [done|].
  assert (space3 c d e = false) as ->; [|done].
  unfold space3.
  repeat match goal with |- context [byte c =? ?n] =>
    assert ((byte c =? n) = false) as -> by (apply N.eqb_neq; lia) end.
  done.
Qed.

Lemma trim_rev_plain s : string_forallb plain s = true -> trim_rev s = s.
Proof.
  destruct s as [|c s]; [done|]. cbn. rewrite andb_true_iff. intros [Hc _].
  unfold plain in Hc. apply andb_true_iff in Hc as [Ha Hs]. apply negb_true_iff in Hs.
  rewrite Hs. unfold is_ascii in Ha. apply N.ltb_lt in Ha.
  assert (forall d, space2 d c = false) as H2.
  { intros d. unfold space2. rewrite andb_false_iff, orb_false_iff. right.
    split; apply N.eqb_neq; lia. }
  destruct s as [|d s]; [done|]. rewrite H2.
  destruct s as [|e s]; [done|].
  assert (space3 e d c = false) as ->; [|done].
  unfold space3, in_range.
  assert ((128 <=? byte c) = false) as -> by (apply N.leb_gt; lia).
  repeat match goal with |- context [byte c =? ?n] =>
    assert ((byte c =? n) = false) as -> by (apply N.eqb_neq; lia) end.
  by rewrite !andb_false_r.
Qed.

(** Text without spaces or non-ASCII bytes is not changed by trimming. *)
Lemma TrimSpace_plain s : string_forallb plain s = true -> TrimSpace s = s.
Proof.
  intros Hs. unfold TrimSpace. rewrite trim_left_plain by done.
  rewrite trim_rev_plain by by rewrite string_forallb_rev.
  apply string_rev_involutive.
Qed.

(** ** Prefixes, suffixes, splitting *)

Lemma CutPrefix_app p s : CutPrefix (p +:+ s) p = Some s.
Proof.
  induction p as [|c p IH]; [by destruct s|].
  change (CutPrefix (String c (p +:+ s)) (String c p) = Some s). cbn.
  rewrite bool_decide_eq_true_2 by done. done.
Qed.

Lemma CutPrefix_Some s p r : CutPrefix s p = Some r <-> s = p +:+ r.
Proof.
  split; [|intros ->; apply CutPrefix_app].
  revert s. induction p as [|c p IH]; intros s; cbn.
  - intros; simplify_eq. done.
  - destruct s as [|d s]; [done|]. case_bool_decide; [|done].
    subst. intros Hp. apply IH in Hp as ->. done.
Qed.

Lemma HasPrefix_CutPrefix s p : HasPrefix s p = bool_decide (is_Some (CutPrefix s p)).
Proof.
  revert s. induction p as [|c p IH]; intros s; cbn.
  - done.
  - destruct s as [|d s]; [done|]. case_bool_decide; cbn; [apply IH|done].
Qed.

Lemma TrimSuffix_nosuffix s p : HasSuffix s p = false -> TrimSuffix s p = s.
Proof.
  unfold HasSuffix, TrimSuffix. rewrite HasPrefix_CutPrefix.
  intros Hs%bool_decide_eq_false. destruct (CutPrefix _ _); [|done].
  exfalso. apply Hs. eauto.
Qed.

Lemma TrimSuffix_app s p : TrimSuffix (s +:+ p) p = s.
Proof.
  unfold TrimSuffix. rewrite string_rev_app_distr, CutPrefix_app. apply string_rev_involutive.
Qed.

Lemma HasSuffix_app s p : HasSuffix s p = true -> exists t, s = t +:+ p.
Proof.
  unfold HasSuffix. rewrite HasPrefix_CutPrefix.
  intros [r Hr%CutPrefix_Some]%bool_decide_eq_true.
  exists (string_rev r). rewrite <- (string_rev_involutive s), Hr.
  by rewrite string_rev_app_distr, string_rev_involutive.
Qed.

Lemma split_byte_nonnil c s : split_byte c s <> [].
Proof.
  destruct s as [|d s]; [done|]. cbn. case_bool_decide; [done|].
  by destruct (split_byte c s).
Qed.

Lemma split_byte_snoc c s : split_byte c (s +:+ String c "") = split_byte c s ++ [""].
Proof.
  induction s as [|d s IH].
  - change ("" +:+ String c "") with (String c ""). cbn. by rewrite bool_decide_eq_true_2.
  - change (split_byte c (String d (s +:+ String c "")) = split_byte c (String d s) ++ [""]).
    cbn. rewrite IH. case_bool_decide; [done|].
    destruct (split_byte c s) as [|x l] eqn:E; [|done].
    by apply split_byte_nonnil in E.
Qed.

(** Every byte of a split string is the separator or belongs to a piece. *)
Lemma split_byte_forallb c p s :
  p c = true -> Forall (fun x => string_forallb p x = true) (split_byte c s) ->
  string_forallb p s = true.
Proof.
  intros Hc. induction s as [|d s IH]; [done|]. cbn.
  case_bool_decide as Hd.
  - subst. inversion 1; subst. rewrite Hc. auto.
  - destruct (split_byte c s) as [|x l] eqn:E; [by apply split_byte_nonnil in E|].
    inversion 1; subst. cbn in *.
    match goal with H : (p d && _) = true |- _ => apply andb_true_iff in H as [Hpd Hx] end.
    rewrite Hpd. cbn. apply IH. by constructor.
Qed.

(** Joining the pieces of a split string gives the string back. *)
Lemma split_byte_join c s : strings_Join (split_byte c s) (String c "") = s.
Proof.
  induction s as [|d s IH]; [done|]. cbn [split_byte]. case_bool_decide as Hd.
  - subst. destruct (split_byte c s) as [|x l] eqn:E; [by apply split_byte_nonnil in E|].
    cbn [strings_Join] in *. by rewrite IH.
  - destruct (split_byte c s) as [|x [|y l]]; [by rewrite <- IH| |]; cbn [strings_Join] in *.
    + by rewrite <- IH.
    + by rewrite <- IH, !string_app_cons.
Qed.

Lemma contains_byte_false c s :
  contains_byte c s = false <-> string_forallb (fun d => negb (bool_decide (d = c))) s = true.
Proof. apply string_existsb_false. Qed.

Lemma cut_byte_None c s : contains_byte c s = false -> cut_byte c s = None.
Proof.
  rewrite contains_byte_false. induction s as [|d s IH]; [done|]. cbn.
  case_bool_decide; [done|]. cbn. intros Hs. by rewrite IH.
Qed.

Lemma HasPrefix_cons c s p : HasPrefix (String c s) (String c p) = HasPrefix s p.
Proof. cbn. by rewrite bool_decide_eq_true_2. Qed.

(** Trimming keeps every occurrence of a plain character. *)
Lemma trim_rev_contains c s :
  plain c = true -> contains_byte c (trim_rev s) = contains_byte c s.
Proof.
  intros Hc.
  assert (forall d t, ascii_space d = true -> contains_byte c (String d t) = contains_byte c t) as H1.
  { intros d t Hd. unfold contains_byte, string_existsb. cbn. case_bool_decide; [|done].
    subst. unfold plain in Hc. by rewrite Hd, andb_false_r in Hc. }
  assert (forall d t, (127 <? byte d) = true -> contains_byte c (String d t) = contains_byte c t) as H2.
  { intros d t Hd%N.ltb_lt. unfold contains_byte, string_existsb. cbn. case_bool_decide; [|done].
    subst. unfold plain, is_ascii in Hc. apply andb_true_iff in Hc as [Hc%N.ltb_lt _]. lia. }
  assert (forall a b, space2 a b = true -> (127 <? byte a) = true /\ (127 <? byte b) = true) as S2.
  { intros a b. unfold space2. rewrite andb_true_iff, orb_true_iff, !N.eqb_eq, !N.ltb_lt. lia. }
  assert (forall a b e, space3 a b e = true ->
            (127 <? byte a) = true /\ (127 <? byte b) = true /\ (127 <? byte e) = true) as S3.
  { intros a b e. unfold space3, in_range.
    rewrite !orb_true_iff, !andb_true_iff, !orb_true_iff, !andb_true_iff, !N.eqb_eq, !N.leb_le, !N.ltb_lt.
    lia. }
  remember (String.length s) as n eqn:En.
  revert s En. induction (lt_wf n) as [n _ IH]. intros s ->.
  destruct s as [|b0 s]; [done|]. cbn [trim_rev]. destruct (ascii_space b0) eqn:E0.
  { rewrite H1 by done. eapply IH; [|done]. cbn. lia. }
  destruct s as [|b1 s]; [done|]. destruct (space2 b1 b0) eqn:E1.
  { apply S2 in E1 as [??]. rewrite !H2 by done. eapply IH; [|done]. cbn. lia. }
  destruct s as [|b2 s]; [done|]. destruct (space3 b2 b1 b0) eqn:E2; [|done].
  apply S3 in E2 as (?&?&?). rewrite !H2 by done. eapply IH; [|done]. cbn. lia.
Qed.

Lemma contains_byte_rev c s : contains_byte c (string_rev s) = contains_byte c s.
Proof. unfold contains_byte, string_existsb. by rewrite string_forallb_rev. Qed.

(** [TrimSpace] of a string that starts with a non-space is a prefix of it. *)
Lemma trim_rev_suffix s : exists t, s = t +:+ trim_rev s.
Proof.
  remember (String.length s) as n eqn:En.
  revert s En. induction (lt_wf n) as [n _ IH]. intros s ->.
  assert (forall b s', (String.length s' < String.length s)%nat -> s = b +:+ s' ->
            exists t, s = t +:+ trim_rev s') as Hstep.
  { intros b s' Hl E. destruct (IH _ Hl s' eq_refl) as [t Et]. exists (b +:+ t).
    rewrite string_app_assoc, <- Et. exact E. }
  destruct s as [|b0 s]; [by exists ""|]. cbn [trim_rev].
  case_match; [apply (Hstep (String b0 "")); [cbn; lia|done]|].
  destruct s as [|b1 s]; [by exists ""|].
  case_match; [apply (Hstep (String b0 (String b1 ""))); [cbn; lia|done]|].
  destruct s as [|b2 s]; [by exists ""|].
  case_match; [apply (Hstep (String b0 (String b1 (String b2 "")))); [cbn; lia|done]|].
  by exists "".
Qed.

Lemma TrimSpace_prefix s : exists t, trim_left s = TrimSpace s +:+ t.
Proof.
  unfold TrimSpace. destruct (trim_rev_suffix (string_rev (trim_left s))) as [t Et].
  exists (string_rev t). rewrite <- string_rev_app_distr, <- Et. symmetry. apply string_rev_involutive.
Qed.

Lemma contains_byte_cons c d s : contains_byte c (String d s) = bool_decide (d = c) || contains_byte c s.
Proof. unfold contains_byte, string_existsb. cbn. by rewrite negb_andb, negb_involutive. Qed.

(** A cut is at the first occurrence of the separator. *)
Lemma cut_byte_Some c s a b :
  cut_byte c s = Some (a, b) <-> s = a +:+ String c "" +:+ b /\ contains_byte c a = false.
Proof.
  split.
  - revert a b. induction s as [|d s IH]; intros a b; cbn [cut_byte]; [done|].
    case_bool_decide as Hd; [intros [= <- <-]; by subst|].
    destruct (cut_byte c s) as [[x y]|]; cbn; [|done]. intros [= <- <-].
    destruct (IH x y eq_refl) as [-> Hx]. split; [done|].
    by rewrite contains_byte_cons, bool_decide_eq_false_2.
  - intros [-> Ha]. induction a as [|d a IH].
    + change ("" +:+ String c "" +:+ b) with (String c b). cbn [cut_byte]. by rewrite bool_decide_eq_true_2.
    + rewrite contains_byte_cons in Ha. apply orb_false_iff in Ha as [Hd Ha].
      rewrite string_app_cons. cbn [cut_byte]. rewrite Hd, IH by done. done.
Qed.

Lemma split_byte_one c s : contains_byte c s = false -> split_byte c s = [s].
Proof.
  induction s as [|d s IH]; [done|]. rewrite contains_byte_cons. intros [Hd Hs]%orb_false_iff.
  cbn [split_byte]. rewrite Hd, IH by done. done.
Qed.

Lemma split_byte_cut c a b :
  contains_byte c a = false -> split_byte c (a +:+ String c b) = a :: split_byte c b.
Proof.
  induction a as [|d a IH].
  - intros _. change ("" +:+ String c b) with (String c b). cbn [split_byte].
    by rewrite bool_decide_eq_true_2.
  - rewrite contains_byte_cons. intros [Hd Ha]%orb_false_iff.
    change (String d a +:+ String c b) with (String d (a +:+ String c b)). cbn [split_byte].
    by rewrite Hd, IH.
Qed.
