(* ===== verification/NetIP.v ===== *)
(** * Go's [net.SplitHostPort] and [net/netip] addresses

    The parser and the printer of [netip.Addr] as [NormalizeHost] and the source
    check of the authorization path use them: dotted IPv4 without leading zeros,
    IPv6 groups with one ellipsis, an embedded IPv4 tail and a zone. *)

From S2P Require Import Prelude GoStrings.
From stdpp Require Import options.

Local Open Scope N_scope.

(** ** Host and port *)

(** The bytes before and after the last occurrence of [c]. *)
Definition cut_last (c : ascii) (s : string) : option (string * string) :=
  '(a, b) ← cut_byte c (string_rev s); Some (string_rev b, string_rev a).

(** [net.SplitHostPort]; [None] is any of its errors. *)
Definition SplitHostPort (hostport : string) : option (string * string) :=
  '(before, port) ← cut_last ":" hostport;
  match hostport with
  | String "[" rest =>
      '(host, after) ← cut_byte "]" rest;
      (* the first "]" must sit just before the last ":" *)
      if bool_decide (after = String ":" port)
         && negb (contains_byte "[" rest) && negb (contains_byte "]" after)
      then Some (host, port) else None
  | _ =>
      if contains_byte ":" before || contains_byte "[" hostport || contains_byte "]" hostport
      then None else Some (before, port)
  end.

(** ** Addresses *)

(** Four octets, or eight 16-bit groups with an optional zone. *)
Inductive Addr :=
  | Addr4 (a b c d : N)
  | Addr6 (groups : list N) (zone : string).

#[export] Instance Addr_eq_dec : EqDecision Addr.
Proof. solve_decision. Defined.

Definition digit_val (c : ascii) : N := byte c - 48.

(** [parseIPv4Fields]: [val] is the octet being read, [digLen] its digits so far
    and [fields] the octets already stored, last first. *)
Fixpoint parse4_loop (s : string) (val digLen : N) (fields : list N) : option (list N) :=
  match s with
  | EmptyString => if (length fields <? 3)%nat then None else Some (val :: fields)
  | String c s' =>
      if is_digit c then
        if (digLen =? 1) && (val =? 0) then None
        else let val' := val * 10 + digit_val c in
             if 255 <? val' then None else parse4_loop s' val' (digLen + 1) fields
      else if bool_decide (c = "."%char) then
        if (digLen =? 0) || bool_decide (s' = "") then None
        else if (length fields =? 3)%nat then None
        else parse4_loop s' 0 0 (val :: fields)
      else None
  end.

Definition parse4 (s : string) : option Addr :=
  match parse4_loop s 0 0 [] with
  | Some [d; c; b; a] => Some (Addr4 a b c d)
  | _ => None
  end.

Definition hex_val (c : ascii) : option N :=
  if is_digit c then Some (byte c - 48)
  else if in_range 97 102 (byte c) then Some (byte c - 87)
  else if in_range 65 70 (byte c) then Some (byte c - 55)
  else None.

(** The leading hexadecimal digits: their value, their number, the rest. *)
Fixpoint span_hex (s : string) (acc : N) (off : nat) : N * nat * string :=
  match s with
  | String c s' =>
      match hex_val c with
      | Some v => span_hex s' (acc * 16 + v) (S off)
      | None => (acc, off, s)
      end
  | EmptyString => (acc, off, s)
  end.

(** The group loop of [parseIPv6]: [room] is how many of the eight groups are
    still free, [acc] the groups read (last first), [ell] the position of the
    ellipsis.  The result is the groups, the ellipsis and the unread rest. *)
Fixpoint parse6_loop (room : nat) (s : string) (acc : list N) (ell : option nat)
  : option (list N * option nat * string) :=
  match room with
  | O => Some (acc, ell, s)
  | S room' =>
      let '(v, off, rest) := span_hex s 0 0 in
      if (off =? 0)%nat || (4 <? off)%nat then None
      else match rest with
      | EmptyString => Some (v :: acc, ell, "")
      | String "." _ =>
          if (bool_decide (ell = None) && negb (length acc =? 6)%nat) || (6 <? length acc)%nat
          then None
          else match parse4_loop s 0 0 [] with
               | Some [d; c; b; a] => Some ((c * 256 + d) :: (a * 256 + b) :: acc, ell, "")
               | _ => None
               end
      | String ":" rest1 =>
          match rest1 with
          | EmptyString => None
          | String ":" rest2 =>
              match ell with
              | Some _ => None
              | None =>
                  match rest2 with
                  | EmptyString => Some (v :: acc, Some (S (length acc)), "")
                  | _ => parse6_loop room' rest2 (v :: acc) (Some (S (length acc)))
                  end
              end
          | _ => parse6_loop room' rest1 (v :: acc) ell
          end
      | _ => None
      end
  end.

(** Expand the ellipsis to the groups it stands for. *)
Definition expand6 (groups : list N) (ell : option nat) : option (list N) :=
  let n := length groups in
  if (n <? 8)%nat then
    pos ← ell; Some (take pos groups ++ replicate (8 - n) 0 ++ drop pos groups)
  else match ell with Some _ => None | None => Some groups end.

Definition parse6_body (s : string) : option (list N) :=
  let start :=
    match s with
    | String ":" (String ":" rest) => (Some 0%nat, rest)
    | _ => (None, s)
    end in
  match start with
  | (Some _, EmptyString) => Some (replicate 8 0)
  | (ell, body) =>
      '(acc, ell', rest) ← parse6_loop 8 body [] ell;
      if bool_decide (rest = "") then expand6 (rev acc) ell' else None
  end.

Definition parse6 (s : string) : option Addr :=
  match cut_byte "%" s with
  | None => g ← parse6_body s; Some (Addr6 g "")
  | Some (body, zone) =>
      if bool_decide (zone = "") then None
      else g ← parse6_body body; Some (Addr6 g zone)
  end.

(** [netip.ParseAddr]: the first of [.], [:] and [%] decides the family. *)
Fixpoint addr_family (s : string) : option ascii :=
  match s with
  | EmptyString => None
  | String c s' => if byte_in c ".:%" then Some c else addr_family s'
  end.

Definition ParseAddr (s : string) : option Addr :=
  match addr_family s with
  | Some "."%char => parse4 s
  | Some ":"%char => parse6 s
  | _ => None
  end.

(** [Addr.Unmap]: an IPv4-mapped IPv6 address becomes IPv4 and loses its zone. *)
Definition Unmap (ip : Addr) : Addr :=
  match ip with
  | Addr6 [0; 0; 0; 0; 0; 65535; hi; lo] _ =>
      Addr4 (hi / 256) (hi mod 256) (lo / 256) (lo mod 256)
  | _ => ip
  end.

(** ** Printing *)

Definition dec_digit (n : N) : ascii := chr (48 + n).

(** Decimal of an octet. *)
Definition print_octet (n : N) : string :=
  if n <? 10 then String (dec_digit n) ""
  else if n <? 100 then String (dec_digit (n / 10)) (String (dec_digit (n mod 10)) "")
  else String (dec_digit (n / 100))
         (String (dec_digit (n / 10 mod 10)) (String (dec_digit (n mod 10)) "")).

Definition hex_digit (n : N) : ascii := if n <? 10 then chr (48 + n) else chr (87 + n).

(** [appendHex]: lower-case hexadecimal without leading zeros. *)
Definition print_hex (n : N) : string :=
  let d3 := n / 4096 mod 16 in
  let d2 := n / 256 mod 16 in
  let d1 := n / 16 mod 16 in
  let d0 := n mod 16 in
  (if 4096 <=? n then String (hex_digit d3) "" else "") +:+
  (if 256 <=? n then String (hex_digit d2) "" else "") +:+
  (if 16 <=? n then String (hex_digit d1) "" else "") +:+
  String (hex_digit d0) "".

Fixpoint zero_run (l : list N) : nat :=
  match l with 0 :: l' => S (zero_run l') | _ => O end.

(** The first longest run of at least two zero groups: start and end. *)
Fixpoint longest_zero_run (l : list N) (i : nat) (best : nat * nat) : nat * nat :=
  match l with
  | [] => best
  | _ :: l' =>
      let len := zero_run l in
      let best' := if (2 <=? len)%nat && (best.2 - best.1 <? len)%nat
                   then (i, i + len)%nat else best in
      longest_zero_run l' (S i) best'
  end.

Fixpoint print_groups (l : list N) (first : bool) : string :=
  match l with
  | [] => ""
  | g :: l' => (if first then "" else ":") +:+ print_hex g +:+ print_groups l' false
  end.

Definition print6 (g : list N) : string :=
  let '(zs, ze) := longest_zero_run g 0 (255, 255)%nat in
  if (zs <? 8)%nat then
    print_groups (take zs g) true +:+ "::" +:+ print_groups (drop ze g) true
  else print_groups g true.

(** [Addr.String] of an address that is not IPv4-mapped. *)
Definition addr_string (ip : Addr) : string :=
  match ip with
  | Addr4 a b c d =>
      print_octet a +:+ "." +:+ print_octet b +:+ "." +:+ print_octet c +:+ "." +:+ print_octet d
  | Addr6 g zone => print6 g +:+ (if bool_decide (zone = "") then "" else "%" +:+ zone)
  end.

Example parse_mapped :
  Unmap <$> ParseAddr "::ffff:192.0.2.7" = Some (Addr4 192 0 2 7).
Proof. reflexivity. Qed.

Example print_short :
  addr_string <$> ParseAddr "2001:DB8:0:0:1:0:0:1" = Some "2001:db8::1:0:0:1".
Proof. reflexivity. Qed.

Example print_zone :
  addr_string <$> ParseAddr "fe80::1%eth0" = Some "fe80::1%eth0".
Proof. reflexivity. Qed.

Example leading_zero : ParseAddr "10.0.0.01" = None.
Proof. reflexivity. Qed.

Example bracket_port : SplitHostPort "[::1]:443" = Some ("::1", "443").
Proof. reflexivity. Qed.

Example bracket_no_port : SplitHostPort "[::1]" = None.
Proof. reflexivity. Qed.

(** ** Printing and parsing IPv4 round trips *)

Lemma dec_digit_spec k : k < 10 -> is_digit (dec_digit k) = true /\ digit_val (dec_digit k) = k.
Proof.
  intros Hk.
  assert (k = 0 \/ k = 1 \/ k = 2 \/ k = 3 \/ k = 4 \/ k = 5 \/ k = 6 \/ k = 7 \/ k = 8 \/ k = 9)
    as Hc by lia.
  repeat (destruct Hc as [->|Hc]; [done|]). by subst.
Qed.

Lemma parse4_digit k s val dl fields :
  k < 10 -> ~ (dl = 1 /\ val = 0) -> val * 10 + k <= 255 ->
  parse4_loop (String (dec_digit k) s) val dl fields = parse4_loop s (val * 10 + k) (dl + 1) fields.
Proof.
  intros Hk Hz Hv. destruct (dec_digit_spec k Hk) as [Hd Hdv].
  cbn [parse4_loop]. rewrite Hd, Hdv.
  assert ((dl =? 1) && (val =? 0) = false) as ->.
  { apply andb_false_iff. rewrite !N.eqb_neq. lia. }
  assert ((255 <? val * 10 + k) = false) as -> by (apply N.ltb_ge; lia).
  done.
Qed.

(** The decimal digits of an octet. *)
Lemma octet_digits n :
  n <= 255 ->
  exists h t o, h < 10 /\ t < 10 /\ o < 10 /\ n = 100 * h + 10 * t + o /\
    n / 100 = h /\ n / 10 = 10 * h + t /\ n / 10 mod 10 = t /\ n mod 10 = o.
Proof.
  intros Hn. exists (n / 100), (n / 10 mod 10), (n mod 10).
  assert (n / 100 = n / 10 / 10) as -> by by rewrite N.Div0.div_div.
  pose proof (N.div_mod n 10 ltac:(done)) as E1. pose proof (N.mod_lt n 10 ltac:(done)) as L1.
  pose proof (N.div_mod (n / 10) 10 ltac:(done)) as E2.
  pose proof (N.mod_lt (n / 10) 10 ltac:(done)) as L2.
  set (q := n / 10) in *. set (r := n mod 10) in *.
  set (q2 := q / 10) in *. set (r2 := q mod 10) in *. clearbody q r q2 r2. lia.
Qed.

(** Reading a printed octet leaves its value, at least one digit read. *)
Lemma parse4_octet n rest fields :
  n <= 255 ->
  exists dl, 1 <= dl /\
    parse4_loop (print_octet n +:+ rest) 0 0 fields = parse4_loop rest n dl fields.
Proof.
  intros Hn. unfold print_octet.
  destruct (octet_digits n Hn) as (h & t & o & Hh & Ht & Ho & En & -> & E10 & -> & ->).
  destruct (N.ltb_spec n 10); [|destruct (N.ltb_spec n 100)].
  - exists 1. split; [done|]. rewrite string_app_cons, parse4_digit by lia.
    by replace (0 * 10 + n) with n by lia.
  - exists 2. split; [done|]. rewrite E10. replace (10 * h + t) with t by lia.
    rewrite !string_app_cons, !parse4_digit by lia.
    by replace ((0 * 10 + t) * 10 + o) with n by lia.
  - exists 3. split; [done|]. rewrite !string_app_cons, !parse4_digit by lia.
    by replace (((0 * 10 + h) * 10 + t) * 10 + o) with n by lia.
Qed.

Lemma print_octet_nonempty n : print_octet n <> "".
Proof. unfold print_octet. repeat case_match; done. Qed.

Lemma parse4_octet_dot n rest fields :
  n <= 255 -> rest <> "" -> (length fields < 3)%nat ->
  parse4_loop (print_octet n +:+ "." +:+ rest) 0 0 fields = parse4_loop rest 0 0 (n :: fields).
Proof.
  intros Hn Hr Hf. destruct (parse4_octet n ("." +:+ rest) fields Hn) as (dl & Hdl & ->).
  rewrite string_app_cons. cbn [parse4_loop].
  change (is_digit ".") with false. cbn iota.
  rewrite bool_decide_eq_true_2 by done.
  assert ((dl =? 0) = false) as -> by (apply N.eqb_neq; lia).
  change ("" +:+ rest) with rest. rewrite bool_decide_eq_false_2 by done. cbn [orb].
  assert ((length fields =? 3)%nat = false) as -> by (apply Nat.eqb_neq; lia).
  done.
Qed.

Lemma string_app_nonempty_l a b : a <> "" -> a +:+ b <> "".
Proof. destruct a; [done|]. by rewrite string_app_cons. Qed.

Lemma parse4_print a b c d :
  a <= 255 -> b <= 255 -> c <= 255 -> d <= 255 ->
  parse4 (addr_string (Addr4 a b c d)) = Some (Addr4 a b c d).
Proof.
  intros Ha Hb Hc Hd. unfold parse4, addr_string.
  rewrite !parse4_octet_dot by (cbn; auto using string_app_nonempty_l, print_octet_nonempty with lia).
  destruct (parse4_octet d "" [c; b; a] Hd) as (dl & _ & E).
  rewrite string_app_nil_r in E. by rewrite E.
Qed.

Definition octet_char (c : ascii) : bool := is_digit c || bool_decide (c = "."%char).

Lemma print_octet_chars n : n <= 255 -> string_forallb is_digit (print_octet n) = true.
Proof.
  intros Hn. unfold print_octet.
  destruct (octet_digits n Hn) as (h & t & o & Hh & Ht & Ho & En & -> & E10 & -> & ->).
  assert (forall k, k < 10 -> is_digit (dec_digit k) = true) as Hd by apply dec_digit_spec.
  destruct (N.ltb_spec n 10); [|destruct (N.ltb_spec n 100)];
    cbn [string_forallb]; rewrite !Hd by lia; done.
Qed.

Lemma addr4_chars a b c d :
  a <= 255 -> b <= 255 -> c <= 255 -> d <= 255 ->
  string_forallb octet_char (addr_string (Addr4 a b c d)) = true.
Proof.
  intros. cbn [addr_string].
  assert (forall n, n <= 255 -> string_forallb octet_char (print_octet n) = true) as Ho.
  { intros n Hn. eapply string_forallb_impl; [|by apply print_octet_chars].
    intros e He. unfold octet_char. by rewrite He. }
  rewrite !string_forallb_app, !Ho by done. done.
Qed.

Lemma addr_family_print4 a b c d :
  a <= 255 -> addr_family (addr_string (Addr4 a b c d)) = Some "."%char.
Proof.
  intros Ha. cbn [addr_string].
  assert (forall s t, string_forallb is_digit s = true ->
            addr_family (s +:+ "." +:+ t) = Some "."%char) as E.
  { intros s t. induction s as [|e s IH]; [done|].
    rewrite string_app_cons. cbn [string_forallb addr_family]. rewrite andb_true_iff. intros [He Hs].
    assert (byte_in e ".:%" = false) as -> by (revert He; all_bytes e). auto. }
  apply E, print_octet_chars, Ha.
Qed.

Lemma ParseAddr_print4 a b c d :
  a <= 255 -> b <= 255 -> c <= 255 -> d <= 255 ->
  ParseAddr (addr_string (Addr4 a b c d)) = Some (Addr4 a b c d).
Proof.
  intros. unfold ParseAddr. rewrite addr_family_print4 by done. by apply parse4_print.
Qed.

(** ** Parsed addresses are well formed *)

Definition wf_addr (ip : Addr) : Prop :=
  match ip with
  | Addr4 a b c d => a <= 255 /\ b <= 255 /\ c <= 255 /\ d <= 255
  | Addr6 g _ => length g = 8%nat /\ Forall (fun x => x < 65536) g
  end.

Lemma parse4_loop_wf s val dl fields r :
  val <= 255 -> Forall (fun x => x <= 255) fields ->
  parse4_loop s val dl fields = Some r -> Forall (fun x => x <= 255) r.
Proof.
  revert val dl fields. induction s as [|c s IH]; intros val dl fields Hv Hf; cbn.
  - case_match; [done|]. intros; simplify_eq. by constructor.
  - destruct (is_digit c).
    + destruct (_ && _); [done|].
      destruct (N.ltb_spec 255 (val * 10 + digit_val c)); [done|]. by apply IH.
    + case_bool_decide; [|done]. destruct (_ || _); [done|]. case_match; [done|].
      apply IH; [lia|by constructor].
Qed.

Lemma parse4_wf s ip : parse4 s = Some ip -> wf_addr ip.
Proof.
  unfold parse4. destruct (parse4_loop s 0 0 []) as [l|] eqn:E; [|done].
  apply parse4_loop_wf in E; [|lia|done].
  destruct l as [|d [|c [|b [|a [|]]]]]; try done. intros; simplify_eq.
  rewrite !Forall_cons in E. cbn. tauto.
Qed.

Lemma hex_val_bound c v : hex_val c = Some v -> v < 16.
Proof.
  unfold hex_val, is_digit, in_range.
  repeat case_match; intros; simplify_eq;
    repeat match goal with H : (_ && _) = true |- _ => apply andb_true_iff in H as [??] end;
    repeat match goal with H : (_ <=? _) = true |- _ => apply N.leb_le in H end; lia.
Qed.

Lemma span_hex_bound s acc off v off' rest :
  acc < 16 ^ N.of_nat off -> span_hex s acc off = (v, off', rest) -> v < 16 ^ N.of_nat off'.
Proof.
  revert acc off. induction s as [|c s IH]; intros acc off Ha; cbn; [intros; by simplify_eq|].
  destruct (hex_val c) as [x|] eqn:Ex; [|intros; by simplify_eq].
  apply IH. apply hex_val_bound in Ex. rewrite Nat2N.inj_succ, N.pow_succ_r'. lia.
Qed.

Lemma span_hex_group s v off rest :
  span_hex s 0 0 = (v, off, rest) -> (off <= 4)%nat -> v < 65536.
Proof.
  intros Hs Ho. apply span_hex_bound in Hs; [|done].
  assert (16 ^ N.of_nat off <= 16 ^ 4) by (apply N.pow_le_mono_r; lia).
  change (16 ^ 4) with 65536 in *. lia.
Qed.

Lemma parse6_loop_wf room s acc ell r ell' rest :
  (length acc + room = 8)%nat -> Forall (fun x => x < 65536) acc ->
  (forall p, ell = Some p -> (p <= length acc)%nat) ->
  parse6_loop room s acc ell = Some (r, ell', rest) ->
  (length r <= 8)%nat /\ Forall (fun x => x < 65536) r /\
  (forall p, ell' = Some p -> (p <= length r)%nat).
Proof.
  revert s acc ell. induction room as [|room IH]; intros s acc ell Hl Hf He; cbn [parse6_loop].
  { intros; simplify_eq. split; [lia|done]. }
  destruct (span_hex s 0 0) as [[v off] rst] eqn:Es.
  destruct ((off =? 0)%nat || (4 <? off)%nat) eqn:Eo; [done|].
  apply orb_false_iff in Eo as [_ Eo]. apply Nat.ltb_ge in Eo.
  pose proof (span_hex_group _ _ _ _ Es Eo) as Hv.
  assert (forall p, ell = Some p -> (p <= length (v :: acc))%nat) as He'.
  { intros p Hp. specialize (He p Hp). cbn. lia. }
  destruct rst as [|c0 rst].
  { intros; simplify_eq. cbn. split_and!; [lia|by constructor|done]. }
  assert (forall s' e, (forall p, e = Some p -> (p <= length (v :: acc))%nat) ->
            parse6_loop room s' (v :: acc) e = Some (r, ell', rest) ->
            (length r <= 8)%nat /\ Forall (fun x => x < 65536) r /\
            (forall p, ell' = Some p -> (p <= length r)%nat)) as Hrec.
  { intros s' e Hp. apply IH; [cbn; lia|by constructor|done]. }
  destruct (decide (c0 = "."%char)) as [->|Hdot].
  { cbv iota.
    destruct ((bool_decide (ell = None) && negb (length acc =? 6)%nat) || (6 <? length acc)%nat) eqn:E6;
      [done|].
    apply orb_false_iff in E6 as [_ E6]. apply Nat.ltb_ge in E6.
    destruct (parse4_loop s 0 0 []) as [l|] eqn:E4; [|done].
    apply parse4_loop_wf in E4; [|lia|done].
    destruct l as [|d [|c [|b [|a [|]]]]]; try done. intros; simplify_eq.
    rewrite !Forall_cons in E4. cbn. split_and!; [lia| |].
    - repeat constructor; [lia|lia|done].
    - intros p Hp. specialize (He p Hp). lia. }
  destruct (decide (c0 = ":"%char)) as [->|Hcol]; [|by all_bytes c0].
  cbv iota. destruct rst as [|c1 rst]; [done|].
  destruct (decide (c1 = ":"%char)) as [->|Hc1].
  - cbv iota. destruct ell as [p|]; [done|].
    destruct rst as [|c2 rst].
    + intros; simplify_eq. cbn. split_and!; [lia|by constructor|].
      intros p Hp. simplify_eq. done.
    + apply Hrec. intros p Hp. simplify_eq. done.
  - assert (forall X Y : option (list N * option nat * string),
              match c1 with ":"%char => X | _ => Y end = Y) as Em by by all_bytes c1.
    rewrite Em. by apply Hrec.
Qed.

Lemma expand6_wf g ell r :
  (length g <= 8)%nat -> Forall (fun x => x < 65536) g ->
  (forall p, ell = Some p -> (p <= length g)%nat) ->
  expand6 g ell = Some r -> length r = 8%nat /\ Forall (fun x => x < 65536) r.
Proof.
  unfold expand6. intros Hl Hf He. destruct (Nat.ltb_spec (length g) 8) as [Hlt|Hge].
  - destruct ell as [p|]; [|done]. cbn. intros; simplify_eq.
    specialize (He p eq_refl). split.
    + rewrite !length_app, length_replicate, length_take, length_drop. lia.
    + rewrite !Forall_app. split_and!; [by apply Forall_take| |by apply Forall_drop].
      by apply Forall_replicate.
  - destruct ell; [done|]. intros; simplify_eq. split; [lia|done].
Qed.

Lemma parse6_body_wf s g :
  parse6_body s = Some g -> length g = 8%nat /\ Forall (fun x => x < 65536) g.
Proof.
  unfold parse6_body.
  assert (forall body ell, (forall p : nat, ell = Some p -> (p <= 0)%nat) ->
    ('(acc, ell', rest) ← parse6_loop 8 body [] ell;
     if bool_decide (rest = "") then expand6 (rev acc) ell' else None) = Some g ->
    length g = 8%nat /\ Forall (fun x => x < 65536) g) as Hgo.
  { intros body ell He. destruct (parse6_loop 8 body [] ell) as [[[acc ell'] rest]|] eqn:E; [|done].
    apply parse6_loop_wf in E as (Hl & Hf & Hp); [|done..]. cbn. case_bool_decide; [|done].
    apply expand6_wf; [by rewrite length_rev|by apply Forall_rev|].
    intros p Hq. rewrite length_rev. auto. }
  assert (forall rest : string,
    match rest with EmptyString => Some (replicate 8 0) | _ =>
      '(acc, ell', rest) ← parse6_loop 8 rest [] (Some 0%nat);
      if bool_decide (rest = "") then expand6 (rev acc) ell' else None end = Some g ->
    length g = 8%nat /\ Forall (fun x => x < 65536) g) as Hell.
  { intros [|c r]; [|apply Hgo; intros; by simplify_eq].
    intros; simplify_eq. split; [done|]. repeat constructor. }
  destruct s as [|c0 [|c1 s]]; try by apply Hgo.
  - assert (forall (X Y : option nat * string), match c0 with ":"%char => X | _ => X end = X) as Em by by all_bytes c0.
    rewrite Em by exact (None, ""). by apply Hgo.
  - destruct (decide (c0 = ":"%char)) as [->|]; [destruct (decide (c1 = ":"%char)) as [->|]|].
    + apply Hell.
    + assert (forall X Y : option nat * string, match c1 with ":"%char => X | _ => Y end = Y) as Em
        by by all_bytes c1.
      rewrite Em. by apply Hgo.
    + assert (forall X Y : option nat * string, match c0 with ":"%char => X | _ => Y end = Y) as Em
        by by all_bytes c0.
      rewrite Em. by apply Hgo.
Qed.

Lemma ParseAddr_wf s ip : ParseAddr s = Some ip -> wf_addr ip.
Proof.
  unfold ParseAddr. destruct (addr_family s) as [c|]; [|done].
  destruct (decide (c = "."%char)) as [->|]; [apply parse4_wf|].
  destruct (decide (c = ":"%char)) as [->|]; [|by all_bytes c].
  unfold parse6. destruct (cut_byte "%" s) as [[body zone]|].
  - case_bool_decide; [done|]. destruct (parse6_body body) as [g|] eqn:E; [|done].
    intros; simplify_eq/=. by eapply parse6_body_wf.
  - destruct (parse6_body s) as [g|] eqn:E; [|done].
    intros; simplify_eq/=. by eapply parse6_body_wf.
Qed.

Lemma Unmap_wf ip : wf_addr ip -> wf_addr (Unmap ip).
Proof.
  intros Hw. unfold Unmap. repeat case_match; try done. subst.
  destruct Hw as [_ Hf]. rewrite !Forall_cons in Hf.
  destruct_and? Hf.
  cbn. split_and!; try (apply N.lt_succ_r, N.Div0.div_lt_upper_bound; lia);
    match goal with |- ?x mod _ <= _ => pose proof (N.mod_lt x 256 ltac:(done)); lia end.
Qed.

(** ** IPv6 text always has a colon and starts with a digit or a colon *)

Definition hex_or_colon (c : ascii) : bool :=
  is_digit c || in_range 97 102 (byte c) || bool_decide (c = ":"%char).

Definition head_ok (s : string) : bool :=
  match s with String c _ => hex_or_colon c | EmptyString => false end.

Lemma hex_digit_ok k : k < 16 -> hex_or_colon (hex_digit k) = true.
Proof.
  intros Hk.
  assert (k = 0 \/ k = 1 \/ k = 2 \/ k = 3 \/ k = 4 \/ k = 5 \/ k = 6 \/ k = 7 \/ k = 8 \/ k = 9
          \/ k = 10 \/ k = 11 \/ k = 12 \/ k = 13 \/ k = 14 \/ k = 15) as Hc by lia.
  repeat (destruct Hc as [->|Hc]; [done|]). by subst.
Qed.

Lemma print_hex_head n t : head_ok (print_hex n +:+ t) = true.
Proof.
  unfold print_hex.
  assert (forall x, hex_or_colon (hex_digit (x mod 16)) = true) as Hd.
  { intros x. apply hex_digit_ok, N.mod_lt. done. }
  destruct (4096 <=? n); [apply Hd|]. destruct (256 <=? n); [apply Hd|].
  destruct (16 <=? n); apply Hd.
Qed.

Lemma contains_byte_app c s t :
  contains_byte c (s +:+ t) = contains_byte c s || contains_byte c t.
Proof. apply string_existsb_app. Qed.

Lemma print6_colon g :
  length g = 8%nat ->
  contains_byte ":" (print6 g) = true /\ forall t, head_ok (print6 g +:+ t) = true.
Proof.
  intros Hl. unfold print6. destruct (longest_zero_run g 0 (255%nat, 255%nat)) as [zs ze].
  destruct (zs <? 8)%nat.
  - rewrite !contains_byte_app. split.
    + change (contains_byte ":" "::") with true. by rewrite orb_true_r.
    + intros t. destruct g as [|x g]; [done|]. destruct zs as [|zs]; [done|].
      cbn [take firstn print_groups]. rewrite !string_app_assoc.
      change ("" +:+ ?y) with y. apply print_hex_head.
  - destruct g as [|x [|y g]]; try done. cbn [print_groups].
    rewrite !contains_byte_app. split.
    + change (contains_byte ":" ":") with true. by rewrite !orb_true_r.
    + intros t. rewrite !string_app_assoc. change ("" +:+ ?z) with z. apply print_hex_head.
Qed.
