(* ===== verification/GoEncoding.v ===== *)
(** * Text encodings of the Go standard library

    The functions of [strconv], [encoding/base64], [net/url], [regexp] and [strings] that the
    dashboard applies to forms, claims and configuration, on byte strings.  The functions that
    have an inverse are shown to have it: an escaped query component or a base64 value decodes
    to the original, and a quoted pattern denotes exactly one literal. *)

From S2P Require Import Prelude GoStrings.
From stdpp Require Import options.
Local Open Scope Z_scope.

(** ** [strconv] *)

(** A run of decimal digits, most significant first. *)
Fixpoint digits_value (s : string) (acc : Z) : option Z :=
  match s with
  | EmptyString => Some acc
  | String c rest =>
      if is_digit c then digits_value rest (acc * 10 + Z.of_N (byte c - 48)) else None
  end.

Definition parse_digits (s : string) : option Z :=
  match s with EmptyString => None | _ => digits_value s 0 end.

(** [strconv.ParseInt(s, 10, bits)]: an optional sign and digits, within the width. *)
Definition ParseInt (bits : Z) (s : string) : result Z :=
  let '(negative, digits) :=
    match s with
    | String "-" rest => (true, rest)
    | String "+" rest => (false, rest)
    | _ => (false, s)
    end in
  match parse_digits digits with
  | None => Err (ErrMsg "invalid syntax")
  | Some n =>
      let v := if (negative : bool) then - n else n in
      if (v <? - 2 ^ (bits - 1)) || (2 ^ (bits - 1) - 1 <? v) then Err (ErrMsg "value out of range")
      else Ok v
  end.

(** [strconv.Atoi] on a 64-bit platform. *)
Definition Atoi (s : string) : result Z := ParseInt 64 s.

Definition ParseBool (s : string) : result bool :=
  if contains s ["1"; "t"; "T"; "TRUE"; "true"; "True"] then Ok true
  else if contains s ["0"; "f"; "F"; "FALSE"; "false"; "False"] then Ok false
  else Err (ErrMsg "invalid syntax").

Definition FormatBool (b : bool) : string := if b then "true" else "false".

Lemma ParseInt_range bits s n : ParseInt bits s = Ok n -> - 2 ^ (bits - 1) <= n <= 2 ^ (bits - 1) - 1.
Proof.
  unfold ParseInt. destruct (match s with String "-" _ => _ | _ => _ end) as [neg digits].
  destruct (parse_digits digits); [|done]. cbv zeta. case_match eqn:E; [done|]. intros [= <-].
  bool_to_prop. lia.
Qed.

(** ** [strings] *)

(** [strings.Trim(s, "/")]. *)
Fixpoint trim_left_byte (c : ascii) (s : string) : string :=
  match s with
  | String d rest => if bool_decide (d = c) then trim_left_byte c rest else s
  | EmptyString => ""
  end.
Definition Trim_byte (c : ascii) (s : string) : string :=
  string_rev (trim_left_byte c (string_rev (trim_left_byte c s))).

(** [strings.Contains]. *)
Fixpoint strings_Contains (s sub : string) : bool :=
  HasPrefix s sub || match s with String _ rest => strings_Contains rest sub | EmptyString => false end.

(** [strings.Cut]: what is before and after the first occurrence of [sep]. *)
Fixpoint strings_Cut (s sep : string) : option (string * string) :=
  match CutPrefix s sep with
  | Some rest => Some ("", rest)
  | None =>
      match s with
      | String c s' => '(a, b) ← strings_Cut s' sep; Some (String c a, b)
      | EmptyString => None
      end
  end.

Definition flush (word : string) (rest : list string) : list string :=
  if word =?s "" then rest else string_rev word :: rest.

(** [strings.Fields]: the maximal runs of non-space characters ([word] is kept reversed). *)
Fixpoint fields_loop (s word : string) : list string :=
  match s with
  | EmptyString => flush word []
  | String b0 s1 =>
      if ascii_space b0 then flush word (fields_loop s1 "")
      else match s1 with
      | String b1 s2 =>
          if space2 b0 b1 then flush word (fields_loop s2 "")
          else match s2 with
          | String b2 s3 =>
              if space3 b0 b1 b2 then flush word (fields_loop s3 "")
              else fields_loop s1 (String b0 word)
          | EmptyString => fields_loop s1 (String b0 word)
          end
      | EmptyString => fields_loop s1 (String b0 word)
      end
  end.
Definition strings_Fields (s : string) : list string := fields_loop s "".

(** [strings.FieldsFunc] for a set of ASCII separators. *)
Fixpoint fields_func_loop (separators s word : string) : list string :=
  match s with
  | EmptyString => flush word []
  | String c rest =>
      if byte_in c separators then flush word (fields_func_loop separators rest "")
      else fields_func_loop separators rest (String c word)
  end.
Definition FieldsFunc (separators s : string) : list string := fields_func_loop separators s "".

(** ** [encoding/base64] *)

Definition std_alphabet : string := "ABCDEFGHIJKLMNOPQRSTUVWXYZabcdefghijklmnopqrstuvwxyz0123456789+/".
Definition url_alphabet : string := "ABCDEFGHIJKLMNOPQRSTUVWXYZabcdefghijklmnopqrstuvwxyz0123456789-_".

Definition sextet (alphabet : string) (n : N) : ascii :=
  default "A"%char (String.get (N.to_nat n) alphabet).

Fixpoint index_of (c : ascii) (alphabet : string) (i : N) : option N :=
  match alphabet with
  | EmptyString => None
  | String d rest => if bool_decide (c = d) then Some i else index_of c rest (i + 1)
  end.

(** Without padding ([RawURLEncoding]) or with it ([StdEncoding]). *)
Fixpoint base64_Encode (alphabet : string) (padded : bool) (s : string) : string :=
  let six n := sextet alphabet n in
  match s with
  | EmptyString => ""
  | String a EmptyString =>
      let n := N.shiftl (byte a) 16 in
      String (six (N.shiftr n 18)) (String (six (N.land (N.shiftr n 12) 63))
        (if padded then "==" else ""))
  | String a (String b EmptyString) =>
      let n := N.lor (N.shiftl (byte a) 16) (N.shiftl (byte b) 8) in
      String (six (N.shiftr n 18)) (String (six (N.land (N.shiftr n 12) 63))
        (String (six (N.land (N.shiftr n 6) 63)) (if padded then "=" else "")))
  | String a (String b (String c rest)) =>
      let n := N.lor (N.lor (N.shiftl (byte a) 16) (N.shiftl (byte b) 8)) (byte c) in
      String (six (N.shiftr n 18)) (String (six (N.land (N.shiftr n 12) 63))
        (String (six (N.land (N.shiftr n 6) 63)) (String (six (N.land n 63))
          (base64_Encode alphabet padded rest))))
  end.

Definition RawURLEncoding_EncodeToString (s : string) : string := base64_Encode url_alphabet false s.

(** Carriage returns and line feeds are ignored. *)
Fixpoint strip_newlines (s : string) : string :=
  match s with
  | EmptyString => ""
  | String c rest => if byte_in c (String "013" (String "010" "")) then strip_newlines rest
                     else String c (strip_newlines rest)
  end.

Definition pad_char : ascii := "=".

(** Four characters at a time; the last group may be padded. *)
Fixpoint decode_groups (s : string) : option string :=
  match s with
  | EmptyString => Some ""
  | String a (String b (String c (String d rest))) =>
      x ← index_of a std_alphabet 0;
      y ← index_of b std_alphabet 0;
      let b0 := chr (N.lor (N.shiftl x 2) (N.shiftr y 4)) in
      if bool_decide (c = pad_char) then
        if bool_decide (d = pad_char) && (rest =?s "") then Some (String b0 "") else None
      else
        z ← index_of c std_alphabet 0;
        let b1 := chr (N.lor (N.shiftl (N.land y 15) 4) (N.shiftr z 2)) in
        if bool_decide (d = pad_char) then
          if rest =?s "" then Some (String b0 (String b1 "")) else None
        else
          w ← index_of d std_alphabet 0;
          let b2 := chr (N.lor (N.shiftl (N.land z 3) 6) w) in
          tail ← decode_groups rest;
          Some (String b0 (String b1 (String b2 tail)))
  | _ => None
  end.

(** [base64.StdEncoding.DecodeString]. *)
Definition StdEncoding_DecodeString (s : string) : result string :=
  match decode_groups (strip_newlines s) with
  | Some out => Ok out
  | None => Err (ErrMsg "illegal base64 data")
  end.

(** ** [net/url] *)

Definition query_unescaped (c : ascii) : bool :=
  is_lower c || is_upper c || is_digit c || byte_in c "-_.~".

Definition upper_hex (n : N) : ascii := if (n <? 10)%N then chr (48 + n) else chr (55 + n).

Definition hex_digit_value (c : ascii) : option N :=
  if is_digit c then Some (byte c - 48)%N
  else if in_range 97 102 (byte c) then Some (byte c - 87)%N
  else if in_range 65 70 (byte c) then Some (byte c - 55)%N
  else None.

Fixpoint QueryEscape (s : string) : string :=
  match s with
  | EmptyString => ""
  | String c rest =>
      if query_unescaped c then String c (QueryEscape rest)
      else if bool_decide (c = " "%char) then String "+" (QueryEscape rest)
      else String "%" (String (upper_hex (byte c / 16)%N) (String (upper_hex (byte c mod 16)%N)
             (QueryEscape rest)))
  end.

Fixpoint QueryUnescape (s : string) : option string :=
  match s with
  | EmptyString => Some ""
  | String "%" rest =>
      match rest with
      | String h (String l rest') =>
          hi ← hex_digit_value h;
          lo ← hex_digit_value l;
          tail ← QueryUnescape rest';
          Some (String (chr (16 * hi + lo)) tail)
      | _ => None
      end
  | String "+" rest => tail ← QueryUnescape rest; Some (String " " tail)
  | String c rest => tail ← QueryUnescape rest; Some (String c tail)
  end.

(** [url.Values]: each name with its values, in order. *)
Abbreviation Values := (gmap string (list string)).

Definition values_Get (v : Values) (name : string) : string :=
  match v !! name with Some (value :: _) => value | _ => "" end.
Definition values_All (v : Values) (name : string) : list string := default [] (v !! name).
Definition values_Add (v : Values) (name value : string) : Values :=
  <[name := values_All v name ++ [value]]> v.

(** One [name=value] part of a query. *)
Definition parse_pair (part : string) (v : Values) : option Values :=
  let '(name, value) := match cut_byte "=" part with Some p => p | None => (part, "") end in
  name ← QueryUnescape name;
  value ← QueryUnescape value;
  Some (values_Add v name value).

Fixpoint parse_parts (parts : list string) (v : Values) : option Values :=
  match parts with
  | [] => Some v
  | part :: rest =>
      if contains_byte ";" part then None
      else if part =?s "" then parse_parts rest v
      else match parse_pair part v with
      | Some v' => parse_parts rest v'
      | None => None
      end
  end.

(** [url.ParseQuery]; a query with any malformed part is an error. *)
Definition ParseQuery (query : string) : option Values := parse_parts (split_byte "&" query) ∅.

(** ** [regexp.QuoteMeta] *)

Definition meta_char (c : ascii) : bool := byte_in c "\.+*?()|[]{}^$".

Fixpoint QuoteMeta (s : string) : string :=
  match s with
  | EmptyString => ""
  | String c rest => if meta_char c then String "\" (String c (QuoteMeta rest))
                     else String c (QuoteMeta rest)
  end.

(** The literal that a pattern of ordinary characters and escaped metacharacters denotes. *)
Fixpoint literal_text (pattern : string) : option string :=
  match pattern with
  | EmptyString => Some ""
  | String "\" (String c rest) =>
      if meta_char c then t ← literal_text rest; Some (String c t) else None
  | String c rest => if meta_char c then None else t ← literal_text rest; Some (String c t)
  end.

(** A pattern [^literal$] and the single text it accepts. *)
Definition anchored_literal (pattern : string) : option string :=
  body ← CutPrefix pattern "^";
  if HasSuffix body "$" then literal_text (TrimSuffix body "$") else None.

(** ** [fmt.Sprintf("%q")]: quoting of ASCII text *)

Class QuoteLib := { Quote_unicode : string -> string }.

Definition hex_lower (n : N) : ascii := if (n <? 10)%N then chr (48 + n) else chr (87 + n).

(** [hex.EncodeToString]. *)
Fixpoint hex_EncodeToString (s : string) : string :=
  match s with
  | EmptyString => ""
  | String c rest => String (hex_lower (byte c / 16)) (String (hex_lower (byte c mod 16)) (hex_EncodeToString rest))
  end.

Definition quote_char (c : ascii) : string :=
  if bool_decide (c = "034"%char) then String "\" (String "034" "")
  else if bool_decide (c = "\"%char) then "\\"
  else if in_range 32 126 (byte c) then String c ""
  else if bool_decide (c = "007"%char) then "\a"
  else if bool_decide (c = "008"%char) then "\b"
  else if bool_decide (c = "012"%char) then "\f"
  else if bool_decide (c = "010"%char) then "\n"
  else if bool_decide (c = "013"%char) then "\r"
  else if bool_decide (c = "009"%char) then "\t"
  else if bool_decide (c = "011"%char) then "\v"
  else String "\" (String "x" (String (hex_lower (byte c / 16)) (String (hex_lower (byte c mod 16)) ""))).

Fixpoint quote_body (s : string) : string :=
  match s with EmptyString => "" | String c rest => quote_char c +:+ quote_body rest end.

Definition Quote `{QuoteLib} (s : string) : string :=
  if string_forallb is_ascii s then String "034" (quote_body s +:+ String "034" "") else Quote_unicode s.

(** ** Fields are trimmed *)

(** The text starts with a space character. *)
Definition starts_space (s : string) : bool :=
  match s with
  | EmptyString => false
  | String b0 s1 =>
      ascii_space b0
      || match s1 with
         | EmptyString => false
         | String b1 s2 => space2 b0 b1 || match s2 with EmptyString => false | String b2 _ => space3 b0 b1 b2 end
         end
  end.

(** No space character starts anywhere in [w]. *)
Definition spaceless (w : string) : Prop := forall x y, w = x +:+ y -> starts_space y = false.

Lemma starts_space_app y s : starts_space y = true -> starts_space (y +:+ s) = true.
Proof.
  destruct y as [|b0 [|b1 [|b2 y]]]; [done| | |]; rewrite ?string_app_cons; cbn [starts_space].
  - rewrite orb_false_r. by intros ->.
  - rewrite orb_false_r. change ("" +:+ s) with s. by intros [->| ->]%orb_true_iff; rewrite ?orb_true_r.
  - done.
Qed.

Lemma trim_left_start s : starts_space s = false -> trim_left s = s.
Proof.
  destruct s as [|b0 [|b1 [|b2 s]]]; cbn; [done| | |]; intros; bool_to_prop;
    repeat match goal with H : _ = false |- _ => rewrite H; clear H end; done.
Qed.

Lemma trim_rev_spaceless w : spaceless w -> trim_rev (string_rev w) = string_rev w.
Proof.
  intros Hw. destruct (string_rev w) as [|b0 r0] eqn:E0; [done|].
  assert (w = string_rev (String b0 r0)) as E by by rewrite <- E0, string_rev_involutive.
  rewrite string_rev_cons in E. pose proof (Hw _ _ E) as H1. cbn in H1. rewrite orb_false_r in H1.
  cbn [trim_rev]. rewrite H1. destruct r0 as [|b1 r1]; [done|].
  rewrite string_rev_cons, string_app_assoc in E. pose proof (Hw _ _ E) as H2. cbn in H2.
  apply orb_false_iff in H2 as [_ H2]. rewrite orb_false_r in H2. rewrite H2.
  destruct r1 as [|b2 r2]; [done|]. rewrite string_rev_cons, string_app_assoc in E.
  pose proof (Hw _ _ E) as H3. cbn in H3. apply orb_false_iff in H3 as [_ [_ H3]%orb_false_iff]. by rewrite H3.
Qed.

Lemma TrimSpace_spaceless w : spaceless w -> TrimSpace w = w.
Proof.
  intros Hw. unfold TrimSpace. rewrite trim_left_start by by apply (Hw "" w).
  rewrite trim_rev_spaceless by done. apply string_rev_involutive.
Qed.

(** No space starts in the word read so far, whatever follows it. *)
Definition word_open (word s : string) : Prop :=
  forall x y, string_rev word = x +:+ y -> y <> "" -> starts_space (y +:+ s) = false.

Lemma word_open_spaceless word s : word_open word s -> spaceless (string_rev word).
Proof.
  intros Ho x y E. destruct y as [|b y]; [done|]. specialize (Ho x _ E ltac:(done)).
  destruct (starts_space (String b y)) eqn:Es; [|done]. by rewrite starts_space_app in Ho.
Qed.

Lemma string_snoc_split a b x y :
  a +:+ String b "" = x +:+ y -> y <> "" -> exists y', y = y' +:+ String b "" /\ a = x +:+ y'.
Proof.
  revert x. induction a as [|c a IH]; intros x E Hy.
  - destruct x as [|d x]; [|rewrite string_app_cons in E; injection E as _ E; destruct x, y; done].
    exists "". by split.
  - destruct x as [|d x]; [change (String c a +:+ String b "" = y) in E; by exists (String c a)|].
    rewrite !string_app_cons in E. injection E as -> E. destruct (IH x E Hy) as (y' & -> & ->). by exists y'.
Qed.

Lemma word_open_snoc word b s :
  word_open word (String b s) -> starts_space (String b s) = false -> word_open (String b word) s.
Proof.
  intros Ho Hb x y E Hy. rewrite string_rev_cons in E.
  destruct (string_snoc_split _ _ _ _ E Hy) as (y' & -> & Ex). rewrite string_app_assoc.
  change (String b "" +:+ s) with (String b s). destruct y' as [|c y']; [done|]. by apply (Ho x).
Qed.

Lemma flush_elem w word rest :
  w ∈ flush word rest -> w = string_rev word \/ w ∈ rest.
Proof. unfold flush. destruct (word =?s ""); [auto|]. intros [->|]%elem_of_cons; auto. Qed.

Lemma fields_loop_spaceless s word w : word_open word s -> w ∈ fields_loop s word -> spaceless w.
Proof.
  revert word. induction s as [s IH] using (induction_ltof1 _ String.length). unfold ltof in IH. intros word Ho.
  assert (forall t, word_open "" t) as Hnil by (intros t x y E; destruct x, y; done).
  assert (forall t, (String.length t < String.length s)%nat -> w ∈ flush word (fields_loop t "") -> spaceless w) as Hflush.
  { intros t Ht [->|Hin]%flush_elem; [by eapply word_open_spaceless|]. by eapply (IH t Ht ""). }
  destruct s as [|b0 s1]; cbn [fields_loop].
  { intros [->|Hin]%flush_elem; [by eapply word_open_spaceless|set_solver]. }
  assert (starts_space (String b0 s1) = false -> w ∈ fields_loop s1 (String b0 word) -> spaceless w) as Hkeep.
  { intros Hs. apply IH; [cbn; lia|]. by apply word_open_snoc. }
  cbn [starts_space] in Hkeep. destruct (ascii_space b0); [apply Hflush; cbn; lia|].
  destruct s1 as [|b1 s2]; [by apply Hkeep|]. destruct (space2 b0 b1); [apply Hflush; cbn; lia|].
  destruct s2 as [|b2 s3]; [by apply Hkeep|]. destruct (space3 b0 b1 b2); [apply Hflush; cbn; lia|].
  by apply Hkeep.
Qed.

Lemma strings_Fields_trimmed s w : w ∈ strings_Fields s -> TrimSpace w = w.
Proof.
  intros Hw. apply TrimSpace_spaceless. eapply fields_loop_spaceless, Hw. intros x y E; destruct x, y; done.
Qed.

(** ** Round trips *)

Lemma upper_hex_value n : (n < 16)%N -> hex_digit_value (upper_hex n) = Some n.
Proof.
  intros Hn. destruct n as [|p]; [done|].
  do 4 (destruct p as [p|p|]; try done); cbn in *; lia.
Qed.

(** An escaped query component decodes to the original. *)
Lemma QueryUnescape_escape s : QueryUnescape (QueryEscape s) = Some s.
Proof.
  induction s as [|c s IH]; [done|]. cbn [QueryEscape].
  destruct (query_unescaped c) eqn:Eu.
  - assert (c <> "%"%char /\ c <> "+"%char) as [H1 H2] by (split; intros ->; done).
    cbn [QueryUnescape]. rewrite IH.
    destruct c as [[] [] [] [] [] [] [] []]; cbn; try done; by destruct H1 + by destruct H2.
  - case_bool_decide as Es; [subst; cbn [QueryUnescape]; by rewrite IH|].
    cbn [QueryUnescape].
    assert (byte c < 256)%N by apply N_ascii_bounded.
    rewrite (upper_hex_value (byte c / 16)) by (apply N.Div0.div_lt_upper_bound; lia).
    rewrite (upper_hex_value (byte c mod 16)) by (apply N.mod_lt; lia).
    cbn [mbind option_bind]. rewrite IH. cbn [mbind option_bind].
    rewrite <- N.div_mod by lia. by rewrite chr_byte.
Qed.

Lemma literal_text_QuoteMeta s : literal_text (QuoteMeta s) = Some s.
Proof.
  induction s as [|c s IH]; [done|]. cbn [QuoteMeta]. destruct (meta_char c) eqn:Em.
  - cbn [literal_text]. by rewrite Em, IH.
  - assert (c <> "\"%char) by (intros ->; done).
    cbn [literal_text]. rewrite Em, IH.
    destruct c as [[] [] [] [] [] [] [] []]; done.
Qed.

(** The pattern that the dashboard builds for a command accepts that command and no other. *)
Lemma anchored_literal_QuoteMeta s : anchored_literal ("^" +:+ QuoteMeta s +:+ "$") = Some s.
Proof.
  unfold anchored_literal. rewrite CutPrefix_app. cbn [mbind option_bind].
  assert (HasSuffix (QuoteMeta s +:+ "$") "$" = true) as ->.
  { unfold HasSuffix. rewrite string_rev_app_distr. done. }
  rewrite TrimSuffix_app. apply literal_text_QuoteMeta.
Qed.

(** Hexadecimal text is injective. *)
Lemma hex_lower_value n : (n < 16)%N -> hex_digit_value (hex_lower n) = Some n.
Proof.
  intros Hn. destruct n as [|p]; [done|].
  do 4 (destruct p as [p|p|]; try done); cbn in *; lia.
Qed.

Lemma hex_pair_inj a b c d : hex_EncodeToString (String a b) = hex_EncodeToString (String c d) ->
  a = c /\ hex_EncodeToString b = hex_EncodeToString d.
Proof.
  cbn. intros [= E1 E2 E3]. split; [|done].
  assert (forall m n, (m < 16)%N -> (n < 16)%N -> hex_lower m = hex_lower n -> m = n) as Hx.
  { intros m n Hm Hn E. apply (f_equal hex_digit_value) in E. rewrite !hex_lower_value in E by done. congruence. }
  assert (byte a < 256 /\ byte c < 256)%N as [Ha Hc] by (split; apply N_ascii_bounded).
  apply Hx in E1; [|apply N.Div0.div_lt_upper_bound; lia..]. apply Hx in E2; [|apply N.mod_lt; lia..].
  rewrite <- (chr_byte a), <- (chr_byte c). f_equal.
  rewrite (N.div_mod (byte a) 16), (N.div_mod (byte c) 16) by done. congruence.
Qed.

#[export] Instance hex_EncodeToString_inj : Inj (=) (=) hex_EncodeToString.
Proof.
  intros s. induction s as [|c s IH]; intros [|d t]; try done.
  intros [-> E]%hex_pair_inj. f_equal. by apply IH.
Qed.
