(* ===== verification/GoMime.v ===== *)
(** * Go's [mime.ParseMediaType]

    The media type of a content type and whether its parameters are well formed, as
    [http.Request.ParseForm] asks for them.  Parameters follow semicolons, as [token=value] with
    a token or a quoted string as value; a repeated parameter must repeat its value.  The values
    themselves, and the RFC 2231 continuations that assemble them, are not read by any caller.

    The loop reads one parameter per round, so the length of the text bounds its rounds
    ([media_params_fuel]). *)

From S2P Require Import Prelude GoStrings GoEncoding.
From stdpp Require Import options.

Definition token_char (c : ascii) : bool :=
  is_lower c || is_upper c || is_digit c || byte_in c "!#$%&'*+-.^_`{|}~".

Definition quote_byte : ascii := "034".
Definition tspecial (c : ascii) : bool := byte_in c "()<>@,;:\/[]?=" || bool_decide (c = quote_byte).

Fixpoint consumeToken (v : string) : string * string :=
  match v with
  | EmptyString => ("", "")
  | String c rest =>
      if token_char c then let '(t, r) := consumeToken rest in (String c t, r) else ("", v)
  end.

(** A quoted string after its opening quote: the value and the text after the closing quote. *)
Fixpoint consumeQuoted (v : string) : option (string * string) :=
  match v with
  | EmptyString => None
  | String c rest =>
      if bool_decide (c = quote_byte) then Some ("", rest)
      else if bool_decide (c = "013"%char) || bool_decide (c = "010"%char) then None
      else match c, rest with
      | "\"%char, String d rest' =>
          if tspecial d then '(value, r) ← consumeQuoted rest'; Some (String d value, r)
          else '(value, r) ← consumeQuoted rest; Some (String c value, r)
      | _, _ => '(value, r) ← consumeQuoted rest; Some (String c value, r)
      end
  end.

(** [consumeValue]; [None] is its failure, the empty value with nothing consumed. *)
Definition consumeValue (v : string) : option (string * string) :=
  match v with
  | EmptyString => None
  | String c rest =>
      if bool_decide (c = quote_byte) then consumeQuoted rest
      else let '(t, r) := consumeToken v in if t =?s "" then None else Some (t, r)
  end.

(** The lower-case form of an ASCII token. *)
Fixpoint lower_token (s : string) : string :=
  match s with
  | EmptyString => ""
  | String c rest => String (if is_upper c then chr (byte c + 32) else c) (lower_token rest)
  end.

(** [consumeMediaParam]: one [;name=value], or [None]. *)
Definition consumeMediaParam (v : string) : option (string * string * string) :=
  rest ← CutPrefix (trim_left v) ";";
  let '(param, rest) := consumeToken (trim_left rest) in
  if param =?s "" then None
  else
    rest ← CutPrefix (trim_left rest) "=";
    '(value, rest) ← consumeValue (trim_left rest);
    Some (lower_token param, value, rest).

(** [checkMediaTypeDisposition]. *)
Definition checkMediaTypeDisposition (s : string) : bool :=
  let '(typ, rest) := consumeToken s in
  if typ =?s "" then false
  else if rest =?s "" then true
  else match rest with
  | String "/" sub => let '(subtype, tail) := consumeToken sub in (subtype <>?s "") && (tail =?s "")
  | _ => false
  end.

(** The parameters; [None] when [rounds] are not enough. *)
Fixpoint media_params (rounds : nat) (v : string) (params : gmap string string) : option bool :=
  let v := trim_left v in
  if v =?s "" then Some true
  else match rounds with
  | O => None
  | S rounds =>
      match consumeMediaParam v with
      | None => Some (TrimSpace v =?s ";")
      | Some (key, value, rest) =>
          match params !! key with
          | Some old => if old <>?s value then Some false else media_params rounds rest params
          | None => media_params rounds rest (<[key := value]> params)
          end
      end
  end.

Section media_type.
Context `{UnicodeTables}.

(** [mime.ParseMediaType]: the media type, or an error. *)
Definition ParseMediaType (v : string) : result string :=
  let '(base, tail) := match cut_byte ";" v with Some (b, t) => (b, ";" +:+ t) | None => (v, "") end in
  let mediatype := TrimSpace (ToLower base) in
  if negb (checkMediaTypeDisposition mediatype) then Err (ErrMsg "mime: no media type")
  else match media_params (String.length tail) tail ∅ with
  | Some true => Ok mediatype
  | _ => Err (ErrMsg "mime: invalid media parameter")
  end.

Definition mime_params_ok (v : string) : bool := is_ok (ParseMediaType v).

End media_type.

(** ** Rounds *)

Lemma trim_left_length s : (String.length (trim_left s) <= String.length s)%nat.
Proof.
  induction s as [s IH] using (induction_ltof1 _ String.length). unfold ltof in IH.
  destruct s as [|b0 s1]; [done|]. cbn [trim_left].
  repeat case_match; subst; try done; (etrans; [apply IH; cbn; lia|cbn; lia]).
Qed.

Lemma consumeToken_length v t r :
  consumeToken v = (t, r) -> String.length v = (String.length t + String.length r)%nat.
Proof.
  revert t. induction v as [|c v IH]; intros t; cbn [consumeToken]; [by intros [= <- <-]|].
  destruct (token_char c); [|by intros [= <- <-]].
  destruct (consumeToken v) as [t' r'] eqn:E. intros [= <- <-]. cbn. by rewrite (IH t').
Qed.

Lemma consumeQuoted_length v value r :
  consumeQuoted v = Some (value, r) -> (String.length r <= String.length v)%nat.
Proof.
  revert value. induction v as [v IH] using (induction_ltof1 _ String.length). unfold ltof in IH.
  intros value. destruct v as [|c rest]; cbn [consumeQuoted]; [done|].
  case_bool_decide; [intros [= _ <-]; cbn; lia|]. destruct (_ || _); [done|].
  assert (forall s, (String.length s < S (String.length rest))%nat -> forall d,
    ('(v, r) ← consumeQuoted s; Some (String d v, r)) = Some (value, r) ->
    (String.length r <= String.length (String c rest))%nat) as Hstep.
  { intros s Hs d. destruct (consumeQuoted s) as [[v' r']|] eqn:E; [|done]. cbn. intros [= _ ->].
    apply IH in E; [lia|cbn; lia]. }
  assert (('(v, r) ← consumeQuoted rest; Some (String c v, r)) = Some (value, r) ->
    (String.length r <= String.length (String c rest))%nat) as Hplain by (apply Hstep; lia).
  destruct rest as [|d rest']; [by repeat case_match|].
  destruct (tspecial d).
  - assert (('(v, r) ← consumeQuoted rest'; Some (String d v, r)) = Some (value, r) ->
      (String.length r <= String.length (String c (String d rest')))%nat) as Hescaped
      by (apply Hstep; cbn; lia).
    by repeat case_match.
  - by repeat case_match.
Qed.

Lemma consumeMediaParam_length v key value rest :
  consumeMediaParam v = Some (key, value, rest) -> (String.length rest < String.length v)%nat.
Proof.
  unfold consumeMediaParam. pose proof (trim_left_length v) as Hv.
  destruct (CutPrefix (trim_left v) ";") as [r1|] eqn:E1; [|done]. cbn [mbind option_bind].
  apply CutPrefix_Some in E1. rewrite E1 in Hv. change (S (String.length r1) <= String.length v)%nat in Hv.
  pose proof (trim_left_length r1) as H1. destruct (consumeToken (trim_left r1)) as [param r2] eqn:E2.
  apply consumeToken_length in E2. destruct (param =?s "") eqn:Ep; [done|].
  pose proof (trim_left_length r2) as H2.
  destruct (CutPrefix (trim_left r2) "=") as [r3|] eqn:E3; [|done]. cbn [mbind option_bind].
  apply CutPrefix_Some in E3. rewrite E3 in H2. change (S (String.length r3) <= String.length r2)%nat in H2. pose proof (trim_left_length r3) as H3.
  destruct (consumeValue (trim_left r3)) as [[val r4]|] eqn:E4; [|done]. cbn [mbind option_bind].
  intros [= _ _ <-]. assert (String.length r4 <= String.length (trim_left r3))%nat; [|lia].
  unfold consumeValue in E4. destruct (trim_left r3) as [|c t]; [done|].
  case_bool_decide; [apply consumeQuoted_length in E4; cbn; lia|].
  destruct (consumeToken _) as [tok r'] eqn:E5. apply consumeToken_length in E5.
  destruct (tok =?s ""); [done|]. simplify_eq. lia.
Qed.

(** The length of the parameters is enough rounds to read them. *)
Lemma media_params_fuel rounds v params : (String.length v <= rounds)%nat -> media_params rounds v params <> None.
Proof.
  revert v params. induction rounds as [|n IH]; intros v params Hl; cbn [media_params]; cbv zeta;
    pose proof (trim_left_length v) as Ht.
  - destruct (trim_left v); [done|]. cbn in Ht. lia.
  - destruct (trim_left v =?s ""); [done|].
    destruct (consumeMediaParam _) as [[[key value] rest]|] eqn:E; [|done].
    apply consumeMediaParam_length in E.
    destruct (params !! key) as [old|]; [destruct (_ <>?s _); [done|]|]; apply IH; lia.
Qed.

Section media_examples.
Context `{UnicodeTables}.

Example media_plain : ParseMediaType "application/x-www-form-urlencoded" = Ok "application/x-www-form-urlencoded".
Proof. vm_compute. reflexivity. Qed.

Example media_charset : ParseMediaType "application/x-www-form-urlencoded; charset=UTF-8;" = Ok "application/x-www-form-urlencoded".
Proof. vm_compute. reflexivity. Qed.

Example media_bad_parameter : is_ok (ParseMediaType "text/html; charset") = false.
Proof. vm_compute. reflexivity. Qed.

Example media_duplicate : is_ok (ParseMediaType "text/html; a=1; A=2") = false.
Proof. vm_compute. reflexivity. Qed.

End media_examples.
