(* ===== verification/GoTime.v ===== *)
(** * Printing times, printing and parsing durations

    [time.Time.UTC().Format(time.RFC3339)], [time.Duration.String] and [time.ParseDuration] of the
    Go standard library, as the dashboard's pages and the settings of the commands use them.
    [ParseDuration] computes in unsigned 64-bit integers with explicit overflow checks, and a
    fraction in [float64], here the binary64 arithmetic of [SpecFloat]; a parsed duration fits in
    64 bits ([ParseDuration_range]).  Its loop reads a number and a unit per round, so the length
    of the text bounds its rounds ([ParseDuration_fuel]). *)

From Stdlib Require Import SpecFloat.
From stdpp Require Import pretty.
From S2P Require Import Prelude GoStrings.
From stdpp Require Import options.

Fixpoint zeros (n : nat) : string := match n with O => "" | S n => String "0" (zeros n) end.

(** At least [width] decimal digits. *)
Definition pad (width : nat) (n : Z) : string :=
  let digits := pretty (Z.to_N (Z.abs n)) in
  (if n <? 0 then "-" else "") +:+ zeros (width - String.length digits) +:+ digits.

(** ** Dates *)

(** The civil date of a day number (day 0 is 1970-01-01), in the proleptic Gregorian calendar. *)
Definition civil_of_days (days : Z) : Z * Z * Z :=
  let z := days + 719468 in
  let era := z / 146097 in
  let doe := z mod 146097 in
  let yoe := (doe - doe / 1460 + doe / 36524 - doe / 146096) / 365 in
  let doy := doe - (365 * yoe + yoe / 4 - yoe / 100) in
  let mp := (5 * doy + 2) / 153 in
  let month := if mp <? 10 then mp + 3 else mp - 9 in
  (yoe + era * 400 + (if month <=? 2 then 1 else 0), month, doy - (153 * mp + 2) / 5 + 1).

Definition format_RFC3339 (t : Time) : string :=
  let seconds := t / Second in
  let '(year, month, day) := civil_of_days (seconds / 86400) in
  let second := seconds mod 86400 in
  pad 4 year +:+ "-" +:+ pad 2 month +:+ "-" +:+ pad 2 day +:+ "T"
  +:+ pad 2 (second / 3600) +:+ ":" +:+ pad 2 (second / 60 mod 60) +:+ ":" +:+ pad 2 (second mod 60) +:+ "Z".

(** ** Durations *)

(** Decimal digits without trailing zeros, [n] of them at most. *)
Fixpoint fraction_digits (n : nat) (v : Z) : string :=
  match n with
  | O => ""
  | S n => if v =? 0 then "" else pad 1 (v / 10 ^ Z.of_nat n) +:+ fraction_digits n (v mod 10 ^ Z.of_nat n)
  end.
Definition fraction (n : nat) (v : Z) : string := if v =? 0 then "" else "." +:+ fraction_digits n v.

Definition whole_duration (u : Z) : string :=
  let seconds := u / Second in
  let minutes := seconds / 60 in
  let tail := pad 1 (seconds mod 60) +:+ fraction 9 (u mod Second) +:+ "s" in
  if minutes =? 0 then tail
  else if minutes / 60 =? 0 then pad 1 (minutes mod 60) +:+ "m" +:+ tail
  else pad 1 (minutes / 60) +:+ "h" +:+ pad 1 (minutes mod 60) +:+ "m" +:+ tail.

Definition Duration_String (d : Duration) : string :=
  let u := Z.abs d in
  let text :=
    if u =? 0 then "0s"
    else if u <? 1000 then pad 1 u +:+ "ns"
    else if u <? 1000000 then pad 1 (u / 1000) +:+ fraction 3 (u mod 1000) +:+ "µs"
    else if u <? Second then pad 1 (u / 1000000) +:+ fraction 6 (u mod 1000000) +:+ "ms"
    else whole_duration u in
  if d <? 0 then "-" +:+ text else text.

Example format_epoch : format_RFC3339 0 = "1970-01-01T00:00:00Z".
Proof. by vm_compute. Qed.
Example format_zero : format_RFC3339 zero_time = "0001-01-01T00:00:00Z".
Proof. by vm_compute. Qed.
Example format_leap_day : format_RFC3339 (951827696 * Second) = "2000-02-29T12:34:56Z".
Proof. by vm_compute. Qed.
Example duration_hours : Duration_String (5400 * Second) = "1h30m0s".
Proof. by vm_compute. Qed.
Example duration_fraction : Duration_String (- 1500000) = "-1.5ms".
Proof. by vm_compute. Qed.

(** ** Parsing durations *)

(** [float64] *)
Definition float64 := spec_float.
Definition float64_of (n : Z) : float64 := binary_normalize 53 1024 n 0 false.
Definition float64_mul : float64 -> float64 -> float64 := SFmul 53 1024.
Definition float64_div : float64 -> float64 -> float64 := SFdiv 53 1024.

(** The conversion to [uint64] of a number in its range: truncation. *)
Definition uint64_of (x : float64) : Z :=
  match x with
  | S754_finite false m e => if e <? 0 then Z.pos m / 2 ^ (- e) else Z.pos m * 2 ^ e
  | _ => 0
  end.

(** [leadingInt]: the digits at the start of a text; [None] when the number exceeds [2^63]. *)
Fixpoint leadingInt (s : string) (x : Z) : option (Z * string) :=
  match s with
  | String c rest =>
      if is_digit c then
        if 2 ^ 63 / 10 <? x then None
        else let x := x * 10 + Z.of_N (byte c - 48) in
             if 2 ^ 63 <? x then None else leadingInt rest x
      else Some (x, s)
  | EmptyString => Some (x, s)
  end.

(** [leadingFraction]: digits beyond the precision are read and ignored. *)
Fixpoint leadingFraction (s : string) (x : Z) (scale : float64) (overflow : bool) : Z * float64 * string :=
  match s with
  | String c rest =>
      if is_digit c then
        let y := x * 10 + Z.of_N (byte c - 48) in
        if overflow || ((2 ^ 63 - 1) / 10 <? x) || (2 ^ 63 <? y) then leadingFraction rest x scale true
        else leadingFraction rest y (float64_mul scale (float64_of 10)) false
      else (x, scale, s)
  | EmptyString => (x, scale, s)
  end.

(** The unit: everything up to the next digit or period. *)
Fixpoint leadingUnit (s : string) : string * string :=
  match s with
  | String c rest =>
      if is_digit c || bool_decide (c = "."%char) then ("", s)
      else let '(u, tail) := leadingUnit rest in (String c u, tail)
  | EmptyString => ("", "")
  end.

Definition unitMap (u : string) : option Z :=
  if u =?s "ns" then Some 1
  else if contains u ["us"; "µs"; "μs"] then Some 1000
  else if u =?s "ms" then Some 1000000
  else if u =?s "s" then Some Second
  else if u =?s "m" then Some Minute
  else if u =?s "h" then Some Hour
  else None.

Definition invalid_duration : error := ErrMsg "time: invalid duration".

(** One number with its unit: its nanoseconds and the text after it. *)
Definition duration_component (s : string) : result (Z * string) :=
  match leadingInt s 0 with
  | None => Err invalid_duration
  | Some (v, rest) =>
      let pre := negb (String.length s =? String.length rest)%nat in
      let '(f, scale, rest, post) :=
        match rest with
        | String "." digits =>
            let '(f, scale, tail) := leadingFraction digits 0 (float64_of 1) false in
            (f, scale, tail, negb (String.length digits =? String.length tail)%nat)
        | _ => (0, float64_of 1, rest, false)
        end in
      if negb pre && negb post then Err invalid_duration
      else
        let '(u, tail) := leadingUnit rest in
        if u =?s "" then Err (ErrMsg "time: missing unit in duration")
        else match unitMap u with
        | None => Err (ErrMsg "time: unknown unit in duration")
        | Some unit =>
            if 2 ^ 63 / unit <? v then Err invalid_duration
            else
              let v := v * unit in
              let v := if 0 <? f then v + uint64_of (float64_mul (float64_of f) (float64_div (float64_of unit) scale))
                       else v in
              if (0 <? f) && (2 ^ 63 <? v) then Err invalid_duration else Ok (v, tail)
        end
  end.

(** The loop; [None] when [rounds] are not enough. *)
Fixpoint duration_loop (rounds : nat) (s : string) (d : Z) : option (result Z) :=
  if s =?s "" then Some (Ok d)
  else match rounds with
  | O => None
  | S rounds =>
      if negb (match s with String c _ => is_digit c || bool_decide (c = "."%char) | EmptyString => false end)
      then Some (Err invalid_duration)
      else match duration_component s with
      | Err e => Some (Err e)
      | Ok (v, rest) =>
          let d := (d + v) mod 2 ^ 64 in
          if 2 ^ 63 <? d then Some (Err invalid_duration) else duration_loop rounds rest d
      end
  end.

Definition ParseDuration (text : string) : result Duration :=
  let '(neg, s) :=
    match text with
    | String "-" rest => (true, rest)
    | String "+" rest => (false, rest)
    | _ => (false, text)
    end in
  if s =?s "0" then Ok 0
  else if s =?s "" then Err invalid_duration
  else match duration_loop (String.length s) s 0 with
  | None => Err invalid_duration
  | Some (Err e) => Err e
  | Some (Ok d) =>
      if (neg : bool) then Ok (wrap64 (- d)) else if 2 ^ 63 - 1 <? d then Err invalid_duration else Ok d
  end.

(** Each round consumes text. *)
Lemma leadingInt_length s x v rest : leadingInt s x = Some (v, rest) -> (String.length rest <= String.length s)%nat.
Proof.
  revert x. induction s as [|c s IH]; intros x; cbn [leadingInt]; [by intros [= _ <-]|].
  destruct (is_digit c); [|by intros [= _ <-]]. destruct (_ <? _); [done|]. cbv zeta.
  destruct (_ <? _); [done|]. intros Hl%IH. cbn. lia.
Qed.

Lemma leadingFraction_length s x scale o f scale' rest :
  leadingFraction s x scale o = (f, scale', rest) -> (String.length rest <= String.length s)%nat.
Proof.
  revert x scale o. induction s as [|c s IH]; intros x scale o; cbn [leadingFraction]; [by intros [= _ _ <-]|].
  destruct (is_digit c); [|by intros [= _ _ <-]]. cbv zeta. destruct (_ || _); intros Hl%IH; cbn; lia.
Qed.

Lemma leadingUnit_length s u rest :
  leadingUnit s = (u, rest) -> String.length s = (String.length u + String.length rest)%nat.
Proof.
  revert u. induction s as [|c s IH]; intros u; cbn [leadingUnit]; [by intros [= <- <-]|].
  destruct (_ || _); [by intros [= <- <-]|]. destruct (leadingUnit s) as [u' tail]. intros [= <- <-].
  cbn. by rewrite (IH u').
Qed.

Lemma duration_component_length s v rest :
  duration_component s = Ok (v, rest) -> (String.length rest < String.length s)%nat.
Proof.
  unfold duration_component. destruct (leadingInt s 0) as [[n tail]|] eqn:Ei; [|done].
  apply leadingInt_length in Ei.
  set (fr := match tail with String "." _ => _ | _ => _ end).
  assert (String.length fr.1.2 <= String.length tail)%nat as Hf.
  { subst fr. destruct tail as [|c digits]; [done|]. cbn [fst snd].
    destruct c as [[] [] [] [] [] [] [] []]; try done.
    destruct (leadingFraction digits _ _ _) as [[f scale] t] eqn:Ef. apply leadingFraction_length in Ef.
    cbn. lia. }
  destruct fr as [[[f scale] t] post]. cbn in Hf. destruct (_ && _); [done|].
  destruct (leadingUnit t) as [u tl] eqn:Eu. apply leadingUnit_length in Eu.
  destruct (u =?s "") eqn:En; [done|]. apply seqb_neq in En.
  destruct (unitMap u); [|done]. destruct (_ <? _); [done|]. cbv zeta. destruct (_ && _); [done|].
  intros [= _ <-]. destruct u; [done|]. cbn in Eu. lia.
Qed.

(** The loop never runs out of rounds: the length of the text is enough, and more changes nothing. *)
Lemma duration_loop_fuel rounds s d :
  (String.length s <= rounds)%nat -> duration_loop rounds s d <> None.
Proof.
  revert s d. induction rounds as [|n IH]; intros s d Hl; cbn [duration_loop].
  - destruct s; [done|cbn in Hl; lia].
  - destruct (s =?s ""); [done|]. destruct (negb _); [done|].
    destruct (duration_component s) as [[v rest]|] eqn:Ec; [|done]. apply duration_component_length in Ec.
    cbv zeta. destruct (_ <? _); [done|]. apply IH. lia.
Qed.

Lemma ParseDuration_fuel s : duration_loop (String.length s) s 0 <> None.
Proof. by apply duration_loop_fuel. Qed.

Lemma duration_loop_range rounds s d r :
  0 <= d <= 2 ^ 63 -> duration_loop rounds s d = Some (Ok r) -> 0 <= r <= 2 ^ 63.
Proof.
  revert s d. induction rounds as [|n IH]; intros s d Hd; cbn [duration_loop].
  - destruct (s =?s ""); [intros [= <-]; lia|done].
  - destruct (s =?s ""); [intros [= <-]; lia|]. destruct (negb _); [done|].
    destruct (duration_component s) as [[v rest]|] eqn:Ec; [|done]. cbv zeta.
    destruct (_ <? _) eqn:Eo; [done|]. apply Z.ltb_ge in Eo. apply IH. split; [|done].
    apply Z.mod_pos_bound. lia.
Qed.

(** A parsed duration is a 64-bit integer. *)
Lemma ParseDuration_range s d : ParseDuration s = Ok d -> in_int64 d.
Proof.
  unfold ParseDuration, in_int64, min_int64, max_int64.
  destruct (match s with String "-" _ => _ | _ => _ end) as [neg t].
  destruct (t =?s "0"); [intros [= <-]; lia|]. destruct (t =?s ""); [done|].
  destruct (duration_loop _ t 0) as [[r|]|] eqn:El; [|done..]. apply duration_loop_range in El; [|lia].
  destruct neg.
  - intros [= <-]. pose proof (wrap64_range (- r)) as Hw. unfold in_int64, min_int64, max_int64 in Hw. lia.
  - destruct (_ <? _) eqn:Eo; [done|]. apply Z.ltb_ge in Eo. intros [= <-]. lia.
Qed.

Example parse_hours : ParseDuration "24h" = Ok (24 * Hour).
Proof. by vm_compute. Qed.
Example parse_mixed : ParseDuration "-1h15m30.918273645s" = Ok (- (75 * Minute + 30918273645)).
Proof. by vm_compute. Qed.
Example parse_half : ParseDuration ".5h" = Ok (30 * Minute).
Proof. by vm_compute. Qed.
Example parse_smallest : ParseDuration "-9223372036854775808ns" = Ok min_int64.
Proof. by vm_compute. Qed.
Example parse_too_large : is_ok (ParseDuration "9223372036854775808ns") = false.
Proof. by vm_compute. Qed.
Example parse_no_unit : is_ok (ParseDuration "15") = false.
Proof. by vm_compute. Qed.
Example parse_micro : ParseDuration "3.7µs" = Ok 3700.
Proof. by vm_compute. Qed.
