(* ===== verification/GoFlag.v ===== *)
(** * Go's [flag] package and the process environment

    A flag set is the map from the names of its flags to their current values; a flag is bound to
    a variable with [StringVar], [BoolVar] or [DurationVar], so that its value in the map is the
    variable.  [flags_Parse] is [FlagSet.Parse] with [flag.ContinueOnError]: it stops at the first
    argument that is not a flag, or after [--].  An error names the flag; the quoted value of the
    library's message is left out.

    Parsing keeps the flags and their types ([flags_Parse_kind]), and what is written as
    [--name=value] is what the variable holds afterwards ([flags_Parse_set]). *)

From S2P Require Import Prelude GoStrings GoEncoding GoTime.
From stdpp Require Import options.

(** [if value := os.Getenv(name); value != "" { return value }; return fallback]. *)
Definition env_or (Getenv : string -> string) (name fallback : string) : string :=
  if Getenv name <>?s "" then Getenv name else fallback.

Inductive FlagValue :=
  | StringFlag (value : string)
  | BoolFlag (value : bool)
  | DurationFlag (value : Duration).

Abbreviation FlagSet := (gmap string FlagValue).

Definition IsBoolFlag (v : FlagValue) : bool := match v with BoolFlag _ => true | _ => false end.

(** [Value.Set]. *)
Definition flag_Set (old : FlagValue) (text : string) : result FlagValue :=
  match old with
  | StringFlag _ => Ok (StringFlag text)
  | BoolFlag _ => b <-! ParseBool text ;; Ok (BoolFlag b)
  | DurationFlag _ => d <-! ParseDuration text ;; Ok (DurationFlag d)
  end%go.

(** The value of an argument, after the first [=] that is not its first byte. *)
Definition split_value (arg : string) : string * option string :=
  match arg with
  | EmptyString => ("", None)
  | String c rest =>
      match cut_byte "=" rest with
      | Some (name, value) => (String c name, Some value)
      | None => (arg, None)
      end
  end.

Inductive FlagArg :=
  | NotFlag                                       (** the first positional argument *)
  | Terminator                                    (** [--] *)
  | BadSyntax
  | FlagNamed (name : string) (value : option string).

(** The first part of [parseOne]. *)
Definition classify (s : string) : FlagArg :=
  let named name :=
    match name with
    | EmptyString => BadSyntax
    | String c _ => if byte_in c "-=" then BadSyntax else let '(n, v) := split_value name in FlagNamed n v
    end in
  match s with
  | String "-" (String "-" EmptyString) => Terminator
  | String "-" (String "-" name) => named name
  | String "-" EmptyString => NotFlag
  | String "-" name => named name
  | _ => NotFlag
  end.

Definition flag_error (name : string) : error := ErrMsg ("invalid value for flag -" +:+ name).

Fixpoint flags_Parse (formal : FlagSet) (args : list string) : result (FlagSet * list string) :=
  match args with
  | [] => Ok (formal, [])
  | s :: rest =>
      match classify s with
      | NotFlag => Ok (formal, args)
      | Terminator => Ok (formal, rest)
      | BadSyntax => Err (ErrMsg ("bad flag syntax: " +:+ s))
      | FlagNamed name value =>
          match formal !! name with
          | None =>
              if contains name ["help"; "h"] then Err (ErrMsg "flag: help requested")
              else Err (ErrMsg ("flag provided but not defined: -" +:+ name))
          | Some old =>
              let assign text k :=
                match flag_Set old text with
                | Ok v => k (<[name := v]> formal)
                | Err _ => Err (flag_error name)
                end in
              match value with
              | Some text => assign text (fun formal => flags_Parse formal rest)
              | None =>
                  if IsBoolFlag old then assign "true" (fun formal => flags_Parse formal rest)
                  else match rest with
                  | [] => Err (ErrMsg ("flag needs an argument: -" +:+ name))
                  | text :: rest => assign text (fun formal => flags_Parse formal rest)
                  end
              end
          end
      end
  end.

(** The variables after parsing. *)
Definition string_flag (flags : FlagSet) (name : string) : string :=
  match flags !! name with Some (StringFlag s) => s | _ => "" end.
Definition bool_flag (flags : FlagSet) (name : string) : bool :=
  match flags !! name with Some (BoolFlag b) => b | _ => false end.
Definition duration_flag (flags : FlagSet) (name : string) : Duration :=
  match flags !! name with Some (DurationFlag d) => d | _ => 0 end.

(** [flags.Parse(args)] followed by the refusal of positional arguments. *)
Definition parse_flags (formal : FlagSet) (args : list string) : result FlagSet :=
  parsed <-! flags_Parse formal args ;;
  if negb (Nat.eqb (length (snd parsed)) 0) then Err (ErrMsg "unexpected positional arguments")
  else Ok (fst parsed).

(** ** Properties *)

Definition same_kind (v w : FlagValue) : bool :=
  match v, w with
  | StringFlag _, StringFlag _ | BoolFlag _, BoolFlag _ | DurationFlag _, DurationFlag _ => true
  | _, _ => false
  end.

Lemma same_kind_refl v : same_kind v v = true.
Proof. by destruct v. Qed.

Lemma same_kind_trans u v w : same_kind u v = true -> same_kind v w = true -> same_kind u w = true.
Proof. by destruct u, v, w. Qed.

Lemma flag_Set_kind old text v : flag_Set old text = Ok v -> same_kind old v = true.
Proof.
  destruct old; cbn [flag_Set]; [by intros [= <-]| |].
  - destruct (ParseBool text); cbn; [by intros [= <-]|done].
  - destruct (ParseDuration text); cbn; [by intros [= <-]|done].
Qed.

(** The flags of two sets agree in names and types. *)
Definition flags_alike (f g : FlagSet) : Prop :=
  forall name, match f !! name, g !! name with
               | Some v, Some w => same_kind v w = true
               | None, None => True
               | _, _ => False
               end.

Lemma flags_alike_refl f : flags_alike f f.
Proof. intros name. destruct (f !! name); [apply same_kind_refl|done]. Qed.

Lemma flags_alike_trans f g h : flags_alike f g -> flags_alike g h -> flags_alike f h.
Proof.
  intros Hfg Hgh name. specialize (Hfg name). specialize (Hgh name).
  destruct (f !! name), (g !! name), (h !! name); try done. by eapply same_kind_trans.
Qed.

Lemma flags_alike_insert f name old v :
  f !! name = Some old -> same_kind old v = true -> flags_alike f (<[name := v]> f).
Proof.
  intros Hf Hk n. destruct (decide (n = name)) as [->|Hn].
  - by rewrite Hf, lookup_insert_eq.
  - rewrite lookup_insert_ne by done. by apply flags_alike_refl.
Qed.

(** Parsing assigns to the flags that are defined, within their types. *)
Lemma flags_Parse_kind formal args flags rest :
  flags_Parse formal args = Ok (flags, rest) -> flags_alike formal flags.
Proof.
  revert formal. induction args as [args IH] using (induction_ltof1 _ length). intros formal.
  destruct args as [|s args]; cbn [flags_Parse]; [intros [= <- <-]; apply flags_alike_refl|].
  assert (forall name old text rest', (length rest' < length (s :: args))%nat -> formal !! name = Some old ->
    match flag_Set old text with Ok v => flags_Parse (<[name := v]> formal) rest' | Err _ => Err (flag_error name) end
      = Ok (flags, rest) -> flags_alike formal flags) as Hstep.
  { intros name old text rest' Hl Ho. destruct (flag_Set old text) as [v|] eqn:Es; [|done].
    intros Hp%IH; [|exact Hl]. eapply flags_alike_trans, Hp.
    by eapply flags_alike_insert, flag_Set_kind. }
  destruct (classify s) as [| | |name value]; [intros [= <- <-]; apply flags_alike_refl..|done|].
  destruct (formal !! name) as [old|] eqn:Eo; [|by destruct (contains _ _)].
  destruct value as [text|]; [apply Hstep; [cbn; lia|done]|].
  destruct (IsBoolFlag old); [apply Hstep; [cbn; lia|done]|].
  destruct args as [|text args]; [done|]. apply Hstep; [cbn; lia|done].
Qed.

(** A well-formed flag name, as it is written after the dashes. *)
Definition flag_name (name : string) : bool :=
  match name with
  | EmptyString => false
  | String c _ => negb (byte_in c "-=") && negb (contains_byte "=" name)
  end.

Lemma classify_assignment name text :
  flag_name name = true -> classify ("--" +:+ name +:+ "=" +:+ text) = FlagNamed name (Some text).
Proof.
  destruct name as [|c name]; [done|]. cbn [flag_name]. rewrite contains_byte_cons.
  intros [Hc%negb_true_iff Hn]%andb_true_iff. apply negb_true_iff, orb_false_iff in Hn as [_ Hn].
  change (classify ("--" +:+ String c name +:+ "=" +:+ text)) with
    (if byte_in c "-=" then BadSyntax
     else let '(n, v) := split_value (String c (name +:+ String "=" text)) in FlagNamed n v).
  rewrite Hc. cbn [split_value].
  assert (cut_byte "=" (name +:+ String "=" text) = Some (name, text)) as ->
    by (by apply cut_byte_Some). done.
Qed.

(** What is written as [--name=value] is what the variable holds, if nothing later assigns it. *)
Lemma flags_Parse_set formal name text old v rest :
  flag_name name = true -> formal !! name = Some old -> flag_Set old text = Ok v ->
  flags_Parse formal (("--" +:+ name +:+ "=" +:+ text) :: rest) = flags_Parse (<[name := v]> formal) rest.
Proof.
  intros Hn Ho Hv. cbn [flags_Parse]. rewrite classify_assignment by done. by rewrite Ho, Hv.
Qed.

Example parse_bool_flag :
  flags_Parse {["leader-elect" := BoolFlag true]} ["--leader-elect=false"; "extra"]
  = Ok ({["leader-elect" := BoolFlag false]}, ["extra"]).
Proof. vm_compute. reflexivity. Qed.

Example parse_next_argument :
  flags_Parse {["method" := StringFlag "GET"]} ["-method"; "PUT"; "--"; "-x"]
  = Ok ({["method" := StringFlag "PUT"]}, ["-x"]).
Proof. vm_compute. reflexivity. Qed.
