(* ===== verification/GoJson.v ===== *)
(** * Go's [encoding/json]

    Values as a tree; the text that [Encoder.Encode] writes with HTML escaping off, where a map's
    keys are sorted; the scanner and decoder of [json.Unmarshal] and [Decoder.Decode], with the
    nesting limit of 10000; and the decoding of strings, integers, string slices and structs as
    [reflect]-driven decoding does it (null leaves a value as it was, a field's name is matched
    exactly or else up to case, later members win).

    [json_text_parses] is the round trip: a tree of valid text parses back from what is written
    for it, so that the encoding is injective ([json_text_inj]).  The parser recurses with fuel;
    [json_fuel_enough] says that twice the length of the text is enough.  The wording of syntax
    errors is not modelled. *)

From stdpp Require Import sorting.
From S2P Require Import Prelude GoStrings GoEncoding.
From stdpp Require Import options.
#[local] Open Scope Z_scope.

#[local] Set Warnings "-register-all".
Inductive json :=
  | JNull
  | JBool (b : bool)
  | JNumber (literal : string)
  | JString (s : string)
  | JArray (items : list json)
  | JObject (members : list (string * json)).

(** Induction through the lists of a tree. *)
Fixpoint json_nested_ind (P : json -> Prop)
    (Hnull : P JNull) (Hbool : forall b, P (JBool b)) (Hnumber : forall l, P (JNumber l))
    (Hstring : forall s, P (JString s)) (Harray : forall l, Forall P l -> P (JArray l))
    (Hobject : forall l, Forall (fun m => P m.2) l -> P (JObject l)) (v : json) : P v :=
  let IH := json_nested_ind P Hnull Hbool Hnumber Hstring Harray Hobject in
  match v with
  | JNull => Hnull
  | JBool b => Hbool b
  | JNumber l => Hnumber l
  | JString s => Hstring s
  | JArray l => Harray l (list_ind (Forall P) (Forall_nil_2 _) (fun x l Hl => Forall_cons_2 _ _ _ (IH x) Hl) l)
  | JObject l =>
      Hobject l (list_ind (Forall (fun m => P m.2)) (Forall_nil_2 _)
                   (fun m l Hl => Forall_cons_2 _ _ _ (IH m.2) Hl) l)
  end.

Definition dq : ascii := "034".
Definition backslash : ascii := "\".

(** ** Strings *)

(** A maximal valid encoding, or one invalid byte: its bytes, its rune and whether it is valid. *)
Record chunk := { ch_bytes : string; ch_rune : N; ch_valid : bool }.

Definition bad_chunk (b : ascii) : chunk := {| ch_bytes := String b ""; ch_rune := RuneError; ch_valid := false |}.
Definition whole_chunk (bytes : string) (r : N) : chunk := {| ch_bytes := bytes; ch_rune := r; ch_valid := true |}.

(** [utf8.DecodeRune] along a string. *)
Fixpoint chunks (s : string) : list chunk :=
  match s with
  | EmptyString => []
  | String b0 s1 =>
      let x := byte b0 in
      if (x <? 128)%N then whole_chunk (String b0 "") x :: chunks s1
      else if in_range 194 223 x then
        match s1 with
        | String b1 s2 =>
            if cont b1 then whole_chunk (String b0 (String b1 "")) (rune2 b0 b1) :: chunks s2
            else bad_chunk b0 :: chunks s1
        | EmptyString => bad_chunk b0 :: chunks s1
        end
      else if in_range 224 239 x then
        match s1 with
        | String b1 (String b2 s3) =>
            if second_ok b0 b1 && cont b2
            then whole_chunk (String b0 (String b1 (String b2 ""))) (rune3 b0 b1 b2) :: chunks s3
            else bad_chunk b0 :: chunks s1
        | _ => bad_chunk b0 :: chunks s1
        end
      else if in_range 240 244 x then
        match s1 with
        | String b1 (String b2 (String b3 s4)) =>
            if second_ok b0 b1 && cont b2 && cont b3
            then whole_chunk (String b0 (String b1 (String b2 (String b3 "")))) (rune4 b0 b1 b2 b3) :: chunks s4
            else bad_chunk b0 :: chunks s1
        | _ => bad_chunk b0 :: chunks s1
        end
      else bad_chunk b0 :: chunks s1
  end.

Definition hex4 (n : N) : string :=
  String (hex_lower (N.land (N.shiftr n 12) 15)) (String (hex_lower (N.land (N.shiftr n 8) 15))
    (String (hex_lower (N.land (N.shiftr n 4) 15)) (String (hex_lower (N.land n 15)) ""))).

Definition unicode_escape (n : N) : string := String backslash (String "u" (hex4 n)).

(** [appendString]: one character, without HTML escaping. *)
Definition quote_ascii (b : ascii) : string :=
  if bool_decide (b = dq) || bool_decide (b = backslash) then String backslash (String b "")
  else if bool_decide (b = "008"%char) then "\b"
  else if bool_decide (b = "012"%char) then "\f"
  else if bool_decide (b = "010"%char) then "\n"
  else if bool_decide (b = "013"%char) then "\r"
  else if bool_decide (b = "009"%char) then "\t"
  else if (byte b <? 32)%N then unicode_escape (byte b)
  else String b "".

Definition quote_chunk (c : chunk) : string :=
  if negb (ch_valid c) then unicode_escape RuneError
  else match ch_bytes c with
  | String b EmptyString => quote_ascii b
  | bytes => if (ch_rune c =? 8232)%N || (ch_rune c =? 8233)%N then unicode_escape (ch_rune c) else bytes
  end.

Definition json_quote_body (s : string) : string := foldr (fun c acc => quote_chunk c +:+ acc) "" (chunks s).

Definition json_quote (s : string) : string := String dq (json_quote_body s +:+ String dq "").

(** The scanner's part: up to the closing quote, with escapes well formed and no control bytes.
    It returns the literal's contents and what follows. *)
Fixpoint scan_string (s : string) : option (string * string) :=
  match s with
  | EmptyString => None
  | String c s1 =>
      if bool_decide (c = dq) then Some ("", s1)
      else if bool_decide (c = backslash) then
        match s1 with
        | EmptyString => None
        | String e s2 =>
            if byte_in e (String dq "\/bfnrt") then
              '(raw, rest) ← scan_string s2; Some (String c (String e raw), rest)
            else if bool_decide (e = "u"%char) then
              match s2 with
              | String h1 (String h2 (String h3 (String h4 s6))) =>
                  if forallb (fun h => bool_decide (is_Some (hex_digit_value h))) [h1; h2; h3; h4] then
                    '(raw, rest) ← scan_string s6;
                    Some (String c (String e (String h1 (String h2 (String h3 (String h4 raw))))), rest)
                  else None
              | _ => None
              end
            else None
        end
      else if (byte c <? 32)%N then None
      else '(raw, rest) ← scan_string s1; Some (String c raw, rest)
  end.

Definition hex_rune (r : N) : N := default 0%N (hex_digit_value (chr r)).

(** [getu4] of a scanned escape. *)
Definition getu4 (h1 h2 h3 h4 : N) : N :=
  (((hex_rune h1 * 16 + hex_rune h2) * 16 + hex_rune h3) * 16 + hex_rune h4)%N.

Definition is_surrogate (r : N) : bool := in_range 55296 57343 r.

(** [utf16.DecodeRune]. *)
Definition utf16_DecodeRune (r1 r2 : N) : N :=
  if in_range 55296 56319 r1 && in_range 56320 57343 r2
  then ((r1 - 55296) * 1024 + (r2 - 56320) + 65536)%N
  else RuneError.

Definition escape_rune (e : N) : N :=
  if (e =? 98)%N then 8%N else if (e =? 102)%N then 12%N else if (e =? 110)%N then 10%N
  else if (e =? 114)%N then 13%N else if (e =? 116)%N then 9%N else e.

(** [unquote] over the runes of a scanned literal. *)
Fixpoint json_unescape (l : list N) : list N :=
  match l with
  | [] => []
  | r :: l1 =>
      if negb (r =? 92)%N then r :: json_unescape l1
      else match l1 with
      | [] => []
      | e :: l2 =>
          if negb (e =? 117)%N then escape_rune e :: json_unescape l2
          else match l2 with
          | h1 :: h2 :: h3 :: h4 :: l6 =>
              let rr := getu4 h1 h2 h3 h4 in
              if negb (is_surrogate rr) then rr :: json_unescape l6
              else match l6 with
              | b :: u :: g1 :: g2 :: g3 :: g4 :: l12 =>
                  let dec := utf16_DecodeRune rr (getu4 g1 g2 g3 g4) in
                  if (b =? 92)%N && (u =? 117)%N && negb (dec =? RuneError)%N
                  then dec :: json_unescape l12
                  else RuneError :: json_unescape l6
              | _ => RuneError :: json_unescape l6
              end
          | _ => []
          end
      end
  end.

Definition unquote (raw : string) : string := encode_runes (json_unescape (runes raw)).

(** [utf8.ValidString]: decoding and encoding give the string back. *)
Definition valid_text (s : string) : bool := encode_runes (runes s) =?s s.

(** *** Round trip of strings *)

Lemma chunks_runes s : ch_rune <$> chunks s = runes s.
Proof.
  induction s as [s IH] using (induction_ltof1 _ String.length). unfold ltof in IH.
  destruct s as [|b0 s1]; [done|]. cbn [chunks runes]. cbn [String.length] in IH.
  repeat case_match; simplify_eq; cbn [fmap list_fmap ch_rune whole_chunk bad_chunk];
    try rewrite fmap_cons; cbn [ch_rune whole_chunk bad_chunk]; f_equal; apply IH; cbn; lia.
Qed.

(** A valid chunk decodes to its rune, whatever follows; its bytes are ASCII or have the top bit. *)
Record chunk_ok (c : chunk) : Prop := {
  co_runes : forall t, runes (ch_bytes c +:+ t) = ch_rune c :: runes t;
  co_bytes : match ch_bytes c with
             | String b EmptyString => is_ascii b = true
             | bytes => string_forallb (fun b => (128 <=? byte b)%N) bytes = true /\ ch_rune c <> 92%N
             end
}.

Lemma cont_high b : cont b = true -> (128 <=? byte b)%N = true.
Proof. unfold cont, in_range. rewrite andb_true_iff. tauto. Qed.

Lemma second_high b0 b1 : second_ok b0 b1 = true -> (128 <=? byte b1)%N = true.
Proof.
  unfold second_ok, cont, in_range. rewrite N.leb_le.
  repeat case_match; rewrite andb_true_iff, !N.leb_le; lia.
Qed.

Lemma lead_high lo hi b : in_range lo hi (byte b) = true -> (128 <= lo)%N -> (128 <=? byte b)%N = true.
Proof. unfold in_range. rewrite andb_true_iff, !N.leb_le. lia. Qed.

(** No multi-byte encoding decodes to the backslash: a bit above the seventh is set. *)
Lemma lor_not_backslash x y : N.shiftr x 7 <> 0%N -> N.lor x y <> 92%N.
Proof.
  intros Hx E. apply (f_equal (fun n => N.shiftr n 7)) in E. rewrite N.shiftr_lor in E.
  change (N.shiftr 92 7) with 0%N in E. by apply N.lor_eq_0_l in E.
Qed.

Lemma rune2_not_backslash b0 b1 : in_range 194 223 (byte b0) = true -> rune2 b0 b1 <> 92%N.
Proof.
  intros Hb. apply lor_not_backslash.
  destruct b0 as [[] [] [] [] [] [] [] []]; try discriminate Hb; discriminate.
Qed.

Lemma rune3_not_backslash b0 b1 b2 :
  in_range 224 239 (byte b0) = true -> second_ok b0 b1 = true -> rune3 b0 b1 b2 <> 92%N.
Proof.
  intros Hb Hs. unfold rune3. rewrite N.lor_assoc. apply lor_not_backslash.
  rewrite N.shiftr_lor. intros E. pose proof (N.lor_eq_0_l _ _ E) as E1. rewrite N.lor_comm in E.
  apply N.lor_eq_0_l in E.
  destruct b0 as [[] [] [] [] [] [] [] []]; try discriminate Hb; try discriminate E1.
  destruct b1 as [[] [] [] [] [] [] [] []]; discriminate.
Qed.

Lemma rune4_not_backslash b0 b1 b2 b3 :
  in_range 240 244 (byte b0) = true -> second_ok b0 b1 = true -> rune4 b0 b1 b2 b3 <> 92%N.
Proof.
  intros Hb Hs. unfold rune4. rewrite N.lor_assoc. apply lor_not_backslash.
  rewrite N.shiftr_lor. intros E. pose proof (N.lor_eq_0_l _ _ E) as E1. rewrite N.lor_comm in E.
  apply N.lor_eq_0_l in E.
  destruct b0 as [[] [] [] [] [] [] [] []]; try discriminate Hb; try discriminate E1.
  destruct b1 as [[] [] [] [] [] [] [] []]; discriminate.
Qed.

Lemma chunks_ok s : Forall (fun c => ch_valid c = true -> chunk_ok c) (chunks s).
Proof.
  induction s as [s IH] using (induction_ltof1 _ String.length). unfold ltof in IH.
  destruct s as [|b0 s1]; [constructor|]. cbn [chunks]. cbn [String.length] in IH.
  repeat case_match; simplify_eq; (constructor; [|apply IH; cbn; lia]); intros Hv; try discriminate Hv;
    (constructor; [intros t; cbn [ch_bytes whole_chunk ch_rune]; rewrite ?string_app_cons;
       change ("" +:+ t) with t; cbn [runes];
       repeat match goal with E : _ = true |- _ => rewrite E | E : _ = false |- _ => rewrite E end; done|]);
    cbn [ch_bytes whole_chunk string_forallb]; rewrite ?andb_true_r; bool_to_prop.
  - done.
  - split; [rewrite (lead_high 194 223), cont_high; done || lia|by apply rune2_not_backslash].
  - split; [rewrite (lead_high 224 239), (second_high b0), cont_high; done || lia|by apply rune3_not_backslash].
  - split; [rewrite (lead_high 240 244), (second_high b0), !cont_high; done || lia|by apply rune4_not_backslash].
Qed.

(** The scanner passes over a piece of a literal. *)
Definition scans (p : string) : Prop := forall t,
  scan_string (p +:+ t) = '(raw, rest) ← scan_string t; Some (p +:+ raw, rest).

Lemma scans_bytes p :
  string_forallb (fun b => (128 <=? byte b)%N) p = true -> scans p.
Proof.
  induction p as [|b p IH]; intros Hp t.
  - change ("" +:+ t) with t. by destruct (scan_string t) as [[? ?]|].
  - cbn [string_forallb] in Hp. apply andb_true_iff in Hp as [Hb Hp]. rewrite string_app_cons.
    apply N.leb_le in Hb. cbn [scan_string].
    assert (bool_decide (b = dq) = false) as -> by (apply bool_decide_eq_false; intros ->; by vm_compute in Hb).
    assert (bool_decide (b = backslash) = false) as ->
      by (apply bool_decide_eq_false; intros ->; by vm_compute in Hb).
    assert ((byte b <? 32)%N = false) as -> by (apply N.ltb_ge; lia).
    rewrite (IH Hp). by destruct (scan_string t) as [[? ?]|].
Qed.

(** It reads as the rune [r]. *)
Definition reads (p : string) (r : N) : Prop := forall t,
  json_unescape (runes (p +:+ t)) = r :: json_unescape (runes t).

(** Every ASCII character, and the three escaped runes, by evaluation. *)
Lemma quote_ascii_ok b : is_ascii b = true -> scans (quote_ascii b) /\ reads (quote_ascii b) (byte b).
Proof.
  destruct b as [[] [] [] [] [] [] [] []]; intros Hb; try discriminate Hb; clear Hb; split; intros t;
    repeat (rewrite string_app_cons || change ("" +:+ t) with t); cbv [quote_ascii]; cbn;
    try reflexivity; by destruct (scan_string t) as [[? ?]|].
Qed.

Lemma unicode_escape_ok r :
  r = RuneError \/ r = 8232%N \/ r = 8233%N -> scans (unicode_escape r) /\ reads (unicode_escape r) r.
Proof.
  intros [->|[->| ->]]; (split; intros t; [|reflexivity]);
    cbv [unicode_escape hex4]; repeat (rewrite string_app_cons || change ("" +:+ t) with t); cbn;
    by destruct (scan_string t) as [[? ?]|].
Qed.

Lemma quote_chunk_ok c :
  (ch_valid c = false -> ch_rune c = RuneError) -> (ch_valid c = true -> chunk_ok c) ->
  scans (quote_chunk c) /\ reads (quote_chunk c) (ch_rune c).
Proof.
  intros Hbad Hok. unfold quote_chunk. destruct (ch_valid c); cbn [negb].
  2: { rewrite Hbad by done. apply unicode_escape_ok. by left. }
  destruct (Hok eq_refl) as [Hr Hb]. destruct (ch_bytes c) as [|b [|b1 bs]] eqn:Eb.
  - specialize (Hr ""). by apply (f_equal length) in Hr.
  - specialize (Hr ""). change (String b "" +:+ "") with (String b "") in Hr.
    rewrite runes_cons_ascii in Hr by done. injection Hr as <-. by apply quote_ascii_ok.
  - destruct Hb as [Hb Hnot]. destruct (_ || _) eqn:E.
    + apply unicode_escape_ok. right. by apply orb_true_iff in E as [?%N.eqb_eq|?%N.eqb_eq]; [left|right].
    + split; [by apply scans_bytes|]. intros t. rewrite Hr. cbn [json_unescape].
      apply N.eqb_neq in Hnot. by rewrite Hnot.
Qed.

Lemma bad_chunk_rune s : Forall (fun c => ch_valid c = false -> ch_rune c = RuneError) (chunks s).
Proof.
  induction s as [s IH] using (induction_ltof1 _ String.length). unfold ltof in IH.
  destruct s as [|b0 s1]; [constructor|]. cbn [chunks]. cbn [String.length] in IH.
  repeat case_match; simplify_eq; (constructor; [done|apply IH; cbn; lia]).
Qed.

Lemma json_quote_body_ok s rest :
  scan_string (json_quote_body s +:+ String dq rest) = Some (json_quote_body s, rest) /\
  json_unescape (runes (json_quote_body s)) = runes s.
Proof.
  rewrite <- (chunks_runes s). unfold json_quote_body.
  pose proof (chunks_ok s) as Hok. pose proof (bad_chunk_rune s) as Hbad.
  induction (chunks s) as [|c l IH]; [done|]. cbn [foldr fmap list_fmap].
  apply Forall_cons in Hok as [Hc Hok]. apply Forall_cons in Hbad as [Hb Hbad].
  destruct (quote_chunk_ok c Hb Hc) as [Hs Hr]. destruct (IH Hok Hbad) as [IHs IHr].
  rewrite string_app_assoc, (Hs _), (Hr _), IHs. cbn. by rewrite IHr.
Qed.

(** A string literal of valid text reads back. *)
Lemma json_quote_scans s rest :
  valid_text s = true ->
  exists raw, json_quote s +:+ rest = String dq (raw +:+ String dq rest) /\
    scan_string (raw +:+ String dq rest) = Some (raw, rest) /\ unquote raw = s.
Proof.
  intros Hv. exists (json_quote_body s). destruct (json_quote_body_ok s rest) as [Hs Hr].
  split; [|split; [done|]].
  - unfold json_quote. rewrite string_app_cons, string_app_assoc. done.
  - unfold unquote. rewrite Hr. by apply seqb_eq.
Qed.

(** ** Numbers *)

Definition number_char (c : ascii) : bool := is_digit c || byte_in c "+-.eE".

Fixpoint span_string (p : ascii -> bool) (s : string) : string * string :=
  match s with
  | EmptyString => ("", "")
  | String c t => if p c then let '(a, b) := span_string p t in (String c a, b) else ("", s)
  end.

(** At least one digit; what follows them. *)
Definition digits1 (s : string) : option string :=
  match span_string is_digit s with ("", _) => None | (_, rest) => Some rest end.

(** The integer part: [0], or digits that do not start with it. *)
Definition int_part (s : string) : option string :=
  match s with
  | String c t => if bool_decide (c = "0"%char) then Some t else digits1 s
  | EmptyString => None
  end.

Definition frac_part (s : string) : option string :=
  match s with
  | String c t => if bool_decide (c = "."%char) then digits1 t else Some s
  | EmptyString => Some s
  end.

Definition exp_part (s : string) : option string :=
  match s with
  | String c t =>
      if byte_in c "eE"
      then digits1 (match t with String g u => if byte_in g "+-" then u else t | EmptyString => t end)
      else Some s
  | EmptyString => Some s
  end.

(** The grammar of number literals. *)
Definition valid_number (s : string) : bool :=
  bool_decide ((r ← int_part (match s with String c t => if bool_decide (c = "-"%char) then t else s | _ => s end);
                r ← frac_part r; exp_part r) = Some "").

(** ** Encoding *)

(** The text of a tree; the members of an object in the order they have. *)
Fixpoint json_text (v : json) : string :=
  match v with
  | JNull => "null"
  | JBool b => if b then "true" else "false"
  | JNumber literal => literal
  | JString s => json_quote s
  | JArray l => String "[" (strings_Join (List.map json_text l) "," +:+ "]")
  | JObject l =>
      String "{" (strings_Join (List.map (fun m => json_quote m.1 +:+ String ":" (json_text m.2)) l) "," +:+ "}")
  end.

(** [Encoder.Encode] ends with a newline. *)
Definition json_Encode (v : json) : string := json_text v +:+ String "010" "".

(** ** Parsing *)

Definition json_space (c : ascii) : bool := byte_in c (String " " (String "009" (String "013" (String "010" "")))).

Fixpoint skip_space (s : string) : string :=
  match s with String c t => if json_space c then skip_space t else s | EmptyString => s end.

Definition scan_number (s : string) : option (json * string) :=
  let '(literal, rest) := span_string number_char s in
  if valid_number literal then Some (JNumber literal, rest) else None.

(** [maxNestingDepth] of the scanner. *)
Definition maxNestingDepth : nat := Z.to_nat 10000.

Fixpoint json_value (fuel depth : nat) (s : string) {struct fuel} : option (json * string) :=
  match fuel with
  | O => None
  | S fuel =>
      match skip_space s with
      | EmptyString => None
      | String c t as u =>
          if bool_decide (c = "n"%char) then r ← CutPrefix u "null"; Some (JNull, r)
          else if bool_decide (c = "t"%char) then r ← CutPrefix u "true"; Some (JBool true, r)
          else if bool_decide (c = "f"%char) then r ← CutPrefix u "false"; Some (JBool false, r)
          else if bool_decide (c = dq) then '(raw, r) ← scan_string t; Some (JString (unquote raw), r)
          else if bool_decide (c = "["%char) then
            match depth with
            | O => None
            | S depth =>
                match CutPrefix (skip_space t) "]" with
                | Some r => Some (JArray [], r)
                | None => '(l, r) ← json_elements fuel depth t; Some (JArray l, r)
                end
            end
          else if bool_decide (c = "{"%char) then
            match depth with
            | O => None
            | S depth =>
                match CutPrefix (skip_space t) "}" with
                | Some r => Some (JObject [], r)
                | None => '(l, r) ← json_members fuel depth t; Some (JObject l, r)
                end
            end
          else scan_number u
      end
  end
with json_elements (fuel depth : nat) (s : string) {struct fuel} : option (list json * string) :=
  match fuel with
  | O => None
  | S fuel =>
      '(v, r) ← json_value fuel depth s;
      match CutPrefix (skip_space r) "," with
      | Some r => '(l, r) ← json_elements fuel depth r; Some (v :: l, r)
      | None => r ← CutPrefix (skip_space r) "]"; Some ([v], r)
      end
  end
with json_members (fuel depth : nat) (s : string) {struct fuel} : option (list (string * json) * string) :=
  match fuel with
  | O => None
  | S fuel =>
      t ← CutPrefix (skip_space s) (String dq "");
      '(raw, r) ← scan_string t;
      r ← CutPrefix (skip_space r) ":";
      '(v, r) ← json_value fuel depth r;
      let m := (unquote raw, v) in
      match CutPrefix (skip_space r) "," with
      | Some r => '(l, r) ← json_members fuel depth r; Some (m :: l, r)
      | None => r ← CutPrefix (skip_space r) "}"; Some ([m], r)
      end
  end.

(** One value and what follows it. *)
Definition json_next (s : string) : option (json * string) :=
  json_value (S (2 * String.length s)) maxNestingDepth s.

Definition only_space (s : string) : bool := skip_space s =?s "".

(** What [json.Unmarshal] accepts: one value and white space. *)
Definition json_parse (s : string) : option json :=
  '(v, r) ← json_next s; if only_space r then Some v else None.

(** *** Round trip of trees *)

(** A tree that can be written and read back: its text is valid, its numbers are literals, and it
    nests at most [depth] deep. *)
Fixpoint json_ok (v : json) (depth : nat) {struct v} : bool :=
  match v with
  | JNull | JBool _ => true
  | JNumber literal => valid_number literal
  | JString s => valid_text s
  | JArray l => match depth with O => false | S depth => forallb (fun x => json_ok x depth) l end
  | JObject l =>
      match depth with O => false | S depth => forallb (fun m => valid_text m.1 && json_ok m.2 depth) l end
  end.

(** What may follow a number. *)
Definition delimited (rest : string) : Prop :=
  match rest with String c _ => number_char c = false | EmptyString => True end.

Lemma span_string_app p a b :
  string_forallb p a = true -> match b with String c _ => p c = false | EmptyString => True end ->
  span_string p (a +:+ b) = (a, b).
Proof.
  intros Ha Hb. induction a as [|c a IH].
  - change ("" +:+ b) with b. destruct b as [|c b]; [done|]. cbn. by rewrite Hb.
  - cbn in Ha. apply andb_true_iff in Ha as [Hc Ha]. rewrite string_app_cons. cbn. by rewrite Hc, (IH Ha).
Qed.

Lemma span_string_parts p s : string_forallb p (span_string p s).1 = true /\
  s = (span_string p s).1 +:+ (span_string p s).2.
Proof.
  induction s as [|c s [IH1 IH2]]; [done|]. cbn. destruct (p c) eqn:Ec; [|done].
  destruct (span_string p s) as [a b]. cbn in *. rewrite Ec. split; [done|]. rewrite string_app_cons. by f_equal.
Qed.

Lemma digits1_number s r :
  digits1 s = Some r -> string_forallb number_char r = true -> string_forallb number_char s = true.
Proof.
  unfold digits1. destruct (span_string_parts is_digit s) as [Hd Hs]. destruct (span_string is_digit s) as [a b].
  cbn in *. intros Hr Hn. rewrite Hs, string_forallb_app.
  assert (b = r) as -> by (destruct a; by simplify_eq). rewrite Hn, andb_true_r.
  eapply string_forallb_impl, Hd. intros c Hc. unfold number_char. by rewrite Hc.
Qed.

Lemma exp_part_number s : exp_part s = Some "" -> string_forallb number_char s = true.
Proof.
  destruct s as [|c t]; [done|]. cbn [exp_part]. destruct (byte_in c "eE") eqn:Ec; [|done]. intros Hd.
  assert (number_char c = true) as Hc.
  { unfold number_char. apply orb_true_iff. right. cbn in *.
    repeat (apply orb_true_iff in Ec as [Ec|Ec]; [rewrite Ec, ?orb_true_r; done|]). done. }
  cbn [string_forallb]. rewrite Hc. cbn. destruct t as [|g u]; [done|]. destruct (byte_in g "+-") eqn:Eg.
  - cbn [string_forallb]. rewrite (digits1_number u "" Hd eq_refl), andb_true_r. unfold number_char.
    apply orb_true_iff. right. cbn in *.
    repeat (apply orb_true_iff in Eg as [Eg|Eg]; [rewrite Eg, ?orb_true_r; done|]). done.
  - by apply (digits1_number _ "").
Qed.

Lemma frac_part_number s r :
  frac_part s = Some r -> string_forallb number_char r = true -> string_forallb number_char s = true.
Proof.
  destruct s as [|c t]; cbn [frac_part]; [by intros [= <-]|]. destruct (bool_decide (c = "."%char)) eqn:Ec.
  - apply bool_decide_eq_true in Ec as ->. intros Hd Hr. cbn [string_forallb]. by rewrite (digits1_number _ _ Hd Hr).
  - by intros [= <-].
Qed.

(** A number literal consists of number characters and starts with a digit or a sign. *)
Lemma valid_number_chars l :
  valid_number l = true -> string_forallb number_char l = true /\
  exists c t, l = String c t /\ (is_digit c || bool_decide (c = "-"%char)) = true.
Proof.
  unfold valid_number. rewrite bool_decide_eq_true. intros E.
  apply bind_Some in E as (r1 & E1 & E). apply bind_Some in E as (r2 & E2 & E3).
  apply exp_part_number in E3. apply (frac_part_number _ _ E2) in E3. clear E2.
  assert (forall s, int_part s = Some r1 -> string_forallb number_char s = true /\
            exists c t, s = String c t /\ is_digit c = true) as Hint.
  { intros [|c t]; [done|]. cbn [int_part]. destruct (bool_decide (c = "0"%char)) eqn:Ec.
    - apply bool_decide_eq_true in Ec as ->. intros [= <-]. split; [exact E3|]. by exists "0"%char, t.
    - intros Hd. split; [by apply (digits1_number _ r1)|]. exists c, t. split; [done|].
      unfold digits1 in Hd. cbn in Hd. by destruct (is_digit c). }
  destruct l as [|c t]; [done|]. destruct (bool_decide (c = "-"%char)) eqn:Ec.
  - destruct (Hint _ E1) as [Hn _]. apply bool_decide_eq_true in Ec as ->. split; [exact Hn|].
    by exists "-"%char, t.
  - destruct (Hint _ E1) as [Hn (c' & t' & Hc & Hd)]. split; [done|]. exists c', t'. by rewrite Hd.
Qed.

(** Characters that no value starts with. *)
Definition structural (c : ascii) : bool := json_space c || byte_in c ",:]}".

Lemma number_start c :
  is_digit c || bool_decide (c = "-"%char) = true ->
  structural c = false /\ existsb (fun d => bool_decide (c = d)) ["n"%char; "t"%char; "f"%char; dq; "["%char; "{"%char] = false.
Proof. destruct c as [[] [] [] [] [] [] [] []]; intros Hc; try discriminate Hc; done. Qed.

Lemma json_text_starts v depth :
  json_ok v depth = true -> exists c t, json_text v = String c t /\ structural c = false.
Proof.
  destruct v as [|[]|l|x|l|l]; cbn [json_ok json_text]; intros Hv.
  1, 2, 3, 5, 6, 7: by eexists _, _.
  apply valid_number_chars in Hv as (_ & c & t & -> & Hc). exists c, t. split; [done|]. by apply number_start.
Qed.

Lemma skip_space_start c t : structural c = false -> skip_space (String c t) = String c t.
Proof. unfold structural. intros [Hc _]%orb_false_iff. cbn [skip_space]. by rewrite Hc. Qed.

Lemma CutPrefix_structural c t d : structural c = false -> structural d = true ->
  CutPrefix (String c t) (String d "") = None.
Proof. intros Hc Hd. cbn. rewrite bool_decide_false; [done|]. intros ->. congruence. Qed.

Lemma string_length_app (a b : string) : String.length (a +:+ b) = (String.length a + String.length b)%nat.
Proof. induction a as [|c a IH]; [done|]. rewrite string_app_cons. cbn. by rewrite IH. Qed.

(** [parses v]: the parser reads [v] back, whatever follows. *)
Definition parses (v : json) : Prop := forall fuel depth rest,
  json_ok v depth = true -> delimited rest -> (2 * String.length (json_text v) < fuel)%nat ->
  json_value fuel depth (json_text v +:+ rest) = Some (v, rest).

Lemma number_parses l : parses (JNumber l).
Proof.
  intros fuel depth rest Hv Hd Hf. cbn [json_ok json_text] in *.
  destruct (valid_number_chars l Hv) as (Hn & c & t & -> & Hc).
  destruct fuel as [|fuel]; [cbn in Hf; lia|].
  destruct (number_start c Hc) as [Hs Hx]. cbn [existsb] in Hx.
  repeat (apply orb_false_iff in Hx as [?E Hx]). cbn [json_value].
  rewrite string_app_cons, (skip_space_start c) by done. cbv beta iota.
  rewrite E, E0, E1, E2, E3, E4. unfold scan_number.
  rewrite <- string_app_cons, (span_string_app number_char) by done. by rewrite Hv.
Qed.

Lemma string_parses s : parses (JString s).
Proof.
  intros [|fuel] depth rest Hv Hd Hf; [cbn in Hf; lia|]. cbn [json_ok json_text] in *.
  destruct (json_quote_scans s rest Hv) as (raw & -> & Hs & Hu). cbn [json_value].
  rewrite skip_space_start by done. 
  change (bool_decide (dq = "n"%char)) with false. change (bool_decide (dq = "t"%char)) with false.
  change (bool_decide (dq = "f"%char)) with false. change (bool_decide (dq = dq)) with true. cbv iota.
  rewrite Hs. cbn. by rewrite Hu.
Qed.

Lemma strings_Join_comma x y l : strings_Join (x :: y :: l) "," = x +:+ String "," (strings_Join (y :: l) ",").
Proof. reflexivity. Qed.

(** Elements, and members below, one at a time: the last one, or one followed by a comma. *)
Lemma elements_parse l fuel depth rest :
  Forall parses l -> l <> [] -> forallb (fun x => json_ok x depth) l = true ->
  (2 * String.length (strings_Join (List.map json_text l) ",") + 1 < fuel)%nat ->
  json_elements fuel depth (strings_Join (List.map json_text l) "," +:+ String "]" rest) = Some (l, rest).
Proof.
  intros Hl. revert fuel. induction Hl as [|v l Hv Hl IH]; intros fuel Hne Hok Hf; [done|].
  cbn [forallb] in Hok. apply andb_true_iff in Hok as [Hokv Hok]. destruct fuel as [|fuel]; [lia|].
  cbn [json_elements]. destruct l as [|v' l'].
  - change (strings_Join (List.map json_text [v]) ",") with (json_text v) in *.
    rewrite (Hv fuel depth (String "]" rest)); [done|done|done|lia].
  - change (List.map json_text (v :: v' :: l')) with (json_text v :: json_text v' :: List.map json_text l') in *.
    rewrite strings_Join_comma in *.
    change (json_text v' :: List.map json_text l') with (List.map json_text (v' :: l')) in *.
    rewrite string_length_app in Hf. cbn [String.length] in Hf.
    rewrite string_app_assoc, string_app_cons, (Hv fuel depth) by (done || lia).
    cbn [mbind option_bind]. rewrite (CutPrefix_app "," _ : CutPrefix (skip_space (String "," _)) "," = Some _).
    rewrite IH; done || lia.
Qed.

Definition member_text (m : string * json) : string := json_quote m.1 +:+ String ":" (json_text m.2).

Lemma members_parse l fuel depth rest :
  Forall (fun m => parses m.2) l -> l <> [] -> forallb (fun m => valid_text m.1 && json_ok m.2 depth) l = true ->
  (2 * String.length (strings_Join (List.map member_text l) ",") + 1 < fuel)%nat ->
  json_members fuel depth (strings_Join (List.map member_text l) "," +:+ String "}" rest) = Some (l, rest).
Proof.
  intros Hl. revert fuel. induction Hl as [|[k v] l Hv Hl IH]; intros fuel Hne Hok Hf; [done|].
  cbn [forallb fst snd] in Hok, Hv. apply andb_true_iff in Hok as [[Hk Hokv]%andb_true_iff Hok].
  destruct fuel as [|fuel]; [lia|]. cbn [json_members].
  assert (forall t, (2 * String.length (json_text v) < fuel)%nat -> delimited t ->
    exists raw r0 r1, CutPrefix (skip_space (member_text (k, v) +:+ t)) (String dq "") = Some r0 /\
      scan_string r0 = Some (raw, r1) /\ unquote raw = k /\
      exists r2, CutPrefix (skip_space r1) ":" = Some r2 /\ json_value fuel depth r2 = Some (v, t)) as Hm.
  { intros t Hlen Hd. unfold member_text. cbn [fst snd]. rewrite string_app_assoc, string_app_cons.
    destruct (json_quote_scans k (String ":" (json_text v +:+ t)) Hk) as (raw & -> & Hs & Hu).
    eexists raw, _, _. split; [reflexivity|]. split; [exact Hs|]. split; [done|].
    eexists. split; [reflexivity|]. by apply Hv. }
  assert (2 * String.length (json_text v) < fuel)%nat as Hlen.
  { assert (String.length (json_text v) + 2 <= String.length (member_text (k, v)))%nat.
    { unfold member_text, json_quote. rewrite string_length_app. cbn. lia. }
    destruct l as [|m' l']; [change (strings_Join _ _) with (member_text (k, v)) in Hf; lia|].
    cbn [List.map] in Hf. rewrite strings_Join_comma, string_length_app in Hf. lia. }
  destruct l as [|m' l'].
  - change (strings_Join (List.map member_text [(k, v)]) ",") with (member_text (k, v)) in *.
    destruct (Hm (String "}" rest) Hlen) as (raw & r0 & r1 & -> & Hs & Hu & r2 & Hc & Hval); [done|].
    cbn [mbind option_bind]. rewrite Hs. cbn [mbind option_bind]. rewrite Hc. cbn [mbind option_bind].
    rewrite Hval, Hu. done.
  - change (List.map member_text ((k, v) :: m' :: l'))
      with (member_text (k, v) :: member_text m' :: List.map member_text l') in *.
    rewrite strings_Join_comma in *.
    change (member_text m' :: List.map member_text l') with (List.map member_text (m' :: l')) in *.
    rewrite string_length_app in Hf. cbn [String.length] in Hf. rewrite string_app_assoc, string_app_cons.
    edestruct Hm as (raw & r0 & r1 & -> & Hs & Hu & r2 & Hc & Hval); [exact Hlen|..|].
    2: { cbn [mbind option_bind]. rewrite Hs. cbn [mbind option_bind]. rewrite Hc. cbn [mbind option_bind].
         rewrite Hval, Hu. cbn [mbind option_bind]. rewrite (CutPrefix_app "," _ : CutPrefix (skip_space (String "," _)) "," = Some _).
         rewrite IH; done || lia. }
    done.
Qed.

Lemma bracket_value fuel depth t :
  json_value (S fuel) (S depth) (String "[" t) =
  match CutPrefix (skip_space t) "]" with
  | Some r => Some (JArray [], r)
  | None => '(l, r) ← json_elements fuel depth t; Some (JArray l, r)
  end.
Proof. reflexivity. Qed.

Lemma brace_value fuel depth t :
  json_value (S fuel) (S depth) (String "{" t) =
  match CutPrefix (skip_space t) "}" with
  | Some r => Some (JObject [], r)
  | None => '(l, r) ← json_members fuel depth t; Some (JObject l, r)
  end.
Proof. reflexivity. Qed.

(** A list of texts does not start with a closing character. *)
Lemma CutPrefix_texts {A} (text : A -> string) x l d t :
  (exists c u, text x = String c u /\ structural c = false) -> structural d = true ->
  CutPrefix (skip_space (strings_Join (List.map text (x :: l)) "," +:+ t)) (String d "") = None.
Proof.
  intros (c & u & E & Hc) Hd.
  assert (exists u', strings_Join (List.map text (x :: l)) "," = String c u') as [u' ->].
  { destruct l as [|y l]; cbn [List.map].
    - exists u. exact E.
    - rewrite strings_Join_comma, E, string_app_cons. by eexists. }
  rewrite string_app_cons, skip_space_start by done. by apply CutPrefix_structural.
Qed.

Lemma json_text_parses v : parses v.
Proof.
  induction v as [|[]|l|s|l Hl|l Hl] using json_nested_ind.
  1, 2, 3: intros [|fuel] depth rest _ _ Hf; [cbn in Hf; lia|done].
  - apply number_parses.
  - apply string_parses.
  - intros [|fuel] depth rest Hok Hd Hf; [cbn in Hf; lia|]. cbn [json_ok json_text] in *.
    destruct depth as [|depth]; [done|]. rewrite string_app_cons, string_app_assoc, bracket_value.
    destruct l as [|v l]; [done|]. rewrite CutPrefix_texts.
    + cbn [String.length] in Hf. rewrite string_length_app in Hf. cbn [String.length] in Hf.
      change ("]" +:+ rest) with (String "]" rest). rewrite elements_parse; [done|done|done|done|lia].
    + cbn [forallb] in Hok. apply andb_true_iff in Hok as [Hok _]. by apply (json_text_starts v depth).
    + done.
  - intros [|fuel] depth rest Hok Hd Hf; [cbn in Hf; lia|]. cbn [json_ok json_text] in *.
    destruct depth as [|depth]; [done|]. rewrite string_app_cons, string_app_assoc, brace_value.
    change (fun m : string * json => json_quote m.1 +:+ String ":" (json_text m.2)) with member_text in *.
    destruct l as [|m l]; [done|]. rewrite CutPrefix_texts.
    + cbn [String.length] in Hf. rewrite string_length_app in Hf. cbn [String.length] in Hf.
      change ("}" +:+ rest) with (String "}" rest). rewrite members_parse; [done|done|done|done|lia].
    + exists dq, (json_quote_body m.1 +:+ String dq "" +:+ String ":" (json_text m.2)). split; [|done].
      unfold member_text, json_quote. by rewrite string_app_cons, string_app_assoc.
    + done.
Qed.

(** What [Encoder.Encode] writes for a tree parses back to it; so the encoding is injective. *)
Lemma json_parse_text v : json_ok v maxNestingDepth = true -> json_parse (json_text v) = Some v.
Proof.
  intros Hok. unfold json_parse, json_next. pose proof (json_text_parses v) as Hp.
  specialize (Hp (S (2 * String.length (json_text v))) maxNestingDepth "" Hok I).
  rewrite string_app_nil_r in Hp. by rewrite Hp by lia.
Qed.

Lemma json_parse_Encode v : json_ok v maxNestingDepth = true -> json_parse (json_Encode v) = Some v.
Proof.
  intros Hok. unfold json_parse, json_next, json_Encode.
  rewrite (json_text_parses v _ _ (String "010" "") Hok); [done|done|]. rewrite string_length_app. lia.
Qed.

Lemma json_text_inj v w :
  json_ok v maxNestingDepth = true -> json_ok w maxNestingDepth = true -> json_text v = json_text w -> v = w.
Proof. intros Hv%json_parse_text Hw%json_parse_text E. congruence. Qed.

(** *** The fuel is enough *)

Lemma CutPrefix_length s p r : CutPrefix s p = Some r -> String.length s = (String.length p + String.length r)%nat.
Proof. intros ->%CutPrefix_Some. apply string_length_app. Qed.

Lemma skip_space_length s : (String.length (skip_space s) <= String.length s)%nat.
Proof. induction s as [|c s IH]; [done|]. cbn. case_match; cbn; lia. Qed.

Lemma scan_string_length s raw r : scan_string s = Some (raw, r) -> (String.length r < String.length s)%nat.
Proof.
  revert raw r. induction s as [s IH] using (induction_ltof1 _ String.length). unfold ltof in IH.
  intros raw r. destruct s as [|c s]; [done|]. cbn [scan_string].
  assert (forall t (f : string -> string), (String.length t <= String.length s)%nat ->
    ('(x, y) ← scan_string t; Some (f x, y)) = Some (raw, r) -> (String.length r < S (String.length s))%nat) as Hrec.
  { intros t f Hle E. destruct (scan_string t) as [[x y]|] eqn:Et; cbn in E; [|done]. simplify_eq.
    apply IH in Et; cbn; lia. }
  cbn [String.length] in *. destruct (bool_decide (c = dq)); [intros; simplify_eq; lia|].
  destruct (bool_decide (c = backslash)).
  - destruct s as [|e s2]; [done|]. destruct (byte_in e _).
    { intros E. apply (Hrec s2 (fun x => String c (String e x))); [cbn; lia|done]. }
    destruct (bool_decide (e = "u"%char)); [|done]. destruct s2 as [|h1 [|h2 [|h3 [|h4 s6]]]]; try done.
    destruct (forallb _ _); [|done]. intros E.
    apply (Hrec s6 (fun x => String c (String e (String h1 (String h2 (String h3 (String h4 x))))))); [cbn; lia|done].
  - destruct (byte c <? 32)%N; [done|]. intros E. by apply (Hrec s (String c)).
Qed.

Lemma span_string_length p s : (String.length (span_string p s).2 <= String.length s)%nat.
Proof.
  destruct (span_string_parts p s) as [_ Hs]. apply (f_equal String.length) in Hs.
  rewrite string_length_app in Hs. lia.
Qed.

Lemma scan_number_length s v r : scan_number s = Some (v, r) -> (String.length r < String.length s)%nat.
Proof.
  unfold scan_number. destruct (span_string_parts number_char s) as [_ Hs].
  destruct (span_string number_char s) as [a b]. cbn in Hs. destruct (valid_number a) eqn:Ev; [|done].
  intros [= _ <-]. apply valid_number_chars in Ev as (_ & c & t & -> & _). subst s.
  rewrite string_length_app. cbn. lia.
Qed.

(** Whatever is parsed is consumed. *)
Lemma json_consumes fuel :
  (forall depth s v r, json_value fuel depth s = Some (v, r) -> (String.length r < String.length s)%nat) /\
  (forall depth s l r, json_elements fuel depth s = Some (l, r) -> (String.length r < String.length s)%nat) /\
  (forall depth s l r, json_members fuel depth s = Some (l, r) -> (String.length r < String.length s)%nat).
Proof.
  induction fuel as [|fuel (IHv & IHe & IHm)]; [done|].
  assert (forall s d r, CutPrefix (skip_space s) (String d "") = Some r -> (String.length r < String.length s)%nat) as Hcut.
  { intros s d r E%CutPrefix_length. pose proof (skip_space_length s). cbn in E. lia. }
  split_and!.
  - intros depth s v r. cbn [json_value]. pose proof (skip_space_length s) as Hsk.
    destruct (skip_space s) as [|c t] eqn:Es; [done|]. cbn [String.length] in Hsk.
    repeat case_bool_decide; [..|intros ?%scan_number_length; cbn in *; lia].
    1, 2, 3: intros E; apply bind_Some in E as (x & Ex%CutPrefix_length & [= _ <-]); cbn in Ex; lia.
    + intros E. apply bind_Some in E as ([raw x] & Ex%scan_string_length & [= _ <-]). lia.
    + destruct depth as [|depth]; [done|]. destruct (CutPrefix (skip_space t) "]") as [x|] eqn:Ec.
      * apply Hcut in Ec. intros [= _ <-]. lia.
      * intros E. apply bind_Some in E as ([l x] & Ex%IHe & [= _ <-]). lia.
    + destruct depth as [|depth]; [done|]. destruct (CutPrefix (skip_space t) "}") as [x|] eqn:Ec.
      * apply Hcut in Ec. intros [= _ <-]. lia.
      * intros E. apply bind_Some in E as ([l x] & Ex%IHm & [= _ <-]). lia.
  - intros depth s l r. cbn [json_elements]. intros E. apply bind_Some in E as ([v x] & Ex%IHv & E).
    destruct (CutPrefix (skip_space x) ",") as [y|] eqn:Ec.
    + apply Hcut in Ec. apply bind_Some in E as ([l' z] & Ez%IHe & [= _ <-]). lia.
    + apply bind_Some in E as (y & Ey%Hcut & [= _ <-]). lia.
  - intros depth s l r. cbn [json_members]. intros E. apply bind_Some in E as (t & Et%Hcut & E).
    apply bind_Some in E as ([raw x] & Ex%scan_string_length & E). apply bind_Some in E as (w & Ew%Hcut & E).
    apply bind_Some in E as ([v y] & Ey%IHv & E). cbv zeta in E.
    destruct (CutPrefix (skip_space y) ",") as [z|] eqn:Ec.
    + apply Hcut in Ec. apply bind_Some in E as ([l' q] & Eq%IHm & [= _ <-]). lia.
    + apply bind_Some in E as (q & Eq%Hcut & [= _ <-]). lia.
Qed.

Lemma option_bind_eq {A B} (f g : A -> option B) (o : option A) :
  (forall a, o = Some a -> f a = g a) -> (o ≫= f) = (o ≫= g).
Proof. destruct o; cbn; auto. Qed.

(** More fuel than twice the length of the text makes no difference. *)
Lemma json_fuel_enough fuel :
  (forall fuel' depth s, (2 * String.length s < fuel)%nat -> (2 * String.length s < fuel')%nat ->
     json_value fuel depth s = json_value fuel' depth s) /\
  (forall fuel' depth s, (2 * String.length s + 1 < fuel)%nat -> (2 * String.length s + 1 < fuel')%nat ->
     json_elements fuel depth s = json_elements fuel' depth s) /\
  (forall fuel' depth s, (2 * String.length s + 1 < fuel)%nat -> (2 * String.length s + 1 < fuel')%nat ->
     json_members fuel depth s = json_members fuel' depth s).
Proof.
  induction fuel as [|fuel (IHv & IHe & IHm)]; [split_and!; intros; lia|].
  destruct (json_consumes fuel) as (Hcv & _ & _).
  assert (forall s d r, CutPrefix (skip_space s) (String d "") = Some r -> (String.length r < String.length s)%nat) as Hcut.
  { intros s d r E%CutPrefix_length. pose proof (skip_space_length s). cbn in E. lia. }
  split_and!; intros [|fuel'] depth s Hf Hf'; try lia.
  - cbn [json_value]. pose proof (skip_space_length s) as Hsk.
    destruct (skip_space s) as [|c t]; [done|]. cbn [String.length] in Hsk.
    repeat case_bool_decide; try done; destruct depth as [|depth]; try done.
    + by rewrite (IHe fuel') by lia.
    + by rewrite (IHm fuel') by lia.
  - cbn [json_elements]. rewrite (IHv fuel') by lia. apply option_bind_eq. intros [v x] Ex.
    rewrite <- (IHv fuel') in Ex by lia. apply Hcv in Ex.
    destruct (CutPrefix (skip_space x) ",") as [y|] eqn:Ec; [|done]. apply Hcut in Ec. by rewrite (IHe fuel') by lia.
  - cbn [json_members]. apply option_bind_eq. intros t Et%Hcut. apply option_bind_eq.
    intros [raw x] Ex%scan_string_length. apply option_bind_eq. intros w Ew%Hcut.
    rewrite (IHv fuel') by lia. apply option_bind_eq. intros [v y] Ey.
    rewrite <- (IHv fuel') in Ey by lia. apply Hcv in Ey. cbv zeta.
    destruct (CutPrefix (skip_space y) ",") as [z|] eqn:Ec; [|done]. apply Hcut in Ec. by rewrite (IHm fuel') by lia.
Qed.

(** ** Objects built from maps and structs *)

(** Keys are sorted by their bytes. *)
Definition member_le (m n : string * json) : Prop := String.le m.1 n.1.
#[export] Instance member_le_dec : RelDecision member_le := fun m n => decide (String.le m.1 n.1).

Definition json_map (m : gmap string json) : json := JObject (merge_sort member_le (map_to_list m)).

(** The fields of a struct; [None] for a field that is left out. *)
Definition present (fields : list (string * option json)) : list (string * json) :=
  omap (fun f => (fun v => (f.1, v)) <$> f.2) fields.

Definition json_struct (fields : list (string * option json)) : json :=
  JObject (merge_sort member_le (present fields)).

(** [omitempty] on a string, and on a list. *)
Definition omit_empty (s : string) : option json := if s =?s "" then None else Some (JString s).
Definition omit_nil {A} (f : A -> json) (l : list A) : option json :=
  match l with [] => None | _ => Some (JArray (f <$> l)) end.

Lemma json_map_inj m n : json_map m = json_map n -> m = n.
Proof.
  intros [= E]. apply map_to_list_inj. rewrite <- (merge_sort_Permutation member_le (map_to_list m)), E.
  apply merge_sort_Permutation.
Qed.

Lemma present_keys fields k v : (k, v) ∈ present fields -> k ∈ fields.*1.
Proof.
  unfold present. rewrite list_elem_of_omap. intros ([k' [v'|]] & Hin & E); [|done]. cbn in E. simplify_eq.
  by apply (list_elem_of_fmap_2 fst) in Hin.
Qed.

Lemma present_NoDup fields : NoDup fields.*1 -> NoDup (present fields).*1.
Proof.
  induction fields as [|[k [v|]] fields IH]; cbn; [constructor|..]; intros [Hk Hn]%NoDup_cons; [|auto].
  constructor; [|auto]. intros (k' & Hk' & Hin)%list_elem_of_fmap. destruct k' as [k' v']. cbn in Hk'. subst k'.
  by apply present_keys in Hin.
Qed.

Lemma present_lookup fields k o :
  NoDup fields.*1 -> (k, o) ∈ fields -> list_to_map (M := gmap string json) (present fields) !! k = o.
Proof.
  intros Hn Hin. destruct o as [v|].
  - apply elem_of_list_to_map; [by apply present_NoDup|]. apply list_elem_of_omap. by exists (k, Some v).
  - apply not_elem_of_list_to_map. intros ([k' v'] & Hk & Hv)%list_elem_of_fmap. cbn in Hk. subst k'.
    unfold present in Hv. apply list_elem_of_omap in Hv as ([k' [w|]] & Hin' & E); [|done]. cbn in E. simplify_eq.
    apply (elem_of_list_to_map_1 (M := gmap string)) in Hin, Hin'; [|done..]. congruence.
Qed.

(** An object determines the fields of the struct that it was made from. *)
Lemma json_struct_inj fs gs :
  NoDup fs.*1 -> fs.*1 = gs.*1 -> json_struct fs = json_struct gs -> fs = gs.
Proof.
  intros Hn Hk [= E].
  assert (list_to_map (M := gmap string json) (present fs) = list_to_map (present gs)) as Hm.
  { apply list_to_map_proper; [by apply present_NoDup|].
    rewrite <- (merge_sort_Permutation member_le (present fs)), E. apply merge_sort_Permutation. }
  apply list_eq. intros i.
  destruct (fs !! i) as [[k o]|] eqn:Ef; destruct (gs !! i) as [[k' o']|] eqn:Eg.
  - assert (k = k') as <-.
    { apply (f_equal (fun l => l !! i)) in Hk. rewrite !list_lookup_fmap, Ef, Eg in Hk. by injection Hk. }
    apply list_elem_of_lookup_2 in Ef, Eg. apply present_lookup in Ef; [|done].
    apply present_lookup in Eg; [|by rewrite <- Hk]. congruence.
  - apply lookup_ge_None in Eg. apply lookup_lt_Some in Ef. apply (f_equal length) in Hk.
    rewrite !length_fmap in Hk. lia.
  - apply lookup_ge_None in Ef. apply lookup_lt_Some in Eg. apply (f_equal length) in Hk.
    rewrite !length_fmap in Hk. lia.
  - done.
Qed.

Lemma omit_empty_inj s t : omit_empty s = omit_empty t -> s = t.
Proof.
  unfold omit_empty. destruct (s =?s "") eqn:Es, (t =?s "") eqn:Et; bool_to_prop; congruence.
Qed.

Lemma omit_nil_inj {A} (f : A -> json) `{!Inj (=) (=) f} l k : omit_nil f l = omit_nil f k -> l = k.
Proof. destruct l, k; try done. intros [= E1 E2]. f_equal; [by apply (inj f)|by apply (inj (fmap f))]. Qed.

(** ** Decoding into Go values

    [None] is an [UnmarshalTypeError]: the decoder goes on, but returns it. *)

Definition decode_string (v : json) (old : string) : option string :=
  match v with JString s => Some s | JNull => Some old | _ => None end.

Definition decode_int64 (v : json) (old : Z) : option Z :=
  match v with
  | JNumber literal => match ParseInt 64 literal with Ok n => Some n | Err _ => None end
  | JNull => Some old
  | _ => None
  end.

(** A slice: the array behind it, and its length.  Elements are decoded in place, so that a null
    element keeps what the array holds. *)
Record slice := { sl_array : list string; sl_len : nat }.
Definition nil_slice : slice := {| sl_array := []; sl_len := 0 |}.
Definition slice_values (s : slice) : list string := take (sl_len s) (sl_array s).

Fixpoint decode_items (items : list json) (array : list string) : option (list string) :=
  match items with
  | [] => Some array
  | v :: items =>
      x ← decode_string v (default "" (head array));
      xs ← decode_items items (tail array);
      Some (x :: xs)
  end.

Definition decode_strings (v : json) (old : slice) : option slice :=
  match v with
  | JNull | JArray [] => Some nil_slice
  | JArray items =>
      array ← decode_items items (sl_array old); Some {| sl_array := array; sl_len := length items |}
  | _ => None
  end.

(** [foldName], on the runes that matter for an ASCII field name. *)
Definition json_fold (r : N) : N :=
  if in_range 65 90 r then (r + 32)%N else if (r =? 383)%N then 115%N else if (r =? 8490)%N then 107%N else r.
Definition fold_name (s : string) : list N := json_fold <$> runes s.

(** The field a member's key selects: by its exact name, or else up to case. *)
Definition struct_field (names : list string) (key : string) : option string :=
  if contains key names then Some key
  else List.find (fun name => bool_decide (fold_name name = fold_name key)) names.

Fixpoint decode_members {A} (names : list string) (strict : bool) (set : string -> json -> A -> option A)
    (members : list (string * json)) (a : A) : option A :=
  match members with
  | [] => Some a
  | (key, v) :: members =>
      a ← match struct_field names key with
          | Some name => set name v a
          | None => if strict then None else Some a
          end;
      decode_members names strict set members a
  end.

(** A struct with these fields; [strict] is [DisallowUnknownFields]. *)
Definition decode_struct {A} (names : list string) (strict : bool) (set : string -> json -> A -> option A)
    (v : json) (a : A) : option A :=
  match v with
  | JNull => Some a
  | JObject members => decode_members names strict set members a
  | _ => None
  end.

Definition json_Unmarshal {A} (decode : json -> option A) (text : string) : result A :=
  match json_parse text with
  | None => Err (ErrMsg "invalid JSON")
  | Some v => match decode v with Some a => Ok a | None => Err (ErrMsg "json: cannot unmarshal") end
  end.

(** [json.Unmarshal] into a nil [[]string]. *)
Definition json_strings (text : string) : result (list string) :=
  json_Unmarshal (fun v => slice_values <$> decode_strings v nil_slice) text.

(** A list of valid strings is read back from its JSON text. *)
Lemma json_strings_text l :
  forallb valid_text l = true -> json_strings (json_text (JArray (JString <$> l))) = Ok l.
Proof.
  intros Hl. unfold json_strings, json_Unmarshal. rewrite json_parse_text.
  - assert (decode_items (JString <$> l) [] = Some l) as Hd.
    { clear Hl. induction l as [|s l IH]; [done|]. rewrite fmap_cons. cbn [decode_items decode_string mbind option_bind tail].
      by rewrite IH. }
    destruct l as [|s l]; [done|]. rewrite fmap_cons in *. cbn [decode_strings]. cbn [nil_slice sl_array].
    rewrite Hd. cbn. by rewrite length_fmap, firstn_all.
  - change (forallb (fun x => json_ok x (pred maxNestingDepth)) (JString <$> l) = true). apply forallb_forall.
    rewrite forallb_forall in Hl. intros v (s & <- & Hs)%in_map_iff. by apply Hl.
Qed.
