(* ===== verification/ApiTypes.v ===== *)
(** * The API types of [api/assignment/v1alpha1] and the Kubernetes objects they refer to

    One record per Go struct, one field per Go field (prefixed by the struct, since
    Go reuses field names); pointers are [option], slices are lists, maps are [gmap].

    Custom resources reach the code as [unstructured.Unstructured] values.  Here such
    a value is its typed content together with the paths whose stored JSON has an
    unexpected type: an accessor that reads a malformed path returns its error, and
    the typed converter rejects an object that has one. *)

From S2P Require Import Prelude.
From stdpp Require Import options.

(** ** Object metadata *)

Record OwnerReference := {
  or_Kind : string;
  or_UID : string;
  or_Controller : option bool
}.

Record ObjectMeta := {
  om_Name : string;
  om_GenerateName : string;
  om_Namespace : string;
  om_UID : string;
  om_ResourceVersion : string;
  om_Generation : Z;
  om_CreationTimestamp : Time;
  om_DeletionTimestamp : option Time;
  om_Labels : gmap string string;
  om_Annotations : gmap string string;
  om_Finalizers : list string;
  om_OwnerReferences : list OwnerReference
}.

Definition empty_meta : ObjectMeta := {|
  om_Name := ""; om_GenerateName := ""; om_Namespace := ""; om_UID := "";
  om_ResourceVersion := ""; om_Generation := 0; om_CreationTimestamp := zero_time;
  om_DeletionTimestamp := None; om_Labels := ∅; om_Annotations := ∅;
  om_Finalizers := []; om_OwnerReferences := []
|}.

Definition om_deleting (m : ObjectMeta) : bool := bool_decide (is_Some (om_DeletionTimestamp m)).

Definition set_annotations (a : gmap string string) (m : ObjectMeta) : ObjectMeta := {|
  om_Name := om_Name m; om_GenerateName := om_GenerateName m; om_Namespace := om_Namespace m;
  om_UID := om_UID m; om_ResourceVersion := om_ResourceVersion m; om_Generation := om_Generation m;
  om_CreationTimestamp := om_CreationTimestamp m; om_DeletionTimestamp := om_DeletionTimestamp m;
  om_Labels := om_Labels m; om_Annotations := a; om_Finalizers := om_Finalizers m;
  om_OwnerReferences := om_OwnerReferences m |}.

Definition set_labels (l : gmap string string) (m : ObjectMeta) : ObjectMeta := {|
  om_Name := om_Name m; om_GenerateName := om_GenerateName m; om_Namespace := om_Namespace m;
  om_UID := om_UID m; om_ResourceVersion := om_ResourceVersion m; om_Generation := om_Generation m;
  om_CreationTimestamp := om_CreationTimestamp m; om_DeletionTimestamp := om_DeletionTimestamp m;
  om_Labels := l; om_Annotations := om_Annotations m; om_Finalizers := om_Finalizers m;
  om_OwnerReferences := om_OwnerReferences m |}.

Definition set_finalizers (f : list string) (m : ObjectMeta) : ObjectMeta := {|
  om_Name := om_Name m; om_GenerateName := om_GenerateName m; om_Namespace := om_Namespace m;
  om_UID := om_UID m; om_ResourceVersion := om_ResourceVersion m; om_Generation := om_Generation m;
  om_CreationTimestamp := om_CreationTimestamp m; om_DeletionTimestamp := om_DeletionTimestamp m;
  om_Labels := om_Labels m; om_Annotations := om_Annotations m; om_Finalizers := f;
  om_OwnerReferences := om_OwnerReferences m |}.

(** The JSON form of a [metav1.Time] has whole seconds. *)
Definition json_time (t : Time) : Time := t / Second * Second.

(** ** Unstructured values *)

Record Unstructured (T : Type) := {
  u_obj : T;
  u_malformed : list (list string)
}.
Arguments u_obj {T} u.
Arguments u_malformed {T} u.

Definition wf {T} (o : T) : Unstructured T := {| u_obj := o; u_malformed := [] |}.

Definition path_malformed {T} (u : Unstructured T) (path : list string) : bool :=
  existsb (fun p => bool_decide (p `prefix_of` path)) (u_malformed u).

(** [unstructured.NestedX(obj, path...)]: the value if present, an error if some
    field on the path has the wrong type.  [v] is the field of the typed content
    the path denotes. *)
Definition nested {T A} (u : Unstructured T) (path : list string) (v : option A)
  : result (option A) :=
  if path_malformed u path then Err (ErrMsg "accessor error: value has the wrong type")
  else Ok v.

(** [value, _, _ := unstructured.NestedString(...)]: the zero value otherwise. *)
Definition nested_string {T} (u : Unstructured T) (path : list string) (v : option string)
  : string :=
  match nested u path v with Ok (Some s) => s | _ => "" end.

Definition FromUnstructured {T} (u : Unstructured T) : result T :=
  match u_malformed u with
  | [] => Ok (u_obj u)
  | _ => Err (ErrMsg "unstructured conversion failed")
  end.

(** ** Capability bundles *)

Record GovernanceBoundary := {
  gb_LogicalTenant : string;
  gb_Team : string;
  gb_PermissionLevel : string;
  gb_DisplayName : string
}.

Record AgentgatewayBackendPolicy := { abp_Allow : string }.

Record EgressPolicy := { ep_Agentgateway : gmap string AgentgatewayBackendPolicy }.

Record CommandPolicyRule := {
  cpr_Pattern : string;
  cpr_Decision : string;
  cpr_Reason : string
}.

Record ValidationRule := { vr_PathPrefix : string; vr_Command : string }.

Record HarnessPolicy := {
  hp_CommandPolicy : list CommandPolicyRule;
  hp_ValidationRules : list ValidationRule
}.

Record CapabilityBundleSpec := {
  cbs_Egress : option EgressPolicy;
  cbs_Harness : option HarnessPolicy;
  cbs_Governance : option GovernanceBoundary
}.

Record CapabilityBundle := { cb_meta : ObjectMeta; cb_Spec : CapabilityBundleSpec }.

(** ** Templates *)

Record CapabilityBundleReference := { cbr_Name : string; cbr_PolicyRevision : string }.

Record SandboxTemplateResources := { str_CPU : string; str_Memory : string }.

Record SandboxTemplateSpec := {
  sts_DisplayName : string;
  sts_Description : string;
  sts_Image : string;
  sts_Entrypoint : list string;
  sts_CapabilityBundleRef : CapabilityBundleReference;
  sts_Resources : SandboxTemplateResources;
  sts_TimeoutSeconds : Z;
  sts_Enabled : bool
}.

Record SandboxTemplate := { st_meta : ObjectMeta; st_Spec : SandboxTemplateSpec }.

(** ** Tenant policies and principal bindings *)

Record SandboxTenantPolicySpec := {
  tps_LogicalTenant : string;
  tps_WorkloadNamespace : string;
  tps_AllowedCapabilityBundles : list string;
  tps_AllowedCapabilityBundlePrefixes : list string;
  tps_MaxConcurrentSandboxes : Z;
  tps_MaxLifetimeSeconds : Z;
  tps_MaxAccessRequestDurationSeconds : Z;
  tps_MaxCPU : string;
  tps_MaxMemory : string;
  tps_Enabled : bool
}.

Record SandboxTenantPolicy := { tp_meta : ObjectMeta; tp_Spec : SandboxTenantPolicySpec }.

Record SandboxPrincipalBindingSpec := {
  pbs_TenantID : string;
  pbs_ObjectID : string;
  pbs_ServiceAccountNamespace : string;
  pbs_ServiceAccountName : string;
  pbs_RequesterTenants : list string;
  pbs_AdminTenants : list string
}.

Record SandboxPrincipalBinding := { pb_meta : ObjectMeta; pb_Spec : SandboxPrincipalBindingSpec }.

(** ** Assignments *)

Record SandboxTemplateReference := {
  tr_Name : string;
  tr_UID : string;
  tr_SpecRevision : string
}.

Record SandboxAssignmentSpec := {
  as_TemplateRef : SandboxTemplateReference;
  as_LogicalTenant : string;
  as_CapabilityBundleRef : CapabilityBundleReference
}.

Record ObjectReference := {
  ref_APIVersion : string;
  ref_Kind : string;
  ref_Namespace : string;
  ref_Name : string;
  ref_UID : string
}.

Record ResolvedCapabilityBundle := {
  rcb_Name : string;
  rcb_UID : string;
  rcb_PolicyRevision : string
}.

(** [metav1.Condition]. *)
Record Condition := {
  c_Type : string;
  c_Status : string;
  c_Reason : string;
  c_Message : string;
  c_ObservedGeneration : Z;
  c_LastTransitionTime : Time
}.

Record SandboxAssignmentStatus := {
  ss_WorkloadRef : option ObjectReference;
  ss_PodRef : option ObjectReference;
  ss_ResolvedCapabilityBundle : option ResolvedCapabilityBundle;
  ss_Conditions : list Condition
}.

Definition empty_status : SandboxAssignmentStatus := {|
  ss_WorkloadRef := None; ss_PodRef := None;
  ss_ResolvedCapabilityBundle := None; ss_Conditions := [] |}.

Record SandboxAssignment := {
  sa_meta : ObjectMeta;
  sa_Spec : SandboxAssignmentSpec;
  sa_Status : SandboxAssignmentStatus
}.

Definition sa_with_meta (m : ObjectMeta) (a : SandboxAssignment) : SandboxAssignment :=
  {| sa_meta := m; sa_Spec := sa_Spec a; sa_Status := sa_Status a |}.
Definition sa_with_status (s : SandboxAssignmentStatus) (a : SandboxAssignment) : SandboxAssignment :=
  {| sa_meta := sa_meta a; sa_Spec := sa_Spec a; sa_Status := s |}.

(** ** Access requests *)

Record AssignmentReference := { ar_Name : string; ar_UID : string }.

Record GovernanceIdentity := {
  gi_TenantID : string;
  gi_ObjectID : string;
  gi_DisplayName : string;
  gi_LogicalTenant : string;
  gi_Team : string
}.

Record SandboxAccessRequestSpec := {
  rs_AssignmentRef : AssignmentReference;
  rs_PodUID : string;
  rs_BasePolicyRevision : string;
  rs_Backend : string;
  rs_Method : string;
  rs_Host : string;
  rs_Path : string;
  rs_Reason : string;
  rs_Requester : GovernanceIdentity;
  rs_RequestedDurationSeconds : Z
}.

Definition SandboxAccessRequestPending : string := "Pending".
Definition SandboxAccessRequestApproved : string := "Approved".
Definition SandboxAccessRequestDenied : string := "Denied".
Definition SandboxAccessRequestExpired : string := "Expired".

Record SandboxAccessRequestStatus := {
  rst_State : string;
  rst_Approver : option GovernanceIdentity;
  rst_DecisionReason : string;
  rst_ApprovedAt : option Time;
  rst_ExpiresAt : option Time
}.

Record SandboxAccessRequest := {
  req_meta : ObjectMeta;
  req_Spec : SandboxAccessRequestSpec;
  req_Status : SandboxAccessRequestStatus
}.

(** ** Audit records *)

Definition DecisionSourceBundle : string := "bundle".
Definition DecisionSourceAccessRequest : string := "access-request".
Definition DecisionSourceDeny : string := "deny".

Record SandboxEgressEventSpec := {
  ee_Timestamp : Time;
  ee_AssignmentRef : AssignmentReference;
  ee_SandboxID : string;
  ee_PodUID : string;
  ee_CapabilityBundleName : string;
  ee_CapabilityBundleRevision : string;
  ee_LogicalTenant : string;
  ee_Team : string;
  ee_PermissionLevel : string;
  ee_BoundaryDisplayName : string;
  ee_Backend : string;
  ee_Method : string;
  ee_Host : string;
  ee_Path : string;
  ee_Allowed : bool;
  ee_Reason : string;
  ee_DecisionSource : string;
  ee_AccessRequestName : string
}.

Record SandboxEgressEvent := { ev_meta : ObjectMeta; ev_Spec : SandboxEgressEventSpec }.

Record SandboxCredentialEventSpec := {
  ce_Timestamp : Time;
  ce_GrantID : string;
  ce_Action : string;
  ce_TaskID : string;
  ce_AssignmentRef : AssignmentReference;
  ce_PodUID : string;
  ce_SandboxID : string;
  ce_CapabilityBundleName : string;
  ce_CapabilityBundleRevision : string;
  ce_Backend : string;
  ce_Method : string;
  ce_Host : string;
  ce_Path : string;
  ce_ExpiresAt : Time
}.

Record SandboxCredentialEvent := { cev_meta : ObjectMeta; cev_Spec : SandboxCredentialEventSpec }.

Record SandboxCredentialRevocationSpec := {
  cr_GrantID : string;
  cr_ExpiresAt : Time;
  cr_AssignmentRef : AssignmentReference;
  cr_PodUID : string;
  cr_SandboxID : string
}.

Record SandboxCredentialRevocation := {
  rev_meta : ObjectMeta;
  rev_Spec : SandboxCredentialRevocationSpec
}.

(** ** Validation runs *)

Record SandboxValidationRunSpec := {
  vrs_TaskID : string;
  vrs_Repository : string;
  vrs_SourceRevision : string;
  vrs_ChangedPaths : list string;
  vrs_SelectedCommands : list string;
  vrs_TemplateName : string;
  vrs_AssignmentRef : AssignmentReference;
  vrs_PodUID : string;
  vrs_SandboxID : string;
  vrs_CapabilityBundleName : string;
  vrs_CapabilityBundleRevision : string;
  vrs_StartedAt : Time
}.

Record SandboxValidationCommandResult := {
  vcr_Command : string;
  vcr_ExitCode : Z;
  vcr_StdoutSHA256 : string;
  vcr_StderrSHA256 : string
}.

Record SandboxValidationRunStatus := {
  vst_State : string;
  vst_CompletedAt : option Time;
  vst_Results : list SandboxValidationCommandResult;
  vst_CleanedUp : bool;
  vst_Message : string
}.

Record SandboxValidationRun := {
  vrun_meta : ObjectMeta;
  vrun_Spec : SandboxValidationRunSpec;
  vrun_Status : SandboxValidationRunStatus
}.

(** ** Core objects: the fields of Pods and ServiceAccounts the code reads *)

Record ServiceAccountTokenProjection := {
  satp_Audience : string;
  satp_ExpirationSeconds : option Z;
  satp_Path : string
}.

(** A volume: its name and, for a projected volume, its sources (each with an
    optional service-account token projection). *)
Record Volume := {
  vol_Name : string;
  vol_Projected : option (list (option ServiceAccountTokenProjection))
}.

Record VolumeMount := {
  vm_Name : string;
  vm_ReadOnly : bool;
  vm_MountPath : string;
  vm_SubPath : string;
  vm_SubPathExpr : string
}.

Record Container := { ctr_Name : string; ctr_VolumeMounts : list VolumeMount }.

Record PodSpec := {
  ps_ServiceAccountName : string;
  ps_AutomountServiceAccountToken : option bool;
  ps_RuntimeClassName : option string;
  ps_Volumes : list Volume;
  ps_Containers : list Container
}.

Record PodCondition := { pc_Type : string; pc_Status : string }.

Record PodStatus := {
  pst_Phase : string;
  pst_PodIP : string;
  pst_PodIPs : list string;
  pst_Conditions : list PodCondition
}.

Record Pod := { pod_meta : ObjectMeta; pod_Spec : PodSpec; pod_Status : PodStatus }.

Record ServiceAccount := {
  sva_meta : ObjectMeta;
  sva_AutomountServiceAccountToken : option bool
}.

(** ** Labels and annotations ([internal/assignment/types.go]) *)

Definition EligibleServiceAccountLabel : string := "aks-sandbox.azure.com/eligible".
Definition AssignmentLabel : string := "aks-sandbox.azure.com/assignment".
Definition AssignmentUIDAnnotation : string := "aks-sandbox.azure.com/assignment-uid".
Definition OpenSandboxAssignmentUIDAnnotation : string :=
  "opensandbox.io/extensions.aks-sandbox-assignment-uid".
Definition SandboxIDAnnotation : string := "aks-sandbox.azure.com/opensandbox-id".
Definition SandboxIDLabel : string := "aks-sandbox.azure.com/opensandbox-id".
Definition PausedAnnotation : string := "aks-sandbox.azure.com/paused".
Definition ResumeAfterPodUIDAnnotation : string := "aks-sandbox.azure.com/resume-after-pod-uid".
Definition IdempotencyKeyAnnotation : string := "aks-sandbox.azure.com/idempotency-key".
Definition RequestHashAnnotation : string := "aks-sandbox.azure.com/request-hash".

(** ** Decidable equality of the types compared with [==] or [DeepEqual] *)

#[export] Instance ObjectReference_eq_dec : EqDecision ObjectReference.
Proof. solve_decision. Defined.
#[export] Instance ResolvedCapabilityBundle_eq_dec : EqDecision ResolvedCapabilityBundle.
Proof. solve_decision. Defined.
#[export] Instance Condition_eq_dec : EqDecision Condition.
Proof. solve_decision. Defined.
#[export] Instance SandboxAssignmentStatus_eq_dec : EqDecision SandboxAssignmentStatus.
Proof. solve_decision. Defined.
#[export] Instance AssignmentReference_eq_dec : EqDecision AssignmentReference.
Proof. solve_decision. Defined.
