(* ===== verification/ApiJson.v ===== *)
(** * The JSON of the specifications that revisions are computed over

    The struct tags of [CapabilityBundleSpec] and [SandboxTemplateSpec] in
    [api/assignment/v1alpha1/types.go]: the map that [runtime.DefaultUnstructuredConverter] makes of
    a specification, and that the API server stores.  An object that was written with an explicit
    empty value where the types leave the field out has another stored form; such objects are
    not distinguished here from their typed reading.

    The maps are injective ([bundle_json_inj], [template_json_inj]). *)

From stdpp Require Import pretty sorting.
From S2P Require Import Prelude GoStrings GoEncoding GoJson ApiTypes.
From stdpp Require Import options.
#[local] Open Scope Z_scope.

(** A type with a stored form: a JSON object. *)
Class Stored (A : Type) := {
  stored : A -> json;
  stored_inj :: Inj (=) (=) stored
}.

(** The form can be written and read back: its text is valid UTF-8. *)
Definition storable {A} `{Stored A} (a : A) : bool := json_ok (stored a) maxNestingDepth.

Definition backend_json (p : AgentgatewayBackendPolicy) : json := json_struct [("allow", Some (JString (abp_Allow p)))].

Definition egress_json (p : EgressPolicy) : json :=
  json_struct [("agentgateway", if bool_decide (ep_Agentgateway p = ∅) then None
                                else Some (json_map (backend_json <$> ep_Agentgateway p)))].

Definition command_json (r : CommandPolicyRule) : json :=
  json_struct [("pattern", Some (JString (cpr_Pattern r))); ("decision", Some (JString (cpr_Decision r)));
               ("reason", omit_empty (cpr_Reason r))].

Definition validation_json (r : ValidationRule) : json :=
  json_struct [("pathPrefix", Some (JString (vr_PathPrefix r))); ("command", Some (JString (vr_Command r)))].

Definition harness_json (p : HarnessPolicy) : json :=
  json_struct [("commandPolicy", omit_nil command_json (hp_CommandPolicy p));
               ("validationRules", omit_nil validation_json (hp_ValidationRules p))].

Definition governance_json (g : GovernanceBoundary) : json :=
  json_struct [("logicalTenant", omit_empty (gb_LogicalTenant g)); ("team", omit_empty (gb_Team g));
               ("permissionLevel", omit_empty (gb_PermissionLevel g)); ("displayName", omit_empty (gb_DisplayName g))].

Definition bundle_json (s : CapabilityBundleSpec) : json :=
  json_struct [("egress", egress_json <$> cbs_Egress s); ("harness", harness_json <$> cbs_Harness s);
               ("governance", governance_json <$> cbs_Governance s)].

Definition integer_json (n : Z) : json := JNumber (pretty n).

Definition reference_json (r : CapabilityBundleReference) : json :=
  json_struct [("name", Some (JString (cbr_Name r))); ("policyRevision", omit_empty (cbr_PolicyRevision r))].

Definition resources_json (r : SandboxTemplateResources) : json :=
  json_struct [("cpu", Some (JString (str_CPU r))); ("memory", Some (JString (str_Memory r)))].

Definition template_json (s : SandboxTemplateSpec) : json :=
  json_struct [("displayName", Some (JString (sts_DisplayName s))); ("description", omit_empty (sts_Description s));
               ("image", Some (JString (sts_Image s))); ("entrypoint", Some (JArray (JString <$> sts_Entrypoint s)));
               ("capabilityBundleRef", Some (reference_json (sts_CapabilityBundleRef s)));
               ("resources", Some (resources_json (sts_Resources s)));
               ("timeoutSeconds", Some (integer_json (sts_TimeoutSeconds s)));
               ("enabled", Some (JBool (sts_Enabled s)))].

(** ** Injectivity *)

(** Two structs with equal objects have equal fields. *)
Ltac struct_inj :=
  let E := fresh "E" in
  intros [] [] E; apply json_struct_inj in E; [|apply (bool_decide_unpack _); vm_compute; exact I|done]; cbn in E.

#[local] Instance backend_json_inj : Inj (=) (=) backend_json.
Proof. struct_inj. by simplify_eq. Qed.

#[local] Instance egress_json_inj : Inj (=) (=) egress_json.
Proof.
  struct_inj. apply (f_equal (fun l => snd <$> head l)) in E. cbn in E. apply (inj Some) in E.
  repeat case_bool_decide; subst; try done. apply (inj Some), json_map_inj, (inj (fmap backend_json)) in E.
  by subst.
Qed.

#[local] Instance command_json_inj : Inj (=) (=) command_json.
Proof. struct_inj. injection E as -> -> ->%omit_empty_inj. done. Qed.

#[local] Instance validation_json_inj : Inj (=) (=) validation_json.
Proof. struct_inj. by simplify_eq. Qed.

#[local] Instance harness_json_inj : Inj (=) (=) harness_json.
Proof. struct_inj. injection E as ->%omit_nil_inj ->%omit_nil_inj; [done|apply _..]. Qed.

#[local] Instance governance_json_inj : Inj (=) (=) governance_json.
Proof. struct_inj. injection E. by intros ->%omit_empty_inj ->%omit_empty_inj ->%omit_empty_inj ->%omit_empty_inj. Qed.

Lemma bundle_json_inj : Inj (=) (=) bundle_json.
Proof.
  struct_inj. injection E. by intros ->%(inj (fmap _)) ->%(inj (fmap _)) ->%(inj (fmap _)).
Qed.

#[local] Instance JString_inj : Inj (=) (=) JString.
Proof. congruence. Qed.

#[local] Instance integer_json_inj : Inj (=) (=) integer_json.
Proof. intros m n E. injection E. apply (inj pretty). Qed.

#[local] Instance reference_json_inj : Inj (=) (=) reference_json.
Proof. struct_inj. injection E as -> ->%omit_empty_inj. done. Qed.

#[local] Instance resources_json_inj : Inj (=) (=) resources_json.
Proof. struct_inj. by simplify_eq. Qed.

(** The values of one field, and the remaining fields. *)
Lemma next_field (k : string) (v w : option json) l m : (k, v) :: l = (k, w) :: m -> v = w /\ l = m.
Proof. by intros [= -> ->]. Qed.

Lemma template_json_inj : Inj (=) (=) template_json.
Proof.
  struct_inj. apply next_field in E as [[= ->] E]. apply next_field in E as [->%omit_empty_inj E].
  apply next_field in E as [[= ->] E]. apply next_field in E as [He%(inj Some) E].
  apply next_field in E as [->%(inj Some)%(inj reference_json) E].
  apply next_field in E as [->%(inj Some)%(inj resources_json) E].
  apply next_field in E as [->%(inj Some)%(inj integer_json) E]. apply next_field in E as [[= ->] _].
  injection He as He. apply (inj (fmap JString)) in He. by rewrite He.
Qed.

#[export] Instance bundle_stored : Stored CapabilityBundleSpec := {| stored := bundle_json; stored_inj := bundle_json_inj |}.
#[export] Instance template_stored : Stored SandboxTemplateSpec := {| stored := template_json; stored_inj := template_json_inj |}.
