(* ===== verification/DeepCopy.v ===== *)
(** * Deep copies on a heap

    The memory and the statements of [api/assignment/v1alpha1/zz_generated.deepcopy.go].  The other
    files treat Go values as immutable.  That is justified only if a copy shares no memory with its
    original; this file and [GeneratedCopies] show it for the generated methods.

    A heap has one cell per pointer target, array and map.  A struct is a value, field by field; a
    pointer, slice or map refers to a cell.  [content] reads a value through the heap and
    [footprint] is the set of cells that this reads.  [copies t f] is what a deep copy of type [t]
    owes: it reads as the original did, leaves the heap of the original alone, and refers to new
    cells only.  The statements of the generated code keep that promise ([copies_ptr],
    [copies_slice], [copies_map], [copies_struct]), so the methods made of them do.

    The entries of a map cell are in one order of iteration.  [new] and [make] are modelled with
    the value that the method then stores: nothing reads the zero value in between. *)

From S2P Require Import Prelude.
From stdpp Require Import options.

Module DeepCopy.

(** ** Memory *)

#[local] Abbreviation loc := positive (only parsing).

Inductive scalar := Str (s : string) | Int (n : Z) | Bool (b : bool).

Inductive value :=
  | VScalar (s : scalar)
  | VRef (target : option loc)                        (** a pointer or a map *)
  | VSlice (window : option (loc * nat * nat))        (** the array, the offset and the length *)
  | VEnd
  | VField (name : string) (v : value) (rest : value).

Inductive cell :=
  | Pointee (v : value)
  | Elements (vs : list value)
  | Entries (kvs : list (string * value)).

#[local] Abbreviation heap := (gmap positive cell).

(** Code on the heap; [None] is a panic. *)
Definition M (A : Type) := heap -> option (A * heap).

Definition m_ret {A} (a : A) : M A := fun h => Some (a, h).
Definition m_bind {A B} (m : M A) (k : A -> M B) : M B := fun h => '(a, h') ← m h; k a h'.
Definition m_panic {A} : M A := fun _ => None.
Notation "x <-m c ;; k" := (m_bind c (fun x => k)) (at level 20, c at level 99, k at level 200, only parsing) : go_scope.

Definition m_load (l : loc) : M cell := fun h => c ← h !! l; Some (c, h).
Definition m_alloc (c : cell) : M loc := fun h => let l := fresh (dom h) in Some (l, <[l := c]> h).

Fixpoint m_map {A B} (f : A -> M B) (l : list A) : M (list B) :=
  match l with
  | [] => m_ret []
  | x :: l => y <-m f x ;; ys <-m m_map f l ;; m_ret (y :: ys)
  end.

(** ** Types, contents, footprints *)

Inductive ty :=
  | TScalar
  | TPtr (t : ty)
  | TSlice (t : ty)
  | TMap (t : ty)
  | TEnd
  | TField (name : string) (t : ty) (rest : ty).

Definition Struct (fields : list (string * ty)) : ty := foldr (fun f rest => TField f.1 f.2 rest) TEnd fields.

Inductive tree :=
  | CScalar (s : scalar)
  | CNil
  | CRef (c : tree)
  | CList (cs : list tree)
  | CMap (kcs : list (string * tree))
  | CEnd
  | CField (name : string) (c : tree) (rest : tree).

Definition window (vs : list value) (off len : nat) : option (list value) :=
  let w := take len (drop off vs) in if decide (length w = len) then Some w else None.

(** What a value of type [t] reads as; [None] if it is not of this type, or dangling. *)
Fixpoint content (h : heap) (t : ty) (v : value) : option tree :=
  match t, v with
  | TScalar, VScalar s => Some (CScalar s)
  | TPtr _, VRef None | TMap _, VRef None | TSlice _, VSlice None => Some CNil
  | TPtr t, VRef (Some l) =>
      match h !! l with Some (Pointee x) => CRef <$> content h t x | _ => None end
  | TSlice t, VSlice (Some (l, off, len)) =>
      match h !! l with
      | Some (Elements vs) => w ← window vs off len; CList <$> mapM (content h t) w
      | _ => None
      end
  | TMap t, VRef (Some l) =>
      match h !! l with
      | Some (Entries kvs) => CMap <$> mapM (fun kv => pair kv.1 <$> content h t kv.2) kvs
      | _ => None
      end
  | TEnd, VEnd => Some CEnd
  | TField name t rest, VField name' x r =>
      if decide (name = name')
      then c ← content h t x; d ← content h rest r; Some (CField name c d)
      else None
  | _, _ => None
  end.

(** The cells that reading it goes through. *)
Fixpoint footprint (h : heap) (t : ty) (v : value) : gset loc :=
  match t, v with
  | TPtr t, VRef (Some l) =>
      {[l]} ∪ match h !! l with Some (Pointee x) => footprint h t x | _ => ∅ end
  | TSlice t, VSlice (Some (l, off, len)) =>
      {[l]} ∪ match h !! l with
              | Some (Elements vs) => ⋃ (footprint h t <$> take len (drop off vs))
              | _ => ∅
              end
  | TMap t, VRef (Some l) =>
      {[l]} ∪ match h !! l with
              | Some (Entries kvs) => ⋃ ((fun kv => footprint h t kv.2) <$> kvs)
              | _ => ∅
              end
  | TField name t rest, VField name' x r => footprint h t x ∪ footprint h rest r
  | _, _ => ∅
  end.

(** Types without pointers, slices and maps. *)
Fixpoint flat (t : ty) : bool :=
  match t with TScalar | TEnd => true | TField _ t rest => flat t && flat rest | _ => false end.

Definition copies (t : ty) (f : value -> M value) : Prop :=
  forall h v c, content h t v = Some c ->
    exists out h', f v h = Some (out, h') /\ h ⊆ h' /\ content h' t out = Some c /\ footprint h' t out ## dom h.

(** ** The statements of the generated code *)

(** [*out = *in], of a whole value or of one field. *)
Definition assign (v : value) : M value := m_ret v.

(** [if in != nil { *out = new(T); (in).DeepCopyInto(out) }]. *)
Definition new_ptr (f : value -> M value) (v : value) : M value :=
  match v with
  | VRef None => m_ret v
  | VRef (Some l) =>
      c <-m m_load l ;;
      match c with
      | Pointee x => y <-m f x ;; l' <-m m_alloc (Pointee y) ;; m_ret (VRef (Some l'))
      | _ => m_panic
      end
  | _ => m_panic
  end.

(** [if in != nil { *out = make([]T, len( *in)); for i := range *in { ... } }]; [copy] assigns. *)
Definition make_slice (f : value -> M value) (v : value) : M value :=
  match v with
  | VSlice None => m_ret v
  | VSlice (Some (l, off, len)) =>
      c <-m m_load l ;;
      match c with
      | Elements vs =>
          match window vs off len with
          | Some w => ys <-m m_map f w ;; l' <-m m_alloc (Elements ys) ;; m_ret (VSlice (Some (l', 0%nat, len)))
          | None => m_panic
          end
      | _ => m_panic
      end
  | _ => m_panic
  end.

(** [if in != nil { *out = make(map[string]T, len( *in)); for key, val := range *in { ... } }]. *)
Definition make_map (f : value -> M value) (v : value) : M value :=
  match v with
  | VRef None => m_ret v
  | VRef (Some l) =>
      c <-m m_load l ;;
      match c with
      | Entries kvs =>
          ys <-m m_map (fun kv => y <-m f kv.2 ;; m_ret (kv.1, y)) kvs ;;
          l' <-m m_alloc (Entries ys) ;; m_ret (VRef (Some l'))
      | _ => m_panic
      end
  | _ => m_panic
  end.

Fixpoint assoc {A} (name : string) (l : list (string * A)) : option A :=
  match l with [] => None | (n, a) :: l => if decide (n = name) then Some a else assoc name l end.

(** [*out = *in], then the listed fields, which the generated code has in the order of the struct. *)
Fixpoint copy_struct (updates : list (string * (value -> M value))) (v : value) : M value :=
  match v with
  | VEnd => m_ret VEnd
  | VField name x rest =>
      y <-m match assoc name updates with Some f => f x | None => assign x end ;;
      r <-m copy_struct updates rest ;;
      m_ret (VField name y r)
  | _ => m_panic
  end.

(** ** Lemmas *)

Lemma mapM_ext_in {A B} (f g : A -> option B) l : (forall x, x ∈ l -> f x = g x) -> mapM f l = mapM g l.
Proof.
  induction l as [|x l IH]; intros Hfg; [done|]. cbn. rewrite (Hfg x) by set_solver.
  by rewrite IH by set_solver.
Qed.

Lemma union_list_ext {A} (f g : A -> gset loc) l : (forall x, x ∈ l -> f x = g x) -> ⋃ (f <$> l) = ⋃ (g <$> l).
Proof.
  induction l as [|x l IH]; intros Hfg; [done|]. cbn. rewrite (Hfg x) by set_solver.
  by rewrite IH by set_solver.
Qed.

Lemma elem_of_footprints {A} (f : A -> gset loc) l x i : x ∈ l -> i ∈ f x -> i ∈ ⋃ (f <$> l).
Proof. intros Hx Hi. apply elem_of_union_list. exists (f x). split; [by apply list_elem_of_fmap_2|done]. Qed.

(** Reading depends on the footprint only. *)
Lemma content_frame t h h' v :
  (forall l, l ∈ footprint h t v -> h' !! l = h !! l) ->
  content h' t v = content h t v /\ footprint h' t v = footprint h t v.
Proof.
  revert v. induction t as [|t IH|t IH|t IH| |name t IHt rest IHr]; intros v Hf; destruct v as [s|[l|]|[[[l off] len]|]| |n x r];
    try done; cbn in Hf |- *.
  - rewrite (Hf l) by set_solver. destruct (h !! l) as [[x|vs|kvs]|] eqn:El; try done.
    destruct (IH x) as [-> ->]; [|done]. intros i Hi. apply Hf. set_solver.
  - rewrite (Hf l) by set_solver. destruct (h !! l) as [[x|vs|kvs]|] eqn:El; try done.
    assert (forall x, x ∈ take len (drop off vs) -> content h' t x = content h t x /\ footprint h' t x = footprint h t x) as Hx.
    { intros x Hx. apply IH. intros i Hi. apply Hf. apply elem_of_union_r. by eapply elem_of_footprints. }
    unfold window. rewrite (union_list_ext (footprint h' t) (footprint h t)) by (intros; by apply Hx).
    split; [|done]. case_decide; cbn; [|done].
    by rewrite (mapM_ext_in (content h' t) (content h t)) by (intros; by apply Hx).
  - rewrite (Hf l) by set_solver. destruct (h !! l) as [[x|vs|kvs]|] eqn:El; try done.
    assert (forall kv, kv ∈ kvs -> content h' t kv.2 = content h t kv.2 /\ footprint h' t kv.2 = footprint h t kv.2) as Hx.
    { intros kv Hkv. apply IH. intros i Hi. apply Hf. apply elem_of_union_r.
      by eapply (elem_of_footprints (fun kv => footprint h t kv.2)). }
    rewrite (union_list_ext (fun kv => footprint h' t kv.2) (fun kv => footprint h t kv.2)) by (intros; by apply Hx).
    split; [|done]. f_equal. apply mapM_ext_in. intros kv Hkv. by destruct (Hx kv Hkv) as [-> _].
  - destruct (IHt x) as [-> ->]; [intros; apply Hf; set_solver|].
    by destruct (IHr r) as [-> ->]; [intros; apply Hf; set_solver|].
Qed.

Lemma footprints_dom {A B} (f : A -> option B) (g : A -> gset loc) l k (D : gset loc) :
  mapM f l = Some k -> (forall x c, f x = Some c -> g x ⊆ D) -> ⋃ (g <$> l) ⊆ D.
Proof.
  intros Hm Hg. revert k Hm. induction l as [|x l IH]; intros k Hm; [set_solver|]. cbn in Hm |- *.
  destruct (f x) as [c|] eqn:Ex; [|done]. cbn in Hm. destruct (mapM f l) as [k'|]; [|done].
  specialize (Hg _ _ Ex). specialize (IH _ eq_refl). set_solver.
Qed.

Lemma footprint_dom t h v c : content h t v = Some c -> footprint h t v ⊆ dom h.
Proof.
  revert v c. induction t as [|t IH|t IH|t IH| |name t IHt rest IHr]; intros v c Hc;
    destruct v as [s|[l|]|[[[l off] len]|]| |n x r]; try done; cbn in Hc |- *.
  - destruct (h !! l) as [[x|vs|kvs]|] eqn:El; try done. apply elem_of_dom_2 in El as Hl.
    destruct (content h t x) eqn:Ex; [|done]. apply IH in Ex. set_solver.
  - destruct (h !! l) as [[x|vs|kvs]|] eqn:El; try done. apply elem_of_dom_2 in El as Hl.
    unfold window in Hc. case_decide; [|done]. cbn in Hc. destruct (mapM _ _) as [cs|] eqn:Em; [|done].
    apply (footprints_dom _ (footprint h t) _ _ (dom h)) in Em; [|done]. set_solver.
  - destruct (h !! l) as [[x|vs|kvs]|] eqn:El; try done. apply elem_of_dom_2 in El as Hl.
    destruct (mapM _ _) as [cs|] eqn:Em; [|done].
    apply (footprints_dom _ (fun kv => footprint h t kv.2) _ _ (dom h)) in Em; [set_solver|].
    intros kv d Hd. destruct (content h t kv.2) eqn:Ex; [|done]. by eapply IH.
  - case_decide; [|done]. destruct (content h t x) eqn:Ex; [|done]. cbn in Hc.
    destruct (content h rest r) eqn:Er; [|done]. apply IHt in Ex. apply IHr in Er. set_solver.
Qed.

(** A reading is kept when the heap grows, and so is its footprint. *)
Lemma content_grow t h h' v c :
  content h t v = Some c -> h ⊆ h' -> content h' t v = Some c /\ footprint h' t v = footprint h t v.
Proof.
  intros Hc Hsub. destruct (content_frame t h h' v) as [-> ->]; [|done].
  intros l Hl%(footprint_dom _ _ _ _ Hc). apply elem_of_dom in Hl as [x Hx].
  transitivity (Some x); [by eapply lookup_weaken|done].
Qed.

Lemma flat_footprint t h v : flat t = true -> footprint h t v = ∅.
Proof.
  revert v. induction t as [|t IH|t IH|t IH| |name t IHt rest IHr]; intros v Hf; try done; destruct v; try done.
  cbn in Hf |- *. apply andb_prop in Hf as [Ht Hr]. rewrite IHt, IHr by done. set_solver.
Qed.

(** ** The statements keep the promise *)

(** The promise for any kind of value that is read through the heap. *)
Section copying.
Context {A C : Type} (ct : heap -> A -> option C) (fp : heap -> A -> gset loc).

Definition copying (f : A -> M A) : Prop :=
  forall h v c, ct h v = Some c ->
    exists out h', f v h = Some (out, h') /\ h ⊆ h' /\ ct h' out = Some c /\ fp h' out ## dom h.

Definition growing : Prop :=
  forall h h' v c, ct h v = Some c -> h ⊆ h' -> ct h' v = Some c /\ fp h' v = fp h v.

Lemma m_map_grow h h' vs cs :
  growing -> mapM (ct h) vs = Some cs -> h ⊆ h' ->
  mapM (ct h') vs = Some cs /\ ⋃ (fp h' <$> vs) = ⋃ (fp h <$> vs).
Proof.
  intros Hg Hm Hs. revert cs Hm. induction vs as [|v vs IH]; intros cs Hm; [done|]. cbn in Hm |- *.
  destruct (ct h v) as [c|] eqn:Ev; [|done]. destruct (Hg _ _ _ _ Ev Hs) as [-> ->]. cbn in Hm |- *.
  destruct (mapM (ct h) vs) as [ds|]; [|done]. by destruct (IH ds eq_refl) as [-> ->].
Qed.

Lemma m_map_copies f h vs cs :
  growing -> copying f -> mapM (ct h) vs = Some cs ->
  exists outs h', m_map f vs h = Some (outs, h') /\ h ⊆ h' /\ mapM (ct h') outs = Some cs /\
    ⋃ (fp h' <$> outs) ## dom h /\ length outs = length vs.
Proof.
  intros Hg Hf. revert h cs. induction vs as [|v vs IH]; intros h cs Hm; cbn in Hm |- *.
  { simplify_eq. exists [], h. split_and!; [done|done|done|set_solver|done]. }
  destruct (ct h v) as [c|] eqn:Ev; [|done]. cbn in Hm. destruct (mapM (ct h) vs) as [cs'|] eqn:Em; [|done].
  cbn in Hm. injection Hm as <-. destruct (Hf _ _ _ Ev) as (out & h1 & E1 & Hs1 & Hc1 & Hd1).
  destruct (m_map_grow _ _ _ _ Hg Em Hs1) as [Em1 _].
  destruct (IH h1 cs' Em1) as (outs & h2 & E2 & Hs2 & Hc2 & Hd2 & Hlen).
  destruct (Hg _ _ _ _ Hc1 Hs2) as [Hc1' Hf1].
  exists (out :: outs), h2. unfold m_bind. rewrite E1. cbn. rewrite E2. cbn. split_and!.
  - done.
  - by etrans.
  - by rewrite Hc1', Hc2.
  - rewrite Hf1. apply subseteq_dom in Hs1. set_solver.
  - by rewrite Hlen.
Qed.

End copying.

Lemma content_growing t : growing (fun h => content h t) (fun h => footprint h t).
Proof. intros h h' v c. apply content_grow. Qed.

Lemma entry_growing t :
  growing (fun h (kv : string * value) => pair kv.1 <$> content h t kv.2) (fun h kv => footprint h t kv.2).
Proof.
  intros h h' [k v] c Hc Hs. cbn in Hc |- *. destruct (content h t v) eqn:Ev; [|done].
  by destruct (content_grow _ _ _ _ _ Ev Hs) as [-> ->].
Qed.

Lemma copies_entry t f :
  copies t f ->
  copying (fun h (kv : string * value) => pair kv.1 <$> content h t kv.2) (fun h kv => footprint h t kv.2)
    (fun kv => y <-m f kv.2 ;; m_ret (kv.1, y)).
Proof.
  intros Hf h [k v] c Hc. cbn in Hc. destruct (content h t v) as [d|] eqn:Ev; [|done]. cbn in Hc. injection Hc as <-.
  destruct (Hf _ _ _ Ev) as (y & h1 & E1 & Hs1 & Hc1 & Hd1). exists (k, y), h1.
  unfold m_bind. cbn. rewrite E1, Hc1. done.
Qed.

(** A new cell is outside the heap it is added to. *)
Lemma alloc_fresh (h : heap) c : (fresh (dom h) ∉ dom h) /\ h ⊆ <[fresh (dom h) := c]> h.
Proof. assert (fresh (dom h) ∉ dom h) as Hf by apply is_fresh. split; [done|]. by apply insert_subseteq, not_elem_of_dom. Qed.

Lemma copies_assign t : flat t = true -> copies t assign.
Proof. intros Hf h v c Hc. exists v, h. rewrite flat_footprint by done. split_and!; [done|done|done|set_solver]. Qed.

Lemma copies_ptr t f : copies t f -> copies (TPtr t) (new_ptr f).
Proof.
  intros Hf h v c Hc. destruct v as [s|[l|]|w| |n x r]; try done.
  2: { exists (VRef None), h. split_and!; [done|done|done|set_solver]. }
  cbn in Hc. destruct (h !! l) as [[x|vs|kvs]|] eqn:El; try done.
  destruct (content h t x) as [d|] eqn:Ex; [|done]. cbn in Hc. injection Hc as <-.
  destruct (Hf _ _ _ Ex) as (y & h1 & E1 & Hs1 & Hc1 & Hd1).
  destruct (alloc_fresh h1 (Pointee y)) as [Hn Hs2]. destruct (content_grow _ _ _ _ _ Hc1 Hs2) as [Hc2 Hf2].
  exists (VRef (Some (fresh (dom h1)))), (<[fresh (dom h1) := Pointee y]> h1).
  split_and!.
  - unfold new_ptr, m_bind, m_load. rewrite El. cbn. by rewrite E1.
  - by etrans.
  - cbn [content]. by rewrite lookup_insert_eq, Hc2.
  - cbn [footprint]. rewrite lookup_insert_eq, Hf2. apply subseteq_dom in Hs1. set_solver.
Qed.

Lemma copies_slice t f : copies t f -> copies (TSlice t) (make_slice f).
Proof.
  intros Hf h v c Hc. destruct v as [s|p|[[[l off] len]|]| |n x r]; try done.
  2: { exists (VSlice None), h. split_and!; [done|done|done|set_solver]. }
  cbn in Hc. destruct (h !! l) as [[x|vs|kvs]|] eqn:El; try done.
  destruct (window vs off len) as [w|] eqn:Ew; [|done]. cbn in Hc.
  destruct (mapM (content h t) w) as [cs|] eqn:Em; [|done]. cbn in Hc. injection Hc as <-.
  destruct (m_map_copies _ _ f _ _ _ (content_growing t) Hf Em) as (ys & h1 & E1 & Hs1 & Hc1 & Hd1 & Hlen).
  assert (length ys = len) as Hy.
  { unfold window in Ew. case_decide; [|done]. injection Ew as <-. congruence. }
  destruct (alloc_fresh h1 (Elements ys)) as [Hn Hs2].
  exists (VSlice (Some (fresh (dom h1), 0%nat, len))), (<[fresh (dom h1) := Elements ys]> h1).
  destruct (m_map_grow _ _ _ _ _ _ (content_growing t) Hc1 Hs2) as [Hc2 Hf2]. split_and!.
  - unfold make_slice, m_bind, m_load. rewrite El. cbn. rewrite Ew. unfold m_bind. by rewrite E1.
  - by etrans.
  - cbn [content]. rewrite lookup_insert_eq. unfold window. rewrite drop_0, take_ge by lia. rewrite decide_True by done.
    cbn. by rewrite Hc2.
  - cbn [footprint]. rewrite lookup_insert_eq, drop_0, take_ge, Hf2 by lia. apply subseteq_dom in Hs1. set_solver.
Qed.

Lemma copies_map t f : copies t f -> copies (TMap t) (make_map f).
Proof.
  intros Hf h v c Hc. destruct v as [s|[l|]|p| |n x r]; try done.
  2: { exists (VRef None), h. split_and!; [done|done|done|set_solver]. }
  cbn in Hc. destruct (h !! l) as [[x|vs|kvs]|] eqn:El; try done.
  destruct (mapM _ kvs) as [cs|] eqn:Em; [|done]. cbn in Hc. injection Hc as <-.
  destruct (m_map_copies _ _ (fun kv => y <-m f kv.2 ;; m_ret (kv.1, y)) _ _ _ (entry_growing t) (copies_entry t f Hf) Em)
    as (ys & h1 & E1 & Hs1 & Hc1 & Hd1 & _).
  destruct (alloc_fresh h1 (Entries ys)) as [Hn Hs2].
  exists (VRef (Some (fresh (dom h1)))), (<[fresh (dom h1) := Entries ys]> h1).
  destruct (m_map_grow _ _ _ _ _ _ (entry_growing t) Hc1 Hs2) as [Hc2 Hf2]. split_and!.
  - unfold make_map, m_bind at 1, m_load. rewrite El. cbn. unfold m_bind at 1. by rewrite E1.
  - by etrans.
  - cbn [content]. rewrite lookup_insert_eq. by rewrite Hc2.
  - cbn [footprint]. rewrite lookup_insert_eq, Hf2. apply subseteq_dom in Hs1. set_solver.
Qed.

(** The listed fields keep the promise, and the others have no references. *)
Fixpoint fields_copied (updates : list (string * (value -> M value))) (t : ty) : Prop :=
  match t with
  | TEnd => True
  | TField name t rest =>
      match assoc name updates with Some f => copies t f | None => flat t = true end /\ fields_copied updates rest
  | _ => False
  end.

Lemma copies_struct updates t : fields_copied updates t -> copies t (copy_struct updates).
Proof.
  induction t as [|t IH|t IH|t IH| |name t _ rest IH]; intros Hu h v c Hc; try done.
  - destruct v; try done. exists VEnd, h. cbn in Hc. simplify_eq. split_and!; [done|done|done|set_solver].
  - destruct Hu as [Ht Hr]. destruct v as [s|p|w| |name' x r]; try done. cbn in Hc.
    case_decide as En; [|done]. subst name'. destruct (content h t x) as [d|] eqn:Ex; [|done]. cbn in Hc.
    destruct (content h rest r) as [e|] eqn:Er; [|done]. cbn in Hc. injection Hc as <-.
    assert (copies t (fun x => match assoc name updates with Some f => f x | None => assign x end)) as Hf.
    { destruct (assoc name updates); [done|by apply copies_assign]. }
    destruct (Hf _ _ _ Ex) as (y & h1 & E1 & Hs1 & Hc1 & Hd1).
    destruct (content_grow _ _ _ _ _ Er Hs1) as [Er1 _].
    destruct (IH Hr _ _ _ Er1) as (out & h2 & E2 & Hs2 & Hc2 & Hd2).
    destruct (content_grow _ _ _ _ _ Hc1 Hs2) as [Hc1' Hf1].
    exists (VField name y out), h2. split_and!.
    + cbn [copy_struct]. unfold m_bind. rewrite E1. cbn. by rewrite E2.
    + by etrans.
    + cbn [content]. rewrite decide_True by done. by rewrite Hc1', Hc2.
    + cbn [footprint]. rewrite Hf1. apply subseteq_dom in Hs1. set_solver.
Qed.
End DeepCopy.
