(* ===== verification/GeneratedCopies.v ===== *)
(** * The generated deep copies of the API types

    The structs of [api/assignment/v1alpha1/types.go] as types of [DeepCopy], with their fields in
    order, and every method of [zz_generated.deepcopy.go]: [X_DeepCopyInto], [X_DeepCopy] and, for
    the kinds and their lists, [X_DeepCopyObject].  A [DeepCopyInto] lists the statements of its
    body after the first, [*out = *in].  Strings, UIDs, numbers and booleans are scalars.

    The metadata, condition and time types belong to apimachinery: their shapes and copies are a
    parameter ([Library]), with the promise that each of them copies ([LibraryCopies]).  [Copies]
    derives the promise of a method from those of the methods it calls, one instance per struct. *)

From S2P Require Import Prelude DeepCopy.
From stdpp Require Import options.
Import DeepCopy.

(** ** The library *)

Class Library := {
  TypeMeta_ty : ty; ObjectMeta_ty : ty; ListMeta_ty : ty; Condition_ty : ty; Time_ty : ty;
  ObjectMeta_DeepCopyInto : value -> M value;
  ListMeta_DeepCopyInto : value -> M value;
  Condition_DeepCopyInto : value -> M value;
  Time_DeepCopyInto : value -> M value;
  Time_DeepCopy : value -> M value }.

(** A kind and an API version; an instant, which apimachinery documents as safe to assign; and the
    deep copies of the others. *)
Class LibraryCopies (L : Library) : Prop := {
  TypeMeta_flat : flat TypeMeta_ty = true;
  Time_flat : flat Time_ty = true;
  ObjectMeta_copies : copies ObjectMeta_ty ObjectMeta_DeepCopyInto;
  ListMeta_copies : copies ListMeta_ty ListMeta_DeepCopyInto;
  Condition_copies : copies Condition_ty Condition_DeepCopyInto;
  Time_copies : copies Time_ty Time_DeepCopyInto;
  Time_pointer_copies : copies (TPtr Time_ty) Time_DeepCopy }.

(** [if in != nil { *out = ( *in).DeepCopy() }]. *)
Definition unless_nil (f : value -> M value) (v : value) : M value :=
  match v with VRef None => m_ret v | _ => f v end.

(** [if c := in.DeepCopy(); c != nil { return c }; return nil], with the dynamic type of the
    interface value; [None] is the nil interface. *)
Definition not_nil (kind : string) (f : value -> M value) (v : value) : M (option (string * value)) :=
  c <-m f v ;; match c with VRef None => m_ret None | _ => m_ret (Some (kind, c)) end.

Section methods.
Context `{L : Library}.

(** ** Structs *)

Definition AgentgatewayBackendPolicy_ty : ty :=
  Struct [("Allow", TScalar)].

Definition EgressPolicy_ty : ty :=
  Struct [("Agentgateway", TMap AgentgatewayBackendPolicy_ty)].

Definition CommandPolicyRule_ty : ty :=
  Struct [("Pattern", TScalar); ("Decision", TScalar); ("Reason", TScalar)].

Definition ValidationRule_ty : ty :=
  Struct [("PathPrefix", TScalar); ("Command", TScalar)].

Definition HarnessPolicy_ty : ty :=
  Struct [("CommandPolicy", TSlice CommandPolicyRule_ty); ("ValidationRules", TSlice ValidationRule_ty)].

Definition GovernanceBoundary_ty : ty :=
  Struct [("LogicalTenant", TScalar); ("Team", TScalar); ("PermissionLevel", TScalar); ("DisplayName", TScalar)].

Definition CapabilityBundleSpec_ty : ty :=
  Struct [("Egress", TPtr EgressPolicy_ty); ("Harness", TPtr HarnessPolicy_ty);
          ("Governance", TPtr GovernanceBoundary_ty)].

Definition CapabilityBundle_ty : ty :=
  Struct [("TypeMeta", TypeMeta_ty); ("ObjectMeta", ObjectMeta_ty); ("Spec", CapabilityBundleSpec_ty)].

Definition CapabilityBundleList_ty : ty :=
  Struct [("TypeMeta", TypeMeta_ty); ("ListMeta", ListMeta_ty); ("Items", TSlice CapabilityBundle_ty)].

Definition CapabilityBundleReference_ty : ty :=
  Struct [("Name", TScalar); ("PolicyRevision", TScalar)].

Definition SandboxTemplateResources_ty : ty :=
  Struct [("CPU", TScalar); ("Memory", TScalar)].

Definition SandboxTemplateSpec_ty : ty :=
  Struct [("DisplayName", TScalar); ("Description", TScalar); ("Image", TScalar); ("Entrypoint", TSlice TScalar);
          ("CapabilityBundleRef", CapabilityBundleReference_ty); ("Resources", SandboxTemplateResources_ty);
          ("TimeoutSeconds", TScalar); ("Enabled", TScalar)].

Definition SandboxTemplate_ty : ty :=
  Struct [("TypeMeta", TypeMeta_ty); ("ObjectMeta", ObjectMeta_ty); ("Spec", SandboxTemplateSpec_ty)].

Definition SandboxTemplateList_ty : ty :=
  Struct [("TypeMeta", TypeMeta_ty); ("ListMeta", ListMeta_ty); ("Items", TSlice SandboxTemplate_ty)].

Definition SandboxTenantPolicySpec_ty : ty :=
  Struct [("LogicalTenant", TScalar); ("WorkloadNamespace", TScalar); ("AllowedCapabilityBundles", TSlice TScalar);
          ("AllowedCapabilityBundlePrefixes", TSlice TScalar); ("MaxConcurrentSandboxes", TScalar);
          ("MaxLifetimeSeconds", TScalar); ("MaxAccessRequestDurationSeconds", TScalar); ("MaxCPU", TScalar);
          ("MaxMemory", TScalar); ("Enabled", TScalar)].

Definition SandboxTenantPolicy_ty : ty :=
  Struct [("TypeMeta", TypeMeta_ty); ("ObjectMeta", ObjectMeta_ty); ("Spec", SandboxTenantPolicySpec_ty)].

Definition SandboxTenantPolicyList_ty : ty :=
  Struct [("TypeMeta", TypeMeta_ty); ("ListMeta", ListMeta_ty); ("Items", TSlice SandboxTenantPolicy_ty)].

Definition SandboxPrincipalBindingSpec_ty : ty :=
  Struct [("TenantID", TScalar); ("ObjectID", TScalar); ("ServiceAccountNamespace", TScalar);
          ("ServiceAccountName", TScalar); ("RequesterTenants", TSlice TScalar); ("AdminTenants", TSlice TScalar)].

Definition SandboxPrincipalBinding_ty : ty :=
  Struct [("TypeMeta", TypeMeta_ty); ("ObjectMeta", ObjectMeta_ty); ("Spec", SandboxPrincipalBindingSpec_ty)].

Definition SandboxPrincipalBindingList_ty : ty :=
  Struct [("TypeMeta", TypeMeta_ty); ("ListMeta", ListMeta_ty); ("Items", TSlice SandboxPrincipalBinding_ty)].

Definition SandboxTemplateReference_ty : ty :=
  Struct [("Name", TScalar); ("UID", TScalar); ("SpecRevision", TScalar)].

Definition SandboxAssignmentSpec_ty : ty :=
  Struct [("TemplateRef", SandboxTemplateReference_ty); ("LogicalTenant", TScalar);
          ("CapabilityBundleRef", CapabilityBundleReference_ty)].

Definition ObjectReference_ty : ty :=
  Struct [("APIVersion", TScalar); ("Kind", TScalar); ("Namespace", TScalar); ("Name", TScalar); ("UID", TScalar)].

Definition ResolvedCapabilityBundle_ty : ty :=
  Struct [("Name", TScalar); ("UID", TScalar); ("PolicyRevision", TScalar)].

Definition SandboxAssignmentStatus_ty : ty :=
  Struct [("WorkloadRef", TPtr ObjectReference_ty); ("PodRef", TPtr ObjectReference_ty);
          ("ResolvedCapabilityBundle", TPtr ResolvedCapabilityBundle_ty); ("Conditions", TSlice Condition_ty)].

Definition SandboxAssignment_ty : ty :=
  Struct [("TypeMeta", TypeMeta_ty); ("ObjectMeta", ObjectMeta_ty); ("Spec", SandboxAssignmentSpec_ty);
          ("Status", SandboxAssignmentStatus_ty)].

Definition SandboxAssignmentList_ty : ty :=
  Struct [("TypeMeta", TypeMeta_ty); ("ListMeta", ListMeta_ty); ("Items", TSlice SandboxAssignment_ty)].

Definition AssignmentReference_ty : ty :=
  Struct [("Name", TScalar); ("UID", TScalar)].

Definition GovernanceIdentity_ty : ty :=
  Struct [("TenantID", TScalar); ("ObjectID", TScalar); ("DisplayName", TScalar); ("LogicalTenant", TScalar);
          ("Team", TScalar)].

Definition SandboxAccessRequestSpec_ty : ty :=
  Struct [("AssignmentRef", AssignmentReference_ty); ("PodUID", TScalar); ("BasePolicyRevision", TScalar);
          ("Backend", TScalar); ("Method", TScalar); ("Host", TScalar); ("Path", TScalar); ("Reason", TScalar);
          ("Requester", GovernanceIdentity_ty); ("RequestedDurationSeconds", TScalar)].

Definition SandboxAccessRequestStatus_ty : ty :=
  Struct [("State", TScalar); ("Approver", TPtr GovernanceIdentity_ty); ("DecisionReason", TScalar);
          ("ApprovedAt", TPtr Time_ty); ("ExpiresAt", TPtr Time_ty)].

Definition SandboxAccessRequest_ty : ty :=
  Struct [("TypeMeta", TypeMeta_ty); ("ObjectMeta", ObjectMeta_ty); ("Spec", SandboxAccessRequestSpec_ty);
          ("Status", SandboxAccessRequestStatus_ty)].

Definition SandboxAccessRequestList_ty : ty :=
  Struct [("TypeMeta", TypeMeta_ty); ("ListMeta", ListMeta_ty); ("Items", TSlice SandboxAccessRequest_ty)].

Definition SandboxEgressEventSpec_ty : ty :=
  Struct [("Timestamp", Time_ty); ("AssignmentRef", AssignmentReference_ty); ("SandboxID", TScalar);
          ("PodUID", TScalar); ("CapabilityBundleName", TScalar); ("CapabilityBundleRevision", TScalar);
          ("LogicalTenant", TScalar); ("Team", TScalar); ("PermissionLevel", TScalar); ("BoundaryDisplayName", TScalar);
          ("Backend", TScalar); ("Method", TScalar); ("Host", TScalar); ("Path", TScalar); ("Allowed", TScalar);
          ("Reason", TScalar); ("DecisionSource", TScalar); ("AccessRequestName", TScalar)].

Definition SandboxEgressEvent_ty : ty :=
  Struct [("TypeMeta", TypeMeta_ty); ("ObjectMeta", ObjectMeta_ty); ("Spec", SandboxEgressEventSpec_ty)].

Definition SandboxEgressEventList_ty : ty :=
  Struct [("TypeMeta", TypeMeta_ty); ("ListMeta", ListMeta_ty); ("Items", TSlice SandboxEgressEvent_ty)].

Definition SandboxValidationRunSpec_ty : ty :=
  Struct [("TaskID", TScalar); ("Repository", TScalar); ("SourceRevision", TScalar); ("ChangedPaths", TSlice TScalar);
          ("SelectedCommands", TSlice TScalar); ("TemplateName", TScalar); ("AssignmentRef", AssignmentReference_ty);
          ("PodUID", TScalar); ("SandboxID", TScalar); ("CapabilityBundleName", TScalar);
          ("CapabilityBundleRevision", TScalar); ("StartedAt", Time_ty)].

Definition SandboxValidationCommandResult_ty : ty :=
  Struct [("Command", TScalar); ("ExitCode", TScalar); ("StdoutSHA256", TScalar); ("StderrSHA256", TScalar)].

Definition SandboxValidationRunStatus_ty : ty :=
  Struct [("State", TScalar); ("CompletedAt", TPtr Time_ty); ("Results", TSlice SandboxValidationCommandResult_ty);
          ("CleanedUp", TScalar); ("Message", TScalar)].

Definition SandboxValidationRun_ty : ty :=
  Struct [("TypeMeta", TypeMeta_ty); ("ObjectMeta", ObjectMeta_ty); ("Spec", SandboxValidationRunSpec_ty);
          ("Status", SandboxValidationRunStatus_ty)].

Definition SandboxValidationRunList_ty : ty :=
  Struct [("TypeMeta", TypeMeta_ty); ("ListMeta", ListMeta_ty); ("Items", TSlice SandboxValidationRun_ty)].

Definition SandboxCredentialEventSpec_ty : ty :=
  Struct [("Timestamp", Time_ty); ("GrantID", TScalar); ("Action", TScalar); ("TaskID", TScalar);
          ("AssignmentRef", AssignmentReference_ty); ("PodUID", TScalar); ("SandboxID", TScalar);
          ("CapabilityBundleName", TScalar); ("CapabilityBundleRevision", TScalar); ("Backend", TScalar);
          ("Method", TScalar); ("Host", TScalar); ("Path", TScalar); ("ExpiresAt", Time_ty)].

Definition SandboxCredentialEvent_ty : ty :=
  Struct [("TypeMeta", TypeMeta_ty); ("ObjectMeta", ObjectMeta_ty); ("Spec", SandboxCredentialEventSpec_ty)].

Definition SandboxCredentialEventList_ty : ty :=
  Struct [("TypeMeta", TypeMeta_ty); ("ListMeta", ListMeta_ty); ("Items", TSlice SandboxCredentialEvent_ty)].

Definition SandboxCredentialRevocationSpec_ty : ty :=
  Struct [("GrantID", TScalar); ("ExpiresAt", Time_ty); ("AssignmentRef", AssignmentReference_ty); ("PodUID", TScalar);
          ("SandboxID", TScalar)].

Definition SandboxCredentialRevocation_ty : ty :=
  Struct [("TypeMeta", TypeMeta_ty); ("ObjectMeta", ObjectMeta_ty); ("Spec", SandboxCredentialRevocationSpec_ty)].

Definition SandboxCredentialRevocationList_ty : ty :=
  Struct [("TypeMeta", TypeMeta_ty); ("ListMeta", ListMeta_ty); ("Items", TSlice SandboxCredentialRevocation_ty)].

(** ** [DeepCopyInto] *)

Definition AgentgatewayBackendPolicy_DeepCopyInto := copy_struct [].

Definition EgressPolicy_DeepCopyInto := copy_struct [("Agentgateway", make_map assign)].

Definition CommandPolicyRule_DeepCopyInto := copy_struct [].

Definition ValidationRule_DeepCopyInto := copy_struct [].

Definition HarnessPolicy_DeepCopyInto :=
  copy_struct [("CommandPolicy", make_slice assign); ("ValidationRules", make_slice assign)].

Definition GovernanceBoundary_DeepCopyInto := copy_struct [].

Definition CapabilityBundleSpec_DeepCopyInto :=
  copy_struct [("Egress", new_ptr EgressPolicy_DeepCopyInto); ("Harness", new_ptr HarnessPolicy_DeepCopyInto);
               ("Governance", new_ptr assign)].

Definition CapabilityBundle_DeepCopyInto :=
  copy_struct [("TypeMeta", assign); ("ObjectMeta", ObjectMeta_DeepCopyInto); ("Spec", CapabilityBundleSpec_DeepCopyInto)].

Definition CapabilityBundleList_DeepCopyInto :=
  copy_struct [("TypeMeta", assign); ("ListMeta", ListMeta_DeepCopyInto); ("Items", make_slice CapabilityBundle_DeepCopyInto)].

Definition CapabilityBundleReference_DeepCopyInto := copy_struct [].

Definition SandboxTemplateResources_DeepCopyInto := copy_struct [].

Definition SandboxTemplateSpec_DeepCopyInto :=
  copy_struct [("Entrypoint", make_slice assign); ("CapabilityBundleRef", assign); ("Resources", assign)].

Definition SandboxTemplate_DeepCopyInto :=
  copy_struct [("TypeMeta", assign); ("ObjectMeta", ObjectMeta_DeepCopyInto); ("Spec", SandboxTemplateSpec_DeepCopyInto)].

Definition SandboxTemplateList_DeepCopyInto :=
  copy_struct [("TypeMeta", assign); ("ListMeta", ListMeta_DeepCopyInto); ("Items", make_slice SandboxTemplate_DeepCopyInto)].

Definition SandboxTenantPolicySpec_DeepCopyInto :=
  copy_struct [("AllowedCapabilityBundles", make_slice assign); ("AllowedCapabilityBundlePrefixes", make_slice assign)].

Definition SandboxTenantPolicy_DeepCopyInto :=
  copy_struct [("TypeMeta", assign); ("ObjectMeta", ObjectMeta_DeepCopyInto); ("Spec", SandboxTenantPolicySpec_DeepCopyInto)].

Definition SandboxTenantPolicyList_DeepCopyInto :=
  copy_struct [("TypeMeta", assign); ("ListMeta", ListMeta_DeepCopyInto);
               ("Items", make_slice SandboxTenantPolicy_DeepCopyInto)].

Definition SandboxPrincipalBindingSpec_DeepCopyInto :=
  copy_struct [("RequesterTenants", make_slice assign); ("AdminTenants", make_slice assign)].

Definition SandboxPrincipalBinding_DeepCopyInto :=
  copy_struct [("TypeMeta", assign); ("ObjectMeta", ObjectMeta_DeepCopyInto);
               ("Spec", SandboxPrincipalBindingSpec_DeepCopyInto)].

Definition SandboxPrincipalBindingList_DeepCopyInto :=
  copy_struct [("TypeMeta", assign); ("ListMeta", ListMeta_DeepCopyInto);
               ("Items", make_slice SandboxPrincipalBinding_DeepCopyInto)].

Definition SandboxAssignmentSpec_DeepCopyInto :=
  copy_struct [("TemplateRef", assign); ("CapabilityBundleRef", assign)].

Definition ObjectReference_DeepCopyInto := copy_struct [].

Definition ResolvedCapabilityBundle_DeepCopyInto := copy_struct [].

Definition SandboxAssignmentStatus_DeepCopyInto :=
  copy_struct [("WorkloadRef", new_ptr assign); ("PodRef", new_ptr assign); ("ResolvedCapabilityBundle", new_ptr assign);
               ("Conditions", make_slice Condition_DeepCopyInto)].

Definition SandboxAssignment_DeepCopyInto :=
  copy_struct [("TypeMeta", assign); ("ObjectMeta", ObjectMeta_DeepCopyInto); ("Spec", assign);
               ("Status", SandboxAssignmentStatus_DeepCopyInto)].

Definition SandboxAssignmentList_DeepCopyInto :=
  copy_struct [("TypeMeta", assign); ("ListMeta", ListMeta_DeepCopyInto);
               ("Items", make_slice SandboxAssignment_DeepCopyInto)].

Definition AssignmentReference_DeepCopyInto := copy_struct [].

Definition GovernanceIdentity_DeepCopyInto := copy_struct [].

Definition SandboxAccessRequestSpec_DeepCopyInto := copy_struct [("AssignmentRef", assign); ("Requester", assign)].

Definition SandboxAccessRequestStatus_DeepCopyInto :=
  copy_struct [("Approver", new_ptr assign); ("ApprovedAt", unless_nil Time_DeepCopy);
               ("ExpiresAt", unless_nil Time_DeepCopy)].

Definition SandboxAccessRequest_DeepCopyInto :=
  copy_struct [("TypeMeta", assign); ("ObjectMeta", ObjectMeta_DeepCopyInto); ("Spec", assign);
               ("Status", SandboxAccessRequestStatus_DeepCopyInto)].

Definition SandboxAccessRequestList_DeepCopyInto :=
  copy_struct [("TypeMeta", assign); ("ListMeta", ListMeta_DeepCopyInto);
               ("Items", make_slice SandboxAccessRequest_DeepCopyInto)].

Definition SandboxEgressEventSpec_DeepCopyInto :=
  copy_struct [("Timestamp", Time_DeepCopyInto); ("AssignmentRef", assign)].

Definition SandboxEgressEvent_DeepCopyInto :=
  copy_struct [("TypeMeta", assign); ("ObjectMeta", ObjectMeta_DeepCopyInto); ("Spec", SandboxEgressEventSpec_DeepCopyInto)].

Definition SandboxEgressEventList_DeepCopyInto :=
  copy_struct [("TypeMeta", assign); ("ListMeta", ListMeta_DeepCopyInto);
               ("Items", make_slice SandboxEgressEvent_DeepCopyInto)].

Definition SandboxValidationRunSpec_DeepCopyInto :=
  copy_struct [("ChangedPaths", make_slice assign); ("SelectedCommands", make_slice assign); ("AssignmentRef", assign);
               ("StartedAt", Time_DeepCopyInto)].

Definition SandboxValidationCommandResult_DeepCopyInto := copy_struct [].

Definition SandboxValidationRunStatus_DeepCopyInto :=
  copy_struct [("CompletedAt", unless_nil Time_DeepCopy); ("Results", make_slice assign)].

Definition SandboxValidationRun_DeepCopyInto :=
  copy_struct [("TypeMeta", assign); ("ObjectMeta", ObjectMeta_DeepCopyInto);
               ("Spec", SandboxValidationRunSpec_DeepCopyInto); ("Status", SandboxValidationRunStatus_DeepCopyInto)].

Definition SandboxValidationRunList_DeepCopyInto :=
  copy_struct [("TypeMeta", assign); ("ListMeta", ListMeta_DeepCopyInto);
               ("Items", make_slice SandboxValidationRun_DeepCopyInto)].

Definition SandboxCredentialEventSpec_DeepCopyInto :=
  copy_struct [("Timestamp", Time_DeepCopyInto); ("AssignmentRef", assign); ("ExpiresAt", Time_DeepCopyInto)].

Definition SandboxCredentialEvent_DeepCopyInto :=
  copy_struct [("TypeMeta", assign); ("ObjectMeta", ObjectMeta_DeepCopyInto);
               ("Spec", SandboxCredentialEventSpec_DeepCopyInto)].

Definition SandboxCredentialEventList_DeepCopyInto :=
  copy_struct [("TypeMeta", assign); ("ListMeta", ListMeta_DeepCopyInto);
               ("Items", make_slice SandboxCredentialEvent_DeepCopyInto)].

Definition SandboxCredentialRevocationSpec_DeepCopyInto := copy_struct [].

Definition SandboxCredentialRevocation_DeepCopyInto :=
  copy_struct [("TypeMeta", assign); ("ObjectMeta", ObjectMeta_DeepCopyInto); ("Spec", assign)].

Definition SandboxCredentialRevocationList_DeepCopyInto :=
  copy_struct [("TypeMeta", assign); ("ListMeta", ListMeta_DeepCopyInto);
               ("Items", make_slice SandboxCredentialRevocation_DeepCopyInto)].

(** ** [DeepCopy]: [if in == nil { return nil }; out := new(T); in.DeepCopyInto(out); return out] *)

Definition AgentgatewayBackendPolicy_DeepCopy := new_ptr AgentgatewayBackendPolicy_DeepCopyInto.

Definition EgressPolicy_DeepCopy := new_ptr EgressPolicy_DeepCopyInto.

Definition CommandPolicyRule_DeepCopy := new_ptr CommandPolicyRule_DeepCopyInto.

Definition ValidationRule_DeepCopy := new_ptr ValidationRule_DeepCopyInto.

Definition HarnessPolicy_DeepCopy := new_ptr HarnessPolicy_DeepCopyInto.

Definition GovernanceBoundary_DeepCopy := new_ptr GovernanceBoundary_DeepCopyInto.

Definition CapabilityBundleSpec_DeepCopy := new_ptr CapabilityBundleSpec_DeepCopyInto.

Definition CapabilityBundle_DeepCopy := new_ptr CapabilityBundle_DeepCopyInto.

Definition CapabilityBundleList_DeepCopy := new_ptr CapabilityBundleList_DeepCopyInto.

Definition CapabilityBundleReference_DeepCopy := new_ptr CapabilityBundleReference_DeepCopyInto.

Definition SandboxTemplateResources_DeepCopy := new_ptr SandboxTemplateResources_DeepCopyInto.

Definition SandboxTemplateSpec_DeepCopy := new_ptr SandboxTemplateSpec_DeepCopyInto.

Definition SandboxTemplate_DeepCopy := new_ptr SandboxTemplate_DeepCopyInto.

Definition SandboxTemplateList_DeepCopy := new_ptr SandboxTemplateList_DeepCopyInto.

Definition SandboxTenantPolicySpec_DeepCopy := new_ptr SandboxTenantPolicySpec_DeepCopyInto.

Definition SandboxTenantPolicy_DeepCopy := new_ptr SandboxTenantPolicy_DeepCopyInto.

Definition SandboxTenantPolicyList_DeepCopy := new_ptr SandboxTenantPolicyList_DeepCopyInto.

Definition SandboxPrincipalBindingSpec_DeepCopy := new_ptr SandboxPrincipalBindingSpec_DeepCopyInto.

Definition SandboxPrincipalBinding_DeepCopy := new_ptr SandboxPrincipalBinding_DeepCopyInto.

Definition SandboxPrincipalBindingList_DeepCopy := new_ptr SandboxPrincipalBindingList_DeepCopyInto.

Definition SandboxAssignmentSpec_DeepCopy := new_ptr SandboxAssignmentSpec_DeepCopyInto.

Definition ObjectReference_DeepCopy := new_ptr ObjectReference_DeepCopyInto.

Definition ResolvedCapabilityBundle_DeepCopy := new_ptr ResolvedCapabilityBundle_DeepCopyInto.

Definition SandboxAssignmentStatus_DeepCopy := new_ptr SandboxAssignmentStatus_DeepCopyInto.

Definition SandboxAssignment_DeepCopy := new_ptr SandboxAssignment_DeepCopyInto.

Definition SandboxAssignmentList_DeepCopy := new_ptr SandboxAssignmentList_DeepCopyInto.

Definition AssignmentReference_DeepCopy := new_ptr AssignmentReference_DeepCopyInto.

Definition GovernanceIdentity_DeepCopy := new_ptr GovernanceIdentity_DeepCopyInto.

Definition SandboxAccessRequestSpec_DeepCopy := new_ptr SandboxAccessRequestSpec_DeepCopyInto.

Definition SandboxAccessRequestStatus_DeepCopy := new_ptr SandboxAccessRequestStatus_DeepCopyInto.

Definition SandboxAccessRequest_DeepCopy := new_ptr SandboxAccessRequest_DeepCopyInto.

Definition SandboxAccessRequestList_DeepCopy := new_ptr SandboxAccessRequestList_DeepCopyInto.

Definition SandboxEgressEventSpec_DeepCopy := new_ptr SandboxEgressEventSpec_DeepCopyInto.

Definition SandboxEgressEvent_DeepCopy := new_ptr SandboxEgressEvent_DeepCopyInto.

Definition SandboxEgressEventList_DeepCopy := new_ptr SandboxEgressEventList_DeepCopyInto.

Definition SandboxValidationRunSpec_DeepCopy := new_ptr SandboxValidationRunSpec_DeepCopyInto.

Definition SandboxValidationCommandResult_DeepCopy := new_ptr SandboxValidationCommandResult_DeepCopyInto.

Definition SandboxValidationRunStatus_DeepCopy := new_ptr SandboxValidationRunStatus_DeepCopyInto.

Definition SandboxValidationRun_DeepCopy := new_ptr SandboxValidationRun_DeepCopyInto.

Definition SandboxValidationRunList_DeepCopy := new_ptr SandboxValidationRunList_DeepCopyInto.

Definition SandboxCredentialEventSpec_DeepCopy := new_ptr SandboxCredentialEventSpec_DeepCopyInto.

Definition SandboxCredentialEvent_DeepCopy := new_ptr SandboxCredentialEvent_DeepCopyInto.

Definition SandboxCredentialEventList_DeepCopy := new_ptr SandboxCredentialEventList_DeepCopyInto.

Definition SandboxCredentialRevocationSpec_DeepCopy := new_ptr SandboxCredentialRevocationSpec_DeepCopyInto.

Definition SandboxCredentialRevocation_DeepCopy := new_ptr SandboxCredentialRevocation_DeepCopyInto.

Definition SandboxCredentialRevocationList_DeepCopy := new_ptr SandboxCredentialRevocationList_DeepCopyInto.

(** ** [DeepCopyObject] *)

Definition CapabilityBundle_DeepCopyObject := not_nil "CapabilityBundle" CapabilityBundle_DeepCopy.

Definition CapabilityBundleList_DeepCopyObject := not_nil "CapabilityBundleList" CapabilityBundleList_DeepCopy.

Definition SandboxTemplate_DeepCopyObject := not_nil "SandboxTemplate" SandboxTemplate_DeepCopy.

Definition SandboxTemplateList_DeepCopyObject := not_nil "SandboxTemplateList" SandboxTemplateList_DeepCopy.

Definition SandboxTenantPolicy_DeepCopyObject := not_nil "SandboxTenantPolicy" SandboxTenantPolicy_DeepCopy.

Definition SandboxTenantPolicyList_DeepCopyObject := not_nil "SandboxTenantPolicyList" SandboxTenantPolicyList_DeepCopy.

Definition SandboxPrincipalBinding_DeepCopyObject := not_nil "SandboxPrincipalBinding" SandboxPrincipalBinding_DeepCopy.

Definition SandboxPrincipalBindingList_DeepCopyObject := not_nil "SandboxPrincipalBindingList" SandboxPrincipalBindingList_DeepCopy.

Definition SandboxAssignment_DeepCopyObject := not_nil "SandboxAssignment" SandboxAssignment_DeepCopy.

Definition SandboxAssignmentList_DeepCopyObject := not_nil "SandboxAssignmentList" SandboxAssignmentList_DeepCopy.

Definition SandboxAccessRequest_DeepCopyObject := not_nil "SandboxAccessRequest" SandboxAccessRequest_DeepCopy.

Definition SandboxAccessRequestList_DeepCopyObject := not_nil "SandboxAccessRequestList" SandboxAccessRequestList_DeepCopy.

Definition SandboxEgressEvent_DeepCopyObject := not_nil "SandboxEgressEvent" SandboxEgressEvent_DeepCopy.

Definition SandboxEgressEventList_DeepCopyObject := not_nil "SandboxEgressEventList" SandboxEgressEventList_DeepCopy.

Definition SandboxValidationRun_DeepCopyObject := not_nil "SandboxValidationRun" SandboxValidationRun_DeepCopy.

Definition SandboxValidationRunList_DeepCopyObject := not_nil "SandboxValidationRunList" SandboxValidationRunList_DeepCopy.

Definition SandboxCredentialEvent_DeepCopyObject := not_nil "SandboxCredentialEvent" SandboxCredentialEvent_DeepCopy.

Definition SandboxCredentialEventList_DeepCopyObject := not_nil "SandboxCredentialEventList" SandboxCredentialEventList_DeepCopy.

Definition SandboxCredentialRevocation_DeepCopyObject := not_nil "SandboxCredentialRevocation" SandboxCredentialRevocation_DeepCopy.

Definition SandboxCredentialRevocationList_DeepCopyObject := not_nil "SandboxCredentialRevocationList" SandboxCredentialRevocationList_DeepCopy.

(** ** The methods as tables *)

Record method := Method { m_type : string; m_ty : ty; m_DeepCopy : value -> M value }.

Definition methods : list method :=
  [Method "AgentgatewayBackendPolicy" AgentgatewayBackendPolicy_ty AgentgatewayBackendPolicy_DeepCopy;
   Method "EgressPolicy" EgressPolicy_ty EgressPolicy_DeepCopy;
   Method "CommandPolicyRule" CommandPolicyRule_ty CommandPolicyRule_DeepCopy;
   Method "ValidationRule" ValidationRule_ty ValidationRule_DeepCopy;
   Method "HarnessPolicy" HarnessPolicy_ty HarnessPolicy_DeepCopy;
   Method "GovernanceBoundary" GovernanceBoundary_ty GovernanceBoundary_DeepCopy;
   Method "CapabilityBundleSpec" CapabilityBundleSpec_ty CapabilityBundleSpec_DeepCopy;
   Method "CapabilityBundle" CapabilityBundle_ty CapabilityBundle_DeepCopy;
   Method "CapabilityBundleList" CapabilityBundleList_ty CapabilityBundleList_DeepCopy;
   Method "CapabilityBundleReference" CapabilityBundleReference_ty CapabilityBundleReference_DeepCopy;
   Method "SandboxTemplateResources" SandboxTemplateResources_ty SandboxTemplateResources_DeepCopy;
   Method "SandboxTemplateSpec" SandboxTemplateSpec_ty SandboxTemplateSpec_DeepCopy;
   Method "SandboxTemplate" SandboxTemplate_ty SandboxTemplate_DeepCopy;
   Method "SandboxTemplateList" SandboxTemplateList_ty SandboxTemplateList_DeepCopy;
   Method "SandboxTenantPolicySpec" SandboxTenantPolicySpec_ty SandboxTenantPolicySpec_DeepCopy;
   Method "SandboxTenantPolicy" SandboxTenantPolicy_ty SandboxTenantPolicy_DeepCopy;
   Method "SandboxTenantPolicyList" SandboxTenantPolicyList_ty SandboxTenantPolicyList_DeepCopy;
   Method "SandboxPrincipalBindingSpec" SandboxPrincipalBindingSpec_ty SandboxPrincipalBindingSpec_DeepCopy;
   Method "SandboxPrincipalBinding" SandboxPrincipalBinding_ty SandboxPrincipalBinding_DeepCopy;
   Method "SandboxPrincipalBindingList" SandboxPrincipalBindingList_ty SandboxPrincipalBindingList_DeepCopy;
   Method "SandboxAssignmentSpec" SandboxAssignmentSpec_ty SandboxAssignmentSpec_DeepCopy;
   Method "ObjectReference" ObjectReference_ty ObjectReference_DeepCopy;
   Method "ResolvedCapabilityBundle" ResolvedCapabilityBundle_ty ResolvedCapabilityBundle_DeepCopy;
   Method "SandboxAssignmentStatus" SandboxAssignmentStatus_ty SandboxAssignmentStatus_DeepCopy;
   Method "SandboxAssignment" SandboxAssignment_ty SandboxAssignment_DeepCopy;
   Method "SandboxAssignmentList" SandboxAssignmentList_ty SandboxAssignmentList_DeepCopy;
   Method "AssignmentReference" AssignmentReference_ty AssignmentReference_DeepCopy;
   Method "GovernanceIdentity" GovernanceIdentity_ty GovernanceIdentity_DeepCopy;
   Method "SandboxAccessRequestSpec" SandboxAccessRequestSpec_ty SandboxAccessRequestSpec_DeepCopy;
   Method "SandboxAccessRequestStatus" SandboxAccessRequestStatus_ty SandboxAccessRequestStatus_DeepCopy;
   Method "SandboxAccessRequest" SandboxAccessRequest_ty SandboxAccessRequest_DeepCopy;
   Method "SandboxAccessRequestList" SandboxAccessRequestList_ty SandboxAccessRequestList_DeepCopy;
   Method "SandboxEgressEventSpec" SandboxEgressEventSpec_ty SandboxEgressEventSpec_DeepCopy;
   Method "SandboxEgressEvent" SandboxEgressEvent_ty SandboxEgressEvent_DeepCopy;
   Method "SandboxEgressEventList" SandboxEgressEventList_ty SandboxEgressEventList_DeepCopy;
   Method "SandboxValidationRunSpec" SandboxValidationRunSpec_ty SandboxValidationRunSpec_DeepCopy;
   Method "SandboxValidationCommandResult" SandboxValidationCommandResult_ty SandboxValidationCommandResult_DeepCopy;
   Method "SandboxValidationRunStatus" SandboxValidationRunStatus_ty SandboxValidationRunStatus_DeepCopy;
   Method "SandboxValidationRun" SandboxValidationRun_ty SandboxValidationRun_DeepCopy;
   Method "SandboxValidationRunList" SandboxValidationRunList_ty SandboxValidationRunList_DeepCopy;
   Method "SandboxCredentialEventSpec" SandboxCredentialEventSpec_ty SandboxCredentialEventSpec_DeepCopy;
   Method "SandboxCredentialEvent" SandboxCredentialEvent_ty SandboxCredentialEvent_DeepCopy;
   Method "SandboxCredentialEventList" SandboxCredentialEventList_ty SandboxCredentialEventList_DeepCopy;
   Method "SandboxCredentialRevocationSpec" SandboxCredentialRevocationSpec_ty SandboxCredentialRevocationSpec_DeepCopy;
   Method "SandboxCredentialRevocation" SandboxCredentialRevocation_ty SandboxCredentialRevocation_DeepCopy;
   Method "SandboxCredentialRevocationList" SandboxCredentialRevocationList_ty SandboxCredentialRevocationList_DeepCopy].

Record object := Object { o_type : string; o_ty : ty; o_DeepCopyObject : value -> M (option (string * value)) }.

Definition objects : list object :=
  [Object "CapabilityBundle" CapabilityBundle_ty CapabilityBundle_DeepCopyObject;
   Object "CapabilityBundleList" CapabilityBundleList_ty CapabilityBundleList_DeepCopyObject;
   Object "SandboxTemplate" SandboxTemplate_ty SandboxTemplate_DeepCopyObject;
   Object "SandboxTemplateList" SandboxTemplateList_ty SandboxTemplateList_DeepCopyObject;
   Object "SandboxTenantPolicy" SandboxTenantPolicy_ty SandboxTenantPolicy_DeepCopyObject;
   Object "SandboxTenantPolicyList" SandboxTenantPolicyList_ty SandboxTenantPolicyList_DeepCopyObject;
   Object "SandboxPrincipalBinding" SandboxPrincipalBinding_ty SandboxPrincipalBinding_DeepCopyObject;
   Object "SandboxPrincipalBindingList" SandboxPrincipalBindingList_ty SandboxPrincipalBindingList_DeepCopyObject;
   Object "SandboxAssignment" SandboxAssignment_ty SandboxAssignment_DeepCopyObject;
   Object "SandboxAssignmentList" SandboxAssignmentList_ty SandboxAssignmentList_DeepCopyObject;
   Object "SandboxAccessRequest" SandboxAccessRequest_ty SandboxAccessRequest_DeepCopyObject;
   Object "SandboxAccessRequestList" SandboxAccessRequestList_ty SandboxAccessRequestList_DeepCopyObject;
   Object "SandboxEgressEvent" SandboxEgressEvent_ty SandboxEgressEvent_DeepCopyObject;
   Object "SandboxEgressEventList" SandboxEgressEventList_ty SandboxEgressEventList_DeepCopyObject;
   Object "SandboxValidationRun" SandboxValidationRun_ty SandboxValidationRun_DeepCopyObject;
   Object "SandboxValidationRunList" SandboxValidationRunList_ty SandboxValidationRunList_DeepCopyObject;
   Object "SandboxCredentialEvent" SandboxCredentialEvent_ty SandboxCredentialEvent_DeepCopyObject;
   Object "SandboxCredentialEventList" SandboxCredentialEventList_ty SandboxCredentialEventList_DeepCopyObject;
   Object "SandboxCredentialRevocation" SandboxCredentialRevocation_ty SandboxCredentialRevocation_DeepCopyObject;
   Object "SandboxCredentialRevocationList" SandboxCredentialRevocationList_ty SandboxCredentialRevocationList_DeepCopyObject].

End methods.

Arguments method : clear implicits.
Arguments object : clear implicits.

(** ** Registration *)

Definition GroupName : string := "aks-sandbox.azure.com".

Definition Version : string := "v1alpha1".

Definition GroupVersion : string * string := (GroupName, Version).

(** What [runtime.Scheme] and [metav1] offer; the registered objects are named by their types. *)
Class Scheme (S : Type) := {
  AddKnownTypes : S -> string * string -> list string -> S;
  AddToGroupVersion : S -> string * string -> S }.

Definition known_types : list string :=
  ["CapabilityBundle"; "CapabilityBundleList"; "SandboxTemplate"; "SandboxTemplateList"; "SandboxTenantPolicy";
   "SandboxTenantPolicyList"; "SandboxPrincipalBinding"; "SandboxPrincipalBindingList"; "SandboxAssignment";
   "SandboxAssignmentList"; "SandboxAccessRequest"; "SandboxAccessRequestList"; "SandboxEgressEvent";
   "SandboxEgressEventList"; "SandboxValidationRun"; "SandboxValidationRunList"; "SandboxCredentialEvent";
   "SandboxCredentialEventList"; "SandboxCredentialRevocation"; "SandboxCredentialRevocationList"].

Definition AddToScheme {S} `{Scheme S} (scheme : S) : S * result unit :=
  let scheme := AddKnownTypes scheme GroupVersion known_types in
  (AddToGroupVersion scheme GroupVersion, Ok tt).

(** Every registered type can be copied as a [runtime.Object], and nothing else claims to be one. *)
Lemma registered_copy `{L : Library} : forall kind, kind ∈ known_types <-> kind ∈ o_type <$> objects.
Proof. intros kind. cbn. set_solver. Qed.

(** ** Every method copies *)

Class Copies (t : ty) (f : value -> M value) : Prop := copies_it : copies t f.

#[export] Instance ptr_Copies t f : Copies t f -> Copies (TPtr t) (new_ptr f).
Proof. apply copies_ptr. Qed.

#[export] Instance slice_Copies t f : Copies t f -> Copies (TSlice t) (make_slice f).
Proof. apply copies_slice. Qed.

#[export] Instance map_Copies t f : Copies t f -> Copies (TMap t) (make_map f).
Proof. apply copies_map. Qed.

#[export] Instance unless_nil_Copies t f : Copies (TPtr t) f -> Copies (TPtr t) (unless_nil f).
Proof.
  intros Hf h v c Hc. destruct v as [s|[l|]|w| |n x r]; try done; [by apply Hf|].
  exists (VRef None), h. split_and!; [done|done|done|set_solver].
Qed.

Section copies.
Context `{L : Library, !LibraryCopies L}.
#[local] Set Default Proof Using "Type*".

#[export] Instance ObjectMeta_Copies : Copies ObjectMeta_ty ObjectMeta_DeepCopyInto.
Proof. apply ObjectMeta_copies. Qed.

#[export] Instance ListMeta_Copies : Copies ListMeta_ty ListMeta_DeepCopyInto.
Proof. apply ListMeta_copies. Qed.

#[export] Instance Condition_Copies : Copies Condition_ty Condition_DeepCopyInto.
Proof. apply Condition_copies. Qed.

#[export] Instance Time_Copies : Copies Time_ty Time_DeepCopyInto.
Proof. apply Time_copies. Qed.

#[export] Instance Time_pointer_Copies : Copies (TPtr Time_ty) Time_DeepCopy.
Proof. apply Time_pointer_copies. Qed.

(** A struct: the unlisted and assigned fields are flat, the others have an instance. *)
Local Ltac flat_type := cbn; rewrite ?TypeMeta_flat, ?Time_flat; reflexivity.

#[local] Hint Extern 2 (Copies _ assign) => (apply copies_assign; flat_type) : typeclass_instances.

Local Ltac solve_copies :=
  apply copies_struct; cbn [fields_copied Struct foldr fst snd assoc];
  repeat split; first [flat_type | apply copies_it; apply _].

#[export] Instance AgentgatewayBackendPolicy_Copies : Copies AgentgatewayBackendPolicy_ty AgentgatewayBackendPolicy_DeepCopyInto.
Proof. solve_copies. Qed.

#[export] Instance EgressPolicy_Copies : Copies EgressPolicy_ty EgressPolicy_DeepCopyInto.
Proof. solve_copies. Qed.

#[export] Instance CommandPolicyRule_Copies : Copies CommandPolicyRule_ty CommandPolicyRule_DeepCopyInto.
Proof. solve_copies. Qed.

#[export] Instance ValidationRule_Copies : Copies ValidationRule_ty ValidationRule_DeepCopyInto.
Proof. solve_copies. Qed.

#[export] Instance HarnessPolicy_Copies : Copies HarnessPolicy_ty HarnessPolicy_DeepCopyInto.
Proof. solve_copies. Qed.

#[export] Instance GovernanceBoundary_Copies : Copies GovernanceBoundary_ty GovernanceBoundary_DeepCopyInto.
Proof. solve_copies. Qed.

#[export] Instance CapabilityBundleSpec_Copies : Copies CapabilityBundleSpec_ty CapabilityBundleSpec_DeepCopyInto.
Proof. solve_copies. Qed.

#[export] Instance CapabilityBundle_Copies : Copies CapabilityBundle_ty CapabilityBundle_DeepCopyInto.
Proof. solve_copies. Qed.

#[export] Instance CapabilityBundleList_Copies : Copies CapabilityBundleList_ty CapabilityBundleList_DeepCopyInto.
Proof. solve_copies. Qed.

#[export] Instance CapabilityBundleReference_Copies : Copies CapabilityBundleReference_ty CapabilityBundleReference_DeepCopyInto.
Proof. solve_copies. Qed.

#[export] Instance SandboxTemplateResources_Copies : Copies SandboxTemplateResources_ty SandboxTemplateResources_DeepCopyInto.
Proof. solve_copies. Qed.

#[export] Instance SandboxTemplateSpec_Copies : Copies SandboxTemplateSpec_ty SandboxTemplateSpec_DeepCopyInto.
Proof. solve_copies. Qed.

#[export] Instance SandboxTemplate_Copies : Copies SandboxTemplate_ty SandboxTemplate_DeepCopyInto.
Proof. solve_copies. Qed.

#[export] Instance SandboxTemplateList_Copies : Copies SandboxTemplateList_ty SandboxTemplateList_DeepCopyInto.
Proof. solve_copies. Qed.

#[export] Instance SandboxTenantPolicySpec_Copies : Copies SandboxTenantPolicySpec_ty SandboxTenantPolicySpec_DeepCopyInto.
Proof. solve_copies. Qed.

#[export] Instance SandboxTenantPolicy_Copies : Copies SandboxTenantPolicy_ty SandboxTenantPolicy_DeepCopyInto.
Proof. solve_copies. Qed.

#[export] Instance SandboxTenantPolicyList_Copies : Copies SandboxTenantPolicyList_ty SandboxTenantPolicyList_DeepCopyInto.
Proof. solve_copies. Qed.

#[export] Instance SandboxPrincipalBindingSpec_Copies : Copies SandboxPrincipalBindingSpec_ty SandboxPrincipalBindingSpec_DeepCopyInto.
Proof. solve_copies. Qed.

#[export] Instance SandboxPrincipalBinding_Copies : Copies SandboxPrincipalBinding_ty SandboxPrincipalBinding_DeepCopyInto.
Proof. solve_copies. Qed.

#[export] Instance SandboxPrincipalBindingList_Copies : Copies SandboxPrincipalBindingList_ty SandboxPrincipalBindingList_DeepCopyInto.
Proof. solve_copies. Qed.

#[export] Instance SandboxAssignmentSpec_Copies : Copies SandboxAssignmentSpec_ty SandboxAssignmentSpec_DeepCopyInto.
Proof. solve_copies. Qed.

#[export] Instance ObjectReference_Copies : Copies ObjectReference_ty ObjectReference_DeepCopyInto.
Proof. solve_copies. Qed.

#[export] Instance ResolvedCapabilityBundle_Copies : Copies ResolvedCapabilityBundle_ty ResolvedCapabilityBundle_DeepCopyInto.
Proof. solve_copies. Qed.

#[export] Instance SandboxAssignmentStatus_Copies : Copies SandboxAssignmentStatus_ty SandboxAssignmentStatus_DeepCopyInto.
Proof. solve_copies. Qed.

#[export] Instance SandboxAssignment_Copies : Copies SandboxAssignment_ty SandboxAssignment_DeepCopyInto.
Proof. solve_copies. Qed.

#[export] Instance SandboxAssignmentList_Copies : Copies SandboxAssignmentList_ty SandboxAssignmentList_DeepCopyInto.
Proof. solve_copies. Qed.

#[export] Instance AssignmentReference_Copies : Copies AssignmentReference_ty AssignmentReference_DeepCopyInto.
Proof. solve_copies. Qed.

#[export] Instance GovernanceIdentity_Copies : Copies GovernanceIdentity_ty GovernanceIdentity_DeepCopyInto.
Proof. solve_copies. Qed.

#[export] Instance SandboxAccessRequestSpec_Copies : Copies SandboxAccessRequestSpec_ty SandboxAccessRequestSpec_DeepCopyInto.
Proof. solve_copies. Qed.

#[export] Instance SandboxAccessRequestStatus_Copies : Copies SandboxAccessRequestStatus_ty SandboxAccessRequestStatus_DeepCopyInto.
Proof. solve_copies. Qed.

#[export] Instance SandboxAccessRequest_Copies : Copies SandboxAccessRequest_ty SandboxAccessRequest_DeepCopyInto.
Proof. solve_copies. Qed.

#[export] Instance SandboxAccessRequestList_Copies : Copies SandboxAccessRequestList_ty SandboxAccessRequestList_DeepCopyInto.
Proof. solve_copies. Qed.

#[export] Instance SandboxEgressEventSpec_Copies : Copies SandboxEgressEventSpec_ty SandboxEgressEventSpec_DeepCopyInto.
Proof. solve_copies. Qed.

#[export] Instance SandboxEgressEvent_Copies : Copies SandboxEgressEvent_ty SandboxEgressEvent_DeepCopyInto.
Proof. solve_copies. Qed.

#[export] Instance SandboxEgressEventList_Copies : Copies SandboxEgressEventList_ty SandboxEgressEventList_DeepCopyInto.
Proof. solve_copies. Qed.

#[export] Instance SandboxValidationRunSpec_Copies : Copies SandboxValidationRunSpec_ty SandboxValidationRunSpec_DeepCopyInto.
Proof. solve_copies. Qed.

#[export] Instance SandboxValidationCommandResult_Copies : Copies SandboxValidationCommandResult_ty SandboxValidationCommandResult_DeepCopyInto.
Proof. solve_copies. Qed.

#[export] Instance SandboxValidationRunStatus_Copies : Copies SandboxValidationRunStatus_ty SandboxValidationRunStatus_DeepCopyInto.
Proof. solve_copies. Qed.

#[export] Instance SandboxValidationRun_Copies : Copies SandboxValidationRun_ty SandboxValidationRun_DeepCopyInto.
Proof. solve_copies. Qed.

#[export] Instance SandboxValidationRunList_Copies : Copies SandboxValidationRunList_ty SandboxValidationRunList_DeepCopyInto.
Proof. solve_copies. Qed.

#[export] Instance SandboxCredentialEventSpec_Copies : Copies SandboxCredentialEventSpec_ty SandboxCredentialEventSpec_DeepCopyInto.
Proof. solve_copies. Qed.

#[export] Instance SandboxCredentialEvent_Copies : Copies SandboxCredentialEvent_ty SandboxCredentialEvent_DeepCopyInto.
Proof. solve_copies. Qed.

#[export] Instance SandboxCredentialEventList_Copies : Copies SandboxCredentialEventList_ty SandboxCredentialEventList_DeepCopyInto.
Proof. solve_copies. Qed.

#[export] Instance SandboxCredentialRevocationSpec_Copies : Copies SandboxCredentialRevocationSpec_ty SandboxCredentialRevocationSpec_DeepCopyInto.
Proof. solve_copies. Qed.

#[export] Instance SandboxCredentialRevocation_Copies : Copies SandboxCredentialRevocation_ty SandboxCredentialRevocation_DeepCopyInto.
Proof. solve_copies. Qed.

#[export] Instance SandboxCredentialRevocationList_Copies : Copies SandboxCredentialRevocationList_ty SandboxCredentialRevocationList_DeepCopyInto.
Proof. solve_copies. Qed.

End copies.

(** ** A copy and its original are independent *)

(** What code can do to heap [h] that reaches only the value [v] of type [t], and memory that is
    not allocated in [h]. *)
Definition writes_through (h k : gmap positive cell) (t : ty) (v : value) : Prop :=
  forall l, l ∈ dom h -> l ∉ footprint h t v -> k !! l = h !! l.

(** [out], made from [v] in heap [h] with [h'] as the heap after it, reads as [v] did, nothing that
    was allocated is changed, and neither sees what is written through the other. *)
Definition independent_copy (t : ty) (v out : value) (c : tree) (h h' : gmap positive cell) : Prop :=
  h ⊆ h' /\ content h' t v = Some c /\ content h' t out = Some c
  /\ (forall k, writes_through h' k t v -> content k t out = Some c)
  /\ (forall k, writes_through h' k t out -> content k t v = Some c).

(** Disjoint footprints are enough. *)
Lemma writes_elsewhere t (h k : gmap positive cell) v w c :
  content h t w = Some c -> footprint h t v ## footprint h t w -> writes_through h k t v -> content k t w = Some c.
Proof.
  intros Hc Hd Hw. destruct (content_frame t h k w) as [-> _]; [|done].
  intros l Hl. apply Hw; [by eapply footprint_dom|set_solver].
Qed.

Lemma copies_independent t f h v c :
  copies t f -> content h t v = Some c ->
  exists out h', f v h = Some (out, h') /\ independent_copy t v out c h h'.
Proof.
  intros Hf Hc. destruct (Hf _ _ _ Hc) as (out & h' & Ef & Hs & Ho & Hd).
  destruct (content_grow _ _ _ _ _ Hc Hs) as [Hv Hfp]. pose proof (footprint_dom _ _ _ _ Hc) as Hdom.
  exists out, h'. split; [done|]. split_and!; try done; intros k Hw.
  - eapply (writes_elsewhere t h' k v out); [done|set_solver|done].
  - eapply (writes_elsewhere t h' k out v); [done|set_solver|done].
Qed.

Definition is_nil (v : value) : bool := match v with VRef None => true | _ => false end.

(** A nil pointer becomes the nil interface, and any other the copy with its type. *)
Lemma not_nil_independent kind t f h v c :
  copies t f -> content h (TPtr t) v = Some c ->
  exists out h', independent_copy (TPtr t) v out c h h'
    /\ not_nil kind (new_ptr f) v h = Some (if is_nil v then None else Some (kind, out), h').
Proof.
  intros Hf Hc. destruct (copies_independent _ _ _ _ _ (copies_ptr t f Hf) Hc) as (out & h' & Ef & Hi).
  exists out, h'. split; [done|]. unfold not_nil, m_bind. rewrite Ef. cbn.
  destruct v as [s|[l|]|w| |n x r]; try done.
  - destruct Hi as (_ & Hv & Ho & _). cbn in Hv.
    destruct (h' !! l) as [[x|vs|kvs]|]; try done. destruct (content h' t x); [|done]. injection Hv as <-.
    by destruct out as [s|[l'|]|w| |n x' r].
  - cbn in Ef. injection Ef as <- <-. done.
Qed.

Section independence.
Context `{L : Library, !LibraryCopies L}.
#[local] Set Default Proof Using "Type*".

Lemma methods_copy : Forall (fun m => exists into, m_DeepCopy m = new_ptr into /\ copies (m_ty m) into) methods.
Proof. repeat constructor; (eexists; split; [reflexivity|]; cbn [m_ty]; apply copies_it; apply _). Qed.

Lemma objects_copy :
  Forall (fun o => exists into, o_DeepCopyObject o = not_nil (o_type o) (new_ptr into) /\ copies (o_ty o) into) objects.
Proof. repeat constructor; (eexists; split; [reflexivity|]; cbn [o_ty]; apply copies_it; apply _). Qed.

(** C31. A deep copy and its original are independent.  For every struct of the API types and any
    heap in which a pointer to one is well formed, [DeepCopy] returns a pointer that reads exactly
    as the original did, no allocated memory is changed, and from then on nothing written through
    either of the two, whatever it is and however often, is seen through the other.
    [DeepCopyObject] does the same for every kind that [AddToScheme] registers, with the type of the
    object; a nil pointer gives the nil interface.  The metadata, conditions and times of
    apimachinery are assumed to copy in this sense. *)
Theorem deepcopy_independent h v c :
  (forall m, m ∈ methods -> content h (TPtr (m_ty m)) v = Some c ->
     exists out h', m_DeepCopy m v h = Some (out, h') /\ independent_copy (TPtr (m_ty m)) v out c h h')
  /\ (forall kind, kind ∈ known_types -> exists o, o ∈ objects /\ o_type o = kind /\
       (content h (TPtr (o_ty o)) v = Some c ->
        exists out h', independent_copy (TPtr (o_ty o)) v out c h h'
          /\ o_DeepCopyObject o v h = Some (if is_nil v then None else Some (kind, out), h'))).
Proof.
  split.
  - intros m Hm Hc. pose proof (proj1 (Forall_forall _ _) methods_copy m Hm) as (into & -> & Hi).
    by apply copies_independent; [apply copies_ptr|].
  - intros kind Hk. apply registered_copy, list_elem_of_fmap in Hk as (o & -> & Ho). exists o. split_and!; [done|done|].
    intros Hc. pose proof (proj1 (Forall_forall _ _) objects_copy o Ho) as (into & -> & Hi).
    by apply not_nil_independent.
Qed.

End independence.
