(* ===== verification/CopyWitnesses.v ===== *)
(** * Deep copies on a concrete heap

    Metadata, conditions and times with the fields that matter here, and a capability bundle with
    labels and one egress rule.  The copy is made, and then the rule of the original is replaced. *)

From S2P Require Import Prelude DeepCopy GeneratedCopies.
From stdpp Require Import options.
Import DeepCopy.

#[local] Open Scope positive_scope.

#[export] Instance small_library : Library := {
  TypeMeta_ty := Struct [("Kind", TScalar); ("APIVersion", TScalar)];
  ObjectMeta_ty := Struct [("Name", TScalar); ("Labels", TMap TScalar)];
  ListMeta_ty := Struct [("ResourceVersion", TScalar)];
  Condition_ty := Struct [("Type", TScalar); ("LastTransitionTime", TScalar)];
  Time_ty := TScalar;
  ObjectMeta_DeepCopyInto := copy_struct [("Labels", make_map assign)];
  ListMeta_DeepCopyInto := copy_struct [];
  Condition_DeepCopyInto := copy_struct [("LastTransitionTime", assign)];
  Time_DeepCopyInto := assign;
  Time_DeepCopy := new_ptr assign }.

#[export] Instance small_library_copies : LibraryCopies small_library.
Proof.
  split; cbn; try done.
  - apply copies_struct. cbn. split_and!; [done|by apply copies_map, copies_assign|done].
  - by apply copies_struct.
  - apply copies_struct. cbn. split_and!; [done|by apply copies_assign|done].
  - by apply copies_assign.
  - by apply copies_ptr, copies_assign.
Qed.

Definition record_of (fields : list (string * value)) : value := foldr (fun f rest => VField f.1 f.2 rest) VEnd fields.

Definition text (s : string) : value := VScalar (Str s).

Definition rule_cell (expression : string) : cell := Entries [("llm", record_of [("Allow", text expression)])].

Definition stored_bundle : value :=
  record_of
    [("TypeMeta", record_of [("Kind", text "CapabilityBundle"); ("APIVersion", text "aks-sandbox.azure.com/v1alpha1")]);
     ("ObjectMeta", record_of [("Name", text "dev"); ("Labels", VRef (Some 2))]);
     ("Spec", record_of [("Egress", VRef (Some 3)); ("Harness", VRef None); ("Governance", VRef None)])].

Definition bundle_heap : gmap positive cell :=
  list_to_map [(1, Pointee stored_bundle); (2, Entries [("team", text "blue")]);
               (3, Pointee (record_of [("Agentgateway", VRef (Some 4))])); (4, rule_cell "true")].

Definition bundle_reads (h : gmap positive cell) (v : value) : option tree := content h (TPtr CapabilityBundle_ty) v.

Definition bundle_tree : tree := default CNil (bundle_reads bundle_heap (VRef (Some 1))).

Lemma bundle_well_formed : bundle_reads bundle_heap (VRef (Some 1)) = Some bundle_tree /\ bundle_tree <> CNil.
Proof. split; vm_compute; [reflexivity|discriminate]. Qed.

Lemma bundle_method : Method "CapabilityBundle" CapabilityBundle_ty CapabilityBundle_DeepCopy ∈ methods.
Proof. unfold methods. repeat constructor. Qed.

(** Replacing the rule is a write through the original. *)
Lemma rule_replaced h' :
  bundle_heap ⊆ h' -> writes_through h' (<[4 := rule_cell "false"]> h') (TPtr CapabilityBundle_ty) (VRef (Some 1)).
Proof.
  intros Hs l _ Hl. apply lookup_insert_ne. intros <-. apply Hl.
  destruct (content_grow _ _ _ _ _ (proj1 bundle_well_formed) Hs) as [_ ->].
  apply (bool_decide_eq_true_1 _). vm_compute. reflexivity.
Qed.

(** The copy of the bundle still reads as before when the rule of the original has been replaced. *)
Lemma deepcopy_independent_witness :
  exists out h', CapabilityBundle_DeepCopy (VRef (Some 1)) bundle_heap = Some (out, h')
    /\ bundle_reads (<[4 := rule_cell "false"]> h') out = Some bundle_tree.
Proof.
  destruct (proj1 (deepcopy_independent bundle_heap (VRef (Some 1)) bundle_tree) _ bundle_method (proj1 bundle_well_formed))
    as (out & h' & Ef & Hs & _ & _ & Hw & _).
  exists out, h'. split; [exact Ef|]. apply Hw, rule_replaced, Hs.
Defined.
