(* ===== verification/DashboardTypes.v ===== *)
(** * Data the dashboard shares with the services it calls

    The signed-in identity and session of [cmd/aks-sandbox-dashboard] ([mise.go], [auth.go]),
    the request context its middleware fills in, and the calls of two services: the in-process
    session store, and the client library of the embedded OpenSandbox dashboard.  That library
    is not part of the repository: its sandboxes and snapshots are records of the fields that
    are read, with the encoding of the others as an opaque string. *)

From S2P Require Import Prelude ApiTypes.
From stdpp Require Import options.

(** ** Signed-in identities *)

Record authenticatedIdentity := {
  ai_TenantID : string;
  ai_ObjectID : string;
  ai_Name : string;
  ai_Roles : list string;
  ai_Scopes : list string;
  ai_ExpiresAt : Time
}.

Record dashboardSession := {
  ds_Identity : authenticatedIdentity;
  ds_CSRFToken : string;
  ds_CreatedAt : Time;
  ds_ExpiresAt : Time
}.

#[export] Instance authenticatedIdentity_eq_dec : EqDecision authenticatedIdentity.
Proof. solve_decision. Defined.
#[export] Instance dashboardSession_eq_dec : EqDecision dashboardSession.
Proof. solve_decision. Defined.

(** The values of a request's context: [identityContextKey] and [csrfContextKey]. *)
Record RequestContext := {
  ctx_identity : option authenticatedIdentity;
  ctx_csrf : option string
}.
Definition background : RequestContext := {| ctx_identity := None; ctx_csrf := None |}.

(** Both accessors also refuse empty values. *)
Definition authenticatedIdentityFromContext (ctx : RequestContext) : option authenticatedIdentity :=
  match ctx_identity ctx with
  | Some identity =>
      if (ai_TenantID identity <>?s "") && (ai_ObjectID identity <>?s "") then Some identity else None
  | None => None
  end.

Definition csrfTokenFromContext (ctx : RequestContext) : option string :=
  match ctx_csrf ctx with
  | Some token => if token <>?s "" then Some token else None
  | None => None
  end.

(** ** The session store *)

Inductive SessionOp : Type -> Type :=
  | store_createSession (session : dashboardSession) : SessionOp (result string)
  | store_getSession (raw : string) : SessionOp (option dashboardSession)
  | store_deleteSession (raw : string) : SessionOp unit.

(** ** The OpenSandbox dashboard client ([osbclient.Client]) *)

Record OsbSandbox := {
  osb_ID : string;
  osb_Metadata : option (gmap string string);
  osb_Rest : string
}.

Record OsbSnapshot := {
  snap_ID : string;
  snap_SandboxID : string;
  snap_Rest : string
}.

Inductive OsbOp : Type -> Type :=
  | osb_ListSandboxes : OsbOp (result (list OsbSandbox))
  | osb_ListSnapshots : OsbOp (result (list OsbSnapshot))
  | osb_GetSnapshot (snapshotID : string) : OsbOp (result OsbSnapshot)
  | osb_ListSandboxNodeLoads : OsbOp (result (list string))
  | osb_ListPodEvents (sandboxID : string) : OsbOp (result (list string))
  | osb_ListRecentSandboxEvents (sandboxes : list OsbSandbox) : OsbOp (result (list string))
  | osb_CreateSandbox (request : string) : OsbOp (result OsbSandbox)
  | osb_DeleteSandbox (sandbox : OsbSandbox) : OsbOp (result unit)
  | osb_PauseSandbox (sandboxID : string) : OsbOp (result unit)
  | osb_ResumeSandbox (sandboxID : string) : OsbOp (result unit)
  | osb_CreateSnapshot (sandboxID name : string) : OsbOp (result OsbSnapshot)
  | osb_DeleteSnapshot (snapshotID : string) : OsbOp (result unit)
  | osb_OpenPTY (sandboxID : string) : OsbOp (result string)
  | osb_RunCommand (sandboxID command : string) : OsbOp (result string)
  | osb_Close : OsbOp (result unit).
