(* ===== verification/Kube.v ===== *)
(** * The calls the service makes

    The operations of the Kubernetes client, the clock, the identifier generator, request
    cancellation and the upstream OpenSandbox server, as one signature of calls.  A call
    names its resource, so the type of its answer is the type of the stored object.  A merge
    patch of the status is the list of string fields it sets.  [Proxy_ServeHTTP] is the
    transport of the reverse proxy, with the request body as the transport reads it.  The
    dashboard adds random bytes, the mounted token file, the MISE validation endpoint, its own
    HTTP transport, the session store and the embedded dashboard's client; the doctor adds the
    cluster objects it inspects (a PodDisruptionBudget is its [minAvailable] as an integer, a
    NetworkPolicy its name).  The theorems hold for every sequence of answers. *)

From S2P Require Import Prelude ApiTypes DashboardTypes.
From stdpp Require Import options.

(** ** Further stored objects *)

(** [coordination.k8s.io/v1] Lease. *)
Record Lease := {
  ls_meta : ObjectMeta;
  ls_HolderIdentity : option string;
  ls_LeaseDurationSeconds : option Z;
  ls_AcquireTime : option Time;
  ls_RenewTime : option Time
}.

(** [sandbox.opensandbox.io/v1alpha1] BatchSandbox and Pool: the fields that are read. *)
Record BatchSandbox := {
  bs_meta : ObjectMeta;
  bs_APIVersion : string;
  bs_Kind : string;
  bs_replicas : option Z;
  bs_poolRef : option string
}.

Record Pool := { pl_meta : ObjectMeta; pl_recycleType : option string }.

(** [authentication.k8s.io/v1] TokenReviewStatus. *)
Record TokenReviewStatus := {
  trs_Authenticated : bool;
  trs_Error : string;
  trs_Audiences : list string;
  trs_Username : string;
  trs_Extra : gmap string (list string)
}.

(** ** The objects the doctor reads, with the fields it inspects *)

Record RuntimeClass := {
  rc_Name : string;
  rc_Handler : string;
  rc_NodeSelector : option (gmap string string)
}.

Record Node := {
  node_Labels : gmap string string;
  node_Unschedulable : bool;
  node_Conditions : list PodCondition;
  node_CpuZero : bool;
  node_MemoryZero : bool
}.

Record EnvVar := { env_Name : string; env_Value : string }.

Record Deployment := {
  dep_Replicas : option Z;
  dep_StrategyType : string;
  dep_ReadyReplicas : Z;
  dep_ContainerEnv : list (list EnvVar)
}.

Record PolicyRule := {
  rule_APIGroups : list string;
  rule_Resources : list string;
  rule_Verbs : list string
}.

Record Subject := { sub_Kind : string; sub_Namespace : string; sub_Name : string }.

(** A RoleBinding or ClusterRoleBinding. *)
Record RoleBinding := {
  rb_RoleRefKind : string;
  rb_RoleRefName : string;
  rb_Subjects : list Subject
}.

(** ** The signature *)

Inductive Resource : Type -> Type :=
  | Assignments : Resource (Unstructured SandboxAssignment)
  | Bundles : Resource (Unstructured CapabilityBundle)
  | Templates : Resource (Unstructured SandboxTemplate)
  | TenantPolicies : Resource (Unstructured SandboxTenantPolicy)
  | PrincipalBindings : Resource (Unstructured SandboxPrincipalBinding)
  | AccessRequests : Resource (Unstructured SandboxAccessRequest)
  | EgressEvents : Resource (Unstructured SandboxEgressEvent)
  | CredentialEvents : Resource (Unstructured SandboxCredentialEvent)
  | CredentialRevocations : Resource (Unstructured SandboxCredentialRevocation)
  | Workloads : Resource (Unstructured BatchSandbox)
  | Pools : Resource (Unstructured Pool)
  | Pods : Resource Pod
  | ServiceAccounts : Resource ServiceAccount
  | Leases : Resource Lease
  | ValidationRuns : Resource (Unstructured SandboxValidationRun)
  | CustomResourceDefinitions : Resource unit
  | RuntimeClasses : Resource RuntimeClass
  | Nodes : Resource Node
  | Deployments : Resource Deployment
  | PodDisruptionBudgets : Resource (option Z)
  | Roles : Resource (list PolicyRule)
  | ClusterRoles : Resource (list PolicyRule)
  | RoleBindings : Resource RoleBinding
  | ClusterRoleBindings : Resource RoleBinding
  | Services : Resource unit
  | ResourceQuotas : Resource unit
  | NetworkPolicies : Resource string.

Record ListOptions := { lo_LabelSelector : option (string * string); lo_Limit : Z }.
Definition list_all : ListOptions := {| lo_LabelSelector := None; lo_Limit := 0 |}.
Definition list_label (key value : string) : ListOptions :=
  {| lo_LabelSelector := Some (key, value); lo_Limit := 0 |}.

(** A header maps a canonical name to its values. *)
Definition Header := list (string * list string).

Definition header_Get (h : Header) (name : string) : string :=
  match List.find (fun e => e.1 =?s name) h with
  | Some (_, value :: _) => value
  | _ => ""
  end.
Definition header_Del (h : Header) (name : string) : Header := List.filter (fun e => e.1 <>?s name) h.
Definition header_Set (h : Header) (name value : string) : Header := (name, [value]) :: header_Del h name.

(** An HTTP exchange with the upstream lifecycle server. *)
Record HttpResponse := {
  resp_StatusCode : Z;
  resp_Header : list (string * list string);
  resp_Body : string
}.

(** [io.ReadAll(http.MaxBytesReader(w, body, limit))]. *)
Definition read_limited (limit : Z) (body : result string) : result string :=
  bytes <-! body ;;
  if limit <? slen bytes then Err (ErrMsg "http: request body too large") else Ok bytes.

Definition StatusOK : Z := 200.
Definition StatusCreated : Z := 201.
Definition StatusNoContent : Z := 204.
Definition StatusBadRequest : Z := 400.
Definition StatusUnauthorized : Z := 401.
Definition StatusForbidden : Z := 403.
Definition StatusSeeOther : Z := 303.
Definition StatusUnsupportedMediaType : Z := 415.
Definition StatusNotFound : Z := 404.
Definition StatusConflict : Z := 409.
Definition StatusInternalServerError : Z := 500.
Definition StatusBadGateway : Z := 502.
Definition StatusServiceUnavailable : Z := 503.

Inductive Kube : Type -> Type :=
  | Get {T} (r : Resource T) (ns name : string) : Kube (result T)
  | List {T} (r : Resource T) (ns : string) (options : ListOptions) : Kube (result (list T))
  | Create {T} (r : Resource T) (ns : string) (object : T) : Kube (result T)
  | Update {T} (r : Resource T) (ns : string) (object : T) : Kube (result T)
  | UpdateStatus {T} (r : Resource T) (ns : string) (object : T) : Kube (result T)
  | MergePatchStatus {T} (r : Resource T) (ns name : string) (fields : list (string * string)) : Kube (result T)
  | Delete {T} (r : Resource T) (ns name : string) (preconditionUID : option string) : Kube (result unit)
  | TokenReviews_Create (token : string) (audiences : list string) : Kube (result TokenReviewStatus)
  | time_Now : Kube Time
  | uuid_NewString : Kube string
  | ctx_Done : Kube (option error)
  | Upstream_Do (method path : string) (header : list (string * list string)) (body : string)
      : Kube (result HttpResponse)
  | Proxy_ServeHTTP (method path : string) (header : list (string * list string)) (body : result string)
      : Kube (result HttpResponse)
  | rand_Read (bytes : nat) : Kube (result string)
  | os_ReadFile (path : string) : Kube (result string)
  | Mise_Do (endpoint : string) (header : list (string * list string)) : Kube (result HttpResponse)
  | Base_RoundTrip (method path : string) (header : list (string * list string)) (body : result string)
      : Kube (result HttpResponse)
  | Sessions {R} (op : SessionOp R) : Kube R
  | Osb {R} (op : OsbOp R) : Kube R.

Abbreviation KProg := (Prog Kube).
Abbreviation KEvent := (Event Kube).

(** ** Reading a trace: the writes it contains *)

Definition assignment_of {T} (r : Resource T) : T -> option (Unstructured SandboxAssignment) :=
  match r in Resource T return T -> option (Unstructured SandboxAssignment) with
  | Assignments => fun o => Some o
  | _ => fun _ => None
  end.

(** The assignment whose status a call tries to write. *)
Definition assignment_status_write (e : KEvent) : option (Unstructured SandboxAssignment) :=
  match e with
  | Ev op _ => match op with UpdateStatus r _ object => assignment_of r object | _ => None end
  end.

(** Whether a call may change stored state. *)
Definition is_write (e : KEvent) : bool :=
  match e with
  | Ev op _ =>
      match op with
      | Create _ _ _ | Update _ _ _ | UpdateStatus _ _ _ | MergePatchStatus _ _ _ _
      | Delete _ _ _ _ => true
      | _ => false
      end
  end.

(** Whether a call reaches the upstream lifecycle server. *)
Definition is_upstream (e : KEvent) : bool :=
  match e with
  | Ev op _ =>
      match op with Upstream_Do _ _ _ _ | Proxy_ServeHTTP _ _ _ _ => true | _ => false end
  end.
