(* ===== verification/Governance.v ===== *)
(** * Package [governance]: normalized targets, request validation, policy revisions
      and policy-impact simulation

    [internal/assignment/governance/validation.go], [simulation.go] and
    [revision.go].  The Kubernetes name validator, the UUID parser and the SHA-256
    digest are library code and appear as arguments. *)

From S2P Require Import Prelude GoStrings NetIP GoEncoding GoJson ApiTypes ApiJson.
From stdpp Require Import options.

Definition MinimumRequestedDuration : Duration := Minute.
Definition MaximumRequestedDuration : Duration := 8 * Hour.

(** ** Library code the package calls *)

(** [k8s.io/apimachinery/pkg/util/validation]: the list of problems of a name. *)
Class K8sValidation := { IsDNS1123Subdomain : string -> list string }.

(** [github.com/google/uuid]: whether [uuid.Parse] succeeds. *)
Class UuidLib := { uuid_Parse : string -> bool }.

(** [crypto/sha256]: the digest, and its hexadecimal text. *)
Class Sha256 := { sha256_Sum256 : string -> string }.
Definition sha256_hex `{Sha256} (s : string) : string := hex_EncodeToString (sha256_Sum256 s).

(** ** Patterns *)

(** [^[A-Z][A-Z0-9_-]{0,31}$] *)
Definition method_char (c : ascii) : bool :=
  is_upper c || is_digit c || byte_in c "_-".
Definition methodPattern (s : string) : bool :=
  match s with
  | EmptyString => false
  | String c rest => is_upper c && string_forallb method_char rest && (slen rest <=? 31)
  end.

(** [^[a-z0-9](?:[-a-z0-9]{0,61}[a-z0-9])?$], shared by backends and host labels. *)
Definition alnum (c : ascii) : bool := is_lower c || is_digit c.
Definition label_char (c : ascii) : bool := alnum c || bool_decide (c = "-"%char).
Fixpoint last_alnum (s : string) : bool :=
  match s with
  | EmptyString => false
  | String c EmptyString => alnum c
  | String _ s' => last_alnum s'
  end.
Definition hostLabel (s : string) : bool :=
  match s with
  | EmptyString => false
  | String c _ => alnum c && string_forallb label_char s && last_alnum s && (slen s <=? 63)
  end.
Definition backendPattern : string -> bool := hostLabel.

(** ** Targets *)

Record Target := {
  t_Backend : string;
  t_Method : string;
  t_Host : string;
  t_Path : string
}.

#[export] Instance Target_eq_dec : EqDecision Target.
Proof. solve_decision. Defined.

Definition nl : string := String "010" "".
Definition cr : string := String "013" "".
Definition tab : string := String "009" "".
Definition nul : string := String "000" "".

(** The characters [/?#@\] and CR, LF, TAB, space. *)
Definition host_forbidden : string := "/?#@\" +:+ cr +:+ nl +:+ tab +:+ " ".

Section normalize.
Context `{UnicodeTables}.

Definition NormalizeHost (authority : string) : result string :=
  let authority := TrimSpace authority in
  if (authority =?s "") || (512 <? slen authority) || ContainsAny authority host_forbidden
  then Err (ErrMsg "host is invalid")
  else match SplitHostPort authority with
  | Some _ => Err (ErrMsg "explicit host ports are not supported")
  | None =>
      host <-! (if HasPrefix authority "[" && HasSuffix authority "]"
                then Ok (TrimSuffix (TrimPrefix authority "[") "]")
                else if contains_byte ":" authority then Err (ErrMsg "host is invalid")
                else Ok authority) ;;
      let host := TrimSuffix (ToLower host) "." in
      if (host =?s "") || (253 <? slen host) then Err (ErrMsg "host is invalid")
      else match ParseAddr host with
      | Some address => Ok (addr_string (Unmap address))
      | None =>
          if forallb hostLabel (split_byte "." host) then Ok host
          else Err (ErrMsg "host is invalid")
      end
  end.

Definition NormalizePath (value : string) : result string :=
  if ContainsAny value "?#" then Err (ErrMsg "path must not contain query or fragment")
  else
    let value := if value =?s "" then "/" else value in
    if (value <>?s TrimSpace value) || negb (HasPrefix value "/") || (2048 <? slen value)
       || ContainsAny value (cr +:+ nl +:+ nul)
    then Err (ErrMsg "path is invalid")
    else Ok value.

Definition NormalizeTarget (backend method host requestPath : string) : result Target :=
  let backend := TrimSpace backend in
  if negb (backendPattern backend) then Err (ErrMsg "backend must be a lowercase DNS label")
  else
    let method := ToUpper (TrimSpace method) in
    if negb (methodPattern method) then Err (ErrMsg "method is invalid")
    else
      normalizedHost <-! NormalizeHost host ;;
      normalizedPath <-! NormalizePath requestPath ;;
      Ok {| t_Backend := backend; t_Method := method;
            t_Host := normalizedHost; t_Path := normalizedPath |}.

End normalize.

(** ** Validation of identities and access requests *)

Definition containsControl (value : string) : bool := has_control value.

Definition validateHumanText (name value : string) (minimum maximum : Z) : result unit :=
  if (value <>?s TrimSpace value) || (slen value <? minimum) || (maximum <? slen value)
     || containsControl value
  then Err (ErrMsg (name +:+ " is invalid")) else Ok tt.

Section validation.
Context `{UnicodeTables} `{K8sValidation} `{UuidLib}.

(** The optional scope fields, in one iteration order of the Go map literal. *)
Definition identity_scopes (identity : GovernanceIdentity) : list (string * string) :=
  [("logical tenant", gi_LogicalTenant identity); ("team", gi_Team identity)].

Fixpoint validate_scopes (scopes : list (string * string)) : result unit :=
  match scopes with
  | [] => Ok tt
  | (name, value) :: rest =>
      if value =?s "" then validate_scopes rest
      else _ <-! validateHumanText name value 1 128 ;; validate_scopes rest
  end.

Definition ValidateIdentity (identity : GovernanceIdentity) : result unit :=
  if negb (uuid_Parse (gi_TenantID identity)) then Err (ErrMsg "tenant ID must be a UUID")
  else if negb (uuid_Parse (gi_ObjectID identity)) then Err (ErrMsg "object ID must be a UUID")
  else
    _ <-! validateHumanText "display name" (gi_DisplayName identity) 1 256 ;;
    validate_scopes (identity_scopes identity).

Definition ValidateAccessRequestSpec (spec : SandboxAccessRequestSpec) : result unit :=
  let problems := IsDNS1123Subdomain (ar_Name (rs_AssignmentRef spec)) in
  if negb (Nat.eqb (length problems) 0)
  then Err (ErrMsg ("assignment name is invalid: " +:+ strings_Join problems ", "))
  else if ar_UID (rs_AssignmentRef spec) =?s "" then Err (ErrMsg "assignment UID is required")
  else if rs_PodUID spec =?s "" then Err (ErrMsg "Pod UID is required")
  else if (slen (rs_BasePolicyRevision spec) <? 8) || (128 <? slen (rs_BasePolicyRevision spec))
          || containsControl (rs_BasePolicyRevision spec)
  then Err (ErrMsg "base policy revision is invalid")
  else
    target <-! NormalizeTarget (rs_Backend spec) (rs_Method spec) (rs_Host spec) (rs_Path spec) ;;
    if (t_Backend target <>?s rs_Backend spec) || (t_Method target <>?s rs_Method spec)
       || (t_Host target <>?s rs_Host spec) || (t_Path target <>?s rs_Path spec)
    then Err (ErrMsg "access request target is not canonical")
    else
      _ <-! validateHumanText "reason" (rs_Reason spec) 3 512 ;;
      match ValidateIdentity (rs_Requester spec) with
      | Err e => Err (ErrWrap "requester" e)
      | Ok _ =>
          let duration := dur_mul (rs_RequestedDurationSeconds spec) Second in
          if (duration <? MinimumRequestedDuration) || (MaximumRequestedDuration <? duration)
          then Err (ErrMsg "requested duration must be between 1m0s and 8h0m0s")
          else Ok tt
      end.

End validation.

(** ** Policy revisions *)

Section revision.
Context {A : Type} `{Stored A} `{Sha256}.

(** The specification is the stored map; [None] is the nil map, which is written as null.  The
    encoder fails on no such map. *)
Definition PolicyRevision (spec : option A) : result string :=
  let body := json_Encode (match spec with Some s => stored s | None => JNull end) in
  let canonical := TrimSuffix body nl in
  Ok ("sha256:" +:+ sha256_hex canonical).

End revision.

(** ** Policy-impact simulation *)

Record PolicyImpactMatch := {
  pim_EventName : string;
  pim_Assignment : string;
  pim_SandboxID : string;
  pim_LogicalTenant : string;
  pim_Team : string;
  pim_Target : Target
}.

Record PolicyImpact := {
  pi_DeniedEvents : Z;
  pi_NewlyAllowed : Z;
  pi_AffectedTenants : list string;
  pi_AffectedTeams : list string;
  pi_Matches : list PolicyImpactMatch
}.

Definition event_denied (event : SandboxEgressEvent) : bool :=
  negb (ee_Allowed (ev_Spec event)
        || (ee_DecisionSource (ev_Spec event) <>?s DecisionSourceDeny)).

Definition event_target (event : SandboxEgressEvent) : Target := {|
  t_Backend := ee_Backend (ev_Spec event);
  t_Method := ee_Method (ev_Spec event);
  t_Host := ee_Host (ev_Spec event);
  t_Path := ee_Path (ev_Spec event) |}.

Definition event_match (event : SandboxEgressEvent) : PolicyImpactMatch := {|
  pim_EventName := om_Name (ev_meta event);
  pim_Assignment := ar_Name (ee_AssignmentRef (ev_Spec event));
  pim_SandboxID := ee_SandboxID (ev_Spec event);
  pim_LogicalTenant := ee_LogicalTenant (ev_Spec event);
  pim_Team := ee_Team (ev_Spec event);
  pim_Target := event_target event |}.

(** The accumulator of the event loop: counters, matches, the two name sets. *)
Definition add_name (name : string) (s : gset string) : gset string :=
  if name <>?s "" then {[name]} ∪ s else s.

Fixpoint simulate_loop (targets : list Target) (events : list SandboxEgressEvent)
  (denied newly : Z) (matches : list PolicyImpactMatch) (tenants teams : gset string)
  : Z * Z * list PolicyImpactMatch * gset string * gset string :=
  match events with
  | [] => (denied, newly, matches, tenants, teams)
  | event :: rest =>
      if negb (event_denied event) then simulate_loop targets rest denied newly matches tenants teams
      else if negb (contains (event_target event) targets)
      then simulate_loop targets rest (denied + 1) newly matches tenants teams
      else simulate_loop targets rest (denied + 1) (newly + 1) (matches ++ [event_match event])
             (add_name (ee_LogicalTenant (ev_Spec event)) tenants)
             (add_name (ee_Team (ev_Spec event)) teams)
  end.

Definition match_le (a b : PolicyImpactMatch) : Prop :=
  String.le (pim_EventName a) (pim_EventName b).
#[export] Instance match_le_dec : RelDecision match_le.
Proof. intros a b. unfold match_le. apply _. Defined.

Definition SimulatePolicyImpact (events : list SandboxEgressEvent) (targets : list Target)
  : PolicyImpact :=
  let '(denied, newly, matches, tenants, teams) :=
    simulate_loop targets events 0 0 [] ∅ ∅ in
  {| pi_DeniedEvents := denied; pi_NewlyAllowed := newly;
     pi_AffectedTenants := merge_sort String.le (elements tenants);
     pi_AffectedTeams := merge_sort String.le (elements teams);
     pi_Matches := merge_sort match_le matches |}.

(** ** Canonical hosts *)

Definition host_char (c : ascii) : bool := label_char c || bool_decide (c = "."%char).

Lemma label_char_host c : label_char c = true -> host_char c = true.
Proof. unfold host_char. by intros ->. Qed.

Lemma octet_char_host c : octet_char c = true -> host_char c = true.
Proof. all_bytes c. Qed.

(** Host characters survive trimming and lower-casing and are never delimiters. *)
Lemma host_chars_plain s : string_forallb host_char s = true -> string_forallb plain s = true.
Proof. apply string_forallb_impl. intros c. all_bytes c. Qed.

Lemma host_chars_allowed s :
  string_forallb host_char s = true -> ContainsAny s host_forbidden = false.
Proof.
  intros Hs. apply string_existsb_false. revert Hs. apply string_forallb_impl.
  intros c. all_bytes c.
Qed.

Lemma host_chars_without c s :
  host_char c = false -> string_forallb host_char s = true -> contains_byte c s = false.
Proof.
  intros Hc Hs. apply contains_byte_false. revert Hs. apply string_forallb_impl.
  intros d Hd. apply negb_true_iff, bool_decide_eq_false_2. congruence.
Qed.

Lemma hostLabel_chars s : hostLabel s = true -> string_forallb label_char s = true.
Proof. destruct s as [|c s]; [done|]. unfold hostLabel. intros. by bool_to_prop. Qed.

Lemma host_labels_chars h :
  forallb hostLabel (split_byte "." h) = true -> string_forallb host_char h = true.
Proof.
  intros Hl. apply split_byte_forallb with "."%char; [done|].
  apply Forall_forall. intros x Hx. rewrite forallb_forall in Hl.
  apply list_elem_of_In in Hx. apply Hl, hostLabel_chars in Hx.
  eapply string_forallb_impl; [|exact Hx]. apply label_char_host.
Qed.

Lemma host_labels_no_dot_suffix h :
  forallb hostLabel (split_byte "." h) = true -> HasSuffix h "." = false.
Proof.
  intros Hl. destruct (HasSuffix h ".") eqn:E; [|done].
  apply HasSuffix_app in E as [t ->]. rewrite split_byte_snoc, forallb_app in Hl.
  cbn in Hl. by rewrite andb_false_r in Hl.
Qed.

Section host_proofs.
Context `{UnicodeTables}.

Lemma SplitHostPort_no_colon s : contains_byte ":" s = false -> SplitHostPort s = None.
Proof.
  intros Hs. unfold SplitHostPort, cut_last.
  rewrite cut_byte_None by by rewrite contains_byte_rev. done.
Qed.

(** On text made of host characters only the address parse and the label check remain. *)
Lemma NormalizeHost_plain h :
  h <> "" -> slen h <= 253 -> string_forallb host_char h = true -> HasSuffix h "." = false ->
  NormalizeHost h =
    match ParseAddr h with
    | Some address => Ok (addr_string (Unmap address))
    | None => if forallb hostLabel (split_byte "." h) then Ok h else Err (ErrMsg "host is invalid")
    end.
Proof.
  intros Hne Hlen Hc Hs. unfold NormalizeHost.
  rewrite TrimSpace_plain by by apply host_chars_plain.
  rewrite host_chars_allowed by done.
  assert ((h =?s "") = false) as -> by by apply seqb_neq.
  assert ((512 <? slen h) = false) as -> by (apply Z.ltb_ge; lia).
  cbn [orb]. rewrite SplitHostPort_no_colon by by apply host_chars_without.
  assert (HasPrefix h "[" = false) as ->.
  { destruct h as [|c h]; [done|]. cbn in Hc |- *. apply andb_true_iff in Hc as [Hc _].
    case_bool_decide as E; [|done]. by subst. }
  cbn [andb]. rewrite (host_chars_without ":") by done. cbn [res_bind].
  rewrite ToLower_id by (eapply string_forallb_impl, Hc; intros c; all_bytes c).
  rewrite TrimSuffix_nosuffix by done.
  assert ((h =?s "") = false) as -> by by apply seqb_neq.
  assert ((253 <? slen h) = false) as -> by (apply Z.ltb_ge; lia).
  done.
Qed.

(** What a successful host normalization returns. *)
Lemma NormalizeHost_Ok a h :
  NormalizeHost a = Ok h ->
  (exists ip, wf_addr ip /\ h = addr_string (Unmap ip)) \/
  (h <> "" /\ slen h <= 253 /\ ParseAddr h = None /\ forallb hostLabel (split_byte "." h) = true).
Proof.
  unfold NormalizeHost. intros Hn. case_match; [done|]. case_match; [done|].
  destruct (if _ : bool then _ else _) as [host|e]; cbn [res_bind] in Hn; [|done].
  case_match; [done|]. bool_to_prop.
  case_match eqn:Ep.
  - left. simplify_eq. eauto using ParseAddr_wf.
  - right. case_match; [|done]. simplify_eq. auto.
Qed.

Lemma digits_no_dot_suffix s t :
  t <> "" -> string_forallb is_digit t = true -> HasSuffix (s +:+ t) "." = false.
Proof.
  intros Hne Hd. unfold HasSuffix. rewrite string_rev_app_distr.
  rewrite <- string_forallb_rev in Hd.
  destruct (string_rev t) as [|c r] eqn:E.
  - destruct Hne. by rewrite <- (string_rev_involutive t), E.
  - cbn in Hd. rewrite string_app_cons. cbn. apply andb_true_iff in Hd as [Hc _].
    case_bool_decide; [|done]. by subst.
Qed.

Lemma print_octet_len n : slen (print_octet n) <= 3.
Proof. unfold print_octet. repeat case_match; unfold slen; cbn; lia. Qed.

Lemma NormalizeHost_addr4 a b c d :
  wf_addr (Addr4 a b c d) ->
  NormalizeHost (addr_string (Addr4 a b c d)) = Ok (addr_string (Addr4 a b c d)).
Proof.
  intros (Ha & Hb & Hc & Hd). rewrite NormalizeHost_plain.
  - by rewrite ParseAddr_print4.
  - apply string_app_nonempty_l, print_octet_nonempty.
  - cbn [addr_string]. rewrite !slen_app.
    pose proof (print_octet_len a); pose proof (print_octet_len b).
    pose proof (print_octet_len c); pose proof (print_octet_len d).
    change (slen ".") with 1. lia.
  - eapply string_forallb_impl; [apply octet_char_host|]. by apply addr4_chars.
  - cbn [addr_string]. rewrite <- !string_app_assoc.
    apply digits_no_dot_suffix; [apply print_octet_nonempty|by apply print_octet_chars].
Qed.

(** IPv6 text contains a colon outside brackets and is therefore refused. *)
Lemma trim_left_head c t : hex_or_colon c = true -> trim_left (String c t) = String c t.
Proof.
  intros Hc. cbn [trim_left].
  assert (ascii_space c = false) as -> by (revert Hc; all_bytes c).
  destruct t as [|b1 t]; [done|].
  assert (space2 c b1 = false) as -> by (clear -Hc; revert Hc; unfold space2; all_bytes c).
  destruct t as [|b2 t]; [done|].
  assert (space3 c b1 b2 = false) as -> by (clear -Hc; revert Hc; unfold space3; all_bytes c).
  done.
Qed.

Lemma NormalizeHost_addr6 g zone :
  length g = 8%nat -> is_ok (NormalizeHost (addr_string (Addr6 g zone))) = false.
Proof.
  intros Hl. destruct (print6_colon g Hl) as [Hcol Hhead].
  set (h := addr_string (Addr6 g zone)).
  assert (contains_byte ":" h = true) as Hc.
  { unfold h. cbn [addr_string]. by rewrite contains_byte_app, Hcol. }
  assert (exists c t, h = String c t /\ hex_or_colon c = true) as (c & t & Eh & Hh).
  { unfold h. cbn [addr_string].
    specialize (Hhead (if bool_decide (zone = "") then "" else "%" +:+ zone)).
    unfold head_ok in Hhead. case_match; [done|]. eauto. }
  assert (trim_left h = h) as Et by by rewrite Eh, trim_left_head.
  assert (contains_byte ":" (TrimSpace h) = true) as Hc'.
  { unfold TrimSpace. by rewrite contains_byte_rev, trim_rev_contains, contains_byte_rev, Et. }
  assert (HasPrefix (TrimSpace h) "[" = false) as Hp.
  { destruct (TrimSpace_prefix h) as [r Er0].
    assert (String c t = TrimSpace h +:+ r) as Er by congruence.
    destruct (TrimSpace h) as [|d s]; [done|]. rewrite string_app_cons in Er.
    injection Er as -> _. cbn. case_bool_decide; [|done]. by subst. }
  unfold NormalizeHost. case_match; [done|]. case_match; [done|]. by rewrite Hp, Hc'.
Qed.

(** A canonical host without a colon is a fixed point. *)
Lemma NormalizeHost_fixed a h :
  NormalizeHost a = Ok h -> contains_byte ":" h = false -> NormalizeHost h = Ok h.
Proof.
  intros Hn Hcol. destruct (NormalizeHost_Ok _ _ Hn) as [(ip & Hwf & ->)|(Hne & Hl & Hp & Hlab)].
  - apply Unmap_wf in Hwf. destruct (Unmap ip) as [x y z w|g zone]; [by apply NormalizeHost_addr4|].
    destruct Hwf as [Hg _]. destruct (print6_colon g Hg) as [Hc _].
    cbn [addr_string] in Hcol. by rewrite contains_byte_app, Hc in Hcol.
  - rewrite NormalizeHost_plain by eauto using host_labels_chars, host_labels_no_dot_suffix.
    by rewrite Hp, Hlab.
Qed.

(** A canonical host with a colon is an IPv6 address, and is refused. *)
Lemma NormalizeHost_colon a h :
  NormalizeHost a = Ok h -> contains_byte ":" h = true -> is_ok (NormalizeHost h) = false.
Proof.
  intros Hn Hcol. destruct (NormalizeHost_Ok _ _ Hn) as [(ip & Hwf & ->)|(Hne & Hl & Hp & Hlab)].
  - apply Unmap_wf in Hwf. destruct (Unmap ip) as [x y z w|g zone].
    + destruct Hwf as (Hx & Hy & Hz & Hw).
      pose proof (addr4_chars x y z w Hx Hy Hz Hw) as Hc.
      rewrite host_chars_without in Hcol; [done|done|].
      eapply string_forallb_impl; [apply octet_char_host|exact Hc].
    + apply NormalizeHost_addr6. by destruct Hwf.
  - rewrite host_chars_without in Hcol; [done|done|by apply host_labels_chars].
Qed.

Lemma NormalizePath_Ok p q :
  NormalizePath p = Ok q ->
  q = (if p =?s "" then "/" else p) /\ NormalizePath q = Ok q /\ q <> "" /\
  HasPrefix q "/" = true /\ slen q <= 2048.
Proof.
  unfold NormalizePath. intros Hn. destruct (ContainsAny p "?#") eqn:E1; [done|].
  destruct (p =?s "") eqn:Ep.
  - apply seqb_eq in Ep. subst. vm_compute in Hn. injection Hn as <-. by vm_compute.
  - case_match eqn:Eg; [done|]. injection Hn as <-. rewrite E1, Ep, Eg.
    apply seqb_neq in Ep. bool_to_prop. done.
Qed.

Lemma hostLabel_plain s : hostLabel s = true -> string_forallb plain s = true.
Proof.
  intros Hl%hostLabel_chars. eapply string_forallb_impl, Hl. intros c; all_bytes c.
Qed.

Lemma methodPattern_chars s :
  methodPattern s = true -> string_forallb plain s = true /\ ToUpper s = s.
Proof.
  intros Hm. assert (string_forallb method_char s = true) as Hc.
  { destruct s as [|c s]; [done|]. cbn in Hm |- *. bool_to_prop. unfold method_char at 1.
    rewrite H0. done. }
  split; [eapply string_forallb_impl, Hc; intros c; all_bytes c|].
  apply ToUpper_id. eapply string_forallb_impl, Hc; intros c; all_bytes c.
Qed.

Lemma NormalizeTarget_Ok b m h p t :
  NormalizeTarget b m h p = Ok t ->
  backendPattern (t_Backend t) = true /\ methodPattern (t_Method t) = true /\
  NormalizeHost h = Ok (t_Host t) /\ NormalizePath p = Ok (t_Path t).
Proof.
  unfold NormalizeTarget. intros Hn. case_match; [done|]. case_match; [done|].
  destruct (NormalizeHost h); [|done]. cbn [res_bind] in Hn.
  destruct (NormalizePath p); [|done]. cbn [res_bind] in Hn.
  bool_to_prop. by simplify_eq.
Qed.

(** Normalizing an already normalized target succeeds exactly when its host does,
    and then changes nothing. *)
Lemma NormalizeTarget_canonical b m h p t :
  NormalizeTarget b m h p = Ok t ->
  NormalizeTarget (t_Backend t) (t_Method t) (t_Host t) (t_Path t) =
    (h' <-! NormalizeHost (t_Host t) ;;
     Ok {| t_Backend := t_Backend t; t_Method := t_Method t; t_Host := h'; t_Path := t_Path t |}).
Proof.
  intros (Hb & Hm & Hh & Hp)%NormalizeTarget_Ok.
  destruct (methodPattern_chars _ Hm) as [Hmp Hup].
  apply NormalizePath_Ok in Hp as (_ & Hp & _).
  unfold NormalizeTarget. rewrite !TrimSpace_plain by auto using hostLabel_plain.
  by rewrite Hup, Hb, Hm, Hp.
Qed.

End host_proofs.

(** ** Theorems: targets *)

Section target_theorems.
Context `{UnicodeTables}.

(** Normalizing a target is idempotent as long as its host is not an IPv6 address:
    every component of the result is its own canonical form, so exact string
    comparison of normalized targets is a well-defined target equality. *)
Theorem NormalizeTarget_idempotent b m h p t :
  NormalizeTarget b m h p = Ok t ->
  contains_byte ":" (t_Host t) = false ->
  NormalizeTarget (t_Backend t) (t_Method t) (t_Host t) (t_Path t) = Ok t.
Proof.
  intros Hn Hc. rewrite (NormalizeTarget_canonical _ _ _ _ _ Hn).
  apply NormalizeTarget_Ok in Hn as (_ & _ & Hh & _).
  rewrite (NormalizeHost_fixed _ _ Hh Hc). by destruct t.
Qed.

(** The canonical form of an IPv6 host is never accepted again: a second pass over a
    normalized target with such a host always fails. *)
Theorem NormalizeTarget_ipv6_not_stable b m h p t :
  NormalizeTarget b m h p = Ok t ->
  contains_byte ":" (t_Host t) = true ->
  is_ok (NormalizeTarget (t_Backend t) (t_Method t) (t_Host t) (t_Path t)) = false.
Proof.
  intros Hn Hc. rewrite (NormalizeTarget_canonical _ _ _ _ _ Hn).
  apply NormalizeTarget_Ok in Hn as (_ & _ & Hh & _).
  apply NormalizeHost_colon in Hh; [|done]. by destruct (NormalizeHost (t_Host t)).
Qed.

(** Ports are refused, never stripped. *)
Theorem NormalizeHost_port_refused a hp :
  SplitHostPort (TrimSpace a) = Some hp -> is_ok (NormalizeHost a) = false.
Proof. intros Hs. unfold NormalizeHost. case_match; [done|]. by rewrite Hs. Qed.

End target_theorems.

(** ** Theorems: request validation *)

Section validation_theorems.
Context `{UnicodeTables} `{K8sValidation} `{UuidLib}.

(** The scope checks do not depend on the iteration order of the Go map. *)
Lemma validate_scopes_order l l' :
  l ≡ₚ l' -> is_ok (validate_scopes l) = is_ok (validate_scopes l').
Proof.
  assert (forall l, is_ok (validate_scopes l) =
    forallb (fun nv => (nv.2 =?s "") || is_ok (validateHumanText nv.1 nv.2 1 128)) l) as E.
  { clear. induction l as [|[n v] l IH]; [done|]. cbn [validate_scopes forallb fst snd].
    destruct (v =?s ""); [done|]. destruct (validateHumanText n v 1 128); done. }
  intros Hp. rewrite !E. apply eq_true_iff_eq. rewrite !forallb_forall.
  setoid_rewrite <- list_elem_of_In. by setoid_rewrite Hp.
Qed.

Definition human_text_ok (value : string) (minimum maximum : Z) : Prop :=
  value = TrimSpace value /\ minimum <= slen value <= maximum /\ has_control value = false.

Lemma validateHumanText_ok name value lo hi u :
  validateHumanText name value lo hi = Ok u <-> human_text_ok value lo hi.
Proof.
  unfold validateHumanText, human_text_ok. destruct u. split.
  - intros Hv. case_match; [done|]. by bool_to_prop.
  - intros (Ht & [Hlo Hhi] & Hc). unfold containsControl. rewrite <- Ht, seqb_refl, Hc. cbn [negb orb].
    assert ((slen value <? lo) = false) as -> by (apply Z.ltb_ge; lia).
    by assert ((hi <? slen value) = false) as -> by (apply Z.ltb_ge; lia).
Qed.

(** The declarative content of [ValidateIdentity]. *)
Definition identity_ok (i : GovernanceIdentity) : Prop :=
  uuid_Parse (gi_TenantID i) = true /\ uuid_Parse (gi_ObjectID i) = true /\
  human_text_ok (gi_DisplayName i) 1 256 /\
  (gi_LogicalTenant i = "" \/ human_text_ok (gi_LogicalTenant i) 1 128) /\
  (gi_Team i = "" \/ human_text_ok (gi_Team i) 1 128).

Lemma scope_ok name v rest u :
  validate_scopes ((name, v) :: rest) = Ok u <->
  (v = "" \/ human_text_ok v 1 128) /\ validate_scopes rest = Ok u.
Proof.
  cbn [validate_scopes]. destruct (v =?s "") eqn:E; bool_to_prop; [naive_solver|].
  destruct (validateHumanText name v 1 128) as [a|e] eqn:Ev; cbn [res_bind].
  - apply validateHumanText_ok in Ev. naive_solver.
  - split; [done|]. intros [[|Hv] _]; [done|]. by apply (validateHumanText_ok name _ _ _ tt) in Hv; rewrite Hv in Ev.
Qed.

Lemma ValidateIdentity_ok i u : ValidateIdentity i = Ok u <-> identity_ok i.
Proof.
  unfold ValidateIdentity, identity_ok, identity_scopes. destruct u.
  destruct (uuid_Parse (gi_TenantID i)); cbn [negb]; [|naive_solver].
  destruct (uuid_Parse (gi_ObjectID i)); cbn [negb]; [|naive_solver].
  destruct (validateHumanText _ (gi_DisplayName i) 1 256) as [a|e] eqn:Ev; cbn [res_bind].
  - apply validateHumanText_ok in Ev. rewrite !scope_ok. cbn [validate_scopes]. naive_solver.
  - split; [done|]. intros (_ & _ & Hv & _).
    by apply (validateHumanText_ok "display name" _ _ _ tt) in Hv; rewrite Hv in Ev.
Qed.

(** The declarative content of [ValidateAccessRequestSpec]. *)
Record access_request_ok (spec : SandboxAccessRequestSpec) : Prop := {
  aro_name : IsDNS1123Subdomain (ar_Name (rs_AssignmentRef spec)) = [];
  aro_uid : ar_UID (rs_AssignmentRef spec) <> "";
  aro_pod : rs_PodUID spec <> "";
  aro_revision : 8 <= slen (rs_BasePolicyRevision spec) <= 128;
  aro_revision_text : has_control (rs_BasePolicyRevision spec) = false;
  aro_target : NormalizeTarget (rs_Backend spec) (rs_Method spec) (rs_Host spec) (rs_Path spec) =
    Ok {| t_Backend := rs_Backend spec; t_Method := rs_Method spec;
          t_Host := rs_Host spec; t_Path := rs_Path spec |};
  aro_reason : human_text_ok (rs_Reason spec) 3 512;
  aro_requester : identity_ok (rs_Requester spec);
  aro_duration : 60 <= rs_RequestedDurationSeconds spec <= 8 * 3600
}.

Lemma duration_window n :
  in_int32 n ->
  (dur_mul n Second <? MinimumRequestedDuration) || (MaximumRequestedDuration <? dur_mul n Second)
    = false <-> 60 <= n <= 8 * 3600.
Proof.
  intros Hn. rewrite dur_mul_seconds_int32 by done.
  unfold MinimumRequestedDuration, MaximumRequestedDuration, Hour, Minute, Second.
  rewrite orb_false_iff, !Z.ltb_ge. lia.
Qed.

Lemma ValidateAccessRequestSpec_ok spec :
  in_int32 (rs_RequestedDurationSeconds spec) ->
  ValidateAccessRequestSpec spec = Ok tt <-> access_request_ok spec.
Proof.
  intros Hd. unfold ValidateAccessRequestSpec. split.
  - intros Hv. case_match eqn:E1; [done|]. case_match eqn:E2; [done|]. case_match eqn:E3; [done|].
    case_match eqn:E4; [done|]. destruct (NormalizeTarget _ _ _ _) as [t|e] eqn:Et; [|done].
    cbn [res_bind] in Hv. case_match eqn:E5; [done|].
    destruct (validateHumanText _ _ _ _) eqn:Er; [|done]. cbn [res_bind] in Hv.
    destruct (ValidateIdentity _) eqn:Ei; [|done]. case_match eqn:E6; [done|].
    apply duration_window in E6; [|done]. apply validateHumanText_ok in Er.
    apply ValidateIdentity_ok in Ei. bool_to_prop.
    apply Nat.eqb_eq, nil_length_inv in E1. destruct t as [tb tm th tp]; cbn in *; subst.
    by constructor.
  - intros [Hn Hu Hp Hr Hc Ht Hre Hi Hdur].
    rewrite Hn, Ht. cbn [length Nat.eqb negb res_bind t_Backend t_Method t_Host t_Path].
    rewrite !seqb_refl. cbn [negb orb]. apply seqb_neq in Hu as ->. apply seqb_neq in Hp as ->.
    unfold containsControl. rewrite Hc.
    assert ((slen (rs_BasePolicyRevision spec) <? 8) = false) as -> by (apply Z.ltb_ge; lia).
    assert ((128 <? slen (rs_BasePolicyRevision spec)) = false) as -> by (apply Z.ltb_ge; lia).
    cbn [orb]. apply (validateHumanText_ok "reason" _ _ _ tt) in Hre as ->.
    apply (ValidateIdentity_ok _ tt) in Hi as ->. cbn [res_bind].
    by apply duration_window in Hdur as ->.
Qed.

(** Validation accepts a request exactly when every field has its documented form, the
    target is already canonical and the duration is between one minute and eight hours.
    [RequestedDurationSeconds] is an [int32], so its product with a second is exact. *)
Theorem ValidateAccessRequestSpec_iff spec :
  in_int32 (rs_RequestedDurationSeconds spec) ->
  is_ok (ValidateAccessRequestSpec spec) = true <-> access_request_ok spec.
Proof.
  intros Hd. rewrite <- ValidateAccessRequestSpec_ok by done.
  destruct (ValidateAccessRequestSpec spec) as [[]|]; naive_solver.
Qed.

(** No access request for an IPv6 target passes validation. *)
Theorem ValidateAccessRequestSpec_no_ipv6 spec :
  ValidateAccessRequestSpec spec = Ok tt -> contains_byte ":" (rs_Host spec) = false.
Proof.
  unfold ValidateAccessRequestSpec. intros Hv.
  case_match; [done|]. case_match; [done|]. case_match; [done|]. case_match; [done|].
  destruct (NormalizeTarget _ _ _ _) as [t|e] eqn:Et; [|done]. cbn [res_bind] in Hv.
  case_match eqn:E5; [done|]. clear Hv. bool_to_prop.
  apply NormalizeTarget_Ok in Et as (_ & _ & Hh & _).
  destruct (contains_byte ":" (rs_Host spec)) eqn:Ec; [|done].
  assert (t_Host t = rs_Host spec) as Eh by assumption. rewrite Eh in Hh.
  pose proof (NormalizeHost_colon _ _ Hh Ec) as Hbad. by rewrite Hh in Hbad.
Qed.

End validation_theorems.

(** ** Theorems: policy revisions *)

Section revision_theorems.
Context {A : Type} `{Stored A} `{Sha256}.

(** The revision of a specification is that of the text of its stored form. *)
Lemma PolicyRevision_text (s : A) : PolicyRevision (Some s) = Ok ("sha256:" +:+ sha256_hex (json_text (stored s))).
Proof. unfold PolicyRevision, json_Encode. by rewrite TrimSuffix_app. Qed.

(** The digest tells two texts apart. *)
Definition separates (a b : string) : Prop := sha256_hex a = sha256_hex b -> a = b.

(** Two storable specifications with the same revision are the same, unless the digest collides on
    their encodings. *)
Lemma PolicyRevision_separates (s1 s2 : A) r :
  separates (json_text (stored s1)) (json_text (stored s2)) -> storable s1 = true -> storable s2 = true ->
  PolicyRevision (Some s1) = Ok r -> PolicyRevision (Some s2) = Ok r -> s1 = s2.
Proof.
  rewrite !PolicyRevision_text. intros Hsha H1 H2 [= <-] [= E]. symmetry in E.
  apply Hsha, json_text_inj in E; [|done..]. by apply (inj stored).
Qed.

Lemma PolicyRevision_injective (s1 s2 : A) r :
  Inj (=) (=) sha256_hex -> storable s1 = true -> storable s2 = true ->
  PolicyRevision (Some s1) = Ok r -> PolicyRevision (Some s2) = Ok r -> s1 = s2.
Proof. intros Hsha. apply PolicyRevision_separates. exact (inj sha256_hex _ _). Qed.

(** C37. A revision pins a specification: unless the digest collides on their encodings, two storable
    specifications have the same revision exactly if they are equal, and the hashed text is JSON that reads back as the
    stored specification. *)
Theorem revision_determines_spec (s1 s2 : A) :
  separates (json_text (stored s1)) (json_text (stored s2)) -> storable s1 = true -> storable s2 = true ->
  (PolicyRevision (Some s1) = PolicyRevision (Some s2) <-> s1 = s2) /\
  PolicyRevision (Some s1) = Ok ("sha256:" +:+ sha256_hex (json_text (stored s1))) /\
  json_parse (json_text (stored s1)) = Some (stored s1).
Proof.
  intros Hsha H1 H2. split_and!; [|apply PolicyRevision_text|by apply json_parse_text].
  split; [|by intros ->]. intros E. rewrite (PolicyRevision_text s2) in E.
  by apply (PolicyRevision_separates s1 s2 _ Hsha H1 H2 E), PolicyRevision_text.
Qed.

End revision_theorems.

(** ** Theorems: policy-impact simulation *)

(** The events the candidate targets would newly allow. *)
Definition newly_allowed (targets : list Target) (event : SandboxEgressEvent) : bool :=
  event_denied event && contains (event_target event) targets.

Definition nonempty_names (names : list string) : gset string :=
  list_to_set (List.filter (fun n => n <>?s "") names).

Lemma nonempty_names_cons n l : nonempty_names (n :: l) = add_name n (nonempty_names l).
Proof. unfold nonempty_names, add_name. cbn. by destruct (n =?s ""). Qed.

Lemma nonempty_names_elem n l : n ∈ nonempty_names l <-> n ∈ l /\ n <> "".
Proof.
  unfold nonempty_names. rewrite elem_of_list_to_set, list_elem_of_In, filter_In, <- list_elem_of_In.
  by rewrite negb_true_iff, seqb_neq.
Qed.

Lemma add_name_union n s t : add_name n s ∪ t = s ∪ add_name n t.
Proof. unfold add_name. destruct (n <>?s ""); set_solver. Qed.

(** The event loop computes the two filters and the two name sets. *)
Lemma simulate_loop_spec targets events d n ms ts gs :
  simulate_loop targets events d n ms ts gs =
    let hit := List.filter (newly_allowed targets) events in
    (d + Z.of_nat (length (List.filter event_denied events)),
     n + Z.of_nat (length hit),
     ms ++ (event_match <$> hit),
     ts ∪ nonempty_names ((fun e => ee_LogicalTenant (ev_Spec e)) <$> hit),
     gs ∪ nonempty_names ((fun e => ee_Team (ev_Spec e)) <$> hit)).
Proof.
  cbn zeta. revert d n ms ts gs. induction events as [|e events IH]; intros d n ms ts gs.
  - cbn [List.filter length fmap list_fmap]. rewrite app_nil_r. unfold nonempty_names. cbn [List.filter list_to_set].
    by rewrite !(right_id_L ∅ (∪)), !Z.add_0_r.
  - cbn [simulate_loop List.filter].
    replace (newly_allowed targets e) with (event_denied e && contains (event_target e) targets) by done.
    destruct (event_denied e); cbn [negb andb]; [|by rewrite IH].
    destruct (contains (event_target e) targets); cbn [negb]; rewrite IH; cbn [length fmap list_fmap].
    + rewrite <- app_assoc, !nonempty_names_cons, !add_name_union, !Nat2Z.inj_succ.
      f_equal; f_equal; f_equal; f_equal; lia.
    + rewrite !Nat2Z.inj_succ. f_equal; f_equal; f_equal; f_equal; lia.
Qed.

#[export] Instance match_le_trans : Transitive match_le.
Proof. intros x y z. unfold match_le. apply transitivity. Qed.
#[export] Instance match_le_total : Total match_le.
Proof. intros x y. unfold match_le. apply total, _. Qed.

(** The impact of candidate targets: how many recorded denials there are, how many of them
    one of the targets covers exactly, those events sorted by name, and the sorted,
    duplicate-free, non-empty names of the tenants and teams they belong to. *)
Theorem SimulatePolicyImpact_spec events targets :
  let impact := SimulatePolicyImpact events targets in
  let hit := List.filter (newly_allowed targets) events in
  pi_DeniedEvents impact = Z.of_nat (length (List.filter event_denied events)) /\
  pi_NewlyAllowed impact = Z.of_nat (length hit) /\
  pi_Matches impact ≡ₚ (event_match <$> hit) /\ Sorted match_le (pi_Matches impact) /\
  (forall name, name ∈ pi_AffectedTenants impact <->
     name <> "" /\ exists e, e ∈ hit /\ ee_LogicalTenant (ev_Spec e) = name) /\
  (forall name, name ∈ pi_AffectedTeams impact <->
     name <> "" /\ exists e, e ∈ hit /\ ee_Team (ev_Spec e) = name) /\
  NoDup (pi_AffectedTenants impact) /\ Sorted String.le (pi_AffectedTenants impact) /\
  NoDup (pi_AffectedTeams impact) /\ Sorted String.le (pi_AffectedTeams impact).
Proof.
  cbn zeta. unfold SimulatePolicyImpact. rewrite simulate_loop_spec.
  cbn [pi_DeniedEvents pi_NewlyAllowed pi_Matches pi_AffectedTenants pi_AffectedTeams app].
  rewrite !(left_id_L ∅ (∪)).
  assert (forall (f : SandboxEgressEvent -> string) l name,
    name ∈ merge_sort String.le (elements (nonempty_names (f <$> l))) <->
    name <> "" /\ exists e, e ∈ l /\ f e = name) as Hnames.
  { intros f l name. rewrite merge_sort_Permutation, elem_of_elements, nonempty_names_elem.
    rewrite list_elem_of_fmap. naive_solver. }
  split_and!; try lia; try apply Hnames; try (apply Sorted_merge_sort; apply _).
  - apply merge_sort_Permutation.
  - rewrite merge_sort_Permutation. apply NoDup_elements.
  - rewrite merge_sort_Permutation. apply NoDup_elements.
Qed.

Lemma filter_permutation {A} (f : A -> bool) l l' :
  l ≡ₚ l' -> List.filter f l ≡ₚ List.filter f l'.
Proof.
  induction 1; cbn; repeat case_match; try constructor; try done. by etrans.
Qed.

(** The order in which events are listed does not change the impact: events have distinct
    names, so even the order of the matches is determined. *)
Theorem SimulatePolicyImpact_order events events' targets :
  events ≡ₚ events' -> NoDup ((fun e => om_Name (ev_meta e)) <$> events) ->
  SimulatePolicyImpact events targets = SimulatePolicyImpact events' targets.
Proof.
  intros Hp Hnd. unfold SimulatePolicyImpact. rewrite !simulate_loop_spec. cbn zeta iota.
  pose proof (filter_permutation (newly_allowed targets) _ _ Hp) as Hhit.
  pose proof (filter_permutation event_denied _ _ Hp) as Hden.
  set (h := List.filter (newly_allowed targets) events) in *.
  set (h' := List.filter (newly_allowed targets) events') in *.
  assert (forall f : SandboxEgressEvent -> string, nonempty_names (f <$> h) = nonempty_names (f <$> h')) as Hn.
  { intros f. apply set_eq. intros n. by rewrite !nonempty_names_elem, Hhit. }
  rewrite (Hn (fun e => ee_LogicalTenant (ev_Spec e))), (Hn (fun e => ee_Team (ev_Spec e))).
  rewrite (Permutation_length Hhit), (Permutation_length Hden). f_equal.
  apply Sorted_unique_strong with match_le; try (apply Sorted_merge_sort; apply _); [apply _| |].
  - intros x1 x2 Hx1 Hx2 H12 H21. rewrite merge_sort_Permutation in Hx1, Hx2.
    assert (pim_EventName x1 = pim_EventName x2) as En by by apply (anti_symm String.le).
    apply list_elem_of_fmap in Hx1 as (e1 & -> & He1).
    apply list_elem_of_fmap in Hx2 as (e2 & -> & He2). f_equal.
    rewrite <- Hhit in He2. unfold h in He1, He2.
    rewrite list_elem_of_In, filter_In, <- list_elem_of_In in He1, He2.
    destruct He1 as [He1 _], He2 as [He2 _].
    apply list_elem_of_lookup in He1 as [i Hi]. apply list_elem_of_lookup in He2 as [j Hj].
    enough (i = j) by congruence. eapply NoDup_lookup; [exact Hnd| |];
      rewrite list_lookup_fmap; [by rewrite Hi|rewrite Hj; cbn in En |- *; by rewrite En].
  - by rewrite !merge_sort_Permutation, Hhit.
Qed.

(** Adding candidate targets never shrinks the impact. *)
Theorem SimulatePolicyImpact_monotone events targets more :
  targets ⊆ more ->
  let i := SimulatePolicyImpact events targets in
  let j := SimulatePolicyImpact events more in
  pi_DeniedEvents i = pi_DeniedEvents j /\ pi_NewlyAllowed i <= pi_NewlyAllowed j <= pi_DeniedEvents j /\
  (forall m, m ∈ pi_Matches i -> m ∈ pi_Matches j).
Proof.
  intros Hsub. cbn zeta. unfold SimulatePolicyImpact. rewrite !simulate_loop_spec.
  cbn [pi_DeniedEvents pi_NewlyAllowed pi_Matches app].
  assert (forall f g : SandboxEgressEvent -> bool, (forall e, f e = true -> g e = true) ->
     (length (List.filter f events) <= length (List.filter g events))%nat) as Hlen.
  { intros f g Hfg. induction events as [|e l IH]; cbn; [lia|].
    specialize (Hfg e). destruct (f e), (g e); cbn; first [lia|naive_solver]. }
  assert (forall e, newly_allowed targets e = true -> newly_allowed more e = true) as Himp.
  { intros e. unfold newly_allowed. rewrite !andb_true_iff, !contains_true. set_solver. }
  split_and!; [done| | |].
  - specialize (Hlen _ _ Himp). lia.
  - pose proof (Hlen (newly_allowed more) event_denied) as Hd. unfold newly_allowed in Hd at 1.
    assert (forall e, event_denied e && contains (event_target e) more = true -> event_denied e = true)
      as Hx by (intros e He; by bool_to_prop). specialize (Hd Hx). lia.
  - intros m. rewrite !merge_sort_Permutation, !list_elem_of_fmap.
    intros (e & -> & He). exists e. split; [done|]. revert He.
    rewrite !list_elem_of_In, !filter_In. naive_solver.
Qed.
