(* ===== verification/AuthzServer.v ===== *)
(** * Package [authz], the Envoy external-authorization endpoint

    [internal/assignment/authz/server.go]: normalization of an Envoy check request and the
    fail-closed translation of a checker decision into an Envoy response.  The Go interface
    [Checker] is the class [Checker]; the protocol-buffer messages are records whose
    message-typed fields are optional. *)

From S2P Require Import Prelude GoStrings NetIP ApiTypes ApiJson Kube Governance.
From stdpp Require Import options.

Definition BackendContextKey : string := "backend".
Definition IdentityHeader : string := "x-aks-sandbox-identity".

(** ** Messages *)

(** A Go map with string values in its iteration order: distinct keys. *)
Definition Headers := list (string * string).

Record HttpRequest := {
  hr_Method : string;
  hr_Path : string;
  hr_Host : string;
  hr_Headers : Headers
}.

(** An address carries a socket address or another variant. *)
Inductive Address :=
  | SocketAddress (address : string)
  | OtherAddress.

Record AttributeContext := {
  ac_ContextExtensions : gmap string string;
  ac_Http : option HttpRequest;
  ac_SourceAddress : option Address
}.

Record CheckRequest := { cq_Attributes : option AttributeContext }.

Inductive CheckResponse :=
  | OkResponse (code : Z) (headersToRemove : list string)
  | DeniedResponse (code : Z) (status : Z) (body : string).

Record CheckInput := {
  ci_Backend : string;
  ci_IdentityToken : string;
  ci_Method : string;
  ci_Host : string;
  ci_Path : string;
  ci_Headers : gmap string string;
  ci_SourceAddress : string;
  ci_DeriveSourceFromIdentity : bool
}.

Record Decision := {
  d_Allow : bool;
  d_Reason : string;
  d_Source : string;
  d_AccessRequestName : string;
  d_AssignmentName : string;
  d_AssignmentUID : string;
  d_SandboxID : string;
  d_PodUID : string;
  d_CapabilityBundleName : string;
  d_CapabilityBundleRevision : string;
  d_LogicalTenant : string;
  d_Team : string;
  d_PermissionLevel : string;
  d_BoundaryDisplayName : string;
  d_Backend : string;
  d_Method : string;
  d_Host : string;
  d_Path : string
}.

(** [Decision{Reason: reason}]. *)
Definition reason_decision (allow : bool) (reason : string) : Decision := {|
  d_Allow := allow; d_Reason := reason; d_Source := ""; d_AccessRequestName := "";
  d_AssignmentName := ""; d_AssignmentUID := ""; d_SandboxID := ""; d_PodUID := "";
  d_CapabilityBundleName := ""; d_CapabilityBundleRevision := ""; d_LogicalTenant := "";
  d_Team := ""; d_PermissionLevel := ""; d_BoundaryDisplayName := ""; d_Backend := "";
  d_Method := ""; d_Host := ""; d_Path := "" |}.
Definition empty_decision : Decision := reason_decision false "".

(** [decision.Allow, decision.Reason, decision.Source, decision.AccessRequestName = ...]. *)
Definition decide_as (d : Decision) (allow : bool) (reason source request : string) : Decision := {|
  d_Allow := allow; d_Reason := reason; d_Source := source; d_AccessRequestName := request;
  d_AssignmentName := d_AssignmentName d; d_AssignmentUID := d_AssignmentUID d;
  d_SandboxID := d_SandboxID d; d_PodUID := d_PodUID d;
  d_CapabilityBundleName := d_CapabilityBundleName d;
  d_CapabilityBundleRevision := d_CapabilityBundleRevision d;
  d_LogicalTenant := d_LogicalTenant d; d_Team := d_Team d;
  d_PermissionLevel := d_PermissionLevel d; d_BoundaryDisplayName := d_BoundaryDisplayName d;
  d_Backend := d_Backend d; d_Method := d_Method d; d_Host := d_Host d; d_Path := d_Path d |}.

Definition set_reason (reason : string) (d : Decision) : Decision :=
  decide_as d (d_Allow d) reason (d_Source d) (d_AccessRequestName d).

(** The Go interface [Checker]: a decision and an error, computed with calls of [E] and the
    implementation's own state [S]. *)
Class Checker (E : Type -> Type) (S : Type) :=
  { Checker_Check : CheckInput -> S -> Prog E (Decision * option error * S) }.

(** ** Request normalization *)

Section normalize.
Context `{UnicodeTables}.

Fixpoint headerValue (headers : Headers) (wanted : string) : string :=
  match headers with
  | [] => ""
  | (name, value) :: rest => if EqualFold name wanted then value else headerValue rest wanted
  end.

Definition socketAddress (address : option Address) : string :=
  match address with Some (SocketAddress a) => a | _ => "" end.

(** The loop that copies the headers a policy may read. *)
Fixpoint copy_headers (headers : Headers) (out : gmap string string) : gmap string string :=
  match headers with
  | [] => out
  | (name, value) :: rest =>
      let name := ToLower name in
      if (name =?s IdentityHeader) || HasPrefix name ":" then copy_headers rest out
      else copy_headers rest (<[name := value]> out)
  end.

Definition normalize (req : option CheckRequest) : result CheckInput :=
  match (r ← req; cq_Attributes r) with
  | None => Err (ErrMsg "missing attribute context")
  | Some attributes =>
      let backend := TrimSpace (map_get (ac_ContextExtensions attributes) BackendContextKey) in
      if backend =?s "" then Err (ErrMsg "missing backend context")
      else match ac_Http attributes with
      | None => Err (ErrMsg "missing HTTP request attributes")
      | Some httpRequest =>
          if (hr_Method httpRequest =?s "") || (hr_Path httpRequest =?s "")
          then Err (ErrMsg "missing HTTP method or path")
          else
            let identity := headerValue (hr_Headers httpRequest) IdentityHeader in
            if TrimSpace identity =?s "" then Err (ErrMsg "missing sandbox identity")
            else
              let headers := copy_headers (hr_Headers httpRequest) ∅ in
              match NormalizeTarget backend (hr_Method httpRequest) (hr_Host httpRequest)
                      (hr_Path httpRequest) with
              | Err e => Err (ErrWrap "invalid authorization target" e)
              | Ok target =>
                  Ok {| ci_Backend := t_Backend target; ci_IdentityToken := identity;
                        ci_Method := t_Method target; ci_Host := t_Host target;
                        ci_Path := t_Path target; ci_Headers := headers;
                        ci_SourceAddress := socketAddress (ac_SourceAddress attributes);
                        ci_DeriveSourceFromIdentity := false |}
              end
      end
  end.

(** ** Responses and logging *)

Definition codes_OK : Z := 0.
Definition codes_PermissionDenied : Z := 7.

Definition allowedResponse : CheckResponse := OkResponse codes_OK [IdentityHeader].
Definition deniedResponse : CheckResponse :=
  DeniedResponse codes_PermissionDenied StatusForbidden "Forbidden".

Fixpoint firstNonEmpty (values : list string) : string :=
  match values with
  | [] => ""
  | value :: rest => if value <>?s "" then value else firstNonEmpty rest
  end.

Inductive LogValue := LogString (s : string) | LogBool (b : bool) | LogError (e : error).

Definition decisionLogAttributes (input : CheckInput) (decision : Decision)
  : list (string * LogValue) :=
  let source := if d_Source decision =?s "" then DecisionSourceDeny else d_Source decision in
  [("assignment_name", LogString (d_AssignmentName decision));
   ("assignment_uid", LogString (d_AssignmentUID decision));
   ("sandbox_id", LogString (d_SandboxID decision));
   ("pod_uid", LogString (d_PodUID decision));
   ("capability_bundle", LogString (d_CapabilityBundleName decision));
   ("capability_bundle_revision", LogString (d_CapabilityBundleRevision decision));
   ("logical_tenant", LogString (d_LogicalTenant decision));
   ("team", LogString (d_Team decision));
   ("permission_level", LogString (d_PermissionLevel decision));
   ("backend", LogString (firstNonEmpty [d_Backend decision; ci_Backend input]));
   ("method", LogString (firstNonEmpty [d_Method decision; ci_Method input]));
   ("host", LogString (firstNonEmpty [d_Host decision; ci_Host input]));
   ("path", LogString (firstNonEmpty [d_Path decision; ci_Path input]));
   ("decision_source", LogString source);
   ("access_request", LogString (d_AccessRequestName decision));
   ("allowed", LogBool (d_Allow decision));
   ("reason", LogString (d_Reason decision))].

(** One structured log record: level, message, attributes. *)
Record LogRecord := {
  lr_level : string;
  lr_message : string;
  lr_attributes : list (string * LogValue)
}.

(** [Server.Check]: the response and the log record it emits.  The gRPC error is always
    nil. *)
Definition Server_Check {E S} `{Checker E S} (req : option CheckRequest) (s : S)
  : Prog E (CheckResponse * LogRecord * S) :=
  match normalize req with
  | Err e =>
      Ret (deniedResponse,
           {| lr_level := "WARN"; lr_message := "rejecting malformed authorization request";
              lr_attributes := [("error", LogError e)] |}, s)
  | Ok input =>
      r <-- Checker_Check input s ;;
      let '(decision, err, s') := r in
      match err with
      | Some e =>
          Ret (deniedResponse,
               {| lr_level := "ERROR"; lr_message := "assignment authorization failed";
                  lr_attributes := decisionLogAttributes input decision ++ [("error", LogError e)] |}, s')
      | None =>
          if negb (d_Allow decision)
          then Ret (deniedResponse,
                    {| lr_level := "INFO"; lr_message := "assignment authorization denied";
                       lr_attributes := decisionLogAttributes input decision |}, s')
          else Ret (allowedResponse,
                    {| lr_level := "INFO"; lr_message := "assignment authorization allowed";
                       lr_attributes := decisionLogAttributes input decision |}, s')
      end
  end.

End normalize.

(** ** Lemmas *)

Section server_proofs.
Context `{UnicodeTables}.

Lemma ToLower_fold s :
  string_forallb is_ascii s = true -> ToLower s = encode_runes (rune_fold <$> runes s).
Proof.
  intros Hs. unfold ToLower, strings_Map. f_equal.
  induction s as [|c s IH]; [done|]. cbn in Hs. apply andb_true_iff in Hs as [Hc Hs].
  rewrite runes_cons_ascii by done. cbn [omap list_omap fmap list_fmap]. rewrite IH by done. f_equal.
  unfold rune_ToLower, rune_fold. unfold is_ascii in Hc. by rewrite Hc.
Qed.

(** On ASCII names, a case-insensitive match with the identity header is a match after
    lower-casing. *)
Lemma EqualFold_identity name :
  string_forallb is_ascii name = true -> EqualFold name IdentityHeader = true ->
  ToLower name = IdentityHeader.
Proof.
  unfold EqualFold. intros Ha He%bool_decide_eq_true. rewrite ToLower_fold, He by done. reflexivity.
Qed.

Lemma copy_headers_lookup headers out k v :
  copy_headers headers out !! k = Some v ->
  out !! k = Some v \/
  exists name, (name, v) ∈ headers /\ ToLower name = k /\
    k <> IdentityHeader /\ HasPrefix k ":" = false.
Proof.
  revert out. induction headers as [|[name value] rest IH]; intros out; cbn [copy_headers]; [auto|].
  destruct (_ || _) eqn:E; intros Hk%IH.
  - destruct Hk as [|(n & ? & ?)]; [auto|]. right. exists n. set_solver.
  - destruct Hk as [Hk|(n & ? & ?)]; [|right; exists n; set_solver].
    apply lookup_insert_Some in Hk as [[<- <-]|[_ Hk]]; [|auto]. right. exists name.
    bool_to_prop. set_solver.
Qed.

Lemma headerValue_elem headers wanted :
  headerValue headers wanted <> "" ->
  exists name, (name, headerValue headers wanted) ∈ headers /\ EqualFold name wanted = true.
Proof.
  induction headers as [|[n v] rest IH]; cbn [headerValue]; [done|].
  destruct (EqualFold n wanted) eqn:E; [exists n; set_solver|].
  intros (m & ? & ?)%IH. exists m. set_solver.
Qed.

(** ** Theorems *)

(** A normalized request carries a non-blank identity token taken from the identity header
    and a canonical target of the operator-chosen backend. *)
Theorem normalize_sound req input :
  normalize req = Ok input ->
  TrimSpace (ci_IdentityToken input) <> "" /\
  ci_DeriveSourceFromIdentity input = false /\
  exists attributes http,
    (r ← req; cq_Attributes r) = Some attributes /\ ac_Http attributes = Some http /\
    (exists name, (name, ci_IdentityToken input) ∈ hr_Headers http /\
       EqualFold name IdentityHeader = true) /\
    NormalizeTarget (TrimSpace (map_get (ac_ContextExtensions attributes) BackendContextKey))
      (hr_Method http) (hr_Host http) (hr_Path http) =
      Ok {| t_Backend := ci_Backend input; t_Method := ci_Method input;
            t_Host := ci_Host input; t_Path := ci_Path input |}.
Proof.
  unfold normalize. intros Hn. case_match eqn:Ea; [|done].
  case_match; [done|]. case_match eqn:Eh; [|done]. case_match; [done|]. case_match eqn:Et; [done|].
  case_match eqn:En; [|done]. simplify_eq. cbn. apply seqb_neq in Et.
  split_and!; [done|done|]. do 2 eexists. split_and!; [done|done| |by destruct a0].
  apply headerValue_elem. intros E. by rewrite E in Et.
Qed.

(** The identity token is kept away from policy expressions: on ASCII header names, no header
    the policy sees comes from the identity header, whatever its case, and no HTTP/2
    pseudo-header is passed on either. *)
Theorem normalize_hides_identity req input :
  normalize req = Ok input ->
  (forall attributes http, (r ← req; cq_Attributes r) = Some attributes ->
     ac_Http attributes = Some http ->
     Forall (fun nv => string_forallb is_ascii nv.1 = true) (hr_Headers http) ->
   forall k v, ci_Headers input !! k = Some v ->
     HasPrefix k ":" = false /\
     exists name, (name, v) ∈ hr_Headers http /\ EqualFold name IdentityHeader = false).
Proof.
  unfold normalize. intros Hn attributes http Ha Hh Hascii k v. rewrite Ha, Hh in Hn.
  case_match; [done|]. case_match; [done|]. case_match; [done|]. case_match; [|done].
  simplify_eq. cbn [ci_Headers]. intros [Hk|(name & Hin & Hl & Hne & Hp)]%copy_headers_lookup.
  { by rewrite lookup_empty in Hk. }
  split; [done|]. exists name. split; [done|].
  destruct (EqualFold name IdentityHeader) eqn:Ef; [|done]. exfalso. apply Hne.
  rewrite <- Hl. apply EqualFold_identity; [|done].
  rewrite Forall_forall in Hascii. by apply (Hascii _ Hin).
Qed.

(** The endpoint is fail-closed: it answers allow exactly when the request is well formed
    and the checker returns an allowing decision without an error; the allow answer removes
    the identity header from the forwarded request, and every other answer is the denial. *)
Lemma Server_Check_run {E S} `{Checker E S} req s tr response log s' :
  run (Server_Check req s) tr (response, log, s') ->
  (response = allowedResponse /\
     exists input decision, normalize req = Ok input /\
       run (Checker_Check input s) tr (decision, None, s') /\ d_Allow decision = true) \/
  (response = deniedResponse /\
     ((exists e, normalize req = Err e) \/
      exists input decision err, normalize req = Ok input /\
        run (Checker_Check input s) tr (decision, err, s') /\
        (is_Some err \/ d_Allow decision = false))).
Proof.
  unfold Server_Check. destruct (normalize req) as [input|e]; intros Hr.
  - apply run_bind in Hr as ([[decision err] s1] & tr1 & tr2 & -> & Hc & Hr).
    destruct err as [e|]; [|destruct (d_Allow decision) eqn:Ed; cbn [negb] in Hr];
      destruct Hr as [-> [= <- <- <-]]; rewrite app_nil_r; [right|left|right];
      split; try done; eauto 10.
  - destruct Hr as [-> [= <- <- <-]]. right. eauto.
Qed.

(** The log record does not depend on the identity token or on the headers: two requests
    that differ only there, and get the same decision, are logged identically. *)
Lemma decisionLogAttributes_token input input' decision :
  ci_Backend input = ci_Backend input' -> ci_Method input = ci_Method input' ->
  ci_Host input = ci_Host input' -> ci_Path input = ci_Path input' ->
  decisionLogAttributes input decision = decisionLogAttributes input' decision.
Proof. unfold decisionLogAttributes. by intros -> -> -> ->. Qed.

End server_proofs.
