(* ===== verification/Checker.v ===== *)
(** * Package [authz], the Kubernetes-backed checker

    [internal/assignment/authz/checker.go]: token review with its cache, resolution of the
    live Pod, ServiceAccount, assignment and capability bundle, evaluation of the backend's
    allow expression, and the access-request overlay.

    The informer caches are read through [Caches].  Every informer is read at most once in
    a check, so one record of lookup functions is the most general view of caches that change
    concurrently.  CEL, JWT parsing and SHA-256 are library code and appear as classes. *)

From S2P Require Import Prelude GoStrings NetIP GoEncoding ApiTypes ApiJson Kube Governance AuthzServer.
From stdpp Require Import options.

Definition podNameExtra : string := "authentication.kubernetes.io/pod-name".
Definition podUIDExtra : string := "authentication.kubernetes.io/pod-uid".
Definition serviceAccountPrefix : string := "system:serviceaccount:".
Definition celRuntimeCostLimit : Z := 10000.
Definition maxCompiledPrograms : nat := 1024.
Definition maxTokenCacheEntries : nat := 4096.
Definition tokenCacheTTL : Duration := 30 * Second.
Definition freshnessLimit : Duration := 10 * Second.

(** ** Library code *)

(** The variables of an evaluation. *)
Record Activation := {
  act_backend_name : string;
  act_method : string;
  act_host : string;
  act_path : string;
  act_headers : gmap string string;
  act_source_address : string
}.

Inductive CelValue := CelBool (b : bool) | CelOther.

(** [github.com/google/cel-go]. *)
Class CelLib := {
  cel_Env : Type;
  cel_Ast : Type;
  cel_Program : Type;
  cel_NewEnv : list string -> result cel_Env;
  cel_Compile : cel_Env -> string -> result cel_Ast;
  cel_OutputIsBool : cel_Ast -> bool;
  cel_MakeProgram : cel_Env -> cel_Ast -> Z -> result cel_Program;
  cel_Eval : cel_Program -> Activation -> result CelValue
}.

(** [jwt.NewParser().ParseUnverified]: the expiry claim of a token, unverified. *)
Class JwtUnverified := { jwt_ParseUnverified : string -> result (option Time) }.

(** ** State *)

Record reviewedIdentity := {
  ri_namespace : string;
  ri_serviceAccount : string;
  ri_podName : string;
  ri_podUID : string
}.

Record cachedIdentity := { cid_identity : reviewedIdentity; cid_expiresAt : Time }.

Record checkerMetrics := {
  cm_allows : Z; cm_denies : Z; cm_errors : Z; cm_tokenReviews : Z;
  cm_tokenCacheHits : Z; cm_celErrors : Z; cm_freshnessDenies : Z; cm_grantsUsed : Z
}.
Definition zero_metrics : checkerMetrics := {|
  cm_allows := 0; cm_denies := 0; cm_errors := 0; cm_tokenReviews := 0;
  cm_tokenCacheHits := 0; cm_celErrors := 0; cm_freshnessDenies := 0; cm_grantsUsed := 0 |}.

Inductive Counter :=
  | allows | denies | errors | tokenReviews | tokenCacheHits | celErrors | freshnessDenies
  | grantsUsed.

(** [atomic.Uint64.Add(1)]. *)
Definition inc (n : Z) : Z := (n + 1) mod 2 ^ 64.

Definition count (k : Counter) (m : checkerMetrics) : checkerMetrics := {|
  cm_allows := match k with allows => inc (cm_allows m) | _ => cm_allows m end;
  cm_denies := match k with denies => inc (cm_denies m) | _ => cm_denies m end;
  cm_errors := match k with errors => inc (cm_errors m) | _ => cm_errors m end;
  cm_tokenReviews := match k with tokenReviews => inc (cm_tokenReviews m) | _ => cm_tokenReviews m end;
  cm_tokenCacheHits :=
    match k with tokenCacheHits => inc (cm_tokenCacheHits m) | _ => cm_tokenCacheHits m end;
  cm_celErrors := match k with celErrors => inc (cm_celErrors m) | _ => cm_celErrors m end;
  cm_freshnessDenies :=
    match k with freshnessDenies => inc (cm_freshnessDenies m) | _ => cm_freshnessDenies m end;
  cm_grantsUsed := match k with grantsUsed => inc (cm_grantsUsed m) | _ => cm_grantsUsed m end |}.

(** The configuration fixed by [NewKubernetesChecker]. *)
Record CheckerConfig `{CelLib} := {
  cc_assignmentNamespace : string;
  cc_workloadNamespace : string;
  cc_audience : string;
  cc_celEnv : cel_Env
}.

Record CheckerState `{CelLib} := {
  cs_programs : gmap string cel_Program;
  cs_tokens : gmap string cachedIdentity;
  cs_lastFreshUnixNano : Z;
  cs_metrics : checkerMetrics
}.

(** What the informers answer: [ByIndex] and [GetByKey]. *)
Record Caches := {
  ca_podsByUID : string -> result (list Pod);
  ca_serviceAccountByKey : string -> result (option ServiceAccount);
  ca_assignmentsByPodUID : string -> result (list (Unstructured SandboxAssignment));
  ca_bundleByKey : string -> result (option (Unstructured CapabilityBundle));
  ca_accessRequestsByAssignmentUID : string -> result (list (option (Unstructured SandboxAccessRequest)))
}.

Record AuditMetricsSnapshot := {
  am_Enqueued : Z; am_Written : Z; am_Dropped : Z; am_Errors : Z
}.

(** The Go interface [AuditSink], with the sink's own state. *)
Class AuditSink (S : Type) := {
  AuditSink_Record : Decision -> S -> KProg (result unit * S);
  AuditSink_Metrics : S -> AuditMetricsSnapshot
}.

(** ** Index functions *)

(** The objects of a cache are [any] values; [None] stands for another dynamic type. *)
Definition accessRequestAssignmentUIDs (raw : option (Unstructured SandboxAccessRequest))
  : result (list string) :=
  match raw with
  | None => Err (ErrMsg "unexpected access request object")
  | Some object =>
      let uid := nested_string object ["spec"; "assignmentRef"; "uid"]
                   (Some (ar_UID (rs_AssignmentRef (req_Spec (u_obj object))))) in
      Ok (if uid =?s "" then [] else [uid])
  end.

Definition assignmentPodUIDs (raw : option (Unstructured SandboxAssignment)) : result (list string) :=
  match raw with
  | None => Err (ErrMsg "unexpected assignment object")
  | Some object =>
      let uid := nested_string object ["status"; "podRef"; "uid"]
                   (ref_UID <$> ss_PodRef (sa_Status (u_obj object))) in
      Ok (if uid =?s "" then [] else [uid])
  end.

Definition podUIDs (raw : option Pod) : result (list string) :=
  match raw with
  | None => Err (ErrMsg "unexpected Pod object")
  | Some pod => Ok (if om_UID (pod_meta pod) =?s "" then [] else [om_UID (pod_meta pod)])
  end.

(** ** Pure helpers *)

Definition sourceMatchesPod (source : Addr) (pod : Pod) : bool :=
  let matches ip :=
    match ParseAddr ip with Some candidate => bool_decide (Unmap candidate = source) | None => false end in
  existsb matches (pst_PodIPs (pod_Status pod)) || matches (pst_PodIP (pod_Status pod)).

Definition conditionTrue (object : Unstructured SandboxAssignment) (kind : string) : bool :=
  match nested object ["status"; "conditions"] (Some (ss_Conditions (sa_Status (u_obj object)))) with
  | Ok (Some conditions) =>
      existsb (fun c => (c_Type c =?s kind) && (c_Status c =?s "True")) conditions
  | _ => false
  end.

Section checker.
Context `{UnicodeTables} `{K8sValidation} `{UuidLib} `{Sha256} `{CelLib} `{JwtUnverified}.

Definition checkerPolicyRevision (bundle : Unstructured CapabilityBundle) : result string :=
  PolicyRevision
    (match nested bundle ["spec"] (Some (cb_Spec (u_obj bundle))) with Ok spec => spec | Err _ => None end).

Definition newPolicyEnvironment : result cel_Env := cel_NewEnv ["request"; "backend"; "source"].

Definition ValidateAllowExpression (expression : string) : result unit :=
  environment <-! newPolicyEnvironment ;;
  ast <-! cel_Compile environment expression ;;
  if negb (cel_OutputIsBool ast) then Err (ErrMsg "allow expression must return bool") else Ok tt.

Definition jwtExpiration (token : string) : option Time :=
  match jwt_ParseUnverified token with
  | Ok (Some t) => if time_is_zero t then None else Some t
  | _ => None
  end.

Definition validApproval (request : SandboxAccessRequest) (now : Time) : bool :=
  match rst_Approver (req_Status request), rst_ApprovedAt (req_Status request),
        rst_ExpiresAt (req_Status request) with
  | Some approver, Some approvedAt, Some expiresAt =>
      if negb (is_ok (ValidateIdentity approver))
         || (TrimSpace (rst_DecisionReason (req_Status request)) =?s "") then false
      else
        let requestedDuration := dur_mul (rs_RequestedDurationSeconds (req_Spec request)) Second in
        negb (time_after approvedAt now) && time_after expiresAt now && time_after expiresAt approvedAt
        && (time_sub expiresAt approvedAt <=? requestedDuration)
        && (time_sub expiresAt approvedAt <=? MaximumRequestedDuration)
  | _, _, _ => false
  end.

(** One pass over the candidate requests: the names that match and whether an otherwise
    matching request was malformed or stale. *)
Fixpoint match_loop (objects : list (option (Unstructured SandboxAccessRequest)))
  (decision : Decision) (now : Time) (matches : list string) (invalidExact : bool)
  : result (list string * bool) :=
  match objects with
  | [] => Ok (matches, invalidExact)
  | None :: _ => Err (ErrMsg "unexpected access request object")
  | Some object :: rest =>
      if om_deleting (req_meta (u_obj object)) then match_loop rest decision now matches invalidExact
      else match FromUnstructured object with
      | Err e => Err (ErrWrap ("convert SandboxAccessRequest " +:+ om_Name (req_meta (u_obj object))) e)
      | Ok request =>
          let spec := req_Spec request in
          if (rst_State (req_Status request) <>?s SandboxAccessRequestApproved)
             || (ar_UID (rs_AssignmentRef spec) <>?s d_AssignmentUID decision)
          then match_loop rest decision now matches invalidExact
          else if (ar_Name (rs_AssignmentRef spec) <>?s d_AssignmentName decision)
             || (rs_PodUID spec <>?s d_PodUID decision)
             || (rs_BasePolicyRevision spec <>?s d_CapabilityBundleRevision decision)
          then match_loop rest decision now matches invalidExact
          else if negb (is_ok (ValidateAccessRequestSpec spec))
          then match_loop rest decision now matches true
          else if (rs_Backend spec <>?s d_Backend decision) || (rs_Method spec <>?s d_Method decision)
             || (rs_Host spec <>?s d_Host decision) || (rs_Path spec <>?s d_Path decision)
          then match_loop rest decision now matches invalidExact
          else if negb (validApproval request now)
          then match_loop rest decision now matches true
          else match_loop rest decision now (matches ++ [om_Name (req_meta request)]) invalidExact
      end
  end.

Definition matchAccessGrantObjects (objects : list (option (Unstructured SandboxAccessRequest)))
  (decision : Decision) (now : Time) : result (string * string * bool) :=
  r <-! match_loop objects decision now [] false ;;
  match r with
  | ([], true) => Ok ("", "matching access request is malformed, stale, or expired", false)
  | ([], false) => Ok ("", "no matching approved access request", false)
  | ([name], _) => Ok (name, "", true)
  | (_, _) => Ok ("", "multiple approved access requests match exact target", false)
  end.

Definition matchAccessGrant (caches : Caches) (decision : Decision) (now : Time)
  : result (string * string * bool) :=
  objects <-! ca_accessRequestsByAssignmentUID caches (d_AssignmentUID decision) ;;
  matchAccessGrantObjects objects decision now.

(** ** Caches of compiled programs and of reviewed tokens *)

Definition with_programs (p : gmap string cel_Program) (s : CheckerState) : CheckerState := {|
  cs_programs := p; cs_tokens := cs_tokens s;
  cs_lastFreshUnixNano := cs_lastFreshUnixNano s; cs_metrics := cs_metrics s |}.
Definition with_tokens (t : gmap string cachedIdentity) (s : CheckerState) : CheckerState := {|
  cs_programs := cs_programs s; cs_tokens := t;
  cs_lastFreshUnixNano := cs_lastFreshUnixNano s; cs_metrics := cs_metrics s |}.
Definition with_lastFresh (z : Z) (s : CheckerState) : CheckerState := {|
  cs_programs := cs_programs s; cs_tokens := cs_tokens s;
  cs_lastFreshUnixNano := z; cs_metrics := cs_metrics s |}.
Definition counted (k : Counter) (s : CheckerState) : CheckerState := {|
  cs_programs := cs_programs s; cs_tokens := cs_tokens s;
  cs_lastFreshUnixNano := cs_lastFreshUnixNano s; cs_metrics := count k (cs_metrics s) |}.

(** Insertion into a bounded map that is emptied when it is full. *)
Definition bounded_insert {A} (limit : nat) (k : string) (v : A) (m : gmap string A) : gmap string A :=
  <[k := v]> (if Nat.leb limit (size m) then ∅ else m).

Definition program_key (bundleUID revision backend : string) : string :=
  bundleUID +:+ nul +:+ revision +:+ nul +:+ backend.

Definition program (c : CheckerConfig) (s : CheckerState)
  (bundleUID revision backend expression : string) : result cel_Program * CheckerState :=
  let key := program_key bundleUID revision backend in
  match cs_programs s !! key with
  | Some p => (Ok p, s)
  | None =>
      match cel_Compile (cc_celEnv c) expression with
      | Err e => (Err e, s)
      | Ok ast =>
          if negb (cel_OutputIsBool ast) then (Err (ErrMsg "allow expression must return bool"), s)
          else match cel_MakeProgram (cc_celEnv c) ast celRuntimeCostLimit with
          | Err e => (Err e, s)
          | Ok p => (Ok p, with_programs (bounded_insert maxCompiledPrograms key p (cs_programs s)) s)
          end
      end
  end.

(** The identity a TokenReview status stands for, or why it is refused. *)
Definition identity_of_review (c : CheckerConfig) (status : TokenReviewStatus)
  : reviewedIdentity + string :=
  if negb (trs_Authenticated status) || (trs_Error status <>?s "")
     || negb (contains (cc_audience c) (trs_Audiences status))
  then inr "TokenReview rejected identity"
  else
    let username := TrimPrefix (trs_Username status) serviceAccountPrefix in
    match split_byte ":" username with
    | [namespace; serviceAccount] =>
        if username =?s trs_Username status then inr "token is not a ServiceAccount identity"
        else match default [] (trs_Extra status !! podNameExtra),
                   default [] (trs_Extra status !! podUIDExtra) with
        | [podName], [podUID] =>
            if (podName =?s "") || (podUID =?s "") then inr "token is not Pod-bound"
            else inl {| ri_namespace := namespace; ri_serviceAccount := serviceAccount;
                        ri_podName := podName; ri_podUID := podUID |}
        | _, _ => inr "token is not Pod-bound"
        end
    | _ => inr "token is not a ServiceAccount identity"
    end.

(** How long a reviewed identity may be served from the cache. *)
Definition cache_expiry (token : string) (now : Time) : Time :=
  let expiresAt := time_add now tokenCacheTTL in
  match jwtExpiration token with
  | Some tokenExpiry => if time_before tokenExpiry expiresAt then tokenExpiry else expiresAt
  | None => expiresAt
  end.

Definition cache_identity (tokenHash token : string) (now : Time) (ident : reviewedIdentity)
  (s : CheckerState) : CheckerState :=
  let expiresAt := cache_expiry token now in
  if time_after expiresAt now
  then with_tokens (bounded_insert maxTokenCacheEntries tokenHash
         {| cid_identity := ident; cid_expiresAt := expiresAt |} (cs_tokens s)) s
  else s.

(** [reviewToken] after a cache miss: ask the API server and remember the identity. *)
Definition review_uncached (c : CheckerConfig) (s : CheckerState) (token : string) (now : Time)
  : KProg (result (reviewedIdentity + Decision) * CheckerState) :=
  let tokenHash := sha256_hex token in
  let s := counted tokenReviews (with_tokens (delete tokenHash (cs_tokens s)) s) in
  review <-- call (TokenReviews_Create token [cc_audience c]) ;;
  match review with
  | Err e => Ret (Err e, s)
  | Ok status =>
      match identity_of_review c status with
      | inr reason => Ret (Ok (inr (reason_decision false reason)), s)
      | inl ident => Ret (Ok (inl ident), cache_identity tokenHash token now ident s)
      end
  end.

Definition reviewToken (c : CheckerConfig) (s : CheckerState) (token : string)
  : KProg (result (reviewedIdentity + Decision) * CheckerState) :=
  now <-- call time_Now ;;
  match cs_tokens s !! sha256_hex token with
  | Some cached =>
      if time_before now (cid_expiresAt cached)
      then Ret (Ok (inl (cid_identity cached)), counted tokenCacheHits s)
      else review_uncached c s token now
  | None => review_uncached c s token now
  end.

(** ** The check *)

(** An early return of [Check]: the decision and the error. *)
Definition deny {A} (reason : string) : (Decision * option error) + A :=
  inl (reason_decision false reason, None).
Definition fail {A} (e : error) : (Decision * option error) + A := inl (empty_decision, Some e).

Record Resolved := {
  rv_decision : Decision;
  rv_bundle : Unstructured CapabilityBundle;
  rv_bundleUID : string;
  rv_source : string
}.

(** Lines 239-271: the live Pod of the identity, its source address, its ServiceAccount. *)
Definition resolve_pod (c : CheckerConfig) (caches : Caches) (ident : reviewedIdentity)
  (input : CheckInput) : (Decision * option error) + string :=
  match ca_podsByUID caches (ri_podUID ident) with
  | Err e => fail e
  | Ok [pod] =>
      let meta := pod_meta pod in
      if om_deleting meta || (om_Namespace meta <>?s cc_workloadNamespace c)
         || (om_Namespace meta <>?s ri_namespace ident) || (om_Name meta <>?s ri_podName ident)
         || (om_UID meta <>?s ri_podUID ident)
         || (ps_ServiceAccountName (pod_Spec pod) <>?s ri_serviceAccount ident)
      then deny "token does not match live Pod"
      else
        let effectiveSource := if ci_DeriveSourceFromIdentity input
                               then pst_PodIP (pod_Status pod) else ci_SourceAddress input in
        if negb (match ParseAddr effectiveSource with
                 | Some sourceAddress => sourceMatchesPod (Unmap sourceAddress) pod
                 | None => false
                 end)
        then deny "request source does not match token Pod"
        else if negb (bool_decide (ps_AutomountServiceAccountToken (pod_Spec pod) = Some false))
        then deny "sandbox Pod permits token automount"
        else match ca_serviceAccountByKey caches
                     (om_Namespace meta +:+ "/" +:+ ps_ServiceAccountName (pod_Spec pod)) with
        | Err e => fail e
        | Ok None => deny "sandbox ServiceAccount is unavailable"
        | Ok (Some serviceAccount) =>
            if (map_get (om_Labels (sva_meta serviceAccount)) EligibleServiceAccountLabel <>?s "true")
               || negb (bool_decide (sva_AutomountServiceAccountToken serviceAccount = Some false))
            then deny "sandbox ServiceAccount is not eligible"
            else inr effectiveSource
        end
  | Ok _ => deny "live Pod UID is not unique"
  end.

Definition resolved_bundle_field (f : ResolvedCapabilityBundle -> string) (field : string)
  (object : Unstructured SandboxAssignment) : string :=
  nested_string object ["status"; "resolvedCapabilityBundle"; field]
    (f <$> ss_ResolvedCapabilityBundle (sa_Status (u_obj object))).

Definition governance_field (f : GovernanceBoundary -> string) (field : string)
  (bundle : Unstructured CapabilityBundle) : string :=
  nested_string bundle ["spec"; "governance"; field] (f <$> cbs_Governance (cb_Spec (u_obj bundle))).

(** Lines 273-331: the ready assignment of the Pod and its pinned capability bundle. *)
Definition resolve_bundle (c : CheckerConfig) (caches : Caches) (ident : reviewedIdentity)
  (input : CheckInput) (source : string) : (Decision * option error) + Resolved :=
  match ca_assignmentsByPodUID caches (ri_podUID ident) with
  | Err e => fail e
  | Ok [object] =>
      let meta := sa_meta (u_obj object) in
      if om_deleting meta || (map_get (om_Annotations meta) PausedAnnotation =?s "true")
         || negb (conditionTrue object "Ready")
      then deny "assignment is not ready"
      else if nested_string object ["status"; "podRef"; "uid"]
                (ref_UID <$> ss_PodRef (sa_Status (u_obj object))) <>?s ri_podUID ident
      then deny "assignment Pod UID mismatch"
      else
        let bundleName := resolved_bundle_field rcb_Name "name" object in
        let specBundleName := nested_string object ["spec"; "capabilityBundleRef"; "name"]
              (Some (cbr_Name (as_CapabilityBundleRef (sa_Spec (u_obj object))))) in
        if (bundleName =?s "") || (specBundleName <>?s bundleName)
        then deny "assignment bundle reference mismatch"
        else
          let bundleUID := resolved_bundle_field rcb_UID "uid" object in
          let bundleRevision := resolved_bundle_field rcb_PolicyRevision "policyRevision" object in
          match ca_bundleByKey caches (cc_assignmentNamespace c +:+ "/" +:+ bundleName) with
          | Err e => fail e
          | Ok None => deny "capability bundle is unavailable"
          | Ok (Some bundle) =>
              if om_deleting (cb_meta (u_obj bundle)) || (om_UID (cb_meta (u_obj bundle)) <>?s bundleUID)
              then deny "capability bundle UID mismatch"
              else match checkerPolicyRevision bundle with
              | Err e => fail e
              | Ok revision =>
                  if revision <>?s bundleRevision then deny "capability bundle revision mismatch"
                  else inr {| rv_decision := {|
                      d_Allow := false; d_Reason := ""; d_Source := DecisionSourceDeny;
                      d_AccessRequestName := "";
                      d_AssignmentName := om_Name meta; d_AssignmentUID := om_UID meta;
                      d_SandboxID := map_get (om_Annotations meta) SandboxIDAnnotation;
                      d_PodUID := ri_podUID ident; d_CapabilityBundleName := bundleName;
                      d_CapabilityBundleRevision := bundleRevision;
                      d_LogicalTenant := governance_field gb_LogicalTenant "logicalTenant" bundle;
                      d_Team := governance_field gb_Team "team" bundle;
                      d_PermissionLevel := governance_field gb_PermissionLevel "permissionLevel" bundle;
                      d_BoundaryDisplayName := governance_field gb_DisplayName "displayName" bundle;
                      d_Backend := ci_Backend input; d_Method := ci_Method input;
                      d_Host := ci_Host input; d_Path := ci_Path input |};
                    rv_bundle := bundle; rv_bundleUID := bundleUID; rv_source := source |}
              end
          end
  | Ok _ => deny "ready assignment for Pod UID is not unique"
  end.

(** The backend's allow expression in a bundle. *)
Definition backend_expression (bundle : Unstructured CapabilityBundle) (backend : string)
  : result (option string) :=
  nested bundle ["spec"; "egress"; "agentgateway"; backend; "allow"]
    (egress ← cbs_Egress (cb_Spec (u_obj bundle));
     policy ← ep_Agentgateway egress !! backend;
     Some (abp_Allow policy)).

(** Lines 368-381: the access-request overlay. *)
Definition overlay (caches : Caches) (d : Decision) (bundleReason : string) (s : CheckerState)
  : KProg (Decision * option error * CheckerState) :=
  now <-- call time_Now ;;
  match matchAccessGrant caches d now with
  | Err e => Ret (d, Some e, s)
  | Ok (requestName, _, true) =>
      Ret (decide_as d true "approved access request matched exact target"
             DecisionSourceAccessRequest requestName, None, counted grantsUsed s)
  | Ok (_, grantReason, false) => Ret (set_reason (bundleReason +:+ "; " +:+ grantReason) d, None, s)
  end.

(** Lines 333-381: the bundle's allow expression, then the overlay. *)
Definition evaluate (c : CheckerConfig) (caches : Caches) (input : CheckInput) (r : Resolved)
  (s : CheckerState) : KProg (Decision * option error * CheckerState) :=
  let d := rv_decision r in
  match backend_expression (rv_bundle r) (ci_Backend input) with
  | Err e => Ret (d, Some e, s)
  | Ok None => overlay caches d "backend is not granted" s
  | Ok (Some expression) =>
      if expression =?s "" then Ret (set_reason "backend policy is invalid" d, None, s)
      else match program c s (rv_bundleUID r) (d_CapabilityBundleRevision d) (ci_Backend input)
                   expression with
      | (Err _, s) => Ret (set_reason "backend policy is invalid" d, None, counted celErrors s)
      | (Ok p, s) =>
          match cel_Eval p {| act_backend_name := ci_Backend input; act_method := ci_Method input;
                              act_host := ci_Host input; act_path := ci_Path input;
                              act_headers := ci_Headers input;
                              act_source_address := rv_source r |} with
          | Err _ => Ret (set_reason "backend policy evaluation failed" d, None, counted celErrors s)
          | Ok (CelBool true) =>
              Ret (decide_as d true "backend allow expression returned true" DecisionSourceBundle
                     (d_AccessRequestName d), None, s)
          | Ok _ => overlay caches d "backend allow expression returned false" s
          end
      end
  end.

(** [fresh]: [time.Since] of the last successful probe. *)
Definition fresh (s : CheckerState) (now : Time) : bool :=
  negb (cs_lastFreshUnixNano s =? 0) && (time_sub now (cs_lastFreshUnixNano s) <=? freshnessLimit).

(** The body of [Check], before its deferred function. *)
Definition check_body (c : CheckerConfig) (caches : Caches) (input : CheckInput) (s : CheckerState)
  : KProg (Decision * option error * CheckerState) :=
  isFresh <-- (if cs_lastFreshUnixNano s =? 0 then Ret false
               else now <-- call time_Now ;; Ret (fresh s now)) ;;
  if negb isFresh
  then Ret (reason_decision false "authorization cache is stale", None, counted freshnessDenies s)
  else
    reviewed <-- reviewToken c s (ci_IdentityToken input) ;;
    match reviewed with
    | (Err e, s) => Ret (empty_decision, Some e, s)
    | (Ok (inr tokenDecision), s) => Ret (tokenDecision, None, s)
    | (Ok (inl ident), s) =>
        match resolve_pod c caches ident input with
        | inl (d, err) => Ret (d, err, s)
        | inr source =>
            match resolve_bundle c caches ident input source with
            | inl (d, err) => Ret (d, err, s)
            | inr resolved => evaluate c caches input resolved s
            end
        end
    end.

Context {A : Type} `{AuditSink A}.

(** The metrics of one finished check. *)
Definition count_outcome (d : Decision) (err : option error) (s : CheckerState) : CheckerState :=
  match err with
  | Some _ => counted denies (counted errors s)
  | None => if d_Allow d then counted allows s else counted denies s
  end.

(** [Check]: the body, then the deferred audit and metrics. *)
Definition Check (c : CheckerConfig) (caches : Caches) (input : CheckInput)
  (sa : CheckerState * option A) : KProg (Decision * option error * (CheckerState * option A)) :=
  let '(s, audit) := sa in
  r <-- check_body c caches input s ;;
  let '(d, err, s) := r in
  match audit with
  | Some sink =>
      if d_AssignmentUID d <>?s "" then
        recorded <-- AuditSink_Record d sink ;;
        match recorded with
        | (Err auditErr, sink) =>
            if d_Allow d then
              let d := decide_as d false "authorization audit is unavailable" (d_Source d)
                         (d_AccessRequestName d) in
              let err := Some (ErrWrap "record authorization decision" auditErr) in
              Ret (d, err, (count_outcome d err s, Some sink))
            else Ret (d, err, (count_outcome d err s, Some sink))
        | (Ok _, sink) => Ret (d, err, (count_outcome d err s, Some sink))
        end
      else Ret (d, err, (count_outcome d err s, audit))
  | None => Ret (d, err, (count_outcome d err s, None))
  end.

(** ** Freshness probes *)

Definition limit_one : ListOptions := {| lo_LabelSelector := None; lo_Limit := 1 |}.

Definition probeFreshness (c : CheckerConfig) : KProg (result unit) :=
  _ <-? call (List Assignments (cc_assignmentNamespace c) limit_one) ;;
  _ <-? call (List Bundles (cc_assignmentNamespace c) limit_one) ;;
  _ <-? call (List AccessRequests (cc_assignmentNamespace c) limit_one) ;;
  _ <-? call (List Pods (cc_workloadNamespace c) limit_one) ;;
  _ <-? call (List ServiceAccounts (cc_workloadNamespace c) limit_one) ;;
  Ret (Ok tt).

(** One tick of [freshnessLoop]. *)
Definition freshness_tick (c : CheckerConfig) (s : CheckerState) : KProg CheckerState :=
  r <-- probeFreshness c ;;
  match r with
  | Ok _ => now <-- call time_Now ;; Ret (with_lastFresh now s)
  | Err _ => Ret s
  end.

End checker.

(** ** What a successful resolution establishes *)

Section resolution.
Context `{UnicodeTables} `{K8sValidation} `{UuidLib} `{Sha256} `{CelLib} `{JwtUnverified}.

(** The token's identity is that of one live, isolated Pod of the workload namespace whose
    address is the request's source, run by an eligible ServiceAccount. *)
Record pod_bound (c : CheckerConfig) (caches : Caches) (ident : reviewedIdentity)
  (input : CheckInput) (source : string) (pod : Pod) (account : ServiceAccount) : Prop := {
  pb_unique : ca_podsByUID caches (ri_podUID ident) = Ok [pod];
  pb_live : om_DeletionTimestamp (pod_meta pod) = None;
  pb_namespace : om_Namespace (pod_meta pod) = cc_workloadNamespace c;
  pb_identity : om_Namespace (pod_meta pod) = ri_namespace ident /\
    om_Name (pod_meta pod) = ri_podName ident /\ om_UID (pod_meta pod) = ri_podUID ident /\
    ps_ServiceAccountName (pod_Spec pod) = ri_serviceAccount ident;
  pb_source : source = (if ci_DeriveSourceFromIdentity input
                        then pst_PodIP (pod_Status pod) else ci_SourceAddress input);
  pb_address : exists a ip, ParseAddr source = Some a /\ ParseAddr ip <> None /\
    (ip = pst_PodIP (pod_Status pod) \/ ip ∈ pst_PodIPs (pod_Status pod)) /\
    Unmap <$> ParseAddr ip = Some (Unmap a);
  pb_automount : ps_AutomountServiceAccountToken (pod_Spec pod) = Some false;
  pb_account : ca_serviceAccountByKey caches
    (om_Namespace (pod_meta pod) +:+ "/" +:+ ps_ServiceAccountName (pod_Spec pod)) = Ok (Some account);
  pb_eligible : map_get (om_Labels (sva_meta account)) EligibleServiceAccountLabel = "true" /\
    sva_AutomountServiceAccountToken account = Some false
}.

(** The Pod has exactly one ready, unpaused assignment, and the bundle it resolved to is
    the stored one at the pinned revision. *)
Record bundle_pinned (c : CheckerConfig) (caches : Caches) (ident : reviewedIdentity)
  (object : Unstructured SandboxAssignment) (bundle : Unstructured CapabilityBundle)
  (d : Decision) : Prop := {
  bp_unique : ca_assignmentsByPodUID caches (ri_podUID ident) = Ok [object];
  bp_live : om_DeletionTimestamp (sa_meta (u_obj object)) = None;
  bp_unpaused : map_get (om_Annotations (sa_meta (u_obj object))) PausedAnnotation <> "true";
  bp_ready : conditionTrue object "Ready" = true;
  bp_pod : nested_string object ["status"; "podRef"; "uid"]
    (ref_UID <$> ss_PodRef (sa_Status (u_obj object))) = ri_podUID ident;
  bp_bundle : ca_bundleByKey caches
    (cc_assignmentNamespace c +:+ "/" +:+ d_CapabilityBundleName d) = Ok (Some bundle);
  bp_name : d_CapabilityBundleName d <> "" /\
    d_CapabilityBundleName d = resolved_bundle_field rcb_Name "name" object /\
    nested_string object ["spec"; "capabilityBundleRef"; "name"]
      (Some (cbr_Name (as_CapabilityBundleRef (sa_Spec (u_obj object))))) = d_CapabilityBundleName d;
  bp_bundle_live : om_DeletionTimestamp (cb_meta (u_obj bundle)) = None;
  bp_uid : om_UID (cb_meta (u_obj bundle)) = resolved_bundle_field rcb_UID "uid" object;
  bp_revision : checkerPolicyRevision bundle = Ok (d_CapabilityBundleRevision d);
  bp_revision_status :
    d_CapabilityBundleRevision d = resolved_bundle_field rcb_PolicyRevision "policyRevision" object;
  bp_assignment : d_AssignmentName d = om_Name (sa_meta (u_obj object)) /\
    d_AssignmentUID d = om_UID (sa_meta (u_obj object)) /\ d_PodUID d = ri_podUID ident
}.

Lemma om_deleting_false m : om_deleting m = false <-> om_DeletionTimestamp m = None.
Proof.
  unfold om_deleting. rewrite bool_decide_eq_false. destruct (om_DeletionTimestamp m); [|naive_solver].
  split; [|done]. intros Hd. by destruct Hd.
Qed.

Lemma sourceMatchesPod_true a pod :
  sourceMatchesPod a pod = true ->
  exists ip, ParseAddr ip <> None /\
    (ip = pst_PodIP (pod_Status pod) \/ ip ∈ pst_PodIPs (pod_Status pod)) /\
    Unmap <$> ParseAddr ip = Some a.
Proof.
  unfold sourceMatchesPod. rewrite orb_true_iff, existsb_exists.
  intros [(ip & Hin & Hm)|Hm]; case_match eqn:Ep; try done; bool_to_prop; subst.
  - exists ip. rewrite Ep. rewrite <- list_elem_of_In in Hin. naive_solver.
  - exists (pst_PodIP (pod_Status pod)). rewrite Ep. naive_solver.
Qed.

Lemma resolve_pod_inr c caches ident input source :
  resolve_pod c caches ident input = inr source ->
  exists pod account, pod_bound c caches ident input source pod account.
Proof.
  unfold resolve_pod. intros Hr. destruct (ca_podsByUID _ _) as [[|pod [|? ?]]|] eqn:Ep; try done.
  case_match eqn:Ek; [done|]. case_match eqn:Es; [done|]. case_match eqn:Ea; [done|].
  destruct (ca_serviceAccountByKey _ _) as [[account|]|] eqn:Eacc; try done.
  case_match eqn:Ee; [done|]. injection Hr as <-. bool_to_prop.
  destruct (ParseAddr _) as [addr|] eqn:Epa in Es; [|done].
  apply sourceMatchesPod_true in Es as (ip & Hip). exists pod, account.
  constructor; rewrite <- ?om_deleting_false; eauto 10.
Qed.

Lemma resolve_bundle_inr c caches ident input source r :
  resolve_bundle c caches ident input source = inr r ->
  exists object, bundle_pinned c caches ident object (rv_bundle r) (rv_decision r) /\
    rv_source r = source /\ rv_bundleUID r = om_UID (cb_meta (u_obj (rv_bundle r))) /\
    d_Allow (rv_decision r) = false /\ d_AccessRequestName (rv_decision r) = "" /\
    d_Backend (rv_decision r) = ci_Backend input /\ d_Method (rv_decision r) = ci_Method input /\
    d_Host (rv_decision r) = ci_Host input /\ d_Path (rv_decision r) = ci_Path input.
Proof.
  unfold resolve_bundle. intros Hr.
  destruct (ca_assignmentsByPodUID _ _) as [[|object [|? ?]]|] eqn:Ea; try done.
  case_match eqn:Er; [done|]. case_match eqn:Ep; [done|]. case_match eqn:En; [done|].
  destruct (ca_bundleByKey _ _) as [[bundle|]|] eqn:Eb; try done.
  case_match eqn:Eu; [done|]. destruct (checkerPolicyRevision bundle) as [rev|] eqn:Erev; [|done].
  case_match eqn:Erv; [done|]. injection Hr as <-. bool_to_prop. subst.
  exists object. cbn. split_and!; try done.
  constructor; cbn; rewrite <- ?om_deleting_false; auto.
Qed.

End resolution.

(** ** Access-request overlay *)

Section overlay_proofs.
Context `{UnicodeTables} `{K8sValidation} `{UuidLib}.

(** The approval is by a valid identity, carries a reason, has begun and not ended, and spans
    no more than the requested duration (at most eight hours). *)
Definition approval_active (request : SandboxAccessRequest) (now : Time) : Prop :=
  exists approver approvedAt expiresAt,
    rst_Approver (req_Status request) = Some approver /\ identity_ok approver /\
    TrimSpace (rst_DecisionReason (req_Status request)) <> "" /\
    rst_ApprovedAt (req_Status request) = Some approvedAt /\
    rst_ExpiresAt (req_Status request) = Some expiresAt /\
    approvedAt <= now < expiresAt /\
    expiresAt - approvedAt <= rs_RequestedDurationSeconds (req_Spec request) * Second /\
    expiresAt - approvedAt <= MaximumRequestedDuration.

Lemma validApproval_iff request now :
  60 <= rs_RequestedDurationSeconds (req_Spec request) <= 8 * 3600 ->
  validApproval request now = true <-> approval_active request now.
Proof.
  intros Hd. assert (in_int32 (rs_RequestedDurationSeconds (req_Spec request))) as H32
    by (unfold in_int32; lia).
  unfold validApproval, approval_active.
  destruct (rst_Approver _) as [approver|]; [|naive_solver].
  destruct (rst_ApprovedAt _) as [at'|]; [|naive_solver].
  destruct (rst_ExpiresAt _) as [ex|]; [|naive_solver].
  rewrite dur_mul_seconds_int32 by done.
  assert (is_ok (ValidateIdentity approver) = true <-> identity_ok approver) as Hi.
  { rewrite <- (ValidateIdentity_ok approver tt). destruct (ValidateIdentity approver) as [[]|]; naive_solver. }
  unfold time_after, time_sub, MaximumRequestedDuration, Hour, Minute, Second, min_int64, max_int64 in *.
  split.
  - case_match eqn:E; [done|]. apply orb_false_iff in E as [Eid Er].
    apply negb_false_iff, Hi in Eid. intros Hv. bool_to_prop.
    exists approver, at', ex. split_and!; try done; lia.
  - intros (a & b & e & [= <-] & Ha & Hr & [= <-] & [= <-] & Hn & H1' & H2').
    apply Hi in Ha as ->. apply seqb_neq in Hr as ->. cbn [negb orb].
    rewrite !andb_true_iff, negb_true_iff, !Z.ltb_lt, Z.ltb_ge, !Z.leb_le. lia.
Qed.

(** A request that grants the decision's exact target to its exact assignment, Pod and
    policy revision. *)
Record active_grant (d : Decision) (now : Time) (object : Unstructured SandboxAccessRequest) : Prop := {
  ag_live : om_DeletionTimestamp (req_meta (u_obj object)) = None;
  ag_state : rst_State (req_Status (u_obj object)) = SandboxAccessRequestApproved;
  ag_assignment : rs_AssignmentRef (req_Spec (u_obj object)) =
    {| ar_Name := d_AssignmentName d; ar_UID := d_AssignmentUID d |};
  ag_pod : rs_PodUID (req_Spec (u_obj object)) = d_PodUID d;
  ag_revision : rs_BasePolicyRevision (req_Spec (u_obj object)) = d_CapabilityBundleRevision d;
  ag_spec : access_request_ok (req_Spec (u_obj object));
  ag_target : rs_Backend (req_Spec (u_obj object)) = d_Backend d /\
    rs_Method (req_Spec (u_obj object)) = d_Method d /\
    rs_Host (req_Spec (u_obj object)) = d_Host d /\ rs_Path (req_Spec (u_obj object)) = d_Path d;
  ag_approval : approval_active (u_obj object) now
}.

(** The boolean form computed by one iteration. *)
Definition grants (d : Decision) (now : Time) (object : Unstructured SandboxAccessRequest) : bool :=
  let spec := req_Spec (u_obj object) in
  negb (om_deleting (req_meta (u_obj object)))
  && (rst_State (req_Status (u_obj object)) =?s SandboxAccessRequestApproved)
  && (ar_UID (rs_AssignmentRef spec) =?s d_AssignmentUID d)
  && (ar_Name (rs_AssignmentRef spec) =?s d_AssignmentName d)
  && (rs_PodUID spec =?s d_PodUID d)
  && (rs_BasePolicyRevision spec =?s d_CapabilityBundleRevision d)
  && is_ok (ValidateAccessRequestSpec spec)
  && (rs_Backend spec =?s d_Backend d) && (rs_Method spec =?s d_Method d)
  && (rs_Host spec =?s d_Host d) && (rs_Path spec =?s d_Path d)
  && validApproval (u_obj object) now.

Lemma grants_iff d now object :
  in_int32 (rs_RequestedDurationSeconds (req_Spec (u_obj object))) ->
  grants d now object = true <-> active_grant d now object.
Proof.
  intros H32. unfold grants. rewrite !andb_true_iff, negb_true_iff, om_deleting_false, !seqb_eq.
  assert (is_ok (ValidateAccessRequestSpec (req_Spec (u_obj object))) = true <->
          access_request_ok (req_Spec (u_obj object))) as Hs.
  { rewrite <- ValidateAccessRequestSpec_ok by done.
    destruct (ValidateAccessRequestSpec _) as [[]|]; naive_solver. }
  rewrite Hs. split.
  - intros (((((((((((Hd & Ht) & Hu) & Hn) & Hp) & Hr) & Hok) & Hb) & Hm) & Hh) & Hpa) & Hv).
    apply validApproval_iff in Hv; [|apply Hok]. constructor; try done.
    destruct (rs_AssignmentRef _); cbn in *. congruence.
  - intros [Hd Ht Ha Hp Hr Hok (Hb & Hm & Hh & Hpa) Hv]. rewrite Ha. cbn.
    apply validApproval_iff in Hv; [|apply Hok]. tauto.
Qed.

(** The candidates of a pass that grant the decision. *)
Definition granting (d : Decision) (now : Time) (objects : list (option (Unstructured SandboxAccessRequest)))
  : list (Unstructured SandboxAccessRequest) :=
  List.filter (grants d now) (omap (fun o => o) objects).

Lemma match_loop_grants d now objects ms inv ms' inv' :
  match_loop objects d now ms inv = Ok (ms', inv') ->
  ms' = ms ++ ((fun o => om_Name (req_meta (u_obj o))) <$> granting d now objects).
Proof.
  revert ms inv. induction objects as [|[object|] rest IH]; intros ms inv; cbn [match_loop]; [|..|done].
  { intros. simplify_eq. by rewrite app_nil_r. }
  unfold granting. cbn [omap list_omap List.filter]. fold (granting d now rest). unfold grants at 1.
  destruct (om_deleting _); cbn [negb andb]; [apply IH|].
  unfold FromUnstructured. destruct (u_malformed object); [|done].
  set (spec := req_Spec (u_obj object)).
  destruct (_ =?s SandboxAccessRequestApproved); cbn [negb orb andb]; [|apply IH].
  destruct (ar_UID _ =?s _); cbn [negb orb andb]; [|apply IH].
  destruct (ar_Name _ =?s _); cbn [negb orb andb]; [|apply IH].
  destruct (rs_PodUID _ =?s _); cbn [negb orb andb]; [|apply IH].
  destruct (rs_BasePolicyRevision _ =?s _); cbn [negb orb andb]; [|apply IH].
  destruct (is_ok _); cbn [negb orb andb]; [|apply IH].
  destruct (rs_Backend _ =?s _); cbn [negb orb andb]; [|apply IH].
  destruct (rs_Method _ =?s _); cbn [negb orb andb]; [|apply IH].
  destruct (rs_Host _ =?s _); cbn [negb orb andb]; [|apply IH].
  destruct (rs_Path _ =?s _); cbn [negb orb andb]; [|apply IH].
  destruct (validApproval _ _); cbn [negb]; [|apply IH].
  intros Hl%IH. by rewrite Hl, <- app_assoc.
Qed.

Lemma match_loop_total d now objects ms inv :
  Forall (fun o => exists u, o = Some u /\ u_malformed u = []) objects ->
  is_ok (match_loop objects d now ms inv) = true.
Proof.
  intros Hwf. revert ms inv.
  induction Hwf as [|o rest (u & -> & Hu) _ IH]; intros ms inv; cbn [match_loop]; [done|].
  unfold FromUnstructured. rewrite Hu. repeat case_match; auto.
Qed.

(** The overlay grants access exactly when one and only one candidate grants it. *)
Lemma matchAccessGrantObjects_granted objects d now name reason :
  matchAccessGrantObjects objects d now = Ok (name, reason, true) ->
  exists object, granting d now objects = [object] /\ name = om_Name (req_meta (u_obj object)).
Proof.
  unfold matchAccessGrantObjects. intros Hm.
  destruct (match_loop objects d now [] false) as [[ms inv]|] eqn:El; [|done]. cbn [res_bind] in Hm.
  apply match_loop_grants in El. cbn [app] in El.
  destruct ms as [|n [|? ?]]; [by destruct inv| |done]. simplify_eq.
  destruct (granting d now objects) as [|o [|? ?]]; try done. cbn in El. simplify_eq. eauto.
Qed.

End overlay_proofs.

(** ** Theorems: the overlay *)

Section overlay_theorems.
Context `{UnicodeTables} `{K8sValidation} `{UuidLib}.

Lemma filter_singleton {A} (f : A -> bool) l x :
  List.filter f l = [x] <->
  exists l1 l2, l = l1 ++ x :: l2 /\ f x = true /\ forall y, y ∈ l1 ++ l2 -> f y = false.
Proof.
  split.
  - induction l as [|y l IH]; cbn; [done|]. destruct (f y) eqn:Ey.
    + intros [= -> Hl]. exists [], l. split_and!; [done|done|]. intros z Hz.
      destruct (f z) eqn:Ez; [|done]. apply list_elem_of_In in Hz.
      assert (In z (List.filter f l)) as Hin by by apply filter_In. by rewrite Hl in Hin.
    + intros (l1 & l2 & -> & Hx & Hn)%IH. exists (y :: l1), l2. split_and!; [done|done|].
      intros z [->|Hz]%elem_of_cons; [done|]. by apply Hn.
  - intros (l1 & l2 & -> & Hx & Hn). rewrite List.filter_app. cbn. rewrite Hx.
    assert (forall l, (forall y, y ∈ l -> f y = false) -> List.filter f l = []) as E.
    { clear. induction l as [|y l IH]; intros Hf; [done|]. cbn. rewrite Hf by set_solver.
      apply IH. set_solver. }
    rewrite !E; [done|set_solver|set_solver].
Qed.

Lemma omap_id_Some {A} (l : list A) : omap (fun o => o) (Some <$> l) = l.
Proof. induction l as [|x l IH]; [done|]. cbn. by f_equal. Qed.

(** Exactly one candidate grants the decision. *)
Lemma matchAccessGrantObjects_unique requests d now name :
  Forall (fun u => u_malformed u = [] /\
            in_int32 (rs_RequestedDurationSeconds (req_Spec (u_obj u)))) requests ->
  (exists reason, matchAccessGrantObjects (Some <$> requests) d now = Ok (name, reason, true)) <->
  exists l1 object l2, requests = l1 ++ object :: l2 /\ active_grant d now object /\
    name = om_Name (req_meta (u_obj object)) /\
    forall other, other ∈ l1 ++ l2 -> ~ active_grant d now other.
Proof.
  intros Hwf. rewrite Forall_forall in Hwf.
  assert (forall o, o ∈ requests -> grants d now o = true <-> active_grant d now o) as Hg
    by (intros o Ho; apply grants_iff, Hwf, Ho).
  assert (forall object, granting d now (Some <$> requests) = [object] <->
    exists l1 l2, requests = l1 ++ object :: l2 /\ active_grant d now object /\
      forall other, other ∈ l1 ++ l2 -> ~ active_grant d now other) as Hu.
  { intros object. unfold granting. rewrite omap_id_Some, filter_singleton.
    apply exist_proper; intros l1. apply exist_proper; intros l2.
    split; intros (-> & Hx & Hn); (split_and!; [done|apply Hg; [set_solver|done]|]); intros y Hy.
    - rewrite <- Hg by set_solver. by rewrite Hn.
    - apply not_true_iff_false. rewrite Hg by set_solver. auto. }
  split.
  - intros (reason & (object & Ho & ->)%matchAccessGrantObjects_granted).
    apply Hu in Ho as (l1 & l2 & ? & ? & ?). eauto 10.
  - intros (l1 & object & l2 & Hl & Ha & -> & Hn).
    assert (granting d now (Some <$> requests) = [object]) as Ho by (apply Hu; eauto).
    unfold matchAccessGrantObjects.
    destruct (match_loop (Some <$> requests) d now [] false) as [[ms inv]|e] eqn:El.
    + apply match_loop_grants in El. rewrite Ho in El. cbn in El. subst. cbn. eauto.
    + exfalso. assert (is_ok (match_loop (Some <$> requests) d now [] false) = true) as Hok.
      { apply match_loop_total. apply Forall_forall. intros o (u & -> & Hin)%list_elem_of_fmap.
        exists u. split; [done|]. by apply Hwf. }
      by rewrite El in Hok.
Qed.

(** C6. An access request overrides a denial exactly when one candidate, and no other, is an
    active grant of the decision's exact target: approved, for this assignment, Pod and
    policy revision, well formed, and inside its approval window. *)
Theorem matchAccessGrantObjects_iff requests d now name :
  Forall (fun u => u_malformed u = [] /\
            in_int32 (rs_RequestedDurationSeconds (req_Spec (u_obj u)))) requests ->
  (exists reason, matchAccessGrantObjects (Some <$> requests) d now = Ok (name, reason, true)) <->
  exists l1 object l2, requests = l1 ++ object :: l2 /\ active_grant d now object /\
    name = om_Name (req_meta (u_obj object)) /\
    forall other, other ∈ l1 ++ l2 -> ~ active_grant d now other.
Proof. apply matchAccessGrantObjects_unique. Qed.

End overlay_theorems.

(** ** Invariant of the in-process caches *)

Definition no_nul (s : string) : Prop := contains_byte "000" s = false.

Section invariant.
Context `{UnicodeTables} `{K8sValidation} `{UuidLib} `{Sha256} `{CelLib} `{JwtUnverified}.

(** The program a backend's allow expression compiles to. *)
Definition program_for (c : CheckerConfig) (expression : string) (p : cel_Program) : Prop :=
  exists ast, cel_Compile (cc_celEnv c) expression = Ok ast /\ cel_OutputIsBool ast = true /\
    cel_MakeProgram (cc_celEnv c) ast celRuntimeCostLimit = Ok p.

Definition spec_expression (spec : CapabilityBundleSpec) (backend : string) : option string :=
  egress ← cbs_Egress spec; policy ← ep_Agentgateway egress !! backend; Some (abp_Allow policy).

(** Both caches are bounded; a compiled program is the one of the expression that the
    bundle of its key's revision declares; cached identities are Pod-bound. *)
Record checker_inv (c : CheckerConfig) (s : CheckerState) : Prop := {
  inv_programs_size : (size (cs_programs s) <= maxCompiledPrograms)%nat;
  inv_tokens_size : (size (cs_tokens s) <= maxTokenCacheEntries)%nat;
  inv_programs : forall key p, cs_programs s !! key = Some p ->
    exists uid spec revision backend expression,
      key = program_key uid revision backend /\ no_nul uid /\ no_nul revision /\
      storable spec = true /\ PolicyRevision (Some spec) = Ok revision /\
      spec_expression spec backend = Some expression /\ program_for c expression p;
  inv_tokens : forall k cached, cs_tokens s !! k = Some cached ->
    ri_podUID (cid_identity cached) <> "" /\ ri_podName (cid_identity cached) <> ""
}.

Lemma checker_inv_counted c k s : checker_inv c s -> checker_inv c (counted k s).
Proof. intros []; by constructor. Qed.

Lemma bounded_insert_size {A} limit k (v : A) m :
  (0 < limit)%nat -> (size m <= limit)%nat -> (size (bounded_insert limit k v m) <= limit)%nat.
Proof.
  intros Hl Hm. unfold bounded_insert. destruct (Nat.leb_spec limit (size m)).
  - rewrite map_size_insert, lookup_empty, map_size_empty. cbn. lia.
  - rewrite map_size_insert. destruct (m !! k); cbn; lia.
Qed.

Lemma bounded_insert_lookup {A} limit k (v : A) m j x :
  bounded_insert limit k v m !! j = Some x -> (j = k /\ x = v) \/ m !! j = Some x.
Proof.
  unfold bounded_insert. rewrite lookup_insert_Some.
  intros [[-> ->]|[_ Hx]]; [by left|]. right. case_match; [by rewrite lookup_empty in Hx|done].
Qed.

Lemma cut_at_nul a b a' b' :
  no_nul a -> no_nul a' -> a +:+ nul +:+ b = a' +:+ nul +:+ b' -> a = a' /\ b = b'.
Proof.
  unfold no_nul. change (nul +:+ b) with (String "000" b). change (nul +:+ b') with (String "000" b').
  revert a'. induction a as [|x a IH]; intros [|y a'] Ha Ha'.
  - change ("" +:+ ?t) with t. intros E. by injection E as ->.
  - rewrite string_app_cons. change ("" +:+ ?t) with t. intros E. by injection E as <- _.
  - rewrite string_app_cons. change ("" +:+ ?t) with t. intros E. by injection E as -> _.
  - rewrite !string_app_cons. intros E. injection E as -> E.
    assert (forall t, contains_byte "000" (String y t) = false -> contains_byte "000" t = false) as Ht.
    { intros t. unfold contains_byte, string_existsb. cbn. rewrite !negb_false_iff, andb_true_iff. tauto. }
    destruct (IH a') as [-> ->]; auto.
Qed.

Lemma program_key_inj u r b u' r' b' :
  no_nul u -> no_nul r -> no_nul u' -> no_nul r' ->
  program_key u r b = program_key u' r' b' -> u = u' /\ r = r' /\ b = b'.
Proof.
  unfold program_key. intros Hu Hr Hu' Hr' E. apply cut_at_nul in E as [-> E]; [|done|done].
  apply cut_at_nul in E as [-> ->]; done.
Qed.

(** A bundle whose expression can be read has a readable spec. *)
Lemma backend_expression_spec bundle backend expression :
  backend_expression bundle backend = Ok (Some expression) ->
  checkerPolicyRevision bundle = PolicyRevision (Some (cb_Spec (u_obj bundle))) /\
  spec_expression (cb_Spec (u_obj bundle)) backend = Some expression.
Proof.
  unfold backend_expression, checkerPolicyRevision, nested.
  destruct (path_malformed bundle _) eqn:E; [done|]. intros [= Hx].
  assert (path_malformed bundle ["spec"] = false) as ->; [|done].
  apply not_true_iff_false. intros Hm. apply not_true_iff_false in E. apply E.
  unfold path_malformed in *. apply existsb_exists in Hm as (p & Hin & Hp).
  apply existsb_exists. exists p. split; [done|]. bool_to_prop.
  apply bool_decide_eq_true_2. etrans; [exact Hp|]. by exists ["egress"; "agentgateway"; backend; "allow"].
Qed.

(** A revision is printable. *)
Lemma hex_no_nul s : no_nul (hex_EncodeToString s).
Proof.
  induction s as [|c s IH]; [done|]. unfold no_nul. cbn. rewrite !contains_byte_cons.
  assert (forall n, (n < 16)%N -> hex_lower n <> "000"%char) as Hx.
  { intros n Hn E. apply (f_equal hex_digit_value) in E. by rewrite hex_lower_value in E. }
  rewrite !bool_decide_false; [done|apply Hx, N.mod_lt; lia|apply Hx, N.Div0.div_lt_upper_bound].
  change (byte c < 256)%N. apply N_ascii_bounded.
Qed.

Lemma revision_text (s : CapabilityBundleSpec) r : PolicyRevision (Some s) = Ok r -> no_nul r.
Proof. rewrite PolicyRevision_text. intros [= <-]. exact (hex_no_nul _). Qed.

Lemma program_spec c s uid spec revision backend expression p s' :
  Inj (=) (=) sha256_hex -> storable spec = true -> checker_inv c s -> no_nul uid ->
  PolicyRevision (Some spec) = Ok revision -> spec_expression spec backend = Some expression ->
  program c s uid revision backend expression = (Ok p, s') ->
  program_for c expression p /\ checker_inv c s'.
Proof.
  intros Hinj Hsto Hinv Hu Hrev Hex. pose proof (revision_text _ _ Hrev) as Htext. unfold program. destruct (cs_programs s !! _) as [q|] eqn:El.
  - intros [= <- <-]. split; [|done].
    destruct (inv_programs _ _ Hinv _ _ El) as (u & sp & r & b & ex & Hk & Hnu & Hnr & Hss & Hpr & Hse & Hpf).
    apply program_key_inj in Hk as (<- & <- & <-); eauto.
    assert (spec = sp) as <- by eauto using PolicyRevision_injective. congruence.
  - destruct (cel_Compile _ _) as [ast|] eqn:Ec; [|done].
    destruct (cel_OutputIsBool ast) eqn:Eb; [|done]. cbn [negb].
    destruct (cel_MakeProgram _ _ _) as [q|] eqn:Em; [|done]. intros [= <- <-].
    assert (program_for c expression q) as Hpf by (exists ast; eauto). split; [done|].
    destruct Hinv as [Hps Hts Hp Ht]. constructor; cbn; [|done| |done].
    + apply bounded_insert_size; [unfold maxCompiledPrograms; lia|done].
    + intros key x [[-> ->]|Hx]%bounded_insert_lookup; [|eauto].
      exists uid, spec, revision, backend, expression. eauto 10.
Qed.

Lemma program_err_state c s uid revision backend expression e s' :
  program c s uid revision backend expression = (Err e, s') -> s' = s.
Proof. unfold program. repeat case_match; intros; by simplify_eq. Qed.

End invariant.

(** ** The check, step by step *)

Section check_proofs.
Context `{UnicodeTables} `{K8sValidation} `{UuidLib} `{Sha256} `{CelLib} `{JwtUnverified}.

(** Where an accepted identity comes from: an unexpired cache entry, or a TokenReview answered
    for this token and the configured audience. *)
Definition token_reviewed (c : CheckerConfig) (s : CheckerState) (token : string)
  (ident : reviewedIdentity) (tr : list KEvent) : Prop :=
  (exists now cached, Ev time_Now now ∈ tr /\ cs_tokens s !! sha256_hex token = Some cached /\
     now < cid_expiresAt cached /\ ident = cid_identity cached) \/
  (exists status, Ev (TokenReviews_Create token [cc_audience c]) (Ok status) ∈ tr /\
     identity_of_review c status = inl ident).

Lemma identity_of_review_inl c status ident :
  identity_of_review c status = inl ident ->
  trs_Authenticated status = true /\ cc_audience c ∈ trs_Audiences status /\
  trs_Username status =
    serviceAccountPrefix +:+ ri_namespace ident +:+ ":" +:+ ri_serviceAccount ident /\
  trs_Extra status !! podNameExtra = Some [ri_podName ident] /\
  trs_Extra status !! podUIDExtra = Some [ri_podUID ident] /\
  ri_podUID ident <> "" /\ ri_podName ident <> "".
Proof.
  unfold identity_of_review. intros Hi. case_match eqn:Ea; [done|].
  destruct (split_byte ":" _) as [|ns [|sa [|? ?]]] eqn:Es; try done.
  case_match eqn:Eu; [done|].
  destruct (trs_Extra status !! podNameExtra) as [[|pn [|? ?]]|] eqn:En; try done.
  destruct (trs_Extra status !! podUIDExtra) as [[|pu [|? ?]]|] eqn:Epu; try done.
  cbn in Hi. case_match eqn:Ee; [done|]. injection Hi as <-. cbn. bool_to_prop.
  split_and!; try done. unfold TrimPrefix in *.
  destruct (CutPrefix (trs_Username status) serviceAccountPrefix) as [rest|] eqn:Ec; [|done].
  cbn in Es, Eu. apply CutPrefix_Some in Ec. rewrite Ec. f_equal.
  by rewrite <- (split_byte_join ":" rest), Es.
Qed.

Lemma cache_identity_inv c h token now ident s :
  checker_inv c s -> ri_podUID ident <> "" -> ri_podName ident <> "" ->
  checker_inv c (cache_identity h token now ident s).
Proof.
  intros [Hps Hts Hp Ht] Hu Hn. unfold cache_identity. case_match; [|by constructor].
  constructor; cbn; [done| |done|].
  - apply bounded_insert_size; [unfold maxTokenCacheEntries; lia|done].
  - intros k x [[-> ->]|Hx]%bounded_insert_lookup; [done|eauto].
Qed.

Lemma delete_token_inv c h s : checker_inv c s -> checker_inv c (with_tokens (delete h (cs_tokens s)) s).
Proof.
  intros [Hps Hts Hp Ht]. constructor; cbn; [done| |done|].
  - etrans; [|exact Hts]. rewrite map_size_delete. destruct (_ !! h); cbn; lia.
  - intros k x. rewrite lookup_delete_Some. intros [_ Hx]. eauto.
Qed.

(** Taking a review apart: which identity it accepts, and that it keeps the invariant. *)
Lemma review_uncached_run c s token now tr r s' :
  run (review_uncached c s token now) tr (r, s') ->
  (forall ident, r = Ok (inl ident) ->
     exists status, Ev (TokenReviews_Create token [cc_audience c]) (Ok status) ∈ tr /\
       identity_of_review c status = inl ident) /\
  (forall d, r = Ok (inr d) -> d_Allow d = false /\ d_AssignmentUID d = "") /\
  (checker_inv c s -> checker_inv c s').
Proof.
  unfold review_uncached. intros Hr. run_step Hr. destruct a as [status|e].
  - destruct (identity_of_review c status) as [ident|reason] eqn:Ei; run_step Hr.
    + split_and!; [|done|].
      * intros i [= <-]. exists status. split; [apply elem_of_cons; by left|done].
      * intros Hinv. destruct (identity_of_review_inl _ _ _ Ei) as (_&_&_&_&_&?&?).
        apply cache_identity_inv; [by apply checker_inv_counted, delete_token_inv|done|done].
    + split_and!; [done|by intros d [= <-]|]. intros. by apply checker_inv_counted, delete_token_inv.
  - run_step Hr. split_and!; [done|done|]. intros. by apply checker_inv_counted, delete_token_inv.
Qed.

Lemma reviewToken_run c s token tr r s' :
  run (reviewToken c s token) tr (r, s') ->
  (forall ident, r = Ok (inl ident) -> token_reviewed c s token ident tr) /\
  (forall d, r = Ok (inr d) -> d_Allow d = false /\ d_AssignmentUID d = "") /\
  (checker_inv c s -> checker_inv c s').
Proof.
  unfold reviewToken. intros Hr. run_step Hr.
  assert (run (review_uncached c s token a) tr1 (r, s') ->
    (forall ident, r = Ok (inl ident) -> token_reviewed c s token ident ([Ev time_Now a] ++ tr1)) /\
    (forall d, r = Ok (inr d) -> d_Allow d = false /\ d_AssignmentUID d = "") /\
    (checker_inv c s -> checker_inv c s')) as Hmiss.
  { intros (H1' & H2' & H3')%review_uncached_run. split_and!; auto.
    intros ident Hi. destruct (H1' ident Hi) as (st & Hin & ?). right. exists st. set_solver. }
  destruct (cs_tokens s !! _) as [cached|] eqn:El; [|auto].
  destruct (time_before a (cid_expiresAt cached)) eqn:Et; [|auto].
  run_step Hr. split_and!; [|done|apply checker_inv_counted].
  intros ident [= <-]. left. exists a, cached. apply Z.ltb_lt in Et. set_solver.
Qed.

(** What entitles a request to be allowed, beyond the resolution of its sandbox. *)
Inductive authorized (c : CheckerConfig) (caches : Caches) (input : CheckInput)
  (bundle : Unstructured CapabilityBundle) (source : string) (tr : list KEvent) (d : Decision) : Prop :=
  | authorized_by_bundle expression p :
      d_Source d = DecisionSourceBundle ->
      backend_expression bundle (ci_Backend input) = Ok (Some expression) -> expression <> "" ->
      program_for c expression p ->
      cel_Eval p {| act_backend_name := ci_Backend input; act_method := ci_Method input;
                    act_host := ci_Host input; act_path := ci_Path input;
                    act_headers := ci_Headers input; act_source_address := source |} =
        Ok (CelBool true) ->
      authorized c caches input bundle source tr d
  | authorized_by_request now objects object :
      d_Source d = DecisionSourceAccessRequest ->
      Ev time_Now now ∈ tr ->
      ca_accessRequestsByAssignmentUID caches (d_AssignmentUID d) = Ok objects ->
      granting d now objects = [object] ->
      d_AccessRequestName d = om_Name (req_meta (u_obj object)) ->
      authorized c caches input bundle source tr d.

(** [decide_as] keeps everything but the outcome. *)
Lemma granting_decide_as d allow reason source request now objects :
  granting (decide_as d allow reason source request) now objects = granting d now objects.
Proof. done. Qed.

Lemma overlay_run caches d reason s tr d' err s' :
  run (overlay caches d reason s) tr (d', err, s') ->
  (s' = s \/ s' = counted grantsUsed s) /\
  (d_Allow d' = true -> d_Allow d = false ->
   err = None /\ exists now objects object,
     d' = decide_as d true (d_Reason d') DecisionSourceAccessRequest (om_Name (req_meta (u_obj object))) /\
     Ev time_Now now ∈ tr /\ ca_accessRequestsByAssignmentUID caches (d_AssignmentUID d) = Ok objects /\
     granting d now objects = [object]).
Proof.
  unfold overlay. intros Hr. run_step Hr. unfold matchAccessGrant in Hr.
  destruct (ca_accessRequestsByAssignmentUID _ _) as [objects|e] eqn:Ec; cbn [res_bind] in Hr;
    [|run_step Hr; split; [by left|]; intros; congruence].
  destruct (matchAccessGrantObjects objects d a) as [[[name gr] [|]]|e] eqn:Em; run_step Hr.
  - split; [by right|]. intros _ _. split; [done|].
    apply matchAccessGrantObjects_granted in Em as (object & Hg & ->).
    exists a, objects, object. split_and!; [done|set_solver|done|done].
  - split; [by left|]. unfold set_reason, decide_as. cbn. congruence.
  - split; [by left|]. congruence.
Qed.

Lemma evaluate_run c caches input r s tr d err s' :
  Inj (=) (=) sha256_hex -> storable (cb_Spec (u_obj (rv_bundle r))) = true -> checker_inv c s -> no_nul (rv_bundleUID r) ->
  checkerPolicyRevision (rv_bundle r) = Ok (d_CapabilityBundleRevision (rv_decision r)) ->
  d_Allow (rv_decision r) = false ->
  run (evaluate c caches input r s) tr (d, err, s') ->
  checker_inv c s' /\
  (d_Allow d = true -> err = None /\
     authorized c caches input (rv_bundle r) (rv_source r) tr d /\
     d = decide_as (rv_decision r) true (d_Reason d) (d_Source d) (d_AccessRequestName d)).
Proof.
  intros Hinj Hsto Hinv Hnul Hrev Hd. unfold evaluate. intros Hr.
  assert (forall reason s1, checker_inv c s1 ->
    run (overlay caches (rv_decision r) reason s1) tr (d, err, s') ->
    checker_inv c s' /\ (d_Allow d = true -> err = None /\
      authorized c caches input (rv_bundle r) (rv_source r) tr d /\
      d = decide_as (rv_decision r) true (d_Reason d) (d_Source d) (d_AccessRequestName d))) as Hover.
  { intros reason s1 Hi1 [[->| ->] Ho]%overlay_run;
      (split; [by try apply checker_inv_counted|]); intros Ha;
      destruct (Ho Ha Hd) as (-> & now & objects & object & Ed & Hnow & Hc & Hg);
      (split_and!; [done| |by rewrite Ed]); rewrite Ed;
      by eapply authorized_by_request; rewrite ?granting_decide_as. }
  destruct (backend_expression _ _) as [[expression|]|e] eqn:Eb.
  2: by eapply Hover.
  2: run_step Hr; split; [done|congruence].
  destruct (expression =?s "") eqn:Ee.
  { run_step Hr. split; [done|]. unfold set_reason. cbn. congruence. }
  destruct (backend_expression_spec _ _ _ Eb) as [Hcr Hse]. rewrite Hcr in Hrev.
  destruct (program _ _ _ _ _ _) as [[p|e] s1] eqn:Ep.
  - eapply program_spec in Ep as [Hpf Hi1]; eauto.
    destruct (cel_Eval p _) as [[[|]|]|e] eqn:Ev; [|by eapply Hover|by eapply Hover|].
    + run_step Hr. split; [done|]. intros _. split_and!; [done| |done]. apply seqb_neq in Ee.
      by eapply authorized_by_bundle.
    + run_step Hr. split; [by apply checker_inv_counted|]. unfold set_reason. cbn. congruence.
  - apply program_err_state in Ep as ->. run_step Hr. split; [by apply checker_inv_counted|].
    unfold set_reason. cbn. congruence.
Qed.

End check_proofs.

(** ** Theorems: the check *)

Section check_theorems.
Context `{UnicodeTables} `{K8sValidation} `{UuidLib} `{Sha256} `{CelLib} `{JwtUnverified}.
Context {A : Type} `{AuditSink A}.

(** What the API server stores is valid text, and its UIDs do not contain the separator of the
    program-cache key. *)
Definition bundles_text (caches : Caches) : Prop :=
  forall key bundle, ca_bundleByKey caches key = Ok (Some bundle) ->
    no_nul (om_UID (cb_meta (u_obj bundle))) /\ storable (cb_Spec (u_obj bundle)) = true.

(** Everything an allowing decision rests on. *)
Record allow_evidence (c : CheckerConfig) (caches : Caches) (input : CheckInput) (s : CheckerState)
  (tr : list KEvent) (d : Decision) : Prop := {
  ae_fresh : exists now, Ev time_Now now ∈ tr /\ cs_lastFreshUnixNano s <> 0 /\
    now - cs_lastFreshUnixNano s <= freshnessLimit;
  ae_target : d_Backend d = ci_Backend input /\ d_Method d = ci_Method input /\
    d_Host d = ci_Host input /\ d_Path d = ci_Path input;
  ae_chain : exists ident pod account object bundle source,
    token_reviewed c s (ci_IdentityToken input) ident tr /\
    pod_bound c caches ident input source pod account /\
    bundle_pinned c caches ident object bundle d /\
    authorized c caches input bundle source tr d
}.

Lemma token_reviewed_mono c s token ident tr tr' :
  tr ⊆ tr' -> token_reviewed c s token ident tr -> token_reviewed c s token ident tr'.
Proof. intros Hsub [(now & cached & Hin & ?)|(st & Hin & ?)]; [left|right]; naive_solver. Qed.

Lemma authorized_mono c caches input bundle source tr tr' d :
  tr ⊆ tr' -> authorized c caches input bundle source tr d -> authorized c caches input bundle source tr' d.
Proof. intros Hsub []; [by eapply authorized_by_bundle|eapply authorized_by_request; eauto]. Qed.

Lemma allow_evidence_mono c caches input s tr tr' d :
  tr ⊆ tr' -> allow_evidence c caches input s tr d -> allow_evidence c caches input s tr' d.
Proof.
  intros Hsub [(now & Hn & Hl) Ht (i & p & a & o & b & src & Htr & Hp & Hb & Ha)].
  constructor; [by exists now; eauto|done|]. exists i, p, a, o, b, src.
  split_and!; try done; [by eapply token_reviewed_mono|by eapply authorized_mono].
Qed.

Lemma bundle_pinned_decide_as c caches ident object bundle d allow reason source request :
  bundle_pinned c caches ident object bundle d ->
  bundle_pinned c caches ident object bundle (decide_as d allow reason source request).
Proof. intros []. by constructor. Qed.

Lemma resolve_pod_inl c caches ident input d err :
  resolve_pod c caches ident input = inl (d, err) -> d_Allow d = false /\ d_AssignmentUID d = "".
Proof. unfold resolve_pod, deny, fail. intros. repeat case_match; by simplify_eq. Qed.

Lemma resolve_bundle_inl c caches ident input source d err :
  resolve_bundle c caches ident input source = inl (d, err) ->
  d_Allow d = false /\ d_AssignmentUID d = "".
Proof. unfold resolve_bundle, deny, fail. intros. repeat case_match; by simplify_eq. Qed.

Lemma fresh_sound s now :
  fresh s now = true -> cs_lastFreshUnixNano s <> 0 /\ now - cs_lastFreshUnixNano s <= freshnessLimit.
Proof.
  unfold fresh, time_sub, freshnessLimit, Second, min_int64, max_int64. intros. bool_to_prop. lia.
Qed.

Lemma check_body_run c caches input s tr d err s' :
  Inj (=) (=) sha256_hex -> bundles_text caches -> checker_inv c s ->
  run (check_body c caches input s) tr (d, err, s') ->
  checker_inv c s' /\ (d_Allow d = true -> err = None /\ allow_evidence c caches input s tr d).
Proof.
  intros Hinj Huids Hinv. unfold check_body. intros Hr.
  apply run_bind in Hr as (isFresh & tr1 & tr2 & -> & Hf & Hr).
  destruct isFresh; cbn [negb] in Hr;
    [|run_step Hr; split; [by apply checker_inv_counted|done]].
  assert (exists now, Ev time_Now now ∈ tr1 /\ fresh s now = true) as (now & Hnow & Hfr).
  { destruct (cs_lastFreshUnixNano s =? 0); [by destruct Hf|]. run_step Hf. run_step Hf.
    exists a. set_solver. }
  apply fresh_sound in Hfr as [Hl0 Hl].
  apply run_bind in Hr as ([r s1] & tr3 & tr4 & -> & Hrev & Hr).
  destruct (reviewToken_run _ _ _ _ _ _ Hrev) as (Hid & Hdeny & Hi1). specialize (Hi1 Hinv).
  destruct r as [[ident|td]|e]; [|run_step Hr; split; [done|]; destruct (Hdeny d eq_refl); congruence
                                 |run_step Hr; done].
  destruct (resolve_pod c caches ident input) as [[d0 e0]|source] eqn:Ep.
  { run_step Hr. apply resolve_pod_inl in Ep as [? _]. split; [done|congruence]. }
  destruct (resolve_bundle c caches ident input source) as [[d0 e0]|rv] eqn:Eb.
  { run_step Hr. apply resolve_bundle_inl in Eb as [? _]. split; [done|congruence]. }
  apply resolve_pod_inr in Ep as (pod & account & Hpod).
  apply resolve_bundle_inr in Eb as (object & Hpin & Hsrc & Huid & Hal & Han & Hb1 & Hb2 & Hb3 & Hb4).
  destruct (Huids _ _ (bp_bundle _ _ _ _ _ _ Hpin)) as [Hnul Hsto].
  eapply evaluate_run in Hr as [Hi2 Hr]; [|done|done|done| | |done].
  - split; [done|]. intros Ha. destruct (Hr Ha) as (-> & Hauth & Hd). split; [done|].
    constructor; [exists now; set_solver|rewrite Hd; done|].
    exists ident, pod, account, object, (rv_bundle rv), source. split_and!.
    + eapply token_reviewed_mono; [|by apply Hid]. set_solver.
    + done.
    + rewrite Hd. by apply bundle_pinned_decide_as.
    + rewrite <- Hsrc. eapply authorized_mono; [|exact Hauth]. set_solver.
  - by rewrite Huid.
  - apply Hpin.
Qed.

Lemma count_outcome_inv c d err s : checker_inv c s -> checker_inv c (count_outcome d err s).
Proof. intros. unfold count_outcome. repeat case_match; by repeat apply checker_inv_counted. Qed.

Lemma Check_run c caches input s audit tr d err s' audit' :
  Inj (=) (=) sha256_hex -> bundles_text caches -> checker_inv c s ->
  run (Check c caches input (s, audit)) tr (d, err, (s', audit')) ->
  checker_inv c s' /\
  (d_Allow d = true -> err = None /\ allow_evidence c caches input s tr d /\
     match audit with
     | None => True
     | Some sink => d_AssignmentUID d = "" \/
         exists tr1 tr2 sink', tr = tr1 ++ tr2 /\ run (AuditSink_Record d sink) tr2 (Ok tt, sink')
     end).
Proof.
  intros Hinj Huids Hinv. unfold Check. intros Hr.
  apply run_bind in Hr as ([[d0 err0] s0] & tr1 & tr2 & -> & Hb & Hr).
  apply check_body_run in Hb as [Hi0 Hb]; [|done..].
  assert (forall err1 s1, s' = count_outcome d err1 s0 -> checker_inv c s') as Hdone
    by (intros; subst; by apply count_outcome_inv).
  destruct audit as [sink|].
  2: { run_step Hr. split; [by eapply Hdone|]. intros Ha. destruct (Hb Ha). by rewrite app_nil_r. }
  destruct (d_AssignmentUID d0 <>?s "") eqn:Eu.
  2: { run_step Hr. split; [by eapply Hdone|]. intros Ha. destruct (Hb Ha). bool_to_prop.
       rewrite app_nil_r. auto. }
  apply run_bind in Hr as ([r sink1] & tr3 & tr4 & -> & Hrec & Hr). destruct r as [[]|auditErr].
  - run_step Hr. split; [by eapply Hdone|]. intros Ha. destruct (Hb Ha) as [-> He].
    rewrite app_nil_r. split_and!; [done|eapply allow_evidence_mono, He; set_solver|]. right.
    eauto 10.
  - destruct (d_Allow d0) eqn:Ea; run_step Hr; (split; [|cbn; congruence]).
    + by apply (count_outcome_inv c _ (Some _)).
    + by eapply Hdone.
Qed.

(** A check keeps the caches bounded and coherent. *)
Theorem Check_preserves_inv c caches input s audit tr d err s' audit' :
  Inj (=) (=) sha256_hex -> bundles_text caches -> checker_inv c s ->
  run (Check c caches input (s, audit)) tr (d, err, (s', audit')) ->
  checker_inv c s'.
Proof. intros Hinj Huids Hinv Hr. by eapply Check_run in Hr as [? _]. Qed.

(** The checker is the implementation of the interface the endpoint uses. *)
Definition kubernetes_checker (c : CheckerConfig) (caches : Caches)
  : Checker Kube (CheckerState * option A) := {| Checker_Check := Check c caches |}.

(** C1. End to end: whenever the endpoint answers allow, the request was well formed and the
    decision rests on a fresh cache, a reviewed Pod-bound token whose live Pod, address and
    ServiceAccount match, one ready assignment pinned to the stored bundle revision, and
    either the bundle's allow expression or exactly one active access request; and the
    decision has been recorded by the audit sink. *)
Theorem Server_Check_allow_sound c caches req s audit tr log s' audit' :
  Inj (=) (=) sha256_hex -> bundles_text caches -> checker_inv c s ->
  run (Server_Check (H0 := kubernetes_checker c caches) req (s, audit)) tr
      (allowedResponse, log, (s', audit')) ->
  exists input d, normalize req = Ok input /\ d_Allow d = true /\
    allow_evidence c caches input s tr d /\
    match audit with
    | None => True
    | Some sink => d_AssignmentUID d = "" \/
        exists tr1 tr2 sink', tr = tr1 ++ tr2 /\ run (AuditSink_Record d sink) tr2 (Ok tt, sink')
    end.
Proof.
  intros Hinj Huids Hinv Hr. apply Server_Check_run in Hr as [Hr|[Hbad _]]; [|done].
  destruct Hr as (_ & input & d & Hn & Hc & Ha). exists input, d.
  eapply Check_run in Hc as [_ Hc]; [|done..]. naive_solver.
Qed.

(** A stale or never synchronized cache denies, without asking for a token review. *)
Theorem Check_stale_denied c caches input s audit tr d err s' audit' :
  run (Check c caches input (s, audit)) tr (d, err, (s', audit')) ->
  (exists now, Ev time_Now now ∈ tr /\ fresh s now = true) \/
  (d = reason_decision false "authorization cache is stale" /\ err = None /\ audit' = audit /\
   (tr = [] \/ exists now, tr = [Ev time_Now now] /\ fresh s now = false)).
Proof.
  unfold Check, check_body. intros Hr.
  apply run_bind in Hr as ([[d0 err0] s0] & tr1 & tr2 & -> & Hb & Hr).
  apply run_bind in Hb as (isFresh & tr3 & tr4 & -> & Hf & Hb).
  assert ((isFresh = true /\ exists now, Ev time_Now now ∈ tr3 /\ fresh s now = true) \/
    (isFresh = false /\ (tr3 = [] \/ exists now, tr3 = [Ev time_Now now] /\ fresh s now = false)))
    as [(-> & now & Hin & Hfr)|[-> Htr]].
  { destruct (cs_lastFreshUnixNano s =? 0); [destruct Hf as [-> <-]; auto|].
    run_step Hf. run_step Hf. destruct (fresh s a) eqn:Ef; [left|right]; split; try done.
    - exists a. set_solver.
    - right. by exists a. }
  - left. exists now. set_solver.
  - right. cbn [negb] in Hb. run_step Hb. destruct audit as [sink|];
      cbn in Hr; destruct Hr as [-> Hr]; simplify_eq; rewrite !app_nil_r; auto.
Qed.

End check_theorems.

(** ** Theorems: the token cache and the counters *)

Section cache_theorems.
Context `{UnicodeTables} `{K8sValidation} `{UuidLib} `{Sha256} `{CelLib} `{JwtUnverified}.

Lemma cache_expiry_bound token now :
  cache_expiry token now <= now + tokenCacheTTL /\
  forall expiry, jwtExpiration token = Some expiry -> cache_expiry token now <= expiry.
Proof.
  unfold cache_expiry, time_add, time_before. destruct (jwtExpiration token) as [t|]; [|by split; [lia|]].
  split; [|intros e [= <-]]; case_match; bool_to_prop; lia.
Qed.

(** C30. A reviewed identity enters the cache only for this token's hash, and is served for at most
    thirty seconds and never beyond the expiry the token itself declares. *)
Theorem reviewToken_cache_bound c s token tr r s' k cached :
  run (reviewToken c s token) tr (r, s') -> cs_tokens s' !! k = Some cached ->
  cs_tokens s !! k = Some cached \/
  (k = sha256_hex token /\ exists now, Ev time_Now now ∈ tr /\
     now < cid_expiresAt cached <= now + tokenCacheTTL /\
     (forall expiry, jwtExpiration token = Some expiry -> cid_expiresAt cached <= expiry) /\
     exists status, Ev (TokenReviews_Create token [cc_audience c]) (Ok status) ∈ tr /\
       identity_of_review c status = inl (cid_identity cached)).
Proof.
  unfold reviewToken. intros Hr Hk. run_step Hr.
  assert (run (review_uncached c s token a) tr1 (r, s') ->
    cs_tokens s !! k = Some cached \/ (k = sha256_hex token /\ exists now,
     Ev time_Now now ∈ [Ev time_Now a] ++ tr1 /\
     now < cid_expiresAt cached <= now + tokenCacheTTL /\
     (forall expiry, jwtExpiration token = Some expiry -> cid_expiresAt cached <= expiry) /\
     exists status, Ev (TokenReviews_Create token [cc_audience c]) (Ok status) ∈ [Ev time_Now a] ++ tr1 /\
       identity_of_review c status = inl (cid_identity cached))) as Hmiss.
  { clear Hr. intros Hr. unfold review_uncached in Hr. run_step Hr.
    assert (cs_tokens (counted tokenReviews (with_tokens (delete (sha256_hex token) (cs_tokens s)) s)) !! k
              = Some cached -> cs_tokens s !! k = Some cached) as Hdel
      by (cbn; rewrite lookup_delete_Some; tauto).
    destruct a0 as [status|e]; [|run_step Hr; auto].
    destruct (identity_of_review c status) as [ident|reason] eqn:Ei; run_step Hr; [|auto].
    unfold cache_identity in Hk. destruct (time_after _ _) eqn:Ea; [|auto].
    cbn in Hk. apply bounded_insert_lookup in Hk as [[-> ->]|Hk]; [|auto]. right. split; [done|].
    exists a. unfold time_after in Ea. bool_to_prop.
    destruct (cache_expiry_bound token a) as [Hle Hjwt]. cbn.
    split_and!; [set_solver|done|done|done|]. exists status. set_solver. }
  destruct (cs_tokens s !! sha256_hex token) as [x|]; [|auto].
  destruct (time_before _ _); [|auto]. run_step Hr. by left.
Qed.

(** The counters of outcomes that only the deferred function touches. *)
Definition outcomes (s : CheckerState) : Z * Z * Z :=
  (cm_allows (cs_metrics s), cm_denies (cs_metrics s), cm_errors (cs_metrics s)).

(** These, and the time of the last freshness probe, are what the body of a check keeps. *)
Definition kept (s : CheckerState) : Z * Z * Z * Z := (outcomes s, cs_lastFreshUnixNano s).

Lemma reviewToken_kept c s token tr r s' :
  run (reviewToken c s token) tr (r, s') -> kept s' = kept s.
Proof.
  unfold reviewToken. intros Hr. run_step Hr.
  assert (run (review_uncached c s token a) tr1 (r, s') -> kept s' = kept s) as Hmiss.
  { clear Hr. intros Hr. unfold review_uncached in Hr. run_step Hr.
    destruct a0 as [status|e]; [|by run_step Hr].
    destruct (identity_of_review c status); run_step Hr; [|done].
    unfold cache_identity. by case_match. }
  destruct (cs_tokens s !! _); [|auto]. destruct (time_before _ _); [|auto]. by run_step Hr.
Qed.

Lemma program_kept c s u r b e : kept (program c s u r b e).2 = kept s.
Proof. unfold program. by repeat case_match. Qed.

Lemma overlay_kept caches d reason s tr d' err s' :
  run (overlay caches d reason s) tr (d', err, s') -> kept s' = kept s.
Proof. by intros [[->| ->] _]%overlay_run. Qed.

Lemma evaluate_kept c caches input r s tr d err s' :
  run (evaluate c caches input r s) tr (d, err, s') -> kept s' = kept s.
Proof.
  unfold evaluate. intros Hr. destruct (backend_expression _ _) as [[expression|]|e];
    [|by apply overlay_kept in Hr|by run_step Hr].
  destruct (expression =?s ""); [by run_step Hr|].
  pose proof (program_kept c s (rv_bundleUID r)
    (d_CapabilityBundleRevision (rv_decision r)) (ci_Backend input) expression) as Hp.
  destruct (program _ _ _ _ _ _) as [[p|e] s1]; cbn in Hp; rewrite <- Hp; [|by run_step Hr].
  destruct (cel_Eval p _) as [[[|]|]|e]; try (by run_step Hr); by apply overlay_kept in Hr as ->.
Qed.

Lemma check_body_kept c caches input s tr d err s' :
  run (check_body c caches input s) tr (d, err, s') -> kept s' = kept s.
Proof.
  unfold check_body. intros Hr. apply run_bind in Hr as (isFresh & tr1 & tr2 & -> & _ & Hr).
  destruct isFresh; cbn [negb] in Hr; [|by run_step Hr].
  apply run_bind in Hr as ([r s1] & tr3 & tr4 & -> & Hrev & Hr).
  apply reviewToken_kept in Hrev. rewrite <- Hrev.
  destruct r as [[ident|td]|e]; [|by run_step Hr|by run_step Hr].
  destruct (resolve_pod _ _ _ _) as [[? ?]|source]; [by run_step Hr|].
  destruct (resolve_bundle _ _ _ _ _) as [[? ?]|rv]; [by run_step Hr|].
  by apply evaluate_kept in Hr as ->.
Qed.

(** Every check is counted exactly once: as an allow, as a denial, or as an error that is
    also a denial; an error never leaves an allowing decision. *)
Theorem Check_counted_once {A} `{AuditSink A} c caches input s audit tr d err s' audit' :
  run (Check c caches input (s, audit)) tr (d, err, (s', audit')) ->
  outcomes s' = match err with
                | Some _ => (cm_allows (cs_metrics s), inc (cm_denies (cs_metrics s)), inc (cm_errors (cs_metrics s)))
                | None => if d_Allow d
                          then (inc (cm_allows (cs_metrics s)), cm_denies (cs_metrics s), cm_errors (cs_metrics s))
                          else (cm_allows (cs_metrics s), inc (cm_denies (cs_metrics s)), cm_errors (cs_metrics s))
                end.
Proof.
  unfold Check. intros Hr. apply run_bind in Hr as ([[d0 err0] s0] & tr1 & tr2 & -> & Hb & Hr).
  apply check_body_kept in Hb. unfold kept, outcomes in Hb. injection Hb as Ha Hd He _.
  rewrite <- Ha, <- Hd, <- He. clear Ha Hd He.
  assert (forall d err, outcomes (count_outcome d err s0) = match err with
    | Some _ => (cm_allows (cs_metrics s0), inc (cm_denies (cs_metrics s0)), inc (cm_errors (cs_metrics s0)))
    | None => if d_Allow d
              then (inc (cm_allows (cs_metrics s0)), cm_denies (cs_metrics s0), cm_errors (cs_metrics s0))
              else (cm_allows (cs_metrics s0), inc (cm_denies (cs_metrics s0)), cm_errors (cs_metrics s0))
    end) as Hc by (intros d1 [|]; [done|]; unfold count_outcome; by destruct (d_Allow d1)).
  destruct audit as [sink|]; [|run_step Hr; apply Hc].
  destruct (_ <>?s ""); [|run_step Hr; apply Hc].
  apply run_bind in Hr as ([[[]|auditErr] sink1] & tr3 & tr4 & -> & _ & Hr); [run_step Hr; apply Hc|].
  destruct (d_Allow d0); run_step Hr; [apply (Hc _ (Some _))|apply Hc].
Qed.

Lemma Check_lastFresh {A} `{AuditSink A} c caches input s audit tr d err s' audit' :
  run (Check c caches input (s, audit)) tr (d, err, (s', audit')) ->
  cs_lastFreshUnixNano s' = cs_lastFreshUnixNano s.
Proof.
  unfold Check. intros Hr. apply run_bind in Hr as ([[d0 err0] s0] & tr1 & tr2 & -> & Hb & Hr).
  apply check_body_kept in Hb. injection Hb as _ _ _ <-.
  assert (forall d err, cs_lastFreshUnixNano (count_outcome d err s0) = cs_lastFreshUnixNano s0) as Hc
    by (intros; unfold count_outcome; by repeat case_match).
  destruct audit as [sink|]; [|run_step Hr; apply Hc].
  destruct (_ <>?s ""); [|run_step Hr; apply Hc].
  apply run_bind in Hr as ([[[]|auditErr] sink1] & tr3 & tr4 & -> & _ & Hr); [run_step Hr; apply Hc|].
  destruct (d_Allow d0); run_step Hr; [apply (Hc _ (Some _))|apply Hc].
Qed.

End cache_theorems.
