(* ===== verification/EgressAudit.v ===== *)
(** * Package [authz], the Kubernetes audit sink

    [internal/assignment/authz/audit.go]: sanitized, synchronous recording of authorization
    decisions as [SandboxEgressEvent] objects, retention of those events and expiry of
    approved access requests. *)

From S2P Require Import Prelude GoStrings NetIP ApiTypes ApiJson Kube Governance AuthzServer Checker.
From stdpp Require Import options.

(** ** State *)

Record KubernetesAuditSink := {
  kas_namespace : string;
  kas_retention : Duration;
  kas_cleanupInterval : Duration;
  kas_accepting : bool;
  kas_metrics : AuditMetricsSnapshot
}.

Definition with_metrics (m : AuditMetricsSnapshot) (s : KubernetesAuditSink) : KubernetesAuditSink := {|
  kas_namespace := kas_namespace s; kas_retention := kas_retention s;
  kas_cleanupInterval := kas_cleanupInterval s; kas_accepting := kas_accepting s;
  kas_metrics := m |}.

Definition add_enqueued (m : AuditMetricsSnapshot) := {|
  am_Enqueued := inc (am_Enqueued m); am_Written := am_Written m;
  am_Dropped := am_Dropped m; am_Errors := am_Errors m |}.
Definition add_written (m : AuditMetricsSnapshot) := {|
  am_Enqueued := am_Enqueued m; am_Written := inc (am_Written m);
  am_Dropped := am_Dropped m; am_Errors := am_Errors m |}.
Definition add_dropped (m : AuditMetricsSnapshot) := {|
  am_Enqueued := am_Enqueued m; am_Written := am_Written m;
  am_Dropped := inc (am_Dropped m); am_Errors := am_Errors m |}.
Definition add_error (m : AuditMetricsSnapshot) := {|
  am_Enqueued := am_Enqueued m; am_Written := am_Written m;
  am_Dropped := am_Dropped m; am_Errors := inc (am_Errors m) |}.

(** The constructor's checks and the clamped cleanup interval; [client_present] is
    [client != nil]. *)
Definition NewKubernetesAuditSink (client_present : bool) (namespace : string) (queueSize : Z)
  (retention : Duration) : result KubernetesAuditSink :=
  if negb client_present then Err (ErrMsg "audit sink Kubernetes client is required")
  else if namespace =?s "" then Err (ErrMsg "audit sink namespace is required")
  else if queueSize <=? 0 then Err (ErrMsg "audit queue size must be greater than zero")
  else if retention <=? 0 then Err (ErrMsg "audit retention must be greater than zero")
  else
    let cleanupInterval := Z.quot retention 4 in
    let cleanupInterval := if cleanupInterval <? Minute then Minute else cleanupInterval in
    let cleanupInterval := if 15 * Minute <? cleanupInterval then 15 * Minute else cleanupInterval in
    Ok {| kas_namespace := namespace; kas_retention := retention;
          kas_cleanupInterval := cleanupInterval; kas_accepting := true;
          kas_metrics := {| am_Enqueued := 0; am_Written := 0; am_Dropped := 0; am_Errors := 0 |} |}.

Definition Shutdown (s : KubernetesAuditSink) : KubernetesAuditSink := {|
  kas_namespace := kas_namespace s; kas_retention := kas_retention s;
  kas_cleanupInterval := kas_cleanupInterval s; kas_accepting := false;
  kas_metrics := kas_metrics s |}.

(** ** Sanitizing *)

Definition sanitizeAuditValue (value : string) (maximum : nat) : string :=
  let value := strings_Map (fun r => if IsControl r then None else Some r) value in
  let value := TrimSpace value in
  if Nat.ltb maximum (length (runes value)) then encode_runes (take maximum (runes value)) else value.

Definition sanitizeDecision (d : Decision) : Decision := {|
  d_Allow := d_Allow d;
  d_Reason := sanitizeAuditValue (d_Reason d) 512;
  d_Source := d_Source d;
  d_AccessRequestName := sanitizeAuditValue (d_AccessRequestName d) 253;
  d_AssignmentName := sanitizeAuditValue (d_AssignmentName d) 253;
  d_AssignmentUID := sanitizeAuditValue (d_AssignmentUID d) 128;
  d_SandboxID := sanitizeAuditValue (d_SandboxID d) 253;
  d_PodUID := sanitizeAuditValue (d_PodUID d) 128;
  d_CapabilityBundleName := sanitizeAuditValue (d_CapabilityBundleName d) 253;
  d_CapabilityBundleRevision := sanitizeAuditValue (d_CapabilityBundleRevision d) 128;
  d_LogicalTenant := sanitizeAuditValue (d_LogicalTenant d) 128;
  d_Team := sanitizeAuditValue (d_Team d) 128;
  d_PermissionLevel := sanitizeAuditValue (d_PermissionLevel d) 64;
  d_BoundaryDisplayName := sanitizeAuditValue (d_BoundaryDisplayName d) 128;
  d_Backend := sanitizeAuditValue (d_Backend d) 63;
  d_Method := sanitizeAuditValue (d_Method d) 32;
  d_Host := sanitizeAuditValue (d_Host d) 253;
  d_Path := sanitizeAuditValue (d_Path d) 2048 |}.

(** ** Recording *)

Definition egressEventForDecision (namespace : string) (timestamp : Time) (d : Decision)
  : SandboxEgressEvent := {|
  ev_meta := {| om_Name := ""; om_GenerateName := "egress-"; om_Namespace := namespace; om_UID := "";
                om_ResourceVersion := ""; om_Generation := 0; om_CreationTimestamp := zero_time;
                om_DeletionTimestamp := None; om_Labels := ∅; om_Annotations := ∅;
                om_Finalizers := []; om_OwnerReferences := [] |};
  ev_Spec := {|
    ee_Timestamp := json_time timestamp;
    ee_AssignmentRef := {| ar_Name := d_AssignmentName d; ar_UID := d_AssignmentUID d |};
    ee_SandboxID := d_SandboxID d; ee_PodUID := d_PodUID d;
    ee_CapabilityBundleName := d_CapabilityBundleName d;
    ee_CapabilityBundleRevision := d_CapabilityBundleRevision d;
    ee_LogicalTenant := d_LogicalTenant d; ee_Team := d_Team d;
    ee_PermissionLevel := d_PermissionLevel d; ee_BoundaryDisplayName := d_BoundaryDisplayName d;
    ee_Backend := d_Backend d; ee_Method := d_Method d; ee_Host := d_Host d; ee_Path := d_Path d;
    ee_Allowed := d_Allow d; ee_Reason := d_Reason d; ee_DecisionSource := d_Source d;
    ee_AccessRequestName := d_AccessRequestName d |} |}.

Definition write (s : KubernetesAuditSink) (d : Decision) (timestamp : Time) : KProg (result unit) :=
  _ <-? call (Create EgressEvents (kas_namespace s)
                (wf (egressEventForDecision (kas_namespace s) timestamp d))) ;;
  Ret (Ok tt).

Definition record_incomplete (d : Decision) : bool :=
  (d_AssignmentName d =?s "") || (d_AssignmentUID d =?s "") || (d_PodUID d =?s "")
  || (d_CapabilityBundleName d =?s "") || (d_CapabilityBundleRevision d =?s "")
  || (d_Backend d =?s "") || (d_Method d =?s "") || (d_Host d =?s "") || (d_Path d =?s "")
  || (d_Reason d =?s "") || (d_Source d =?s "").

Definition AuditSink_record (d : Decision) (s : KubernetesAuditSink)
  : KProg (result unit * KubernetesAuditSink) :=
  let d := sanitizeDecision d in
  if record_incomplete d
  then Ret (Err (ErrMsg "authorization audit record is incomplete"),
            with_metrics (add_dropped (add_error (kas_metrics s))) s)
  else if negb (kas_accepting s)
  then Ret (Err (ErrMsg "authorization audit sink is shutting down"),
            with_metrics (add_dropped (kas_metrics s)) s)
  else
    let s := with_metrics (add_enqueued (kas_metrics s)) s in
    now <-- call time_Now ;;
    r <-- write s d now ;;
    match r with
    | Err e => Ret (Err e, with_metrics (add_error (kas_metrics s)) s)
    | Ok _ => Ret (Ok tt, with_metrics (add_written (kas_metrics s)) s)
    end.

#[export] Instance KubernetesAuditSink_AuditSink : AuditSink KubernetesAuditSink :=
  {| AuditSink_Record := AuditSink_record; AuditSink_Metrics := kas_metrics |}.

(** ** Retention and expiry *)

(** [time.Parse] of a stored timestamp: the zero time is stored as null. *)
Definition stored_time (t : Time) : option Time := if time_is_zero t then None else Some t.

Definition event_timestamp (event : Unstructured SandboxEgressEvent) : Time :=
  match nested event ["spec"; "timestamp"] (stored_time (ee_Timestamp (ev_Spec (u_obj event)))) with
  | Ok (Some t) => t
  | _ => om_CreationTimestamp (ev_meta (u_obj event))
  end.

Definition event_expired (cutoff : Time) (event : Unstructured SandboxEgressEvent) : bool :=
  negb (time_is_zero (event_timestamp event)) && time_before (event_timestamp event) cutoff.

Definition cleanupEvents (s : KubernetesAuditSink) : KProg (result unit) :=
  events <-? call (List EgressEvents (kas_namespace s) list_all) ;;
  now <-- call time_Now ;;
  each_selected (event_expired (time_add now (- kas_retention s)))
    (fun event => Delete EgressEvents (kas_namespace s) (om_Name (ev_meta (u_obj event))) None)
    IsNotFound events.

(** Whether an approved request has run out. *)
Definition request_expired (now : Time) (request : Unstructured SandboxAccessRequest) : bool :=
  let status := req_Status (u_obj request) in
  (nested_string request ["status"; "state"] (Some (rst_State status)) =?s SandboxAccessRequestApproved)
  && match nested request ["status"; "expiresAt"] (t ← rst_ExpiresAt status; stored_time t) with
     | Ok (Some expiry) => negb (time_after expiry now)
     | _ => false
     end.

Definition expireAccessRequests (s : KubernetesAuditSink) : KProg (result unit) :=
  requests <-? call (List AccessRequests (kas_namespace s) list_all) ;;
  now <-- call time_Now ;;
  each_selected (request_expired now)
    (fun request => MergePatchStatus AccessRequests (kas_namespace s)
                      (om_Name (req_meta (u_obj request))) [("state", SandboxAccessRequestExpired)])
    (fun e => IsNotFound e || IsConflict e) requests.

Definition cleanup (s : KubernetesAuditSink) : KProg (result unit) :=
  _ <-? cleanupEvents s ;; expireAccessRequests s.

(** ** Theorems *)

Section audit_theorems.

(** A successful record is one object, created in the sink's namespace before the call
    returns: it carries the sanitized decision, every mandatory field is present, and its
    timestamp is the sink's clock in whole seconds. *)
Lemma AuditSink_record_ok d s tr s' :
  run (AuditSink_record d s) tr (Ok tt, s') ->
  kas_accepting s = true /\ record_incomplete (sanitizeDecision d) = false /\
  exists now stored, tr = [Ev time_Now now;
    Ev (Create EgressEvents (kas_namespace s)
          (wf (egressEventForDecision (kas_namespace s) now (sanitizeDecision d)))) (Ok stored)].
Proof.
  unfold AuditSink_record. intros Hr. destruct (record_incomplete _) eqn:Ei; [by run_step Hr|].
  destruct (kas_accepting s) eqn:Ea; cbn [negb] in Hr; [|by run_step Hr].
  run_step Hr. apply run_bind in Hr as ([u|e] & tr3 & tr4 & -> & Hw & Hr); [|by run_step Hr].
  run_step Hr. unfold write in Hw. run_step Hw. run_step Hw.
  split_and!; [done|done|]. exists a, a0. by rewrite app_nil_r.
Qed.

(** A record that is refused before it is attempted makes no call. *)
Lemma AuditSink_record_refused d s :
  record_incomplete (sanitizeDecision d) = true \/ kas_accepting s = false ->
  exists e s', AuditSink_record d s = Ret (Err e, s').
Proof.
  intros Hc. unfold AuditSink_record. destruct (record_incomplete _); [eauto|].
  destruct Hc as [|Hc]; [done|]. rewrite Hc. cbn. eauto.
Qed.

(** A retention pass deletes exactly the expired events of its listing: an event is deleted
    only if its timestamp lies before now minus the retention period, and a pass that succeeds
    has issued the deletion of every such event. *)
Theorem cleanupEvents_exact s tr :
  run (cleanupEvents s) tr (Ok tt) ->
  exists events now,
    Ev (List EgressEvents (kas_namespace s) list_all) (Ok events) ∈ tr /\ Ev time_Now now ∈ tr /\
    (forall e, e ∈ tr -> is_write e = true -> exists event answer, event ∈ events /\
       event_timestamp event <> zero_time /\ event_timestamp event < now - kas_retention s /\
       e = Ev (Delete EgressEvents (kas_namespace s) (om_Name (ev_meta (u_obj event))) None) answer) /\
    (forall event, event ∈ events -> event_timestamp event <> zero_time ->
       event_timestamp event < now - kas_retention s -> exists answer,
       Ev (Delete EgressEvents (kas_namespace s) (om_Name (ev_meta (u_obj event))) None) answer ∈ tr).
Proof.
  unfold cleanupEvents. intros Hr. run_step Hr. run_step Hr.
  apply each_selected_run in Hr as [Hd Hc]. exists a, a0.
  assert (forall event, event_expired (time_add a0 (- kas_retention s)) event = true <->
    event_timestamp event <> zero_time /\ event_timestamp event < a0 - kas_retention s) as He.
  { intros event. unfold event_expired, time_is_zero, time_before, time_add.
    rewrite andb_true_iff, negb_true_iff, Z.eqb_neq, Z.ltb_lt. lia. }
  split_and!; [set_solver|set_solver| |].
  - intros e [->|[->|Hin]%elem_of_cons]%elem_of_cons Hw; [done|done|].
    destruct (Hd e Hin) as (event & answer & ? & [? ?]%He & ->). eauto 10.
  - intros event Hin Hz Hl. destruct (Hc eq_refl event Hin) as [answer ?]; [by apply He|].
    exists answer. set_solver.
Qed.

(** An expiry pass touches only access requests that are approved and whose expiry has been
    reached, and sets nothing but their state, to Expired. *)
Theorem expireAccessRequests_exact s tr :
  run (expireAccessRequests s) tr (Ok tt) ->
  exists requests now,
    Ev (List AccessRequests (kas_namespace s) list_all) (Ok requests) ∈ tr /\ Ev time_Now now ∈ tr /\
    (forall e, e ∈ tr -> is_write e = true -> exists request expiry answer, request ∈ requests /\
       rst_State (req_Status (u_obj request)) = SandboxAccessRequestApproved /\
       rst_ExpiresAt (req_Status (u_obj request)) = Some expiry /\ expiry <= now /\
       e = Ev (MergePatchStatus AccessRequests (kas_namespace s) (om_Name (req_meta (u_obj request)))
                 [("state", SandboxAccessRequestExpired)]) answer) /\
    (forall request expiry, request ∈ requests -> u_malformed request = [] ->
       rst_State (req_Status (u_obj request)) = SandboxAccessRequestApproved ->
       rst_ExpiresAt (req_Status (u_obj request)) = Some expiry -> expiry <> zero_time -> expiry <= now ->
       exists answer,
       Ev (MergePatchStatus AccessRequests (kas_namespace s) (om_Name (req_meta (u_obj request)))
             [("state", SandboxAccessRequestExpired)]) answer ∈ tr).
Proof.
  unfold expireAccessRequests. intros Hr. run_step Hr. run_step Hr.
  apply each_selected_run in Hr as [Hd Hc]. exists a, a0. split_and!; [set_solver|set_solver| |].
  - intros e [->|[->|Hin]%elem_of_cons]%elem_of_cons Hw; [done|done|].
    destruct (Hd e Hin) as (request & answer & Hreq & Hex & ->).
    unfold request_expired, nested_string, nested in Hex. apply andb_true_iff in Hex as [Hs Hx].
    apply seqb_eq in Hs. destruct (path_malformed request _) in Hs; [done|].
    destruct (path_malformed request _) in Hx; [done|].
    destruct (rst_ExpiresAt _) as [t|] eqn:Et; cbn in Hx; [|done].
    unfold stored_time in Hx. destruct (time_is_zero t); [done|].
    unfold time_after in Hx. bool_to_prop. exists request, t, answer. auto.
  - intros request expiry Hin Hm Hs Hx Hz Hle.
    destruct (Hc eq_refl request Hin) as [answer ?]; [|exists answer; set_solver].
    unfold request_expired, nested_string, nested, path_malformed. rewrite Hm, Hs, Hx. cbn.
    unfold stored_time, time_is_zero. apply Z.eqb_neq in Hz as ->. cbn.
    unfold time_after. by apply negb_true_iff, Z.ltb_ge.
Qed.

End audit_theorems.

(** ** Audit before allow *)

Section audited.
Context `{UnicodeTables} `{K8sValidation} `{UuidLib} `{Sha256} `{CelLib} `{JwtUnverified}.

(** Stored assignments have a UID. *)
Definition assignments_have_uid (caches : Caches) : Prop :=
  forall key objects object, ca_assignmentsByPodUID caches key = Ok objects -> object ∈ objects ->
    om_UID (sa_meta (u_obj object)) <> "".

(** C2. No request is allowed without a durable audit record: when the endpoint answers allow,
    the run contains the successful creation of an egress event that says so, names the
    assignment and carries every mandatory field. *)
Theorem allowed_is_recorded c caches req s sink tr log s' audit' :
  Inj (=) (=) sha256_hex -> bundles_text caches -> assignments_have_uid caches ->
  checker_inv c s ->
  run (Server_Check (H0 := kubernetes_checker c caches) req (s, Some sink)) tr
      (allowedResponse, log, (s', audit')) ->
  exists d now stored, d_Allow d = true /\ record_incomplete (sanitizeDecision d) = false /\
    Ev (Create EgressEvents (kas_namespace sink)
          (wf (egressEventForDecision (kas_namespace sink) now (sanitizeDecision d)))) (Ok stored) ∈ tr /\
    exists input, normalize req = Ok input /\ allow_evidence c caches input s tr d.
Proof.
  intros Hinj Huids Hauid Hinv Hr. apply Server_Check_run in Hr as [Hr|[Hbad _]]; [|done].
  destruct Hr as (_ & input & d & Hn & Hc & Ha).
  eapply Check_run in Hc as [_ Hc]; [|done..]. destruct (Hc Ha) as (_ & Hev & Haud).
  destruct Haud as [Hempty|(tr1 & tr2 & sink' & -> & Hrec)].
  - destruct Hev as [_ _ (i & p & a & o & b & src & _ & _ & Hpin & _)].
    destruct (bp_assignment _ _ _ _ _ _ Hpin) as (_ & Hu & _). exfalso.
    refine (Hauid _ _ o (bp_unique _ _ _ _ _ _ Hpin) _ _); [apply list_elem_of_here|congruence].
  - apply AuditSink_record_ok in Hrec as (_ & Hinc & now & stored & ->).
    exists d, now, stored. split_and!; [done|done|in_trace|]. eauto.
Qed.

End audited.
