(* ===== verification/CheckerService.v ===== *)
(** * Package [authz], the checker and the audit sink as running services

    [NewKubernetesChecker], [SetAuditSink], [Start], [MetricsHandler] and [freshnessLoop] of
    [internal/assignment/authz/checker.go]; [Start] and [cleanupLoop] of [audit.go].  A service's
    history is what it did, in order: it synchronised its caches, it probed the API server, it
    checked a request.  Every state such a history reaches satisfies the checker's invariant, and
    whenever the endpoint allows a request after a history, the caches were confirmed as current
    at most [freshnessLimit] before ([service_allow_sound]).

    The histories here order whole checks; [CheckerConcurrency] interleaves their steps. *)

From stdpp Require Import pretty.
From S2P Require Import Prelude GoStrings NetIP ApiTypes ApiJson Kube Governance AuthzServer Checker EgressAudit.
From stdpp Require Import options.

Definition podUIDIndex : string := "podUID".
Definition assignmentPodUIDIndex : string := "assignmentPodUID".
Definition accessAssignmentUIDIndex : string := "accessAssignmentUID".
Definition freshnessProbePeriod : Duration := 5 * Second.

Section service.
Context `{UnicodeTables} `{K8sValidation} `{UuidLib} `{Sha256} `{CelLib} `{JwtUnverified}.

(** [NewKubernetesChecker]; [AddIndexers index] is the answer of the informer that gets the
    index. *)
Definition NewKubernetesChecker (AddIndexers : string -> result unit)
  (assignmentNamespace workloadNamespace audience : string) : result (CheckerConfig * CheckerState) :=
  match AddIndexers assignmentPodUIDIndex with
  | Err e => Err e
  | Ok _ =>
      match AddIndexers accessAssignmentUIDIndex with
      | Err e => Err e
      | Ok _ =>
          match AddIndexers podUIDIndex with
          | Err e => Err e
          | Ok _ =>
              match newPolicyEnvironment with
              | Err e => Err e
              | Ok env =>
                  Ok ({| cc_assignmentNamespace := assignmentNamespace;
                         cc_workloadNamespace := workloadNamespace;
                         cc_audience := audience; cc_celEnv := env |},
                      {| cs_programs := ∅; cs_tokens := ∅; cs_lastFreshUnixNano := 0;
                         cs_metrics := zero_metrics |})
              end
          end
      end
  end.

(** [Start]; [synced] is the answer of [cache.WaitForCacheSync]. *)
Definition checker_Start (synced : bool) (s : CheckerState) : KProg (result CheckerState) :=
  if negb synced then Ret (Err (ErrMsg "synchronize authorization caches"))
  else now <-- call time_Now ;; Ret (Ok (with_lastFresh now s)).

(** [freshnessLoop] for [rounds] ticks of its ticker. *)
Fixpoint freshnessLoop (rounds : nat) (c : CheckerConfig) (s : CheckerState) : KProg CheckerState :=
  match rounds with
  | O => Ret s
  | S rounds =>
      finished <-- call ctx_Done ;;
      match finished with
      | Some _ => Ret s
      | None => s <-- freshness_tick c s ;; freshnessLoop rounds c s
      end
  end.

(** [auditErrorCategory]. *)
Definition auditErrorCategory (err : error) : string :=
  let reason := match api_reason err with Some r => reason_string r | None => "" end in
  if reason =?s "" then "internal" else reason.

(** One [cleanup] of the loop, with what it logs. *)
Definition cleanup_logged (message : string) (sink : KubernetesAuditSink) : KProg (list (string * string)) :=
  r <-- cleanup sink ;;
  match r with
  | Ok _ => Ret []
  | Err e =>
      finished <-- call ctx_Done ;;
      Ret (if finished is Some _ then [] else [(message, auditErrorCategory e)])
  end.

Fixpoint cleanup_ticks (rounds : nat) (sink : KubernetesAuditSink) : KProg (list (string * string)) :=
  match rounds with
  | O => Ret []
  | S rounds =>
      finished <-- call ctx_Done ;;
      match finished with
      | Some _ => Ret []
      | None =>
          logged <-- cleanup_logged "governance cleanup" sink ;;
          more <-- cleanup_ticks rounds sink ;;
          Ret (logged ++ more)
      end
  end.

(** [cleanupLoop] for [rounds] ticks of its ticker. *)
Definition cleanupLoop (rounds : nat) (sink : KubernetesAuditSink) : KProg (list (string * string)) :=
  logged <-- cleanup_logged "initial governance cleanup" sink ;;
  more <-- cleanup_ticks rounds sink ;;
  Ret (logged ++ more).

Context {A : Type} `{AuditSink A}.

Definition SetAuditSink (sink : A) (sa : CheckerState * option A) : CheckerState * option A :=
  (sa.1, Some sink).

(** ** Metrics *)

Definition metric (name : string) (value : Z) : string :=
  name +:+ " " +:+ pretty (Z.to_N value) +:+ (String "010" "").

(** The text that [MetricsHandler] writes. *)
Definition metrics_text (m : checkerMetrics) (isFresh : bool) (audit : AuditMetricsSnapshot) : string :=
  metric "assignmentd_authz_allows_total" (cm_allows m)
  +:+ metric "assignmentd_authz_denies_total" (cm_denies m)
  +:+ metric "assignmentd_authz_errors_total" (cm_errors m)
  +:+ metric "assignmentd_authz_token_reviews_total" (cm_tokenReviews m)
  +:+ metric "assignmentd_authz_token_cache_hits_total" (cm_tokenCacheHits m)
  +:+ metric "assignmentd_authz_cel_errors_total" (cm_celErrors m)
  +:+ metric "assignmentd_authz_freshness_denies_total" (cm_freshnessDenies m)
  +:+ metric "assignmentd_authz_grants_used_total" (cm_grantsUsed m)
  +:+ metric "assignmentd_authz_cache_fresh" (if isFresh then 1 else 0)
  +:+ metric "assignmentd_audit_enqueued_total" (am_Enqueued audit)
  +:+ metric "assignmentd_audit_written_total" (am_Written audit)
  +:+ metric "assignmentd_audit_dropped_total" (am_Dropped audit)
  +:+ metric "assignmentd_audit_errors_total" (am_Errors audit).

Definition MetricsHandler (sa : CheckerState * option A) : KProg string :=
  isFresh <-- (if cs_lastFreshUnixNano sa.1 =? 0 then Ret false
               else now <-- call time_Now ;; Ret (fresh sa.1 now)) ;;
  let audit := match sa.2 with
               | Some sink => AuditSink_Metrics sink
               | None => {| am_Enqueued := 0; am_Written := 0; am_Dropped := 0; am_Errors := 0 |}
               end in
  Ret (metrics_text (cs_metrics sa.1) isFresh audit).

(** ** Histories *)

Inductive Activity :=
  | Synchronised (tr : list KEvent)
  | Probed (tr : list KEvent)
  | Checked (input : CheckInput) (tr : list KEvent).

(** What [service c h sa] says: a checker configured as [c] did [h] since it was created, and has
    the state [sa].  The caches may change between checks. *)
Inductive service (c : CheckerConfig) : list Activity -> CheckerState * option A -> Prop :=
  | service_new AddIndexers assignmentNamespace workloadNamespace audience s :
      NewKubernetesChecker AddIndexers assignmentNamespace workloadNamespace audience = Ok (c, s) ->
      service c [] (s, None)
  | service_sink h sa sink :
      service c h sa -> service c h (SetAuditSink sink sa)
  | service_start h s audit tr s' :
      service c h (s, audit) -> run (checker_Start true s) tr (Ok s') ->
      service c (h ++ [Synchronised tr]) (s', audit)
  | service_tick h s audit tr s' :
      service c h (s, audit) -> run (freshness_tick c s) tr s' ->
      service c (h ++ [Probed tr]) (s', audit)
  | service_check h sa caches input tr d err sa' :
      service c h sa -> bundles_text caches ->
      run (Check c caches input sa) tr (d, err, sa') ->
      service c (h ++ [Checked input tr]) sa'.

(** In [h] the caches were confirmed at the time [t]: they were synchronised, or every list of a
    probe succeeded, and the clock read [t] next. *)
Definition confirmed (c : CheckerConfig) (h : list Activity) (t : Time) : Prop :=
  Synchronised [Ev time_Now t] ∈ h \/
  exists tr, Probed (tr ++ [Ev time_Now t]) ∈ h /\ run (probeFreshness c) tr (Ok tt).
End service.

Section service_theorems.
Context `{UnicodeTables} `{K8sValidation} `{UuidLib} `{Sha256} `{CelLib} `{JwtUnverified}.
Context {A : Type} `{AuditSink A}.
Context (Hinj : Inj (=) (=) sha256_hex).
#[local] Set Default Proof Using "All".

Lemma confirmed_app c h h' t : confirmed c h t -> confirmed c (h ++ h') t.
Proof. intros [?|(tr & ? & ?)]; [left|right; exists tr]; rewrite ?elem_of_app; auto. Qed.

(** A state is fit to serve after [h]: the caches are coherent, and the time of the last
    confirmation is the time of one. *)
Record serving (c : CheckerConfig) (h : list Activity) (s : CheckerState) : Prop := {
  serving_inv : checker_inv c s;
  serving_fresh : cs_lastFreshUnixNano s <> 0 -> confirmed c h (cs_lastFreshUnixNano s)
}.

Lemma checker_inv_lastFresh c s t : checker_inv c s -> checker_inv c (with_lastFresh t s).
Proof. intros []; by constructor. Qed.

Lemma NewKubernetesChecker_inv AddIndexers an wn audience c s :
  NewKubernetesChecker AddIndexers an wn audience = Ok (c, s) ->
  checker_inv c s /\ cs_lastFreshUnixNano s = 0.
Proof.
  unfold NewKubernetesChecker. repeat case_match; intros [= <- <-] || intros [=].
  split; [|done]. constructor; cbn; rewrite ?map_size_empty; try lia; intros k x; by rewrite lookup_empty.
Qed.

(** A tick either confirms the caches or changes nothing. *)
Lemma freshness_tick_run c s tr s' :
  run (freshness_tick c s) tr s' ->
  s' = s \/ exists tr1 now, tr = tr1 ++ [Ev time_Now now] /\ run (probeFreshness c) tr1 (Ok tt) /\
              s' = with_lastFresh now s.
Proof.
  unfold freshness_tick. intros Hr. apply run_bind in Hr as ([[]|e] & tr1 & tr2 & -> & Hp & Hr).
  - right. run_step Hr. run_step Hr. eauto.
  - left. by run_step Hr.
Qed.

Lemma service_serving c h sa : service c h sa -> serving c h sa.1.
Proof.
  induction 1 as [? ? ? ? s Hnew|h sa sink _ IH|h s audit tr s' _ IH Hr|h s audit tr s' _ IH Hr
                 |h [s audit] caches input tr d err [s' audit'] _ IH Hu Hr]; cbn in *.
  - apply NewKubernetesChecker_inv in Hnew as [? Ez]. by constructor.
  - done.
  - unfold checker_Start in Hr. destruct Hr as (now & tr' & -> & -> & [= <-]).
    constructor.
    + apply checker_inv_lastFresh, IH.
    + intros _. left. cbn. set_solver.
  - apply freshness_tick_run in Hr as [->|(tr1 & now & -> & Hp & ->)]; constructor.
    + apply IH.
    + intros Hz. apply confirmed_app, IH, Hz.
    + apply checker_inv_lastFresh, IH.
    + intros _. right. exists tr1. split; [set_solver|done].
  - pose proof (Check_lastFresh _ _ _ _ _ _ _ _ _ _ Hr) as Hl. destruct IH as [Hi Hf]. constructor.
    + by eapply Check_run in Hr as [? _].
    + rewrite Hl. intros Hz. by apply confirmed_app, Hf.
Qed.

(** The endpoint on top of a running service: after any history of synchronising, probing and
    checking from the checker's creation, a request is allowed only on the evidence that the
    checker collects for it, and only if the caches were confirmed against the API server at most
    ten seconds before the clock that the check read. *)
Theorem service_allow_sound c h caches req s audit tr log s' audit' :
  service c h (s, audit) -> bundles_text caches ->
  run (Server_Check (H0 := kubernetes_checker c caches) req (s, audit)) tr
      (allowedResponse, log, (s', audit')) ->
  exists input d t now, normalize req = Ok input /\ d_Allow d = true /\
    allow_evidence c caches input s tr d /\
    confirmed c h t /\ Ev time_Now now ∈ tr /\ now - t <= freshnessLimit.
Proof.
  intros [Hinv Hf]%service_serving Hu Hr. apply Server_Check_run in Hr as [Hr|[Hbad _]]; [|done].
  destruct Hr as (_ & input & d & Hn & Hc & Ha).
  eapply Check_run in Hc as [_ Hc]; [|done..]. destruct (Hc Ha) as (_ & He & _).
  destruct (ae_fresh _ _ _ _ _ _ He) as (now & Hin & Hz & Hle).
  exists input, d, (cs_lastFreshUnixNano s), now. eauto 10.
Qed.

(** The loop that [Start] spawns is a sequence of ticks, so it stays within such a history. *)
Lemma freshnessLoop_service rounds c h s audit tr s' :
  service c h (s, audit) -> run (freshnessLoop rounds c s) tr s' ->
  exists ticks, service c (h ++ (Probed <$> ticks)) (s', audit).
Proof.
  revert h s tr. induction rounds as [|rounds IH]; intros h s tr Hs; cbn [freshnessLoop].
  - intros [_ <-]. exists []. cbn. by rewrite app_nil_r.
  - intros Hr. run_step Hr. destruct a as [e|].
    + destruct Hr as [_ <-]. exists []. cbn. by rewrite app_nil_r.
    + apply run_bind in Hr as (s1 & tr2 & tr3 & -> & Ht & Hr).
      pose proof (service_tick c h s audit tr2 s1 Hs Ht) as Hs1.
      destruct (IH _ _ _ Hs1 Hr) as [ticks Hticks]. exists (tr2 :: ticks).
      rewrite fmap_cons. by rewrite <- app_assoc in Hticks.
Qed.

(** In every state a running service reaches, the compiled-program cache and the token cache hold at
    most their limits, each program is the one of the expression its key's bundle revision
    declares, and each cached identity is bound to a Pod. *)
Theorem service_inv c h s audit : service c h (s, audit) -> checker_inv c s.
Proof. intros Hs%service_serving. apply Hs. Qed.

End service_theorems.
