(* ===== verification/Threads.v ===== *)
(** * Threads over a shared state

    A thread is a program whose calls act on a state that it shares with other threads.  An
    execution interleaves the calls of all threads, one at a time ([execution]); what a thread
    has done so far is a prefix of one of its runs, so what every run of it guarantees about a
    call holds in every execution ([execution_guarded]).

    [alone] performs the calls of one thread on the state without interruption: the sequential
    reading of a concurrent program.  Programs with the same runs are equivalent ([run_equiv]),
    and binding respects this. *)

From stdpp Require Import relations.
From S2P Require Import Prelude.
From stdpp Require Import options.

Section threads.
Context {E : Type -> Type} {S T : Type}.
Context (answers : forall R, E R -> S -> R -> S -> Prop).
Arguments answers {R}.

(** What a thread has become after the calls [tr]. *)
Inductive advance (p : Prog E T) : list (Event E) -> Prog E T -> Prop :=
  | advance_nil : advance p [] p
  | advance_snoc {R} tr (op : E R) k r :
      advance p tr (Vis op k) -> advance p (tr ++ [Ev op r]) (k r).

(** The trace of an execution names the thread of each call; the state and the threads follow. *)
Inductive execution (s0 : S) (threads : nat -> Prog E T)
  : list (nat * Event E) -> S -> (nat -> Prog E T) -> Prop :=
  | execution_start : execution s0 threads [] s0 threads
  | execution_step {R} tr s now i (op : E R) k r s' :
      execution s0 threads tr s now -> now i = Vis op k -> answers op s r s' ->
      execution s0 threads (tr ++ [(i, Ev op r)]) s' (fun j => if decide (j = i) then k r else now j).

Definition events_of (i : nat) (tr : list (nat * Event E)) : list (Event E) :=
  omap (fun x => if decide (x.1 = i) then Some x.2 else None) tr.

Lemma events_of_snoc i j e tr :
  events_of i (tr ++ [(j, e)]) = events_of i tr ++ (if decide (j = i) then [e] else []).
Proof. unfold events_of. rewrite omap_app. cbn. by destruct (decide (j = i)). Qed.

Lemma elem_of_events_of i e tr : e ∈ events_of i tr <-> (i, e) ∈ tr.
Proof.
  unfold events_of. rewrite list_elem_of_omap. split.
  - intros ([j e'] & Hin & Hd). cbn in Hd. case_decide; [|done]. by simplify_eq.
  - intros Hin. exists (i, e). cbn. by rewrite decide_True.
Qed.

Lemma advance_run p tr q tr' a : advance p tr q -> run q tr' a -> run p (tr ++ tr') a.
Proof.
  intros Hp. revert tr'. induction Hp as [|R tr op k r Hp IH]; intros tr' Hr; [done|].
  rewrite <- app_assoc. apply IH. by exists r, tr'.
Qed.

Lemma execution_thread s0 threads tr s now i :
  execution s0 threads tr s now -> advance (threads i) (events_of i tr) (now i).
Proof.
  induction 1 as [|R tr s now j op k r s' Hx IH Hj Ha]; [constructor|].
  rewrite events_of_snoc. destruct (decide (i = j)) as [<-|Hn].
  - rewrite decide_True by done. rewrite Hj in IH. by constructor.
  - rewrite decide_False by congruence. by rewrite app_nil_r.
Qed.

(** The answer of one call, from the state before it to the state after it. *)
Definition event_answers (e : Event E) (s s' : S) : Prop := match e with Ev op r => answers op s r s' end.

(** Every call of an execution was made in an execution that led up to it. *)
Lemma execution_split s0 threads tr1 x tr2 s now :
  execution s0 threads (tr1 ++ x :: tr2) s now ->
  exists s1 now1 s2 now2, execution s0 threads tr1 s1 now1 /\ execution s0 threads (tr1 ++ [x]) s2 now2
    /\ event_answers x.2 s1 s2.
Proof.
  intros Hx. remember (tr1 ++ x :: tr2) as tr eqn:Etr. revert tr2 Etr.
  induction Hx as [|R tr s now j op k r s' Hx IH Hj Ha]; intros tr2 Etr; [by destruct tr1|].
  destruct tr2 as [|y tr2 _] using rev_ind.
  - apply app_inj_tail in Etr as [-> <-]. exists s, now, s', (fun j' => if decide (j' = j) then k r else now j').
    split_and!; [done|by apply execution_step with s|done].
  - rewrite app_comm_cons, app_assoc in Etr. apply app_inj_tail in Etr as [-> _]. by eapply IH.
Qed.

(** A thread that has returned made exactly the calls of one of its runs. *)
Lemma execution_returned s0 threads tr s now i a :
  execution s0 threads tr s now -> now i = Ret a -> run (threads i) (events_of i tr) a.
Proof.
  intros Hx%(execution_thread _ _ _ _ _ i) Hi. rewrite Hi in Hx.
  rewrite <- (app_nil_r (events_of i tr)). by eapply advance_run.
Qed.

(** Every call can be answered, so every program has a run. *)
Context (answer : forall R, E R -> R).

Lemma run_exists (p : Prog E T) : exists tr a, run p tr a.
Proof using answer.
  induction p as [a|R op k IH]; [by exists [], a|].
  destruct (IH (answer _ op)) as (tr & a & Hr). by exists (Ev op (answer _ op) :: tr), a, (answer _ op), tr.
Qed.

Lemma execution_guarded s0 threads tr s now i kind P t1 e t2 :
  execution s0 threads tr s now -> guarded kind P (threads i) ->
  events_of i tr = t1 ++ e :: t2 -> kind e = true -> P t1 e.
Proof using answer.
  intros Hx%(execution_thread _ _ _ _ _ i) Hg He Hk. destruct (run_exists (now i)) as (tr' & a & Hr).
  eapply (Hg _ a), Hk; [by eapply advance_run|]. rewrite He, <- app_assoc. reflexivity.
Qed.

Lemma execution_elem s0 threads tr s now i kind P e :
  execution s0 threads tr s now -> guarded kind P (threads i) -> (i, e) ∈ tr -> kind e = true ->
  exists t1 t2, events_of i tr = t1 ++ e :: t2 /\ P t1 e.
Proof using answer.
  intros Hx Hg Hin Hk. apply elem_of_events_of, list_elem_of_split in Hin as (t1 & t2 & He).
  exists t1, t2. split; [done|]. by eapply execution_guarded.
Qed.

(** An execution by a schedule: which thread makes the next call, if it has not returned. *)
Section schedule.
Context (serve : forall R, E R -> S -> R * S).
Context (serve_answers : forall R (op : E R) s, answers op s (serve _ op s).1 (serve _ op s).2).

Fixpoint play (schedule : list nat) (tr : list (nat * Event E)) (s : S) (now : nat -> Prog E T)
  : list (nat * Event E) * S * (nat -> Prog E T) :=
  match schedule with
  | [] => (tr, s, now)
  | i :: schedule =>
      match now i with
      | Ret _ => play schedule tr s now
      | Vis op k =>
          let '(r, s') := serve _ op s in
          play schedule (tr ++ [(i, Ev op r)]) s' (fun j => if decide (j = i) then k r else now j)
      end
  end.

Lemma play_execution s0 threads schedule tr s now :
  execution s0 threads tr s now ->
  let out := play schedule tr s now in execution s0 threads out.1.1 out.1.2 out.2.
Proof using serve_answers.
  revert tr s now. induction schedule as [|i schedule IH]; intros tr s now Hx; cbn [play]; [done|].
  destruct (now i) as [a|R op k] eqn:Ei; [by apply IH|]. pose proof (serve_answers _ op s) as Ha.
  destruct (serve R op s) as [r s']. apply IH. by eapply execution_step.
Qed.

End schedule.

End threads.

(** ** Programs with the same runs *)

Definition run_equiv {E A} (p q : Prog E A) : Prop := forall tr a, run p tr a <-> run q tr a.
Infix "≃" := run_equiv (at level 70) : go_scope.

#[export] Instance run_equiv_equivalence {E A} : Equivalence (@run_equiv E A).
Proof.
  split; [done|intros p q Hpq tr a; by rewrite (Hpq tr a)|].
  intros p q r Hpq Hqr tr a. by rewrite (Hpq tr a).
Qed.

#[export] Instance prog_bind_equiv {E A B} :
  Proper (run_equiv ==> pointwise_relation A run_equiv ==> run_equiv) (@prog_bind E A B).
Proof.
  intros p q Hpq f g Hfg tr b. rewrite !run_bind.
  split; intros (a & t1 & t2 & -> & H1 & H2); exists a, t1, t2; (split; [done|]);
    (split; [by apply Hpq|by apply Hfg]).
Qed.

Lemma vis_equiv {E A R} (op : E R) (k k' : R -> Prog E A) : (forall r, k r ≃ k' r) -> Vis op k ≃ Vis op k'.
Proof.
  intros Hk tr a. cbn. split; intros (r & t & -> & Hr); exists r, t; (split; [done|]); by apply Hk.
Qed.

Lemma prog_bind_ret {E A} (p : Prog E A) : prog_bind p Ret ≃ p.
Proof.
  intros tr a. rewrite run_bind. split.
  - intros (b & t1 & t2 & -> & Hp & [-> ->]). by rewrite app_nil_r.
  - intros Hp. exists a, tr, []. by rewrite app_nil_r.
Qed.

Lemma prog_bind_assoc {E A B C} (p : Prog E A) (f : A -> Prog E B) (g : B -> Prog E C) :
  prog_bind (prog_bind p f) g ≃ prog_bind p (fun a => prog_bind (f a) g).
Proof.
  intros tr c. rewrite !run_bind. split.
  - intros (b & t1 & t2 & -> & (a & u1 & u2 & -> & Ha & Hb)%run_bind & Hc).
    exists a, u1, (u2 ++ t2). rewrite app_assoc. split_and!; [done|done|]. apply run_bind. eauto 10.
  - intros (a & t1 & t2 & -> & Ha & (b & u1 & u2 & -> & Hb & Hc)%run_bind).
    exists b, (t1 ++ u1), u2. rewrite app_assoc. split_and!; [done| |done]. apply run_bind. eauto 10.
Qed.

(** ** A thread without interruption *)

Section alone.
Context {E F : Type -> Type} {S : Type} (handle : forall R, E R -> S -> Prog F (R * S)).

Fixpoint alone {A} (p : Prog E A) (s : S) : Prog F (A * S) :=
  match p with
  | Ret a => Ret (a, s)
  | Vis op k => r <-- handle _ op s ;; alone (k r.1) r.2
  end.

Lemma alone_call {R} (op : E R) s : alone (call op) s ≃ handle _ op s.
Proof.
  cbn. rewrite <- (prog_bind_ret (handle _ op s)) at 2. apply prog_bind_equiv; [done|]. by intros [r s'].
Qed.

Lemma alone_bind {A B} (p : Prog E A) (k : A -> Prog E B) s :
  alone (prog_bind p k) s ≃ (r <-- alone p s ;; alone (k r.1) r.2).
Proof.
  revert s. induction p as [a|R op c IH]; intros s; cbn [prog_bind alone]; [done|].
  rewrite prog_bind_assoc. apply prog_bind_equiv; [done|]. intros [r s']. apply IH.
Qed.

End alone.
