(* ===== verification/CheckerConcurrency.v ===== *)
(** * Package [authz], concurrent checks

    gRPC serves requests concurrently, so checks run next to each other and next to the freshness
    loop on the one [KubernetesChecker]: the two caches behind their locks, the time of the last
    probe, and the counters.  Here each critical section and each atomic operation of
    [internal/assignment/authz/checker.go] is one call on the shared state ([Shared]), and a check
    is a thread of such calls and of calls to the API server and the clock.

    Uninterrupted, a thread does what the sequential model of [Checker] does ([Check_alone]).
    Under every interleaving of any number of requests with the freshness loop the caches stay
    bounded and coherent, and a request is allowed only on evidence from that execution: a
    TokenReview of its token, by any thread, whose result was still valid, a confirmation of the
    informers at most ten seconds old, and the program of the pinned expression
    ([concurrent_allow_sound]). *)

From S2P Require Import Prelude GoStrings NetIP ApiTypes ApiJson Kube Governance AuthzServer Checker CheckerService Threads.
From stdpp Require Import options.

Section concurrent.
Context `{UnicodeTables} `{K8sValidation} `{UuidLib} `{Sha256} `{CelLib} `{JwtUnverified}.

(** ** The shared checker *)

(** The atomic operations and the critical sections of the two locks. *)
Inductive Critical : Type -> Type :=
  | lastFresh_Load : Critical Z
  | lastFresh_Store (t : Z) : Critical unit
  | tokens_Take (tokenHash : string) (now : Time) : Critical (option reviewedIdentity)
  | tokens_Put (tokenHash : string) (entry : cachedIdentity) : Critical unit
  | programs_Get (key : string) : Critical (option cel_Program)
  | programs_Put (key : string) (p : cel_Program) : Critical unit
  | metrics_Add (k : Counter) : Critical unit.

(** What each does to the state it finds. *)
Definition atomic {R} (op : Critical R) (s : CheckerState) : R * CheckerState :=
  match op in Critical R return R * CheckerState with
  | lastFresh_Load => (cs_lastFreshUnixNano s, s)
  | lastFresh_Store t => (tt, with_lastFresh t s)
  | tokens_Take tokenHash now =>
      let missed := (None, with_tokens (delete tokenHash (cs_tokens s)) s) in
      match cs_tokens s !! tokenHash with
      | Some cached => if time_before now (cid_expiresAt cached) then (Some (cid_identity cached), s) else missed
      | None => missed
      end
  | tokens_Put tokenHash entry =>
      (tt, with_tokens (bounded_insert maxTokenCacheEntries tokenHash entry (cs_tokens s)) s)
  | programs_Get key => (cs_programs s !! key, s)
  | programs_Put key p => (tt, with_programs (bounded_insert maxCompiledPrograms key p (cs_programs s)) s)
  | metrics_Add k => (tt, counted k s)
  end.

(** The calls of a thread. *)
Inductive Shared : Type -> Type :=
  | Outside {R} (op : Kube R) : Shared R                       (** the API server, the clock, the context *)
  | Locked {R} (op : Critical R) : Shared R
  | audit_Record (d : Decision) : Shared (result unit).        (** of the audit sink, if one is set *)

Definition outside {R} (op : Kube R) : Prog Shared R := call (Outside op).
Definition locked {R} (op : Critical R) : Prog Shared R := call (Locked op).

(** ** The operations as threads *)

Definition shared_fresh : Prog Shared bool :=
  last <-- locked lastFresh_Load ;;
  if last =? 0 then Ret false
  else now <-- outside time_Now ;; Ret (time_sub now last <=? freshnessLimit).

(** After a cache miss at [now]. *)
Definition shared_review_uncached (c : CheckerConfig) (token : string) (now : Time)
  : Prog Shared (result (reviewedIdentity + Decision)) :=
  _ <-- locked (metrics_Add tokenReviews) ;;
  review <-- outside (TokenReviews_Create token [cc_audience c]) ;;
  match review with
  | Err e => Ret (Err e)
  | Ok status =>
      match identity_of_review c status with
      | inr reason => Ret (Ok (inr (reason_decision false reason)))
      | inl ident =>
          let expiresAt := cache_expiry token now in
          _ <-- (if time_after expiresAt now
                 then locked (tokens_Put (sha256_hex token) {| cid_identity := ident; cid_expiresAt := expiresAt |})
                 else Ret tt) ;;
          Ret (Ok (inl ident))
      end
  end.

Definition shared_reviewToken (c : CheckerConfig) (token : string) : Prog Shared (result (reviewedIdentity + Decision)) :=
  now <-- outside time_Now ;;
  cached <-- locked (tokens_Take (sha256_hex token) now) ;;
  match cached with
  | Some ident => _ <-- locked (metrics_Add tokenCacheHits) ;; Ret (Ok (inl ident))
  | None => shared_review_uncached c token now
  end.

Definition shared_program (c : CheckerConfig) (bundleUID revision backend expression : string)
  : Prog Shared (result cel_Program) :=
  let key := program_key bundleUID revision backend in
  cached <-- locked (programs_Get key) ;;
  match cached with
  | Some p => Ret (Ok p)
  | None =>
      match cel_Compile (cc_celEnv c) expression with
      | Err e => Ret (Err e)
      | Ok ast =>
          if negb (cel_OutputIsBool ast) then Ret (Err (ErrMsg "allow expression must return bool"))
          else match cel_MakeProgram (cc_celEnv c) ast celRuntimeCostLimit with
          | Err e => Ret (Err e)
          | Ok p => _ <-- locked (programs_Put key p) ;; Ret (Ok p)
          end
      end
  end.

Definition shared_overlay (caches : Caches) (d : Decision) (bundleReason : string)
  : Prog Shared (Decision * option error) :=
  now <-- outside time_Now ;;
  match matchAccessGrant caches d now with
  | Err e => Ret (d, Some e)
  | Ok (requestName, _, true) =>
      _ <-- locked (metrics_Add grantsUsed) ;;
      Ret (decide_as d true "approved access request matched exact target" DecisionSourceAccessRequest requestName, None)
  | Ok (_, grantReason, false) => Ret (set_reason (bundleReason +:+ "; " +:+ grantReason) d, None)
  end.

Definition shared_evaluate (c : CheckerConfig) (caches : Caches) (input : CheckInput) (r : Resolved)
  : Prog Shared (Decision * option error) :=
  let d := rv_decision r in
  match backend_expression (rv_bundle r) (ci_Backend input) with
  | Err e => Ret (d, Some e)
  | Ok None => shared_overlay caches d "backend is not granted"
  | Ok (Some expression) =>
      if expression =?s "" then Ret (set_reason "backend policy is invalid" d, None)
      else
        compiled <-- shared_program c (rv_bundleUID r) (d_CapabilityBundleRevision d) (ci_Backend input) expression ;;
        match compiled with
        | Err _ => _ <-- locked (metrics_Add celErrors) ;; Ret (set_reason "backend policy is invalid" d, None)
        | Ok p =>
            match cel_Eval p {| act_backend_name := ci_Backend input; act_method := ci_Method input;
                                act_host := ci_Host input; act_path := ci_Path input;
                                act_headers := ci_Headers input; act_source_address := rv_source r |} with
            | Err _ => _ <-- locked (metrics_Add celErrors) ;; Ret (set_reason "backend policy evaluation failed" d, None)
            | Ok (CelBool true) =>
                Ret (decide_as d true "backend allow expression returned true" DecisionSourceBundle
                       (d_AccessRequestName d), None)
            | Ok _ => shared_overlay caches d "backend allow expression returned false"
            end
        end
  end.

Definition shared_check_body (c : CheckerConfig) (caches : Caches) (input : CheckInput)
  : Prog Shared (Decision * option error) :=
  isFresh <-- shared_fresh ;;
  if negb isFresh
  then _ <-- locked (metrics_Add freshnessDenies) ;; Ret (reason_decision false "authorization cache is stale", None)
  else
    reviewed <-- shared_reviewToken c (ci_IdentityToken input) ;;
    match reviewed with
    | Err e => Ret (empty_decision, Some e)
    | Ok (inr tokenDecision) => Ret (tokenDecision, None)
    | Ok (inl ident) =>
        match resolve_pod c caches ident input with
        | inl (d, err) => Ret (d, err)
        | inr source =>
            match resolve_bundle c caches ident input source with
            | inl (d, err) => Ret (d, err)
            | inr resolved => shared_evaluate c caches input resolved
            end
        end
    end.

(** The deferred part of [Check]: the audit record, when a sink is set, and the counters. *)
Definition shared_record (audit : bool) (d : Decision) (err : option error) : Prog Shared (Decision * option error) :=
  if audit && (d_AssignmentUID d <>?s "") then
    recorded <-- call (audit_Record d) ;;
    Ret (match recorded with
         | Err auditErr =>
             if d_Allow d
             then (decide_as d false "authorization audit is unavailable" (d_Source d) (d_AccessRequestName d),
                   Some (ErrWrap "record authorization decision" auditErr))
             else (d, err)
         | Ok _ => (d, err)
         end)
  else Ret (d, err).

Definition shared_count (d : Decision) (err : option error) : Prog Shared unit :=
  match err with
  | Some _ => _ <-- locked (metrics_Add errors) ;; locked (metrics_Add denies)
  | None => if d_Allow d then locked (metrics_Add allows) else locked (metrics_Add denies)
  end.

Definition shared_Check (c : CheckerConfig) (audit : bool) (caches : Caches) (input : CheckInput)
  : Prog Shared (Decision * option error) :=
  r <-- shared_check_body c caches input ;;
  out <-- shared_record audit r.1 r.2 ;;
  _ <-- shared_count out.1 out.2 ;;
  Ret out.

(** [Start] after the informers have synchronized, and [freshnessLoop] for [rounds] ticks. *)
Fixpoint shared_freshnessLoop (c : CheckerConfig) (rounds : nat) : Prog Shared unit :=
  match rounds with
  | O => Ret tt
  | S rounds =>
      finished <-- outside ctx_Done ;;
      match finished with
      | Some _ => Ret tt
      | None =>
          probed <-- within (@Outside) (probeFreshness c) ;;
          _ <-- match probed with
                | Ok _ => now <-- outside time_Now ;; locked (lastFresh_Store now)
                | Err _ => Ret tt
                end ;;
          shared_freshnessLoop c rounds
      end
  end.

Definition shared_Start (c : CheckerConfig) (rounds : nat) : Prog Shared unit :=
  now <-- outside time_Now ;;
  _ <-- locked (lastFresh_Store now) ;;
  shared_freshnessLoop c rounds.

(** ** Without interruption *)

Section sequential.
Context {A : Type} `{AuditSink A}.

Definition handle {R} (op : Shared R) (st : CheckerState * option A) : KProg (R * (CheckerState * option A)) :=
  match op in Shared R return KProg (R * (CheckerState * option A)) with
  | Outside op => r <-- call op ;; Ret (r, st)
  | Locked op => Ret ((atomic op st.1).1, ((atomic op st.1).2, st.2))
  | audit_Record d =>
      match st.2 with
      | Some sink => r <-- AuditSink_Record d sink ;; Ret (r.1, (st.1, Some r.2))
      | None => Ret (Ok tt, st)
      end
  end.

(** A thread's outcome and state, in the shape of the sequential model. *)
Definition threaded {X} (audit : option A) (p : KProg (X * CheckerState)) : KProg (X * (CheckerState * option A)) :=
  r <-- p ;; Ret (r.1, (r.2, audit)).

Lemma alone_outside {R X} (op : Kube R) (k : R -> Prog Shared X) st (k' : R -> KProg (X * (CheckerState * option A))) :
  (forall r, alone (@handle) (k r) st ≃ k' r) -> alone (@handle) (prog_bind (outside op) k) st ≃ Vis op k'.
Proof. intros Hk. by apply vis_equiv. Qed.

Lemma alone_review_uncached c token now s audit :
  alone (@handle) (shared_review_uncached c token now) (with_tokens (delete (sha256_hex token) (cs_tokens s)) s, audit)
  ≃ threaded audit (review_uncached c s token now).
Proof.
  unfold shared_review_uncached, review_uncached, threaded. cbn. apply vis_equiv. intros [status|e]; [|done].
  cbn. destruct (identity_of_review c status) as [ident|reason]; [|done].
  unfold cache_identity. by destruct (time_after _ now).
Qed.

Lemma alone_reviewToken c token s audit :
  alone (@handle) (shared_reviewToken c token) (s, audit) ≃ threaded audit (reviewToken c s token).
Proof.
  unfold shared_reviewToken, reviewToken. apply alone_outside. intros now. cbn.
  destruct (cs_tokens s !! sha256_hex token) as [cached|]; [|apply alone_review_uncached].
  destruct (time_before now (cid_expiresAt cached)); [done|apply alone_review_uncached].
Qed.

Lemma alone_program c s audit uid revision backend expression :
  alone (@handle) (shared_program c uid revision backend expression) (s, audit)
  ≃ threaded audit (Ret (program c s uid revision backend expression)).
Proof.
  unfold shared_program, program, threaded. cbn. destruct (cs_programs s !! _) as [p|]; [done|].
  destruct (cel_Compile _ _) as [ast|]; [|done]. destruct (cel_OutputIsBool ast); [|done]. cbn.
  by destruct (cel_MakeProgram _ _ _).
Qed.

Lemma alone_overlay caches d reason s audit :
  alone (@handle) (shared_overlay caches d reason) (s, audit) ≃ threaded audit (overlay caches d reason s).
Proof.
  apply alone_outside. intros now. cbn. by destruct (matchAccessGrant caches d now) as [[[name gr] [|]]|].
Qed.

Lemma alone_evaluate c caches input r s audit :
  alone (@handle) (shared_evaluate c caches input r) (s, audit) ≃ threaded audit (evaluate c caches input r s).
Proof.
  unfold shared_evaluate, evaluate. destruct (backend_expression _ _) as [[expression|]|]; [|apply alone_overlay|done].
  destruct (expression =?s ""); [done|]. rewrite alone_bind, alone_program. cbn.
  destruct (program _ _ _ _ _ _) as [[p|e] s']; [|done]. cbn.
  destruct (cel_Eval p _) as [[[|]|]|]; [done|apply alone_overlay|apply alone_overlay|done].
Qed.

Lemma alone_fresh s audit :
  alone (@handle) shared_fresh (s, audit)
  ≃ threaded audit (isFresh <-- (if cs_lastFreshUnixNano s =? 0 then Ret false
                                 else now <-- call time_Now ;; Ret (fresh s now)) ;; Ret (isFresh, s)).
Proof.
  unfold shared_fresh, fresh, threaded. cbn. destruct (cs_lastFreshUnixNano s =? 0); [done|].
  by apply vis_equiv.
Qed.

Lemma alone_check_body c caches input s audit :
  alone (@handle) (shared_check_body c caches input) (s, audit) ≃ threaded audit (check_body c caches input s).
Proof.
  unfold shared_check_body, check_body. rewrite alone_bind, alone_fresh. unfold threaded.
  rewrite !prog_bind_assoc. apply prog_bind_equiv; [done|]. intros [|]; [|done]. cbn [prog_bind negb fst snd].
  rewrite alone_bind, alone_reviewToken. unfold threaded. rewrite !prog_bind_assoc.
  apply prog_bind_equiv; [done|]. intros [[[ident|d]|e] s1]; [|done|done]. cbn [prog_bind fst snd].
  destruct (resolve_pod c caches ident input) as [[d err]|source]; [done|].
  destruct (resolve_bundle c caches ident input source) as [[d err]|r]; [done|]. apply alone_evaluate.
Qed.

Lemma alone_count d err s audit :
  alone (@handle) (shared_count d err) (s, audit) ≃ Ret (tt, (count_outcome d err s, audit)).
Proof. unfold shared_count, count_outcome. destruct err; [done|]. by destruct (d_Allow d). Qed.

(** One check without interruption does exactly what the sequential model of [Check] does. *)
Theorem Check_alone c caches input s audit :
  alone (@handle) (shared_Check c (bool_decide (is_Some audit)) caches input) (s, audit)
  ≃ Check c caches input (s, audit).
Proof.
  unfold shared_Check, Check. rewrite alone_bind, alone_check_body. unfold threaded. rewrite prog_bind_assoc.
  apply prog_bind_equiv; [done|]. intros [[d err] s1]. cbn [prog_bind fst snd].
  assert (forall st d1 err1, alone (@handle) (_ <-- shared_count d1 err1 ;; Ret (d1, err1)) (s1, st)
                             ≃ Ret (d1, err1, (count_outcome d1 err1 s1, st))) as Hcount.
  { intros st d1 err1. by rewrite alone_bind, alone_count. }
  unfold shared_record. destruct audit as [sink|]; [rewrite bool_decide_eq_true_2 by eauto|].
  - destruct (d_AssignmentUID d <>?s ""); cbn [andb]; [|apply Hcount].
    rewrite !alone_bind, alone_call. cbn [handle snd]. rewrite !prog_bind_assoc.
    apply prog_bind_equiv; [done|]. intros [[[]|e] sink']; cbn [prog_bind alone fst snd]; [apply Hcount|].
    destruct (d_Allow d); apply Hcount.
  - rewrite bool_decide_eq_false_2 by (by intros []). cbn [andb]. apply Hcount.
Qed.

End sequential.

(** ** What a check has read

    The events of a thread outside the checker, and the sequential check from what it has read. *)

Definition outside_event (e : Event Shared) : option KEvent :=
  match e with
  | Ev op r => match op in Shared R return R -> option KEvent with
               | Outside op => fun r => Some (Ev op r)
               | _ => fun _ => None
               end r
  end.
Definition outside_events (t : list (Event Shared)) : list KEvent := omap outside_event t.

Lemma outside_events_app t u : outside_events (t ++ u) = outside_events t ++ outside_events u.
Proof. apply omap_app. Qed.

Lemma elem_of_outside_events {R} (op : Kube R) r t : Ev op r ∈ outside_events t -> Ev (Outside op) r ∈ t.
Proof.
  unfold outside_events. rewrite list_elem_of_omap. intros ([R' op' r'] & Hin & E). destruct op'; try done.
  cbn in E. assert (Ev op0 r' = Ev op r) as E' by congruence.
  apply (f_equal (event_within (@Outside))) in E'. cbn in E'. by rewrite <- E'.
Qed.

(** A snapshot of the token cache that a review has read, with the clock it compared it to. *)
Definition tokens_read (t : list (Event Shared)) (tokens : gmap string cachedIdentity) : Prop :=
  tokens = ∅ \/
  exists tokenHash now ident, tokens = {[tokenHash := {| cid_identity := ident; cid_expiresAt := now + 1 |}]} /\
    Ev (Outside time_Now) now ∈ t /\ Ev (Locked (tokens_Take tokenHash now)) (Some ident) ∈ t.

Definition programs_read (t : list (Event Shared)) (programs : gmap string cel_Program) : Prop :=
  programs = ∅ \/
  exists key p, programs = {[key := p]} /\ Ev (Locked (programs_Get key)) (Some p) ∈ t.

(** The answers of [t] are those of the critical sections, performed from [s] to [s']. *)
Fixpoint replays (t : list (Event Shared)) (s s' : CheckerState) : Prop :=
  match t with
  | [] => s' = s
  | Ev op r :: t =>
      match op in Shared R return R -> Prop with
      | Locked op => fun r => r = (atomic op s).1 /\ replays t (atomic op s).2 s'
      | _ => fun _ => replays t s s'
      end r
  end.

Lemma replays_app t u s s' s'' : replays t s s' -> replays u s' s'' -> replays (t ++ u) s s''.
Proof.
  revert s. induction t as [|[R op r] t IH]; intros s; [by intros ->|]. cbn.
  destruct op; [apply IH| |apply IH]. intros [-> Ht] Hu. by split; [|apply IH].
Qed.

Section replay.
Context {A : Type} `{AuditSink A}.

Lemma replays_alone {X} (p : Prog Shared X) t x s s' :
  (forall d r, Ev (audit_Record d) r ∉ t) -> run p t x -> replays t s s' ->
  run (alone (@handle A _) p (s, None)) (outside_events t) (x, (s', None)).
Proof.
  intros Ha. revert t s Ha. induction p as [y|R op k IH]; intros t s Ha; cbn [run alone].
  - intros [-> ->] ->. done.
  - intros (r & t' & -> & Hr) Hre. assert (forall d r, Ev (audit_Record d) r ∉ t') as Ha' by set_solver.
    destruct op; cbn in Hre |- *.
    + exists r, (outside_events t'). split; [done|]. by apply IH.
    + destruct Hre as [-> Hre]. by apply IH.
    + exfalso. apply (Ha d r). set_solver.
Qed.

End replay.

Lemma unit_eq (u v : unit) : u = v.
Proof. by destruct u, v. Qed.

Lemma review_replays c token t r :
  run (shared_reviewToken c token) t r ->
  exists tokens, tokens_read t tokens /\ forall s, cs_tokens s = tokens ->
    exists s', replays t s s' /\ cs_programs s' = cs_programs s.
Proof.
  unfold shared_reviewToken, shared_review_uncached, outside, locked. intros Hr.
  run_step Hr. run_step Hr. destruct a0 as [ident|].
  - run_step Hr. run_step Hr. eexists. split.
    { right. exists (sha256_hex token), a, ident. split_and!; [reflexivity|set_solver|set_solver]. }
    intros s Hs. eexists. cbn. rewrite Hs, lookup_singleton_eq. cbn. unfold time_before.
    rewrite (proj2 (Z.ltb_lt a (a + 1))) by lia. split_and!; [done|apply unit_eq|done|done].
  - exists ∅. split; [by left|]. intros s Hs. run_step Hr. run_step Hr.
    destruct a1 as [status|e]; [destruct (identity_of_review c status) as [ident|reason]|];
      [destruct (time_after _ a)| |]; repeat run_step Hr; (eexists; cbn; rewrite Hs, lookup_empty; cbn;
      split_and!; try apply unit_eq; done).
Qed.

Lemma program_replays c uid revision backend expression t r :
  run (shared_program c uid revision backend expression) t r ->
  exists programs, programs_read t programs /\ forall s, cs_programs s = programs -> exists s', replays t s s'.
Proof.
  unfold shared_program, locked. intros Hr. run_step Hr. destruct a as [p|].
  - run_step Hr. exists {[program_key uid revision backend := p]}. split; [right; eexists _, _; split; [done|set_solver]|].
    intros s Hs. exists s. cbn. by rewrite Hs, lookup_singleton_eq.
  - exists ∅. split; [by left|]. intros s Hs. destruct (cel_Compile _ _) as [ast|]; [destruct (cel_OutputIsBool ast)|];
      [destruct (cel_MakeProgram _ _ _)|..]; cbn [negb] in Hr; repeat run_step Hr;
      eexists; cbn; rewrite Hs, lookup_empty; (split; [done|]); try done. split; [apply unit_eq|done].
Qed.

(** No critical section of these answers anything. *)
Definition unanswered (t : list (Event Shared)) : Prop := forall s, exists s', replays t s s'.

Lemma overlay_replays caches d reason t r : run (shared_overlay caches d reason) t r -> unanswered t.
Proof.
  unfold shared_overlay, outside, locked. intros Hr s. run_step Hr.
  destruct (matchAccessGrant caches d a) as [[[name gr] [|]]|]; repeat run_step Hr; eexists; cbn; try done.
  split; [apply unit_eq|done].
Qed.

Lemma evaluate_replays c caches input r t out :
  run (shared_evaluate c caches input r) t out ->
  exists programs, programs_read t programs /\ forall s, cs_programs s = programs -> exists s', replays t s s'.
Proof.
  unfold shared_evaluate. intros Hr.
  assert (unanswered t -> exists programs, programs_read t programs /\
    forall s, cs_programs s = programs -> exists s', replays t s s') as Hplain.
  { intros Hu. exists ∅. split; [by left|]. intros s _. apply Hu. }
  destruct (backend_expression _ _) as [[expression|]|e]; [|by apply Hplain; eapply overlay_replays|].
  2: { run_step Hr. apply Hplain. intros s. by exists s. }
  destruct (expression =?s ""); [run_step Hr; apply Hplain; intros s; by exists s|].
  apply run_bind in Hr as (compiled & t1 & t2 & -> & Hp & Hr).
  apply program_replays in Hp as (programs & Hread & Hp).
  exists programs. split.
  { destruct Hread as [->|(key & p & -> & Hin)]; [by left|]. right. exists key, p. set_solver. }
  intros s Hs. destruct (Hp s Hs) as [s1 H1']. enough (unanswered t2) as Hu.
  { destruct (Hu s1) as [s2 H2']. exists s2. by eapply replays_app. }
  assert (forall out', run (_ <-- locked (metrics_Add celErrors) ;; Ret out') t2 out -> unanswered t2) as Hcount.
  { intros out' Ho s2. unfold locked in Ho. run_step Ho. run_step Ho. eexists. cbn. split; [apply unit_eq|done]. }
  destruct compiled as [p|e]; [|by eapply Hcount].
  destruct (cel_Eval p _) as [[[|]|]|]; [|by eapply overlay_replays..|by eapply Hcount].
  run_step Hr. intros s2. by exists s2.
Qed.

(** A state with what the check has read, and nothing else. *)
Record snapshot (t : list (Event Shared)) (s : CheckerState) : Prop := {
  sn_last : Ev (Locked lastFresh_Load) (cs_lastFreshUnixNano s) ∈ t;
  sn_tokens : tokens_read t (cs_tokens s);
  sn_programs : programs_read t (cs_programs s)
}.

Lemma tokens_read_sub t u m : t ⊆ u -> tokens_read t m -> tokens_read u m.
Proof. intros Hsub [->|(h & now & ident & -> & Hn & Ht)]; [by left|]. right. exists h, now, ident. auto. Qed.

Lemma programs_read_sub t u m : t ⊆ u -> programs_read t m -> programs_read u m.
Proof. intros Hsub [->|(key & p & -> & Hp)]; [by left|]. right. exists key, p. auto. Qed.

Lemma check_body_replays c caches input t out :
  run (shared_check_body c caches input) t out -> exists s s', replays t s s' /\ snapshot t s.
Proof.
  unfold shared_check_body. intros Hr. apply run_bind in Hr as (isFresh & t1 & t2 & -> & Hf & Hr).
  assert (exists last, Ev (Locked lastFresh_Load) last ∈ t1 /\
    forall s, cs_lastFreshUnixNano s = last -> replays t1 s s) as (last & Hlast & Hf1).
  { unfold shared_fresh, outside, locked in Hf. run_step Hf. exists a. destruct (a =? 0); repeat run_step Hf;
      (split; [set_solver|]); intros s Hs; by cbn. }
  destruct isFresh; cbn [negb] in Hr.
  2: { unfold locked in Hr. run_step Hr. run_step Hr.
       eexists {| cs_programs := ∅; cs_tokens := ∅; cs_lastFreshUnixNano := last; cs_metrics := zero_metrics |}, _.
       split; [eapply replays_app; [by apply Hf1|]; cbn; split; [apply unit_eq|done]|].
       constructor; cbn; [set_solver|by left|by left]. }
  apply run_bind in Hr as (reviewed & t3 & t4 & -> & Hrev & Hr).
  apply review_replays in Hrev as (tokens & Htok & Hrev).
  assert (exists programs, programs_read t4 programs /\ forall s, cs_programs s = programs -> exists s', replays t4 s s')
    as (programs & Hprog & Hev).
  { assert (forall x, run (Ret x : Prog Shared (Decision * option error)) t4 out -> exists programs,
      programs_read t4 programs /\ forall s, cs_programs s = programs -> exists s', replays t4 s s') as Hdone.
    { intros x [-> _]. exists ∅. split; [by left|]. intros s _. by exists s. }
    destruct reviewed as [[ident|d]|e]; [|by eapply Hdone..].
    destruct (resolve_pod c caches ident input) as [[d err]|source]; [by eapply Hdone|].
    destruct (resolve_bundle c caches ident input source) as [[d err]|r]; [by eapply Hdone|].
    by eapply evaluate_replays. }
  set (s := {| cs_programs := programs; cs_tokens := tokens; cs_lastFreshUnixNano := last; cs_metrics := zero_metrics |}).
  destruct (Hrev s eq_refl) as (s1 & Hs1 & Hp1). destruct (Hev s1 Hp1) as [s2 Hs2].
  exists s, s2. split; [eapply replays_app; [by apply Hf1|]; by eapply replays_app|].
  constructor; cbn; [set_solver|eapply tokens_read_sub; [|done]; set_solver|eapply programs_read_sub; [|done]; set_solver].
Qed.

#[local] Instance no_sink : AuditSink Empty_set := {
  AuditSink_Record _ sink := match sink with end; AuditSink_Metrics sink := match sink with end }.

Definition is_audit (e : Event Shared) : bool := match e with Ev (audit_Record _) _ => true | _ => false end.

Lemma check_body_silent c caches input : quiet is_audit (shared_check_body c caches input).
Proof.
  unfold shared_check_body, shared_fresh, shared_reviewToken, shared_review_uncached, shared_evaluate, shared_program,
    shared_overlay, outside, locked. solve_quiet.
Qed.

(** A check among other threads is a sequential check from a snapshot of what it has read. *)
Theorem check_body_snapshot c caches input t d err :
  run (shared_check_body c caches input) t (d, err) ->
  exists s s', snapshot t s /\ run (check_body c caches input s) (outside_events t) (d, err, s').
Proof.
  intros Hr. destruct (check_body_replays _ _ _ _ _ Hr) as (s & s' & Hre & Hs). exists s, s'. split; [done|].
  eapply (replays_alone (A := Empty_set)) in Hre; [|intros d0 r Hin; by eapply quiet_elem; [apply check_body_silent|..]|done].
  apply alone_check_body, run_bind in Hre as ([x s1] & t1 & t2 & -> & Hc & [-> E]).
  rewrite app_nil_r. cbn in E. by simplify_eq.
Qed.

(** ** What a thread writes *)

Definition is_write (e : Event Shared) : bool :=
  match e with
  | Ev (Locked (lastFresh_Store _)) _ | Ev (Locked (tokens_Put _ _)) _ | Ev (Locked (programs_Put _ _)) _ => true
  | _ => false
  end.

(** A check writes the identity of a TokenReview it has made, until the expiry it has computed
    from its clock, and the program of an expression that the revision of the key declares. *)
Inductive check_write (c : CheckerConfig) (before : list (Event Shared)) : Event Shared -> Prop :=
  | write_token token now status ident :
      Ev (Outside time_Now) now ∈ before ->
      Ev (Outside (TokenReviews_Create token [cc_audience c])) (Ok status) ∈ before ->
      identity_of_review c status = inl ident ->
      check_write c before (Ev (Locked (tokens_Put (sha256_hex token)
        {| cid_identity := ident; cid_expiresAt := cache_expiry token now |})) tt)
  | write_program uid spec revision backend expression p :
      no_nul uid -> no_nul revision -> storable spec = true -> PolicyRevision (Some spec) = Ok revision ->
      spec_expression spec backend = Some expression -> program_for c expression p ->
      check_write c before (Ev (Locked (programs_Put (program_key uid revision backend) p)) tt).

(** The freshness loop writes the time it has read after the informers had synchronized, or after
    every list of a probe had succeeded. *)
Inductive fresh_write (c : CheckerConfig) (before : list (Event Shared)) : Event Shared -> Prop :=
  | write_start t :
      before = [Ev (Outside time_Now) t] -> fresh_write c before (Ev (Locked (lastFresh_Store t)) tt)
  | write_probe b pr t :
      before = b ++ (event_within (@Outside) <$> pr) ++ [Ev (Outside time_Now) t] ->
      run (probeFreshness c) pr (Ok tt) ->
      fresh_write c before (Ev (Locked (lastFresh_Store t)) tt).

Lemma guarded_seq {X Y} c (p : Prog Shared X) (k : X -> Prog Shared Y) :
  guarded is_write (check_write c) p ->
  (forall x t, run p t x -> guarded is_write (check_write c) (k x)) ->
  guarded is_write (check_write c) (prog_bind p k).
Proof.
  intros Hp Hk. apply guarded_bind; [done|]. intros x t Hx. eapply guarded_weaken; [by eapply Hk|].
  intros u e []; [eapply write_token|eapply write_program]; rewrite ?elem_of_app; eauto.
Qed.

Lemma review_guarded c token : guarded is_write (check_write c) (shared_reviewToken c token).
Proof.
  unfold shared_reviewToken, outside, locked.
  apply guarded_bind; [apply guarded_quiet; solve_quiet|]. intros now t1 ->%run_call.
  apply guarded_bind; [apply guarded_quiet; solve_quiet|]. intros [ident|] t2 ->%run_call; [apply guarded_quiet; solve_quiet|].
  unfold shared_review_uncached, outside, locked.
  apply guarded_bind; [apply guarded_quiet; solve_quiet|]. intros [] t3 ->%run_call.
  apply guarded_bind; [apply guarded_quiet; solve_quiet|]. intros [status|e] t4 ->%run_call; [|apply guarded_ret].
  destruct (identity_of_review c status) as [ident|reason] eqn:Ei; [|apply guarded_ret].
  apply guarded_bind; [|intros; apply guarded_ret]. destruct (time_after _ now); [|apply guarded_ret].
  apply guarded_call. intros []. eapply write_token; [..|exact Ei]; cbn; set_solver.
Qed.

Lemma program_guarded c uid spec revision backend expression :
  no_nul uid -> storable spec = true -> PolicyRevision (Some spec) = Ok revision ->
  spec_expression spec backend = Some expression ->
  guarded is_write (check_write c) (shared_program c uid revision backend expression).
Proof.
  intros Hu Hst Hrev Hex. unfold shared_program, locked.
  apply guarded_seq; [apply guarded_quiet; solve_quiet|]. intros [p|] t _; [apply guarded_ret|].
  destruct (cel_Compile _ _) as [ast|] eqn:Ec; [|apply guarded_ret].
  destruct (cel_OutputIsBool ast) eqn:Eb; [|apply guarded_ret]. cbn [negb].
  destruct (cel_MakeProgram _ _ _) as [p|] eqn:Em; [|apply guarded_ret].
  apply guarded_seq; [|intros; apply guarded_ret]. apply guarded_call. intros [].
  apply (write_program _ _ uid spec revision backend expression); eauto using revision_text. by exists ast.
Qed.

Lemma overlay_silent caches d reason : quiet is_write (shared_overlay caches d reason).
Proof. unfold shared_overlay, outside, locked. solve_quiet. Qed.

Lemma evaluate_guarded c caches input r :
  no_nul (rv_bundleUID r) -> storable (cb_Spec (u_obj (rv_bundle r))) = true ->
  checkerPolicyRevision (rv_bundle r) = Ok (d_CapabilityBundleRevision (rv_decision r)) ->
  guarded is_write (check_write c) (shared_evaluate c caches input r).
Proof.
  intros Hu Hst Hrev. unfold shared_evaluate.
  destruct (backend_expression _ _) as [[expression|]|e] eqn:Eb; [|apply guarded_quiet, overlay_silent|apply guarded_ret].
  destruct (expression =?s ""); [apply guarded_ret|].
  destruct (backend_expression_spec _ _ _ Eb) as [Hcr Hse]. rewrite Hcr in Hrev.
  apply guarded_seq; [by eapply program_guarded|]. intros compiled t _. apply guarded_quiet.
  destruct compiled as [p|e]; [|unfold locked; solve_quiet].
  destruct (cel_Eval p _) as [[[|]|]|]; [apply quiet_ret|apply overlay_silent|apply overlay_silent|unfold locked; solve_quiet].
Qed.

Lemma check_body_guarded c caches input :
  bundles_text caches -> guarded is_write (check_write c) (shared_check_body c caches input).
Proof.
  intros Htext. unfold shared_check_body.
  apply guarded_seq; [apply guarded_quiet; unfold shared_fresh, outside, locked; solve_quiet|]. intros [|] t _; cbn [negb];
    [|apply guarded_quiet; unfold locked; solve_quiet].
  apply guarded_seq; [apply review_guarded|]. intros [[ident|d]|e] t1 _; [|apply guarded_ret..].
  destruct (resolve_pod c caches ident input) as [[d err]|source]; [apply guarded_ret|].
  destruct (resolve_bundle c caches ident input source) as [[d err]|rv] eqn:Eb; [apply guarded_ret|].
  apply resolve_bundle_inr in Eb as (object & Hpin & _ & Huid & _).
  destruct (Htext _ _ (bp_bundle _ _ _ _ _ _ Hpin)) as [Hnul Hsto].
  apply evaluate_guarded; [by rewrite Huid|done|apply Hpin].
Qed.

Lemma Check_guarded c audit caches input :
  bundles_text caches -> guarded is_write (check_write c) (shared_Check c audit caches input).
Proof.
  intros Htext. apply guarded_seq; [by apply check_body_guarded|]. intros [d err] t _. apply guarded_quiet.
  unfold shared_record, shared_count, locked. solve_quiet.
Qed.

Lemma freshnessLoop_guarded c rounds b :
  guarded is_write (fun t e => fresh_write c (b ++ t) e) (shared_freshnessLoop c rounds).
Proof.
  revert b. induction rounds as [|rounds IH]; intros b; cbn [shared_freshnessLoop]; [apply guarded_ret|].
  unfold outside, locked. apply guarded_bind; [apply guarded_quiet; solve_quiet|].
  intros [e|] t1 ->%run_call; [apply guarded_ret|].
  apply guarded_bind.
  { apply guarded_quiet. intros tr a (pr & -> & _)%run_within. induction pr as [|[R op r] pr IHp]; done. }
  intros probed t2 Hp. apply guarded_bind.
  - destruct probed as [[]|e]; [|apply guarded_ret]. apply run_within in Hp as (pr & -> & Hp).
    apply guarded_bind; [apply guarded_quiet; solve_quiet|]. intros now t3 ->%run_call.
    apply guarded_call. intros []. eapply (write_probe _ _ (b ++ [Ev (Outside ctx_Done) None]) pr); [|done].
    cbn. rewrite <- !app_assoc. cbn. by rewrite ?app_nil_r.
  - intros [] t3 _. eapply guarded_weaken; [apply (IH (b ++ [Ev (Outside ctx_Done) None] ++ t2 ++ t3))|].
    intros t e. cbv beta. by rewrite <- !app_assoc.
Qed.

Lemma Start_guarded c rounds : guarded is_write (fresh_write c) (shared_Start c rounds).
Proof.
  unfold shared_Start, outside, locked. apply guarded_bind; [apply guarded_quiet; solve_quiet|]. intros now t1 ->%run_call.
  apply guarded_bind; [apply guarded_call; intros []; by apply write_start|]. intros [] t2 ->%run_call.
  eapply guarded_weaken; [apply freshnessLoop_guarded|]. intros t e. cbv beta. by rewrite app_assoc.
Qed.

(** ** The threads of the service *)

Inductive Work :=
  | CheckWork (caches : Caches) (input : CheckInput)
  | FreshnessWork (rounds : nat).

Definition thread (c : CheckerConfig) (audit : bool) (w : Work) : Prog Shared (option (Decision * option error)) :=
  match w with
  | CheckWork caches input => r <-- shared_Check c audit caches input ;; Ret (Some r)
  | FreshnessWork rounds => _ <-- shared_Start c rounds ;; Ret None
  end.

Definition work_text (w : Work) : Prop := match w with CheckWork caches _ => bundles_text caches | FreshnessWork _ => True end.

(** The checker as [NewKubernetesChecker] creates it. *)
Definition new_state : CheckerState :=
  {| cs_programs := ∅; cs_tokens := ∅; cs_lastFreshUnixNano := 0; cs_metrics := zero_metrics |}.

(** A critical section answers from the state it finds; nothing is known of the other answers. *)
Definition shared_answers {R} (op : Shared R) (s : CheckerState) (r : R) (s' : CheckerState) : Prop :=
  match op in Shared R return R -> Prop with
  | Locked op => fun r => (r, s') = atomic op s
  | _ => fun _ => s' = s
  end r.

Definition serves (c : CheckerConfig) (audit : bool) (works : nat -> Work) :=
  execution (@shared_answers) new_state (fun i => thread c audit (works i)).

Lemma thread_guarded c audit w :
  work_text w -> guarded is_write (fun t e => check_write c t e \/ fresh_write c t e) (thread c audit w).
Proof.
  intros Hw. destruct w as [caches input|rounds]; cbn [thread].
  - apply guarded_bind; [|intros; apply guarded_ret]. eapply guarded_weaken; [by apply Check_guarded|auto].
  - apply guarded_bind; [|intros; apply guarded_ret]. eapply guarded_weaken; [apply Start_guarded|auto].
Qed.

Definition kube_answer {R} (op : Kube R) : R.
Proof. destruct op; try (exact (Err (ErrMsg ""))); [exact 0|exact ""|exact None|destruct op|destruct op]; try (exact (Err (ErrMsg ""))); [exact None|exact tt]. Defined.

Definition shared_answer R (op : Shared R) : R :=
  match op in Shared R return R with
  | Outside op => kube_answer op
  | Locked op => (atomic op new_state).1
  | audit_Record _ => Ok tt
  end.

(** ** Where the contents of the shared state come from *)

(** The state holds what some thread has put there, within the limits of the caches. *)
Record sourced (tr : list (nat * Event Shared)) (s : CheckerState) : Prop := {
  so_last : cs_lastFreshUnixNano s = 0 \/
    exists i, (i, Ev (Locked (lastFresh_Store (cs_lastFreshUnixNano s))) tt) ∈ tr;
  so_tokens : forall h entry, cs_tokens s !! h = Some entry -> exists i, (i, Ev (Locked (tokens_Put h entry)) tt) ∈ tr;
  so_programs : forall key p, cs_programs s !! key = Some p -> exists i, (i, Ev (Locked (programs_Put key p)) tt) ∈ tr;
  so_tokens_size : (size (cs_tokens s) <= maxTokenCacheEntries)%nat;
  so_programs_size : (size (cs_programs s) <= maxCompiledPrograms)%nat
}.

(** What a read returns was put there before. *)
Definition read_sourced (tr : list (nat * Event Shared)) (e : Event Shared) : Prop :=
  match e with
  | Ev op r => match op in Shared R return R -> Prop with
      | Locked op => fun r => match op in Critical R return R -> Prop with
          | lastFresh_Load => fun last => last = 0 \/ exists i, (i, Ev (Locked (lastFresh_Store last)) tt) ∈ tr
          | tokens_Take h now => fun found => forall ident, found = Some ident -> exists i entry,
              (i, Ev (Locked (tokens_Put h entry)) tt) ∈ tr /\ ident = cid_identity entry /\ now < cid_expiresAt entry
          | programs_Get key => fun found => forall p, found = Some p -> exists i, (i, Ev (Locked (programs_Put key p)) tt) ∈ tr
          | _ => fun _ => True
          end r
      | _ => fun _ => True
      end r
  end.

Lemma read_sourced_sub tr tr' e : tr ⊆ tr' -> read_sourced tr e -> read_sourced tr' e.
Proof.
  intros Hsub. destruct e as [R op r]. destruct op as [R op|R op|d]; [done| |done]. destruct op; cbn; try done.
  - intros [->|[i Hi]]; [by left|right; eauto].
  - intros Hf ident ->. destruct (Hf _ eq_refl) as (i & entry & Hi & ?). exists i, entry. auto.
  - intros Hf p ->. destruct (Hf _ eq_refl) as (i & Hi). eauto.
Qed.

Lemma sourced_sub tr tr' s : tr ⊆ tr' -> sourced tr s -> sourced tr' s.
Proof.
  intros Hsub [Hl Ht Hp Hts Hps]. constructor; [|intros h e He|intros k p Hk|done|done].
  - destruct Hl as [?|[i ?]]; [by left|right; eauto].
  - destruct (Ht _ _ He) as [i ?]; eauto.
  - destruct (Hp _ _ Hk) as [i ?]; eauto.
Qed.

Lemma take_sourced tr tr' h now s r s' :
  (r, s') = atomic (tokens_Take h now) s -> sourced tr s -> sourced tr' s ->
  sourced tr' s' /\ read_sourced tr (Ev (Locked (tokens_Take h now)) r).
Proof.
  intros Ha Hs Hs'. cbn in Ha.
  assert (sourced tr' (with_tokens (delete h (cs_tokens s)) s)) as Hmiss.
  { destruct Hs'. constructor; cbn; try done.
    - intros h' e [_ He]%lookup_delete_Some. eauto.
    - etrans; [|exact so_tokens_size0]. rewrite map_size_delete. destruct (_ !! h); cbn; lia. }
  destruct (cs_tokens s !! h) as [cached|] eqn:El; [|by injection Ha as -> ->].
  destruct (time_before now (cid_expiresAt cached)) eqn:Et; injection Ha as -> ->; [|done].
  split; [done|]. intros ident [= <-]. destruct (so_tokens _ _ Hs _ _ El) as [i Hi]. exists i, cached.
  split_and!; [done|done|]. by apply Z.ltb_lt.
Qed.

Lemma atomic_sourced {R} tr i (op : Critical R) s r s' :
  (r, s') = atomic op s -> sourced tr s ->
  sourced (tr ++ [(i, Ev (Locked op) r)]) s' /\ read_sourced tr (Ev (Locked op) r).
Proof.
  intros Ha Hs. apply (sourced_sub _ (tr ++ [(i, Ev (Locked op) r)])) in Hs as Hs'; [|set_solver].
  destruct op; cbn in Ha; simplify_eq.
  - split; [done|apply Hs].
  - split; [|done]. destruct Hs'. constructor; try done. right. exists i. set_solver.
  - by eapply take_sourced.
  - split; [|done]. destruct Hs'. constructor; cbn; try done.
    + intros h e [[-> ->]|He]%bounded_insert_lookup; [exists i; set_solver|eauto].
    + apply bounded_insert_size; [unfold maxTokenCacheEntries; lia|done].
  - split; [done|]. intros p Hp. by apply Hs.
  - split; [|done]. destruct Hs'. constructor; cbn; try done.
    + intros h e [[-> ->]|He]%bounded_insert_lookup; [exists i; set_solver|eauto].
    + apply bounded_insert_size; [unfold maxCompiledPrograms; lia|done].
  - split; [|done]. by destruct Hs'; constructor.
Qed.

Lemma serves_sourced c audit works tr s now :
  serves c audit works tr s now ->
  sourced tr s /\ forall i e, (i, e) ∈ tr -> read_sourced tr e.
Proof.
  unfold serves. induction 1 as [|R tr s now i op k r s' Hx [Hs Hreads] Hi Ha].
  { split; [|by intros i e ?%elem_of_nil]. constructor; cbn; [by left|done|done|rewrite map_size_empty; lia..]. }
  assert (tr ⊆ tr ++ [(i, Ev op r)]) as Hsub by set_solver.
  assert (sourced (tr ++ [(i, Ev op r)]) s' /\ read_sourced tr (Ev op r)) as [Hs' Hr'].
  { destruct op as [R op|R op|d]; cbn in Ha; [|by apply atomic_sourced with s|]; subst s';
      (split; [by eapply sourced_sub|done]). }
  split; [done|]. intros j e [Hin|Hin]%elem_of_app; [by eapply read_sourced_sub, Hreads|].
  apply list_elem_of_singleton in Hin. injection Hin as _ ->. by eapply read_sourced_sub.
Qed.

(** What the writes of an execution rest on: the call, by cases, and what its thread did before. *)
Definition written (c : CheckerConfig) (before : list (Event Shared)) (e : Event Shared) : Prop :=
  match e with
  | Ev op _ => match op with
      | Locked op => match op with
          | lastFresh_Store t => fresh_write c before (Ev (Locked (lastFresh_Store t)) tt)
          | tokens_Put h entry => exists token now status,
              h = sha256_hex token /\ cid_expiresAt entry = cache_expiry token now /\
              Ev (Outside time_Now) now ∈ before /\
              Ev (Outside (TokenReviews_Create token [cc_audience c])) (Ok status) ∈ before /\
              identity_of_review c status = inl (cid_identity entry)
          | programs_Put key p => exists uid spec revision backend expression,
              key = program_key uid revision backend /\ no_nul uid /\ no_nul revision /\
              storable spec = true /\ PolicyRevision (Some spec) = Ok revision /\
              spec_expression spec backend = Some expression /\ program_for c expression p
          | _ => True
          end
      | _ => True
      end
  end.

Lemma write_written c before e : check_write c before e \/ fresh_write c before e -> written c before e.
Proof.
  intros [[token now status ident Hn Hr Hi|uid spec revision backend expression p]|Hf].
  - by exists token, now, status.
  - by exists uid, spec, revision, backend, expression.
  - destruct Hf; cbn; [by apply write_start|by eapply write_probe].
Qed.

Lemma events_before i (tr : list (nat * Event Shared)) t1 e t2 e' : events_of i tr = t1 ++ e :: t2 -> e' ∈ t1 -> (i, e') ∈ tr.
Proof. intros Ht Hin. apply elem_of_events_of. rewrite Ht. set_solver. Qed.

(** An allowing check, taken apart: its body, and the record of its decision. *)
Lemma Check_body_run c audit caches input t d err :
  run (shared_Check c audit caches input) t (d, err) -> d_Allow d = true ->
  exists t1 t2, t = t1 ++ t2 /\ run (shared_check_body c caches input) t1 (d, err) /\
    (audit = true -> d_AssignmentUID d <> "" -> Ev (audit_Record d) (Ok tt) ∈ t2).
Proof.
  unfold shared_Check. intros Hr Ha. apply run_bind in Hr as ([d0 err0] & t1 & t2 & -> & Hb & Hr). exists t1, t2.
  split; [done|]. cbn [fst snd] in Hr. apply run_bind in Hr as ([d1 err1] & t3 & t4 & -> & Hrec & Hr).
  apply run_bind in Hr as (u & t5 & t6 & -> & _ & [-> E]). injection E as -> ->.
  unfold shared_record in Hrec. destruct (audit && _) eqn:Eu.
  - run_step Hrec. destruct a as [[]|e]; [|destruct (d_Allow d0) eqn:Ea0]; run_step Hrec; [|cbn in Ha; congruence..].
    split; [done|]. intros _ _. set_solver.
  - destruct Hrec as [-> E]. injection E as -> ->. split; [done|]. intros -> Hu. cbn in Eu. bool_to_prop. done.
Qed.

Section served.
Context (c : CheckerConfig) (audit : bool) (works : nat -> Work).
Context (Htext : forall i, work_text (works i)).

Lemma serves_written tr s now i e :
  serves c audit works tr s now -> (i, e) ∈ tr -> is_write e = true ->
  exists t1 t2, events_of i tr = t1 ++ e :: t2 /\ written c t1 e.
Proof using Htext.
  intros Hx Hin He.
  destruct (execution_elem _ shared_answer _ _ _ _ _ i _ _ e Hx (thread_guarded c audit _ (Htext i)) Hin He)
    as (t1 & t2 & Ht & Hw). exists t1, t2. split; [done|by apply write_written].
Qed.

Lemma serves_inv tr s now : serves c audit works tr s now -> checker_inv c s.
Proof using Htext.
  intros Hx. destruct (serves_sourced _ _ _ _ _ _ Hx) as [Hs _]. constructor; [apply Hs|apply Hs| |].
  - intros key p [i Hi]%(so_programs _ _ Hs). by destruct (serves_written _ _ _ _ _ Hx Hi eq_refl) as (t1 & t2 & _ & Hw).
  - intros h entry [i Hi]%(so_tokens _ _ Hs).
    destruct (serves_written _ _ _ _ _ Hx Hi eq_refl) as (t1 & t2 & _ & token & n & status & _ & _ & _ & _ & Hid).
    by apply identity_of_review_inl in Hid as (_ & _ & _ & _ & _ & ? & ?).
Qed.

(** The state of a snapshot is coherent, because everything read was put there by a thread. *)
Lemma snapshot_inv tr s now i t s0 :
  serves c audit works tr s now -> t ⊆ events_of i tr -> snapshot t s0 -> checker_inv c s0.
Proof using Htext.
  intros Hx Hsub [_ Ht Hp]. destruct (serves_sourced _ _ _ _ _ _ Hx) as [_ Hreads].
  assert (forall e, e ∈ t -> read_sourced tr e) as Hread.
  { intros e He. apply (Hreads i), elem_of_events_of. auto. }
  constructor.
  - destruct Hp as [->|(key & p & -> & _)]; [rewrite map_size_empty|rewrite map_size_singleton]; unfold maxCompiledPrograms; lia.
  - destruct Ht as [->|(h & n & ident & -> & _)]; [rewrite map_size_empty|rewrite map_size_singleton]; unfold maxTokenCacheEntries; lia.
  - intros key p Hk. destruct Hp as [E|(key' & p' & E & Hin)]; rewrite E in Hk; [done|].
    apply lookup_singleton_Some in Hk as [<- <-]. destruct (Hread _ Hin _ eq_refl) as [j Hj].
    by destruct (serves_written _ _ _ _ _ Hx Hj eq_refl) as (t1 & t2 & _ & Hw).
  - intros h cached Hk. destruct Ht as [E|(h' & n & ident & E & _ & Hin)]; rewrite E in Hk; [done|].
    apply lookup_singleton_Some in Hk as [<- <-]. destruct (Hread _ Hin _ eq_refl) as (j & entry & Hj & -> & _).
    destruct (serves_written _ _ _ _ _ Hx Hj eq_refl) as (t1 & t2 & _ & token & n' & status & _ & _ & _ & _ & Hid).
    by apply identity_of_review_inl in Hid as (_ & _ & _ & _ & _ & ? & ?).
Qed.

(** ** Evidence from the whole execution *)

(** The informers were confirmed at [t], by a synchronization or a successful probe of a thread. *)
Definition confirmed_in (tr : list (nat * Event Shared)) (t : Time) : Prop :=
  exists j t1 t2, events_of j tr = t1 ++ Ev (Locked (lastFresh_Store t)) tt :: t2 /\
    fresh_write c t1 (Ev (Locked (lastFresh_Store t)) tt).

(** Some thread [j] had the API server review the token, with this identity as the answer; for a
    thread [i] other than [j], at most the lifetime of a cache entry after the clock of [j], and
    before the expiry that the token declares. *)
Definition reviewed_in (tr : list (nat * Event Shared)) (i : nat) (token : string) (ident : reviewedIdentity) : Prop :=
  exists j at_review status,
    (j, Ev (Outside time_Now) at_review) ∈ tr /\
    (j, Ev (Outside (TokenReviews_Create token [cc_audience c])) (Ok status)) ∈ tr /\
    identity_of_review c status = inl ident /\
    (j = i \/ exists clock, (i, Ev (Outside time_Now) clock) ∈ tr /\ clock < at_review + tokenCacheTTL /\
       forall expiry, jwtExpiration token = Some expiry -> clock < expiry).

Record concurrent_evidence (tr : list (nat * Event Shared)) (i : nat) (caches : Caches) (input : CheckInput)
  (d : Decision) : Prop := {
  ce_fresh : exists t clock, confirmed_in tr t /\ (i, Ev (Outside time_Now) clock) ∈ tr /\ clock - t <= freshnessLimit;
  ce_target : d_Backend d = ci_Backend input /\ d_Method d = ci_Method input /\
    d_Host d = ci_Host input /\ d_Path d = ci_Path input;
  ce_chain : exists ident pod account object bundle source,
    reviewed_in tr i (ci_IdentityToken input) ident /\
    pod_bound c caches ident input source pod account /\
    bundle_pinned c caches ident object bundle d /\
    authorized c caches input bundle source (outside_events (events_of i tr)) d
}.

Lemma taken_reviewed tr s now i token t n ident :
  Inj (=) (=) sha256_hex -> serves c audit works tr s now -> t ⊆ events_of i tr ->
  Ev (Outside time_Now) n ∈ t -> Ev (Locked (tokens_Take (sha256_hex token) n)) (Some ident) ∈ t ->
  reviewed_in tr i token ident.
Proof using Htext.
  intros Hinj Hx Hsub Hn Htake. destruct (serves_sourced _ _ _ _ _ _ Hx) as [_ Hreads].
  assert ((i, Ev (Locked (tokens_Take (sha256_hex token) n)) (Some ident)) ∈ tr) as Hin by by apply elem_of_events_of, Hsub.
  destruct (Hreads _ _ Hin _ eq_refl) as (j & entry & Hput & -> & Hlt).
  destruct (serves_written _ _ _ _ _ Hx Hput eq_refl)
    as (t1 & t2 & Ht & token' & at_review & status & E & Hexp & Hclock & Hrev & Hid).
  apply (inj sha256_hex) in E as <-.
  exists j, at_review, status. split_and!; [by eapply events_before|by eapply events_before|done|].
  right. exists n. rewrite Hexp in Hlt. destruct (cache_expiry_bound token at_review) as [Httl Hdeclared].
  split_and!; [by apply elem_of_events_of, Hsub|lia|]. intros x Hdx%Hdeclared. lia.
Qed.

Lemma snapshot_evidence tr s now i t s0 caches input d :
  Inj (=) (=) sha256_hex -> serves c audit works tr s now -> t ⊆ events_of i tr -> snapshot t s0 ->
  allow_evidence c caches input s0 (outside_events t) d -> concurrent_evidence tr i caches input d.
Proof using Htext.
  intros Hinj Hx Hsub Hsn [(clock & Hclock & Hl0 & Hle) Htarget Hchain].
  destruct (serves_sourced _ _ _ _ _ _ Hx) as [_ Hreads].
  assert (forall R (op : Kube R) r, Ev op r ∈ outside_events t -> (i, Ev (Outside op) r) ∈ tr) as Hout.
  { intros R op r He%elem_of_outside_events. by apply elem_of_events_of, Hsub. }
  constructor; [|done|].
  - exists (cs_lastFreshUnixNano s0), clock. split_and!; [|by apply Hout|done].
    assert ((i, Ev (Locked lastFresh_Load) (cs_lastFreshUnixNano s0)) ∈ tr) as Hload
      by (apply elem_of_events_of, Hsub, Hsn).
    destruct (Hreads _ _ Hload) as [?|[j Hj]]; [done|].
    destruct (serves_written _ _ _ _ _ Hx Hj eq_refl) as (t1 & t2 & Ht & Hw). by exists j, t1, t2.
  - destruct Hchain as (ident & pod & account & object & bundle & source & Hrev & Hpod & Hpin & Hauth).
    exists ident, pod, account, object, bundle, source. split_and!; [|done|done|].
    + destruct Hrev as [(n & cached & Hn & Hlook & Hlt & ->)|(status & Hst & Hid)].
      * destruct (sn_tokens _ _ Hsn) as [E|(h & n' & ident & E & Hn' & Htake)]; rewrite E in Hlook; [done|].
        apply lookup_singleton_Some in Hlook as [-> <-]. by eapply taken_reviewed.
      * exists i, clock, status. split_and!; [by apply Hout|by apply Hout|done|by left].
    + eapply authorized_mono; [|exact Hauth]. intros e. unfold outside_events. rewrite !list_elem_of_omap.
      intros (e' & He & ?). eauto.
Qed.

(** C20. Checks under concurrency.  In every interleaving of any number of requests with the freshness
    loop, from the creation of the checker on, both caches are bounded and coherent; and a request
    that was allowed returned no error and rests on evidence from that very execution: the informers
    were confirmed at most ten seconds before a clock of the request; the API server reviewed its
    token, for this request or for another one whose cached result had expired neither by the cache's
    lifetime nor by the token's own declaration; the reviewed identity is bound to a live Pod, its
    assignment and pinned bundle; the bundle's expression or an active access request allows the
    target; and the decision was recorded if an audit sink is set.  Tokens and
    revisions are compared by their digests, which are assumed to have no collisions. *)
Theorem concurrent_allow_sound tr s now i caches input d err :
  Inj (=) (=) sha256_hex -> serves c audit works tr s now -> works i = CheckWork caches input ->
  now i = Ret (Some (d, err)) ->
  checker_inv c s /\
  (d_Allow d = true -> err = None /\ concurrent_evidence tr i caches input d /\
     (audit = true -> d_AssignmentUID d <> "" -> (i, Ev (audit_Record d) (Ok tt)) ∈ tr)).
Proof using Htext.
  intros Hinj Hx Hw Hi. split; [by eapply serves_inv|]. intros Ha.
  pose proof (execution_returned _ _ _ _ _ _ _ _ Hx Hi) as Hr. cbv beta in Hr. rewrite Hw in Hr. cbn [thread] in Hr.
  apply run_bind in Hr as (out & t & t' & Et & Hr & [-> E]). injection E as ->. rewrite app_nil_r in Et.
  apply Check_body_run in Hr as (t1 & t2 & -> & Hb & Haudit); [|done].
  assert (t1 ⊆ events_of i tr) as Hsub by (rewrite Et; set_solver).
  apply check_body_snapshot in Hb as (s0 & s1 & Hsn & Hb).
  assert (bundles_text caches) as Hcaches by (specialize (Htext i); by rewrite Hw in Htext).
  apply check_body_run in Hb as [_ Hb]; [|done|done|by eapply snapshot_inv].
  destruct (Hb Ha) as [-> He]. split_and!; [done|by eapply snapshot_evidence|].
  intros Haud Huid. apply elem_of_events_of. rewrite Et. set_solver.
Qed.

End served.

End concurrent.
