(* ===== verification/CallerAuth.v ===== *)
(** * Package [callerauth]: authentication of lifecycle callers

    [internal/assignment/callerauth/authenticator.go].  The middleware is modelled up to the
    point where it hands the request on: it answers with an HTTP status, or continues with the
    caller's logical-tenant scopes, which [AuthorizeTenant] later consults. *)

From S2P Require Import Prelude GoStrings ApiTypes Kube.
From stdpp Require Import options.

Record Authenticator := { au_namespace : string; au_audience : string }.

(** [New]: clients, namespace and audience are required. *)
Definition NewAuthenticator (kube_present dynamic_present : bool) (namespace audience : string)
  : result Authenticator :=
  if negb kube_present || negb dynamic_present || (namespace =?s "") || (audience =?s "")
  then Err (ErrMsg "caller authenticator requires Kubernetes clients, namespace, and audience")
  else Ok {| au_namespace := namespace; au_audience := audience |}.

Section callerauth.
Context `{UnicodeTables}.

Definition bearerToken (value : string) : option string :=
  match cut_byte " " (TrimSpace value) with
  | Some (scheme, token) =>
      if EqualFold scheme "Bearer" && (token <>?s "") && negb (contains_byte " " token)
      then Some token else None
  | None => None
  end.

Definition serviceAccountIdentity (username : string) : option (string * string) :=
  match CutPrefix username "system:serviceaccount:" with
  | None => None
  | Some value =>
      match cut_byte ":" value with
      | Some (namespace, name) =>
          if (namespace <>?s "") && (name <>?s "") && negb (contains_byte ":" name)
          then Some (namespace, name) else None
      | None => None
      end
  end.

(** The binding applies to this ServiceAccount. *)
Definition binds (namespace name : string) (item : Unstructured SandboxPrincipalBinding) : bool :=
  negb (om_deleting (pb_meta (u_obj item)))
  && (nested_string item ["spec"; "serviceAccountNamespace"]
        (Some (pbs_ServiceAccountNamespace (pb_Spec (u_obj item)))) =?s namespace)
  && (nested_string item ["spec"; "serviceAccountName"]
        (Some (pbs_ServiceAccountName (pb_Spec (u_obj item)))) =?s name).

Definition requester_tenants (item : Unstructured SandboxPrincipalBinding) : gset string :=
  match nested item ["spec"; "requesterTenants"] (Some (pbs_RequesterTenants (pb_Spec (u_obj item)))) with
  | Ok (Some values) => list_to_set values
  | _ => ∅
  end.

(** The loop over the bindings; [matched] is nil before the first match. *)
Fixpoint tenants_loop (namespace name : string) (items : list (Unstructured SandboxPrincipalBinding))
  (matched : option (gset string)) : result (option (gset string)) :=
  match items with
  | [] => Ok matched
  | item :: rest =>
      if negb (binds namespace name item) then tenants_loop namespace name rest matched
      else match matched with
      | Some _ => Err (ErrMsg "service account must have exactly one active principal binding")
      | None => tenants_loop namespace name rest (Some (requester_tenants item))
      end
  end.

Definition serviceAccountTenants (a : Authenticator) (namespace name : string)
  : KProg (result (gset string)) :=
  items <-? call (List PrincipalBindings (au_namespace a) list_all) ;;
  match tenants_loop namespace name items None with
  | Err e => Ret (Err e)
  | Ok matched =>
      let tenants := default ∅ matched in
      if bool_decide (tenants = ∅)
      then Ret (Err (ErrMsg "service account has no authorized logical tenant"))
      else Ret (Ok tenants)
  end.

(** [Middleware]: an HTTP error status, or the tenant scopes the next handler runs with. *)
Definition Middleware (a : Authenticator) (authorization : string) : KProg (Z + gset string) :=
  match bearerToken authorization with
  | None => Ret (inl StatusUnauthorized)
  | Some token =>
      review <-- call (TokenReviews_Create token [au_audience a]) ;;
      match review with
      | Err _ => Ret (inl StatusServiceUnavailable)
      | Ok status =>
          if negb (trs_Authenticated status) || Nat.eqb (length (trs_Audiences status)) 0
          then Ret (inl StatusUnauthorized)
          else match serviceAccountIdentity (trs_Username status) with
          | None => Ret (inl StatusForbidden)
          | Some (namespace, name) =>
              tenants <-- serviceAccountTenants a namespace name ;;
              match tenants with
              | Err _ => Ret (inl StatusForbidden)
              | Ok scopes => Ret (inr scopes)
              end
          end
      end
  end.

(** [AuthorizeTenant]: the scopes are the context value the middleware stored, if any. *)
Definition AuthorizeTenant (scopes : option (gset string)) (logicalTenant : string) : result unit :=
  match scopes with
  | None => Err (ErrMsg "caller identity is unavailable")
  | Some tenants =>
      if bool_decide (logicalTenant ∈ tenants) then Ok tt
      else Err (ErrMsg "caller is not authorized for the logical tenant")
  end.

End callerauth.

(** ** Theorems *)

Section callerauth_theorems.
Context `{UnicodeTables}.

(** A ServiceAccount user name determines its namespace and name, and nothing else parses. *)
Lemma serviceAccountIdentity_parts username namespace name :
  serviceAccountIdentity username = Some (namespace, name) <->
  username = "system:serviceaccount:" +:+ namespace +:+ ":" +:+ name /\
  namespace <> "" /\ name <> "" /\
  contains_byte ":" namespace = false /\ contains_byte ":" name = false.
Proof.
  unfold serviceAccountIdentity. split.
  - destruct (CutPrefix _ _) as [value|] eqn:Ep; [|done]. apply CutPrefix_Some in Ep as ->.
    destruct (cut_byte ":" value) as [[ns nm]|] eqn:Ec; [|done].
    apply cut_byte_Some in Ec as [-> Hns]. case_match eqn:Eg; [|done]. intros [= <- <-].
    bool_to_prop. done.
  - intros (-> & Hns & Hnm & Hcns & Hcnm). rewrite CutPrefix_app.
    assert (cut_byte ":" (namespace +:+ ":" +:+ name) = Some (namespace, name)) as ->
      by by apply cut_byte_Some.
    apply seqb_neq in Hns as ->. apply seqb_neq in Hnm as ->. by rewrite Hcnm.
Qed.

Lemma tenants_loop_Ok namespace name items matched out :
  tenants_loop namespace name items matched = Ok out ->
  match List.filter (binds namespace name) items, matched with
  | [], _ => out = matched
  | [item], None => out = Some (requester_tenants item)
  | _, _ => False
  end.
Proof.
  revert matched. induction items as [|item rest IH]; intros matched; cbn [tenants_loop List.filter].
  { intros. by simplify_eq. }
  destruct (binds namespace name item); cbn [negb]; [|apply IH].
  destruct matched as [m|]; [done|]. intros Hl%IH.
  by destruct (List.filter _ rest) as [|? [|? ?]].
Qed.

Lemma Middleware_ok a authorization tr scopes :
  run (Middleware a authorization) tr (inr scopes) ->
  exists token status namespace name items binding,
    bearerToken authorization = Some token /\
    tr = [Ev (TokenReviews_Create token [au_audience a]) (Ok status);
          Ev (List PrincipalBindings (au_namespace a) list_all) (Ok items)] /\
    trs_Authenticated status = true /\ trs_Audiences status <> [] /\
    trs_Username status = "system:serviceaccount:" +:+ namespace +:+ ":" +:+ name /\
    List.filter (binds namespace name) items = [binding] /\
    scopes = requester_tenants binding /\ scopes <> ∅.
Proof.
  unfold Middleware. intros Hr. destruct (bearerToken authorization) as [token|]; [|by run_step Hr].
  run_step Hr. destruct a0 as [status|e]; [|by run_step Hr].
  destruct (negb _ || _) eqn:Ea; [by run_step Hr|].
  destruct (serviceAccountIdentity _) as [[namespace name]|] eqn:Ei; [|by run_step Hr].
  apply run_bind in Hr as ([scopes'|e] & tr2 & tr3 & -> & Hs & Hr); [|by run_step Hr].
  run_step Hr. unfold serviceAccountTenants in Hs. run_step Hs.
  destruct (tenants_loop namespace name a0 None) as [out|] eqn:El; [|by run_step Hs].
  apply tenants_loop_Ok in El. case_bool_decide as Hne; run_step Hs.
  destruct (List.filter (binds namespace name) a0) as [|b [|? ?]] eqn:Ef; subst; [done| |done].
  apply serviceAccountIdentity_parts in Ei as (Hu & _).
  apply orb_false_iff in Ea as [Hauth Haud]. apply negb_false_iff in Hauth.
  exists token, status, namespace, name, a0, b. split_and!; try done.
  intros Hnil. by rewrite Hnil in Haud.
Qed.

(** A request reaches the lifecycle handler only with a bearer token that the API server
    authenticated, of a ServiceAccount with exactly one active principal binding; its tenant
    scopes are then that binding's requester tenants, and there is at least one. *)
Theorem Middleware_sound a authorization tr scopes :
  run (Middleware a authorization) tr (inr scopes) ->
  exists token status namespace name items binding,
    bearerToken authorization = Some token /\
    tr = [Ev (TokenReviews_Create token [au_audience a]) (Ok status);
          Ev (List PrincipalBindings (au_namespace a) list_all) (Ok items)] /\
    trs_Authenticated status = true /\ trs_Audiences status <> [] /\
    trs_Username status = "system:serviceaccount:" +:+ namespace +:+ ":" +:+ name /\
    List.filter (binds namespace name) items = [binding] /\
    scopes = requester_tenants binding /\ scopes <> ∅.
Proof. apply Middleware_ok. Qed.

(** Authorization of a tenant: only with scopes from the middleware that contain it. *)
Lemma AuthorizeTenant_iff scopes tenant :
  AuthorizeTenant scopes tenant = Ok tt <-> exists tenants, scopes = Some tenants /\ tenant ∈ tenants.
Proof. unfold AuthorizeTenant. destruct scopes; [case_bool_decide|]; naive_solver. Qed.

End callerauth_theorems.
