(* ===== verification/Admission.v ===== *)
(** * Package [admission]: tenant budgets for sandbox creation

    [internal/assignment/admission/admission.go].  Kubernetes quantities are library code.
    The loop that acquires the tenant's Lease has no bound of its own: it runs until it
    acquires, fails, or the request is cancelled.  [acquire_loop] takes the number of
    iterations to model and answers [None] when it is still looping after them. *)

From S2P Require Import Prelude GoStrings ApiTypes ApiJson Kube Governance.
From stdpp Require Import options.

(** [k8s.io/apimachinery/pkg/api/resource]. *)
Class Quantities := {
  Quantity : Type;
  ParseQuantity : string -> result Quantity;
  quantity_Sign : Quantity -> Z;
  quantity_Cmp : Quantity -> Quantity -> Z
}.

(** The fields of the SDK's [CreateSandboxRequest] that admission reads. *)
Record CreateShape := { cr_Timeout : option Z; cr_ResourceLimits : gmap string string }.

Record KubernetesAdmission := {
  ka_assignmentNamespace : string;
  ka_workloadNamespace : string;
  ka_kube : bool
}.

(** ** Tenant policies *)

Definition bundleAllowed (spec : SandboxTenantPolicySpec) (name : string) : bool :=
  contains name (tps_AllowedCapabilityBundles spec)
  || existsb (fun prefix => HasPrefix name prefix) (tps_AllowedCapabilityBundlePrefixes spec).

Definition policy_applies (logicalTenant : string) (policy : SandboxTenantPolicy) : bool :=
  tps_Enabled (tp_Spec policy) && (tps_LogicalTenant (tp_Spec policy) =?s logicalTenant)
  && negb (om_deleting (tp_meta policy)).

Fixpoint matching_policies (logicalTenant : string) (items : list (Unstructured SandboxTenantPolicy))
  : result (list SandboxTenantPolicy) :=
  match items with
  | [] => Ok []
  | item :: rest =>
      policy <-! FromUnstructured item ;;
      matches <-! matching_policies logicalTenant rest ;;
      Ok (if policy_applies logicalTenant policy then policy :: matches else matches)
  end.

Definition policyForTenant (a : KubernetesAdmission) (logicalTenant : string)
  : KProg (result SandboxTenantPolicy) :=
  items <-? call (List TenantPolicies (ka_assignmentNamespace a) list_all) ;;
  match matching_policies logicalTenant items with
  | Err e => Ret (Err e)
  | Ok [policy] => Ret (Ok policy)
  | Ok _ => Ret (Err (ErrMsg "logical tenant must have exactly one enabled policy"))
  end.

Definition MaxAccessDuration (a : KubernetesAdmission) (logicalTenant : string) : KProg (result Z) :=
  policy <-? policyForTenant a logicalTenant ;;
  Ret (Ok (tps_MaxAccessRequestDurationSeconds (tp_Spec policy))).

Section admission.
Context `{Quantities} `{Sha256}.

Definition validateResourceLimit (name requested maximum : string) : result unit :=
  if requested =?s "" then Err (ErrMsg (name +:+ " limit is required"))
  else match ParseQuantity requested with
  | Err _ => Err (ErrMsg (name +:+ " limit is invalid"))
  | Ok requestedQuantity =>
      match ParseQuantity maximum with
      | Err _ => Err (ErrMsg ("tenant " +:+ name +:+ " budget is invalid"))
      | Ok maximumQuantity =>
          if quantity_Sign maximumQuantity <=? 0
          then Err (ErrMsg ("tenant " +:+ name +:+ " budget is invalid"))
          else if (quantity_Sign requestedQuantity <=? 0)
                  || (0 <? quantity_Cmp requestedQuantity maximumQuantity)
          then Err (ErrMsg (name +:+ " limit exceeds the tenant budget"))
          else Ok tt
      end
  end.

(** ** The tenant's Lease *)

Definition leaseAvailable (lease : Lease) (now : Time) : bool :=
  match ls_HolderIdentity lease, ls_RenewTime lease, ls_LeaseDurationSeconds lease with
  | Some holder, Some renewTime, Some duration =>
      (holder =?s "") || negb (time_after (time_add renewTime (dur_mul duration Second)) now)
  | _, _, _ => true
  end.

(** [fmt.Sprintf("sandbox-admission-%x", sum[:8])]. *)
Definition lease_name (logicalTenant : string) : string :=
  "sandbox-admission-" +:+ String.substring 0 16 (sha256_hex logicalTenant).

Definition lease_duration : Z := 15.

(** The JSON form of a [metav1.MicroTime] has whole microseconds. *)
Definition micro_time (t : Time) : Time := t / 1000 * 1000.

Definition new_lease (ns name holder : string) (now : Time) : Lease := {|
  ls_meta := {| om_Name := name; om_GenerateName := ""; om_Namespace := ns; om_UID := "";
                om_ResourceVersion := ""; om_Generation := 0; om_CreationTimestamp := zero_time;
                om_DeletionTimestamp := None; om_Labels := ∅; om_Annotations := ∅;
                om_Finalizers := []; om_OwnerReferences := [] |};
  ls_HolderIdentity := Some holder; ls_LeaseDurationSeconds := Some lease_duration;
  ls_AcquireTime := Some (micro_time now); ls_RenewTime := Some (micro_time now) |}.

Definition take_over (lease : Lease) (holder : string) (now : Time) : Lease := {|
  ls_meta := ls_meta lease;
  ls_HolderIdentity := Some holder; ls_LeaseDurationSeconds := Some lease_duration;
  ls_AcquireTime := Some (micro_time now); ls_RenewTime := Some (micro_time now) |}.

(** The release closure: a deletion, conditional on a UID after a take-over. *)
Record Release := { rel_namespace : string; rel_name : string; rel_uid : option string }.

Definition release (r : Release) : KProg unit :=
  _ <-- call (Delete Leases (rel_namespace r) (rel_name r) (rel_uid r)) ;; Ret tt.

Fixpoint acquire_loop (fuel : nat) (ns name holder : string) : KProg (option (result Release)) :=
  match fuel with
  | O => Ret None
  | S fuel =>
      let again :=
        done <-- call ctx_Done ;;
        match done with
        | Some e => Ret (Some (Err e))
        | None => acquire_loop fuel ns name holder
        end in
      now <-- call time_Now ;;
      got <-- call (Get Leases ns name) ;;
      match got with
      | Err e =>
          if IsNotFound e then
            created <-- call (Create Leases ns (new_lease ns name holder now)) ;;
            match created with
            | Ok _ => Ret (Some (Ok {| rel_namespace := ns; rel_name := name; rel_uid := None |}))
            | Err e => if negb (IsAlreadyExists e) then Ret (Some (Err e)) else again
            end
          else Ret (Some (Err e))
      | Ok lease =>
          now' <-- call time_Now ;;
          if leaseAvailable lease now' then
            updated <-- call (Update Leases ns (take_over lease holder now)) ;;
            match updated with
            | Ok lease' =>
                Ret (Some (Ok {| rel_namespace := ns; rel_name := name;
                                 rel_uid := Some (om_UID (ls_meta lease')) |}))
            | Err e => if negb (IsConflict e) then Ret (Some (Err e)) else again
            end
          else again
      end
  end.

Definition acquireTenantLease (fuel : nat) (a : KubernetesAdmission) (logicalTenant : string)
  : KProg (option (result Release)) :=
  if negb (ka_kube a) then Ret (Some (Err (ErrMsg "Kubernetes admission Lease client is required")))
  else
    holder <-- call uuid_NewString ;;
    acquire_loop fuel (ka_assignmentNamespace a) (lease_name logicalTenant) holder.

(** ** Admission of one create request *)

Definition bundle_tenant (bundle : Unstructured CapabilityBundle) : string :=
  nested_string bundle ["spec"; "governance"; "logicalTenant"]
    (gb_LogicalTenant <$> cbs_Governance (cb_Spec (u_obj bundle))).

Definition assignment_bundle (object : Unstructured SandboxAssignment) : string :=
  nested_string object ["spec"; "capabilityBundleRef"; "name"]
    (Some (cbr_Name (as_CapabilityBundleRef (sa_Spec (u_obj object))))).

(** The names of the tenant's bundles and the live assignments that use one of them. *)
Definition tenant_bundles (logicalTenant : string) (bundles : list (Unstructured CapabilityBundle))
  : gset string :=
  list_to_set ((fun b => om_Name (cb_meta (u_obj b))) <$>
    List.filter (fun b => bundle_tenant b =?s logicalTenant) bundles).

Definition counts_active (tenantBundles : gset string) (object : Unstructured SandboxAssignment) : bool :=
  negb (om_deleting (sa_meta (u_obj object))) && bool_decide (assignment_bundle object ∈ tenantBundles).

Definition active_assignments (logicalTenant : string) (bundles : list (Unstructured CapabilityBundle))
  (objects : list (Unstructured SandboxAssignment)) : Z :=
  Z.of_nat (length (List.filter (counts_active (tenant_bundles logicalTenant bundles)) objects)).

(** The checks that precede the Lease. *)
Definition within_policy (a : KubernetesAdmission) (policy : SandboxTenantPolicy) (bundleName : string)
  (request : CreateShape) : result unit :=
  if tps_WorkloadNamespace (tp_Spec policy) <>?s ka_workloadNamespace a
  then Err (ErrMsg "tenant policy targets a different workload namespace")
  else if negb (bundleAllowed (tp_Spec policy) bundleName)
  then Err (ErrMsg "capability bundle is not allowed by the tenant policy")
  else
    let lifetime_ok :=
      match cr_Timeout request with
      | None => false
      | Some timeout => negb ((timeout <? 60) || (tps_MaxLifetimeSeconds (tp_Spec policy) <? 60)
                              || (tps_MaxLifetimeSeconds (tp_Spec policy) <? timeout))
      end in
    if negb lifetime_ok then Err (ErrMsg "requested lifetime exceeds the tenant policy")
    else
      _ <-! validateResourceLimit "cpu" (map_get (cr_ResourceLimits request) "cpu")
              (tps_MaxCPU (tp_Spec policy)) ;;
      validateResourceLimit "memory" (map_get (cr_ResourceLimits request) "memory")
        (tps_MaxMemory (tp_Spec policy)).

(** The checks made while the Lease is held. *)
Definition within_budget (a : KubernetesAdmission) (policy : SandboxTenantPolicy) (logicalTenant : string)
  : KProg (result unit) :=
  bundles <-? call (List Bundles (ka_assignmentNamespace a) list_all) ;;
  assignments <-? call (List Assignments (ka_assignmentNamespace a) list_all) ;;
  if tps_MaxConcurrentSandboxes (tp_Spec policy) <=? active_assignments logicalTenant bundles assignments
  then Ret (Err (ErrMsg "logical tenant reached its concurrent sandbox budget"))
  else Ret (Ok tt).

(** [AuthorizeCreate]: the release closure of an admitted request.  The deferred function
    releases the Lease when the request is not admitted. *)
Definition AuthorizeCreate (fuel : nat) (a : KubernetesAdmission) (bundleName : string)
  (request : CreateShape) : KProg (option (result Release)) :=
  got <-- call (Get Bundles (ka_assignmentNamespace a) bundleName) ;;
  match got with
  | Err e => Ret (Some (Err e))
  | Ok bundleObject =>
      let logicalTenant := bundle_tenant bundleObject in
      if logicalTenant =?s "" then Ret (Some (Err (ErrMsg "capability bundle has no logical tenant")))
      else
        found <-- policyForTenant a logicalTenant ;;
        match found with
        | Err e => Ret (Some (Err e))
        | Ok policy =>
            match within_policy a policy bundleName request with
            | Err e => Ret (Some (Err e))
            | Ok _ =>
                acquired <-- acquireTenantLease fuel a logicalTenant ;;
                match acquired with
                | Some (Ok held) =>
                    checked <-- within_budget a policy logicalTenant ;;
                    match checked with
                    | Ok _ => Ret (Some (Ok held))
                    | Err e => _ <-- release held ;; Ret (Some (Err e))
                    end
                | other => Ret other
                end
            end
        end
  end.

End admission.

(** ** Reading a trace *)

(** The call and answer that give the Lease to [holder]. *)
Inductive acquires (ns name holder : string) : KEvent -> Release -> Prop :=
  | acquires_create now lease :
      acquires ns name holder (Ev (Create Leases ns (new_lease ns name holder now)) (Ok lease))
        {| rel_namespace := ns; rel_name := name; rel_uid := None |}
  | acquires_update old now now' lease :
      leaseAvailable old now' = true ->
      acquires ns name holder (Ev (Update Leases ns (take_over old holder now)) (Ok lease))
        {| rel_namespace := ns; rel_name := name; rel_uid := Some (om_UID (ls_meta lease)) |}.

(** A successful write of a Lease. *)
Definition lease_written (e : KEvent) : bool :=
  match e with
  | Ev op r =>
      match op in Kube R return R -> bool with
      | Create Leases _ _ => fun r => is_ok r
      | Update Leases _ _ => fun r => is_ok r
      | _ => fun _ => false
      end r
  end.

(** A poll of the request context that found it still live. *)
Definition polled_live (e : KEvent) : bool :=
  match e with
  | Ev op r =>
      match op in Kube R return R -> bool with
      | ctx_Done => fun r => match r with None => true | Some _ => false end
      | _ => fun _ => false
      end r
  end.

Definition live_polls (tr : list KEvent) : nat := length (List.filter polled_live tr).

Lemma live_polls_app t1 t2 : live_polls (t1 ++ t2) = (live_polls t1 + live_polls t2)%nat.
Proof. unfold live_polls. by rewrite List.filter_app, length_app. Qed.

Section admission_proofs.
Context `{Quantities} `{Sha256}.

(** One iteration of the acquisition loop: the calls it makes, then the outcome. *)
Lemma acquire_loop_run fuel ns name holder tr r :
  run (acquire_loop fuel ns name holder) tr r ->
  match r with
  | None => live_polls tr = fuel /\ existsb lease_written tr = false
  | Some (Err _) => (live_polls tr < fuel)%nat /\ existsb lease_written tr = false
  | Some (Ok held) => (live_polls tr < fuel)%nat /\
      exists tr0 e, tr = tr0 ++ [e] /\ existsb lease_written tr0 = false /\ acquires ns name holder e held
  end.
Proof.
  revert tr. induction fuel as [|fuel IH]; intros tr; cbn [acquire_loop].
  { intros Hr. run_step Hr. done. }
  intros Hr. run_step Hr. run_step Hr.
  set (again := done <-- call ctx_Done ;; _) in Hr.
  assert (forall pre trn, live_polls pre = 0%nat -> existsb lease_written pre = false ->
    run again trn r ->
    match r with
    | None => live_polls (pre ++ trn) = S fuel /\ existsb lease_written (pre ++ trn) = false
    | Some (Err _) => (live_polls (pre ++ trn) < S fuel)%nat /\ existsb lease_written (pre ++ trn) = false
    | Some (Ok held) => (live_polls (pre ++ trn) < S fuel)%nat /\
        exists tr5 e, pre ++ trn = tr5 ++ [e] /\ existsb lease_written tr5 = false /\
          acquires ns name holder e held
    end) as Hagain.
  { intros pre trn Hp0 Hw Ha. unfold again in Ha. run_step Ha. destruct a1 as [e|].
    - run_step Ha. rewrite live_polls_app, existsb_app, Hp0, Hw. cbn. split; [lia|done].
    - apply IH in Ha. destruct r as [[held|e]|].
      + destruct Ha as (Hl & tr4 & e & -> & Hw' & Hacq).
        rewrite !live_polls_app, Hp0 in *. split; [cbn in *; lia|].
        exists (pre ++ [Ev ctx_Done None] ++ tr4), e. split_and!; [by rewrite <- !app_assoc| |done].
        by rewrite !existsb_app, Hw, Hw'.
      + rewrite !live_polls_app, !existsb_app, Hp0, Hw. destruct Ha as [Hl ->]. cbn. split; [lia|done].
      + rewrite !live_polls_app, !existsb_app, Hp0, Hw. destruct Ha as [Hl ->]. cbn. split; [lia|done]. }
  clearbody again. destruct a0 as [lease|e].
  - run_step Hr. destruct (leaseAvailable lease a0) eqn:Ea.
    + run_step Hr. destruct a1 as [lease'|e].
      * run_step Hr. split; [cbn; lia|]. do 2 eexists. split_and!;
          [by rewrite app_nil_r, !app_assoc|done|by eapply acquires_update].
      * destruct (IsConflict e); cbn [negb] in Hr.
        -- rewrite !app_assoc. by apply Hagain.
        -- run_step Hr. cbn. split; [lia|done].
    + rewrite !app_assoc. by apply Hagain.
  - destruct (IsNotFound e); [|run_step Hr; cbn; split; [lia|done]].
    run_step Hr. destruct a0 as [lease'|e'].
    + run_step Hr. split; [cbn; lia|]. do 2 eexists. split_and!;
        [by rewrite app_nil_r, !app_assoc|done|apply acquires_create].
    + destruct (IsAlreadyExists e'); cbn [negb] in Hr.
      * rewrite !app_assoc. by apply Hagain.
      * run_step Hr. cbn. split; [lia|done].
Qed.

(** C36. The acquisition loop polls the request context once per unsuccessful iteration, so it
    returns as soon as the request is cancelled: it is still running after [fuel] iterations
    only if the context was found live that many times. *)
Theorem acquireTenantLease_terminates fuel a tenant tr r :
  run (acquireTenantLease fuel a tenant) tr r -> (live_polls tr < fuel)%nat -> r <> None.
Proof.
  unfold acquireTenantLease. intros Hr Hl. destruct (ka_kube a); cbn [negb] in Hr; [|by run_step Hr; subst].
  run_step Hr. apply acquire_loop_run in Hr. intros ->. destruct Hr as [Hp _].
  rewrite live_polls_app in Hl. cbn in Hl. lia.
Qed.

End admission_proofs.

(** ** Theorems: admission *)

Section admission_theorems.
Context `{Quantities} `{Sha256}.

Lemma policyForTenant_ok a tenant tr policy :
  run (policyForTenant a tenant) tr (Ok policy) ->
  exists items, tr = [Ev (List TenantPolicies (ka_assignmentNamespace a) list_all) (Ok items)] /\
    matching_policies tenant items = Ok [policy].
Proof.
  unfold policyForTenant. intros Hr. run_step Hr.
  destruct (matching_policies tenant a0) as [[|p [|? ?]]|] eqn:Em; run_step Hr. eauto.
Qed.

(** The policies that match are the enabled, live ones of the tenant. *)
Lemma matching_policies_filter tenant items out :
  matching_policies tenant items = Ok out ->
  out = List.filter (policy_applies tenant) (u_obj <$> items).
Proof.
  revert out. induction items as [|item rest IH]; intros out; cbn [matching_policies]; [by intros [= <-]|].
  unfold FromUnstructured. destruct (u_malformed item); [|done]. cbn [res_bind].
  destruct (matching_policies tenant rest) as [ms|]; [|done]. cbn [res_bind]. intros [= <-].
  rewrite (IH ms eq_refl). done.
Qed.

Record policy_allows (a : KubernetesAdmission) (policy : SandboxTenantPolicy) (bundleName : string)
  (request : CreateShape) : Prop := {
  pa_namespace : tps_WorkloadNamespace (tp_Spec policy) = ka_workloadNamespace a;
  pa_bundle : bundleName ∈ tps_AllowedCapabilityBundles (tp_Spec policy) \/
    exists prefix, prefix ∈ tps_AllowedCapabilityBundlePrefixes (tp_Spec policy) /\
      HasPrefix bundleName prefix = true;
  pa_lifetime : exists timeout, cr_Timeout request = Some timeout /\
    60 <= timeout <= tps_MaxLifetimeSeconds (tp_Spec policy);
  pa_cpu : validateResourceLimit "cpu" (map_get (cr_ResourceLimits request) "cpu")
    (tps_MaxCPU (tp_Spec policy)) = Ok tt;
  pa_memory : validateResourceLimit "memory" (map_get (cr_ResourceLimits request) "memory")
    (tps_MaxMemory (tp_Spec policy)) = Ok tt
}.

Lemma within_policy_ok a policy bundleName request u :
  within_policy a policy bundleName request = Ok u -> policy_allows a policy bundleName request.
Proof.
  unfold within_policy. intros Hw. case_match eqn:En; [done|]. case_match eqn:Eb; [done|].
  case_match eqn:El; [done|]. apply negb_false_iff in En, Eb, El. apply seqb_eq in En.
  destruct (validateResourceLimit "cpu" _ _) as [[]|] eqn:Ec; [|done]. cbn [res_bind] in Hw.
  destruct u. constructor; try done.
  - unfold bundleAllowed in Eb. apply orb_true_iff in Eb as [Eb|Eb]; [left; by apply contains_true|right].
    apply existsb_exists in Eb as (p & Hin & Hp). exists p. by rewrite list_elem_of_In.
  - destruct (cr_Timeout request) as [t|]; [|done]. apply negb_true_iff in El. bool_to_prop.
    exists t. split; [done|lia].
Qed.

Lemma acquireTenantLease_run fuel a tenant tr r :
  run (acquireTenantLease fuel a tenant) tr r ->
  match r with
  | Some (Ok held) => exists tr0 e holder, tr = tr0 ++ [e] /\ existsb lease_written tr0 = false /\
      acquires (ka_assignmentNamespace a) (lease_name tenant) holder e held
  | _ => existsb lease_written tr = false
  end.
Proof.
  unfold acquireTenantLease. intros Hr. destruct (ka_kube a); cbn [negb] in Hr; [|by run_step Hr; subst].
  run_step Hr. apply acquire_loop_run in Hr. destruct r as [[held|e]|].
  - destruct Hr as (_ & tr0 & e & -> & Hw & Ha). exists ([Ev uuid_NewString a0] ++ tr0), e, a0.
    by rewrite <- app_assoc.
  - by destruct Hr as [_ Hw].
  - by destruct Hr as [_ Hw].
Qed.

Lemma within_budget_ok a policy tenant tr :
  run (within_budget a policy tenant) tr (Ok tt) ->
  exists bundles assignments,
    tr = [Ev (List Bundles (ka_assignmentNamespace a) list_all) (Ok bundles);
          Ev (List Assignments (ka_assignmentNamespace a) list_all) (Ok assignments)] /\
    active_assignments tenant bundles assignments < tps_MaxConcurrentSandboxes (tp_Spec policy).
Proof.
  unfold within_budget. intros Hr. run_step Hr. run_step Hr. case_match eqn:Eb; [by run_step Hr|].
  run_step Hr. bool_to_prop. exists a0, a1. done.
Qed.

(** C10. A request is admitted only under the tenant's single enabled policy, with a bundle,
    lifetime, CPU and memory that policy allows, and with fewer live sandboxes than its
    budget; the sandboxes are counted after the tenant's Lease was acquired, and the Lease
    is still held when the request is admitted. *)
Theorem AuthorizeCreate_sound fuel a bundleName request tr held :
  run (AuthorizeCreate fuel a bundleName request) tr (Some (Ok held)) ->
  exists bundle (items : list (Unstructured SandboxTenantPolicy)) policy bundles assignments tr0 holder e,
    let tenant := bundle_tenant bundle in
    tr = tr0 ++ [e; Ev (List Bundles (ka_assignmentNamespace a) list_all) (Ok bundles);
                 Ev (List Assignments (ka_assignmentNamespace a) list_all) (Ok assignments)] /\
    Ev (Get Bundles (ka_assignmentNamespace a) bundleName) (Ok bundle) ∈ tr0 /\ tenant <> "" /\
    Ev (List TenantPolicies (ka_assignmentNamespace a) list_all) (Ok items) ∈ tr0 /\
    List.filter (policy_applies tenant) (u_obj <$> items) = [policy] /\
    policy_allows a policy bundleName request /\
    acquires (ka_assignmentNamespace a) (lease_name tenant) holder e held /\
    active_assignments tenant bundles assignments < tps_MaxConcurrentSandboxes (tp_Spec policy).
Proof.
  unfold AuthorizeCreate. intros Hr. run_step Hr. destruct a0 as [bundle|e]; [|by run_step Hr].
  destruct (bundle_tenant bundle =?s "") eqn:Et; [by run_step Hr|]. apply seqb_neq in Et.
  apply run_bind in Hr as ([policy|e] & tr2 & tr3 & -> & Hp & Hr); [|by run_step Hr].
  apply policyForTenant_ok in Hp as (items & -> & Hm). apply matching_policies_filter in Hm.
  destruct (within_policy _ _ _ _) as [u|] eqn:Ew; [|by run_step Hr]. apply within_policy_ok in Ew.
  apply run_bind in Hr as (acq & tr4 & tr5 & -> & Hacq & Hr). apply acquireTenantLease_run in Hacq.
  destruct acq as [[held'|e]|]; [|by run_step Hr; subst|by run_step Hr; subst].
  destruct Hacq as (tr6 & ev & holder & -> & _ & Hacq).
  apply run_bind in Hr as ([[]|e] & tr7 & tr8 & -> & Hb & Hr); [|by do 2 run_step Hr].
  run_step Hr. apply within_budget_ok in Hb as (bundles & assignments & -> & Hlt).
  exists bundle, items, policy, bundles, assignments,
    ([Ev (Get Bundles (ka_assignmentNamespace a) bundleName) (Ok bundle)] ++
     [Ev (List TenantPolicies (ka_assignmentNamespace a) list_all) (Ok items)] ++ tr6), holder, ev.
  cbn zeta. split_and!; try done; [|in_trace|in_trace].
  rewrite app_nil_r, <- !app_assoc. done.
Qed.

(** The last event of a trace comes after every event of another kind. *)
Lemma later_event (p : KEvent -> bool) tr tr1 w tr2 x last :
  p last = false -> p w = true -> tr = tr1 ++ w :: tr2 -> tr = x ++ [last] -> last ∈ tr2.
Proof.
  intros Hl Hw -> E. destruct tr2 as [|y l _] using rev_ind.
  - apply app_inj_tail in E as [_ ->]. congruence.
  - rewrite app_comm_cons, app_assoc in E. apply app_inj_tail in E as [_ ->].
    apply elem_of_app. right. apply list_elem_of_here.
Qed.


End admission_theorems.
