(* ===== verification/AdmissionProtocol.v ===== *)
(** * Concurrent admissions under one tenant Lease

    Several replicas of the service admit sandboxes of one tenant through the Lease of
    [admission.go].  Each replica repeats the handler's critical section: acquire the Lease,
    count the live sandboxes, create the assignment, release the Lease.  The steps use the
    Lease values and the availability test of [Admission]; the API server's part is that
    [Create] needs the object to be absent and gives it a new UID, [Update] keeps the UID, and
    [Delete] with a UID precondition only deletes that object. *)

From S2P Require Import Prelude ApiTypes ApiJson Kube Governance Admission.
From stdpp Require Import options.

(** Where a replica is in its critical section, with the release closure it holds. *)
Inductive Phase :=
  | Idle
  | Holding (r : Release)
  | Granted (r : Release)
  | Created (r : Release).

Record PState := {
  p_lease : option Lease;
  p_now : Time;
  p_active : Z;
  p_phase : gmap nat Phase
}.

Definition phase_of (s : PState) (c : nat) : Phase := default Idle (p_phase s !! c).

Definition with_uid (uid : string) (l : Lease) : Lease := {|
  ls_meta := {| om_Name := om_Name (ls_meta l); om_GenerateName := om_GenerateName (ls_meta l);
                om_Namespace := om_Namespace (ls_meta l); om_UID := uid;
                om_ResourceVersion := om_ResourceVersion (ls_meta l);
                om_Generation := om_Generation (ls_meta l);
                om_CreationTimestamp := om_CreationTimestamp (ls_meta l);
                om_DeletionTimestamp := om_DeletionTimestamp (ls_meta l);
                om_Labels := om_Labels (ls_meta l); om_Annotations := om_Annotations (ls_meta l);
                om_Finalizers := om_Finalizers (ls_meta l);
                om_OwnerReferences := om_OwnerReferences (ls_meta l) |};
  ls_HolderIdentity := ls_HolderIdentity l; ls_LeaseDurationSeconds := ls_LeaseDurationSeconds l;
  ls_AcquireTime := ls_AcquireTime l; ls_RenewTime := ls_RenewTime l |}.

(** The deletion a release closure performs. *)
Definition apply_release (r : Release) (lease : option Lease) : option Lease :=
  match lease, rel_uid r with
  | Some l, Some uid => if om_UID (ls_meta l) =?s uid then None else lease
  | _, None => None
  | None, _ => None
  end.

Inductive Label := Tick | Acquire (c : nat) | TakeOver (c : nat) | Admit (c : nat) | Refuse (c : nat)
  | CreateAssignment (c : nat) | ReleaseLease (c : nat) | Retire.

Section protocol.
Variables (ns name : string) (budget : Z).

Inductive pstep : Label -> PState -> PState -> Prop :=
  | step_tick l n a p d : 0 <= d ->
      pstep Tick {| p_lease := l; p_now := n; p_active := a; p_phase := p |}
                 {| p_lease := l; p_now := n + d; p_active := a; p_phase := p |}
  | step_acquire n a p c holder uid :
      default Idle (p !! c) = Idle ->
      pstep (Acquire c)
        {| p_lease := None; p_now := n; p_active := a; p_phase := p |}
        {| p_lease := Some (with_uid uid (new_lease ns name holder n)); p_now := n; p_active := a;
           p_phase := <[c := Holding {| rel_namespace := ns; rel_name := name; rel_uid := None |}]> p |}
  | step_takeover l n a p c holder :
      default Idle (p !! c) = Idle -> leaseAvailable l n = true ->
      pstep (TakeOver c)
        {| p_lease := Some l; p_now := n; p_active := a; p_phase := p |}
        {| p_lease := Some (take_over l holder n); p_now := n; p_active := a;
           p_phase := <[c := Holding {| rel_namespace := ns; rel_name := name;
                                        rel_uid := Some (om_UID (ls_meta l)) |}]> p |}
  | step_admit l n a p c r :
      p !! c = Some (Holding r) -> a < budget ->
      pstep (Admit c) {| p_lease := l; p_now := n; p_active := a; p_phase := p |}
        {| p_lease := l; p_now := n; p_active := a; p_phase := <[c := Granted r]> p |}
  | step_refuse l n a p c r :
      p !! c = Some (Holding r) -> budget <= a ->
      pstep (Refuse c) {| p_lease := l; p_now := n; p_active := a; p_phase := p |}
        {| p_lease := apply_release r l; p_now := n; p_active := a; p_phase := <[c := Idle]> p |}
  | step_create l n a p c r :
      p !! c = Some (Granted r) ->
      pstep (CreateAssignment c) {| p_lease := l; p_now := n; p_active := a; p_phase := p |}
        {| p_lease := l; p_now := n; p_active := a + 1; p_phase := <[c := Created r]> p |}
  | step_release l n a p c r :
      p !! c = Some (Created r) ->
      pstep (ReleaseLease c) {| p_lease := l; p_now := n; p_active := a; p_phase := p |}
        {| p_lease := apply_release r l; p_now := n; p_active := a; p_phase := <[c := Idle]> p |}
  | step_retire l n a p : 0 < a ->
      pstep Retire {| p_lease := l; p_now := n; p_active := a; p_phase := p |}
                   {| p_lease := l; p_now := n; p_active := a - 1; p_phase := p |}.

Definition is_takeover (l : Label) : bool := match l with TakeOver _ => true | _ => false end.

(** Steps in which no Lease is taken over from a replica that let it expire. *)
Definition timely_step (s s' : PState) : Prop := exists l, is_takeover l = false /\ pstep l s s'.
Definition any_step (s s' : PState) : Prop := exists l, pstep l s s'.

Definition initial (s : PState) : Prop :=
  p_lease s = None /\ p_phase s = ∅ /\ p_active s <= budget.

(** While nobody takes over, the Lease excludes: one replica at a time is inside, the Lease
    exists while it is, and an admitted replica still has room. *)
Record protocol_inv (s : PState) : Prop := {
  pi_budget : p_active s <= budget;
  pi_exclusive : forall c c', phase_of s c <> Idle -> phase_of s c' <> Idle -> c = c';
  pi_lease : forall c, phase_of s c <> Idle -> p_lease s <> None;
  pi_room : forall c r, phase_of s c = Granted r -> p_active s < budget
}.

Lemma initial_inv s : initial s -> protocol_inv s.
Proof.
  destruct s as [l n a p]. intros (Hl & Hp & Ha). cbn in *. subst.
  by constructor; intros; unfold phase_of in *; cbn in *; rewrite ?lookup_empty in *.
Qed.

Lemma phase_of_insert l n a p c x c' :
  phase_of {| p_lease := l; p_now := n; p_active := a; p_phase := <[c := x]> p |} c' =
  if decide (c = c') then x else default Idle (p !! c').
Proof.
  unfold phase_of. cbn. case_decide; subst; [by rewrite lookup_insert_eq|by rewrite lookup_insert_ne].
Qed.

(** A phase map in which only [c] is inside. *)
Definition only_inside (p : gmap nat Phase) (c : nat) : Prop :=
  forall c', c' <> c -> default Idle (p !! c') = Idle.

Lemma only_inside_inv l n a p c x :
  only_inside p c -> a <= budget -> (x <> Idle -> l <> None) ->
  (forall r, x = Granted r -> a < budget) ->
  protocol_inv {| p_lease := l; p_now := n; p_active := a; p_phase := <[c := x]> p |}.
Proof.
  intros Ho Ha Hl Hr. constructor; cbn; [done|intros c1 c2|intros c1|intros c1 r];
    rewrite ?phase_of_insert; repeat case_decide; subst; rewrite ?Ho by done; try done; eauto.
Qed.

Lemma protocol_inv_step s s' : timely_step s s' -> protocol_inv s -> protocol_inv s'.
Proof.
  intros (lab & Hlab & Hs) [Hb He Hl Hr].
  assert (forall c, phase_of s c <> Idle -> only_inside (p_phase s) c) as Honly.
  { intros c Hc c' Hne. destruct (phase_of s c') eqn:E; [done|..];
      exfalso; apply Hne, He; unfold phase_of in *; congruence. }
  destruct Hs as [l n a p d Hd|n a p c holder uid Hc|l n a p c holder Hc Hav|l n a p c r Hc Hlt
    |l n a p c r Hc Hge|l n a p c r Hc|l n a p c r Hc|l n a p Ha]; cbn in *; try done;
    try (assert (phase_of {| p_lease := l; p_now := n; p_active := a; p_phase := p |} c <> Idle) as Hin
           by (unfold phase_of; cbn; by rewrite Hc); specialize (Honly _ Hin); specialize (Hl _ Hin)).
  - apply only_inside_inv; [|done|done|done]. intros c' _.
    destruct (default Idle (p !! c')) eqn:E; [done|..]; exfalso; apply (Hl c');
      unfold phase_of; cbn; congruence.
  - apply only_inside_inv; [done|done|done|]. intros r' [= ->]. done.
  - by apply only_inside_inv.
  - assert (a < budget) by (apply (Hr c r); unfold phase_of; cbn; by rewrite Hc).
    apply only_inside_inv; [done|lia|done|done].
  - by apply only_inside_inv.
  - constructor; cbn; [lia|exact He|exact Hl|]. intros c r Hcr. specialize (Hr c r Hcr). lia.
Qed.


End protocol.

(** ** Stale releases *)

(** The release closure of a previous holder still deletes the Lease after it was taken over:
    a closure from [Create] has no precondition, and one from [Update] names a UID that a
    further take-over keeps. *)
Theorem stale_release_deletes l holder now r :
  rel_uid r = None \/ rel_uid r = Some (om_UID (ls_meta l)) ->
  apply_release r (Some (take_over l holder now)) = None.
Proof. intros [E|E]; unfold apply_release; rewrite E; [done|]. cbn. by rewrite seqb_refl. Qed.

Definition start : PState := {| p_lease := None; p_now := 0; p_active := 0; p_phase := ∅ |}.

(** One replica that is late by the Lease duration lets two others, both on time, admit
    together and exceed the budget: its stale release frees the Lease the second one holds. *)
Theorem late_release_exceeds_budget :
  exists s, initial 2 start /\ rtc (any_step "ns" "lease" 2) start s /\
    2 < p_active s /\ p_now s = 15 * Second /\
    (exists l, p_lease s = Some l /\ leaseAvailable l (p_now s) = false).
Proof.
  unfold start. eexists. split; [done|]. split.
  - eapply rtc_l; [eexists; eapply (step_acquire "ns" "lease" 2) with (c := 1%nat) (holder := "replica-1")
                     (uid := "uid-1"); reflexivity|].
    eapply rtc_l; [eexists; eapply (step_admit "ns" "lease" 2) with (c := 1%nat); [reflexivity|lia]|].
    eapply rtc_l; [eexists; eapply (step_create "ns" "lease" 2) with (c := 1%nat); reflexivity|].
    eapply rtc_l; [eexists; eapply (step_tick "ns" "lease" 2) with (d := 15 * Second); unfold Second; lia|].
    eapply rtc_l; [eexists; eapply (step_takeover "ns" "lease" 2) with (c := 2%nat) (holder := "replica-2");
                   reflexivity|].
    eapply rtc_l; [eexists; eapply (step_admit "ns" "lease" 2) with (c := 2%nat); [reflexivity|lia]|].
    eapply rtc_l; [eexists; eapply (step_release "ns" "lease" 2) with (c := 1%nat); reflexivity|].
    eapply rtc_l; [eexists; eapply (step_acquire "ns" "lease" 2) with (c := 3%nat) (holder := "replica-3")
                     (uid := "uid-3"); reflexivity|].
    eapply rtc_l; [eexists; eapply (step_admit "ns" "lease" 2) with (c := 3%nat); [reflexivity|lia]|].
    eapply rtc_l; [eexists; eapply (step_create "ns" "lease" 2) with (c := 2%nat); reflexivity|].
    eapply rtc_l; [eexists; eapply (step_create "ns" "lease" 2) with (c := 3%nat); reflexivity|].
    apply rtc_refl.
  - cbn. split_and!; [lia|unfold Second; lia|]. eexists. split; reflexivity.
Qed.
