(* ===== verification/Controller.v ===== *)
(** * Package [controller]: assignment reconciliation

    [internal/assignment/controller/controller.go]: level-triggered reconciliation of one
    [SandboxAssignment] against its template, capability bundle, workload, Pod and
    ServiceAccount, its status, its finalization, and the loop over all assignments. *)

From S2P Require Import Prelude GoStrings GoJson ApiTypes ApiJson Kube Governance AuthzServer Checker.
From stdpp Require Import options.

Definition assignmentFinalizer : string := "aks-sandbox.azure.com/revoke-assignment".
Definition bundleFinalizer : string := "aks-sandbox.azure.com/in-use-protection".
Definition identityAudience : string := "aks-sandbox-capability-gateway".
Definition identityVolume : string := "assignment-identity".
Definition identityContainer : string := "egress".
Definition identityMountPath : string := "/var/run/aks-sandbox-identity".
Definition allocStatusAnnotation : string := "sandbox.opensandbox.io/alloc-status".

Inductive EgressIdentityMode := ProjectedSidecarIdentity | ExternalMediatorIdentity.

Record Config := {
  cfg_AssignmentNamespace : string;
  cfg_WorkloadNamespace : string;
  cfg_AllowedRuntimeClasses : list string;
  cfg_EgressIdentityMode : EgressIdentityMode;
  cfg_Interval : Duration
}.

(** [New]: the defaults, and [None] where it panics.  The mode arrives as text. *)
Definition New (clients_present : bool) (assignmentNamespace workloadNamespace : string)
  (runtimeClasses : list string) (mode : string) (interval : Duration) : option Config :=
  if negb clients_present then None
  else if (assignmentNamespace =?s "") || (workloadNamespace =?s "") then None
  else
    let classes := if bool_decide (runtimeClasses = [])
                   then ["kata-vm-isolation"; "kata-optimized"; "self-kata-clh"; "kata-clh"]
                   else runtimeClasses in
    let build m := Some {| cfg_AssignmentNamespace := assignmentNamespace;
        cfg_WorkloadNamespace := workloadNamespace; cfg_AllowedRuntimeClasses := classes;
        cfg_EgressIdentityMode := m;
        cfg_Interval := if interval <=? 0 then 2 * Second else interval |} in
    if (mode =?s "") || (mode =?s "projected-sidecar") then build ProjectedSidecarIdentity
    else if mode =?s "external-mediator" then build ExternalMediatorIdentity
    else None.

(** [json.Unmarshal] into [struct { Pods []string `json:"pods"` }]. *)
Definition json_pods (raw : string) : result (list string) :=
  json_Unmarshal (fun v => slice_values <$>
    decode_struct ["pods"] false (fun _ w pods => decode_strings w pods) v nil_slice) raw.

(** ** Helpers over objects *)

Definition assignmentUID (annotations : gmap string string) : string :=
  let value := map_get annotations OpenSandboxAssignmentUIDAnnotation in
  if value <>?s "" then value else map_get annotations AssignmentUIDAnnotation.

Definition controlled_by (kind uid : string) (references : list OwnerReference) : bool :=
  existsb (fun r => bool_decide (or_Controller r = Some true) && (or_Kind r =?s kind) && (or_UID r =?s uid))
    references.
Definition ownedBy (references : list OwnerReference) (workload : Unstructured BatchSandbox) : bool :=
  controlled_by "BatchSandbox" (om_UID (bs_meta (u_obj workload))) references.
Definition ownedByPool (references : list OwnerReference) (pool : Unstructured Pool) : bool :=
  controlled_by "Pool" (om_UID (pl_meta (u_obj pool))) references.

Definition runtimeClassName (pod : Pod) : string := default "" (ps_RuntimeClassName (pod_Spec pod)).

Definition podReady (pod : Pod) : bool :=
  existsb (fun c => (pc_Type c =?s "Ready") && (pc_Status c =?s "True")) (pst_Conditions (pod_Status pod)).

Definition workloadReference (workload : Unstructured BatchSandbox) : ObjectReference := {|
  ref_APIVersion := bs_APIVersion (u_obj workload); ref_Kind := bs_Kind (u_obj workload);
  ref_Namespace := om_Namespace (bs_meta (u_obj workload));
  ref_Name := om_Name (bs_meta (u_obj workload)); ref_UID := om_UID (bs_meta (u_obj workload)) |}.

Definition podReference (pod : Pod) : ObjectReference := {|
  ref_APIVersion := "v1"; ref_Kind := "Pod"; ref_Namespace := om_Namespace (pod_meta pod);
  ref_Name := om_Name (pod_meta pod); ref_UID := om_UID (pod_meta pod) |}.

Definition validateServiceAccountReference (pod : Pod) : result unit :=
  guard_err (ps_ServiceAccountName (pod_Spec pod) =?s "")
    (ErrMsg "bound Pod does not declare a ServiceAccount").

Definition validateEligibleServiceAccount (account : ServiceAccount) : result unit :=
  if map_get (om_Labels (sva_meta account)) EligibleServiceAccountLabel <>?s "true"
  then Err (ErrMsg ("ServiceAccount " +:+ om_Name (sva_meta account) +:+ " is not platform-eligible"))
  else guard_err (negb (bool_decide (sva_AutomountServiceAccountToken account = Some false)))
         (ErrMsg ("ServiceAccount " +:+ om_Name (sva_meta account) +:+ " must disable token automount")).

Definition validatePodServiceAccountIsolation (pod : Pod) : result unit :=
  guard_err (negb (bool_decide (ps_AutomountServiceAccountToken (pod_Spec pod) = Some false)))
    (ErrMsg "automountServiceAccountToken must be false").

(** A projected token of the gateway's audience that lives at most ten minutes. *)
Definition identity_projection (source : option ServiceAccountTokenProjection) : bool :=
  match source with
  | Some token =>
      (satp_Path token =?s "token") && (satp_Audience token =?s identityAudience)
      && match satp_ExpirationSeconds token with
         | Some seconds => (0 <? seconds) && (seconds <=? 600)
         | None => false
         end
  | None => false
  end.

Definition volume_projects (volume : Volume) : bool :=
  (vol_Name volume =?s identityVolume)
  && match vol_Projected volume with
     | Some sources => existsb identity_projection sources
     | None => false
     end.

Definition identity_mount_ok (container : Container) (mount : VolumeMount) : bool :=
  (ctr_Name container =?s identityContainer) && vm_ReadOnly mount
  && (vm_MountPath mount =?s identityMountPath) && (vm_SubPath mount =?s "")
  && (vm_SubPathExpr mount =?s "").

(** The mounts of the identity volume, with the container that has them. *)
Definition identity_mounts (pod : Pod) : list (Container * VolumeMount) :=
  container ← ps_Containers (pod_Spec pod);
  (fun mount => (container, mount)) <$>
    List.filter (fun mount => vm_Name mount =?s identityVolume) (ctr_VolumeMounts container).

Definition validateIdentity (pod : Pod) : result unit :=
  _ <-! validatePodServiceAccountIsolation pod ;;
  if negb (existsb volume_projects (ps_Volumes (pod_Spec pod)))
  then Err (ErrMsg "required Pod-bound identity projection is missing")
  else match List.find (fun cm => negb (identity_mount_ok cm.1 cm.2)) (identity_mounts pod) with
  | Some (container, _) =>
      Err (ErrMsg ("identity volume has an invalid mount in container " +:+ ctr_Name container))
  | None => guard_err (bool_decide (identity_mounts pod = []))
              (ErrMsg "identity volume is not mounted by egress")
  end.

Definition validateExternalMediatorIdentity (pod : Pod) : result unit :=
  guard_err (existsb (fun volume =>
      match vol_Projected volume with
      | Some sources => existsb (fun source => bool_decide (is_Some source)) sources
      | None => false
      end) (ps_Volumes (pod_Spec pod)))
    (ErrMsg "external mediator mode forbids projected service account tokens").

(** ** Conditions and status *)

Definition condition (object : Unstructured SandboxAssignment) (kind : string) (value : bool)
  (reason message : string) : KProg Condition :=
  now <-- call time_Now ;;
  Ret {| c_Type := kind; c_Status := if value then "True" else "False"; c_Reason := reason;
         c_Message := message; c_ObservedGeneration := om_Generation (sa_meta (u_obj object));
         c_LastTransitionTime := now / Second * Second |}.

Definition readyConditions (object : Unstructured SandboxAssignment) (identityRequired : bool)
  (mode : EgressIdentityMode) : KProg (list Condition) :=
  let '(identityReason, identityMessage) :=
    if identityRequired then
      match mode with
      | ExternalMediatorIdentity => ("ExternalMediatorConfigured",
          "trusted mediator issues an audience-restricted token bound to the sandbox Pod")
      | ProjectedSidecarIdentity => ("EgressIdentityConfigured", "identity projection is isolated to egress")
      end
    else ("IdentityNotRequired", "bundle has no mediated egress policy") in
  c1 <-- condition object "BundleResolved" true "BundleValid" "immutable bundle resolved" ;;
  c2 <-- condition object "PodBound" true "FreshPodObserved" "fresh owned Pod bound" ;;
  c3 <-- condition object "IdentityReady" true identityReason identityMessage ;;
  c4 <-- condition object "Ready" true "AssignmentReady" "assignment enforcement is ready" ;;
  Ret [c1; c2; c3; c4].

Definition progressConditions (object : Unstructured SandboxAssignment)
  (bundleResolved podBound identityReady : bool) (reason message : string) : KProg (list Condition) :=
  let pick (b : bool) (r m : string) := if b then (r, m) else (reason, message) in
  let '(bundleReason, bundleMessage) := pick bundleResolved "BundleValid" "immutable bundle resolved" in
  let '(podReason, podMessage) := pick podBound "FreshPodObserved" "fresh owned Pod bound" in
  let '(identityReason, identityMessage) :=
    pick identityReady "EgressIdentityConfigured" "identity projection is isolated to egress" in
  c1 <-- condition object "BundleResolved" bundleResolved bundleReason bundleMessage ;;
  c2 <-- condition object "PodBound" podBound podReason podMessage ;;
  c3 <-- condition object "IdentityReady" identityReady identityReason identityMessage ;;
  c4 <-- condition object "Ready" false reason message ;;
  Ret [c1; c2; c3; c4].

Definition strip_time (c : Condition) : Condition := {|
  c_Type := c_Type c; c_Status := c_Status c; c_Reason := c_Reason c; c_Message := c_Message c;
  c_ObservedGeneration := c_ObservedGeneration c; c_LastTransitionTime := zero_time |}.

(** [stripTransitionTimes]. *)
Definition stripTransitionTimes (s : SandboxAssignmentStatus) : SandboxAssignmentStatus := {|
  ss_WorkloadRef := ss_WorkloadRef s; ss_PodRef := ss_PodRef s;
  ss_ResolvedCapabilityBundle := ss_ResolvedCapabilityBundle s;
  ss_Conditions := strip_time <$> ss_Conditions s |}.

Definition statusEquivalent (left right : SandboxAssignmentStatus) : bool :=
  bool_decide (stripTransitionTimes left = stripTransitionTimes right).

(** A stored status with a value of the wrong type equals no status the controller builds. *)
Definition status_malformed (object : Unstructured SandboxAssignment) : bool :=
  existsb (fun p => bool_decide (p `prefix_of` ["status"]) || bool_decide (["status"] `prefix_of` p))
    (u_malformed object).

Definition updateStatus (c : Config) (object : Unstructured SandboxAssignment)
  (resolved : option ResolvedCapabilityBundle) (workloadRef podRef : option ObjectReference)
  (conditionValues : list Condition) : KProg (result unit) :=
  let status := {| ss_WorkloadRef := workloadRef; ss_PodRef := podRef;
                   ss_ResolvedCapabilityBundle := resolved; ss_Conditions := conditionValues |} in
  if negb (status_malformed object) && statusEquivalent (sa_Status (u_obj object)) status then Ret (Ok tt)
  else
    _ <-? call (UpdateStatus Assignments (cfg_AssignmentNamespace c)
            {| u_obj := sa_with_status status (u_obj object);
               u_malformed := List.filter (fun p => negb (bool_decide (["status"] `prefix_of` p)))
                                (u_malformed object) |}) ;;
    Ret (Ok tt).

(** ** Reconciliation *)

Section controller.
Context `{UnicodeTables} `{Sha256} `{CelLib}.

(** [updateStatus] with [progressConditions], the form of every early return. *)
Definition progress (c : Config) (object : Unstructured SandboxAssignment)
  (resolved : option ResolvedCapabilityBundle) (workloadRef podRef : option ObjectReference)
  (bundleResolved podBound identityReady : bool) (reason message : string) : KProg (result unit) :=
  conditions <-- progressConditions object bundleResolved podBound identityReady reason message ;;
  updateStatus c object resolved workloadRef podRef conditions.

Definition policyRevision {S} `{Stored S} {T} (u : Unstructured T) (spec : S) : result string :=
  PolicyRevision (match nested u ["spec"] (Some spec) with Ok s => s | Err _ => None end).

Fixpoint validate_backends (policies : list (string * AgentgatewayBackendPolicy)) : result unit :=
  match policies with
  | [] => Ok tt
  | (backend, policy) :: rest =>
      if abp_Allow policy =?s "" then Err (ErrMsg ("backend " +:+ backend +:+ " allow expression is missing"))
      else match ValidateAllowExpression (abp_Allow policy) with
      | Err e => Err (ErrWrap ("backend " +:+ backend +:+ " allow expression") e)
      | Ok _ => validate_backends rest
      end
  end.

(** The backends are visited in one iteration order of the Go map. *)
Definition validateBundlePolicy (bundle : CapabilityBundle) : result unit :=
  match cbs_Egress (cb_Spec bundle) with
  | None => Ok tt
  | Some egress => validate_backends (map_to_list (ep_Agentgateway egress))
  end.

Definition identity_required (bundle : CapabilityBundle) : bool :=
  match cbs_Egress (cb_Spec bundle) with
  | Some egress => negb (bool_decide (ep_Agentgateway egress = ∅))
  | None => false
  end.

Definition assignmentFromUnstructured (object : Unstructured SandboxAssignment) : result SandboxAssignment :=
  match FromUnstructured object with
  | Err e => Err (ErrWrap ("convert SandboxAssignment " +:+ om_Name (sa_meta (u_obj object))) e)
  | Ok o => Ok o
  end.

Definition bundleFromUnstructured (object : Unstructured CapabilityBundle) : result CapabilityBundle :=
  match FromUnstructured object with
  | Err e => Err (ErrWrap ("convert CapabilityBundle " +:+ om_Name (cb_meta (u_obj object))) e)
  | Ok o => Ok o
  end.

Definition matchingWorkloads (c : Config) (object : Unstructured SandboxAssignment)
  : KProg (result (list (Unstructured BatchSandbox))) :=
  items <-? call (List Workloads (cfg_WorkloadNamespace c)
                    (list_label AssignmentLabel (om_Name (sa_meta (u_obj object))))) ;;
  Ret (Ok (List.filter (fun item =>
    assignmentUID (om_Annotations (bs_meta (u_obj item))) =?s om_UID (sa_meta (u_obj object))) items)).

Definition allocatedPoolPods (c : Config) (workload : Unstructured BatchSandbox) (poolRef : string)
  : KProg (result (list Pod)) :=
  pool <-? call (Get Pools (cfg_WorkloadNamespace c) poolRef) ;;
  let recycleType := nested_string pool ["spec"; "recycleStrategy"; "type"] (pl_recycleType (u_obj pool)) in
  if (recycleType <>?s "Delete") && (recycleType <>?s "Replace")
  then Ret (Err (ErrMsg "pool must use Delete/Replace recycle strategy"))
  else
    let raw := map_get (om_Annotations (bs_meta (u_obj workload))) allocStatusAnnotation in
    if raw =?s "" then Ret (Ok [])
    else match json_pods raw with
    | Err e => Ret (Err (ErrWrap "parse Pool allocation" e))
    | Ok [] => Ret (Ok [])
    | Ok [name] =>
        got <-- call (Get Pods (cfg_WorkloadNamespace c) name) ;;
        match got with
        | Err e => if IsNotFound e then Ret (Ok []) else Ret (Err e)
        | Ok pod =>
            if om_deleting (pod_meta pod) || negb (ownedByPool (om_OwnerReferences (pod_meta pod)) pool)
            then Ret (Err (ErrMsg "allocated Pod is not owned by replacement Pool"))
            else Ret (Ok [pod])
        end
    | Ok _ => Ret (Err (ErrMsg "Pool allocation contains several Pods"))
    end.

Definition matchingPods (c : Config) (object : Unstructured SandboxAssignment)
  (workload : Unstructured BatchSandbox) (poolRef : string) : KProg (result (list Pod)) :=
  if poolRef <>?s "" then allocatedPoolPods c workload poolRef
  else
    items <-? call (List Pods (cfg_WorkloadNamespace c)
                      (list_label AssignmentLabel (om_Name (sa_meta (u_obj object))))) ;;
    Ret (Ok (List.filter (fun pod =>
      (assignmentUID (om_Annotations (pod_meta pod)) =?s om_UID (sa_meta (u_obj object)))
      && ownedBy (om_OwnerReferences (pod_meta pod)) workload
      && negb (om_deleting (pod_meta pod))) items)).

(** Lines 261-299: the checks of the one bound Pod, down to readiness. *)
Definition reconcile_pod (c : Config) (object : Unstructured SandboxAssignment)
  (resolved : ResolvedCapabilityBundle) (identityRequired : bool) (workload : Unstructured BatchSandbox)
  (poolRef : string) (pod : Pod) : KProg (result unit) :=
  let meta := sa_meta (u_obj object) in
  let report := progress c object (Some resolved) (Some (workloadReference workload)) (Some (podReference pod)) in
  match validateServiceAccountReference pod with
  | Err e => report true true false "ServiceAccountNotReady" (error_string e)
  | Ok _ =>
    account <-- call (Get ServiceAccounts (cfg_WorkloadNamespace c) (ps_ServiceAccountName (pod_Spec pod))) ;;
    match account with
    | Err _ => report true true false "ServiceAccountNotReady" "sandbox ServiceAccount is unavailable"
    | Ok serviceAccount =>
      match validateEligibleServiceAccount serviceAccount with
      | Err e => report true true false "ServiceAccountNotReady" (error_string e)
      | Ok _ =>
        match validatePodServiceAccountIsolation pod with
        | Err e => report true true false "ServiceAccountNotReady" (error_string e)
        | Ok _ =>
          let fencedUID := map_get (om_Annotations meta) ResumeAfterPodUIDAnnotation in
          if (fencedUID <>?s "") && (fencedUID =?s om_UID (pod_meta pod))
          then report true false false "ResumePending" "waiting for a fresh Pod incarnation"
          else if (poolRef =?s "")
                  && time_before (om_CreationTimestamp (pod_meta pod)) (om_CreationTimestamp meta)
          then report true false false "StalePod" "owned Pod predates assignment"
          else if negb (contains (runtimeClassName pod) (cfg_AllowedRuntimeClasses c))
          then report true true false "RuntimeNotAllowed" "bound Pod does not use an approved runtime class"
          else if negb (podReady pod)
          then report true true false "PodNotReady" "bound Pod is not ready"
          else
            let identityCheck :=
              if identityRequired then
                match cfg_EgressIdentityMode c with
                | ExternalMediatorIdentity => validateExternalMediatorIdentity pod
                | ProjectedSidecarIdentity => validateIdentity pod
                end
              else Ok tt in
            match identityCheck with
            | Err e => report true true false "IdentityNotReady" (error_string e)
            | Ok _ =>
                conditions <-- readyConditions object identityRequired (cfg_EgressIdentityMode c) ;;
                updateStatus c object (Some resolved) (Some (workloadReference workload))
                  (Some (podReference pod)) conditions
            end
        end
      end
    end
  end.

(** The object with the workload's name as its sandbox ID, in annotation and label. *)
Definition with_sandbox_id (id : string) (object : Unstructured SandboxAssignment)
  : Unstructured SandboxAssignment :=
  let meta := sa_meta (u_obj object) in
  {| u_obj := sa_with_meta
       (set_labels (<[SandboxIDLabel := id]> (om_Labels meta))
          (set_annotations (<[SandboxIDAnnotation := id]> (om_Annotations meta)) meta)) (u_obj object);
     u_malformed := u_malformed object |}.

(** Lines 200-260: pause, then the one workload and its one Pod. *)
Definition reconcile_workload (c : Config) (object : Unstructured SandboxAssignment)
  (resolved : ResolvedCapabilityBundle) (identityRequired : bool) : KProg (result unit) :=
  let meta := sa_meta (u_obj object) in
  let status := sa_Status (u_obj object) in
  if map_get (om_Annotations meta) PausedAnnotation =?s "true" then
    let ref path v := match nested object path v with Ok r => r | Err _ => None end in
    let workloadRef := ref ["status"; "workloadRef"] (ss_WorkloadRef status) in
    let podRef := ref ["status"; "podRef"] (ss_PodRef status) in
    progress c object (Some resolved) workloadRef podRef true (bool_decide (is_Some podRef)) false
      "Paused" "sandbox capability is paused"
  else
    workloads <-? matchingWorkloads c object ;;
    match workloads with
    | [workload] =>
        if map_get (om_Annotations meta) SandboxIDAnnotation =?s "" then
          _ <-? call (Update Assignments (cfg_AssignmentNamespace c)
                        (with_sandbox_id (om_Name (bs_meta (u_obj workload))) object)) ;;
          Ret (Ok tt)
        else
          let report := progress c object (Some resolved) (Some (workloadReference workload)) None in
          let replicas := match nested workload ["spec"; "replicas"] (bs_replicas (u_obj workload)) with
                          | Ok r => r | Err _ => None end in
          if negb (bool_decide (replicas = Some 1))
          then report true false false "InvalidReplicaCount" "BatchSandbox must request exactly one Pod"
          else if time_before (om_CreationTimestamp (bs_meta (u_obj workload))) (om_CreationTimestamp meta)
          then report true false false "StaleWorkload" "BatchSandbox predates assignment"
          else
            let poolRef := nested_string workload ["spec"; "poolRef"] (bs_poolRef (u_obj workload)) in
            pods <-? matchingPods c object workload poolRef ;;
            match pods with
            | [pod] => reconcile_pod c object resolved identityRequired workload poolRef pod
            | [] => report true false false "PodPending" "waiting for exactly one owned Pod"
            | _ => report true false false "MultiplePods"
                     "more than one live Pod is owned by the BatchSandbox"
            end
    | [] => progress c object (Some resolved) None None true false false
              "WorkloadPending" "waiting for exactly one fresh BatchSandbox"
    | _ => progress c object (Some resolved) None None true false false
             "MultipleWorkloads" "more than one BatchSandbox claims the assignment"
    end.

Definition with_bundle_finalizer (bundle : Unstructured CapabilityBundle) : Unstructured CapabilityBundle :=
  {| u_obj := {| cb_meta := set_finalizers (om_Finalizers (cb_meta (u_obj bundle)) ++ [bundleFinalizer])
                              (cb_meta (u_obj bundle));
                 cb_Spec := cb_Spec (u_obj bundle) |};
     u_malformed := u_malformed bundle |}.

(** Lines 170-201: the capability bundle and its agreement with the template. *)
Definition reconcile_bundle (c : Config) (object : Unstructured SandboxAssignment)
  (typedAssignment : SandboxAssignment) (resolvedTemplate : option SandboxTemplate) : KProg (result unit) :=
  let bundleName := cbr_Name (as_CapabilityBundleRef (sa_Spec typedAssignment)) in
  let unresolved := progress c object None None None false false false in
  got <-- call (Get Bundles (cfg_AssignmentNamespace c) bundleName) ;;
  match got with
  | Err _ => unresolved "BundleNotFound" "capability bundle is unavailable"
  | Ok bundle =>
      if om_deleting (cb_meta (u_obj bundle))
      then unresolved "BundleNotFound" "capability bundle is unavailable"
      else match bundleFromUnstructured bundle with
      | Err e => Ret (Err e)
      | Ok typedBundle =>
          match validateBundlePolicy typedBundle with
          | Err e => unresolved "BundleInvalid" (error_string e)
          | Ok _ =>
              if negb (contains bundleFinalizer (om_Finalizers (cb_meta (u_obj bundle)))) then
                _ <-? call (Update Bundles (cfg_AssignmentNamespace c) (with_bundle_finalizer bundle)) ;;
                Ret (Ok tt)
              else match policyRevision bundle (cb_Spec (u_obj bundle)) with
              | Err e => Ret (Err e)
              | Ok revision =>
                  let tenant := as_LogicalTenant (sa_Spec typedAssignment) in
                  let mismatch :=
                    match resolvedTemplate with
                    | None => false
                    | Some template =>
                        (cbr_PolicyRevision (sts_CapabilityBundleRef (st_Spec template)) <>?s revision)
                        || (tenant =?s "")
                        || match cbs_Governance (cb_Spec typedBundle) with
                           | None => true
                           | Some boundary => tenant <>?s gb_LogicalTenant boundary
                           end
                    end in
                  if mismatch
                  then unresolved "TemplateBoundaryMismatch"
                         "sandbox template, assignment tenant, and capability revision do not match"
                  else
                    reconcile_workload c object
                      {| rcb_Name := om_Name (cb_meta (u_obj bundle)); rcb_UID := om_UID (cb_meta (u_obj bundle));
                         rcb_PolicyRevision := revision |} (identity_required typedBundle)
              end
          end
      end
  end.

(** Lines 145-169: the template the assignment pins, if it names one. *)
Definition reconcile_template (c : Config) (object : Unstructured SandboxAssignment)
  (typedAssignment : SandboxAssignment) : KProg (result unit) :=
  let bundleName := cbr_Name (as_CapabilityBundleRef (sa_Spec typedAssignment)) in
  let ref := as_TemplateRef (sa_Spec typedAssignment) in
  let unresolved := progress c object None None None false false false in
  if tr_Name ref =?s "" then reconcile_bundle c object typedAssignment None
  else
    got <-- call (Get Templates (cfg_AssignmentNamespace c) (tr_Name ref)) ;;
    match got with
    | Err _ => unresolved "TemplateNotFound" "sandbox template is unavailable"
    | Ok templateObject =>
        if om_deleting (st_meta (u_obj templateObject))
        then unresolved "TemplateNotFound" "sandbox template is unavailable"
        else if om_UID (st_meta (u_obj templateObject)) <>?s tr_UID ref
        then unresolved "TemplateReplaced" "sandbox template incarnation changed"
        else
          let revision_matches :=
            match policyRevision templateObject (st_Spec (u_obj templateObject)) with
            | Ok revision => revision =?s tr_SpecRevision ref
            | Err _ => false
            end in
          if negb revision_matches
          then unresolved "TemplateRevisionMismatch" "sandbox template revision changed"
          else match FromUnstructured templateObject with
          | Err e => Ret (Err e)
          | Ok template =>
              if negb (sts_Enabled (st_Spec template))
                 || (cbr_Name (sts_CapabilityBundleRef (st_Spec template)) <>?s bundleName)
              then unresolved "TemplateInvalid"
                     "sandbox template is disabled or selects a different capability bundle"
              else reconcile_bundle c object typedAssignment (Some template)
          end
    end.

(** ** Finalization *)

Definition without_finalizer (f : string) (l : list string) : list string :=
  List.filter (fun x => x <>?s f) l.

Definition with_finalizers (f : list string) (object : Unstructured SandboxAssignment)
  : Unstructured SandboxAssignment :=
  {| u_obj := sa_with_meta (set_finalizers f (sa_meta (u_obj object))) (u_obj object);
     u_malformed := u_malformed object |}.

(** Whether another assignment still uses the bundle; conversion errors stop the scan. *)
Fixpoint bundle_in_use (uid bundleName : string) (items : list (Unstructured SandboxAssignment))
  : result bool :=
  match items with
  | [] => Ok false
  | item :: rest =>
      typedItem <-! assignmentFromUnstructured item ;;
      if (om_UID (sa_meta (u_obj item)) <>?s uid)
         && (cbr_Name (as_CapabilityBundleRef (sa_Spec typedItem)) =?s bundleName)
      then Ok true else bundle_in_use uid bundleName rest
  end.

Definition releaseBundleIfUnused (c : Config) (object : Unstructured SandboxAssignment) : KProg (result unit) :=
  match assignmentFromUnstructured object with
  | Err e => Ret (Err e)
  | Ok typedAssignment =>
      let bundleName := cbr_Name (as_CapabilityBundleRef (sa_Spec typedAssignment)) in
      items <-? call (List Assignments (cfg_AssignmentNamespace c) list_all) ;;
      match bundle_in_use (om_UID (sa_meta (u_obj object))) bundleName items with
      | Err e => Ret (Err e)
      | Ok true => Ret (Ok tt)
      | Ok false =>
          got <-- call (Get Bundles (cfg_AssignmentNamespace c) bundleName) ;;
          match got with
          | Err e => if IsNotFound e then Ret (Ok tt) else Ret (Err e)
          | Ok bundle =>
              let meta := cb_meta (u_obj bundle) in
              _ <-? call (Update Bundles (cfg_AssignmentNamespace c)
                {| u_obj := {| cb_meta := set_finalizers
                                 (without_finalizer bundleFinalizer (om_Finalizers meta)) meta;
                               cb_Spec := cb_Spec (u_obj bundle) |};
                   u_malformed := u_malformed bundle |}) ;;
              Ret (Ok tt)
          end
      end
  end.

(** Delete each workload and see it gone; [true] when all are gone. *)
Fixpoint delete_workloads (namespace : string) (names : list string) : KProg (result bool) :=
  match names with
  | [] => Ret (Ok true)
  | name :: rest =>
      let check_gone :=
        got <-- call (Get Workloads namespace name) ;;
        match got with
        | Ok _ => Ret (Ok false)
        | Err e => if negb (IsNotFound e) then Ret (Err e) else delete_workloads namespace rest
        end in
      deleted <-- call (Delete Workloads namespace name None) ;;
      match deleted with
      | Err e => if IsNotFound e then check_gone else Ret (Err e)
      | Ok _ => check_gone
      end
  end.

(** The workloads to revoke: the recorded one, or every one that claims the assignment. *)
Definition workloads_to_delete (c : Config) (object : Unstructured SandboxAssignment)
  : KProg (result (list string)) :=
  let workloadName := nested_string object ["status"; "workloadRef"; "name"]
                        (ref_Name <$> ss_WorkloadRef (sa_Status (u_obj object))) in
  if workloadName <>?s "" then Ret (Ok [workloadName])
  else
    workloads <-? matchingWorkloads c object ;;
    Ret (Ok ((fun w => om_Name (bs_meta (u_obj w))) <$> workloads)).

(** Whether the recorded Pod, or any Pod annotated with this assignment, is still there. *)
Definition pods_gone (c : Config) (object : Unstructured SandboxAssignment) : KProg (result bool) :=
  let podRef := ss_PodRef (sa_Status (u_obj object)) in
  let statusPodName := nested_string object ["status"; "podRef"; "name"] (ref_Name <$> podRef) in
  let statusPodUID := nested_string object ["status"; "podRef"; "uid"] (ref_UID <$> podRef) in
  let list_pods :=
    pods <-? call (List Pods (cfg_WorkloadNamespace c)
                     (list_label AssignmentLabel (om_Name (sa_meta (u_obj object))))) ;;
    Ret (Ok (negb (existsb (fun pod =>
      assignmentUID (om_Annotations (pod_meta pod)) =?s om_UID (sa_meta (u_obj object))) pods))) in
  if statusPodName <>?s "" then
    got <-- call (Get Pods (cfg_WorkloadNamespace c) statusPodName) ;;
    match got with
    | Ok pod => if om_UID (pod_meta pod) =?s statusPodUID then Ret (Ok false) else list_pods
    | Err e => if negb (IsNotFound e) then Ret (Err e) else list_pods
    end
  else list_pods.

Definition finalize (c : Config) (object : Unstructured SandboxAssignment) : KProg (result unit) :=
  let meta := sa_meta (u_obj object) in
  if negb (contains assignmentFinalizer (om_Finalizers meta)) then Ret (Ok tt)
  else
    let recorded := nested_string object ["status"; "workloadRef"; "namespace"]
                      (ref_Namespace <$> ss_WorkloadRef (sa_Status (u_obj object))) in
    let workloadNamespace := if recorded =?s "" then cfg_WorkloadNamespace c else recorded in
    names <-? workloads_to_delete c object ;;
    workloadsGone <-? delete_workloads workloadNamespace names ;;
    if negb workloadsGone then Ret (Ok tt)
    else
      podsGone <-? pods_gone c object ;;
      if negb podsGone then Ret (Ok tt)
      else
        _ <-? call (Update Assignments (cfg_AssignmentNamespace c)
                      (with_finalizers (without_finalizer assignmentFinalizer (om_Finalizers meta)) object)) ;;
        releaseBundleIfUnused c object.

(** ** The reconciler *)

Definition reconcile (c : Config) (object : Unstructured SandboxAssignment) : KProg (result unit) :=
  let meta := sa_meta (u_obj object) in
  if om_deleting meta then finalize c object
  else if negb (contains assignmentFinalizer (om_Finalizers meta)) then
    _ <-? call (Update Assignments (cfg_AssignmentNamespace c)
                  (with_finalizers (om_Finalizers meta ++ [assignmentFinalizer]) object)) ;;
    Ret (Ok tt)
  else match assignmentFromUnstructured object with
  | Err e => Ret (Err e)
  | Ok typedAssignment => reconcile_template c object typedAssignment
  end.

(** [errors.Join] of the failures, each with its assignment's name. *)
Fixpoint reconcile_each (c : Config) (objects : list (Unstructured SandboxAssignment))
  (joined : list error) : KProg (list error) :=
  match objects with
  | [] => Ret joined
  | object :: rest =>
      r <-- reconcile c object ;;
      match r with
      | Ok _ => reconcile_each c rest joined
      | Err e => reconcile_each c rest (joined ++ [ErrWrap (om_Name (sa_meta (u_obj object))) e])
      end
  end.

Definition reconcileAll (c : Config) : KProg (list error) :=
  listed <-- call (List Assignments (cfg_AssignmentNamespace c) list_all) ;;
  match listed with
  | Err e => Ret [e]
  | Ok objects => reconcile_each c objects []
  end.

(** [Run] for at most [rounds] passes; the errors that each pass logs.  A pass that was cancelled
    logs nothing.  [Run] itself never fails. *)
Fixpoint controller_Run (rounds : nat) (c : Config) : KProg (list (list error)) :=
  match rounds with
  | O => Ret []
  | S rounds =>
      errs <-- reconcileAll c ;;
      let logged := if existsb (fun e => error_Is e (ErrMsg "context canceled")) errs then [] else errs in
      finished <-- call ctx_Done ;;
      match finished with
      | Some _ => Ret [logged]
      | None => more <-- controller_Run rounds c ;; Ret (logged :: more)
      end
  end.

End controller.

(** ** Lemmas: what a pass writes *)

Definition ready_status (s : SandboxAssignmentStatus) : bool :=
  existsb (fun c => (c_Type c =?s "Ready") && (c_Status c =?s "True")) (ss_Conditions s).

(** A call that tries to publish a ready status. *)
Definition publishes_ready (e : KEvent) : bool :=
  match assignment_status_write e with
  | Some object => ready_status (sa_Status (u_obj object))
  | None => false
  end.

Definition writes (tr : list KEvent) : list KEvent := List.filter is_write tr.

Lemma writes_app t1 t2 : writes (t1 ++ t2) = writes t1 ++ writes t2.
Proof. apply List.filter_app. Qed.

Lemma condition_run object kind value reason message tr c :
  run (condition object kind value reason message) tr c ->
  writes tr = [] /\ existsb publishes_ready tr = false /\
  c_Type c = kind /\ c_Status c = (if value then "True" else "False").
Proof. unfold condition. intros Hr. run_step Hr. run_step Hr. done. Qed.

(** Splits a run of several conditions into their facts. *)
Ltac conditions_in Hr :=
  repeat (apply run_bind in Hr as (?c & ?tr & ?tr & -> & ?Hc & Hr));
  run_step Hr;
  repeat match goal with
  | Hc : run (condition _ _ _ _ _) _ _ |- _ =>
      apply condition_run in Hc as (?Hw & ?Hp & ?Ht & ?Hs)
  end.

Lemma progressConditions_run object b p i reason message tr conditions :
  run (progressConditions object b p i reason message) tr conditions ->
  writes tr = [] /\ existsb publishes_ready tr = false /\
  existsb (fun c => (c_Type c =?s "Ready") && (c_Status c =?s "True")) conditions = false.
Proof.
  unfold progressConditions. intros Hr. destruct b, p, i; conditions_in Hr;
    rewrite !writes_app, !existsb_app; cbn [existsb]; rewrite Hw, Hw0, Hw1, Hw2, Hp, Hp0, Hp1, Hp2;
    rewrite Ht, Ht0, Ht1, Ht2, Hs, Hs0, Hs1, Hs2; done.
Qed.

Lemma readyConditions_run object required mode tr conditions :
  run (readyConditions object required mode) tr conditions ->
  writes tr = [] /\ existsb publishes_ready tr = false.
Proof.
  unfold readyConditions. intros Hr. destruct required; [destruct mode|]; conditions_in Hr;
    rewrite !writes_app, !existsb_app; cbn [existsb]; rewrite Hw, Hw0, Hw1, Hw2, Hp, Hp0, Hp1, Hp2; done.
Qed.

(** [updateStatus] makes no call for an equivalent status and one write otherwise. *)
Lemma updateStatus_run c object resolved workloadRef podRef conditions tr r :
  run (updateStatus c object resolved workloadRef podRef conditions) tr r ->
  let status := {| ss_WorkloadRef := workloadRef; ss_PodRef := podRef;
                   ss_ResolvedCapabilityBundle := resolved; ss_Conditions := conditions |} in
  (tr = [] /\ statusEquivalent (sa_Status (u_obj object)) status = true) \/
  exists m answer, tr = [Ev (UpdateStatus Assignments (cfg_AssignmentNamespace c)
     {| u_obj := sa_with_status status (u_obj object); u_malformed := m |}) answer].
Proof.
  unfold updateStatus. intros Hr. cbn zeta. case_match eqn:E.
  - run_step Hr. left. by bool_to_prop.
  - run_step Hr; subst; [eauto|]. run_step Hr. rewrite app_nil_r. eauto.
Qed.

Lemma progress_run c object resolved w p b pb i reason message tr r :
  run (progress c object resolved w p b pb i reason message) tr r ->
  (length (writes tr) <= 1)%nat /\ existsb publishes_ready tr = false.
Proof.
  unfold progress. intros Hr. apply run_bind in Hr as (cs & t1 & t2 & -> & Hc & Hr).
  apply progressConditions_run in Hc as (Hw & Hp & Hn). apply updateStatus_run in Hr.
  rewrite writes_app, existsb_app, Hw, Hp.
  destruct Hr as [[-> _]|(m & answer & ->)]; [cbn; split; [lia|done]|]. cbn. split; [lia|].
  unfold publishes_ready. cbn. unfold ready_status. cbn. by rewrite Hn.
Qed.

(** ** What a ready status rests on *)

Section ready.
Context `{UnicodeTables} `{Sha256} `{CelLib}.

(** The bound Pod is isolated, fresh, ready, of an approved runtime class, run by an eligible
    ServiceAccount, and set up for mediated egress if the bundle needs it. *)
Record pod_checked (c : Config) (object : Unstructured SandboxAssignment) (identityRequired : bool)
  (poolRef : string) (pod : Pod) (account : ServiceAccount) : Prop := {
  pk_account_named : ps_ServiceAccountName (pod_Spec pod) <> "";
  pk_eligible : map_get (om_Labels (sva_meta account)) EligibleServiceAccountLabel = "true";
  pk_account_automount : sva_AutomountServiceAccountToken account = Some false;
  pk_automount : ps_AutomountServiceAccountToken (pod_Spec pod) = Some false;
  pk_fence : let fenced := map_get (om_Annotations (sa_meta (u_obj object))) ResumeAfterPodUIDAnnotation in
    fenced = "" \/ fenced <> om_UID (pod_meta pod);
  pk_fresh : poolRef = "" ->
    om_CreationTimestamp (sa_meta (u_obj object)) <= om_CreationTimestamp (pod_meta pod);
  pk_runtime : runtimeClassName pod ∈ cfg_AllowedRuntimeClasses c;
  pk_ready : podReady pod = true;
  pk_identity : identityRequired = true ->
    match cfg_EgressIdentityMode c with
    | ExternalMediatorIdentity => validateExternalMediatorIdentity pod = Ok tt
    | ProjectedSidecarIdentity => validateIdentity pod = Ok tt
    end
}.

(** The status write a ready event consists of. *)
Definition ready_write (c : Config) (object : Unstructured SandboxAssignment)
  (resolved : ResolvedCapabilityBundle) (workload : Unstructured BatchSandbox) (pod : Pod) (e : KEvent) : Prop :=
  exists conditions m answer,
    e = Ev (UpdateStatus Assignments (cfg_AssignmentNamespace c)
      {| u_obj := sa_with_status
           {| ss_WorkloadRef := Some (workloadReference workload); ss_PodRef := Some (podReference pod);
              ss_ResolvedCapabilityBundle := Some resolved; ss_Conditions := conditions |} (u_obj object);
         u_malformed := m |}) answer.

Lemma elem_existsb_false {A} (f : A -> bool) l x : existsb f l = false -> x ∈ l -> f x = true -> False.
Proof.
  intros Hf Hin Hx. apply not_true_iff_false in Hf. apply Hf. apply existsb_exists.
  exists x. by rewrite <- list_elem_of_In.
Qed.

(** At most one write, and a ready event only with the evidence [P]. *)
Definition pass (P : KEvent -> Prop) (tr : list KEvent) : Prop :=
  (length (writes tr) <= 1)%nat /\ forall e, e ∈ tr -> publishes_ready e = true -> P e.

Lemma pass_progress P c object resolved w p b pb i reason message tr r pre :
  writes pre = [] -> existsb publishes_ready pre = false ->
  run (progress c object resolved w p b pb i reason message) tr r -> pass P (pre ++ tr).
Proof.
  intros Hw Hp [Hl Hn]%progress_run. unfold pass. rewrite writes_app, Hw. split; [done|].
  intros e He Hr. exfalso. eapply (elem_existsb_false publishes_ready (pre ++ tr)); eauto.
  by rewrite existsb_app, Hp, Hn.
Qed.

Lemma pass_quiet P tr : writes tr = [] -> existsb publishes_ready tr = false -> pass P tr.
Proof.
  intros Hw Hp. split; [rewrite Hw; cbn; lia|]. intros e He Hr. exfalso. by eapply elem_existsb_false.
Qed.

Lemma pass_one P pre e : writes pre = [] -> existsb publishes_ready pre = false ->
  (publishes_ready e = true -> P e) -> pass P (pre ++ [e]).
Proof.
  intros Hw Hp He. split.
  - rewrite writes_app, Hw. cbn. destruct (is_write e); cbn; lia.
  - intros x [Hx| ->%list_elem_of_singleton]%elem_of_app Hr; [|auto]. exfalso. by eapply elem_existsb_false.
Qed.

Lemma reconcile_pod_run c object resolved required workload poolRef pod tr r pre :
  writes pre = [] -> existsb publishes_ready pre = false ->
  run (reconcile_pod c object resolved required workload poolRef pod) tr r ->
  pass (fun e => ready_write c object resolved workload pod e /\ exists account,
          Ev (Get ServiceAccounts (cfg_WorkloadNamespace c) (ps_ServiceAccountName (pod_Spec pod)))
            (Ok account) ∈ pre ++ tr /\ pod_checked c object required poolRef pod account) (pre ++ tr).
Proof.
  intros Hw Hp. unfold reconcile_pod, validateServiceAccountReference, guard_err. intros Hr.
  destruct (ps_ServiceAccountName (pod_Spec pod) =?s "") eqn:En; [by eapply pass_progress|].
  run_step Hr.
  set (get := Ev (Get ServiceAccounts (cfg_WorkloadNamespace c) (ps_ServiceAccountName (pod_Spec pod))) a) in *.
  rewrite app_assoc. assert (writes (pre ++ [get]) = []) as Hw' by by rewrite writes_app, Hw.
  assert (existsb publishes_ready (pre ++ [get]) = false) as Hp' by by rewrite existsb_app, Hp.
  destruct a as [account|e]; [|by eapply pass_progress].
  unfold validateEligibleServiceAccount, guard_err in Hr.
  destruct (_ <>?s "true") eqn:Ee; [by eapply pass_progress|].
  destruct (negb _) eqn:Ea in Hr; [by eapply pass_progress|].
  unfold validatePodServiceAccountIsolation, guard_err in Hr.
  destruct (negb _) eqn:Em in Hr; [by eapply pass_progress|].
  destruct (_ && _) eqn:Ef in Hr; [by eapply pass_progress|].
  destruct (_ && _) eqn:Es in Hr; [by eapply pass_progress|].
  destruct (negb _) eqn:Er in Hr; [by eapply pass_progress|].
  destruct (negb (podReady pod)) eqn:Epr; [by eapply pass_progress|].
  match type of Hr with context [match ?x with Ok _ => _ | Err _ => _ end] => destruct x as [[]|] eqn:Ei end;
    [|by eapply pass_progress].
  apply run_bind in Hr as (conditions & t1 & t2 & -> & Hc & Hr).
  apply readyConditions_run in Hc as [Hwc Hpc]. apply updateStatus_run in Hr.
  rewrite (app_assoc _ t1). destruct Hr as [[-> _]|(m & answer & ->)].
  { rewrite app_nil_r. apply pass_quiet; [by rewrite writes_app, Hw', Hwc|by rewrite existsb_app, Hp', Hpc]. }
  apply pass_one; [by rewrite writes_app, Hw', Hwc|by rewrite existsb_app, Hp', Hpc|].
  intros _. split; [by exists conditions, m, answer|]. exists account. split; [in_trace|].
  bool_to_prop. constructor; try done.
  - cbn zeta. apply andb_false_iff in Ef as [Ef|Ef]; bool_to_prop; [by left|by right].
  - intros ->. rewrite seqb_refl in Es. unfold time_before in Es. cbn [andb] in Es. by bool_to_prop.
  - intros ->. by destruct (cfg_EgressIdentityMode c).
Qed.

(** The workload the assignment is bound to: the only one that claims it, of one replica and
    not older than the assignment. *)
Record workload_checked (c : Config) (object : Unstructured SandboxAssignment)
  (workload : Unstructured BatchSandbox) (tr : list KEvent) : Prop := {
  wc_unique : exists items, Ev (List Workloads (cfg_WorkloadNamespace c)
      (list_label AssignmentLabel (om_Name (sa_meta (u_obj object))))) (Ok items) ∈ tr /\
    List.filter (fun item => assignmentUID (om_Annotations (bs_meta (u_obj item))) =?s
                              om_UID (sa_meta (u_obj object))) items = [workload];
  wc_replicas : nested workload ["spec"; "replicas"] (bs_replicas (u_obj workload)) = Ok (Some 1);
  wc_fresh : om_CreationTimestamp (sa_meta (u_obj object)) <= om_CreationTimestamp (bs_meta (u_obj workload))
}.

(** Evidence for a ready event, from the workload on. *)
Definition workload_evidence (c : Config) (object : Unstructured SandboxAssignment)
  (resolved : ResolvedCapabilityBundle) (required : bool) (tr : list KEvent) (e : KEvent) : Prop :=
  map_get (om_Annotations (sa_meta (u_obj object))) PausedAnnotation <> "true" /\
  exists workload pod account,
    ready_write c object resolved workload pod e /\ workload_checked c object workload tr /\
    (let poolRef := nested_string workload ["spec"; "poolRef"] (bs_poolRef (u_obj workload)) in
     pod_checked c object required poolRef pod account /\
     (poolRef = "" ->
        assignmentUID (om_Annotations (pod_meta pod)) = om_UID (sa_meta (u_obj object)) /\
        ownedBy (om_OwnerReferences (pod_meta pod)) workload = true /\
        om_DeletionTimestamp (pod_meta pod) = None)).

Lemma matchingPods_run c object workload poolRef tr r :
  run (matchingPods c object workload poolRef) tr r ->
  writes tr = [] /\ existsb publishes_ready tr = false /\
  (forall pod pods, r = Ok pods -> pod ∈ pods -> poolRef = "" ->
     assignmentUID (om_Annotations (pod_meta pod)) = om_UID (sa_meta (u_obj object)) /\
     ownedBy (om_OwnerReferences (pod_meta pod)) workload = true /\
     om_DeletionTimestamp (pod_meta pod) = None).
Proof.
  unfold matchingPods. destruct (poolRef =?s "") eqn:Ep; cbn [negb]; intros Hr.
  - run_step Hr; subst; [done|]. run_step Hr. split_and!; [done|done|].
    intros pod pods [= <-] Hin _. rewrite list_elem_of_In, filter_In in Hin. destruct Hin as [_ Hin].
    apply andb_true_iff in Hin as [Hin Hd]. apply andb_true_iff in Hin as [Hu Ho].
    apply seqb_eq in Hu. apply negb_true_iff, om_deleting_false in Hd. done.
  - apply seqb_neq in Ep. enough (writes tr = [] /\ existsb publishes_ready tr = false) by naive_solver.
    unfold allocatedPoolPods in Hr. run_step Hr; subst; [done|].
    destruct (_ && _); [by run_step Hr|]. destruct (_ =?s ""); [by run_step Hr|].
    destruct (json_pods _) as [[|n [|? ?]]|]; try (by run_step Hr). run_step Hr.
    destruct a0 as [p|e]; [destruct (_ || _)|destruct (IsNotFound e)]; by run_step Hr.
Qed.

Lemma reconcile_workload_run c object resolved required tr r pre :
  writes pre = [] -> existsb publishes_ready pre = false ->
  run (reconcile_workload c object resolved required) tr r ->
  pass (workload_evidence c object resolved required (pre ++ tr)) (pre ++ tr).
Proof.
  intros Hw Hp. unfold reconcile_workload. intros Hr.
  destruct (_ =?s "true") eqn:Epause; [by eapply pass_progress|]. apply seqb_neq in Epause.
  apply run_try in Hr as [(e & Hm & ->)|(workloads & t1 & t2 & -> & Hm & Hr)];
    unfold matchingWorkloads in Hm; run_step Hm; subst; try run_step Hm.
  { apply pass_quiet; [by rewrite writes_app, Hw|by rewrite existsb_app, Hp]. }
  set (list := Ev (List Workloads _ _) (Ok a)) in *. rewrite app_nil_r, app_assoc.
  assert (writes (pre ++ [list]) = []) as Hw' by by rewrite writes_app, Hw.
  assert (existsb publishes_ready (pre ++ [list]) = false) as Hp' by by rewrite existsb_app, Hp.
  destruct (List.filter _ a) as [|workload [|? ?]] eqn:Ef; [by eapply pass_progress| |by eapply pass_progress].
  destruct (_ =?s "") eqn:Eid in Hr.
  { run_step Hr; subst; [by apply pass_one|]. run_step Hr. rewrite app_nil_r. by apply pass_one. }
  destruct (negb _) eqn:Erep in Hr; [by eapply pass_progress|].
  destruct (time_before _ _) eqn:Est; [by eapply pass_progress|].
  apply run_try in Hr as [(e & Hmp & ->)|(pods & t3 & t4 & -> & Hmp & Hr)];
    apply matchingPods_run in Hmp as (Hw3 & Hp3 & Hpods).
  { apply pass_quiet; [by rewrite writes_app, Hw'|by rewrite existsb_app, Hp']. }
  rewrite app_assoc.
  assert (writes ((pre ++ [list]) ++ t3) = []) as Hw'' by by rewrite writes_app, Hw'.
  assert (existsb publishes_ready ((pre ++ [list]) ++ t3) = false) as Hp'' by by rewrite existsb_app, Hp'.
  destruct pods as [|pod [|? ?]]; [by eapply pass_progress| |by eapply pass_progress].
  destruct (reconcile_pod_run _ _ _ _ _ _ _ _ _ _ Hw'' Hp'' Hr) as [Hlen Hev]. split; [done|].
  intros e He Hrd. destruct (Hev e He Hrd) as (Hwrite & account & Hacc & Hchk). split; [done|].
  exists workload, pod, account. split_and!; [done| |split; [done|]].
  - constructor.
    + exists a. split; [in_trace|done].
    + apply negb_false_iff, bool_decide_eq_true in Erep.
      destruct (nested workload _ _) as [x|]; [by subst|done].
    + unfold time_before in Est. by bool_to_prop.
  - intros Hpool. apply (Hpods pod [pod] eq_refl); [apply list_elem_of_here|done].
Qed.

(** The template an assignment pins, and its agreement with the bundle. *)
Record template_checked (c : Config) (a : SandboxAssignment) (boundary : option GovernanceBoundary)
  (revision : string) (template : Unstructured SandboxTemplate) (tr : list KEvent) : Prop := {
  tc_get : Ev (Get Templates (cfg_AssignmentNamespace c) (tr_Name (as_TemplateRef (sa_Spec a))))
    (Ok template) ∈ tr;
  tc_live : om_DeletionTimestamp (st_meta (u_obj template)) = None;
  tc_uid : om_UID (st_meta (u_obj template)) = tr_UID (as_TemplateRef (sa_Spec a));
  tc_revision : policyRevision template (st_Spec (u_obj template)) =
    Ok (tr_SpecRevision (as_TemplateRef (sa_Spec a)));
  tc_enabled : sts_Enabled (st_Spec (u_obj template)) = true;
  tc_bundle : sts_CapabilityBundleRef (st_Spec (u_obj template)) =
    {| cbr_Name := cbr_Name (as_CapabilityBundleRef (sa_Spec a)); cbr_PolicyRevision := revision |};
  tc_tenant : as_LogicalTenant (sa_Spec a) <> "" /\
    gb_LogicalTenant <$> boundary = Some (as_LogicalTenant (sa_Spec a))
}.

(** Everything a published ready status rests on. *)
Definition ready_evidence (c : Config) (object : Unstructured SandboxAssignment) (tr : list KEvent)
  (e : KEvent) : Prop :=
  exists bundle revision,
    Ev (Get Bundles (cfg_AssignmentNamespace c)
          (cbr_Name (as_CapabilityBundleRef (sa_Spec (u_obj object))))) (Ok bundle) ∈ tr /\
    om_DeletionTimestamp (cb_meta (u_obj bundle)) = None /\
    bundleFinalizer ∈ om_Finalizers (cb_meta (u_obj bundle)) /\
    validateBundlePolicy (u_obj bundle) = Ok tt /\
    policyRevision bundle (cb_Spec (u_obj bundle)) = Ok revision /\
    workload_evidence c object
      {| rcb_Name := om_Name (cb_meta (u_obj bundle)); rcb_UID := om_UID (cb_meta (u_obj bundle));
         rcb_PolicyRevision := revision |} (identity_required (u_obj bundle)) tr e /\
    (tr_Name (as_TemplateRef (sa_Spec (u_obj object))) <> "" -> exists template,
       template_checked c (u_obj object) (cbs_Governance (cb_Spec (u_obj bundle))) revision template tr).

(** What is known of the template before the bundle is read. *)
Definition template_pending (c : Config) (a : SandboxAssignment) (resolved : option SandboxTemplate)
  (pre : list KEvent) : Prop :=
  match resolved with
  | None => tr_Name (as_TemplateRef (sa_Spec a)) = ""
  | Some t => exists template, t = u_obj template /\
      Ev (Get Templates (cfg_AssignmentNamespace c) (tr_Name (as_TemplateRef (sa_Spec a))))
        (Ok template) ∈ pre /\
      om_DeletionTimestamp (st_meta t) = None /\ om_UID (st_meta t) = tr_UID (as_TemplateRef (sa_Spec a)) /\
      policyRevision template (st_Spec t) = Ok (tr_SpecRevision (as_TemplateRef (sa_Spec a))) /\
      sts_Enabled (st_Spec t) = true /\
      cbr_Name (sts_CapabilityBundleRef (st_Spec t)) = cbr_Name (as_CapabilityBundleRef (sa_Spec a))
  end.

Lemma reconcile_bundle_run c object resolved tr r pre :
  writes pre = [] -> existsb publishes_ready pre = false ->
  template_pending c (u_obj object) resolved pre ->
  run (reconcile_bundle c object (u_obj object) resolved) tr r ->
  pass (ready_evidence c object (pre ++ tr)) (pre ++ tr).
Proof.
  intros Hw Hp Htp. unfold reconcile_bundle. intros Hr. run_step Hr.
  set (get := Ev (Get Bundles _ _) a) in *. rewrite app_assoc.
  assert (writes (pre ++ [get]) = []) as Hw' by by rewrite writes_app, Hw.
  assert (existsb publishes_ready (pre ++ [get]) = false) as Hp' by by rewrite existsb_app, Hp.
  destruct a as [bundle|e]; [|by eapply pass_progress].
  destruct (om_deleting _) eqn:Ed; [by eapply pass_progress|]. apply om_deleting_false in Ed.
  unfold bundleFromUnstructured, FromUnstructured in Hr.
  destruct (u_malformed bundle) eqn:Emal; [|run_step Hr; rewrite app_nil_r; by apply pass_quiet].
  destruct (validateBundlePolicy (u_obj bundle)) as [[]|e] eqn:Ev; [|by eapply pass_progress].
  destruct (contains bundleFinalizer _) eqn:Efin; cbn [negb] in Hr.
  2: { run_step Hr; subst; [by apply pass_one|]. run_step Hr. rewrite app_nil_r. by apply pass_one. }
  destruct (policyRevision bundle _) as [revision|e] eqn:Erev;
    [|run_step Hr; rewrite app_nil_r; by apply pass_quiet].
  match type of Hr with context [if ?x then _ else _] => destruct x eqn:Emis end; [by eapply pass_progress|].
  destruct (reconcile_workload_run _ _ _ _ _ _ _ Hw' Hp' Hr) as [Hlen Hev]. split; [done|].
  intros e He Hrd. specialize (Hev e He Hrd). exists bundle, revision. split_and!; try done.
  - unfold get. in_trace.
  - by apply contains_true.
  - intros Hnt. destruct resolved as [t|]; [|done].
    destruct Htp as (template & -> & Hget & Hlive & Huid & Hrv & Hen & Hname).
    exists template. apply orb_false_iff in Emis as [Emis Eg]. apply orb_false_iff in Emis as [Epr Et].
    bool_to_prop. constructor; try done; [in_trace| |].
    + destruct (sts_CapabilityBundleRef _); cbn in *; congruence.
    + destruct (cbs_Governance _) as [b|]; [|done]. bool_to_prop. split; [done|]. cbn. congruence.
Qed.

Lemma reconcile_template_run c object tr r :
  run (reconcile_template c object (u_obj object)) tr r -> pass (ready_evidence c object tr) tr.
Proof.
  unfold reconcile_template. intros Hr. destruct (_ =?s "") eqn:En.
  { apply (reconcile_bundle_run c object None tr r []); [done|done|by apply seqb_eq|done]. }
  run_step Hr. set (get := Ev (Get Templates _ _) a) in *.
  destruct a as [template|e]; [|by eapply (pass_progress _ _ _ _ _ _ _ _ _ _ _ _ _ [get])].
  assert (forall reason message, run (progress c object None None None false false false reason message) tr1 r ->
    pass (ready_evidence c object ([get] ++ tr1)) ([get] ++ tr1)) as Hprog
    by (intros; by eapply pass_progress).
  destruct (om_deleting _) eqn:Ed; [by eapply Hprog|]. apply om_deleting_false in Ed.
  destruct (_ <>?s _) eqn:Eu in Hr; [by eapply Hprog|].
  destruct (negb _) eqn:Er in Hr; [by eapply Hprog|].
  unfold FromUnstructured in Hr. destruct (u_malformed template); [|run_step Hr; by apply pass_quiet].
  destruct (_ || _) eqn:Eok in Hr; [by eapply Hprog|].
  eapply reconcile_bundle_run in Hr; [exact Hr|done|done|].
  apply orb_false_iff in Eok as [Een Enm]. bool_to_prop.
  destruct (policyRevision template _) as [rev|] eqn:Erev; [|done]. bool_to_prop. subst.
  exists template. split_and!; try done. unfold get. in_trace.
Qed.

(** An assignment is published as ready only on complete evidence: it is neither deleting nor
    paused and carries its finalizer; its template, bundle and revisions agree; exactly one
    fresh workload and one Pod are bound to it; and the Pod passed every isolation, freshness,
    runtime, readiness and identity check.  A pass over a live assignment makes at most one
    write. *)
Lemma reconcile_live_run c object tr r :
  om_deleting (sa_meta (u_obj object)) = false ->
  run (reconcile c object) tr r ->
  (length (writes tr) <= 1)%nat /\
  forall e, e ∈ tr -> publishes_ready e = true ->
    assignmentFinalizer ∈ om_Finalizers (sa_meta (u_obj object)) /\ ready_evidence c object tr e.
Proof.
  intros Hd. unfold reconcile. rewrite Hd. intros Hr.
  destruct (contains _ _) eqn:Ef; cbn [negb] in Hr.
  2: { run_step Hr; subst; [|run_step Hr]; rewrite ?app_nil_r; (split; [cbn; lia|]);
       intros ev ->%list_elem_of_singleton; done. }
  unfold assignmentFromUnstructured, FromUnstructured in Hr.
  destruct (u_malformed object); [|run_step Hr; cbn; split; [lia|by intros e ?%elem_of_nil]].
  apply reconcile_template_run in Hr as [Hl Hev]. split; [done|]. intros e He Hrd.
  split; [by apply contains_true|auto].
Qed.

End ready.

(** ** Finalization *)

Section finalization.
Context `{UnicodeTables} `{Sha256} `{CelLib}.

(** The assignment object a call updates. *)
Definition assignment_update (e : KEvent) : option (Unstructured SandboxAssignment) :=
  match e with
  | Ev op _ => match op with Update r _ object => assignment_of r object | _ => None end
  end.
Definition updates_assignment (e : KEvent) : bool := bool_decide (is_Some (assignment_update e)).

Lemma prefix_before {A} (f : A -> bool) pre rest tr1 w tr2 :
  existsb f pre = false -> f w = true -> pre ++ rest = tr1 ++ w :: tr2 -> exists mid, tr1 = pre ++ mid.
Proof.
  intros Hp Hw. revert tr1. induction pre as [|x pre IH]; intros tr1; [by exists tr1|].
  cbn in Hp. apply orb_false_iff in Hp as [Hx Hp]. destruct tr1 as [|y tr1]; cbn; intros [= <- E].
  - congruence.
  - destruct (IH Hp _ E) as [mid ->]. by exists mid.
Qed.

(** Neither updates an assignment nor publishes a status. *)
Definition no_publish (tr : list KEvent) : Prop :=
  existsb updates_assignment tr = false /\ existsb publishes_ready tr = false.

Lemma no_publish_app t1 t2 : no_publish t1 -> no_publish t2 -> no_publish (t1 ++ t2).
Proof. intros [Ha Hb] [Hc Hd]. by split; rewrite existsb_app; [rewrite Ha, Hc|rewrite Hb, Hd]. Qed.

Lemma workloads_to_delete_run c object tr r :
  run (workloads_to_delete c object) tr r -> no_publish tr.
Proof.
  unfold workloads_to_delete. intros Hr. case_match; [by run_step Hr|].
  run_step Hr; subst; unfold matchingWorkloads in *.
  - by match goal with Hm : run _ _ (Err _) |- _ => run_step Hm; subst; try run_step Hm end.
  - match goal with Hm : run _ _ (Ok _) |- _ => run_step Hm; run_step Hm end. run_step Hr. done.
Qed.

(** The deletion loop reports all gone only after each workload was seen to be absent. *)
Lemma delete_workloads_run ns names tr r :
  run (delete_workloads ns names) tr r ->
  no_publish tr /\
  (r = Ok true -> forall name, name ∈ names -> exists e, IsNotFound e = true /\
     Ev (Get Workloads ns name) (Err e) ∈ tr).
Proof.
  revert tr. induction names as [|name names IH]; intros tr; cbn [delete_workloads].
  { intros Hr. run_step Hr. split; [done|]. by intros _ n ?%elem_of_nil. }
  intros Hr. run_step Hr. set (del := Ev (Delete Workloads ns name None) a) in *.
  set (check_gone := got <-- call (Get Workloads ns name) ;; _) in Hr.
  assert (run check_gone tr1 r -> no_publish ([del] ++ tr1) /\
    (r = Ok true -> forall n, n ∈ name :: names -> exists e, IsNotFound e = true /\
      Ev (Get Workloads ns n) (Err e) ∈ [del] ++ tr1)) as Hcg.
  { unfold check_gone. clear Hr. intros Hr. run_step Hr. destruct a0 as [w|e].
    { run_step Hr. done. }
    destruct (IsNotFound e) eqn:En; cbn [negb] in Hr; [|by run_step Hr].
    apply IH in Hr as [Hq Hg]. split; [apply (no_publish_app [del; _]); done|].
    intros Hok n [->|Hin]%elem_of_cons; [exists e; split; [done|in_trace]|].
    destruct (Hg Hok n Hin) as (e' & He' & Hin'). exists e'. split; [done|in_trace]. }
  clearbody check_gone. destruct a as [u|e]; [auto|]. destruct (IsNotFound e); [auto|].
  run_step Hr. done.
Qed.

(** A listing in which no Pod names the assignment. *)
Definition no_pod_listed (c : Config) (object : Unstructured SandboxAssignment) (tr : list KEvent) : Prop :=
  exists pods,
    Ev (List Pods (cfg_WorkloadNamespace c) (list_label AssignmentLabel (om_Name (sa_meta (u_obj object)))))
      (Ok pods) ∈ tr /\
    forall pod, pod ∈ pods ->
      assignmentUID (om_Annotations (pod_meta pod)) <> om_UID (sa_meta (u_obj object)).

Lemma no_pod_listed_mono c object tr tr' :
  no_pod_listed c object tr -> tr ⊆ tr' -> no_pod_listed c object tr'.
Proof. intros (pods & Hin & Hn) Hs. exists pods. auto. Qed.

(** The Pod check reports all gone only after the recorded Pod was seen absent or replaced and
    no listed Pod names the assignment. *)
Lemma pods_gone_run c object tr r :
  run (pods_gone c object) tr r -> no_publish tr /\ (r = Ok true -> no_pod_listed c object tr).
Proof.
  unfold pods_gone. intros Hr. set (list_pods := prog_try _ _) in Hr.
  assert (forall tr, run list_pods tr r -> no_publish tr /\ (r = Ok true -> no_pod_listed c object tr)) as Hlist.
  { clear. intros tr Hr. unfold list_pods in Hr. run_step Hr; subst; [done|]. run_step Hr. split; [done|].
    intros [= Hn%negb_true_iff]. exists a. split; [in_trace|]. intros pod Hin Hu.
    by eapply (elem_existsb_false _ _ _ Hn Hin), seqb_eq. }
  clearbody list_pods. case_match; [|auto].
  run_step Hr. set (get := Ev (Get Pods _ _) a) in *.
  assert (run list_pods tr1 r -> no_publish ([get] ++ tr1) /\
    (r = Ok true -> no_pod_listed c object ([get] ++ tr1))) as Hcont.
  { intros [Hq Hg]%Hlist. split; [by apply no_publish_app|]. intros Hok.
    eapply no_pod_listed_mono; [by apply Hg|]. set_solver. }
  destruct a as [pod|e].
  - destruct (om_UID (pod_meta pod) =?s _); [run_step Hr; done|by apply Hcont].
  - destruct (IsNotFound e); cbn [negb] in Hr; [by apply Hcont|run_step Hr; done].
Qed.

Lemma releaseBundleIfUnused_quiet c object tr r :
  run (releaseBundleIfUnused c object) tr r -> no_publish tr.
Proof.
  unfold releaseBundleIfUnused. intros Hr. destruct (assignmentFromUnstructured object); [|by run_step Hr].
  run_step Hr; subst; [done|]. destruct (bundle_in_use _ _ _) as [[|]|]; [by run_step Hr| |by run_step Hr].
  run_step Hr. destruct a1 as [b|e]; [|destruct (IsNotFound e); by run_step Hr].
  run_step Hr; subst; [done|]. by run_step Hr.
Qed.

End finalization.

(** ** Theorems *)

Section controller_theorems.
Context `{UnicodeTables} `{Sha256} `{CelLib}.

(** The namespace a recorded workload is deleted from. *)
Definition workload_namespace (c : Config) (object : Unstructured SandboxAssignment) : string :=
  let recorded := nested_string object ["status"; "workloadRef"; "namespace"]
                    (ref_Namespace <$> ss_WorkloadRef (sa_Status (u_obj object))) in
  if recorded =?s "" then cfg_WorkloadNamespace c else recorded.

Lemma finalize_run c object tr r :
  run (finalize c object) tr r ->
  existsb publishes_ready tr = false /\
  (no_publish tr \/ exists pre u post names tr0,
     tr = pre ++ u :: post /\ no_publish pre /\ no_publish post /\
     assignmentFinalizer ∈ om_Finalizers (sa_meta (u_obj object)) /\
     assignment_update u = Some (with_finalizers
       (without_finalizer assignmentFinalizer (om_Finalizers (sa_meta (u_obj object)))) object) /\
     run (workloads_to_delete c object) tr0 (Ok names) /\ tr0 ⊆ pre /\
     (forall name, name ∈ names -> exists e, IsNotFound e = true /\
        Ev (Get Workloads (workload_namespace c object) name) (Err e) ∈ pre) /\
     no_pod_listed c object pre).
Proof.
  unfold finalize. intros Hr. destruct (contains _ _) eqn:Ef; cbn [negb] in Hr; [|by run_step Hr; split; [|left]].
  fold (workload_namespace c object) in Hr.
  assert (no_publish tr -> existsb publishes_ready tr = false /\ (no_publish tr \/ exists pre u post names tr0,
     tr = pre ++ u :: post /\ no_publish pre /\ no_publish post /\
     assignmentFinalizer ∈ om_Finalizers (sa_meta (u_obj object)) /\
     assignment_update u = Some (with_finalizers
       (without_finalizer assignmentFinalizer (om_Finalizers (sa_meta (u_obj object)))) object) /\
     run (workloads_to_delete c object) tr0 (Ok names) /\ tr0 ⊆ pre /\
     (forall name, name ∈ names -> exists e, IsNotFound e = true /\
        Ev (Get Workloads (workload_namespace c object) name) (Err e) ∈ pre) /\
     no_pod_listed c object pre)) as Hq by (intros Hq; split; [by destruct Hq|by left]).
  apply run_try in Hr as [(e & Hn & ->)|(names & t1 & t2 & -> & Hn & Hr)];
    [by eapply Hq, workloads_to_delete_run|].
  pose proof (workloads_to_delete_run _ _ _ _ Hn) as Q1.
  apply run_try in Hr as [(e & Hd & ->)|(gone & t3 & t4 & -> & Hd & Hr)];
    apply delete_workloads_run in Hd as [Q3 Hgone]; [by apply Hq, no_publish_app|].
  destruct gone; cbn [negb] in Hr; [|run_step Hr; apply Hq; rewrite app_nil_r; by apply no_publish_app].
  apply run_try in Hr as [(e & Hg & ->)|(pgone & t5 & t6 & -> & Hg & Hr)];
    apply pods_gone_run in Hg as [Q5 Hpods]; [by apply Hq, no_publish_app, no_publish_app|].
  destruct pgone; cbn [negb] in Hr;
    [|run_step Hr; apply Hq; rewrite app_nil_r; by repeat apply no_publish_app].
  clear Hq. set (pre := t1 ++ t3 ++ t5). assert (no_publish pre) as Qp by by repeat apply no_publish_app.
  assert (exists u post, t6 = u :: post /\ no_publish post /\ publishes_ready u = false /\
    assignment_update u = Some (with_finalizers
      (without_finalizer assignmentFinalizer (om_Finalizers (sa_meta (u_obj object)))) object))
    as (u & post & -> & Qpost & Hu & Hupd).
  { run_step Hr; subst; [do 2 eexists; split_and!; done|].
    apply releaseBundleIfUnused_quiet in Hr. do 2 eexists. split_and!; try done. }
  replace (t1 ++ t3 ++ t5 ++ u :: post) with (pre ++ u :: post) by (unfold pre; by rewrite <- !app_assoc).
  split; [rewrite existsb_app; cbn; destruct Qp as [_ ->], Qpost as [_ ->]; by rewrite Hu|].
  right. exists pre, u, post, names, t1. split_and!; try done.
  - by apply contains_true.
  - unfold pre. set_solver.
  - intros name Hin. destruct (Hgone eq_refl name Hin) as (e & He & Hin').
    exists e. split; [done|]. unfold pre. in_trace.
  - eapply no_pod_listed_mono; [by apply Hpods|]. unfold pre. set_solver.
Qed.

Lemma reconcile_ready c object tr r e :
  run (reconcile c object) tr r -> e ∈ tr -> publishes_ready e = true ->
  om_DeletionTimestamp (sa_meta (u_obj object)) = None /\
  assignmentFinalizer ∈ om_Finalizers (sa_meta (u_obj object)) /\ ready_evidence c object tr e.
Proof.
  intros Hr He Hp. destruct (om_deleting (sa_meta (u_obj object))) eqn:Ed.
  - unfold reconcile in Hr. rewrite Ed in Hr. apply finalize_run in Hr as [Hn _].
    exfalso. by eapply elem_existsb_false.
  - split; [by apply om_deleting_false|]. eapply reconcile_live_run in Hr as [_ Hev]; eauto.
Qed.

(** The pass of the loop that an event belongs to: the assignments were listed, and the event was made
    while one of them was reconciled. *)
Definition in_pass (c : Config) (tr : list KEvent) (e : KEvent) (object : Unstructured SandboxAssignment)
  (pass : list KEvent) : Prop :=
  exists objects before after r, tr = before ++ pass ++ after /\ e ∈ pass /\
    Ev (List Assignments (cfg_AssignmentNamespace c) list_all) (Ok objects) ∈ before /\ object ∈ objects /\
    run (reconcile c object) pass r.

Lemma in_pass_app c t1 t2 t3 e object pass : in_pass c t2 e object pass -> in_pass c (t1 ++ t2 ++ t3) e object pass.
Proof.
  intros (objects & before & after & r & -> & He & Hl & Ho & Hr).
  exists objects, (t1 ++ before), (after ++ t3), r. rewrite <- !app_assoc. split_and!; try done. set_solver.
Qed.

Lemma reconcile_each_pass c objects joined tr errs e :
  run (reconcile_each c objects joined) tr errs -> e ∈ tr ->
  exists object before pass after r, tr = before ++ pass ++ after /\ e ∈ pass /\ object ∈ objects /\
    run (reconcile c object) pass r.
Proof.
  revert joined tr. induction objects as [|object rest IH]; intros joined tr Hr He; cbn [reconcile_each] in Hr.
  - destruct Hr as [-> _]. by apply elem_of_nil in He.
  - apply run_bind in Hr as (r & t1 & t2 & -> & Hr & Hrest). apply elem_of_app in He as [He|He].
    + exists object, [], t1, t2, r. split_and!; [done|done|set_solver|done].
    + assert (exists joined', run (reconcile_each c rest joined') t2 errs) as [joined' Hrest'] by (destruct r; eauto).
      destruct (IH _ _ Hrest' He) as (o & before & pass & after & r' & -> & Hp & Ho & Hro).
      exists o, (t1 ++ before), pass, after, r'. rewrite <- app_assoc. split_and!; [done|done|set_solver|done].
Qed.

Lemma controller_Run_pass rounds c tr errs e :
  run (controller_Run rounds c) tr errs -> e ∈ tr -> publishes_ready e = true ->
  exists object pass, in_pass c tr e object pass.
Proof.
  revert tr errs. induction rounds as [|rounds IH]; intros tr errs Hr He Hp; cbn [controller_Run] in Hr.
  { destruct Hr as [-> _]. by apply elem_of_nil in He. }
  apply run_bind in Hr as (all & t1 & t2 & -> & Hall & Hr).
  apply run_bind in Hr as (finished & t3 & t4 & -> & ->%run_call & Hr).
  apply elem_of_app in He as [He|He].
  - unfold reconcileAll in Hall. apply run_bind in Hall as (listed & ? & t5 & -> & ->%run_call & Hall).
    apply elem_of_app in He as [->%list_elem_of_singleton|He]; [done|].
    destruct listed as [objects|]; [|destruct Hall as [-> _]; by apply elem_of_nil in He].
    destruct (reconcile_each_pass _ _ _ _ _ _ Hall He) as (object & before & pass & after & r & -> & Hpass & Ho & Hrun).
    exists object, pass. eexists objects, (Ev (List Assignments _ _) (Ok objects) :: before), _, r.
    split_and!; [|done|by left|done|done]. cbn. rewrite <- !app_assoc. reflexivity.
  - apply elem_of_app in He as [->%list_elem_of_singleton|He]; [done|].
    destruct finished as [err|]; [destruct Hr as [-> _]; by apply elem_of_nil in He|].
    apply run_bind in Hr as (more & t5 & t6 & -> & Hr & [-> _]). rewrite app_nil_r in *.
    destruct (IH _ _ Hr He Hp) as (object & pass & Hin). exists object, pass.
    rewrite app_assoc. rewrite <- (app_nil_r t5). by apply in_pass_app.
Qed.


(** One pass over a live assignment changes at most one object, so every step of the
    level-triggered loop starts from freshly read state. *)
Theorem reconcile_single_write c object tr r :
  om_DeletionTimestamp (sa_meta (u_obj object)) = None ->
  run (reconcile c object) tr r -> (length (writes tr) <= 1)%nat.
Proof. intros Hd Hr. apply om_deleting_false in Hd. by eapply reconcile_live_run in Hr as [? _]. Qed.


End controller_theorems.
