(* ===== verification/Broker.v ===== *)
(** * Package [credentialbroker]: short-lived, scoped, revocable credentials

    [internal/assignment/credentialbroker/broker.go] and [kubernetes.go].  The JWT library is
    a class; [JwtLaws] states the documented behaviour that the theorems rely on.  A dereference of a nil pointer is the
    outcome [Panicked]. *)

From S2P Require Import Prelude GoStrings GoJson NetIP ApiTypes ApiJson Kube Governance AuthzServer Checker EgressAudit.
From stdpp Require Import options.

Definition defaultIssuer : string := "assignmentd-credential-broker".
Definition defaultAudience : string := "sandbox-brokered-upstream".
Definition minimumTTL : Duration := Minute.
Definition maximumTTL : Duration := 15 * Minute.

Record Config := {
  bc_SigningKey : string;
  bc_SigningKeyID : string;
  bc_PreviousSigningKeys : gmap string string;
  bc_Issuer : string;
  bc_Audience : string
}.

(** [GrantClaims] with the embedded [jwt.RegisteredClaims]. *)
Record GrantClaims := {
  gc_AssignmentName : string;
  gc_AssignmentUID : string;
  gc_SandboxID : string;
  gc_PodUID : string;
  gc_CapabilityBundleName : string;
  gc_CapabilityBundleRevision : string;
  gc_TaskID : string;
  gc_Backend : string;
  gc_Method : string;
  gc_Host : string;
  gc_Path : string;
  gc_Issuer : string;
  gc_Subject : string;
  gc_Audience : list string;
  gc_ExpiresAt : option Time;
  gc_NotBefore : option Time;
  gc_IssuedAt : option Time;
  gc_ID : string
}.

Record AuditEvent := { ae_Timestamp : Time; ae_Action : string; ae_Grant : GrantClaims }.

Record issueRequest := {
  iq_IdentityToken : string;
  iq_Backend : string;
  iq_Method : string;
  iq_Host : string;
  iq_Path : string;
  iq_TaskID : string;
  iq_TTLSeconds : Z
}.

(** ** Library code *)

Definition HS256 : string := "HS256".

(** [github.com/golang-jwt/jwt/v5]: signing with HS256 under a key identifier, and parsing with a
    key function (from the algorithm and the key identifier), the required audience, issuer
    and algorithms, and the current time.  The boolean is [token.Valid]. *)
Class JwtLib := {
  jwt_Sign : string -> string -> GrantClaims -> result string;
  jwt_Parse : string -> (string -> string -> result string) -> string -> string -> list string ->
    Time -> result (GrantClaims * bool)
}.

(** Documented behaviour: a token parses back to its claims when the key function returns the
    signing key and the registered claims are acceptable now; and a token that parses was
    unexpired and addressed to the audience by the issuer. *)
Class JwtLaws `{JwtLib} : Prop := {
  jwt_roundtrip kid key claims token keyfunc audience issuer now :
    jwt_Sign kid key claims = Ok token -> keyfunc HS256 kid = Ok key ->
    audience ∈ gc_Audience claims -> gc_Issuer claims = issuer ->
    (forall t, gc_ExpiresAt claims = Some t -> now < t) ->
    (forall t, gc_NotBefore claims = Some t -> t <= now) ->
    jwt_Parse token keyfunc audience issuer [HS256] now = Ok (claims, true);
  jwt_checked token keyfunc audience issuer methods now claims :
    jwt_Parse token keyfunc audience issuer methods now = Ok (claims, true) ->
    audience ∈ gc_Audience claims /\ gc_Issuer claims = issuer /\
    forall t, gc_ExpiresAt claims = Some t -> now < t
}.

(** ** Request bodies *)

Definition maxRequestBytes : Z := Z.shiftl 32 10.

Definition empty_issueRequest : issueRequest := {|
  iq_IdentityToken := ""; iq_Backend := ""; iq_Method := ""; iq_Host := ""; iq_Path := "";
  iq_TaskID := ""; iq_TTLSeconds := 0 |}.

Definition issue_fields : list string :=
  ["identityToken"; "backend"; "method"; "host"; "path"; "taskId"; "ttlSeconds"].

(** Decoding one member of the request into its field. *)
Definition set_issue_field (name : string) (v : json) (q : issueRequest) : option issueRequest :=
  let text (old : string) := decode_string v old in
  token ← (if name =?s "identityToken" then text (iq_IdentityToken q) else Some (iq_IdentityToken q));
  backend ← (if name =?s "backend" then text (iq_Backend q) else Some (iq_Backend q));
  method ← (if name =?s "method" then text (iq_Method q) else Some (iq_Method q));
  host ← (if name =?s "host" then text (iq_Host q) else Some (iq_Host q));
  path ← (if name =?s "path" then text (iq_Path q) else Some (iq_Path q));
  task ← (if name =?s "taskId" then text (iq_TaskID q) else Some (iq_TaskID q));
  ttl ← (if name =?s "ttlSeconds" then decode_int64 v (iq_TTLSeconds q) else Some (iq_TTLSeconds q));
  Some {| iq_IdentityToken := token; iq_Backend := backend; iq_Method := method; iq_Host := host;
          iq_Path := path; iq_TaskID := task; iq_TTLSeconds := ttl |}.

(** [decodeJSON]: one value with no unknown field, then nothing but white space, within
    [maxRequestBytes].  A body over the limit ends in an error after the bytes within it: the first
    [Decode] sees it unless its value is complete, which for null takes one more byte; the
    second always does. *)
Definition decodeJSON (body : string) : result issueRequest :=
  let seen := String.substring 0 (Z.to_nat maxRequestBytes) body in
  let over := maxRequestBytes <? slen body in
  match json_next seen with
  | None => Err (ErrMsg "invalid JSON request")
  | Some (v, rest) =>
      match decode_struct issue_fields true set_issue_field v empty_issueRequest with
      | None => Err (ErrMsg "invalid JSON request")
      | Some request =>
          if over && (rest =?s "") && match v with JNull => true | _ => false end
          then Err (ErrMsg "invalid JSON request")
          else if over || negb (only_space rest) then Err (ErrMsg "request must contain one JSON object")
          else Ok request
      end
  end.

(** ** The broker's interfaces; [None] is a panic *)

Class GrantValidator := { ValidateGrant : GrantClaims -> KProg (result unit) }.
Class GrantAudit := { RecordGrant : AuditEvent -> KProg (option (result unit)) }.
Class RevocationStore := {
  Revoke : GrantClaims -> KProg (option (result unit));
  IsRevoked : string -> KProg (result bool)
}.

(** ** Construction *)

Definition NewBroker (parts_present : bool) (config : Config) : result Config :=
  if negb parts_present
  then Err (ErrMsg "credential broker checker, validator, and revocation store are required")
  else if slen (bc_SigningKey config) <? 32
  then Err (ErrMsg "credential broker signing key must be at least 32 bytes")
  else
    let kid := if bc_SigningKeyID config =?s "" then "current" else bc_SigningKeyID config in
    if existsb (fun e => (TrimSpace e.1 =?s "") || (slen e.2 <? 32) || (e.1 =?s kid))
         (map_to_list (bc_PreviousSigningKeys config))
    then Err (ErrMsg "credential broker previous signing keys are invalid")
    else Ok {| bc_SigningKey := bc_SigningKey config; bc_SigningKeyID := kid;
               bc_PreviousSigningKeys := bc_PreviousSigningKeys config;
               bc_Issuer := if bc_Issuer config =?s "" then defaultIssuer else bc_Issuer config;
               bc_Audience := if bc_Audience config =?s "" then defaultAudience else bc_Audience config |}.

(** ** Requests *)

Definition task_char (c : ascii) : bool := is_lower c || is_upper c || is_digit c.
Definition validTaskID (value : string) : bool :=
  match value with
  | EmptyString => false
  | String c rest =>
      (slen value <=? 128) && task_char c
      && string_forallb (fun d => task_char d || byte_in d "._-") rest
  end.

Record Scope := { sc_backend : string; sc_method : string; sc_host : string; sc_path : string }.

Inductive Reply :=
  | ErrorReply (status : Z) (message : string)
  | IssuedReply (credential grantID : string) (expiresAt : Time) (assignment sandboxID taskID : string)
      (scope : Scope)
  | VerifiedReply (grantID taskID assignment sandboxID : string) (expiresAt : Time) (scope : Scope)
  | NoContentReply
  | PageNotFound
  | Panicked.

(** [jwt.NewNumericDate] has whole seconds. *)
Definition numeric_date (t : Time) : Time := t / Second * Second.

Section broker.
Context `{UnicodeTables} `{JwtLib} `{GrantValidator} `{RevocationStore}
        {S : Type} `{Checker Kube S}.
Variable config : Config.
(** The optional audit sink. *)
Variable audit : option GrantAudit.

Definition record (action : string) (claims : GrantClaims) : KProg (option (result unit)) :=
  match audit with
  | None => Ret (Some (Ok tt))
  | Some sink =>
      now <-- call time_Now ;;
      @RecordGrant sink {| ae_Timestamp := now; ae_Action := action; ae_Grant := claims |}
  end.

(** Finish with [reply] once the action is recorded. *)
Definition recorded (action : string) (claims : GrantClaims) (reply : Reply) : KProg Reply :=
  r <-- record action claims ;;
  match r with
  | None => Ret Panicked
  | Some (Err _) => Ret (ErrorReply StatusServiceUnavailable "credential audit is unavailable")
  | Some (Ok _) => Ret reply
  end.

Definition grant_claims (request : issueRequest) (target : Target) (decision : Decision)
  (now : Time) (ttl : Duration) (grantID : string) : GrantClaims := {|
  gc_AssignmentName := d_AssignmentName decision; gc_AssignmentUID := d_AssignmentUID decision;
  gc_SandboxID := d_SandboxID decision; gc_PodUID := d_PodUID decision;
  gc_CapabilityBundleName := d_CapabilityBundleName decision;
  gc_CapabilityBundleRevision := d_CapabilityBundleRevision decision;
  gc_TaskID := iq_TaskID request; gc_Backend := t_Backend target; gc_Method := t_Method target;
  gc_Host := t_Host target; gc_Path := t_Path target;
  gc_Issuer := bc_Issuer config; gc_Subject := d_AssignmentUID decision;
  gc_Audience := [bc_Audience config];
  gc_ExpiresAt := Some (numeric_date (time_add now ttl)); gc_NotBefore := Some (numeric_date now);
  gc_IssuedAt := Some (numeric_date now); gc_ID := grantID |}.

Definition check_input (request : issueRequest) (target : Target) : CheckInput := {|
  ci_Backend := t_Backend target; ci_IdentityToken := iq_IdentityToken request;
  ci_Method := t_Method target; ci_Host := t_Host target; ci_Path := t_Path target;
  ci_Headers := ∅; ci_SourceAddress := ""; ci_DeriveSourceFromIdentity := true |}.

Definition issue (body : string) (s : S) : KProg (Reply * S) :=
  match decodeJSON body with
  | Err e => Ret (ErrorReply StatusBadRequest (error_string e), s)
  | Ok request =>
    if iq_IdentityToken request =?s ""
    then Ret (ErrorReply StatusBadRequest "Pod-bound identity is required", s)
    else if negb (validTaskID (iq_TaskID request))
    then Ret (ErrorReply StatusBadRequest "task ID is invalid", s)
    else
      let ttl := dur_mul (iq_TTLSeconds request) Second in
      if (ttl <? minimumTTL) || (maximumTTL <? ttl)
      then Ret (ErrorReply StatusBadRequest "TTL must be between 60 and 900 seconds", s)
      else match NormalizeTarget (iq_Backend request) (iq_Method request) (iq_Host request)
                   (iq_Path request) with
      | Err _ => Ret (ErrorReply StatusBadRequest "target is invalid", s)
      | Ok target =>
        checked <-- Checker_Check (check_input request target) s ;;
        let '(decision, err, s) := checked in
        match err with
        | Some _ => Ret (ErrorReply StatusServiceUnavailable "credential authorization is unavailable", s)
        | None =>
          if negb (d_Allow decision)
          then Ret (ErrorReply StatusForbidden "credential scope is not authorized", s)
          else
            now <-- call time_Now ;;
            grantID <-- call uuid_NewString ;;
            let claims := grant_claims request target decision now ttl grantID in
            match jwt_Sign (bc_SigningKeyID config) (bc_SigningKey config) claims with
            | Err _ => Ret (ErrorReply StatusInternalServerError "credential issuance failed", s)
            | Ok token =>
                reply <-- recorded "issued" claims
                  (IssuedReply token grantID (time_add now ttl) (d_AssignmentName decision)
                     (d_SandboxID decision) (iq_TaskID request)
                     {| sc_backend := t_Backend target; sc_method := t_Method target;
                        sc_host := t_Host target; sc_path := t_Path target |}) ;;
                Ret (reply, s)
            end
        end
      end
  end.

(** The key function: the current key or a previous one, HS256 only. *)
Definition signing_key (method kid : string) : result string :=
  if method <>?s HS256 then Err (ErrMsg "unexpected signing method")
  else if kid =?s bc_SigningKeyID config then Ok (bc_SigningKey config)
  else match bc_PreviousSigningKeys config !! kid with
  | None => Err (ErrMsg "unknown signing key")
  | Some key => Ok key
  end.

Definition claims_ok (claims : GrantClaims) : bool :=
  (gc_ID claims <>?s "") && (gc_AssignmentUID claims <>?s "") && (gc_PodUID claims <>?s "")
  && (gc_CapabilityBundleRevision claims <>?s "") && validTaskID (gc_TaskID claims).

Definition scope_canonical (claims : GrantClaims) : bool :=
  match NormalizeTarget (gc_Backend claims) (gc_Method claims) (gc_Host claims) (gc_Path claims) with
  | Err _ => false
  | Ok target =>
      (t_Backend target =?s gc_Backend claims) && (t_Method target =?s gc_Method claims)
      && (t_Host target =?s gc_Host claims) && (t_Path target =?s gc_Path claims)
  end.

(** [parseAuthorization] of the [Authorization] header; the JWT library reads the clock. *)
Definition parseAuthorization (authorization : string) : KProg (result GrantClaims) :=
  match CutPrefix (TrimSpace authorization) "Bearer " with
  | None => Ret (Err (ErrMsg "missing bearer credential"))
  | Some tokenValue =>
      if tokenValue =?s "" then Ret (Err (ErrMsg "missing bearer credential"))
      else
        now <-- call time_Now ;;
        match jwt_Parse tokenValue signing_key (bc_Audience config) (bc_Issuer config) [HS256] now with
        | Err _ => Ret (Err (ErrMsg "invalid claims"))
        | Ok (claims, valid) =>
            if negb valid || negb (claims_ok claims) then Ret (Err (ErrMsg "invalid claims"))
            else if negb (scope_canonical claims) then Ret (Err (ErrMsg "invalid scope"))
            else Ret (Ok claims)
        end
  end.

Definition verify (authorization : string) : KProg Reply :=
  parsed <-- parseAuthorization authorization ;;
  match parsed with
  | Err _ => Ret (ErrorReply StatusUnauthorized "credential is invalid or expired")
  | Ok claims =>
    revoked <-- IsRevoked (gc_ID claims) ;;
    match revoked with
    | Err _ => Ret (ErrorReply StatusServiceUnavailable "credential revocation state is unavailable")
    | Ok true => Ret (ErrorReply StatusUnauthorized "credential is revoked")
    | Ok false =>
      valid <-- ValidateGrant claims ;;
      match valid with
      | Err _ => Ret (ErrorReply StatusUnauthorized "credential sandbox binding is stale")
      | Ok _ =>
          recorded "used" claims
            (match gc_ExpiresAt claims with
             | None => Panicked
             | Some expiresAt =>
                 VerifiedReply (gc_ID claims) (gc_TaskID claims) (gc_AssignmentName claims)
                   (gc_SandboxID claims) expiresAt
                   {| sc_backend := gc_Backend claims; sc_method := gc_Method claims;
                      sc_host := gc_Host claims; sc_path := gc_Path claims |}
             end)
      end
    end
  end.

Definition revoke (authorization : string) : KProg Reply :=
  parsed <-- parseAuthorization authorization ;;
  match parsed with
  | Err _ => Ret (ErrorReply StatusUnauthorized "credential is invalid or expired")
  | Ok claims =>
    revoked <-- Revoke claims ;;
    match revoked with
    | None => Ret Panicked
    | Some (Err _) => Ret (ErrorReply StatusServiceUnavailable "credential revocation state is unavailable")
    | Some (Ok _) => recorded "revoked" claims NoContentReply
    end
  end.

(** [ServeHTTP]: the three routes. *)
Definition Broker_ServeHTTP (method path authorization body : string) (s : S) : KProg (Reply * S) :=
  let keep (p : KProg Reply) := r <-- p ;; Ret (r, s) in
  if (method =?s "POST") && (path =?s "/broker/v1/credentials") then issue body s
  else if (method =?s "POST") && (path =?s "/broker/v1/verify") then keep (verify authorization)
  else if (method =?s "POST") && (path =?s "/broker/v1/revoke") then keep (revoke authorization)
  else Ret (PageNotFound, s).

End broker.

(** ** The Kubernetes implementations ([kubernetes.go]) *)

Definition assignmentGrantLabel : string := "aks-sandbox.azure.com/assignment".

Definition labelled_meta (name generateName namespace assignment : string) : ObjectMeta := {|
  om_Name := name; om_GenerateName := generateName; om_Namespace := namespace; om_UID := "";
  om_ResourceVersion := ""; om_Generation := 0; om_CreationTimestamp := zero_time;
  om_DeletionTimestamp := None; om_Labels := {[assignmentGrantLabel := assignment]};
  om_Annotations := ∅; om_Finalizers := []; om_OwnerReferences := [] |}.

Section kubernetes.
Variables (assignmentNamespace workloadNamespace : string).

Definition KubernetesGrantValidator_ValidateGrant (claims : GrantClaims) : KProg (result unit) :=
  object <-? call (Get Assignments assignmentNamespace (gc_AssignmentName claims)) ;;
  let meta := sa_meta (u_obj object) in
  let status := sa_Status (u_obj object) in
  if om_deleting meta || (om_UID meta <>?s gc_AssignmentUID claims)
     || (map_get (om_Annotations meta) PausedAnnotation =?s "true")
     || (map_get (om_Annotations meta) SandboxIDAnnotation <>?s gc_SandboxID claims)
     || negb (conditionTrue object "Ready")
  then Ret (Err (ErrMsg "assignment binding is stale"))
  else
    let pod_field f name := nested_string object ["status"; "podRef"; name] (f <$> ss_PodRef status) in
    let podName := pod_field ref_Name "name" in
    let podNamespace := pod_field ref_Namespace "namespace" in
    let podUID := pod_field ref_UID "uid" in
    let podNamespace := if podNamespace =?s "" then workloadNamespace else podNamespace in
    if (podUID <>?s gc_PodUID claims)
       || (resolved_bundle_field rcb_Name "name" object <>?s gc_CapabilityBundleName claims)
       || (resolved_bundle_field rcb_PolicyRevision "policyRevision" object
             <>?s gc_CapabilityBundleRevision claims)
    then Ret (Err (ErrMsg "assignment policy or Pod incarnation changed"))
    else
      pod <-? call (Get Pods podNamespace podName) ;;
      if om_deleting (pod_meta pod) || (om_UID (pod_meta pod) <>?s gc_PodUID claims)
         || (pst_Phase (pod_Status pod) =?s "Failed")
      then Ret (Err (ErrMsg "sandbox Pod binding is stale"))
      else Ret (Ok tt).

Definition revocation_name (grantID : string) : string := "grant-" +:+ grantID.

Definition KubernetesRevocationStore_Revoke (claims : GrantClaims) : KProg (option (result unit)) :=
  match gc_ExpiresAt claims with
  | None => Ret None
  | Some expiresAt =>
      let value := {|
        rev_meta := labelled_meta (revocation_name (gc_ID claims)) "" assignmentNamespace
                      (gc_AssignmentName claims);
        rev_Spec := {| cr_GrantID := gc_ID claims; cr_ExpiresAt := json_time expiresAt;
                       cr_AssignmentRef := {| ar_Name := gc_AssignmentName claims;
                                              ar_UID := gc_AssignmentUID claims |};
                       cr_PodUID := gc_PodUID claims; cr_SandboxID := gc_SandboxID claims |} |} in
      created <-- call (Create CredentialRevocations assignmentNamespace (wf value)) ;;
      Ret (Some (match created with
                 | Ok _ => Ok tt
                 | Err e => if IsAlreadyExists e then Ok tt else Err e
                 end))
  end.

Definition KubernetesRevocationStore_IsRevoked (grantID : string) : KProg (result bool) :=
  got <-- call (Get CredentialRevocations assignmentNamespace (revocation_name grantID)) ;;
  match got with
  | Err e => if IsNotFound e then Ret (Ok false) else Ret (Err e)
  | Ok object =>
      match nested object ["spec"; "expiresAt"] (stored_time (cr_ExpiresAt (rev_Spec (u_obj object)))) with
      | Ok (Some expiry) =>
          now <-- call time_Now ;;
          if negb (time_after expiry now) then
            deleted <-- call (Delete CredentialRevocations assignmentNamespace
                                (om_Name (rev_meta (u_obj object))) None) ;;
            match deleted with
            | Err e => if IsNotFound e then Ret (Ok false) else Ret (Err e)
            | Ok _ => Ret (Ok false)
            end
          else Ret (Ok true)
      | _ => Ret (Err (ErrMsg "parse revocation expiry"))
      end
  end.

Definition KubernetesGrantAudit_Record (event : AuditEvent) : KProg (option (result unit)) :=
  let claims := ae_Grant event in
  match gc_ExpiresAt claims with
  | None => Ret None
  | Some expiresAt =>
      let value := {|
        cev_meta := labelled_meta "" "credential-" assignmentNamespace (gc_AssignmentName claims);
        cev_Spec := {|
          ce_Timestamp := json_time (ae_Timestamp event); ce_GrantID := gc_ID claims;
          ce_Action := ae_Action event; ce_TaskID := gc_TaskID claims;
          ce_AssignmentRef := {| ar_Name := gc_AssignmentName claims; ar_UID := gc_AssignmentUID claims |};
          ce_PodUID := gc_PodUID claims; ce_SandboxID := gc_SandboxID claims;
          ce_CapabilityBundleName := gc_CapabilityBundleName claims;
          ce_CapabilityBundleRevision := gc_CapabilityBundleRevision claims;
          ce_Backend := gc_Backend claims; ce_Method := gc_Method claims;
          ce_Host := gc_Host claims; ce_Path := gc_Path claims; ce_ExpiresAt := json_time expiresAt |} |} in
      created <-- call (Create CredentialEvents assignmentNamespace (wf value)) ;;
      Ret (Some (match created with
                 | Ok _ => Ok tt
                 | Err e => if IsNotFound e
                            then Err (ErrWrap "credential audit CRD is not installed" e) else Err e
                 end))
  end.

Definition kubernetes_validator : GrantValidator :=
  {| ValidateGrant := KubernetesGrantValidator_ValidateGrant |}.
Definition kubernetes_revocations : RevocationStore :=
  {| Revoke := KubernetesRevocationStore_Revoke; IsRevoked := KubernetesRevocationStore_IsRevoked |}.
Definition kubernetes_grant_audit : GrantAudit :=
  {| RecordGrant := KubernetesGrantAudit_Record |}.

End kubernetes.

(** ** Theorems: issue *)

Section issue_theorems.
Context `{UnicodeTables} `{JwtLib} `{GrantValidator} `{RevocationStore}
        {S : Type} `{Checker Kube S}.
Variable config : Config.
Variable audit : option GrantAudit.

Lemma recorded_run action claims reply tr r :
  run (recorded audit action claims reply) tr r ->
  r = Panicked \/ r = ErrorReply StatusServiceUnavailable "credential audit is unavailable" \/
  (r = reply /\ match audit with
                | None => tr = []
                | Some sink => exists now tr', tr = Ev time_Now now :: tr' /\
                    run (@RecordGrant sink {| ae_Timestamp := now; ae_Action := action;
                                              ae_Grant := claims |}) tr' (Some (Ok tt))
                end).
Proof.
  unfold recorded. intros Hr. apply run_bind in Hr as (x & t1 & t2 & -> & Hx & Hr).
  destruct x as [[[]|e]|]; run_step Hr; rewrite app_nil_r; auto. right. right. split; [done|].
  unfold record in Hx. destruct audit as [sink|]; [|by run_step Hx].
  apply run_bind in Hx as (now & t3 & t4 & -> & Hn & Hx). run_step Hn. eauto.
Qed.

(** C8. A credential is issued only for a canonical target the checker allows for the presented
    Pod identity, with a lifetime between one and fifteen minutes, and is bound by its signed
    claims to the assignment, Pod, bundle revision and task of that decision; its issuance was
    recorded. *)
Theorem issue_sound body s tr token grantID expiresAt assignment sandbox task scope s' :
  run (issue config audit body s) tr
      (IssuedReply token grantID expiresAt assignment sandbox task scope, s') ->
  exists request target decision now tr1 tr2,
    decodeJSON body = Ok request /\ iq_IdentityToken request <> "" /\ validTaskID (iq_TaskID request) = true /\
    NormalizeTarget (iq_Backend request) (iq_Method request) (iq_Host request) (iq_Path request) = Ok target /\
    run (Checker_Check (check_input request target) s) tr1 (decision, None, s') /\
    d_Allow decision = true /\
    let ttl := dur_mul (iq_TTLSeconds request) Second in
    let claims := grant_claims config request target decision now ttl grantID in
    tr = tr1 ++ Ev time_Now now :: Ev uuid_NewString grantID :: tr2 /\
    minimumTTL <= ttl <= maximumTTL /\ expiresAt = now + ttl /\
    jwt_Sign (bc_SigningKeyID config) (bc_SigningKey config) claims = Ok token /\
    scope = {| sc_backend := t_Backend target; sc_method := t_Method target;
               sc_host := t_Host target; sc_path := t_Path target |} /\
    match audit with
    | None => True
    | Some sink => exists at' tr3, tr2 = Ev time_Now at' :: tr3 /\
        run (@RecordGrant sink {| ae_Timestamp := at'; ae_Action := "issued"; ae_Grant := claims |})
          tr3 (Some (Ok tt))
    end.
Proof.
  unfold issue. intros Hr. destruct (decodeJSON body) as [request|e] eqn:Ed; [|by run_step Hr].
  destruct (_ =?s "") eqn:Ei; [by run_step Hr|]. destruct (negb _) eqn:Et in Hr; [by run_step Hr|].
  destruct (_ || _) eqn:Ettl in Hr; [by run_step Hr|].
  destruct (NormalizeTarget _ _ _ _) as [target|] eqn:En; [|by run_step Hr].
  apply run_bind in Hr as ([[decision err] s1] & tr1 & t2 & -> & Hc & Hr).
  destruct err as [e|]; [by run_step Hr|]. destruct (d_Allow decision) eqn:Ea; cbn [negb] in Hr;
    [|by run_step Hr].
  run_step Hr. run_step Hr. destruct (jwt_Sign _ _ _) as [tok|] eqn:Es; [|by run_step Hr].
  apply run_bind in Hr as (reply & t5 & t6 & -> & Hrec & Hr). destruct Hr as [-> Hr]. simplify_eq.
  apply recorded_run in Hrec as [?|[?|[Heq Haud]]]; [done|done|].
  injection Heq as -> -> -> -> -> -> ->. bool_to_prop.
  exists request, target, decision, a, tr1, t5. rewrite app_nil_r. cbn zeta.
  split_and!; try done. destruct audit; [|done]. destruct Haud as (now' & tr' & -> & ?). eauto.
Qed.

Lemma dur_mul_wraps n : dur_mul (n + 2 ^ 55) Second = dur_mul n Second.
Proof.
  unfold dur_mul, wrap64, Second. f_equal.
  replace ((n + 2 ^ 55) * 1000000000 + 2 ^ 63)
    with (n * 1000000000 + 2 ^ 63 + 1953125 * 2 ^ 64) by lia.
  by rewrite Z.mod_add.
Qed.

Definition with_ttl (seconds : Z) (request : issueRequest) : issueRequest := {|
  iq_IdentityToken := iq_IdentityToken request; iq_Backend := iq_Backend request;
  iq_Method := iq_Method request; iq_Host := iq_Host request; iq_Path := iq_Path request;
  iq_TaskID := iq_TaskID request; iq_TTLSeconds := seconds |}.

(** The requested lifetime is multiplied at 64 bits: a request for 2^55 seconds more is
    handled exactly like the original one, so an enormous lifetime is not refused. *)
Theorem issue_ttl_wraps body body' request s :
  decodeJSON body = Ok request ->
  decodeJSON body' = Ok (with_ttl (iq_TTLSeconds request + 2 ^ 55) request) ->
  issue config audit body' s = issue config audit body s.
Proof.
  intros E E'. unfold issue. rewrite E, E'. cbn [with_ttl iq_TTLSeconds]. by rewrite dur_mul_wraps.
Qed.

(** Within the range where the product is exact, the accepted lifetimes are 60 to 900 s. *)
Theorem issue_ttl_exact n :
  - 2 ^ 33 <= n <= 2 ^ 33 ->
  (dur_mul n Second <? minimumTTL) || (maximumTTL <? dur_mul n Second) = false <-> 60 <= n <= 900.
Proof.
  intros Hn. unfold dur_mul. rewrite wrap64_id by (unfold in_int64, min_int64, max_int64, Second; lia).
  unfold minimumTTL, maximumTTL, Minute, Second. rewrite orb_false_iff, !Z.ltb_ge. lia.
Qed.

End issue_theorems.

(** ** Theorems: verify and revoke *)

Section verify_theorems.
Context `{UnicodeTables} `{JwtLib}.
Variable config : Config.
Variables (assignmentNamespace workloadNamespace : string).

Lemma parseAuthorization_ok authorization tr claims :
  run (parseAuthorization config authorization) tr (Ok claims) ->
  exists token now, CutPrefix (TrimSpace authorization) "Bearer " = Some token /\ token <> "" /\
    tr = [Ev time_Now now] /\
    jwt_Parse token (signing_key config) (bc_Audience config) (bc_Issuer config) [HS256] now =
      Ok (claims, true) /\
    claims_ok claims = true /\ scope_canonical claims = true.
Proof.
  unfold parseAuthorization. intros Hr. destruct (CutPrefix _ _) as [token|] eqn:Ec; [|by run_step Hr].
  destruct (token =?s "") eqn:Et; [by run_step Hr|]. run_step Hr.
  destruct (jwt_Parse _ _ _ _ _ _) as [[cl v]|] eqn:Ej; [|by run_step Hr].
  destruct (_ || _) eqn:Ev; [by run_step Hr|]. destruct (negb (scope_canonical cl)) eqn:Es; [by run_step Hr|].
  run_step Hr. apply orb_false_iff in Ev as [Hv Hc]. apply negb_false_iff in Hv, Hc, Es. subst.
  apply seqb_neq in Et. exists token, a. done.
Qed.

Lemma scope_canonical_true claims :
  scope_canonical claims = true <->
  NormalizeTarget (gc_Backend claims) (gc_Method claims) (gc_Host claims) (gc_Path claims) =
    Ok {| t_Backend := gc_Backend claims; t_Method := gc_Method claims;
          t_Host := gc_Host claims; t_Path := gc_Path claims |}.
Proof.
  unfold scope_canonical. destruct (NormalizeTarget _ _ _ _) as [[b m h p]|e]; cbn; [|done].
  rewrite !andb_true_iff, !seqb_eq. split; [by intros (((-> & ->) & ->) & ->)|intros [=]; by subst].
Qed.

(** The grant is still bound to a live, ready, unpaused assignment, its Pod and its policy. *)
Record grant_bound (claims : GrantClaims) (object : Unstructured SandboxAssignment) (pod : Pod) : Prop := {
  gb_live : om_DeletionTimestamp (sa_meta (u_obj object)) = None;
  gb_uid : om_UID (sa_meta (u_obj object)) = gc_AssignmentUID claims;
  gb_unpaused : map_get (om_Annotations (sa_meta (u_obj object))) PausedAnnotation <> "true";
  gb_sandbox : map_get (om_Annotations (sa_meta (u_obj object))) SandboxIDAnnotation = gc_SandboxID claims;
  gb_ready : conditionTrue object "Ready" = true;
  gb_bundle : resolved_bundle_field rcb_Name "name" object = gc_CapabilityBundleName claims;
  gb_revision : resolved_bundle_field rcb_PolicyRevision "policyRevision" object =
    gc_CapabilityBundleRevision claims;
  gb_pod_live : om_DeletionTimestamp (pod_meta pod) = None;
  gb_pod_uid : om_UID (pod_meta pod) = gc_PodUID claims;
  gb_pod_phase : pst_Phase (pod_Status pod) <> "Failed"
}.

Lemma ValidateGrant_ok claims tr :
  run (KubernetesGrantValidator_ValidateGrant assignmentNamespace workloadNamespace claims) tr (Ok tt) ->
  exists object podNamespace podName pod,
    tr = [Ev (Get Assignments assignmentNamespace (gc_AssignmentName claims)) (Ok object);
          Ev (Get Pods podNamespace podName) (Ok pod)] /\ grant_bound claims object pod.
Proof.
  unfold KubernetesGrantValidator_ValidateGrant. intros Hr. run_step Hr.
  destruct (_ || _) eqn:Ea in Hr; [by run_step Hr|]. destruct (_ || _) eqn:Eb in Hr; [by run_step Hr|].
  run_step Hr. destruct (_ || _) eqn:Ep in Hr; [by run_step Hr|]. run_step Hr. bool_to_prop.
  do 4 eexists. split; [done|]. constructor; rewrite <- ?om_deleting_false; done.
Qed.

(** What the revocation lookup of an accepted credential found: nothing, or a record that had
    already run out. *)
Lemma IsRevoked_false grantID tr :
  run (KubernetesRevocationStore_IsRevoked assignmentNamespace grantID) tr (Ok false) ->
  (exists e, IsNotFound e = true /\
     Ev (Get CredentialRevocations assignmentNamespace (revocation_name grantID)) (Err e) ∈ tr) \/
  (exists object now,
     Ev (Get CredentialRevocations assignmentNamespace (revocation_name grantID)) (Ok object) ∈ tr /\
     Ev time_Now now ∈ tr /\ cr_ExpiresAt (rev_Spec (u_obj object)) <= now).
Proof.
  unfold KubernetesRevocationStore_IsRevoked. intros Hr. run_step Hr. destruct a as [object|e].
  - unfold nested in Hr. destruct (path_malformed _ _); [by run_step Hr|].
    destruct (stored_time _) as [expiry|] eqn:Es; [|by run_step Hr].
    unfold stored_time in Es. destruct (time_is_zero _); [done|]. injection Es as <-.
    run_step Hr. destruct (negb _) eqn:Ea; [|by run_step Hr].
    unfold time_after in Ea. bool_to_prop. right. exists object, a. split_and!; [in_trace|in_trace|done].
  - destruct (IsNotFound e) eqn:En; run_step Hr. left. exists e. split; [done|in_trace].
Qed.


(** Credentials for IPv6 hosts cannot be used: the canonical host the broker signs is not
    accepted when the scope is checked again, so no authorization parses to such claims. *)
Theorem ipv6_credential_unusable b m h p target claims authorization tr :
  NormalizeTarget b m h p = Ok target -> contains_byte ":" (t_Host target) = true ->
  gc_Backend claims = t_Backend target -> gc_Method claims = t_Method target ->
  gc_Host claims = t_Host target -> gc_Path claims = t_Path target ->
  ~ run (parseAuthorization config authorization) tr (Ok claims).
Proof.
  intros Hn Hc Eb Em Eh Ep Hr. apply parseAuthorization_ok in Hr as (_ & _ & _ & _ & _ & _ & _ & Hs).
  apply scope_canonical_true in Hs. rewrite Eb, Em, Eh, Ep in Hs.
  rewrite (NormalizeTarget_canonical _ _ _ _ _ Hn) in Hs.
  apply NormalizeTarget_Ok in Hn as (_ & _ & Hh & _). apply NormalizeHost_colon in Hh; [|done].
  by destruct (NormalizeHost (t_Host target)).
Qed.

(** C32. Round trip: what [issue] signs for a target without an IPv6 host, the broker accepts again
    until it expires, and reads the same claims. *)
Theorem issued_credential_parses `{!JwtLaws} request target decision issued ttl grantID token now authorization :
  NormalizeTarget (iq_Backend request) (iq_Method request) (iq_Host request) (iq_Path request) = Ok target ->
  contains_byte ":" (t_Host target) = false ->
  validTaskID (iq_TaskID request) = true -> grantID <> "" -> d_AssignmentUID decision <> "" ->
  d_PodUID decision <> "" -> d_CapabilityBundleRevision decision <> "" ->
  let claims := grant_claims config request target decision issued ttl grantID in
  jwt_Sign (bc_SigningKeyID config) (bc_SigningKey config) claims = Ok token -> token <> "" ->
  TrimSpace authorization = "Bearer " +:+ token ->
  issued <= now -> now < numeric_date (issued + ttl) ->
  run (parseAuthorization config authorization) [Ev time_Now now] (Ok claims).
Proof.
  intros Hn Hc Ht Hg Hu Hpu Hr claims Hs Hne Ha Hle Hlt. unfold parseAuthorization.
  rewrite Ha, CutPrefix_app. apply seqb_neq in Hne as ->. apply run_bind.
  exists now, [Ev time_Now now], []. split_and!; [done|by apply run_call|].
  erewrite jwt_roundtrip; [|exact Hs| | |done| |].
  - assert (claims_ok claims = true) as ->.
    { unfold claims_ok. cbn. apply seqb_neq in Hg as ->, Hu as ->, Hpu as ->, Hr as ->. by rewrite Ht. }
    assert (scope_canonical claims = true) as ->; [|done]. apply scope_canonical_true. cbn.
    rewrite (NormalizeTarget_canonical _ _ _ _ _ Hn).
    apply NormalizeTarget_Ok in Hn as (_ & _ & Hh & _). by rewrite (NormalizeHost_fixed _ _ Hh Hc).
  - unfold signing_key. rewrite !seqb_refl. done.
  - cbn. apply list_elem_of_here.
  - intros t [= <-]. done.
  - intros t [= <-]. unfold numeric_date. pose proof (Z.mul_div_le issued Second).
    unfold Second in *. lia.
Qed.

End verify_theorems.
