(* ===== verification/Store.v ===== *)
(** * Packages [assignment] and [store/kubernetes]: the assignment store

    The allocator-facing view of [internal/assignment/types.go] and its Kubernetes
    implementation in [internal/assignment/store/kubernetes/store.go].  The informer index by
    sandbox ID is an argument (its construction and start are in [Assignmentd]); [RetryOnConflict] is modelled with the five attempts of
    [retry.DefaultRetry]. *)

From S2P Require Import Prelude GoStrings ApiTypes Kube.
From stdpp Require Import options.

(** ** The allocator's view *)

(** The condition of the allocator's view has no times. *)
Record ViewCondition := {
  vc_Type : string; vc_Status : string; vc_Reason : string; vc_Message : string
}.

Record Assignment := {
  a_Namespace : string;
  a_Name : string;
  a_UID : string;
  a_ResourceVersion : string;
  a_TemplateName : string;
  a_TemplateUID : string;
  a_TemplateRevision : string;
  a_LogicalTenant : string;
  a_CapabilityBundleName : string;
  a_SandboxID : string;
  a_IdempotencyKey : string;
  a_RequestHash : string;
  a_CreatedAt : Time;
  a_Existing : bool;
  a_Deleting : bool;
  a_Ready : bool;
  a_WorkloadRef : option ObjectReference;
  a_PodRef : option ObjectReference;
  a_Conditions : list ViewCondition
}.

Record CreateRequest := {
  q_Namespace : string;
  q_Name : string;
  q_GenerateName : string;
  q_TemplateName : string;
  q_TemplateUID : string;
  q_TemplateRevision : string;
  q_LogicalTenant : string;
  q_CapabilityBundleName : string;
  q_IdempotencyKey : string;
  q_RequestHash : string
}.

Definition ErrIdempotencyConflict : error :=
  ErrMsg "idempotency key was reused with a different request".

(** The Go interface [Store]. *)
Class AssignmentStore := {
  Store_Create : CreateRequest -> KProg (result Assignment);
  Store_Get : string -> string -> KProg (result Assignment);
  Store_GetBySandboxID : string -> string -> KProg (result Assignment);
  Store_SetSandboxID : string -> string -> string -> KProg (result unit);
  Store_SetLifecycleFence : string -> string -> bool -> string -> KProg (result unit);
  Store_Delete : string -> string -> KProg (result unit)
}.

(** ** Conversion *)

Definition objectReference (object : Unstructured SandboxAssignment) (field : string)
  (ref : option ObjectReference) : option ObjectReference :=
  match nested object ["status"; field] ref with
  | Ok (Some r) =>
      let get name v := nested_string object ["status"; field; name] (Some v) in
      Some {| ref_APIVersion := get "apiVersion" (ref_APIVersion r); ref_Kind := get "kind" (ref_Kind r);
              ref_Namespace := get "namespace" (ref_Namespace r); ref_Name := get "name" (ref_Name r);
              ref_UID := get "uid" (ref_UID r) |}
  | _ => None
  end.

Definition view_condition (c : Condition) : ViewCondition := {|
  vc_Type := c_Type c; vc_Status := c_Status c; vc_Reason := c_Reason c; vc_Message := c_Message c |}.

Definition convert (object : Unstructured SandboxAssignment) : result Assignment :=
  let meta := sa_meta (u_obj object) in
  let spec := sa_Spec (u_obj object) in
  let status := sa_Status (u_obj object) in
  match nested object ["spec"; "capabilityBundleRef"; "name"] (Some (cbr_Name (as_CapabilityBundleRef spec))) with
  | Err e => Err (ErrWrap "read capability bundle reference" e)
  | Ok bundleName =>
    match nested object ["spec"; "templateRef"; "name"] (Some (tr_Name (as_TemplateRef spec))) with
    | Err e => Err (ErrWrap "read sandbox template reference" e)
    | Ok templateName =>
      match nested object ["status"; "conditions"] (Some (ss_Conditions status)) with
      | Err e => Err (ErrWrap "read conditions" e)
      | Ok conditions =>
          let conditions := view_condition <$> default [] conditions in
          let workloadRef := objectReference object "workloadRef" (ss_WorkloadRef status) in
          let mapped := map_get (om_Annotations meta) SandboxIDAnnotation in
          Ok {| a_Namespace := om_Namespace meta; a_Name := om_Name meta; a_UID := om_UID meta;
                a_ResourceVersion := om_ResourceVersion meta;
                a_TemplateName := default "" templateName;
                a_TemplateUID := nested_string object ["spec"; "templateRef"; "uid"]
                                   (Some (tr_UID (as_TemplateRef spec)));
                a_TemplateRevision := nested_string object ["spec"; "templateRef"; "specRevision"]
                                        (Some (tr_SpecRevision (as_TemplateRef spec)));
                a_LogicalTenant := nested_string object ["spec"; "logicalTenant"]
                                     (Some (as_LogicalTenant spec));
                a_CapabilityBundleName := default "" bundleName;
                a_SandboxID := if mapped =?s "" then default "" (ref_Name <$> workloadRef) else mapped;
                a_IdempotencyKey := map_get (om_Annotations meta) IdempotencyKeyAnnotation;
                a_RequestHash := map_get (om_Annotations meta) RequestHashAnnotation;
                a_CreatedAt := om_CreationTimestamp meta; a_Existing := false;
                a_Deleting := om_deleting meta;
                a_Ready := existsb (fun c => (vc_Type c =?s "Ready") && (vc_Status c =?s "True")) conditions;
                a_WorkloadRef := workloadRef;
                a_PodRef := objectReference object "podRef" (ss_PodRef status);
                a_Conditions := conditions |}
      end
    end
  end.

Definition as_existing (a : Assignment) : Assignment := {|
  a_Namespace := a_Namespace a; a_Name := a_Name a; a_UID := a_UID a;
  a_ResourceVersion := a_ResourceVersion a; a_TemplateName := a_TemplateName a;
  a_TemplateUID := a_TemplateUID a; a_TemplateRevision := a_TemplateRevision a;
  a_LogicalTenant := a_LogicalTenant a; a_CapabilityBundleName := a_CapabilityBundleName a;
  a_SandboxID := a_SandboxID a; a_IdempotencyKey := a_IdempotencyKey a;
  a_RequestHash := a_RequestHash a; a_CreatedAt := a_CreatedAt a; a_Existing := true;
  a_Deleting := a_Deleting a; a_Ready := a_Ready a; a_WorkloadRef := a_WorkloadRef a;
  a_PodRef := a_PodRef a; a_Conditions := a_Conditions a |}.

(** The index function of the informer. *)
Definition sandboxIDsForObject (raw : option (Unstructured SandboxAssignment)) : result (list string) :=
  match raw with
  | None => Err (ErrMsg "unexpected assignment cache object")
  | Some object =>
      let mapped := map_get (om_Annotations (sa_meta (u_obj object))) SandboxIDAnnotation in
      let ids := if mapped <>?s "" then [mapped] else [] in
      let workloadName := nested_string object ["status"; "workloadRef"; "name"]
                            (ref_Name <$> ss_WorkloadRef (sa_Status (u_obj object))) in
      Ok (if (workloadName <>?s "") && negb (contains workloadName ids) then ids ++ [workloadName] else ids)
  end.

(** ** Operations *)

(** The pending assignment of a create request; empty names are removed before it is sent. *)
Definition assignment_object (request : CreateRequest) : SandboxAssignment := {|
  sa_meta := {| om_Name := q_Name request; om_GenerateName := q_GenerateName request;
                om_Namespace := q_Namespace request; om_UID := ""; om_ResourceVersion := "";
                om_Generation := 0; om_CreationTimestamp := zero_time; om_DeletionTimestamp := None;
                om_Labels := ∅;
                om_Annotations := {[ IdempotencyKeyAnnotation := q_IdempotencyKey request;
                                     RequestHashAnnotation := q_RequestHash request ]};
                om_Finalizers := []; om_OwnerReferences := [] |};
  sa_Spec := {|
    as_TemplateRef := {| tr_Name := q_TemplateName request; tr_UID := q_TemplateUID request;
                         tr_SpecRevision := q_TemplateRevision request |};
    as_LogicalTenant := q_LogicalTenant request;
    as_CapabilityBundleRef := {| cbr_Name := q_CapabilityBundleName request; cbr_PolicyRevision := "" |} |};
  sa_Status := empty_status |}.

(** The stored assignment records the same operation. *)
Definition same_operation (request : CreateRequest) (existing : Unstructured SandboxAssignment) : bool :=
  let annotations := om_Annotations (sa_meta (u_obj existing)) in
  (map_get annotations IdempotencyKeyAnnotation =?s q_IdempotencyKey request)
  && (map_get annotations RequestHashAnnotation =?s q_RequestHash request)
  && (nested_string existing ["spec"; "logicalTenant"]
        (Some (as_LogicalTenant (sa_Spec (u_obj existing)))) =?s q_LogicalTenant request).

Definition KStore_Create (request : CreateRequest) : KProg (result Assignment) :=
  got <-- call (Get Bundles (q_Namespace request) (q_CapabilityBundleName request)) ;;
  match got with
  | Err e => Ret (Err (ErrWrap "get capability bundle" e))
  | Ok bundle =>
      if om_deleting (cb_meta (u_obj bundle)) then Ret (Err (ErrMsg "capability bundle is deleting"))
      else
        created <-- call (Create Assignments (q_Namespace request) (wf (assignment_object request))) ;;
        match created with
        | Ok object => Ret (convert object)
        | Err e =>
            if IsAlreadyExists e && (q_Name request <>?s "") then
              existing <-? call (Get Assignments (q_Namespace request) (q_Name request)) ;;
              if negb (same_operation request existing) then Ret (Err ErrIdempotencyConflict)
              else Ret (a <-! convert existing ;; Ok (as_existing a))
            else Ret (Err (ErrWrap "create sandbox assignment" e))
        end
  end.

Definition KStore_Get (namespace name : string) : KProg (result Assignment) :=
  object <-? call (Get Assignments namespace name) ;; Ret (convert object).

(** [sandboxIndex] is what the informer's index answers. *)
Definition KStore_GetBySandboxID (sandboxIndex : string -> result (list (Unstructured SandboxAssignment)))
  (namespace sandboxID : string) : KProg (result Assignment) :=
  match sandboxIndex sandboxID with
  | Err e => Ret (Err e)
  | Ok [object] => Ret (convert object)
  | Ok (_ :: _ :: _) => Ret (Err (ErrMsg "multiple assignments map to OpenSandbox ID"))
  | Ok [] =>
      items <-? call (List Assignments namespace
        {| lo_LabelSelector := Some (SandboxIDLabel, sandboxID); lo_Limit := 2 |}) ;;
      match items with
      | [object] => Ret (convert object)
      | [] => Ret (Err (ErrApi ReasonNotFound))
      | _ => Ret (Err (ErrMsg "multiple assignments map to OpenSandbox ID"))
      end
  end.

(** A mutation of the annotations and labels. *)
Definition Mutate := gmap string string -> gmap string string -> gmap string string * gmap string string.

Definition mutated (mutate : Mutate) (object : Unstructured SandboxAssignment)
  : Unstructured SandboxAssignment :=
  let meta := sa_meta (u_obj object) in
  let '(annotations, labels) := mutate (om_Annotations meta) (om_Labels meta) in
  {| u_obj := sa_with_meta (set_labels labels (set_annotations annotations meta)) (u_obj object);
     u_malformed := u_malformed object |}.

Definition update_once (namespace name : string) (mutate : Mutate) : KProg (result unit) :=
  object <-? call (Get Assignments namespace name) ;;
  _ <-? call (Update Assignments namespace (mutated mutate object)) ;;
  Ret (Ok tt).

(** [retry.RetryOnConflict]: up to [steps] attempts, the last error otherwise. *)
Fixpoint retry_on_conflict (steps : nat) (attempt : KProg (result unit)) : KProg (result unit) :=
  r <-- attempt ;;
  match r with
  | Err e => match steps with
             | Datatypes.S (Datatypes.S _ as rest) =>
                 if IsConflict e then retry_on_conflict rest attempt else Ret (Err e)
             | _ => Ret (Err e)
             end
  | Ok _ => Ret (Ok tt)
  end.

Definition updateObjectMetadata (namespace name : string) (mutate : Mutate) : KProg (result unit) :=
  retry_on_conflict 5 (update_once namespace name mutate).

Definition set_sandbox_id (sandboxID : string) : Mutate := fun annotations labels =>
  (<[SandboxIDAnnotation := sandboxID]> annotations, <[SandboxIDLabel := sandboxID]> labels).

Definition KStore_SetSandboxID (namespace name sandboxID : string) : KProg (result unit) :=
  updateObjectMetadata namespace name (set_sandbox_id sandboxID).

Definition set_fence (paused : bool) (resumeAfterPodUID : string) : Mutate := fun values labels =>
  let values := if paused then <[PausedAnnotation := "true"]> values else delete PausedAnnotation values in
  let values := if resumeAfterPodUID <>?s "" then <[ResumeAfterPodUIDAnnotation := resumeAfterPodUID]> values
                else delete ResumeAfterPodUIDAnnotation values in
  (values, labels).

Definition KStore_SetLifecycleFence (namespace name : string) (paused : bool) (resumeAfterPodUID : string)
  : KProg (result unit) :=
  updateObjectMetadata namespace name (set_fence paused resumeAfterPodUID).

Definition KStore_Delete (namespace name : string) : KProg (result unit) :=
  call (Delete Assignments namespace name None).

(** The Kubernetes store as an implementation of the interface. *)
Definition kubernetes_store (sandboxIndex : string -> result (list (Unstructured SandboxAssignment)))
  : AssignmentStore := {|
  Store_Create := KStore_Create; Store_Get := KStore_Get;
  Store_GetBySandboxID := KStore_GetBySandboxID sandboxIndex;
  Store_SetSandboxID := KStore_SetSandboxID; Store_SetLifecycleFence := KStore_SetLifecycleFence;
  Store_Delete := KStore_Delete |}.

(** ** Theorems *)

Lemma convert_Ok object a :
  convert object = Ok a ->
  a_UID a = om_UID (sa_meta (u_obj object)) /\ a_Name a = om_Name (sa_meta (u_obj object)) /\
  a_Existing a = false /\
  a_IdempotencyKey a = map_get (om_Annotations (sa_meta (u_obj object))) IdempotencyKeyAnnotation /\
  a_RequestHash a = map_get (om_Annotations (sa_meta (u_obj object))) RequestHashAnnotation /\
  a_LogicalTenant a = nested_string object ["spec"; "logicalTenant"]
                        (Some (as_LogicalTenant (sa_Spec (u_obj object)))).
Proof. unfold convert. intros Hc. repeat case_match; by simplify_eq. Qed.

(** C33. Idempotency: a create that reports an existing assignment found one recorded under the same
    idempotency key, for the same request hash and the same tenant; otherwise the assignment is
    newly created from the request. *)
Theorem Create_idempotent request tr a :
  run (KStore_Create request) tr (Ok a) ->
  if a_Existing a
  then a_IdempotencyKey a = q_IdempotencyKey request /\ a_RequestHash a = q_RequestHash request /\
       a_LogicalTenant a = q_LogicalTenant request /\ q_Name request <> "" /\
       exists existing, Ev (Get Assignments (q_Namespace request) (q_Name request)) (Ok existing) ∈ tr /\
         a_UID a = om_UID (sa_meta (u_obj existing))
  else exists stored,
       Ev (Create Assignments (q_Namespace request) (wf (assignment_object request))) (Ok stored) ∈ tr /\
       convert stored = Ok a.
Proof.
  unfold KStore_Create. intros Hr. run_step Hr. destruct a0 as [bundle|e]; [|by run_step Hr].
  destruct (om_deleting _); [by run_step Hr|]. run_step Hr. destruct a0 as [stored|e].
  - destruct Hr as [-> Hr]. destruct (convert_Ok _ _ Hr) as (_ & _ & -> & _). exists stored. split; [in_trace|done].
  - destruct (_ && _) eqn:Ec; [|by run_step Hr]. apply andb_true_iff in Ec as [_ Ec].
    run_step Hr. destruct (same_operation request a0) eqn:Es; cbn [negb] in Hr; [|by run_step Hr].
    destruct Hr as [-> Hr]. destruct (convert a0) as [b|] eqn:Eb; cbn in Hr; [|done]. injection Hr as <-.
    cbn. destruct (convert_Ok _ _ Eb) as (Hu & _ & _ & -> & -> & ->).
    unfold same_operation in Es. bool_to_prop. split_and!; try done. exists a0. split; [in_trace|done].
Qed.

(** The read-modify-write of the object's metadata: each attempt reads the object and writes it
    back with only its annotations and labels changed, at most five times, and only conflicts
    are retried. *)
Inductive attempts (ns name : string) (mutate : Mutate) : nat -> list KEvent -> result unit -> Prop :=
  | attempts_ok n object stored :
      attempts ns name mutate (Datatypes.S n)
        [Ev (Get Assignments ns name) (Ok object); Ev (Update Assignments ns (mutated mutate object)) (Ok stored)]
        (Ok tt)
  | attempts_get_failed n e :
      attempts ns name mutate (Datatypes.S n) [Ev (Get Assignments ns name) (Err e)] (Err e)
  | attempts_update_failed n object e :
      attempts ns name mutate (Datatypes.S n)
        [Ev (Get Assignments ns name) (Ok object); Ev (Update Assignments ns (mutated mutate object)) (Err e)]
        (Err e)
  | attempts_again n tr tr' e r :
      IsConflict e = true -> attempts ns name mutate 1 tr (Err e) -> attempts ns name mutate n tr' r ->
      attempts ns name mutate (Datatypes.S n) (tr ++ tr') r.

Lemma update_once_run ns name mutate tr r :
  run (update_once ns name mutate) tr r -> attempts ns name mutate 1 tr r.
Proof.
  unfold update_once. intros Hr. run_step Hr; subst; [apply attempts_get_failed|].
  run_step Hr; subst; [apply attempts_update_failed|]. run_step Hr. apply attempts_ok.
Qed.

Lemma attempts_weaken ns name mutate tr r n :
  attempts ns name mutate 1 tr r -> attempts ns name mutate (Datatypes.S n) tr r.
Proof.
  remember 1%nat as one eqn:E. intros Ha. destruct Ha as [| | |m t1 t2 e r He Ha Hb]; try constructor.
  injection E as ->. inversion Hb.
Qed.

Lemma updateObjectMetadata_run steps ns name mutate tr r :
  (0 < steps)%nat ->
  run (retry_on_conflict steps (update_once ns name mutate)) tr r -> attempts ns name mutate steps tr r.
Proof.
  revert tr. induction steps as [|steps IH]; intros tr Hpos; [lia|]. cbn [retry_on_conflict].
  intros Hr. apply run_bind in Hr as (x & t1 & t2 & -> & Hx & Hr). apply update_once_run in Hx.
  destruct x as [[]|e]; [run_step Hr; rewrite app_nil_r; by apply attempts_weaken|].
  destruct steps as [|steps]; [run_step Hr; by rewrite app_nil_r|].
  destruct (IsConflict e) eqn:Ec; [|run_step Hr; rewrite app_nil_r; by apply attempts_weaken].
  eapply attempts_again; [done|done|]. apply IH; [lia|done].
Qed.

Lemma attempts_ok_last ns name mutate n tr :
  attempts ns name mutate n tr (Ok tt) ->
  exists tr0 object stored, tr = tr0 ++ [Ev (Get Assignments ns name) (Ok object);
    Ev (Update Assignments ns (mutated mutate object)) (Ok stored)].
Proof.
  remember (Ok tt) as r eqn:Er. induction 1 as [n object stored|n e|n object e|n tr tr' e r He Ha _ Hb IH];
    [by exists [], object, stored|done|done|].
  destruct (IH Er) as (tr0 & object & stored & ->). exists (tr ++ tr0), object, stored. by rewrite app_assoc.
Qed.

(** After a successful [SetLifecycleFence] the object last read has been written back with the
    pause flag and the Pod to replace set as asked, and nothing else changed: other
    annotations, the labels, the spec and the status are those that were read. *)
Theorem SetLifecycleFence_frame ns name paused uid tr :
  run (KStore_SetLifecycleFence ns name paused uid) tr (Ok tt) ->
  exists tr0 object stored written,
    tr = tr0 ++ [Ev (Get Assignments ns name) (Ok object); Ev (Update Assignments ns written) (Ok stored)] /\
    (let annotations := om_Annotations (sa_meta (u_obj written)) in
     (map_get annotations PausedAnnotation = "true" <-> paused = true) /\
     map_get annotations ResumeAfterPodUIDAnnotation = uid /\
     forall k, k <> PausedAnnotation -> k <> ResumeAfterPodUIDAnnotation ->
       annotations !! k = om_Annotations (sa_meta (u_obj object)) !! k) /\
    om_Labels (sa_meta (u_obj written)) = om_Labels (sa_meta (u_obj object)) /\
    om_ResourceVersion (sa_meta (u_obj written)) = om_ResourceVersion (sa_meta (u_obj object)) /\
    sa_Spec (u_obj written) = sa_Spec (u_obj object) /\ sa_Status (u_obj written) = sa_Status (u_obj object).
Proof.
  unfold KStore_SetLifecycleFence, updateObjectMetadata. intros Hr.
  apply updateObjectMetadata_run in Hr; [|lia]. apply attempts_ok_last in Hr as (tr0 & object & stored & ->).
  exists tr0, object, stored, (mutated (set_fence paused uid) object). split; [done|].
  unfold mutated, set_fence. cbn. split_and!; try done.
  - destruct (uid =?s "") eqn:Eu; cbn; destruct paused; autorewrite with gov; done.
  - destruct (uid =?s "") eqn:Eu; cbn; autorewrite with gov; by apply seqb_eq in Eu || done.
  - intros k Hp Hu. destruct (uid <>?s ""), paused;
      rewrite ?lookup_insert_ne, ?lookup_delete_ne, ?lookup_insert_ne, ?lookup_delete_ne by done; done.
Qed.
