(* ===== verification/Facade.v ===== *)
(** * Package [opensandboxapi]: the assignment-aware lifecycle facade

    [internal/assignment/opensandboxapi/handler.go] and [template.go].  The SDK's wire types are
    records of the fields the handler touches, with the rest opaque; their JSON codecs are a
    class.  Reads of the request body succeed or fail as a whole.  The two loops that wait
    (Lease acquisition and [waitReady]) take the number of polls to model, and the handler
    answers [StillWaiting] if it has not returned by then. *)

From stdpp Require Import pretty.
From S2P Require Import Prelude GoStrings ApiTypes ApiJson Kube Governance CallerAuth Admission Store.
From stdpp Require Import options.

Definition CapabilityProfileExtension : string := "aks-sandbox.azure.com/capabilityProfile".
Definition SandboxTemplateExtension : string := "aks-sandbox.azure.com/template".
Definition SandboxTemplateRevisionExtension : string := "aks-sandbox.azure.com/templateRevision".
Definition assignmentUIDExtension : string := "opensandbox.extensions.aks-sandbox-assignment-uid".
Definition defaultPrefix : string := "/opensandbox".

(** ** Wire types *)

(** The parts of the SDK's types that the handler only passes on or clears. *)
Class SdkTypes := { sdk_Part : Type }.

Record CreateSandboxRequest `{SdkTypes} := {
  csr_Image : option string;
  csr_SnapshotID : string;
  csr_Timeout : option Z;
  csr_ResourceLimits : gmap string string;
  csr_ResourceRequests : option sdk_Part;
  csr_Entrypoint : list string;
  csr_NetworkPolicy : option sdk_Part;
  csr_CredentialProxy : option sdk_Part;
  csr_Volumes : option sdk_Part;
  csr_Platform : option sdk_Part;
  csr_Extensions : option (gmap string string);
  csr_Metadata : option (gmap string string);
  csr_Other : sdk_Part
}.

Record createSandboxResponse `{SdkTypes} := {
  cres_ID : string;
  cres_Metadata : gmap string string;
  cres_Extensions : gmap string string;
  cres_CreatedAt : Time;
  cres_Other : option sdk_Part
}.

Record sandboxResponse `{SdkTypes} := {
  sres_Metadata : gmap string string;
  sres_Extensions : gmap string string;
  sres_Other : sdk_Part
}.

Record ResolvedTemplate := {
  rt_Name : string;
  rt_UID : string;
  rt_Revision : string;
  rt_Image : string;
  rt_Entrypoint : list string;
  rt_CPU : string;
  rt_Memory : string;
  rt_TimeoutSeconds : Z;
  rt_CapabilityBundleName : string;
  rt_CapabilityBundleRevision : string;
  rt_LogicalTenant : string
}.

(** [encoding/json] for the wire types. *)
Class SdkJson `{SdkTypes} := {
  decode_create : string -> result CreateSandboxRequest;
  encode_create : CreateSandboxRequest -> result string;
  encode_hash_payload : CreateSandboxRequest -> string -> string -> string -> result string;
  decode_created : string -> result createSandboxResponse;
  encode_created : createSandboxResponse -> result string;
  decode_sandbox : string -> result sandboxResponse;
  encode_sandbox : sandboxResponse -> result string;
  decode_sandboxes : string -> result (list sandboxResponse * sdk_Part);
  encode_sandboxes : list sandboxResponse * sdk_Part -> result string;
  decode_patch_keys : string -> result (list string)
}.

(** ** HTTP *)

(** A request; [r_Scopes] is the context value of the caller authentication, if it ran. *)
Record Request := {
  r_Method : string;
  r_Path : string;
  r_Header : Header;
  r_Body : result string;
  r_Scopes : option (gset string)
}.

Inductive Reply :=
  | ErrorReply (header : Header) (status : Z) (message : string)
  | PassReply (header : Header) (status : Z) (body : string)
  | ReplayReply (body : string)
  | NoContent
  | StillWaiting.

Definition writeError (status : Z) (message : string) : Reply := ErrorReply [] status message.

Definition StatusText (status : Z) : string :=
  if status =? StatusNotFound then "Not Found"
  else if status =? StatusConflict then "Conflict"
  else "Internal Server Error".

Definition writeStoreError (e : error) : Reply :=
  let status := if IsNotFound e then StatusNotFound
                else if IsAlreadyExists e then StatusConflict else StatusInternalServerError in
  writeError status (StatusText status).

(** ** URL paths *)

Definition hex_upper (n : N) : ascii := if (n <? 10)%N then chr (48 + n) else chr (55 + n).

Definition path_unescaped (c : ascii) : bool :=
  is_lower c || is_upper c || is_digit c || byte_in c "-_.~$&+:=@".

(** [url.PathEscape] and [url.PathUnescape]. *)
Fixpoint PathEscape (s : string) : string :=
  match s with
  | EmptyString => ""
  | String c rest =>
      if path_unescaped c then String c (PathEscape rest)
      else String "%" (String (hex_upper (byte c / 16)%N) (String (hex_upper (byte c mod 16)%N) (PathEscape rest)))
  end.

Definition unhex (c : ascii) : option N :=
  let x := byte c in
  if in_range 48 57 x then Some (x - 48)%N
  else if in_range 97 102 x then Some (x - 87)%N
  else if in_range 65 70 x then Some (x - 55)%N
  else None.

Fixpoint PathUnescape (s : string) : option string :=
  match s with
  | EmptyString => Some ""
  | String c rest =>
      if bool_decide (c = "%"%char) then
        match rest with
        | String h (String l tail) =>
            hi ← unhex h; lo ← unhex l; t ← PathUnescape tail; Some (String (chr (16 * hi + lo)) t)
        | _ => None
        end
      else t ← PathUnescape rest; Some (String c t)
  end.

Definition sandboxOperation (path : string) : option (string * string) :=
  match split_byte "/" (TrimPrefix path "/sandboxes/") with
  | first :: rest =>
      if (first =?s "") || Nat.ltb 1 (length rest) then None
      else match PathUnescape first with
      | None => None
      | Some decoded =>
          if (decoded =?s "") || contains_byte "/" decoded then None
          else Some (decoded, hd "" rest)
      end
  | [] => None
  end.

Definition joinURLPath (base requestPath : string) : string :=
  if (base =?s "") || (base =?s "/") then requestPath
  else TrimSuffix base "/" +:+ "/" +:+ TrimPrefix requestPath "/".

Definition APIKeyHeader : string := "Open-Sandbox-Api-Key".
Definition setUpstreamAPIKey (h : Header) (apiKey : string) : Header :=
  let h := header_Del h APIKeyHeader in
  if apiKey <>?s "" then header_Set h APIKeyHeader apiKey else h.

(** [url.URL.ResolveReference] for a reference with an absolute path: the path replaces the
    base path, with dot segments removed. *)
Definition dot_step (stack : list string) (elem : string) : list string :=
  if elem =?s "." then (match stack with [] => [""] | _ => stack end)
  else if elem =?s ".." then tl stack
  else elem :: stack.

Definition resolvePath (full : string) : string :=
  let elems := split_byte "/" full in
  let last_elem := List.last elems "" in
  let r := "/" +:+ strings_Join (rev (fold_left dot_step elems [])) "/"
           +:+ (if (last_elem =?s ".") || (last_elem =?s "..") then "/" else "") in
  if HasPrefix r "//" then TrimPrefix r "/" else r.

Definition maxCreateBodyBytes : Z := 4 * 2 ^ 20.

(** ** Configuration *)

(** The configuration of the facade.  [cfg_polls] bounds the iterations of the loops that
    wait that the model follows. *)
Record Config := {
  cfg_Prefix : string;
  cfg_UpstreamPath : string;
  cfg_APIKey : string;
  cfg_Namespace : string;
  cfg_TransitionTimeout : Duration;
  cfg_Admission : option KubernetesAdmission;
  cfg_CallerAuthorizer : bool;
  cfg_RequireIdempotency : bool;
  cfg_PendingOperationTTL : Duration;
  cfg_polls : nat
}.

(** [NewHandler]: [None] where it panics. *)
Definition NewHandler (store_present upstream_present templates_present : bool) (config : Config)
  : option Config :=
  if negb store_present || negb upstream_present || negb templates_present then None
  else if cfg_Namespace config =?s "" then None
  else Some {|
    cfg_Prefix := TrimSuffix (if cfg_Prefix config =?s "" then defaultPrefix else cfg_Prefix config) "/";
    cfg_UpstreamPath := cfg_UpstreamPath config; cfg_APIKey := cfg_APIKey config;
    cfg_Namespace := cfg_Namespace config;
    cfg_TransitionTimeout := if cfg_TransitionTimeout config <=? 0 then 30 * Second
                             else cfg_TransitionTimeout config;
    cfg_Admission := cfg_Admission config; cfg_CallerAuthorizer := cfg_CallerAuthorizer config;
    cfg_RequireIdempotency := cfg_RequireIdempotency config;
    cfg_PendingOperationTTL := if cfg_PendingOperationTTL config <=? 0 then 10 * Minute
                               else cfg_PendingOperationTTL config;
    cfg_polls := cfg_polls config |}.

(** ** Templates *)

(** The Go interface [TemplateResolver]. *)
Class TemplateResolver := { Resolve : string -> KProg (result ResolvedTemplate) }.

Section templates.
Context `{Sha256}.

(** The decisions of [KubernetesTemplateResolver.Resolve] once both objects are read. *)
Definition resolve_template_bundle (object : Unstructured SandboxTemplate) (template : SandboxTemplate)
  (bundleObject : Unstructured CapabilityBundle) : result ResolvedTemplate :=
  let spec := st_Spec template in
  if om_deleting (cb_meta (u_obj bundleObject))
  then Err (ErrMsg "sandbox template capability bundle is deleting")
  else match nested bundleObject ["spec"] (Some (cb_Spec (u_obj bundleObject))) with
  | Ok (Some bundleSpec) =>
      match PolicyRevision (Some bundleSpec) with
      | Err e => Err (ErrWrap "hash sandbox template capability bundle" e)
      | Ok bundleRevision =>
          if bundleRevision <>?s cbr_PolicyRevision (sts_CapabilityBundleRef spec)
          then Err (ErrMsg "sandbox template capability bundle revision is stale")
          else match nested object ["spec"] (Some (st_Spec (u_obj object))) with
          | Ok (Some templateSpec) =>
              match PolicyRevision (Some templateSpec) with
              | Err e => Err (ErrWrap "hash sandbox template" e)
              | Ok templateRevision =>
                  let logicalTenant := bundle_tenant bundleObject in
                  if logicalTenant =?s ""
                  then Err (ErrMsg "sandbox template capability bundle has no logical tenant")
                  else Ok {|
                    rt_Name := om_Name (st_meta (u_obj object)); rt_UID := om_UID (st_meta (u_obj object));
                    rt_Revision := templateRevision; rt_Image := sts_Image spec;
                    rt_Entrypoint := sts_Entrypoint spec; rt_CPU := str_CPU (sts_Resources spec);
                    rt_Memory := str_Memory (sts_Resources spec);
                    rt_TimeoutSeconds := sts_TimeoutSeconds spec;
                    rt_CapabilityBundleName := cbr_Name (sts_CapabilityBundleRef spec);
                    rt_CapabilityBundleRevision := bundleRevision; rt_LogicalTenant := logicalTenant |}
              end
          | _ => Err (ErrMsg "sandbox template has no spec")
          end
      end
  | _ => Err (ErrMsg "sandbox template capability bundle has no spec")
  end.

Definition KubernetesTemplateResolver_Resolve (namespace name : string) : KProg (result ResolvedTemplate) :=
  object <-? call (Get Templates namespace name) ;;
  if om_deleting (st_meta (u_obj object)) then Ret (Err (ErrMsg "sandbox template is deleting"))
  else match FromUnstructured object with
  | Err e => Ret (Err (ErrWrap "decode sandbox template" e))
  | Ok template =>
      if negb (sts_Enabled (st_Spec template)) then Ret (Err (ErrMsg "sandbox template is disabled"))
      else if max_int64 <? sts_TimeoutSeconds (st_Spec template)
      then Ret (Err (ErrMsg "sandbox template timeout exceeds platform integer range"))
      else
        got <-- call (Get Bundles namespace (cbr_Name (sts_CapabilityBundleRef (st_Spec template)))) ;;
        match got with
        | Err e => Ret (Err (ErrWrap "get sandbox template capability bundle" e))
        | Ok bundleObject => Ret (resolve_template_bundle object template bundleObject)
        end
  end.

Definition kubernetes_resolver (namespace : string) : TemplateResolver :=
  {| Resolve := KubernetesTemplateResolver_Resolve namespace |}.

End templates.

(** ** Pure parts of the create operation *)

Definition idempotency_rune (r : N) : bool :=
  in_range 97 122 r || in_range 65 90 r || in_range 48 57 r
  || (r =? 45)%N || (r =? 95)%N || (r =? 46)%N || (r =? 58)%N.

Definition validIdempotencyKey (value : string) : bool :=
  negb ((slen value <? 8) || (128 <? slen value)) && forallb idempotency_rune (runes value).

Section facade.
Context `{UnicodeTables} `{Sha256} `{Quantities} `{SdkJson} `{AssignmentStore} `{TemplateResolver}.

Definition createRequestHash (value : CreateSandboxRequest) (template : ResolvedTemplate) : result string :=
  payload <-! encode_hash_payload value (rt_Name template) (rt_UID template) (rt_Revision template) ;;
  Ok ("sha256:" +:+ sha256_hex payload).

Definition idempotentAssignmentName (logicalTenant key : string) : string :=
  "operation-" +:+ String.substring 0 32 (sha256_hex (logicalTenant +:+ nul +:+ key)).

(** The request with the shape of the template in place of the caller's. *)
Definition governed (value : CreateSandboxRequest) (resolved : ResolvedTemplate) : CreateSandboxRequest := {|
  csr_Image := Some (rt_Image resolved); csr_SnapshotID := "";
  csr_Timeout := Some (rt_TimeoutSeconds resolved);
  csr_ResourceLimits := {[ "cpu" := rt_CPU resolved; "memory" := rt_Memory resolved ]};
  csr_ResourceRequests := None; csr_Entrypoint := rt_Entrypoint resolved;
  csr_NetworkPolicy := None; csr_CredentialProxy := None; csr_Volumes := None; csr_Platform := None;
  csr_Extensions := Some ∅; csr_Metadata := csr_Metadata value; csr_Other := csr_Other value |}.

(** The request as forwarded: it carries the assignment it was recorded under. *)
Definition labelled (value : CreateSandboxRequest) (created : Assignment) (resolved : ResolvedTemplate)
  : CreateSandboxRequest := {|
  csr_Image := csr_Image value; csr_SnapshotID := csr_SnapshotID value; csr_Timeout := csr_Timeout value;
  csr_ResourceLimits := csr_ResourceLimits value; csr_ResourceRequests := csr_ResourceRequests value;
  csr_Entrypoint := csr_Entrypoint value; csr_NetworkPolicy := csr_NetworkPolicy value;
  csr_CredentialProxy := csr_CredentialProxy value; csr_Volumes := csr_Volumes value;
  csr_Platform := csr_Platform value;
  csr_Extensions := Some (<[assignmentUIDExtension := a_UID created]> (default ∅ (csr_Extensions value)));
  csr_Metadata := Some (<[SandboxTemplateExtension := rt_Name resolved]>
                        (<[AssignmentLabel := a_Name created]>
                         (delete AssignmentLabel (default ∅ (csr_Metadata value)))));
  csr_Other := csr_Other value |}.

Definition create_shape (value : CreateSandboxRequest) : CreateShape :=
  {| cr_Timeout := csr_Timeout value; cr_ResourceLimits := csr_ResourceLimits value |}.

Definition governance_extensions (resolved : ResolvedTemplate) (extensions : gmap string string)
  : gmap string string :=
  <[SandboxTemplateRevisionExtension := rt_Revision resolved]>
    (<[SandboxTemplateExtension := rt_Name resolved]>
      (<[CapabilityProfileExtension := rt_CapabilityBundleName resolved]> extensions)).

(** The answer to a replayed create. *)
Definition replayed (created : Assignment) (resolved : ResolvedTemplate) : createSandboxResponse := {|
  cres_ID := a_SandboxID created; cres_Metadata := ∅;
  cres_Extensions := governance_extensions resolved ∅;
  cres_CreatedAt := a_CreatedAt created; cres_Other := None |}.

(** The upstream's answer, without the internal markers. *)
Definition published (response : createSandboxResponse) (resolved : ResolvedTemplate)
  : createSandboxResponse := {|
  cres_ID := cres_ID response;
  cres_Metadata := delete AssignmentLabel (cres_Metadata response);
  cres_Extensions := governance_extensions resolved (delete assignmentUIDExtension (cres_Extensions response));
  cres_CreatedAt := cres_CreatedAt response; cres_Other := cres_Other response |}.

Definition create_request (config : Config) (resolved : ResolvedTemplate)
  (idempotencyKey requestHash : string) : CreateRequest := {|
  q_Namespace := cfg_Namespace config;
  q_Name := if idempotencyKey <>?s "" then idempotentAssignmentName (rt_LogicalTenant resolved) idempotencyKey
            else "";
  q_GenerateName := "assignment-"; q_TemplateName := rt_Name resolved; q_TemplateUID := rt_UID resolved;
  q_TemplateRevision := rt_Revision resolved; q_LogicalTenant := rt_LogicalTenant resolved;
  q_CapabilityBundleName := rt_CapabilityBundleName resolved; q_IdempotencyKey := idempotencyKey;
  q_RequestHash := requestHash |}.

(** ** Upstream *)

Definition success (response : HttpResponse) : bool :=
  negb ((resp_StatusCode response <? 200) || (300 <=? resp_StatusCode response)).

Definition copyResponse (response : HttpResponse) (body : string) : Reply :=
  PassReply (List.filter (fun e => negb (EqualFold e.1 "Content-Length" || EqualFold e.1 "Transfer-Encoding"
                                         || EqualFold e.1 "Connection")) (resp_Header response))
    (resp_StatusCode response) body.

Definition doUpstream (config : Config) (method path : string) (headers : Header) (body : string)
  : KProg (result HttpResponse) :=
  call (Upstream_Do method (resolvePath path)
    (setUpstreamAPIKey (List.filter (fun e => negb (EqualFold e.1 "Authorization")) headers)
       (cfg_APIKey config)) body).

(** ** Creating a sandbox *)

(** Admission, the durable operation record and the release of the admission Lease. *)
Definition reserve (config : Config) (value : CreateSandboxRequest) (request : CreateRequest)
  : KProg (option (Reply + Assignment)) :=
  let answer (created : result Assignment) : option (Reply + Assignment) :=
    Some (match created with
    | Ok a => inr a
    | Err e => inl (if error_Is e ErrIdempotencyConflict
                    then writeError StatusConflict "Idempotency-Key was reused with different sandbox intent"
                    else writeStoreError e)
    end) in
  match cfg_Admission config with
  | None => created <-- Store_Create request ;; Ret (answer created)
  | Some admission =>
      admitted <-- AuthorizeCreate (cfg_polls config) admission (q_CapabilityBundleName request)
                     (create_shape value) ;;
      match admitted with
      | None => Ret None
      | Some (Err _) =>
          Ret (Some (inl (writeError StatusForbidden "sandbox creation does not satisfy the tenant policy")))
      | Some (Ok held) =>
          created <-- Store_Create request ;;
          _ <-- release held ;;
          Ret (answer created)
      end
  end.

(** The answer to a create whose operation record already exists. *)
Definition replay (config : Config) (created : Assignment) (resolved : ResolvedTemplate) : KProg Reply :=
  let finish (created : Assignment) :=
    if a_SandboxID created =?s "" then
      ErrorReply [("Retry-After", ["2"])] StatusConflict "sandbox create operation is still in progress"
    else match encode_created (replayed created resolved) with
    | Err _ => writeError StatusInternalServerError "encode idempotent sandbox response"
    | Ok body => ReplayReply body
    end in
  if a_SandboxID created =?s "" then
    now <-- call time_Now ;;
    if cfg_PendingOperationTTL config <=? time_sub now (a_CreatedAt created) then
      got <-- Store_Get (cfg_Namespace config) (a_Name created) ;;
      match got with
      | Err e => Ret (writeStoreError e)
      | Ok latest =>
          if a_SandboxID latest <>?s "" then Ret (finish latest)
          else
            deleted <-- Store_Delete (cfg_Namespace config) (a_Name created) ;;
            match deleted with
            | Err e => Ret (writeStoreError e)
            | Ok _ => Ret (ErrorReply [("Retry-After", ["1"])] StatusServiceUnavailable
                             "stale sandbox create operation was expired; retry the request")
            end
      end
    else Ret (finish created)
  else Ret (finish created).

(** Forward a recorded create and map the sandbox to its assignment. *)
Definition forward (config : Config) (headers : Header) (value : CreateSandboxRequest) (created : Assignment)
  (resolved : ResolvedTemplate) : KProg Reply :=
  match encode_create (labelled value created resolved) with
  | Err _ =>
      _ <-- Store_Delete (cfg_Namespace config) (a_Name created) ;;
      Ret (writeError StatusInternalServerError "encode OpenSandbox request")
  | Ok forwardBody =>
      answered <-- doUpstream config "POST" "/sandboxes" headers forwardBody ;;
      match answered with
      | Err _ => Ret (writeError StatusBadGateway "OpenSandbox is unavailable")
      | Ok response =>
          if negb (success response) then
            _ <-- Store_Delete (cfg_Namespace config) (a_Name created) ;;
            Ret (copyResponse response (resp_Body response))
          else
            let invalid := writeError StatusBadGateway "OpenSandbox returned an invalid create response" in
            match decode_created (resp_Body response) with
            | Err _ => Ret invalid
            | Ok createdSandbox =>
                if (cres_ID createdSandbox =?s "") || time_is_zero (cres_CreatedAt createdSandbox)
                then Ret invalid
                else
                  recorded <-- Store_SetSandboxID (cfg_Namespace config) (a_Name created)
                                 (cres_ID createdSandbox) ;;
                  match recorded with
                  | Err _ => Ret (writeError StatusInternalServerError "record OpenSandbox assignment")
                  | Ok _ =>
                      match encode_created (published createdSandbox resolved) with
                      | Err _ => Ret (writeError StatusInternalServerError "encode OpenSandbox response")
                      | Ok responseBody => Ret (copyResponse response responseBody)
                      end
                  end
            end
      end
  end.

Definition create (config : Config) (request : Request) : KProg Reply :=
  let bad := Ret (writeError StatusBadRequest "invalid OpenSandbox create request") in
  match read_limited maxCreateBodyBytes (r_Body request) with
  | Err _ => bad
  | Ok body =>
  match decode_create body with
  | Err _ => bad
  | Ok value =>
      let templateName := TrimSpace (map_get (default ∅ (csr_Extensions value)) SandboxTemplateExtension) in
      if templateName =?s "" then Ret (writeError StatusForbidden "sandbox template is required")
      else
        got <-- Resolve templateName ;;
        match got with
        | Err e => Ret (writeError (if IsNotFound e then StatusNotFound else StatusForbidden)
                          "sandbox template is unavailable")
        | Ok resolved =>
            if cfg_CallerAuthorizer config
               && negb (is_ok (AuthorizeTenant (r_Scopes request) (rt_LogicalTenant resolved)))
            then Ret (writeError StatusForbidden "caller is not authorized for the sandbox template")
            else
              let value := governed value resolved in
              let idempotencyKey := TrimSpace (header_Get (r_Header request) "Idempotency-Key") in
              if cfg_RequireIdempotency config && negb (validIdempotencyKey idempotencyKey)
              then Ret (writeError StatusBadRequest "a valid Idempotency-Key header is required")
              else match createRequestHash value resolved with
              | Err _ => Ret (writeError StatusInternalServerError "hash OpenSandbox create request")
              | Ok requestHash =>
                  reserved <-- reserve config value (create_request config resolved idempotencyKey requestHash) ;;
                  match reserved with
                  | None => Ret StillWaiting
                  | Some (inl reply) => Ret reply
                  | Some (inr created) =>
                      if a_Existing created then replay config created resolved
                      else forward config (r_Header request) value created resolved
                  end
              end
        end
  end
  end.

(** ** Lifecycle operations on one sandbox *)

Definition authorizeAssignment (config : Config) (request : Request) (value : Assignment) : bool :=
  negb (cfg_CallerAuthorizer config)
  || negb ((a_LogicalTenant value =?s "")
           || negb (is_ok (AuthorizeTenant (r_Scopes request) (a_LogicalTenant value)))).

Definition authorizedAssignment (config : Config) (request : Request) (sandboxID : string)
  : KProg (Reply + Assignment) :=
  got <-- Store_GetBySandboxID (cfg_Namespace config) sandboxID ;;
  match got with
  | Err e => Ret (inl (if IsNotFound e then writeError StatusNotFound "sandbox assignment is unavailable"
                       else writeStoreError e))
  | Ok value =>
      if authorizeAssignment config request value then Ret (inr value)
      else Ret (inl (writeError StatusForbidden "caller is not authorized for the sandbox"))
  end.

Fixpoint waitReady (polls : nat) (config : Config) (name : string) (wanted : bool)
  : KProg (option (result unit)) :=
  match polls with
  | O => Ret None
  | Datatypes.S polls =>
      got <-- Store_Get (cfg_Namespace config) name ;;
      match got with
      | Err e => Ret (Some (Err e))
      | Ok value =>
          if Bool.eqb (a_Ready value) wanted then Ret (Some (Ok tt))
          else
            done <-- call ctx_Done ;;
            match done with
            | Some e => Ret (Some (Err e))
            | None => waitReady polls config name wanted
            end
      end
  end.

Definition pause (config : Config) (request : Request) (sandboxID : string) : KProg Reply :=
  found <-- authorizedAssignment config request sandboxID ;;
  match found with
  | inl reply => Ret reply
  | inr value =>
      fenced <-- Store_SetLifecycleFence (cfg_Namespace config) (a_Name value) true "" ;;
      match fenced with
      | Err e => Ret (writeStoreError e)
      | Ok _ =>
          waited <-- waitReady (cfg_polls config) config (a_Name value) false ;;
          match waited with
          | None => Ret StillWaiting
          | Some (Err _) =>
              _ <-- Store_SetLifecycleFence (cfg_Namespace config) (a_Name value) false "" ;;
              Ret (writeError StatusServiceUnavailable "assignment did not become paused")
          | Some (Ok _) =>
              answered <-- doUpstream config "POST" ("/sandboxes/" +:+ PathEscape sandboxID +:+ "/pause")
                             (r_Header request) "" ;;
              match answered with
              | Err _ => Ret (writeError StatusBadGateway "OpenSandbox is unavailable")
              | Ok response => Ret (copyResponse response (resp_Body response))
              end
          end
      end
  end.

Definition resume (config : Config) (request : Request) (sandboxID : string) : KProg Reply :=
  found <-- authorizedAssignment config request sandboxID ;;
  match found with
  | inl reply => Ret reply
  | inr value =>
      let oldPodUID := default "" (ref_UID <$> a_PodRef value) in
      fenced <-- Store_SetLifecycleFence (cfg_Namespace config) (a_Name value) false oldPodUID ;;
      match fenced with
      | Err e => Ret (writeStoreError e)
      | Ok _ =>
          answered <-- doUpstream config "POST" ("/sandboxes/" +:+ PathEscape sandboxID +:+ "/resume")
                         (r_Header request) "" ;;
          match answered with
          | Err _ =>
              _ <-- Store_SetLifecycleFence (cfg_Namespace config) (a_Name value) true "" ;;
              Ret (writeError StatusBadGateway "OpenSandbox is unavailable")
          | Ok response =>
              if negb (success response) then
                _ <-- Store_SetLifecycleFence (cfg_Namespace config) (a_Name value) true "" ;;
                Ret (copyResponse response (resp_Body response))
              else Ret (copyResponse response (resp_Body response))
          end
      end
  end.

Definition delete_sandbox (config : Config) (request : Request) (sandboxID : string) : KProg Reply :=
  found <-- authorizedAssignment config request sandboxID ;;
  match found with
  | inl reply => Ret reply
  | inr value =>
      deleted <-- Store_Delete (cfg_Namespace config) (a_Name value) ;;
      match deleted with
      | Err e => if negb (IsNotFound e) then Ret (writeStoreError e) else Ret NoContent
      | Ok _ => Ret NoContent
      end
  end.

(** ** The reverse proxy *)

Definition sanitizeSandbox (value : sandboxResponse) : sandboxResponse := {|
  sres_Metadata := delete AssignmentLabel (sres_Metadata value);
  sres_Extensions := delete assignmentUIDExtension (sres_Extensions value);
  sres_Other := sres_Other value |}.

(** What a proxied answer is decoded as. *)
Inductive SanitizeAs := SanitizeList | SanitizeOne | SanitizeNothing.

Definition sanitize_kind (method path : string) : SanitizeAs :=
  if (method =?s "GET") && (path =?s "/sandboxes") then SanitizeList
  else if (method =?s "GET") && HasPrefix path "/sandboxes/"
          && negb (contains_byte "/" (TrimPrefix path "/sandboxes/")) then SanitizeOne
  else if (method =?s "PATCH") && HasSuffix path "/metadata" then SanitizeOne
  else SanitizeNothing.

Definition sanitized_body (kind : SanitizeAs) (body : string) : result string :=
  match kind with
  | SanitizeOne => value <-! decode_sandbox body ;; encode_sandbox (sanitizeSandbox value)
  | SanitizeList =>
      value <-! decode_sandboxes body ;; encode_sandboxes (sanitizeSandbox <$> value.1, value.2)
  | SanitizeNothing => Ok body
  end.

(** [sanitizeProxiedResponse]; [method] and [path] are those of the outbound request. *)
Definition sanitizeProxiedResponse (method path : string) (response : HttpResponse) : result HttpResponse :=
  if negb (success response) then Ok response
  else match sanitize_kind method path with
  | SanitizeNothing => Ok response
  | kind =>
      body <-! sanitized_body kind (resp_Body response) ;;
      Ok {| resp_StatusCode := resp_StatusCode response;
            resp_Header := header_Set (resp_Header response) "Content-Length" (pretty (String.length body));
            resp_Body := body |}
  end.

Definition outbound_path (config : Config) (path : string) : string :=
  let outboundPath := TrimPrefix path (cfg_Prefix config) in
  joinURLPath (cfg_UpstreamPath config) (if outboundPath =?s "" then "/" else outboundPath).

Definition proxy (config : Config) (request : Request) : KProg Reply :=
  let path := outbound_path config (r_Path request) in
  let unavailable := Ret (writeError StatusBadGateway "OpenSandbox is unavailable") in
  answered <-- call (Proxy_ServeHTTP (r_Method request) path
    (setUpstreamAPIKey (header_Del (r_Header request) "Authorization") (cfg_APIKey config))
    (r_Body request)) ;;
  match answered with
  | Err _ => unavailable
  | Ok response =>
      match sanitizeProxiedResponse (r_Method request) path response with
      | Err _ => unavailable
      | Ok response => Ret (PassReply (resp_Header response) (resp_StatusCode response) (resp_Body response))
      end
  end.

Definition reservedMetadata : list string := [AssignmentLabel; SandboxTemplateExtension].

Definition patchMetadata (config : Config) (request : Request) (sandboxID : string) : KProg Reply :=
  let patched :=
    let bad := Ret (writeError StatusBadRequest "invalid metadata patch") in
    match read_limited (2 ^ 20) (r_Body request) with
    | Err _ => bad
    | Ok body =>
        match decode_patch_keys body with
        | Err _ => bad
        | Ok patch =>
            if existsb (fun key => contains key patch) reservedMetadata
            then Ret (writeError StatusForbidden "governance metadata is reserved")
            else proxy config {| r_Method := r_Method request; r_Path := r_Path request;
                                 r_Header := r_Header request; r_Body := Ok body;
                                 r_Scopes := r_Scopes request |}
        end
    end in
  if cfg_CallerAuthorizer config then
    found <-- authorizedAssignment config request sandboxID ;;
    match found with
    | inl reply => Ret reply
    | inr _ => patched
    end
  else patched.

Definition ServeHTTP (config : Config) (request : Request) : KProg Reply :=
  let not_found := Ret (writeError StatusNotFound "not found") in
  match CutPrefix (r_Path request) (cfg_Prefix config) with
  | None => not_found
  | Some path =>
      if (path <>?s "/sandboxes") && negb (HasPrefix path "/sandboxes/") then not_found
      else if (r_Method request =?s "POST") && (path =?s "/sandboxes") then create config request
      else
        let fallback :=
          if cfg_CallerAuthorizer config then
            if path =?s "/sandboxes"
            then Ret (writeError StatusForbidden "tenant-scoped sandbox listing is unavailable")
            else match sandboxOperation path with
            | Some (id, _) =>
                found <-- authorizedAssignment config request id ;;
                match found with
                | inl reply => Ret reply
                | inr _ => proxy config request
                end
            | None => proxy config request
            end
          else proxy config request in
        match sandboxOperation path with
        | Some (id, action) =>
            if (r_Method request =?s "DELETE") && (action =?s "") then delete_sandbox config request id
            else if (r_Method request =?s "POST") && (action =?s "pause") then pause config request id
            else if (r_Method request =?s "POST") && (action =?s "resume") then resume config request id
            else if (r_Method request =?s "PATCH") && (action =?s "metadata")
            then patchMetadata config request id
            else fallback
        | None => fallback
        end
  end.

(** [callerAuthenticator.Middleware(lifecycleHandler)]: the facade as the service mounts it. *)
Definition lifecycle_handler (a : Authenticator) (config : Config) (request : Request) : KProg (Z + Reply) :=
  authenticated <-- Middleware a (header_Get (r_Header request) "Authorization") ;;
  match authenticated with
  | inl status => Ret (inl status)
  | inr scopes =>
      reply <-- ServeHTTP config {|
        r_Method := r_Method request; r_Path := r_Path request;
        r_Header := header_Del (r_Header request) "Authorization"; r_Body := r_Body request;
        r_Scopes := Some scopes |} ;;
      Ret (inr reply)
  end.

End facade.

(** ** Path escaping *)

Lemma unhex_upper n : (n < 16)%N -> unhex (hex_upper n) = Some n.
Proof.
  intros Hn. assert (n ∈ (N.of_nat <$> seq 0 16)) as Hin.
  { apply list_elem_of_fmap. exists (N.to_nat n). split; [lia|]. apply elem_of_seq. lia. }
  cbn in Hin. repeat (apply elem_of_cons in Hin as [->|Hin]; [reflexivity|]). by apply elem_of_nil in Hin.
Qed.

Lemma path_unescaped_percent c : path_unescaped c = true -> c <> "%"%char.
Proof. by intros Hp ->. Qed.

Lemma PathUnescape_escape s : PathUnescape (PathEscape s) = Some s.
Proof.
  induction s as [|c s IH]; [done|]. cbn [PathEscape]. destruct (path_unescaped c) eqn:Ep.
  - cbn [PathUnescape]. rewrite bool_decide_eq_false_2 by by apply path_unescaped_percent. by rewrite IH.
  - cbn [PathUnescape]. rewrite bool_decide_eq_true_2 by done.
    assert (byte c < 256)%N as Hb by apply N_ascii_bounded.
    rewrite !unhex_upper by (apply N.Div0.div_lt_upper_bound || apply N.mod_lt; lia). cbn. rewrite IH. cbn.
    by rewrite <- N.div_mod', chr_byte.
Qed.

(** Escaped segments contain no separator. *)
Lemma hex_upper_no_slash n : (n < 16)%N -> hex_upper n <> "/"%char.
Proof. intros Hn E. apply unhex_upper in Hn. rewrite E in Hn. done. Qed.

Lemma PathEscape_no_slash s : contains_byte "/" (PathEscape s) = false.
Proof.
  induction s as [|c s IH]; [done|]. cbn [PathEscape].
  assert (byte c < 256)%N as Hb by apply N_ascii_bounded.
  destruct (path_unescaped c) eqn:Ep; rewrite !contains_byte_cons, IH.
  - rewrite bool_decide_eq_false_2; [done|]. by intros ->.
  - rewrite !bool_decide_eq_false_2; try done; apply hex_upper_no_slash;
      (apply N.Div0.div_lt_upper_bound || apply N.mod_lt); lia.
Qed.

Lemma PathEscape_nonempty s : s <> "" -> PathEscape s <> "".
Proof. destruct s; [done|]. cbn. by destruct (path_unescaped a). Qed.

(** A path built from an escaped sandbox ID is recognised with that ID and action. *)
Theorem sandboxOperation_escape i action :
  i <> "" -> contains_byte "/" i = false -> contains_byte "/" action = false ->
  sandboxOperation ("/sandboxes/" +:+ PathEscape i +:+ "/" +:+ action) = Some (i, action).
Proof.
  intros Hid Hs Ha. unfold sandboxOperation, TrimPrefix. rewrite CutPrefix_app. cbn [from_option]. unfold id.
  change ("/" +:+ action) with (String "/" action).
  rewrite split_byte_cut by apply PathEscape_no_slash. rewrite (split_byte_one "/" action) by done.
  destruct (PathEscape i =?s "") eqn:E; [by apply seqb_eq, PathEscape_nonempty in E|].
  cbn [length Nat.ltb Nat.leb orb hd]. rewrite PathUnescape_escape, Hs.
  by apply seqb_neq in Hid as ->.
Qed.

(** ** What the handler relies on *)

Section laws.
Context `{AssignmentStore} `{TemplateResolver}.

(** The store and the resolver never call the upstream server; lookups write nothing. *)
Class QuietDependencies : Prop := {
  quiet_Store_Create q : quiet is_upstream (Store_Create q);
  quiet_Store_Get ns n : quiet is_upstream (Store_Get ns n);
  quiet_Store_GetBySandboxID ns i : quiet is_upstream (Store_GetBySandboxID ns i);
  quiet_Store_SetSandboxID ns n i : quiet is_upstream (Store_SetSandboxID ns n i);
  quiet_Store_SetLifecycleFence ns n b u : quiet is_upstream (Store_SetLifecycleFence ns n b u);
  quiet_Store_Delete ns n : quiet is_upstream (Store_Delete ns n);
  quiet_Resolve n : quiet is_upstream (Resolve n);
  readonly_Store_GetBySandboxID ns i : quiet is_write (Store_GetBySandboxID ns i)
}.

End laws.

#[export] Hint Resolve quiet_Store_Create quiet_Store_Get quiet_Store_GetBySandboxID
  quiet_Store_SetSandboxID quiet_Store_SetLifecycleFence quiet_Store_Delete quiet_Resolve
  readonly_Store_GetBySandboxID : gov.

(** Admission never calls the upstream server. *)
Section quiet_admission.
Context `{Quantities} `{Sha256}.

Lemma acquire_loop_quiet fuel ns name holder : quiet is_upstream (acquire_loop fuel ns name holder).
Proof. induction fuel as [|fuel IH]; cbn [acquire_loop]; cbv zeta; solve_quiet. Qed.

Lemma release_quiet r : quiet is_upstream (release r).
Proof. unfold release. solve_quiet. Qed.

#[local] Hint Resolve acquire_loop_quiet release_quiet : gov.

Lemma AuthorizeCreate_quiet fuel a b q : quiet is_upstream (AuthorizeCreate fuel a b q).
Proof. unfold AuthorizeCreate, policyForTenant, acquireTenantLease, within_budget. solve_quiet. Qed.

End quiet_admission.

#[export] Hint Resolve release_quiet AuthorizeCreate_quiet : gov.

Lemma retry_on_conflict_quiet kind steps p : quiet kind p -> quiet kind (retry_on_conflict steps p).
Proof. intros Hp. induction steps as [|steps IH]; cbn [retry_on_conflict]; solve_quiet. Qed.

(** The Kubernetes store and resolver keep those promises. *)
#[export] Instance kubernetes_quiet index ns `{Sha256}
  :
  @QuietDependencies (kubernetes_store index) (kubernetes_resolver ns).
Proof.
  split; intros; cbn [Store_Create Store_Get Store_GetBySandboxID Store_SetSandboxID Store_SetLifecycleFence
    Store_Delete Resolve kubernetes_store kubernetes_resolver]; unfold KStore_SetSandboxID, KStore_SetLifecycleFence, updateObjectMetadata;
    try apply retry_on_conflict_quiet;
    unfold KStore_Create, KStore_Get, KStore_GetBySandboxID, update_once, KStore_Delete,
      KubernetesTemplateResolver_Resolve; solve_quiet.
Qed.

(** ** Theorems: creation *)

(** The request an event sends to the upstream server on its own behalf, not proxied. *)
Definition upstream_call (e : KEvent) : option (string * string * Header * string) :=
  match e with
  | Ev op _ => match op with Upstream_Do m p h b => Some (m, p, h, b) | _ => None end
  end.

(** A forwarded create has the shape of the template: nothing of the caller's image, snapshot,
    lifetime, resources, entry point, network, credentials, volumes, platform or extensions. *)
Record follows_template `{SdkTypes} (sent : CreateSandboxRequest) (resolved : ResolvedTemplate)
  (created : Assignment) : Prop := {
  ft_image : csr_Image sent = Some (rt_Image resolved);
  ft_snapshot : csr_SnapshotID sent = "";
  ft_timeout : csr_Timeout sent = Some (rt_TimeoutSeconds resolved);
  ft_limits : csr_ResourceLimits sent = {[ "cpu" := rt_CPU resolved; "memory" := rt_Memory resolved ]};
  ft_requests : csr_ResourceRequests sent = None;
  ft_entrypoint : csr_Entrypoint sent = rt_Entrypoint resolved;
  ft_network : csr_NetworkPolicy sent = None;
  ft_credentials : csr_CredentialProxy sent = None;
  ft_volumes : csr_Volumes sent = None;
  ft_platform : csr_Platform sent = None;
  ft_extensions : csr_Extensions sent = Some {[ assignmentUIDExtension := a_UID created ]};
  ft_assignment : map_get (default ∅ (csr_Metadata sent)) AssignmentLabel = a_Name created;
  ft_template : map_get (default ∅ (csr_Metadata sent)) SandboxTemplateExtension = rt_Name resolved
}.

Lemma labelled_governed `{SdkTypes} (value : CreateSandboxRequest) resolved created :
  follows_template (labelled (governed value resolved) created resolved) resolved created.
Proof. constructor; cbn; try done; by autorewrite with gov. Qed.

Lemma setUpstreamAPIKey_header headers apiKey name values :
  (name, values) ∈ setUpstreamAPIKey headers apiKey ->
  name = APIKeyHeader /\ values = [apiKey] /\ apiKey <> "" \/ (name, values) ∈ headers /\ name <> APIKeyHeader.
Proof.
  unfold setUpstreamAPIKey, header_Set, header_Del. intros Hin.
  destruct (apiKey =?s "") eqn:Ek; cbn [negb] in Hin; bool_to_prop;
    [right|apply elem_of_cons in Hin as [[= -> ->]|Hin]; [by left|right]];
    rewrite !list_elem_of_In, !filter_In in *; cbn in *; destruct_and!; bool_to_prop; done.
Qed.

Section create_theorems.
Context `{UnicodeTables} `{Sha256} `{Quantities} `{SdkJson} `{AssignmentStore} `{TemplateResolver}
        `{!QuietDependencies}.
#[local] Set Default Proof Using "All".

(** Only the forwarding step reaches the upstream server, and only with its one request. *)
Lemma forward_upstream config headers value created resolved tr reply e :
  run (forward config headers value created resolved) tr reply -> e ∈ tr -> is_upstream e = true ->
  exists header body, encode_create (labelled value created resolved) = Ok body /\
    upstream_call e = Some ("POST", "/sandboxes", header, body) /\
    header = setUpstreamAPIKey (List.filter (fun h => negb (EqualFold h.1 "Authorization")) headers)
               (cfg_APIKey config).
Proof.
  unfold forward. intros Hr Hin He. destruct (encode_create _) as [body|e'].
  2: { exfalso. revert Hin He. eapply quiet_elem; [|done]. solve_quiet. }
  apply run_bind in Hr as (answered & t1 & t2 & -> & Hu & Hr). unfold doUpstream in Hu. run_step Hu.
  apply elem_of_app in Hin as [->%list_elem_of_singleton|Hin]; [by do 2 eexists|].
  exfalso. revert Hin He. eapply quiet_elem; [|done]. solve_quiet.
Qed.

Lemma reserve_quiet config value q : quiet is_upstream (reserve config value q).
Proof. unfold reserve. solve_quiet. Qed.

Lemma replay_quiet config created resolved : quiet is_upstream (replay config created resolved).
Proof. unfold replay. cbv zeta. solve_quiet. Qed.

(** A create that reaches the upstream server has been reserved. *)
Lemma create_upstream config request tr reply e :
  run (create config request) tr reply -> e ∈ tr -> is_upstream e = true ->
  exists text value name resolved key hash created t1 t2 t3 header body,
    tr = t1 ++ t2 ++ t3 /\ r_Body request = Ok text /\ decode_create text = Ok value /\
    run (Resolve name) t1 (Ok resolved) /\
    (cfg_CallerAuthorizer config = true ->
       AuthorizeTenant (r_Scopes request) (rt_LogicalTenant resolved) = Ok tt) /\
    (cfg_RequireIdempotency config = true -> validIdempotencyKey key = true) /\
    createRequestHash (governed value resolved) resolved = Ok hash /\
    run (reserve config (governed value resolved) (create_request config resolved key hash)) t2
      (Some (inr created)) /\
    a_Existing created = false /\ e ∈ t3 /\
    encode_create (labelled (governed value resolved) created resolved) = Ok body /\
    upstream_call e = Some ("POST", "/sandboxes", header, body) /\
    header = setUpstreamAPIKey (List.filter (fun h => negb (EqualFold h.1 "Authorization")) (r_Header request))
               (cfg_APIKey config).
Proof.
  unfold create. cbv zeta. intros Hr Hin He.
  destruct (read_limited _ _) as [text|] eqn:Eb; [|run_step Hr; by apply elem_of_nil in Hin].
  destruct (decode_create text) as [value|] eqn:Ed; [|run_step Hr; by apply elem_of_nil in Hin].
  case_match; [run_step Hr; by apply elem_of_nil in Hin|].
  apply run_bind in Hr as (got & t1 & t2 & -> & Hres & Hr).
  apply elem_of_app in Hin as [Hin|Hin]; [exfalso; revert Hin He; eapply quiet_elem; [|done]; solve_quiet|].
  destruct got as [resolved|]; [|run_step Hr; by apply elem_of_nil in Hin].
  case_match eqn:Ea; [run_step Hr; by apply elem_of_nil in Hin|].
  case_match eqn:Ek; [run_step Hr; by apply elem_of_nil in Hin|].
  destruct (createRequestHash _ _) as [hash|] eqn:Eh; [|run_step Hr; by apply elem_of_nil in Hin].
  apply run_bind in Hr as (reserved & t3 & t4 & -> & Hrv & Hr).
  apply elem_of_app in Hin as [Hin|Hin];
    [exfalso; revert Hin He; eapply quiet_elem; [apply reserve_quiet|done]|].
  destruct reserved as [[reply'|created]|]; [run_step Hr; by apply elem_of_nil in Hin| |
    run_step Hr; by apply elem_of_nil in Hin].
  destruct (a_Existing created) eqn:Ex; [exfalso; revert Hin He; eapply quiet_elem; [apply replay_quiet|done]|].
  destruct (forward_upstream _ _ _ _ _ _ _ _ Hr Hin He) as (header & body & Henc & Hcall & Hh).
  assert (r_Body request = Ok text) as Hbody.
  { unfold read_limited in Eb. destruct (r_Body request) as [b|]; [|done]. cbn in Eb. case_match; congruence. }
  do 12 eexists. split_and!; try done.
  - intros Hc. rewrite Hc in Ea. cbn in Ea. apply negb_false_iff in Ea.
    destruct (AuthorizeTenant _ _) as [[]|]; done.
  - intros Hc. rewrite Hc in Ek. cbn in Ek. by apply negb_false_iff in Ek.
Qed.


End create_theorems.

(** ** Theorems: lifecycle operations *)

Section lifecycle_theorems.
Context `{UnicodeTables} `{Sha256} `{Quantities} `{SdkJson} `{AssignmentStore} `{TemplateResolver}
        `{!QuietDependencies}.
#[local] Set Default Proof Using "All".

Lemma authorizeAssignment_true config request value :
  authorizeAssignment config request value = true -> cfg_CallerAuthorizer config = true ->
  a_LogicalTenant value <> "" /\
  exists tenants, r_Scopes request = Some tenants /\ a_LogicalTenant value ∈ tenants.
Proof.
  unfold authorizeAssignment. intros Ha Hc. rewrite Hc in Ha. cbn in Ha. bool_to_prop. split; [done|].
  apply AuthorizeTenant_iff. by destruct (AuthorizeTenant _ _) as [[]|].
Qed.

Lemma authorizedAssignment_found config request i tr value :
  run (authorizedAssignment config request i) tr (inr value) ->
  run (Store_GetBySandboxID (cfg_Namespace config) i) tr (Ok value) /\
  authorizeAssignment config request value = true.
Proof.
  unfold authorizedAssignment. intros Hr. apply run_bind in Hr as (got & t1 & t2 & -> & Hg & Hr).
  destruct got as [v|e]; [|by run_step Hr]. destruct (authorizeAssignment _ _ v) eqn:Ea; [|by run_step Hr].
  run_step Hr. by rewrite app_nil_r.
Qed.

Lemma authorizedAssignment_quiet config request i :
  quiet is_upstream (authorizedAssignment config request i).
Proof. unfold authorizedAssignment. solve_quiet. Qed.

Lemma authorizedAssignment_readonly config request i :
  quiet is_write (authorizedAssignment config request i).
Proof. unfold authorizedAssignment. solve_quiet. Qed.

Lemma waitReady_quiet polls config name wanted : quiet is_upstream (waitReady polls config name wanted).
Proof. induction polls as [|polls IH]; cbn [waitReady]; solve_quiet. Qed.

(** The wait ends well only with a view that has the wanted readiness. *)
Lemma waitReady_seen polls config name wanted tr :
  run (waitReady polls config name wanted) tr (Some (Ok tt)) ->
  exists t1 t2 view, tr = t1 ++ t2 /\ run (Store_Get (cfg_Namespace config) name) t2 (Ok view) /\
    a_Ready view = wanted.
Proof.
  revert tr. induction polls as [|polls IH]; intros tr; cbn [waitReady]; intros Hr; [by run_step Hr|].
  apply run_bind in Hr as (got & t1 & t2 & -> & Hg & Hr). destruct got as [view|e]; [|by run_step Hr].
  destruct (Bool.eqb _ _) eqn:Eb.
  - run_step Hr. exists [], t1, view. rewrite app_nil_r. split_and!; [done|done|by apply eqb_prop].
  - run_step Hr. destruct a as [e|]; [by run_step Hr|].
    apply IH in Hr as (t3 & t4 & v & -> & Hv & Hw). exists (t1 ++ [Ev ctx_Done None] ++ t3), t4, v.
    by rewrite <- !app_assoc.
Qed.

(** The wait is over as soon as the request is cancelled: it is unfinished only if the context
    was found live at every poll. *)
Lemma waitReady_cancelled polls config name wanted tr :
  run (waitReady polls config name wanted) tr None -> (polls <= live_polls tr)%nat.
Proof.
  revert tr. induction polls as [|polls IH]; intros tr; cbn [waitReady]; intros Hr; [lia|].
  apply run_bind in Hr as (got & t1 & t2 & -> & Hg & Hr). destruct got as [view|e]; [|by run_step Hr].
  destruct (Bool.eqb _ _); [by run_step Hr|]. run_step Hr. destruct a as [e|]; [by run_step Hr|].
  apply IH in Hr. rewrite !live_polls_app. cbn. lia.
Qed.

#[local] Hint Resolve authorizedAssignment_quiet authorizedAssignment_readonly waitReady_quiet : gov.

(** The event cannot be in the trace of a part that makes no such call. *)
Ltac not_here :=
  match goal with
  | Hin : ?e ∈ ?t, Hr : run _ ?t _, He : _ ?e = true |- _ =>
      exfalso; refine (quiet_elem _ _ _ _ _ _ Hr Hin He)
  end.

(** C21. A pause reaches the upstream server only when the assignment was found, the caller was
    authorized for it, its fence was written, and a later read showed it not ready: the
    sandbox's egress authorization is withdrawn before its workload is paused. *)
Theorem pause_fences_first config request i tr reply e :
  run (pause config request i) tr reply -> e ∈ tr -> is_upstream e = true ->
  exists value t1 t2 t3 t4 view,
    tr = t1 ++ t2 ++ t3 ++ t4 ++ [e] /\
    run (Store_GetBySandboxID (cfg_Namespace config) i) t1 (Ok value) /\
    authorizeAssignment config request value = true /\
    run (Store_SetLifecycleFence (cfg_Namespace config) (a_Name value) true "") t2 (Ok tt) /\
    run (Store_Get (cfg_Namespace config) (a_Name value)) t4 (Ok view) /\ a_Ready view = false.
Proof.
  unfold pause. intros Hr Hin He. apply run_bind in Hr as (found & t1 & t2 & -> & Hf & Hr).
  apply elem_of_app in Hin as [Hin|Hin]; [not_here; solve_quiet|].
  destruct found as [r|value]; [run_step Hr; by apply elem_of_nil in Hin|].
  apply authorizedAssignment_found in Hf as [Hget Hauth].
  apply run_bind in Hr as (fenced & t3 & t4 & -> & Hfence & Hr).
  apply elem_of_app in Hin as [Hin|Hin]; [not_here; solve_quiet|].
  destruct fenced as [[]|]; [|run_step Hr; by apply elem_of_nil in Hin].
  apply run_bind in Hr as (waited & t5 & t6 & -> & Hw & Hr).
  apply elem_of_app in Hin as [Hin|Hin]; [not_here; solve_quiet|].
  destruct waited as [[[]|err]|]; [|not_here; solve_quiet|run_step Hr; by apply elem_of_nil in Hin].
  apply waitReady_seen in Hw as (t7 & t8 & view & -> & Hview & Hready).
  unfold doUpstream in Hr. run_step Hr.
  assert (tr0 = []) as -> by (destruct a; by run_step Hr). rewrite app_nil_r in Hin.
  apply list_elem_of_singleton in Hin as ->. exists value, t1, t3, t7, t8, view.
  rewrite app_nil_r, <- !app_assoc. done.
Qed.

(** An upstream answer that does not accept the request. *)
Definition upstream_rejected (e : KEvent) : bool :=
  match e with
  | Ev op r =>
      match op in Kube R return R -> bool with
      | Upstream_Do _ _ _ _ => fun r => match r with Ok response => negb (success response) | Err _ => true end
      | _ => fun _ => false
      end r
  end.

Lemma upstream_rejected_upstream e : upstream_rejected e = true -> is_upstream e = true.
Proof. by destruct e as [R op r]; destruct op. Qed.

(** C34. A resume lifts the fence of an assignment the caller is authorized for, recording the Pod
    that must be replaced; when the upstream server does not accept it, the assignment is
    fenced again before the answer. *)
Theorem resume_refences config request i tr reply e :
  run (resume config request i) tr reply -> e ∈ tr -> upstream_rejected e = true ->
  exists value t1 t2 t3 r, tr = t1 ++ t2 ++ [e] ++ t3 /\
    run (Store_GetBySandboxID (cfg_Namespace config) i) t1 (Ok value) /\
    authorizeAssignment config request value = true /\
    run (Store_SetLifecycleFence (cfg_Namespace config) (a_Name value) false
           (default "" (ref_UID <$> a_PodRef value))) t2 (Ok tt) /\
    run (Store_SetLifecycleFence (cfg_Namespace config) (a_Name value) true "") t3 r.
Proof.
  unfold resume. cbv zeta. intros Hr Hin Hj. pose proof (upstream_rejected_upstream _ Hj) as He.
  apply run_bind in Hr as (found & t1 & t2 & -> & Hf & Hr).
  apply elem_of_app in Hin as [Hin|Hin]; [not_here; solve_quiet|].
  destruct found as [r|value]; [run_step Hr; by apply elem_of_nil in Hin|].
  apply authorizedAssignment_found in Hf as [Hget Hauth].
  apply run_bind in Hr as (fenced & t3 & t4 & -> & Hfence & Hr).
  apply elem_of_app in Hin as [Hin|Hin]; [not_here; solve_quiet|].
  destruct fenced as [[]|]; [|run_step Hr; by apply elem_of_nil in Hin].
  unfold doUpstream in Hr. run_step Hr.
  apply elem_of_app in Hin as [->%list_elem_of_singleton|Hin]; [|destruct a; not_here; solve_quiet].
  cbn in Hj.
  assert (exists r t5, tr0 = t5 /\
    run (Store_SetLifecycleFence (cfg_Namespace config) (a_Name value) true "") t5 r) as (r & t5 & -> & Hagain).
  { destruct a as [response|]; [rewrite Hj in Hr|];
      apply run_bind in Hr as (r & t5 & t6 & -> & Hfence' & Hr); run_step Hr; exists r, t5;
      by rewrite app_nil_r. }
  exists value, t1, t3, t5, r. by rewrite <- ?app_assoc.
Qed.

End lifecycle_theorems.

(** ** Theorems: tenant isolation *)

(** An event that changes stored state or reaches the upstream server. *)
Definition has_effect (e : KEvent) : bool := is_write e || is_upstream e.

Section isolation_theorems.
Context `{UnicodeTables} `{Sha256} `{Quantities} `{SdkJson} `{AssignmentStore} `{TemplateResolver}
        `{!QuietDependencies}.
#[local] Set Default Proof Using "All".

Lemma authorizedAssignment_no_effect config request i :
  quiet has_effect (authorizedAssignment config request i).
Proof.
  intros tr r Hr. pose proof (authorizedAssignment_quiet config request i _ _ Hr) as Hu.
  pose proof (authorizedAssignment_readonly config request i _ _ Hr) as Hw.
  induction tr as [|e tr IH] in Hu, Hw |- *; [done|]. cbn in *. unfold has_effect at 1.
  apply orb_false_iff in Hu as [-> Hu], Hw as [-> Hw]. cbn. by apply IH.
Qed.

(** The caller may act on the assignment that the trace starts by reading. *)
Definition caller_owns (config : Config) (request : Request) (i : string) (tr : list KEvent) : Prop :=
  exists value t1 t2 tenants, tr = t1 ++ t2 /\
    run (Store_GetBySandboxID (cfg_Namespace config) i) t1 (Ok value) /\
    r_Scopes request = Some tenants /\ a_LogicalTenant value ∈ tenants /\ a_LogicalTenant value <> "".

(** Operations that start with [authorizedAssignment] have no effect before it succeeds. *)
Lemma after_authorization {A} config request i (k : Reply + Assignment -> KProg A) tr r e :
  cfg_CallerAuthorizer config = true ->
  (forall reply, quiet has_effect (k (inl reply))) ->
  run (prog_bind (authorizedAssignment config request i) k) tr r -> e ∈ tr -> has_effect e = true ->
  caller_owns config request i tr.
Proof.
  intros Hc Hk Hr Hin He. apply run_bind in Hr as (found & t1 & t2 & -> & Hf & Hr).
  apply elem_of_app in Hin as [Hin|Hin];
    [exfalso; refine (quiet_elem _ _ _ _ _ _ Hf Hin He); apply authorizedAssignment_no_effect|].
  destruct found as [reply|value]; [exfalso; refine (quiet_elem _ _ _ _ _ _ Hr Hin He); apply Hk|].
  apply authorizedAssignment_found in Hf as [Hget Ha].
  destruct (authorizeAssignment_true _ _ _ Ha Hc) as (Hne & tenants & Hs & Ht). by exists value, t1, t2, tenants.
Qed.

Lemma ServeHTTP_owned config request path i action tr reply e :
  cfg_CallerAuthorizer config = true ->
  CutPrefix (r_Path request) (cfg_Prefix config) = Some path ->
  sandboxOperation path = Some (i, action) ->
  run (ServeHTTP config request) tr reply -> e ∈ tr -> has_effect e = true ->
  caller_owns config request i tr.
Proof.
  intros Hc Hp Hop Hr Hin He. unfold ServeHTTP in Hr. rewrite Hp, Hop, Hc in Hr. cbv zeta in Hr.
  case_match; [run_step Hr; by apply elem_of_nil in Hin|].
  assert (path <> "/sandboxes") as Hne by by intros ->. apply seqb_neq in Hne. rewrite Hne, andb_false_r in Hr.
  unfold delete_sandbox, pause, resume, patchMetadata in Hr. rewrite Hc in Hr.
  repeat case_match; (eapply after_authorization; [done| |exact Hr|exact Hin|exact He]); intros ?; apply quiet_ret.
Qed.

(** Every operation on one sandbox, proxied or not, changes nothing and sends nothing upstream
    unless the sandbox's assignment names a tenant in the caller's scopes. *)
Theorem ServeHTTP_authorizes config request path i action tr reply e :
  cfg_CallerAuthorizer config = true ->
  CutPrefix (r_Path request) (cfg_Prefix config) = Some path ->
  sandboxOperation path = Some (i, action) ->
  run (ServeHTTP config request) tr reply -> e ∈ tr -> has_effect e = true ->
  exists value t1 t2 tenants, tr = t1 ++ t2 /\
    run (Store_GetBySandboxID (cfg_Namespace config) i) t1 (Ok value) /\
    r_Scopes request = Some tenants /\ a_LogicalTenant value ∈ tenants /\ a_LogicalTenant value <> "".
Proof. apply ServeHTTP_owned. Qed.

(** A path below [/sandboxes/] that is not of the form [/sandboxes/<id>[/<action>]] is proxied
    without consulting the caller's scopes or the assignment. *)
Lemma unmatched_proxied config request path :
  CutPrefix (r_Path request) (cfg_Prefix config) = Some path ->
  HasPrefix path "/sandboxes/" = true -> sandboxOperation path = None ->
  ServeHTTP config request = proxy config request.
Proof.
  intros Hp Hpre Hop. unfold ServeHTTP. rewrite Hp, Hpre, Hop. cbn [negb]. rewrite andb_false_r.
  assert (path <> "/sandboxes") as Hne by by intros ->. apply seqb_neq in Hne.
  rewrite Hne, andb_false_r. by destruct (cfg_CallerAuthorizer config).
Qed.

End isolation_theorems.

Section service_theorems.
Context `{UnicodeTables} `{Sha256} `{Quantities} `{SdkJson} `{AssignmentStore} `{TemplateResolver}
        `{!QuietDependencies}.
#[local] Set Default Proof Using "All".


(** A request for a deeper path below one sandbox, such as its endpoints, goes to the upstream
    server with the service's own API key whatever the caller's tenants are: the handler
    neither reads the assignment nor consults the scopes. *)
Theorem nested_path_unauthorized config request i sub leaf :
  r_Path request = cfg_Prefix config +:+ "/sandboxes/" +:+ i +:+ "/" +:+ sub +:+ "/" +:+ leaf ->
  contains_byte "/" i = false -> contains_byte "/" sub = false ->
  ServeHTTP config request = proxy config request.
Proof.
  intros Hp Hi Hs. eapply unmatched_proxied; [by apply CutPrefix_Some| |].
  - rewrite HasPrefix_CutPrefix, CutPrefix_app. by apply bool_decide_eq_true_2.
  - unfold sandboxOperation, TrimPrefix. rewrite CutPrefix_app. cbn [from_option]. unfold id.
    change ("/" +:+ sub +:+ "/" +:+ leaf) with (String "/" (sub +:+ String "/" leaf)).
    rewrite split_byte_cut by done. rewrite split_byte_cut by done.
    destruct (split_byte "/" leaf) eqn:E; [by apply split_byte_nonnil in E|].
    cbn [length Nat.ltb Nat.leb]. by rewrite orb_true_r.
Qed.

(** ** Theorems: proxied answers *)

Lemma outbound_root config request rest :
  cfg_UpstreamPath config = "" \/ cfg_UpstreamPath config = "/" ->
  r_Path request = cfg_Prefix config +:+ "/sandboxes/" +:+ rest ->
  outbound_path config (r_Path request) = "/sandboxes/" +:+ rest.
Proof.
  intros Hroot ->. unfold outbound_path, joinURLPath, TrimPrefix. rewrite CutPrefix_app.
  by destruct Hroot as [-> | ->].
Qed.

(** With the upstream server at its root path, a successful proxied read of one sandbox
    carries neither the assignment's label nor its UID. *)
Theorem proxied_sandbox_sanitized config request rest tr h status body :
  cfg_UpstreamPath config = "" \/ cfg_UpstreamPath config = "/" ->
  r_Method request = "GET" -> r_Path request = cfg_Prefix config +:+ "/sandboxes/" +:+ rest ->
  contains_byte "/" rest = false ->
  run (proxy config request) tr (PassReply h status body) -> 200 <= status < 300 ->
  exists raw value clean, decode_sandbox raw = Ok value /\ encode_sandbox clean = Ok body /\
    sres_Metadata clean !! AssignmentLabel = None /\ sres_Extensions clean !! assignmentUIDExtension = None /\
    sres_Other clean = sres_Other value.
Proof.
  intros Hroot Hm Hp Hrest Hr Hst. unfold proxy in Hr. rewrite (outbound_root _ _ _ Hroot Hp), Hm in Hr.
  run_step Hr. destruct a as [response|]; [|by run_step Hr].
  unfold sanitizeProxiedResponse in Hr.
  assert (sanitize_kind "GET" ("/sandboxes/" +:+ rest) = SanitizeOne) as Hk.
  { unfold sanitize_kind, TrimPrefix. rewrite HasPrefix_CutPrefix, CutPrefix_app.
    cbn [from_option]. unfold id. rewrite Hrest, bool_decide_eq_true_2 by done. done. }
  rewrite Hk in Hr. destruct (success response) eqn:Es; cbn [negb] in Hr.
  2: { run_step Hr. unfold success in Es. apply negb_false_iff, orb_true_iff in Es as [?|?]; lia. }
  cbn [sanitized_body res_bind] in Hr. destruct (decode_sandbox _) as [value|] eqn:Ed; [|cbn [res_bind] in Hr; by run_step Hr].
  cbn [res_bind] in Hr. destruct (encode_sandbox _) as [clean|] eqn:Ee; [|cbn [res_bind] in Hr; by run_step Hr].
  cbn [res_bind] in Hr. run_step Hr. eexists _, value, (sanitizeSandbox value). split_and!; try done;
    apply lookup_delete_eq.
Qed.

(** Behind an upstream base path the same read is passed on as it came: the sanitizer compares
    the outbound path, base path included, with [/sandboxes/]. *)
Theorem base_path_unsanitized config request rest response :
  cfg_UpstreamPath config = "/v1" ->
  r_Method request = "GET" -> r_Path request = cfg_Prefix config +:+ "/sandboxes/" +:+ rest ->
  exists tr, run (proxy config request) tr
    (PassReply (resp_Header response) (resp_StatusCode response) (resp_Body response)) /\ length tr = 1%nat.
Proof.
  intros Hb Hm Hp. unfold proxy, outbound_path, joinURLPath, TrimPrefix.
  rewrite Hp, CutPrefix_app, Hb, Hm. cbv zeta. cbn [from_option]. unfold id.
  eexists. split; [|shelve]. apply run_bind. exists (Ok response). do 2 eexists. split; [reflexivity|].
  split; [by apply run_call|]. unfold sanitizeProxiedResponse.
  match goal with |- context [sanitize_kind "GET" ?p] => assert (sanitize_kind "GET" p = SanitizeNothing) as -> by done end.
  by destruct (success response).
  Unshelve. done.
Qed.

End service_theorems.

(** ** Theorems: templates and admission of a create *)

Section resolver_theorems.
Context `{Sha256}.

(** A template resolves only if it is live and enabled and the bundle it pins is live with
    exactly the pinned revision; the shape is then the template's, and the tenant is the one
    the bundle names. *)
Theorem Resolve_sound ns name tr resolved :
  run (KubernetesTemplateResolver_Resolve ns name) tr (Ok resolved) ->
  exists object bundle, let spec := st_Spec (u_obj object) in
    tr = [Ev (Get Templates ns name) (Ok object);
          Ev (Get Bundles ns (cbr_Name (sts_CapabilityBundleRef spec))) (Ok bundle)] /\
    u_malformed object = [] /\
    om_deleting (st_meta (u_obj object)) = false /\ sts_Enabled spec = true /\
    om_deleting (cb_meta (u_obj bundle)) = false /\
    PolicyRevision (Some (cb_Spec (u_obj bundle))) = Ok (cbr_PolicyRevision (sts_CapabilityBundleRef spec)) /\
    PolicyRevision (Some spec) = Ok (rt_Revision resolved) /\
    rt_Image resolved = sts_Image spec /\ rt_Entrypoint resolved = sts_Entrypoint spec /\
    rt_CPU resolved = str_CPU (sts_Resources spec) /\ rt_Memory resolved = str_Memory (sts_Resources spec) /\
    rt_TimeoutSeconds resolved = sts_TimeoutSeconds spec /\
    rt_CapabilityBundleName resolved = cbr_Name (sts_CapabilityBundleRef spec) /\
    rt_CapabilityBundleRevision resolved = cbr_PolicyRevision (sts_CapabilityBundleRef spec) /\
    rt_LogicalTenant resolved = bundle_tenant bundle /\ bundle_tenant bundle <> "".
Proof.
  unfold KubernetesTemplateResolver_Resolve. intros Hr. run_step Hr.
  case_match eqn:Ed; [by run_step Hr|]. unfold FromUnstructured in Hr.
  destruct (u_malformed a) eqn:Em; [|by run_step Hr]. destruct (sts_Enabled _) eqn:Een; [|cbn [negb] in Hr; by run_step Hr].
  cbn [negb] in Hr. case_match; [by run_step Hr|]. run_step Hr.
  destruct a0 as [bundle|]; [|by run_step Hr]. destruct Hr as [-> Hr]. exists a, bundle. cbv zeta.
  unfold resolve_template_bundle, nested in Hr. case_match eqn:Eb; [done|].
  destruct (path_malformed bundle _); [done|]. destruct (PolicyRevision (Some (cb_Spec _))) as [rev|] eqn:Erev; [|done].
  case_match eqn:Epin; [done|]. apply negb_false_iff, seqb_eq in Epin as ->.
  unfold path_malformed in Hr. rewrite Em in Hr. cbn [existsb] in Hr.
  destruct (PolicyRevision (Some (st_Spec _))) as [trev|] eqn:Etrev; [|done].
  case_match eqn:Et; [done|]. injection Hr as <-. apply seqb_neq in Et. split_and!; done.
Qed.

End resolver_theorems.

Section reserve_theorems.
Context `{UnicodeTables} `{Sha256} `{Quantities} `{SdkJson} `{AssignmentStore} `{TemplateResolver}
        `{!QuietDependencies}.
#[local] Set Default Proof Using "All".

Lemma reserve_created config admission value q tr created :
  cfg_Admission config = Some admission -> run (reserve config value q) tr (Some (inr created)) ->
  exists held t1 t2 t3 u,
    tr = t1 ++ t2 ++ t3 /\
    run (AuthorizeCreate (cfg_polls config) admission (q_CapabilityBundleName q) (create_shape value)) t1
      (Some (Ok held)) /\
    run (Store_Create q) t2 (Ok created) /\ run (release held) t3 u.
Proof.
  intros Ha Hr. unfold reserve in Hr. rewrite Ha in Hr. cbv zeta in Hr.
  apply run_bind in Hr as ([[held|]|] & t1 & t2 & -> & Hadm & Hr); [|by run_step Hr|by run_step Hr].
  apply run_bind in Hr as (c & t3 & t4 & -> & Hc & Hr).
  apply run_bind in Hr as (u & t5 & t6 & -> & Hrel & Hr). destruct c as [c|]; run_step Hr.
  exists held, t1, t3, t5, u. by rewrite app_nil_r.
Qed.

(** C22. With tenant admission and idempotency keys required, a create reaches the upstream server
    only after admission, whose Lease is held while the operation is recorded and is released
    before the upstream call; the record's name is derived from the tenant and a well-formed
    key, and it was created by this request. *)
Theorem create_admitted config admission request tr reply e :
  cfg_Admission config = Some admission -> cfg_RequireIdempotency config = true ->
  run (create config request) tr reply -> e ∈ tr -> is_upstream e = true ->
  exists value resolved key hash created held t1 t2 t3 t4 t5 u,
    let q := create_request config resolved key hash in
    tr = t1 ++ t2 ++ t3 ++ t4 ++ t5 /\ e ∈ t5 /\
    validIdempotencyKey key = true /\ q_Name q = idempotentAssignmentName (rt_LogicalTenant resolved) key /\
    createRequestHash (governed value resolved) resolved = Ok hash /\
    run (AuthorizeCreate (cfg_polls config) admission (rt_CapabilityBundleName resolved)
           {| cr_Timeout := Some (rt_TimeoutSeconds resolved);
              cr_ResourceLimits := {[ "cpu" := rt_CPU resolved; "memory" := rt_Memory resolved ]} |}) t2
      (Some (Ok held)) /\
    run (Store_Create q) t3 (Ok created) /\ a_Existing created = false /\ run (release held) t4 u.
Proof.
  intros Had Hreq Hr Hin He. destruct (create_upstream _ _ _ _ _ Hr Hin He)
    as (text & value & name & resolved & key & hash & created & t1 & t2 & t3 & header & body & -> &
        _ & _ & _ & _ & Hk & Hh & Hres & Hx & Hin' & _).
  specialize (Hk Hreq). destruct (reserve_created _ _ _ _ _ _ Had Hres) as (held & s1 & s2 & s3 & u & -> & Hadm & Hc & Hrel).
  exists value, resolved, key, hash, created, held, t1, s1, s2, s3, t3, u. cbv zeta.
  split_and!; try done; [by rewrite <- !app_assoc|].
  cbn. destruct (key =?s "") eqn:E; [|done]. apply seqb_eq in E as ->. done.
Qed.

End reserve_theorems.
