(* ===== verification/Assignmentd.v ===== *)
(** * The service [cmd/assignmentd]

    [main.go]: flags and environment, the construction of the components from them, and the
    life of the process from its listeners to its shutdown.  The program
    is over the calls of the process: listeners, Kubernetes clients, the start of watches and
    servers, the wait for a signal or a failure, and the steps of the shutdown.  Constructors of
    this repository are the ones modelled in the component files; where one of them panics, the
    outcome is [Panics].

    [assignmentd_serves_configured] says what a server that is started rests on, and
    [assignmentd_shutdown_order] that authorization stops before its audit does.  The routes of
    the servers are in [ApiServer], the election of the controller in [LeaderElection]. *)

From S2P Require Import Prelude GoStrings GoEncoding GoURL GoTime GoFlag ApiTypes ApiJson Kube Governance AuthzServer Checker.
From S2P Require Import EgressAudit CallerAuth Admission Controller Broker Store Facade.
From stdpp Require Import options.

Module Assignmentd.

Definition defaultGRPCAddress : string := ":9001".
Definition defaultAPIAddress : string := ":8080".
Definition defaultHealthAddress : string := ":8081".
Definition defaultAssignmentNamespace : string := "aks-sandbox-system".
Definition defaultWorkloadNamespace : string := "opensandbox".
Definition defaultOpenSandboxURL : string := "http://opensandbox-server.opensandbox-system.svc.cluster.local".
Definition capabilityGatewayAudience : string := "aks-sandbox-capability-gateway".
Definition lifecycleCallerAudience : string := "aks-sandbox-lifecycle".
Definition defaultAuditRetention : Duration := 24 * Hour.
Definition defaultAuditQueueSize : Z := 1024.

Definition projected_sidecar : string := "projected-sidecar".
Definition external_mediator : string := "external-mediator".

(** ** Flags and environment *)

Definition assignmentd_flags : FlagSet := {["leader-elect" := BoolFlag true]}.

(** [parseOptions]; the only option is whether to elect a leader. *)
Definition parseOptions (args : list string) : result bool :=
  flags <-! parse_flags assignmentd_flags args ;;
  Ok (bool_flag flags "leader-elect").

Section environment.
Context (Getenv : string -> string).

Definition envOr (key fallback : string) : string := env_or Getenv key fallback.

Definition envDuration (key : string) (fallback : Duration) : result Duration :=
  if Getenv key =?s "" then Ok fallback
  else match ParseDuration (Getenv key) with
  | Err _ => Err (ErrMsg (key +:+ " must be a positive duration"))
  | Ok duration => if duration <=? 0 then Err (ErrMsg (key +:+ " must be a positive duration")) else Ok duration
  end.

Definition envPositiveInt (key : string) (fallback : Z) : result Z :=
  if Getenv key =?s "" then Ok fallback
  else match Atoi (Getenv key) with
  | Err _ => Err (ErrMsg (key +:+ " must be a positive integer"))
  | Ok number => if number <=? 0 then Err (ErrMsg (key +:+ " must be a positive integer")) else Ok number
  end.

Definition assignmentNamespace : string := envOr "ASSIGNMENTD_NAMESPACE" defaultAssignmentNamespace.
Definition workloadNamespace : string := envOr "ASSIGNMENTD_WORKLOAD_NAMESPACE" defaultWorkloadNamespace.
Definition egressIdentityMode : string := envOr "ASSIGNMENTD_EGRESS_IDENTITY_MODE" projected_sidecar.

(** The broker's keys; the broker is disabled without a signing key. *)
Definition broker_config (signingKey : string) : Broker.Config := {|
  bc_SigningKey := signingKey;
  bc_SigningKeyID := envOr "ASSIGNMENTD_BROKER_SIGNING_KEY_ID" "current";
  bc_PreviousSigningKeys :=
    if Getenv "ASSIGNMENTD_BROKER_PREVIOUS_SIGNING_KEY" =?s "" then ∅
    else {[envOr "ASSIGNMENTD_BROKER_PREVIOUS_SIGNING_KEY_ID" "previous" :=
             Getenv "ASSIGNMENTD_BROKER_PREVIOUS_SIGNING_KEY"]};
  bc_Issuer := ""; bc_Audience := "" |}.

Definition configured_broker : result (option Broker.Config) :=
  let signingKey := Getenv "ASSIGNMENTD_BROKER_SIGNING_KEY" in
  if signingKey =?s "" then Ok None
  else config <-! NewBroker true (broker_config signingKey) ;; Ok (Some config).

Definition lifecycle_config (upstream : URL) (polls : nat) : Facade.Config := {|
  Facade.cfg_Prefix := "/opensandbox"; cfg_UpstreamPath := u_Path upstream;
  cfg_APIKey := Getenv "ASSIGNMENTD_OPENSANDBOX_API_KEY"; cfg_Namespace := assignmentNamespace;
  cfg_TransitionTimeout := 0;
  cfg_Admission := Some {| ka_assignmentNamespace := assignmentNamespace; ka_workloadNamespace := workloadNamespace;
                           ka_kube := true |};
  cfg_CallerAuthorizer := true; cfg_RequireIdempotency := true; cfg_PendingOperationTTL := 0; cfg_polls := polls |}.

End environment.

(** The components behind the servers. *)
Record services := {
  sv_controller : Controller.Config;
  sv_audit : KubernetesAuditSink;
  sv_caller : Authenticator;
  sv_upstream : URL;
  sv_lifecycle : Facade.Config;
  sv_broker : option Broker.Config
}.

(** ** The process *)

Inductive Watch := StoreWatch | CheckerWatch.
Inductive HttpServer := ApiServer | HealthServer.
Inductive Task :=
  | ControllerTask (leaderElect : bool)
  | GrpcTask (address : string)
  | ApiTask (address : string)
  | HealthTask (address : string).

Inductive Process : Type -> Type :=
  | net_Listen (address : string) : Process (result unit)
  | BuildConfigFromFlags (kubeconfig : string) : Process (result unit)
  | InClusterConfig : Process (result unit)
  | dynamic_NewForConfig : Process (result unit)
  | kubernetes_NewForConfig : Process (result unit)
  | store_AddIndexers : Process (result unit)                 (** of the store's informer *)
  (** of the checker's informers and its policy environment: [NewKubernetesChecker] of [CheckerService] *)
  | NewKubernetesChecker (assignments workloads audience : string) : Process (result unit)
  | WaitForCacheSync (watch : Watch) : Process bool           (** after the informers of the watch were started *)
  | auditSink_Start : Process unit
  | spawn (services : services) (task : Task) : Process unit
  | select_stop : Process (option error)                      (** a signal, or a task's error *)
  | grpcHealth_SetServing (serving : bool) : Process unit
  | http_Shutdown (server : HttpServer) : Process (result unit)
  | grpc_GracefulStop : Process bool                          (** whether it ended in time *)
  | grpc_Stop : Process unit
  | auditSink_Shutdown : Process (result unit)
  | cancelRuntime : Process unit
  | stopSignals : Process unit.

Inductive Outcome :=
  | Exits (r : result unit)
  | Panics.

(** [x, err := c; if err != nil { return err }]. *)
Definition or_exit {A} (c : Prog Process (result A)) (k : A -> Prog Process Outcome) : Prog Process Outcome :=
  r <-- c ;; match r with Ok a => k a | Err e => Ret (Exits (Err e)) end.
Notation "x <-e c ;; k" := (or_exit c (fun x => k))
  (at level 20, c at level 99, k at level 200, only parsing) : go_scope.

(** A constructor that may panic. *)
Definition or_panic {A} (c : option A) (k : A -> Prog Process Outcome) : Prog Process Outcome :=
  match c with Some a => k a | None => Ret Panics end.

(** The deferred calls of [run] once the runtime context exists. *)
Definition deferred (out : Outcome) : Prog Process Outcome :=
  _ <-- call cancelRuntime ;; _ <-- call stopSignals ;; Ret out.

Section process.
Context (Getenv : string -> string) (polls : nat) (leaderElect : bool).

Definition loadKubernetesConfig : Prog Process (result unit) :=
  if Getenv "KUBECONFIG" <>?s "" then call (BuildConfigFromFlags (Getenv "KUBECONFIG")) else call InClusterConfig.

Definition shutdown (stop : option error) : Prog Process Outcome :=
  _ <-- call (grpcHealth_SetServing false) ;;
  _ <-- call (http_Shutdown ApiServer) ;;
  _ <-- call (http_Shutdown HealthServer) ;;
  stopped <-- call grpc_GracefulStop ;;
  _ <-- (if (stopped : bool) then Ret tt else call grpc_Stop) ;;
  _ <-- call auditSink_Shutdown ;;
  _ <-- call cancelRuntime ;;
  deferred (Exits (match stop with Some e => Err e | None => Ok tt end)).

(** [Store.Start] and [KubernetesChecker.Start], up to the probes of the latter. *)
Definition watch_Start (watch : Watch) (message : string) : Prog Process (result unit) :=
  synced <-- call (WaitForCacheSync watch) ;; Ret (if (synced : bool) then Ok tt else Err (ErrMsg message)).
Definition store_Start : Prog Process (result unit) := watch_Start StoreWatch "synchronize assignment cache".
Definition caches_Start : Prog Process (result unit) := watch_Start CheckerWatch "synchronize authorization caches".

Definition serve (s : services) : Prog Process Outcome :=
  started <-- store_Start ;;
  match started with
  | Err e => deferred (Exits (Err e))
  | Ok _ =>
      _ <-- call auditSink_Start ;;
      ready <-- caches_Start ;;
      match ready with
      | Err e => deferred (Exits (Err e))
      | Ok _ =>
          _ <-- call (spawn s (ControllerTask leaderElect)) ;;
          _ <-- call (spawn s (GrpcTask (envOr Getenv "ASSIGNMENTD_GRPC_ADDRESS" defaultGRPCAddress))) ;;
          _ <-- call (spawn s (ApiTask (envOr Getenv "ASSIGNMENTD_API_ADDRESS" defaultAPIAddress))) ;;
          _ <-- call (spawn s (HealthTask (envOr Getenv "ASSIGNMENTD_HEALTH_ADDRESS" defaultHealthAddress))) ;;
          stop <-- call select_stop ;;
          shutdown stop
      end
  end.

(** [NewStore]: it panics if the informer refuses its index. *)
Definition NewStore : Prog Process (option unit) :=
  r <-- call store_AddIndexers ;; Ret (match r with Ok _ => Some tt | Err _ => None end).

(** The components after the store. *)
Definition build_components (upstream : URL) : Prog Process Outcome :=
  let ns := assignmentNamespace Getenv in
  let workloads := workloadNamespace Getenv in
  or_panic (Controller.New true ns workloads [] (egressIdentityMode Getenv) Second) (fun controller =>
  _ <-e call (NewKubernetesChecker ns workloads capabilityGatewayAudience) ;;
  retention <-e Ret (envDuration Getenv "ASSIGNMENTD_EGRESS_EVENT_RETENTION" defaultAuditRetention) ;;
  queueSize <-e Ret (envPositiveInt Getenv "ASSIGNMENTD_AUDIT_QUEUE_SIZE" defaultAuditQueueSize) ;;
  audit <-e Ret (NewKubernetesAuditSink true ns queueSize retention) ;;
  caller <-e Ret (NewAuthenticator true true ns lifecycleCallerAudience) ;;
  or_panic (NewHandler true true true (lifecycle_config Getenv upstream polls)) (fun lifecycle =>
  broker <-e Ret (configured_broker Getenv) ;;
  serve {| sv_controller := controller; sv_audit := audit; sv_caller := caller; sv_upstream := upstream;
           sv_lifecycle := lifecycle; sv_broker := broker |})).

(** The components, after the listener and the clients. *)
Definition build (upstream : URL) : Prog Process Outcome :=
  store <-- NewStore ;;
  or_panic store (fun _ => build_components upstream).

(** [run]. *)
Definition assignmentd_run : Prog Process Outcome :=
  let mode := egressIdentityMode Getenv in
  if (mode <>?s projected_sidecar) && (mode <>?s external_mediator)
  then Ret (Exits (Err (ErrMsg "invalid ASSIGNMENTD_EGRESS_IDENTITY_MODE")))
  else match url_Parse (envOr Getenv "ASSIGNMENTD_OPENSANDBOX_URL" defaultOpenSandboxURL) with
  | Err _ => Ret (Exits (Err (ErrMsg "invalid ASSIGNMENTD_OPENSANDBOX_URL")))
  | Ok upstream =>
      if (u_Scheme upstream =?s "") || (u_Host upstream =?s "")
      then Ret (Exits (Err (ErrMsg "invalid ASSIGNMENTD_OPENSANDBOX_URL")))
      else
        _ <-e call (net_Listen (envOr Getenv "ASSIGNMENTD_GRPC_ADDRESS" defaultGRPCAddress)) ;;
        _ <-e loadKubernetesConfig ;;
        _ <-e call dynamic_NewForConfig ;;
        _ <-e call kubernetes_NewForConfig ;;
        build upstream
  end.

End process.

(** [main]: the exit code, 2 for bad flags and 1 for a failed run; [None] is a panic. *)
Definition assignmentd_main (Getenv : string -> string) (polls : nat) (args : list string) : Prog Process (option Z) :=
  match parseOptions args with
  | Err _ => Ret (Some 2)
  | Ok leaderElect =>
      out <-- assignmentd_run Getenv polls leaderElect ;;
      Ret (match out with Exits (Ok _) => Some 0 | Exits (Err _) => Some 1 | Panics => None end)
  end.

(** ** Lemmas *)

Lemma run_or_exit {A} (c : Prog Process (result A)) k tr out :
  run (or_exit c k) tr out ->
  (exists a t1 t2, tr = t1 ++ t2 /\ run c t1 (Ok a) /\ run (k a) t2 out) \/
  (exists e, run c tr (Err e) /\ out = Exits (Err e)).
Proof.
  intros (r & t1 & t2 & -> & Hc & Hk)%run_bind. destruct r as [a|e]; [left; by exists a, t1, t2|].
  destruct Hk as [-> <-]. rewrite app_nil_r. right. by exists e.
Qed.

Lemma guarded_or_exit {A} kind P (c : Prog Process (result A)) k :
  guarded kind P c ->
  (forall a t1, run c t1 (Ok a) -> guarded kind (fun t2 e => P (t1 ++ t2) e) (k a)) ->
  guarded kind P (or_exit c k).
Proof. intros Hc Hk. apply guarded_bind; [done|]. intros [a|e] t1 Hr; [by apply Hk|apply guarded_ret]. Qed.

Lemma env_or_nonempty Getenv key fallback : fallback <> "" -> env_or Getenv key fallback <> "".
Proof. unfold env_or. destruct (Getenv key =?s "") eqn:E; [done|]. apply seqb_neq in E. done. Qed.

Section assignmentd_proofs.
Context (Getenv : string -> string) (polls : nat) (leaderElect : bool).

(** What the components of a served process have been checked for. *)
Record configured (s : services) : Prop := {
  sc_mode : egressIdentityMode Getenv = projected_sidecar \/ egressIdentityMode Getenv = external_mediator;
  sc_controller : Controller.New true (assignmentNamespace Getenv) (workloadNamespace Getenv) []
                    (egressIdentityMode Getenv) Second = Some (sv_controller s);
  sc_upstream : url_Parse (envOr Getenv "ASSIGNMENTD_OPENSANDBOX_URL" defaultOpenSandboxURL) = Ok (sv_upstream s);
  sc_absolute : u_Scheme (sv_upstream s) <> "" /\ u_Host (sv_upstream s) <> "";
  sc_retention : 0 < kas_retention (sv_audit s) /\ in_int64 (kas_retention (sv_audit s));
  sc_cleanup : Minute <= kas_cleanupInterval (sv_audit s) <= 15 * Minute;
  sc_caller : au_audience (sv_caller s) = lifecycleCallerAudience /\
              au_namespace (sv_caller s) = assignmentNamespace Getenv;
  sc_lifecycle : Facade.cfg_Prefix (sv_lifecycle s) = "/opensandbox" /\
                 cfg_Namespace (sv_lifecycle s) = assignmentNamespace Getenv /\
                 is_Some (cfg_Admission (sv_lifecycle s)) /\
                 cfg_CallerAuthorizer (sv_lifecycle s) = true /\ cfg_RequireIdempotency (sv_lifecycle s) = true;
  sc_broker : match sv_broker s with
              | None => Getenv "ASSIGNMENTD_BROKER_SIGNING_KEY" = ""
              | Some c =>
                  bc_SigningKey c = Getenv "ASSIGNMENTD_BROKER_SIGNING_KEY" /\ 32 <= slen (bc_SigningKey c) /\
                  forall kid key, bc_PreviousSigningKeys c !! kid = Some key ->
                    TrimSpace kid <> "" /\ 32 <= slen key /\ kid <> bc_SigningKeyID c
              end
}.

Lemma envDuration_positive key fallback d :
  0 < fallback <= max_int64 -> envDuration Getenv key fallback = Ok d -> 0 < d /\ in_int64 d.
Proof.
  unfold envDuration. intros Hf. destruct (Getenv key =?s "").
  { intros [= <-]. unfold in_int64, min_int64, max_int64 in *. lia. }
  destruct (ParseDuration (Getenv key)) as [d'|] eqn:Ed; [|done]. apply ParseDuration_range in Ed.
  destruct (d' <=? 0) eqn:Ep; [done|]. intros [= <-]. bool_to_prop. split; [lia|done].
Qed.

Lemma envPositiveInt_positive key fallback n :
  0 < fallback -> envPositiveInt Getenv key fallback = Ok n -> 0 < n.
Proof.
  unfold envPositiveInt. intros Hf. destruct (Getenv key =?s ""); [by intros [= <-]|].
  destruct (Atoi (Getenv key)) as [n'|]; [|done]. destruct (n' <=? 0) eqn:Ep; [done|].
  intros [= <-]. bool_to_prop. lia.
Qed.

Lemma NewKubernetesAuditSink_ok ns queue retention sink :
  NewKubernetesAuditSink true ns queue retention = Ok sink ->
  kas_retention sink = retention /\ Minute <= kas_cleanupInterval sink <= 15 * Minute.
Proof.
  unfold NewKubernetesAuditSink. cbn [negb]. destruct (ns =?s ""); [done|]. destruct (queue <=? 0); [done|].
  destruct (retention <=? 0); [done|]. cbv zeta. intros [= <-]. cbn. split; [done|].
  destruct (Z.ltb_spec (Z.quot retention 4) Minute) as [Hq|Hq]; [by vm_compute|].
  destruct (Z.ltb_spec (15 * Minute) (Z.quot retention 4)) as [Hl|Hl]; [unfold Minute, Second; lia|lia].
Qed.

Lemma NewBroker_ok config c :
  NewBroker true config = Ok c ->
  bc_SigningKey c = bc_SigningKey config /\ 32 <= slen (bc_SigningKey c) /\
  forall kid key, bc_PreviousSigningKeys c !! kid = Some key ->
    TrimSpace kid <> "" /\ 32 <= slen key /\ kid <> bc_SigningKeyID c.
Proof.
  unfold NewBroker. cbn [negb]. destruct (_ <? 32) eqn:Ek; [done|]. cbv zeta.
  destruct (existsb _ _) eqn:Ep; [done|]. intros [= <-]. cbn. bool_to_prop. split_and!; [done|lia|].
  intros kid key Hk. apply elem_of_map_to_list in Hk.
  assert ((TrimSpace kid =?s "") || (slen key <? 32)
    || (kid =?s (if bc_SigningKeyID config =?s "" then "current" else bc_SigningKeyID config)) = false) as Hkey.
  { destruct (_ || _) eqn:E; [|done]. rewrite <- Ep. symmetry. apply existsb_exists. exists (kid, key).
    by rewrite <- list_elem_of_In. }
  bool_to_prop. split_and!; [done|lia|done].
Qed.

Definition is_spawn (e : Event Process) : bool := match e with Ev (spawn _ _) _ => true | _ => false end.

(** The watches have synchronized, and the audit sink was started between them. *)
Definition started (before : list (Event Process)) : Prop :=
  exists t0 t1 t2, before = t0 ++ Ev (WaitForCacheSync StoreWatch) true :: t1 ++ Ev auditSink_Start tt ::
    Ev (WaitForCacheSync CheckerWatch) true :: t2.

Lemma started_app before t : started before -> started (before ++ t).
Proof.
  intros (t0 & t1 & t2 & ->). exists t0, t1, (t2 ++ t). by rewrite <- !app_assoc; cbn; rewrite <- app_assoc.
Qed.

(** A task is started for configured services, once they run. *)
Definition spawn_justified (before : list (Event Process)) (e : Event Process) : Prop :=
  started before /\ exists s task, e = Ev (spawn s task) tt /\ configured s.

Lemma guarded_other {A} (op : Process A) P : (forall r, is_spawn (Ev op r) = false) -> guarded is_spawn P (call op).
Proof. intros Hop. by apply guarded_quiet, quiet_call. Qed.

Lemma quiet_deferred out : quiet is_spawn (deferred out).
Proof. unfold deferred. solve_quiet. Qed.

Lemma quiet_shutdown stop : quiet is_spawn (shutdown stop).
Proof. unfold shutdown, deferred. solve_quiet. Qed.

Lemma watch_Start_ok watch message tr :
  run (watch_Start watch message) tr (Ok tt) -> tr = [Ev (WaitForCacheSync watch) true].
Proof. intros (synced & ? & ? & -> & ->%run_call & [-> E])%run_bind. by destruct synced. Qed.

Lemma quiet_watch_Start kind watch message :
  (forall b, kind (Ev (WaitForCacheSync watch) b) = false) -> quiet kind (watch_Start watch message).
Proof. intros Hk. apply quiet_bind; [by apply quiet_call|]. intros. apply quiet_ret. Qed.

Definition spawns (s : services) (before : list (Event Process)) (e : Event Process) : Prop :=
  exists task, e = Ev (spawn s task) tt.

Lemma spawn_guarded s task : guarded is_spawn (spawns s) (call (spawn s task)).
Proof. apply guarded_call. intros []. by exists task. Qed.

Lemma serve_guarded s before :
  configured s -> guarded is_spawn (fun t e => spawn_justified (before ++ t) e) (serve Getenv leaderElect s).
Proof.
  intros Hs. unfold serve.
  apply guarded_bind; [by apply guarded_quiet, quiet_watch_Start|].
  intros [[]|e] ts Hts; [apply watch_Start_ok in Hts as ->|apply guarded_quiet, quiet_deferred].
  apply guarded_bind; [by apply guarded_other|]. intros [] ta ->%run_call.
  apply guarded_bind; [by apply guarded_quiet, quiet_watch_Start|].
  intros [[]|e] tc Htc; [apply watch_Start_ok in Htc as ->|apply guarded_quiet, quiet_deferred].
  eapply (guarded_weaken _ (spawns s)).
  - do 4 (apply guarded_bind; [apply spawn_guarded|intros [] ? _]).
    apply guarded_bind; [by apply guarded_other|]. intros stop ? _. apply guarded_quiet, quiet_shutdown.
  - intros t e [task ->]. split; [|by exists s, task]. by exists before, [], t.
Qed.

Lemma configured_services upstream controller audit caller lifecycle broker retention queue :
  egressIdentityMode Getenv = projected_sidecar \/ egressIdentityMode Getenv = external_mediator ->
  url_Parse (envOr Getenv "ASSIGNMENTD_OPENSANDBOX_URL" defaultOpenSandboxURL) = Ok upstream ->
  u_Scheme upstream <> "" /\ u_Host upstream <> "" ->
  Controller.New true (assignmentNamespace Getenv) (workloadNamespace Getenv) [] (egressIdentityMode Getenv) Second
    = Some controller ->
  envDuration Getenv "ASSIGNMENTD_EGRESS_EVENT_RETENTION" defaultAuditRetention = Ok retention ->
  NewKubernetesAuditSink true (assignmentNamespace Getenv) queue retention = Ok audit ->
  NewAuthenticator true true (assignmentNamespace Getenv) lifecycleCallerAudience = Ok caller ->
  NewHandler true true true (lifecycle_config Getenv upstream polls) = Some lifecycle ->
  configured_broker Getenv = Ok broker ->
  configured {| sv_controller := controller; sv_audit := audit; sv_caller := caller; sv_upstream := upstream;
                sv_lifecycle := lifecycle; sv_broker := broker |}.
Proof.
  intros Hmode Hup Habs Hctl Hret Haudit Hcaller Hlife Hbroker.
  apply NewKubernetesAuditSink_ok in Haudit as [Hr Hc].
  apply envDuration_positive in Hret; [|unfold defaultAuditRetention, Hour, Minute, Second, max_int64; lia].
  constructor; cbn; try done.
  - by rewrite Hr.
  - unfold NewAuthenticator in Hcaller. destruct (_ || _); by simplify_eq.
  - unfold NewHandler in Hlife. cbn in Hlife. destruct (assignmentNamespace Getenv =?s ""); [done|].
    simplify_eq. cbn. by split_and!; try eexists.
  - unfold configured_broker in Hbroker. destruct (_ =?s "") eqn:Ek; [simplify_eq; by apply seqb_eq|].
    destruct (NewBroker _ _) as [c|] eqn:En; [|done]. cbn in Hbroker. simplify_eq. by apply NewBroker_ok in En.
Qed.

Lemma build_guarded upstream before :
  egressIdentityMode Getenv = projected_sidecar \/ egressIdentityMode Getenv = external_mediator ->
  url_Parse (envOr Getenv "ASSIGNMENTD_OPENSANDBOX_URL" defaultOpenSandboxURL) = Ok upstream ->
  u_Scheme upstream <> "" /\ u_Host upstream <> "" ->
  guarded is_spawn (fun t e => spawn_justified (before ++ t) e) (build Getenv polls leaderElect upstream).
Proof.
  intros Hmode Hup Habs. unfold build.
  apply guarded_bind; [apply guarded_quiet; unfold NewStore; solve_quiet|]. intros store t0 _.
  destruct store; [|apply guarded_ret]. unfold or_panic at 1, build_components. cbv zeta.
  destruct (Controller.New _ _ _ _ _ _) as [controller|] eqn:Hctl; [|apply guarded_ret]. unfold or_panic at 1.
  apply guarded_or_exit; [by apply guarded_other|]. intros [] t1 _.
  apply guarded_or_exit; [apply guarded_ret|]. intros retention t2 [_ Hret].
  apply guarded_or_exit; [apply guarded_ret|]. intros queue t3 [_ Hqueue].
  apply guarded_or_exit; [apply guarded_ret|]. intros audit t4 [_ Haudit].
  apply guarded_or_exit; [apply guarded_ret|]. intros caller t5 [_ Hcaller].
  destruct (NewHandler _ _ _ _) as [lifecycle|] eqn:Hlife; [|apply guarded_ret]. unfold or_panic.
  apply guarded_or_exit; [apply guarded_ret|]. intros broker t6 [_ Hbroker].
  eapply guarded_weaken; [apply (serve_guarded _ (before ++ t0 ++ t1 ++ t2 ++ t3 ++ t4 ++ t5 ++ t6));
    by eapply configured_services|].
  intros t e. cbv beta. by rewrite <- ?app_assoc.
Qed.

Lemma assignmentd_guarded : guarded is_spawn spawn_justified (assignmentd_run Getenv polls leaderElect).
Proof.
  unfold assignmentd_run. destruct (_ && _) eqn:Emode; [apply guarded_ret|].
  destruct (url_Parse _) as [upstream|] eqn:Eup; [|apply guarded_ret].
  destruct ((u_Scheme upstream =?s "") || _) eqn:Eabs; [apply guarded_ret|].
  apply guarded_or_exit; [by apply guarded_other|]. intros [] t1 _.
  apply guarded_or_exit; [apply guarded_quiet; unfold loadKubernetesConfig; solve_quiet|]. intros [] t2 _.
  apply guarded_or_exit; [by apply guarded_other|]. intros [] t3 _.
  apply guarded_or_exit; [by apply guarded_other|]. intros [] t4 _.
  eapply guarded_weaken; [apply (build_guarded upstream (t1 ++ t2 ++ t3 ++ t4))|].
  - apply andb_false_iff in Emode as [E|E]; apply negb_false_iff, seqb_eq in E; auto.
  - done.
  - by bool_to_prop.
  - intros t e. cbv beta. by rewrite <- ?app_assoc.
Qed.

(** ** The end of a run *)

Definition is_select (e : Event Process) : bool := match e with Ev select_stop _ => true | _ => false end.

(** The shutdown after [stop], as it appears in a trace. *)
Definition shutdown_events (stop : option error) (api health : result unit) (graceful : bool) (audit : result unit)
  : list (Event Process) :=
  [Ev select_stop stop; Ev (grpcHealth_SetServing false) tt; Ev (http_Shutdown ApiServer) api;
   Ev (http_Shutdown HealthServer) health; Ev grpc_GracefulStop graceful]
  ++ (if graceful then [] else [Ev grpc_Stop tt])
  ++ [Ev auditSink_Shutdown audit; Ev cancelRuntime tt; Ev cancelRuntime tt; Ev stopSignals tt].

Definition orderly (tr : list (Event Process)) (out : Outcome) (stop : option error) : Prop :=
  out = Exits (match stop with Some e => Err e | None => Ok tt end) /\
  exists before api health graceful audit, tr = before ++ shutdown_events stop api health graceful audit.

(** A run of the program that waits for its end then shuts down in order. *)
Definition stops_orderly (p : Prog Process Outcome) : Prop :=
  forall tr out stop, run p tr out -> Ev select_stop stop ∈ tr -> orderly tr out stop.

Lemma stops_quiet p : quiet is_select p -> stops_orderly p.
Proof. intros Hq tr out stop Hr Hin. exfalso. by eapply quiet_elem. Qed.

Lemma stops_bind {A} (c : Prog Process A) k :
  quiet is_select c -> (forall a, stops_orderly (k a)) -> stops_orderly (prog_bind c k).
Proof.
  intros Hc Hk tr out stop (a & t1 & t2 & -> & H1 & H2)%run_bind [Hin|Hin]%elem_of_app.
  - exfalso. by eapply quiet_elem.
  - destruct (Hk a _ _ _ H2 Hin) as [Ho (before & api & health & graceful & audit & ->)].
    split; [done|]. exists (t1 ++ before), api, health, graceful, audit. by rewrite app_assoc.
Qed.

Lemma stops_exit {A} (c : Prog Process (result A)) k :
  quiet is_select c -> (forall a, stops_orderly (k a)) -> stops_orderly (or_exit c k).
Proof.
  intros Hc Hk. apply stops_bind; [done|]. intros [a|e]; [apply Hk|]. apply stops_quiet, quiet_ret.
Qed.

Lemma stops_select : stops_orderly (stop <-- call select_stop ;; shutdown stop).
Proof.
  intros tr out stop (stop' & t1 & t2 & -> & ->%run_call & Hr)%run_bind Hin.
  assert (stop' = stop) as ->.
  { apply elem_of_cons in Hin as [E|Hin].
    - apply (f_equal (fun e : Event Process =>
        match e with Ev op r => match op in Process R return R -> _ with select_stop => Some | _ => fun _ => None end r end)) in E.
      by simplify_eq.
    - exfalso. eapply (quiet_elem is_select (shutdown stop')); [|exact Hr|exact Hin|done].
      unfold shutdown, deferred. solve_quiet. }
  unfold shutdown, deferred in Hr. clear Hin.
  apply run_bind in Hr as ([] & ? & t3 & -> & ->%run_call & Hr).
  apply run_bind in Hr as (api & ? & t4 & -> & ->%run_call & Hr).
  apply run_bind in Hr as (health & ? & t5 & -> & ->%run_call & Hr).
  apply run_bind in Hr as (graceful & ? & t6 & -> & ->%run_call & Hr).
  apply run_bind in Hr as ([] & t & t7 & -> & Hstop & Hr).
  assert (t = if graceful then [] else [Ev grpc_Stop tt]) as ->
    by (destruct graceful; [by destruct Hstop as [-> _]|by apply run_call in Hstop]).
  apply run_bind in Hr as (audit & ? & t8 & -> & ->%run_call & Hr).
  apply run_bind in Hr as ([] & ? & t9 & -> & ->%run_call & Hr).
  apply run_bind in Hr as ([] & ? & t10 & -> & ->%run_call & Hr).
  apply run_bind in Hr as ([] & ? & t11 & -> & ->%run_call & [-> <-]).
  split; [done|]. exists [], api, health, graceful, audit. done.
Qed.

Lemma serve_stops s : stops_orderly (serve Getenv leaderElect s).
Proof.
  unfold serve. apply stops_bind; [by apply quiet_watch_Start|]. intros [[]|e].
  2: { apply stops_quiet. unfold deferred. solve_quiet. }
  apply stops_bind; [solve_quiet|]. intros []. apply stops_bind; [by apply quiet_watch_Start|]. intros [[]|e].
  2: { apply stops_quiet. unfold deferred. solve_quiet. }
  do 4 (apply stops_bind; [solve_quiet|intros []]). apply stops_select.
Qed.

Lemma build_stops upstream : stops_orderly (build Getenv polls leaderElect upstream).
Proof.
  unfold build. apply stops_bind; [unfold NewStore; solve_quiet|]. intros [[]|]; cbn [or_panic].
  2: { apply stops_quiet, quiet_ret. }
  unfold build_components. cbv zeta.
  destruct (Controller.New _ _ _ _ _ _); cbn [or_panic]; [|apply stops_quiet, quiet_ret].
  do 5 (apply stops_exit; [solve_quiet|intros ?]).
  destruct (NewHandler _ _ _ _); cbn [or_panic]; [|apply stops_quiet, quiet_ret].
  apply stops_exit; [solve_quiet|]. intros broker. apply serve_stops.
Qed.

Lemma assignmentd_stops : stops_orderly (assignmentd_run Getenv polls leaderElect).
Proof.
  unfold assignmentd_run. destruct (_ && _); [apply stops_quiet, quiet_ret|].
  destruct (url_Parse _) as [upstream|]; [|apply stops_quiet, quiet_ret].
  destruct (_ || _); [apply stops_quiet, quiet_ret|].
  apply stops_exit; [solve_quiet|intros []]. apply stops_exit; [unfold loadKubernetesConfig; solve_quiet|intros []].
  do 2 (apply stops_exit; [solve_quiet|intros []]). apply build_stops.
Qed.

(** ** Panics *)

Definition never_panics (p : Prog Process Outcome) : Prop :=
  forall tr, run p tr Panics -> exists e, Ev store_AddIndexers (Err e) ∈ tr.

Lemma calm_ret r : never_panics (Ret (Exits r)).
Proof. by intros tr [_ ?]. Qed.

Lemma calm_bind {A} (c : Prog Process A) k : (forall a, never_panics (k a)) -> never_panics (prog_bind c k).
Proof.
  intros Hk tr (a & t1 & t2 & -> & _ & H2)%run_bind. destruct (Hk a _ H2) as [e He]. exists e. set_solver.
Qed.

Lemma calm_exit {A} (c : Prog Process (result A)) k : (forall a, never_panics (k a)) -> never_panics (or_exit c k).
Proof. intros Hk. apply calm_bind. intros [a|e]; [apply Hk|apply calm_ret]. Qed.

Lemma serve_calm s : never_panics (serve Getenv leaderElect s).
Proof.
  unfold serve, shutdown, deferred. apply calm_bind. intros [[]|e]; repeat (apply calm_bind; intros ?); try apply calm_ret.
  match goal with |- never_panics (match ?r with _ => _ end) => destruct r end;
    repeat (apply calm_bind; intros ?); apply calm_ret.
Qed.

Lemma Controller_New_total :
  egressIdentityMode Getenv = projected_sidecar \/ egressIdentityMode Getenv = external_mediator ->
  Controller.New true (assignmentNamespace Getenv) (workloadNamespace Getenv) [] (egressIdentityMode Getenv) Second <> None.
Proof.
  intros Hmode. unfold Controller.New. cbn [negb].
  assert (assignmentNamespace Getenv <> "" /\ workloadNamespace Getenv <> "") as [Ha Hw]
    by (split; by apply env_or_nonempty).
  apply seqb_neq in Ha, Hw. rewrite Ha, Hw. destruct Hmode as [-> | ->]; done.
Qed.

Lemma NewHandler_total upstream : NewHandler true true true (lifecycle_config Getenv upstream polls) <> None.
Proof.
  unfold NewHandler. cbn. assert (assignmentNamespace Getenv <> "") as Ha by by apply env_or_nonempty.
  apply seqb_neq in Ha. by rewrite Ha.
Qed.

Lemma components_calm upstream :
  egressIdentityMode Getenv = projected_sidecar \/ egressIdentityMode Getenv = external_mediator ->
  never_panics (build_components Getenv polls leaderElect upstream).
Proof.
  intros Hmode. unfold build_components. cbv zeta.
  pose proof (Controller_New_total Hmode) as Hc. pose proof (NewHandler_total upstream) as Hh.
  destruct (Controller.New _ _ _ _ _ _) as [controller|]; [|done].
  cbn [or_panic]. do 5 (apply calm_exit; intros ?). destruct (NewHandler _ _ _ _); [|done].
  cbn [or_panic]. apply calm_exit. intros broker. apply serve_calm.
Qed.

(** The process panics at most where the store's informer refuses its index. *)
Lemma assignmentd_calm : never_panics (assignmentd_run Getenv polls leaderElect).
Proof.
  unfold assignmentd_run. destruct (_ && _) eqn:Emode; [apply calm_ret|].
  destruct (url_Parse _) as [upstream|]; [|apply calm_ret]. destruct (_ || _); [apply calm_ret|].
  do 4 (apply calm_exit; intros []). unfold build.
  intros tr (store & t1 & t2 & -> & Hs & Hr)%run_bind. destruct store as [[]|]; cbn [or_panic] in Hr.
  - destruct (components_calm upstream) with t2 as [e He]; [|done|exists e; set_solver].
    apply andb_false_iff in Emode as [E|E]; apply negb_false_iff, seqb_eq in E; auto.
  - unfold NewStore in Hs. apply run_bind in Hs as ([[]|e] & ? & ? & -> & ->%run_call & [-> ?]); [done|].
    exists e. set_solver.
Qed.

(** ** Theorems *)

(** C39. A server or the controller of the process is started only for a valid configuration: a known
    identity mode, an absolute upstream URL, a positive 64-bit audit retention with a cleanup
    between one and fifteen minutes, authenticated callers of the lifecycle audience, admission
    and idempotency in force, and a broker exactly if a signing key is set, which then has at
    least 32 bytes like every previous key, none of them under the current identifier.  By then
    the assignment watch has synchronized, the audit sink has started, and the authorization
    caches have synchronized, in this order. *)
Theorem assignmentd_serves_configured tr out s task r :
  run (assignmentd_run Getenv polls leaderElect) tr out -> Ev (spawn s task) r ∈ tr ->
  configured s /\ exists before after, tr = before ++ Ev (spawn s task) r :: after /\ started before.
Proof.
  intros Hr Hin.
  destruct (guarded_elem _ _ _ _ _ _ assignmentd_guarded Hr Hin eq_refl)
    as (t1 & t2 & -> & Hstarted & s' & task' & E & Hs).
  assert (s' = s) as ->; [|split; [done|by exists t1, t2]].
  apply (f_equal (fun e : Event Process => match e with Ev (spawn x _) _ => Some x | _ => None end)) in E.
  by simplify_eq.
Qed.

(** The shutdown follows the dependencies of the components: once a signal or a failure ends the
    wait, the process first reports that it does not serve, then drains the API and the health
    server, then ends the gRPC server, gracefully or by force, and only then makes the audit
    sink refuse records, so that no authorization served before the end is denied for the lack
    of its record; the watches and the controller are cancelled last.  The outcome is the
    failure, or success for a signal. *)
Theorem assignmentd_shutdown_order tr out stop :
  run (assignmentd_run Getenv polls leaderElect) tr out -> Ev select_stop stop ∈ tr ->
  out = Exits (match stop with Some e => Err e | None => Ok tt end) /\
  exists before api health graceful audit, tr = before ++ shutdown_events stop api health graceful audit.
Proof. apply assignmentd_stops. Qed.

End assignmentd_proofs.
End Assignmentd.
