(* ===== verification/ApiServer.v ===== *)
(** * The HTTP servers of [cmd/assignmentd]

    The mux of the API server dispatches [/opensandbox] and what is below it to the lifecycle
    facade behind caller authentication, and [/broker/] to the credential broker when it is
    configured; the health server answers [/healthz] and [/metrics].  As in [http.ServeMux], the
    escaped path is matched segment by segment after unescaping; a path that is not clean, and the
    root of a subtree without its slash, are redirected instead of dispatched.

    [api_effects_admitted] composes the routes with the facade and the broker: whatever a request
    changes or sends upstream was admitted by a component that authenticated it. *)

From stdpp Require Import pretty.
From S2P Require Import Prelude GoStrings GoEncoding GoURL ApiTypes ApiJson Kube Governance AuthzServer Checker.
From S2P Require Import EgressAudit CheckerService CallerAuth Admission Controller Broker Store Facade Assignmentd.
From stdpp Require Import options.
Import Assignmentd.

(** ** Clean paths *)

(** One segment of [path.Clean] on a rooted path; the kept segments are last first. *)
Definition clean_step (kept : list string) (segment : string) : list string :=
  if (segment =?s "") || (segment =?s ".") then kept
  else if segment =?s ".." then tail kept
  else segment :: kept.

Definition clean_segments (p : string) : list string := rev (fold_left clean_step (split_byte "/" p) []).

(** [path.Clean] of a rooted path. *)
Definition path_Clean (p : string) : string := "/" +:+ strings_Join (clean_segments p) "/".

(** The unexported [cleanPath] of [net/http]. *)
Definition cleanPath (p : string) : string :=
  let p := if HasPrefix p "/" then p else "/" +:+ p in
  let np := path_Clean p in
  if HasSuffix p "/" && (np <>?s "/") then np +:+ "/" else np.

(** ** Routes *)

Inductive Route := LifecycleRoute | BrokerRoute | RedirectRoute | NotFoundRoute.

#[export] Instance Route_eq_dec : EqDecision Route.
Proof. solve_decision. Defined.

(** [firstSegment]: the first segment of a rooted path, unescaped if possible, and the rest. *)
Definition firstSegment (path : string) : string * string :=
  let '(segment, rest) := split_authority (TrimPrefix path "/") in
  (default segment (url_unescape encodePathSegment segment), rest).

(** The handler that a path matches; the subtree [/broker/] is reached from [/broker] by a redirect. *)
Definition matched_route (broker : bool) (path : string) : Route :=
  let '(segment, rest) := firstSegment path in
  if segment =?s "opensandbox" then LifecycleRoute
  else if broker && (segment =?s "broker") then (if rest =?s "" then RedirectRoute else BrokerRoute)
  else NotFoundRoute.

Definition api_route (broker : bool) (method escapedPath : string) : Route :=
  if method =?s "CONNECT" then matched_route broker escapedPath
  else
    let path := cleanPath escapedPath in
    match matched_route broker path with
    | RedirectRoute => RedirectRoute
    | route => if path <>?s escapedPath then RedirectRoute else route
    end.

(** ** The API server *)

Inductive ApiReply :=
  | LifecycleReply (r : Z + Facade.Reply)
  | BrokerReply (r : Broker.Reply)
  | MuxRedirect
  | MuxNotFound
  | MalformedRequest.

Section api.
Context `{UnicodeTables} `{Sha256} `{Quantities} `{SdkJson} `{AssignmentStore} `{TemplateResolver}.
Context `{JwtLib} `{GrantValidator} `{RevocationStore} {S : Type} `{Checker Kube S}.
Context (audit : option GrantAudit).

(** One request: the request target is parsed as the server parses a request line.  A body that
    cannot be read is an empty body to the broker, which refuses both. *)
Definition api_serve (sv : services) (method target : string) (header : Header) (body : result string) (s : S)
  : KProg (ApiReply * S) :=
  match ParseRequestURI target with
  | Err _ => Ret (MalformedRequest, s)
  | Ok u =>
      match api_route (bool_decide (is_Some (sv_broker sv))) method (EscapedPath u), sv_broker sv with
      | LifecycleRoute, _ =>
          reply <-- lifecycle_handler (sv_caller sv) (sv_lifecycle sv) {|
            r_Method := method; r_Path := u_Path u; r_Header := header; r_Body := body; r_Scopes := None |} ;;
          Ret (LifecycleReply reply, s)
      | BrokerRoute, Some config =>
          r <-- Broker_ServeHTTP config audit method (u_Path u) (header_Get header "Authorization")
                  (match body with Ok b => b | Err _ => "" end) s ;;
          Ret (BrokerReply (fst r), snd r)
      | RedirectRoute, _ => Ret (MuxRedirect, s)
      | _, _ => Ret (MuxNotFound, s)
      end
  end.

End api.

(** ** The health server *)

Inductive HealthReply := HealthText (body : string) | HealthRedirect | HealthNotFound | HealthMalformed.

Section health.
Context `{CelLib} {A : Type} `{AuditSink A}.

Definition health_serve (method target : string) (checker : CheckerState * option A) : KProg HealthReply :=
  match ParseRequestURI target with
  | Err _ => Ret HealthMalformed
  | Ok u =>
      let path := if method =?s "CONNECT" then EscapedPath u else cleanPath (EscapedPath u) in
      if path <>?s EscapedPath u then Ret HealthRedirect
      else
        let '(segment, rest) := firstSegment path in
        if rest <>?s "" then Ret HealthNotFound
        else if segment =?s "healthz" then Ret (HealthText ("ok" +:+ nl))
        else if segment =?s "metrics" then text <-- MetricsHandler checker ;; Ret (HealthText text)
        else Ret HealthNotFound
  end.

(** The health server only ever reads the clock. *)
Lemma health_serve_reads method target checker tr reply :
  run (health_serve method target checker) tr reply -> tr = [] \/ exists now, tr = [Ev time_Now now].
Proof.
  unfold health_serve, MetricsHandler. destruct (ParseRequestURI target) as [u|]; [|intros [-> _]; auto].
  cbv zeta. destruct (_ <>?s EscapedPath u); [intros [-> _]; auto|].
  destruct (firstSegment _) as [segment rest]. destruct (rest <>?s ""); [intros [-> _]; auto|].
  destruct (segment =?s "healthz"); [intros [-> _]; auto|].
  destruct (segment =?s "metrics"); [|intros [-> _]; auto].
  intros (text & t1 & t2 & -> & Hm & [-> _])%run_bind. rewrite app_nil_r.
  apply run_bind in Hm as (isFresh & t3 & t4 & -> & Hf & [-> _]). rewrite app_nil_r.
  destruct (_ =? 0); [destruct Hf as [-> _]; auto|].
  apply run_bind in Hf as (now & ? & t & -> & ->%run_call & [-> _]). right. by exists now.
Qed.

End health.

(** ** Lemmas: clean paths *)

Lemma clean_step_kept kept segment x :
  x ∈ clean_step kept segment -> x ∈ kept \/ (x = segment /\ x <> "" /\ x <> "." /\ x <> "..").
Proof.
  unfold clean_step. destruct (_ || _) eqn:E1; [auto|]. destruct (segment =?s "..") eqn:E2.
  - intros Hx. left. destruct kept; [done|]. set_solver.
  - bool_to_prop. intros [->|Hx]%elem_of_cons; [right|left]; done.
Qed.

Definition plain_segment (x : string) : Prop := x <> "" /\ x <> "." /\ x <> ".." /\ contains_byte "/" x = false.

Lemma split_byte_segments c s x : x ∈ split_byte c s -> contains_byte c x = false.
Proof.
  revert x. induction s as [|d s IH]; intros x; cbn [split_byte]; [by intros ->%list_elem_of_singleton|].
  case_bool_decide as Ed; [intros [->|Hx]%elem_of_cons; [done|by apply IH]|].
  destruct (split_byte c s) as [|first rest]; [intros ->%list_elem_of_singleton|intros [->|Hx]%elem_of_cons].
  - rewrite contains_byte_cons, bool_decide_eq_false_2 by done. done.
  - rewrite contains_byte_cons, bool_decide_eq_false_2 by done. apply IH. set_solver.
  - apply IH. set_solver.
Qed.

Lemma clean_fold_plain segments kept :
  Forall (fun x => contains_byte "/" x = false) segments -> Forall plain_segment kept ->
  Forall plain_segment (fold_left clean_step segments kept).
Proof.
  revert kept. induction segments as [|x rest IH]; intros kept Hs Hk; [done|]. cbn.
  apply Forall_cons in Hs as [Hx Hs]. apply IH; [done|]. apply Forall_forall. intros y Hy.
  apply clean_step_kept in Hy as [Hy|(-> & ? & ? & ?)]; [|done].
  rewrite Forall_forall in Hk. by apply Hk.
Qed.

Lemma clean_segments_plain p : Forall plain_segment (clean_segments p).
Proof.
  unfold clean_segments. apply Forall_rev, clean_fold_plain; [|done].
  apply Forall_forall. intros x Hx. by eapply split_byte_segments.
Qed.

Lemma clean_fold_id segments kept :
  Forall plain_segment segments -> fold_left clean_step segments kept = rev segments ++ kept.
Proof.
  revert kept. induction segments as [|x rest IH]; intros kept Hs; [done|].
  apply Forall_cons in Hs as [(H1 & H2 & H3 & _) Hs]. cbn. rewrite IH by done.
  unfold clean_step. apply seqb_neq in H1, H2, H3. rewrite H1, H2, H3. cbn. by rewrite <- app_assoc.
Qed.

Lemma split_byte_Join c l :
  l <> [] -> Forall (fun x => contains_byte c x = false) l -> split_byte c (strings_Join l (String c "")) = l.
Proof.
  induction l as [|x l IH]; [done|]. intros _ [Hx Hl]%Forall_cons. destruct l as [|y l].
  - by apply split_byte_one.
  - change (strings_Join (x :: y :: l) (String c "")) with (x +:+ String c (strings_Join (y :: l) (String c ""))).
    rewrite split_byte_cut by done. by rewrite IH.
Qed.

Lemma split_byte_head c s : split_byte c (String c s) = "" :: split_byte c s.
Proof. cbn. by rewrite bool_decide_eq_true_2. Qed.

(** The segments of a cleaned path are the ones it was cleaned to. *)
Lemma split_clean l :
  l <> [] -> Forall plain_segment l -> split_byte "/" ("/" +:+ strings_Join l "/") = "" :: l.
Proof.
  intros Hne Hl. change ("/" +:+ strings_Join l "/") with (String "/" (strings_Join l (String "/" ""))).
  rewrite split_byte_head, split_byte_Join; [done|done|].
  eapply Forall_impl; [exact Hl|]. by intros x (_ & _ & _ & ?).
Qed.

Lemma clean_no_slash l : l <> [] -> Forall plain_segment l -> HasSuffix ("/" +:+ strings_Join l "/") "/" = false.
Proof.
  intros Hne Hl. destruct (HasSuffix _ _) eqn:E; [|done]. apply HasSuffix_app in E as [t E].
  pose proof (split_clean l Hne Hl) as Hs. rewrite E, split_byte_snoc in Hs.
  pose proof (split_byte_nonnil "/" t) as Ht. destruct (split_byte "/" t) as [|a r]; [done|].
  injection Hs as _ <-. apply Forall_app in Hl as [_ Hl]. apply Forall_cons in Hl as [[H1 _] _]. done.
Qed.

Lemma clean_segments_path l :
  Forall plain_segment l ->
  clean_segments ("/" +:+ strings_Join l "/") = l /\ clean_segments (("/" +:+ strings_Join l "/") +:+ "/") = l.
Proof.
  intros Hl. destruct l as [|x l]; [done|].
  pose proof (split_clean (x :: l) ltac:(done) Hl) as Hsplit.
  unfold clean_segments. rewrite split_byte_snoc, Hsplit. split.
  - change (fold_left clean_step ("" :: x :: l) []) with (fold_left clean_step (x :: l) []).
    rewrite clean_fold_id, app_nil_r, rev_involutive by done. done.
  - change (("" :: x :: l) ++ [""]) with ("" :: (x :: l) ++ [""]).
    change (fold_left clean_step ("" :: (x :: l) ++ [""]) []) with (fold_left clean_step ((x :: l) ++ [""]) []).
    rewrite fold_left_app, (clean_fold_id (x :: l)), app_nil_r by done.
    change (rev (rev (x :: l)) = x :: l). apply rev_involutive.
Qed.

Lemma HasPrefix_slash_app s : HasPrefix ("/" +:+ s) "/" = true.
Proof. by rewrite HasPrefix_CutPrefix, CutPrefix_app. Qed.

(** A cleaned path is clean: following one redirect is enough. *)
Lemma cleanPath_idempotent p : cleanPath (cleanPath p) = cleanPath p.
Proof.
  unfold cleanPath at 2 3. set (q := if HasPrefix p "/" then p else _).
  pose proof (clean_segments_plain q) as Hl. destruct (clean_segments_path _ Hl) as [H1 H2].
  unfold path_Clean. set (np := "/" +:+ strings_Join (clean_segments q) "/") in *.
  assert (HasPrefix np "/" = true /\ HasPrefix (np +:+ "/") "/" = true) as [Hp1 Hp2] by done.
  destruct (HasSuffix q "/" && (np <>?s "/")) eqn:E.
  - unfold cleanPath. rewrite Hp2. unfold path_Clean. rewrite H2. fold np.
    apply andb_true_iff in E as [_ ->]. rewrite andb_true_r.
    assert (HasSuffix (np +:+ "/") "/" = true) as -> by (unfold HasSuffix; by rewrite string_rev_app_distr). done.
  - unfold cleanPath. rewrite Hp1. unfold path_Clean. rewrite H1. fold np.
    destruct (clean_segments q) as [|x l] eqn:El; [done|].
    subst np. by rewrite clean_no_slash.
Qed.

(** ** Lemmas: routes *)

Lemma api_route_lifecycle broker method path :
  api_route broker method path = LifecycleRoute -> method <> "CONNECT" ->
  cleanPath path = path /\ (firstSegment path).1 = "opensandbox".
Proof.
  unfold api_route. intros Hr Hm%seqb_neq. rewrite Hm in Hr. cbv zeta in Hr.
  destruct (matched_route broker (cleanPath path)) eqn:Em; try done.
  - destruct (cleanPath path =?s path) eqn:Ec; [|done]. apply seqb_eq in Ec. split; [done|]. rewrite Ec in Em.
    unfold matched_route in Em. destruct (firstSegment path) as [segment rest]. cbn.
    destruct (segment =?s "opensandbox") eqn:Es; [by apply seqb_eq|].
    destruct (_ && _); [by destruct (rest =?s "")|done].
  - by destruct (_ <>?s _).
  - by destruct (_ <>?s _).
Qed.

Lemma matched_broker broker path : matched_route broker path = BrokerRoute -> broker = true.
Proof.
  unfold matched_route. destruct (firstSegment path) as [segment rest]. destruct (_ =?s "opensandbox"); [done|].
  by destruct broker.
Qed.

Section api_proofs.
Context `{UnicodeTables} `{Sha256} `{Quantities} `{SdkJson} `{AssignmentStore} `{TemplateResolver}.
Context `{JwtLib} `{GrantValidator} `{RevocationStore} {S : Type} `{Checker Kube S}.
Context (audit : option GrantAudit).

Lemma Middleware_no_effect a authorization : quiet has_effect (Middleware a authorization).
Proof. unfold Middleware, serviceAccountTenants. solve_quiet. Qed.

(** An effect of the lifecycle handler follows the authentication of its caller. *)
Lemma lifecycle_authenticated a config request tr reply e :
  run (lifecycle_handler a config request) tr reply -> e ∈ tr -> has_effect e = true ->
  exists t1 t2 scopes, tr = t1 ++ t2 /\ e ∈ t2 /\
    run (Middleware a (header_Get (r_Header request) "Authorization")) t1 (inr scopes).
Proof.
  unfold lifecycle_handler. intros (x & t1 & t2 & -> & Hm & Hr)%run_bind Hin He.
  apply elem_of_app in Hin as [Hin|Hin].
  { exfalso. eapply quiet_elem; [apply Middleware_no_effect|exact Hm|exact Hin|exact He]. }
  destruct x as [status|scopes]; [destruct Hr as [-> _]; by apply elem_of_nil in Hin|].
  by exists t1, t2, scopes.
Qed.

(** ** Theorem *)

(** C27. Every request that changes an object or reaches the upstream server was admitted by a
    component of its own: either its clean path is below [/opensandbox], and before the effect
    the API server authenticated the caller's bearer token for the lifecycle audience and
    exactly one active principal binding gave the caller tenants; or the broker is configured
    and its path is one of the broker's, and the effect belongs to that operation of the
    broker.  Anything else is answered by the mux without an effect. *)
Theorem api_effects_admitted sv method target header body s tr reply s' e :
  run (api_serve audit sv method target header body s) tr (reply, s') -> e ∈ tr -> has_effect e = true ->
  exists u, ParseRequestURI target = Ok u /\
  ((exists token status namespace name items binding t2,
      (method <> "CONNECT" -> cleanPath (EscapedPath u) = EscapedPath u /\
                              (firstSegment (EscapedPath u)).1 = "opensandbox") /\
      bearerToken (header_Get header "Authorization") = Some token /\
      tr = Ev (TokenReviews_Create token [au_audience (sv_caller sv)]) (Ok status) ::
           Ev (List PrincipalBindings (au_namespace (sv_caller sv)) list_all) (Ok items) :: t2 /\
      e ∈ t2 /\ trs_Authenticated status = true /\
      trs_Username status = "system:serviceaccount:" +:+ namespace +:+ ":" +:+ name /\
      List.filter (binds namespace name) items = [binding] /\ requester_tenants binding <> ∅) \/
   (exists config r, sv_broker sv = Some config /\
      api_route true method (EscapedPath u) = BrokerRoute /\
      run (Broker_ServeHTTP config audit method (u_Path u) (header_Get header "Authorization")
             (match body with Ok b => b | Err _ => "" end) s) tr r)).
Proof.
  unfold api_serve. intros Hr Hin He.
  destruct (ParseRequestURI target) as [u|]; [|destruct Hr as [-> _]; by apply elem_of_nil in Hin].
  exists u. split; [done|].
  destruct (api_route _ method (EscapedPath u)) eqn:Eroute.
  - left. apply run_bind in Hr as (r & t1 & t2 & -> & Hl & [-> _]). rewrite app_nil_r in *.
    destruct (lifecycle_authenticated _ _ _ _ _ _ Hl Hin He) as (tm & te & scopes & -> & Hin' & Hm).
    apply Middleware_ok in Hm as (token & status & namespace & name & items & binding & Hb & -> & Ha & _ & Hu & Hf & -> & Hne).
    exists token, status, namespace, name, items, binding, te. split_and!; try done.
    intros Hc. by eapply api_route_lifecycle.
  - destruct (sv_broker sv) as [config|]; [|destruct Hr as [-> _]; by apply elem_of_nil in Hin].
    right. apply run_bind in Hr as (r & t1 & t2 & -> & Hb & [-> _]). rewrite app_nil_r in *.
    by exists config, r.
  - destruct (sv_broker sv); destruct Hr as [-> _]; by apply elem_of_nil in Hin.
  - destruct (sv_broker sv); destruct Hr as [-> _]; by apply elem_of_nil in Hin.
Qed.

End api_proofs.
