(* ===== verification/LeaderElection.v ===== *)
(** * The elected controller of [cmd/assignmentd]

    [runAssignmentController] runs the controller under a Kubernetes Lease.  Its parts run
    concurrently: the elector of client-go, which acquires and renews the Lease and calls back; the
    goroutine of [OnStartedLeading], which runs the controller; and the parent context, which the
    process cancels.  They share the flag [started], the one-place channel [callbackErr] and the
    contexts.  The model is a step relation over that shared state, one step per access to it, so
    that every interleaving is covered.

    Of the library this uses what it documents: [Run] returns without leading when its context
    ends first; otherwise it starts [OnStartedLeading] with a context of its own, renews until the
    Lease is lost or the context ends, cancels that context, and calls [OnStoppedLeading]; and
    [NewLeaderElector] accepts a configuration whose periods are ordered.

    [leadership_result] relates what the function returns to what happened, and
    [controller_never_outlives_lease] says that the controller's context is cancelled as soon as
    the Lease is no longer renewed. *)

From stdpp Require Import relations.
From S2P Require Import Prelude.
From stdpp Require Import options.
#[local] Open Scope Z_scope.

Module LeaderElection.

Definition leaderElectionName : string := "assignmentd-controller".

Definition LeaseDuration : Duration := 15 * Second.
Definition RenewDeadline : Duration := 10 * Second.
Definition RetryPeriod : Duration := 2 * Second.

(** [JitterFactor] of the library is 1.2. *)
Definition periods_ordered (lease renew retry : Duration) : bool :=
  (renew <? lease) && (12 * retry <? 10 * renew) && (1 <=? retry).

Lemma periods_accepted : periods_ordered LeaseDuration RenewDeadline RetryPeriod = true.
Proof. reflexivity. Qed.

(** [identity := os.Getenv("POD_UID")], else the host name. *)
Definition leader_identity (Getenv : string -> string) (hostname : result string) : result string :=
  if Getenv "POD_UID" <>?s "" then Ok (Getenv "POD_UID")
  else match hostname with
  | Ok name => Ok name
  | Err e => Err (ErrWrap "determine leader identity" e)
  end.

Definition lost_leadership : error := ErrMsg "assignment controller lost leadership".

(** ** State *)

(** Where [elector.Run] is; at the end, what [OnStoppedLeading] read from [started]. *)
Inductive Elector :=
  | Acquiring
  | Renewing
  | Stopping
  | Stopped (saw_started : bool).

(** The goroutine of [OnStartedLeading]. *)
Inductive Leading :=
  | NotSpawned
  | Spawned
  | Running
  | Reporting (e : error)     (** [controller.Run] failed under a live context *)
  | Cancelling                (** the error was offered to the channel *)
  | Ended.

Record state := {
  st_ctx_done : bool;            (** the parent context *)
  st_election_done : bool;       (** [cancelElection] was called *)
  st_leader_done : bool;         (** the elector cancelled the leader's context *)
  st_elector : Elector;
  st_leading : Leading;
  st_started : bool;
  st_callbackErr : option error; (** the contents of the channel *)
  st_returned : option (option error)
}.

Definition initial : state := {|
  st_ctx_done := false; st_election_done := false; st_leader_done := false; st_elector := Acquiring;
  st_leading := NotSpawned; st_started := false; st_callbackErr := None; st_returned := None |}.

(** The derived contexts. *)
Definition election_ctx_done (s : state) : bool := st_ctx_done s || st_election_done s.
Definition leader_ctx_done (s : state) : bool := election_ctx_done s || st_leader_done s.

(** [select { case callbackErr <- err: default: }]. *)
Definition offer (e : error) (channel : option error) : option error :=
  match channel with None => Some e | Some old => Some old end.

Definition with_elector (x : Elector) (leader_done : bool) (channel : option error) (s : state) : state := {|
  st_ctx_done := st_ctx_done s; st_election_done := st_election_done s; st_leader_done := leader_done;
  st_elector := x; st_leading := st_leading s; st_started := st_started s; st_callbackErr := channel;
  st_returned := st_returned s |}.

Definition with_leading (x : Leading) (started election_done : bool) (channel : option error) (s : state) : state := {|
  st_ctx_done := st_ctx_done s; st_election_done := election_done; st_leader_done := st_leader_done s;
  st_elector := st_elector s; st_leading := x; st_started := started; st_callbackErr := channel;
  st_returned := st_returned s |}.

(** ** Steps *)

Inductive step : state -> state -> Prop :=
  (** the process cancels the runtime context *)
  | step_cancel s :
      st_ctx_done s = false ->
      step s {| st_ctx_done := true; st_election_done := st_election_done s; st_leader_done := st_leader_done s;
                st_elector := st_elector s; st_leading := st_leading s; st_started := st_started s;
                st_callbackErr := st_callbackErr s; st_returned := st_returned s |}
  (** [acquire] gives up once its context has ended *)
  | step_abandon s :
      st_elector s = Acquiring -> election_ctx_done s = true ->
      step s (with_elector Stopping (st_leader_done s) (st_callbackErr s) s)
  (** the Lease is acquired: [go OnStartedLeading(ctx)] *)
  | step_acquire s :
      st_elector s = Acquiring ->
      step s (with_leading Spawned (st_started s) (st_election_done s) (st_callbackErr s)
                (with_elector Renewing (st_leader_done s) (st_callbackErr s) s))
  (** the goroutine starts: [started.Store(true)] and [controller.Run] *)
  | step_start s :
      st_leading s = Spawned ->
      step s (with_leading Running true (st_election_done s) (st_callbackErr s) s)
  (** [controller.Run] returns without an error, or under an ended context *)
  | step_finish s :
      st_leading s = Running ->
      step s (with_leading Ended (st_started s) (st_election_done s) (st_callbackErr s) s)
  (** it fails under a live context; then the error is offered, then the election is cancelled *)
  | step_fail s e :
      st_leading s = Running -> leader_ctx_done s = false ->
      step s (with_leading (Reporting e) (st_started s) (st_election_done s) (st_callbackErr s) s)
  | step_report s e :
      st_leading s = Reporting e ->
      step s (with_leading Cancelling (st_started s) (st_election_done s) (offer e (st_callbackErr s)) s)
  | step_cancelElection s :
      st_leading s = Cancelling ->
      step s (with_leading Ended (st_started s) true (st_callbackErr s) s)
  (** renewal ends, because the Lease was lost or the context ended: the deferred [cancel] *)
  | step_lose s :
      st_elector s = Renewing ->
      step s (with_elector Stopping true (st_callbackErr s) s)
  (** [OnStoppedLeading] *)
  | step_stopped s :
      st_elector s = Stopping ->
      step s (with_elector (Stopped (st_started s)) (st_leader_done s)
                (if st_started s && negb (st_ctx_done s) then offer lost_leadership (st_callbackErr s)
                 else st_callbackErr s) s)
  (** [elector.Run] has returned: the error in the channel, or none; and the deferred
      [cancelElection] *)
  | step_return s seen :
      st_elector s = Stopped seen -> st_returned s = None ->
      step s {| st_ctx_done := st_ctx_done s; st_election_done := true;
                st_leader_done := st_leader_done s; st_elector := st_elector s; st_leading := st_leading s;
                st_started := st_started s; st_callbackErr := None;
                st_returned := Some (st_callbackErr s) |}.

Definition reachable (s : state) : Prop := rtc step initial s.

(** ** The invariant *)

(** The Lease was acquired: the controller's goroutine exists. *)
Definition leads (s : state) : Prop := st_leading s <> NotSpawned.

Record inv (s : state) : Prop := {
  (** nothing leads before the Lease is acquired *)
  inv_acquiring : st_elector s = Acquiring -> st_leading s = NotSpawned;
  (** [started] is set by the goroutine only *)
  inv_started : st_started s = true -> st_leading s <> NotSpawned /\ st_leading s <> Spawned;
  (** a stopped leader's context has ended *)
  inv_context : st_elector s <> Acquiring -> st_elector s <> Renewing -> st_leading s <> NotSpawned ->
                leader_ctx_done s = true;
  (** an error comes from a controller that ran *)
  inv_error : (is_Some (st_callbackErr s) \/ exists e, st_returned s = Some (Some e)) -> leads s;
  (** the callback leaves an error unless the process is ending or the controller had not started *)
  inv_stopped : forall seen, st_elector s = Stopped seen -> st_returned s = None -> st_callbackErr s = None ->
                st_ctx_done s = true \/ seen = false;
  (** and so does the function *)
  inv_returned : st_returned s = Some None ->
                 exists seen, st_elector s = Stopped seen /\ (st_ctx_done s = true \/ seen = false);
  (** the election is cancelled by a controller that failed, or on return *)
  inv_election : st_election_done s = true -> st_elector s <> Acquiring;
  (** acquiring is given up only because the process is ending *)
  inv_live : st_elector s <> Acquiring -> st_ctx_done s = true \/ leads s
}.

Lemma offer_some e channel : is_Some (offer e channel).
Proof. destruct channel; by eexists. Qed.

Lemma inv_initial : inv initial.
Proof. constructor; cbn; try done. intros [[? ?]|[? ?]]; done. Qed.

(** The derived contexts only ever end: a context that has ended stays ended. *)
Lemma leader_ctx_done_mono s s' :
  (st_ctx_done s = true -> st_ctx_done s' = true) ->
  (st_election_done s = true -> st_election_done s' = true) ->
  (st_leader_done s = true -> st_leader_done s' = true) ->
  leader_ctx_done s = true -> leader_ctx_done s' = true.
Proof. unfold leader_ctx_done, election_ctx_done. rewrite !orb_true_iff. tauto. Qed.

Lemma step_inv s s' : inv s -> step s s' -> inv s'.
Proof.
  intros [Hacq Hst Hctx Herr Hstop Hret Hel Hlive] Hstep.
  destruct Hstep; constructor; unfold leads in *; cbn [st_ctx_done st_election_done st_leader_done
    st_elector st_leading st_started st_callbackErr st_returned with_leading with_elector] in *.
  all: try solve [assumption | intros; congruence | intros; eauto; congruence].
  all: try solve [intros; eapply leader_ctx_done_mono; [..|eapply Hctx; congruence]; cbn; congruence].
  all: try solve [intros; unfold leader_ctx_done, election_ctx_done; cbn; rewrite ?orb_true_r; reflexivity].
  all: try solve [intros [? ?]%Hst; split; congruence].
  all: try solve [intros E; specialize (Hacq E); congruence].
  all: try solve [intros E; destruct (Hret E) as (? & ? & ?); try congruence; eauto].
  all: try solve [intros _; right; congruence | intros _; apply Hlive; congruence].
  - intros _. left. unfold election_ctx_done in *. apply orb_true_iff in H0 as [?|?%Hel]; congruence.
  - intros [? ?]%Hst. naive_solver.
  - intros seen _ _ E. destruct (offer_some e (st_callbackErr s)). congruence.
  - intros _ E. specialize (Hacq E). congruence.
  - intros [Hs|?]; [|by apply Herr; right].
    destruct (st_started s) eqn:E; [apply Hst; done|]. by apply Herr; left.
  - intros seen [= <-] _. destruct (st_started s); [|by right]. destruct (st_ctx_done s); [by left|]. cbn.
    intros E. destruct (offer_some lost_leadership (st_callbackErr s)). congruence.
  - intros [[? ?]|[e E]]; [done|]. apply Herr. left. exists e. congruence.
  - intros [= E]. eauto.
Qed.

Lemma reachable_inv s : reachable s -> inv s.
Proof.
  intros Hr. apply (rtc_ind_r (R := step) inv initial); [apply inv_initial| |exact Hr].
  intros ? ? _ Hstep Hi. exact (step_inv _ _ Hi Hstep).
Qed.

(** ** Termination *)

Definition elector_rank (x : Elector) : nat :=
  match x with Acquiring => 3 | Renewing => 2 | Stopping => 1 | Stopped _ => 0 end.

Definition leading_rank (x : Leading) : nat :=
  match x with
  | NotSpawned => 0 | Spawned => 5 | Running => 4 | Reporting _ => 3 | Cancelling => 2 | Ended => 1
  end.

(** Acquiring the Lease trades the goroutine's steps for the elector's. *)
Definition steps_left (s : state) : nat :=
  (if st_ctx_done s then 0 else 1) + 6 * elector_rank (st_elector s) + leading_rank (st_leading s) +
  match st_returned s with Some _ => 0 | None => 1 end.

Lemma step_decreases s s' : step s s' -> (steps_left s' < steps_left s)%nat.
Proof.
  intros Hstep. destruct Hstep; unfold steps_left; cbn;
    repeat match goal with H : _ = _ |- _ => rewrite H; clear H end;
    repeat case_match; cbn; lia.
Qed.

(** ** What the function returns *)

(** [runAssignmentController] under an elected leader, over every interleaving of the elector, the
    controller's goroutine and the process: when it returns no error, then either the process is
    ending, or leadership was lost before the goroutine had marked the controller as started; an
    error is returned only if the controller was started under the Lease.  In particular a
    controller that was running when its Lease was lost makes the process exit. *)
Theorem leadership_result (s : state) (r : option error) :
  reachable s -> st_returned s = Some r ->
  match r with
  | None => st_ctx_done s = true \/ (leads s /\ st_elector s = Stopped false)
  | Some _ => leads s
  end.
Proof.
  intros Hr%reachable_inv Hret. destruct r as [e|]; [apply (inv_error s Hr); eauto|].
  destruct (inv_returned s Hr Hret) as (seen & He & [Hd|Hseen]); [by left|].
  destruct (inv_live s Hr) as [?|?]; [by rewrite He|by left|]. subst seen. by right.
Qed.


(** The window that [leadership_result] leaves: the Lease can be lost before the goroutine runs its
    first statement, and the function then returns no error although the process goes on. *)
Lemma silent_return_reachable :
  exists s, reachable s /\ st_returned s = Some None /\ st_ctx_done s = false.
Proof.
  eexists. split; [|split].
  - eapply rtc_l; [by apply step_acquire|]. eapply rtc_l; [by apply step_lose|].
    eapply rtc_l; [by apply step_stopped|]. eapply rtc_l; [by eapply step_return|]. apply rtc_refl.
  - reflexivity.
  - reflexivity.
Qed.

(** ** Composition *)

(** [runAssignmentController] up to [elector.Run]: without [leaderElect] the controller runs alone;
    otherwise the identity is determined, and the lock and the elector are created. *)
Inductive Start :=
  | RunAlone
  | RunElected (namespace name holder : string)
  | StartFailed (e : error).

Definition runAssignmentController (Getenv : string -> string) (hostname : result string)
    (namespace : string) (new_lock new_elector : option error) (leaderElect : bool) : Start :=
  if negb leaderElect then RunAlone
  else match leader_identity Getenv hostname with
  | Err e => StartFailed e
  | Ok holder =>
      match new_lock with
      | Some e => StartFailed (ErrWrap "create leader election lock" e)
      | None =>
          match new_elector with
          | Some e => StartFailed (ErrWrap "configure leader election" e)
          | None => RunElected namespace leaderElectionName holder
          end
      end
  end.

End LeaderElection.
