(* ===== verification/Principals.v ===== *)
(** * Tenant scopes of dashboard principals

    [cmd/aks-sandbox-dashboard/principals.go].  A signed-in principal has the requester and
    administrator tenants of the one active binding that names its Entra tenant and object.  A
    Go map that may be nil is an [option]: [tenantAllowed] accepts every tenant for nil, so it
    matters that the scopes a principal is given never are. *)

From S2P Require Import Prelude ApiTypes DashboardTypes Kube.
From stdpp Require Import options.

Definition errPrincipalBindingMissing : error :=
  ErrMsg "authenticated principal has no sandbox tenant binding".
Definition errPrincipalBindingAmbiguous : error :=
  ErrMsg "principal must have exactly one active binding".

(** [map[string]struct{}]; [None] is the nil map. *)
Definition TenantSet := option (gset string).

Definition len_tenants (tenants : TenantSet) : nat := size (default ∅ tenants).

Record principalTenantScopes := { requester : TenantSet; admin : TenantSet }.

Definition tenantAllowed (tenants : TenantSet) (tenant : string) : bool :=
  match tenants with
  | None => true
  | Some allowed => bool_decide (tenant ∈ allowed)
  end.

(** The binding is active and names this identity. *)
Definition binds_identity (identity : authenticatedIdentity) (binding : SandboxPrincipalBinding) : bool :=
  negb (om_deleting (pb_meta binding)
        || (pbs_TenantID (pb_Spec binding) <>?s ai_TenantID identity)
        || (pbs_ObjectID (pb_Spec binding) <>?s ai_ObjectID identity)).

(** The loop that decodes every item and keeps the only one that matches. *)
Fixpoint sole_match {T} (matches : T -> bool) (ambiguous : error) (items : list (Unstructured T))
  (matched : option T) : result (option T) :=
  match items with
  | [] => Ok matched
  | item :: rest =>
      match FromUnstructured item with
      | Err e => Err e
      | Ok object =>
          if negb (matches object) then sole_match matches ambiguous rest matched
          else match matched with
          | Some _ => Err ambiguous
          | None => sole_match matches ambiguous rest (Some object)
          end
      end
  end.

Definition scopes_loop (identity : authenticatedIdentity) (items : list (Unstructured SandboxPrincipalBinding))
  : result (option SandboxPrincipalBinding) :=
  sole_match (binds_identity identity) errPrincipalBindingAmbiguous items None.

Definition binding_scopes (binding : SandboxPrincipalBinding) : principalTenantScopes := {|
  requester := Some (list_to_set (pbs_RequesterTenants (pb_Spec binding)));
  admin := Some (list_to_set (pbs_AdminTenants (pb_Spec binding))) |}.

Definition loadPrincipalScopes (namespace : string) (identity : authenticatedIdentity)
  : KProg (result principalTenantScopes) :=
  items <-? call (List PrincipalBindings namespace list_all) ;;
  match scopes_loop identity items with
  | Err e => Ret (Err e)
  | Ok None => Ret (Err errPrincipalBindingMissing)
  | Ok (Some binding) => Ret (Ok (binding_scopes binding))
  end.

(** ** Properties *)

(** Every item decodes, and exactly one matches. *)
Definition sole {T} (matches : T -> bool) (items : list (Unstructured T)) (object : T) : Prop :=
  (forall item, item ∈ items -> u_malformed item = []) /\
  List.filter (fun item => matches (u_obj item)) items = [wf object].

(** Among decodable bindings, exactly one active binding names the identity. *)
Definition sole_binding (identity : authenticatedIdentity)
  (items : list (Unstructured SandboxPrincipalBinding)) (binding : SandboxPrincipalBinding) : Prop :=
  sole (binds_identity identity) items binding.

Lemma FromUnstructured_Ok {T} (u : Unstructured T) o : FromUnstructured u = Ok o <-> u = wf o.
Proof.
  unfold FromUnstructured. destruct u as [obj [|? ?]]; cbn; unfold wf; split; intros; by simplify_eq.
Qed.

Lemma sole_match_Ok {T} (matches : T -> bool) ambiguous items matched out :
  sole_match matches ambiguous items matched = Ok out <->
  (forall item, item ∈ items -> u_malformed item = []) /\
  match List.filter (fun item => matches (u_obj item)) items, matched with
  | [], _ => out = matched
  | [item], None => out = Some (u_obj item)
  | _, _ => False
  end.
Proof.
  revert matched. induction items as [|item rest IH]; intros matched; cbn [sole_match List.filter].
  { split; [|intros [_ ->]; done]. intros [= ->]. set_solver. }
  destruct (FromUnstructured item) as [object|e] eqn:Ef.
  2: { split; [done|]. intros [Hwf _]. specialize (Hwf item). unfold FromUnstructured in Ef.
       rewrite Hwf in Ef by set_solver. done. }
  apply FromUnstructured_Ok in Ef as ->. cbn [u_obj wf].
  assert (forall P, (forall x, x ∈ wf object :: rest -> P x) <-> P (wf object) /\ forall x, x ∈ rest -> P x) as Hall.
  { intros P. split; [intros HP; split; intros; apply HP; set_solver|].
    intros [? ?] x [->|?]%elem_of_cons; auto. }
  rewrite Hall. cbn [u_malformed wf].
  destruct (matches object); cbn [negb]; [|rewrite IH; intuition].
  destruct matched as [m|]; [split; [done|]; destruct (List.filter _ rest); tauto|].
  rewrite IH. destruct (List.filter _ rest) as [|? [|? ?]]; cbn [u_obj wf]; intuition.
Qed.

(** The loop finds an object exactly when it is the sole match. *)
Lemma sole_match_sole {T} (matches : T -> bool) ambiguous items object :
  sole_match matches ambiguous items None = Ok (Some object) <-> sole matches items object.
Proof.
  rewrite sole_match_Ok. unfold sole. split; intros [Hwf Hm]; split; try done.
  - destruct (List.filter _ items) as [|x [|? ?]] eqn:Ef; try done. injection Hm as ->.
    f_equal. apply FromUnstructured_Ok. unfold FromUnstructured. rewrite Hwf; [done|].
    apply list_elem_of_In. eapply (proj1 (filter_In _ _ _)). rewrite Ef. by left.
  - by rewrite Hm.
Qed.

(** Scopes come from the sole active binding of the identity; every other outcome is an error. *)
Lemma loadPrincipalScopes_run namespace identity tr r :
  run (loadPrincipalScopes namespace identity) tr r ->
  exists answer, tr = [Ev (List PrincipalBindings namespace list_all) answer] /\
  forall scopes, r = Ok scopes <->
    exists items binding, answer = Ok items /\ sole_binding identity items binding /\
      scopes = binding_scopes binding.
Proof.
  unfold loadPrincipalScopes. intros Hr. apply run_try in Hr as [(e & Hc & ->)|(items & t1 & t2 & -> & Hc & Hr)];
    apply run_call in Hc as ->.
  { eexists; split; [done|]. naive_solver. }
  destruct (scopes_loop identity items) as [out|e] eqn:El; unfold scopes_loop in El.
  - destruct out as [binding|]; run_step Hr; (eexists; split; [done|]); intros scopes.
    + apply sole_match_sole in El. split; [intros [= <-]; by exists items, binding|].
      intros (items' & b & [= <-] & Hb & ->). destruct El as [_ El], Hb as [_ Hb]. rewrite El in Hb. by simplify_eq.
    + split; [done|]. intros (items' & b & [= <-] & Hb & _).
      apply (sole_match_sole _ errPrincipalBindingAmbiguous) in Hb. congruence.
  - run_step Hr. eexists; split; [done|]. intros scopes. split; [done|].
    intros (items' & b & [= <-] & Hb & _). apply (sole_match_sole _ errPrincipalBindingAmbiguous) in Hb. congruence.
Qed.

Lemma loadPrincipalScopes_ok namespace identity tr scopes :
  run (loadPrincipalScopes namespace identity) tr (Ok scopes) ->
  exists items binding, tr = [Ev (List PrincipalBindings namespace list_all) (Ok items)] /\
    sole_binding identity items binding /\ scopes = binding_scopes binding.
Proof.
  intros (answer & -> & Hs)%loadPrincipalScopes_run.
  destruct (proj1 (Hs scopes) eq_refl) as (items & b & -> & ? & ?). eauto.
Qed.

Lemma loadPrincipalScopes_quiet kind namespace identity :
  (forall r, kind (Ev (List PrincipalBindings namespace list_all) r) = false) ->
  quiet kind (loadPrincipalScopes namespace identity).
Proof.
  intros Hk. unfold loadPrincipalScopes. apply quiet_try; [by apply quiet_call|]. intros items.
  solve_quiet.
Qed.

(** The scopes of a principal are never nil, so a tenant is allowed only if it is listed. *)
Lemma tenantAllowed_scopes binding tenant :
  (tenantAllowed (admin (binding_scopes binding)) tenant = true <-> tenant ∈ pbs_AdminTenants (pb_Spec binding)) /\
  (tenantAllowed (requester (binding_scopes binding)) tenant = true <-> tenant ∈ pbs_RequesterTenants (pb_Spec binding)).
Proof. cbn. rewrite !bool_decide_eq_true, !elem_of_list_to_set. done. Qed.

Lemma len_tenants_zero tenants : Nat.eqb (len_tenants (Some tenants)) 0 = true <-> tenants = ∅.
Proof. cbn. rewrite Nat.eqb_eq. rewrite size_empty_iff. apply leibniz_equiv_iff. Qed.
