(* ===== verification/SessionStore.v ===== *)
(** * The dashboard's session store

    [memoryAuthStore] of [cmd/aks-sandbox-dashboard/auth.go]: sessions in memory, keyed by the
    SHA-256 of the cookie value, emptied of expired sessions by a ticker, by every insertion and
    by a lookup that finds one, and bounded.  Each method is a function of the store, of the
    clock reading it takes and, for a new session, of the random value drawn.

    The specification [SessionSpec] is what a client relies on: a map from cookie values to
    sessions in which nothing is ever collected, where a lookup ignores what has expired and
    where only live sessions count towards the capacity.  Every sequence of calls gets the same
    answers from both, so neither the hashing of the keys nor the moments at which expired
    sessions are collected can be observed.  [SessionConcurrency] interleaves the calls. *)

From S2P Require Import Prelude ApiTypes ApiJson DashboardTypes Governance.
From stdpp Require Import options.

Definition cleanupInterval : Duration := 5 * Minute.
Definition maxSessions : nat := Z.to_nat 10000.

Definition live (now : Time) (session : dashboardSession) : bool := time_after (ds_ExpiresAt session) now.

(** Keep the live entries of a map. *)
Definition live_only (now : Time) (m : gmap string dashboardSession) : gmap string dashboardSession :=
  filter (fun entry => live now entry.2 = true) m.

Definition errCapacity : error := ErrMsg "dashboard session capacity reached".

(** ** The implementation *)

(** Sessions by the digest of their cookie value. *)
Abbreviation memoryAuthStore := (gmap string dashboardSession).

Section store.
Context `{Sha256}.

Definition newMemoryAuthStore : memoryAuthStore := ∅.

Definition cleanupLocked (now : Time) (s : memoryAuthStore) : memoryAuthStore := live_only now s.

Definition cleanup (now : Time) (s : memoryAuthStore) : memoryAuthStore := cleanupLocked now s.

Definition createSession (random : result string) (now : Time) (session : dashboardSession)
  (s : memoryAuthStore) : result string * memoryAuthStore :=
  match random with
  | Err e => (Err e, s)
  | Ok raw =>
      let s := cleanupLocked now s in
      if Nat.leb maxSessions (size s) then (Err errCapacity, s)
      else (Ok raw, <[sha256_hex raw := session]> s)
  end.

Definition deleteSession (raw : string) (s : memoryAuthStore) : memoryAuthStore :=
  if raw =?s "" then s else delete (sha256_hex raw) s.

Definition getSession (raw : string) (now : Time) (s : memoryAuthStore)
  : option dashboardSession * memoryAuthStore :=
  if raw =?s "" then (None, s)
  else match s !! sha256_hex raw with
  | None => (None, s)
  | Some session => if negb (live now session) then (None, deleteSession raw s) else (Some session, s)
  end.

End store.

(** ** Calls, answers and histories *)

Inductive StoreCall :=
  | CallCreate (random : result string) (session : dashboardSession)
  | CallGet (raw : string)
  | CallDelete (raw : string)
  | CallCleanup.

Inductive StoreAnswer :=
  | Created (r : result string)
  | Found (session : option dashboardSession)
  | Done.

(** A machine that answers calls, and its answers to a history of timed calls. *)
Class StoreMachine (S : Type) := {
  store_init : S;
  store_call : Time -> StoreCall -> S -> StoreAnswer * S
}.

Fixpoint answers_from {S} `{StoreMachine S} (history : list (Time * StoreCall)) (s : S) : list StoreAnswer :=
  match history with
  | [] => []
  | (now, c) :: rest => let '(answer, s') := store_call now c s in answer :: answers_from rest s'
  end.

(** The clock of a process does not run backwards. *)
Fixpoint clocked (from : Time) (history : list (Time * StoreCall)) : Prop :=
  match history with
  | [] => True
  | (now, _) :: rest => from <= now /\ clocked now rest
  end.

#[export] Instance memory_machine `{Sha256} : StoreMachine memoryAuthStore := {|
  store_init := newMemoryAuthStore;
  store_call := fun now c s =>
    match c with
    | CallCreate random session => let '(r, s') := createSession random now session s in (Created r, s')
    | CallGet raw => let '(r, s') := getSession raw now s in (Found r, s')
    | CallDelete raw => (Done, deleteSession raw s)
    | CallCleanup => (Done, cleanup now s)
    end |}.

(** ** The specification *)

Record SessionSpec := { spec_sessions : gmap string dashboardSession }.

Definition spec_find (raw : string) (now : Time) (a : SessionSpec) : option dashboardSession :=
  if raw =?s "" then None
  else match spec_sessions a !! raw with
  | Some session => if live now session then Some session else None
  | None => None
  end.

#[export] Instance spec_machine : StoreMachine SessionSpec := {|
  store_init := {| spec_sessions := ∅ |};
  store_call := fun now c a =>
    match c with
    | CallCreate (Err e) _ => (Created (Err e), a)
    | CallCreate (Ok raw) session =>
        if Nat.leb maxSessions (size (live_only now (spec_sessions a))) then (Created (Err errCapacity), a)
        else (Created (Ok raw), {| spec_sessions := <[raw := session]> (spec_sessions a) |})
    | CallGet raw => (Found (spec_find raw now a), a)
    | CallDelete raw =>
        (Done, if raw =?s "" then a else {| spec_sessions := delete raw (spec_sessions a) |})
    | CallCleanup => (Done, a)
    end |}.

(** ** Simulation *)

Lemma live_only_lookup now m k s : live_only now m !! k = Some s <-> m !! k = Some s /\ live now s = true.
Proof. unfold live_only. by rewrite map_lookup_filter_Some. Qed.

Lemma live_mono t t' s : t <= t' -> live t' s = true -> live t s = true.
Proof. unfold live, time_after. intros. bool_to_prop. apply Z.ltb_lt. lia. Qed.

Lemma live_only_twice t t' m : t <= t' -> live_only t' (live_only t m) = live_only t' m.
Proof.
  intros Ht. apply map_eq. intros k. apply option_eq. intros s. rewrite !live_only_lookup.
  intuition eauto using live_mono.
Qed.

Lemma live_only_insert now m k s :
  live_only now (<[k := s]> m) = if live now s then <[k := s]> (live_only now m) else delete k (live_only now m).
Proof.
  apply map_eq. intros j. apply option_eq. intros s'. rewrite live_only_lookup.
  destruct (live now s) eqn:El; destruct (decide (k = j)) as [->|Hne];
    rewrite ?lookup_insert_eq, ?lookup_insert_ne, ?lookup_delete_eq, ?lookup_delete_ne, ?live_only_lookup by done;
    naive_solver congruence.
Qed.

Lemma live_only_delete now m k : live_only now (delete k m) = delete k (live_only now m).
Proof.
  apply map_eq. intros j. apply option_eq. intros s'. rewrite live_only_lookup.
  destruct (decide (k = j)) as [->|Hne];
    rewrite ?lookup_delete_eq, ?lookup_delete_ne, ?live_only_lookup by done; naive_solver.
Qed.

Section simulation.
Context `{Sha256}.
Context {sha_inj : Inj (=) (=) sha256_hex}.
#[local] Set Default Proof Using "All".

(** The stores agree on what is live: the same sessions, under hashed keys. *)
Definition simulates (now : Time) (s : memoryAuthStore) (a : SessionSpec) : Prop :=
  live_only now s = kmap sha256_hex (live_only now (spec_sessions a)).

Lemma live_only_kmap now (m : gmap string dashboardSession) :
  live_only now (kmap (M2 := gmap string) sha256_hex m) = kmap sha256_hex (live_only now m).
Proof.
  apply map_eq. intros k. apply option_eq. intros s.
  rewrite live_only_lookup, !lookup_kmap_Some by done. setoid_rewrite live_only_lookup. naive_solver.
Qed.

Lemma simulates_later t t' s a : t <= t' -> simulates t s a -> simulates t' s a.
Proof.
  unfold simulates. intros Ht E.
  by rewrite <- (live_only_twice t t' s), E, live_only_kmap, live_only_twice by done.
Qed.

Lemma simulates_lookup now s a raw session :
  simulates now s a -> live now session = true ->
  s !! sha256_hex raw = Some session <-> spec_sessions a !! raw = Some session.
Proof.
  unfold simulates. intros E Hl. transitivity (live_only now s !! sha256_hex raw = Some session).
  - rewrite live_only_lookup. tauto.
  - rewrite E, lookup_kmap, live_only_lookup by done. tauto.
Qed.

(** A key under which only expired sessions are stored finds nothing, in either store. *)
Lemma getSession_spec now s a raw : simulates now s a -> (getSession raw now s).1 = spec_find raw now a.
Proof.
  intros Hs. unfold getSession, spec_find. destruct (raw =?s ""); [done|].
  destruct (s !! sha256_hex raw) as [session|] eqn:E1; [destruct (live now session) eqn:El|]; cbn [negb fst].
  - apply (simulates_lookup now s a raw session Hs El) in E1 as ->. by rewrite El.
  - destruct (spec_sessions a !! raw) as [s'|] eqn:E2; [|done]. destruct (live now s') eqn:El'; [|done].
    apply (simulates_lookup now s a raw s' Hs El') in E2. simplify_eq. congruence.
  - destruct (spec_sessions a !! raw) as [s'|] eqn:E2; [|done]. destruct (live now s') eqn:El'; [|done].
    apply (simulates_lookup now s a raw s' Hs El') in E2. congruence.
Qed.

Lemma simulates_delete now s a raw :
  simulates now s a -> simulates now (delete (sha256_hex raw) s) {| spec_sessions := delete raw (spec_sessions a) |}.
Proof. unfold simulates. cbn. intros E. by rewrite !live_only_delete, E, kmap_delete. Qed.

Lemma simulates_insert now s a raw session :
  simulates now s a ->
  simulates now (<[sha256_hex raw := session]> s) {| spec_sessions := <[raw := session]> (spec_sessions a) |}.
Proof.
  unfold simulates. cbn. intros E. rewrite !live_only_insert, E.
  destruct (live now session); by rewrite ?kmap_insert, ?kmap_delete.
Qed.

Lemma simulates_cleanup now s a : simulates now s a -> simulates now (live_only now s) a.
Proof. unfold simulates. by rewrite live_only_twice by lia. Qed.

Lemma getSession_simulates now s a raw : simulates now s a -> simulates now (getSession raw now s).2 a.
Proof.
  intros Hs. unfold getSession. destruct (raw =?s "") eqn:Er; [done|].
  destruct (s !! sha256_hex raw) as [session|] eqn:E1; [|done]. destruct (live now session) eqn:El; cbn [negb snd]; [done|].
  unfold deleteSession. rewrite Er. unfold simulates in *.
  rewrite live_only_delete, delete_id; [done|].
  apply eq_None_not_Some. intros [s' [E2 Hl]%live_only_lookup].
  assert (session = s') as <- by congruence. congruence.
Qed.

Lemma live_size now s a : simulates now s a -> size (live_only now s) = size (live_only now (spec_sessions a)).
Proof. intros ->. by rewrite <- !length_map_to_list, map_to_list_kmap, length_fmap. Qed.

(** One call: the same answer, and the stores still agree. *)
Lemma store_call_simulates now s a c :
  simulates now s a ->
  (store_call now c s).1 = (store_call now c a).1 /\ simulates now (store_call now c s).2 (store_call now c a).2.
Proof.
  intros Hs. destruct c as [[raw|e] session|raw|raw|]; cbn -[maxSessions].
  - unfold cleanupLocked. rewrite (live_size now s a Hs). destruct (Nat.leb _ _); cbn [fst snd].
    + split; [done|]. by apply simulates_cleanup.
    + split; [done|]. by apply simulates_insert, simulates_cleanup.
  - done.
  - pose proof (getSession_spec now s a raw Hs) as Ea. pose proof (getSession_simulates now s a raw Hs) as Hn.
    destruct (getSession raw now s) as [r s']. cbn in *. by subst.
  - unfold deleteSession. split; [done|]. destruct (raw =?s ""); [done|]. by apply simulates_delete.
  - split; [done|]. by apply simulates_cleanup.
Qed.

Lemma answers_simulate from s a history :
  simulates from s a -> clocked from history -> answers_from history s = answers_from history a.
Proof.
  revert from s a. induction history as [|[now c] rest IH]; intros from s a Hs Hc; [done|].
  destruct Hc as [Hle Hc]. apply (simulates_later from now) in Hs; [|done].
  destruct (store_call_simulates now s a c Hs) as [Ea Hn]. cbn [answers_from].
  destruct (store_call now c s) as [r s'], (store_call now c a) as [r' a']. cbn in *. subst. f_equal. eauto.
Qed.

Lemma store_init_simulates now : simulates now store_init store_init.
Proof.
  unfold simulates. cbn. unfold newMemoryAuthStore, live_only. by rewrite !map_filter_empty, kmap_empty.
Qed.

End simulation.

(** ** Theorems *)

Section store_theorems.
Context `{Sha256}.

(** The session store implements its specification: every history of creations, lookups,
    deletions and clean-ups with a clock that does not run backwards gets exactly the answers of
    a map from cookie values to sessions that ignores expired sessions, provided different
    cookie values have different digests. *)
Theorem session_store_refines (from : Time) (history : list (Time * StoreCall)) :
  Inj (=) (=) sha256_hex -> clocked from history ->
  answers_from history (store_init (S := memoryAuthStore)) = answers_from history (store_init (S := SessionSpec)).
Proof.
  intros Hinj Hc. apply (answers_simulate from); [apply store_init_simulates|done].
Qed.

(** The states a history leads through. *)
Fixpoint state_after (history : list (Time * StoreCall)) (s : memoryAuthStore) : memoryAuthStore :=
  match history with
  | [] => s
  | (now, c) :: rest => state_after rest (store_call now c s).2
  end.

Lemma live_only_size now (m : gmap string dashboardSession) : (size (live_only now m) <= size m)%nat.
Proof. apply map_subseteq_size, map_filter_subseteq. Qed.

Lemma delete_size k (m : gmap string dashboardSession) : (size (delete k m) <= size m)%nat.
Proof. apply map_subseteq_size, delete_subseteq. Qed.

(** The number of stored sessions never exceeds [maxSessions]. *)
Lemma store_call_bounded now c (s : memoryAuthStore) :
  (size s <= maxSessions)%nat -> (size (store_call now c s).2 <= maxSessions)%nat.
Proof.
  intros Hs. pose proof (live_only_size now s) as Hl.
  destruct c as [[raw|e] session|raw|raw|]; cbn -[maxSessions]; [| |unfold getSession|unfold deleteSession|]; auto.
  - unfold cleanupLocked. destruct (Nat.leb_spec maxSessions (size (live_only now s))); cbn [snd]; [lia|].
    rewrite map_size_insert. case_match; unfold id; lia.
  - pose proof (delete_size (sha256_hex raw) s). unfold deleteSession.
    repeat case_match; simplify_eq; cbn [snd]; lia.
  - pose proof (delete_size (sha256_hex raw) s). case_match; cbn [snd]; lia.
  - unfold cleanup, cleanupLocked. lia.
Qed.

Theorem session_store_bounded history : (size (state_after history newMemoryAuthStore) <= maxSessions)%nat.
Proof.
  assert (size newMemoryAuthStore <= maxSessions)%nat as H0
    by (unfold newMemoryAuthStore; rewrite map_size_empty; lia).
  revert H0. generalize newMemoryAuthStore. induction history as [|[now c] rest IH]; intros s Hs; [done|].
  cbn [state_after]. by apply IH, store_call_bounded.
Qed.

Fixpoint spec_after (history : list (Time * StoreCall)) (a : SessionSpec) : SessionSpec :=
  match history with
  | [] => a
  | (now, c) :: rest => spec_after rest (store_call now c a).2
  end.

Lemma answers_app {S} `{StoreMachine S} h1 h2 (s : S) :
  exists s', answers_from (h1 ++ h2) s = answers_from h1 s ++ answers_from h2 s'.
Proof.
  revert s. induction h1 as [|[now c] h1 IH]; intros s; [by exists s|]. cbn [app answers_from].
  destruct (store_call now c s) as [r s']. destruct (IH s') as [s'' ->]. by exists s''.
Qed.

Lemma spec_answers_last history now c (a : SessionSpec) :
  last (answers_from (history ++ [(now, c)]) a) = Some (store_call now c (spec_after history a)).1.
Proof.
  revert a. induction history as [|[t c'] rest IH]; intros a.
  { cbn [app answers_from spec_after]. by destruct (store_call now c a). }
  cbn [app answers_from spec_after]. specialize (IH (store_call t c' a).2).
  destruct (store_call t c' a) as [r a']. cbn [snd] in *.
  destruct (answers_from (rest ++ [(now, c)]) a') eqn:E; [done|]. by rewrite <- IH.
Qed.

Definition creates (raw : string) (session : dashboardSession) (e : Time * StoreCall) : Prop :=
  e.2 = CallCreate (Ok raw) session.
Definition deletes (raw : string) (e : Time * StoreCall) : Prop := e.2 = CallDelete raw.

(** An entry of the specification was created by the history and not deleted since, or was
    there before. *)
Lemma spec_entry_origin history (a : SessionSpec) raw session :
  raw <> "" -> spec_sessions (spec_after history a) !! raw = Some session ->
  (exists h1 e h2, history = h1 ++ e :: h2 /\ creates raw session e /\ forall d, d ∈ h2 -> ~ deletes raw d) \/
  (spec_sessions a !! raw = Some session /\ forall d, d ∈ history -> ~ deletes raw d).
Proof.
  intros Hne. revert a. induction history as [|[now c] rest IH]; intros a Hf; cbn [spec_after] in Hf.
  { right. split; [done|]. set_solver. }
  apply IH in Hf as [(h1 & e & h2 & -> & ?)|[Hf Hd]].
  { left. by exists ((now, c) :: h1), e, h2. }
  destruct c as [[raw'|err] s'|raw'|raw'|]; cbn -[maxSessions] in Hf;
    try (right; split; [exact Hf|]; intros d [->|?]%elem_of_cons; [done|by apply Hd]).
  - destruct (Nat.leb _ _); cbn -[maxSessions] in Hf.
    { right. split; [done|]. intros d [->|?]%elem_of_cons; [done|by apply Hd]. }
    destruct (decide (raw' = raw)) as [->|Hr].
    + rewrite lookup_insert_eq in Hf. simplify_eq. left. by exists [], (now, CallCreate (Ok raw) session), rest.
    + rewrite lookup_insert_ne in Hf by done. right. split; [done|].
      intros d [->|?]%elem_of_cons; [done|by apply Hd].
  - destruct (decide (raw' = raw)) as [->|Hr].
    + apply seqb_neq in Hne. rewrite Hne in Hf. cbn in Hf. by rewrite lookup_delete_eq in Hf.
    + assert (spec_sessions a !! raw = Some session) as Hf'.
      { destruct (raw' =?s ""); [done|]. cbn in Hf. by rewrite lookup_delete_ne in Hf. }
      right. split; [done|]. intros d [->|?]%elem_of_cons; [|by apply Hd]. intros [= E]. done.
Qed.

(** A lookup finds a session only if a creation drew this cookie value for it, nothing deleted
    it since, and it has not expired. *)
Theorem session_found_created from history now raw session :
  Inj (=) (=) sha256_hex -> clocked from (history ++ [(now, CallGet raw)]) ->
  last (answers_from (history ++ [(now, CallGet raw)]) newMemoryAuthStore) = Some (Found (Some session)) ->
  now < ds_ExpiresAt session /\
  exists h1 e h2, history = h1 ++ e :: h2 /\ creates raw session e /\ forall d, d ∈ h2 -> ~ deletes raw d.
Proof.
  intros Hinj Hc. change newMemoryAuthStore with (store_init (S := memoryAuthStore)).
  rewrite (answers_simulate from _ (store_init (S := SessionSpec))) by (done || apply store_init_simulates).
  rewrite spec_answers_last. cbn. unfold spec_find. destruct (raw =?s "") eqn:Er; [done|].
  destruct (spec_sessions _ !! raw) as [s'|] eqn:Ef; [|done]. destruct (live now s') eqn:El; [|done].
  intros [= ->]. split; [by apply Z.ltb_lt|]. apply seqb_neq in Er.
  apply spec_entry_origin in Ef as [?|[Hf _]]; [done| |done]. cbn in Hf. by rewrite lookup_empty in Hf.
Qed.

End store_theorems.
