(* ===== verification/SessionConcurrency.v ===== *)
(** * The session store under concurrency

    The handlers of the dashboard and its clean-up goroutine share one [memoryAuthStore]
    ([cmd/aks-sandbox-dashboard/auth.go]).  A method holds the mutex for a part of its work only: a
    lookup takes it to read, reads the clock without it, and takes it again to delete what has
    expired.  Here each critical section is one step on the shared store, which reads the clock if
    the code does so while it holds the mutex, and each call is a thread of such steps.

    [sessions_linearizable]: nevertheless every call of every execution takes effect at one instant
    between its start and its return, and there as the specification of [SessionStore] says. *)

From S2P Require Import Prelude ApiTypes DashboardTypes Governance SessionStore Threads.
From stdpp Require Import options.

Section shared_store.
Context `{Sha256}.

(** ** The shared store *)

(** The sessions, and the last reading of the clock, which does not run backwards. *)
Record SharedStore := { sh_clock : Time; sh_sessions : memoryAuthStore }.

Inductive StoreStep : Type -> Type :=
  | step_randomValue : StoreStep (result string)
  | step_now : StoreStep Time
  | step_Done : StoreStep bool                                             (** of the context of the loop *)
  | step_Lookup (key : string) : StoreStep (option dashboardSession)       (** [RLock] to [RUnlock] *)
  | step_Delete (raw : string) : StoreStep unit                            (** [Lock] to [Unlock], as the next two *)
  | step_Create (raw : string) (session : dashboardSession) : StoreStep (Time * result string)
  | step_Cleanup : StoreStep Time.

Definition store_answers {R} (op : StoreStep R) (s : SharedStore) (r : R) (s' : SharedStore) : Prop :=
  match op in StoreStep R return R -> Prop with
  | step_randomValue => fun _ => s' = s
  | step_now => fun now => sh_clock s <= now /\ s' = {| sh_clock := now; sh_sessions := sh_sessions s |}
  | step_Done => fun _ => s' = s
  | step_Lookup key => fun found => found = sh_sessions s !! key /\ s' = s
  | step_Delete raw => fun _ =>
      s' = {| sh_clock := sh_clock s; sh_sessions := delete (sha256_hex raw) (sh_sessions s) |}
  | step_Create raw session => fun created =>
      sh_clock s <= created.1 /\ sh_clock s' = created.1
      /\ (created.2, sh_sessions s') = createSession (Ok raw) created.1 session (sh_sessions s)
  | step_Cleanup => fun now =>
      sh_clock s <= now /\ s' = {| sh_clock := now; sh_sessions := cleanup now (sh_sessions s) |}
  end r.

(** ** The calls as threads *)

Definition shared_createSession (session : dashboardSession) : Prog StoreStep (result string) :=
  raw <-? call step_randomValue ;;
  created <-- call (step_Create raw session) ;;
  Ret created.2.

Definition shared_deleteSession (raw : string) : Prog StoreStep unit :=
  if raw =?s "" then Ret tt else call (step_Delete raw).

Definition shared_getSession (raw : string) : Prog StoreStep (option dashboardSession) :=
  if raw =?s "" then Ret None
  else
    found <-- call (step_Lookup (sha256_hex raw)) ;;
    match found with
    | None => Ret None
    | Some session =>
        now <-- call step_now ;;
        if negb (live now session) then _ <-- shared_deleteSession raw ;; Ret None
        else Ret (Some session)
    end.

(** [cleanupLoop] of the authenticator for [rounds] ticks. *)
Fixpoint shared_cleanupLoop (rounds : nat) : Prog StoreStep unit :=
  match rounds with
  | O => Ret tt
  | S rounds =>
      finished <-- call step_Done ;;
      match finished with
      | true => Ret tt
      | false => _ <-- call step_Cleanup ;; shared_cleanupLoop rounds
      end
  end.

Inductive SessionWork :=
  | CreateWork (session : dashboardSession)
  | GetWork (raw : string)
  | DeleteWork (raw : string)
  | CleanupWork (rounds : nat).

Definition store_thread (w : SessionWork) : Prog StoreStep StoreAnswer :=
  match w with
  | CreateWork session => r <-- shared_createSession session ;; Ret (Created r)
  | GetWork raw => r <-- shared_getSession raw ;; Ret (Found r)
  | DeleteWork raw => _ <-- shared_deleteSession raw ;; Ret Done
  | CleanupWork rounds => _ <-- shared_cleanupLoop rounds ;; Ret Done
  end.

(** From an empty store at time [from]. *)
Definition shares (from : Time) (works : nat -> SessionWork) :=
  execution (@store_answers) {| sh_clock := from; sh_sessions := newMemoryAuthStore |} (fun i => store_thread (works i)).

(** ** The specification along an execution *)

(** A creation takes effect in its critical section, and so does the deletion of a logout.  The
    deletion by a lookup and the clean-up have no effect. *)
Definition effect (works : nat -> SessionWork) (a : SessionSpec) (x : nat * Event StoreStep) : SessionSpec :=
  match x.2 with
  | Ev op r =>
      match op in StoreStep R return R -> SessionSpec with
      | step_Create raw session => fun r => (store_call r.1 (CallCreate (Ok raw) session) a).2
      | step_Delete raw => fun _ =>
          if works x.1 is DeleteWork _ then {| spec_sessions := delete raw (spec_sessions a) |} else a
      | _ => fun _ => a
      end r
  end.

Definition spec_after (works : nat -> SessionWork) (tr : list (nat * Event StoreStep)) : SessionSpec :=
  foldl (effect works) store_init tr.

(** The clock along an execution that starts at [from]. *)
Definition step_clock (c : Time) (x : nat * Event StoreStep) : Time :=
  match x.2 with
  | Ev op r =>
      match op in StoreStep R return R -> Time with
      | step_now => fun now => now
      | step_Create _ _ => fun created => created.1
      | step_Cleanup => fun now => now
      | _ => fun _ => c
      end r
  end.

Definition clock_after (from : Time) (tr : list (nat * Event StoreStep)) : Time := foldl step_clock from tr.

(** The call of the store that a thread makes; a creation with the value that it has drawn. *)
Definition call_of (tr : list (nat * Event StoreStep)) (i : nat) (w : SessionWork) (c : StoreCall) : Prop :=
  match w with
  | CreateWork session => exists random, (i, Ev step_randomValue random) ∈ tr /\ c = CallCreate random session
  | GetWork raw => c = CallGet raw
  | DeleteWork raw => c = CallDelete raw
  | CleanupWork _ => c = CallCleanup
  end.

(** Call [c] of thread [i] gets [answer] as if it had been made in one go: it has nothing to do with
    the sessions, or one of the steps of the thread does what the specification does at that instant. *)
Definition takes_effect (from : Time) (works : nat -> SessionWork) (tr : list (nat * Event StoreStep)) (i : nat)
  (c : StoreCall) (answer : StoreAnswer) : Prop :=
  (forall t (a : SessionSpec), store_call t c a = (answer, a))
  \/ exists tr1 e tr2, tr = tr1 ++ (i, e) :: tr2
       /\ store_call (clock_after from (tr1 ++ [(i, e)])) c (spec_after works tr1)
          = (answer, spec_after works (tr1 ++ [(i, e)])).

(** The values under which sessions were created. *)
Definition created_value (x : nat * Event StoreStep) : option string :=
  match x.2 with
  | Ev op r =>
      match op in StoreStep R return R -> option string with
      | step_Create raw _ => fun r => if r.2 is Ok _ then Some raw else None
      | _ => fun _ => None
      end r
  end.

End shared_store.

(** ** Where sessions come from *)

Section sources.
Context `{Sha256}.

Definition created_in (tr : list (nat * Event StoreStep)) (key : string) (session : dashboardSession) : Prop :=
  exists j raw now v, (j, Ev (step_Create raw session) (now, Ok v)) ∈ tr /\ key = sha256_hex raw.

Lemma created_in_sub tr tr' key session : tr ⊆ tr' -> created_in tr key session -> created_in tr' key session.
Proof. intros Hs (j & raw & now & v & Hin & Hk). exists j, raw, now, v. split; [by apply Hs|done]. Qed.

Lemma nodup_omap {A B} (f : A -> option B) l x y b :
  NoDup (omap f l) -> x ∈ l -> y ∈ l -> f x = Some b -> f y = Some b -> x = y.
Proof.
  induction l as [|z l IH]; intros Hn Hx Hy Ex Ey; [by apply elem_of_nil in Hx|].
  assert (forall w, w ∈ l -> f w = Some b -> b ∈ omap f l) as Hin by (intros; apply list_elem_of_omap; eauto).
  apply elem_of_cons in Hx as [->|Hx], Hy as [->|Hy]; [done| | |].
  - cbn in Hn. rewrite Ex in Hn. apply NoDup_cons in Hn as [Hn _]. by edestruct Hn; eauto.
  - cbn in Hn. rewrite Ey in Hn. apply NoDup_cons in Hn as [Hn _]. by edestruct Hn; eauto.
  - apply IH; try done. cbn in Hn. destruct (f z); [by apply NoDup_cons in Hn as [_ ?]|done].
Qed.

Definition event_session (x : nat * Event StoreStep) : option dashboardSession :=
  match x.2 with Ev op _ => match op with step_Create _ session => Some session | _ => None end end.

(** When no value is drawn twice, a key stands for one session. *)
Lemma created_unique `{!Inj (=) (=) sha256_hex} tr key x y :
  NoDup (omap created_value tr) -> created_in tr key x -> created_in tr key y -> x = y.
Proof.
  intros Hn (j & raw & now & v & Hx & ->) (j' & raw' & now' & v' & Hy & <-%(inj sha256_hex)).
  assert (Some x = Some y) as [= ->]; [|done].
  change (event_session (j, Ev (step_Create raw x) (now, Ok v)) = event_session (j', Ev (step_Create raw y) (now', Ok v'))).
  f_equal. by eapply nodup_omap.
Qed.

(** ** What a thread deletes *)

Definition is_delete (e : Event StoreStep) : bool :=
  match e with Ev op _ => match op with step_Delete _ => true | _ => false end end.

(** A lookup deletes what it has found and seen to be expired. *)
Definition may_delete (w : SessionWork) (before : list (Event StoreStep)) (e : Event StoreStep) : Prop :=
  match e with
  | Ev op _ =>
      match op with
      | step_Delete raw => if w is DeleteWork _ then True else
          exists session now, Ev (step_Lookup (sha256_hex raw)) (Some session) ∈ before
            /\ Ev step_now now ∈ before /\ live now session = false
      | _ => True
      end
  end.

Lemma cleanupLoop_quiet rounds : quiet is_delete (shared_cleanupLoop rounds).
Proof. induction rounds as [|rounds IH]; cbn [shared_cleanupLoop]; solve_quiet. Qed.

Lemma thread_deletes w : guarded is_delete (may_delete w) (store_thread w).
Proof.
  destruct w as [session|raw|raw|rounds]; cbn [store_thread]; (apply guarded_bind; [|intros; apply guarded_ret]).
  - apply guarded_quiet. unfold shared_createSession. solve_quiet.
  - unfold shared_getSession, shared_deleteSession. destruct (raw =?s "") eqn:Er; [apply guarded_ret|].
    apply guarded_bind; [apply guarded_quiet; solve_quiet|]. intros [session|] t1 ->%run_call; [|apply guarded_ret].
    apply guarded_bind; [apply guarded_quiet; solve_quiet|]. intros now t2 ->%run_call.
    destruct (live now session) eqn:El; cbn [negb]; [apply guarded_ret|].
    apply guarded_bind; [|intros; apply guarded_ret]. apply guarded_call. intros []. exists session, now. set_solver.
  - unfold shared_deleteSession. destruct (raw =?s ""); [apply guarded_ret|]. by apply guarded_call.
  - apply guarded_quiet, cleanupLoop_quiet.
Qed.

End sources.

(** ** The invariant *)

Section linearizable.
Context `{Sha256} {sha_inj : Inj (=) (=) sha256_hex} (from : Time) (works : nat -> SessionWork).
#[local] Set Default Proof Using "All".

Record store_inv (tr : list (nat * Event StoreStep)) (s : SharedStore) : Prop := {
  si_size : (size (sh_sessions s) <= maxSessions)%nat;
  si_created : forall key session, sh_sessions s !! key = Some session -> created_in tr key session;
  si_found : forall j key session, (j, Ev (step_Lookup key) (Some session)) ∈ tr -> created_in tr key session;
  si_clock : forall j t, (j, Ev step_now t) ∈ tr -> t <= sh_clock s;
  si_simulates : simulates (sh_clock s) (sh_sessions s) (spec_after works tr)
}.

Lemma spec_after_snoc tr x : spec_after works (tr ++ [x]) = effect works (spec_after works tr) x.
Proof. unfold spec_after. by rewrite foldl_app. Qed.

(** Deleting a key with nothing live under it is not seen. *)
Lemma delete_expired now s a raw :
  (forall session, s !! sha256_hex raw = Some session -> live now session = false) ->
  simulates now s a -> simulates now (delete (sha256_hex raw) s) a.
Proof.
  intros Hx Hs. unfold simulates in *. rewrite live_only_delete, delete_id; [done|].
  apply eq_None_not_Some. intros [session [E Hl]%live_only_lookup]. apply Hx in E. congruence.
Qed.

Definition lookup_found (e : Event StoreStep) : option (string * option dashboardSession) :=
  match e with
  | Ev op r => match op in StoreStep R return R -> _ with step_Lookup key => fun r => Some (key, r) | _ => fun _ => None end r
  end.

Definition clock_read (e : Event StoreStep) : option Time :=
  match e with
  | Ev op r => match op in StoreStep R return R -> _ with step_now => fun r => Some r | _ => fun _ => None end r
  end.

(** The clauses about the trace, after a step that finds no session and reads no clock. *)
Lemma inv_snoc tr i e s s' :
  store_inv tr s -> sh_clock s <= sh_clock s' ->
  (size (sh_sessions s') <= maxSessions)%nat ->
  (forall key session, sh_sessions s' !! key = Some session -> created_in (tr ++ [(i, e)]) key session) ->
  (forall key session, lookup_found e = Some (key, Some session) -> sh_sessions s !! key = Some session) ->
  (forall t, clock_read e = Some t -> t <= sh_clock s') ->
  simulates (sh_clock s') (sh_sessions s') (spec_after works (tr ++ [(i, e)])) ->
  store_inv (tr ++ [(i, e)]) s'.
Proof.
  intros [Hsz Hcr Hf Hc Hs] Hle Hsz' Hcr' Hlook Hclk Hsim. assert (tr ⊆ tr ++ [(i, e)]) as Hsub by set_solver.
  constructor; [done|done| | |done].
  - intros j key session [Hin|Hin]%elem_of_app; [by eapply created_in_sub, Hf|].
    apply list_elem_of_singleton in Hin. injection Hin as _ <-. by eapply created_in_sub, Hcr, Hlook.
  - intros j t [Hin|Hin]%elem_of_app; [apply Hc in Hin; lia|].
    apply list_elem_of_singleton in Hin. injection Hin as _ <-. by apply Hclk.
Qed.

(** Where the execution stands when thread [i] deletes: a logout, or nothing live is under the key. *)
Lemma deletes_expired tr s now i raw :
  shares from works (tr ++ [(i, Ev (step_Delete raw) tt)]) s now -> NoDup (omap created_value tr) ->
  forall s0, store_inv tr s0 -> (if works i is DeleteWork _ then True else
    forall session, sh_sessions s0 !! sha256_hex raw = Some session -> live (sh_clock s0) session = false).
Proof.
  intros Hx Hn s0 Hinv.
  destruct (execution_elem (@store_answers _)
    (fun R op => match op with step_randomValue => Ok "" | step_now => 0 | step_Done => false | step_Lookup _ => None
                 | step_Delete _ => tt | step_Create _ _ => (0, Ok "") | step_Cleanup => 0 end)
    _ _ _ _ _ i is_delete (may_delete (works i)) (Ev (step_Delete raw) tt) Hx (thread_deletes (works i)))
    as (t1 & t2 & He & Hmay); [set_solver|done|]. cbn in Hmay.
  assert (forall session now0, Ev (step_Lookup (sha256_hex raw)) (Some session) ∈ t1 -> Ev step_now now0 ∈ t1 ->
    live now0 session = false -> forall found, sh_sessions s0 !! sha256_hex raw = Some found ->
    live (sh_clock s0) found = false) as Hexp.
  { intros session now0 Hl Ht Hlive found Hfound.
    assert (forall e, e ∈ t1 -> is_delete e = false -> (i, e) ∈ tr) as Hin.
    { intros e Hin Hd. assert (e ∈ events_of i (tr ++ [(i, Ev (step_Delete raw) tt)])) as Hin' by (rewrite He; set_solver).
      apply elem_of_events_of in Hin' as [?|Hl']%elem_of_app; [done|]. apply list_elem_of_singleton in Hl'.
      injection Hl' as ->. done. }
    apply Hin in Hl; [|done]. apply Hin in Ht; [|done].
    assert (found = session) as ->.
    { eapply created_unique; [done|by eapply si_created|by eapply si_found]. }
    apply not_true_iff_false. intros Hlive'. apply (live_mono now0) in Hlive'; [congruence|]. by eapply si_clock. }
  destruct (works i); [..|done|]; destruct Hmay as (x & t0 & ? & ? & ?); eauto.
Qed.

Lemma createSession_created (raw : string) now session s r s' :
  (r, s') = createSession (Ok raw) now session s ->
  forall key found, s' !! key = Some found ->
    s !! key = Some found \/ (key = sha256_hex raw /\ found = session /\ exists v, r = Ok v).
Proof.
  unfold createSession, cleanupLocked. intros E key found Hf.
  destruct (Nat.leb _ _); injection E as -> ->; [apply live_only_lookup in Hf as [? _]; by left|].
  apply lookup_insert_Some in Hf as [[<- <-]|[_ Hf]]; [by eauto|]. apply live_only_lookup in Hf as [? _]. by left.
Qed.

(** A creation: what the specification does, within the capacity. *)
Lemma create_inv tr i raw session created s s' :
  store_inv tr s -> store_answers (step_Create raw session) s created s' ->
  store_inv (tr ++ [(i, Ev (step_Create raw session) created)]) s'
  /\ Created created.2 = (store_call (sh_clock s') (CallCreate (Ok raw) session) (spec_after works tr)).1.
Proof.
  intros Hinv (Hle & Hclock & E). destruct created as [now r]. cbn [fst snd] in *.
  pose proof (simulates_later _ now _ _ Hle (si_simulates _ _ Hinv)) as Hsim.
  destruct (store_call_simulates now (sh_sessions s) _ (CallCreate (Ok raw) session) Hsim) as [Ea Hs'].
  pose proof (store_call_bounded now (CallCreate (Ok raw) session) (sh_sessions s) (si_size _ _ Hinv)) as Hb.
  cbn [store_call memory_machine] in Ea, Hs', Hb. rewrite <- E in Ea, Hs', Hb. cbn [fst snd] in Ea, Hs', Hb.
  rewrite Hclock. split; [|done].
  apply (inv_snoc tr i _ s s' Hinv); rewrite ?Hclock; try done; [|by rewrite spec_after_snoc].
  intros key found [Hin|(-> & -> & v & ->)]%(createSession_created _ _ _ _ _ _ E).
  - eapply created_in_sub; [|by eapply si_created]. set_solver.
  - exists i, raw, now, v. set_solver.
Qed.

Lemma shares_inv tr s now : shares from works tr s now -> NoDup (omap created_value tr) -> store_inv tr s.
Proof.
  unfold shares. induction 1 as [|R tr s now i op k r s' Hx IH Hi Ha]; intros Hn.
  { constructor; cbn [sh_sessions sh_clock]; unfold newMemoryAuthStore.
    - rewrite map_size_empty. lia.
    - by intros key session Hk%lookup_empty_Some.
    - by intros j key session Hk%elem_of_nil.
    - by intros j t Hk%elem_of_nil.
    - apply store_init_simulates. }
  assert (NoDup (omap created_value tr)) as Hn' by (rewrite omap_app in Hn; by apply NoDup_app in Hn as [? _]).
  specialize (IH Hn'). pose proof (execution_step _ _ _ _ _ _ _ _ _ _ _ Hx Hi Ha) as Hx'.
  assert (forall key session, sh_sessions s !! key = Some session -> created_in (tr ++ [(i, Ev op r)]) key session) as Hcr
    by (intros; eapply created_in_sub; [|by eapply si_created]; set_solver).
  pose proof (si_simulates _ _ IH) as Hsim. pose proof (si_size _ _ IH) as Hsize.
  destruct op as [| | |key|raw|raw session|]; cbn in Ha.
  - subst s'. apply (inv_snoc tr i _ s s IH); rewrite ?spec_after_snoc; done || lia.
  - destruct Ha as [Hle ->]. apply (inv_snoc tr i _ s _ IH); rewrite ?spec_after_snoc; cbn; try done.
    + intros t [= ->]. lia.
    + by apply (simulates_later (sh_clock s)).
  - subst s'. apply (inv_snoc tr i _ s s IH); rewrite ?spec_after_snoc; done || lia.
  - destruct Ha as [-> ->]. apply (inv_snoc tr i _ s s IH); rewrite ?spec_after_snoc; cbn; try done || lia.
    by intros key' session [= <- E].
  - subst s'. destruct r. pose proof (deletes_expired _ _ _ _ _ Hx' Hn' s IH) as Hd.
    apply (inv_snoc tr i _ s _ IH); rewrite ?spec_after_snoc; cbn; try done || lia.
    + etrans; [apply delete_size|done].
    + intros key session [_ ?]%lookup_delete_Some. by apply Hcr.
    + unfold effect. cbn. destruct (works i); [by apply delete_expired..|by apply simulates_delete|by apply delete_expired].
  - by eapply create_inv.
  - destruct Ha as [Hle ->]. apply (inv_snoc tr i _ s _ IH); rewrite ?spec_after_snoc; cbn; try done.
    + etrans; [apply live_only_size|done].
    + intros key session [? _]%live_only_lookup. by apply Hcr.
    + by apply simulates_cleanup, (simulates_later (sh_clock s)).
Qed.

(** ** The clock *)

Lemma clock_step i op s s' : event_answers (@store_answers _) op s s' ->
  sh_clock s' = step_clock (sh_clock s) (i, op) /\ sh_clock s <= sh_clock s'.
Proof. destruct op as [R op r]. destruct op; cbn; intros Ha; destruct_and?; subst; cbn; split; lia || done. Qed.

Lemma shares_clock tr s now : shares from works tr s now -> sh_clock s = clock_after from tr.
Proof.
  unfold shares. induction 1 as [|R tr s now i op k r s' Hx IH Hi Ha]; [done|].
  apply (clock_step i (Ev op r)) in Ha as [-> _]. unfold clock_after. by rewrite foldl_app, IH.
Qed.

Lemma clock_grows tr1 tr2 s now :
  shares from works (tr1 ++ tr2) s now -> clock_after from tr1 <= clock_after from (tr1 ++ tr2).
Proof.
  revert s now. induction tr2 as [|x tr2 IH] using rev_ind; intros s now Hx; [by rewrite app_nil_r|].
  rewrite app_assoc in Hx. destruct (execution_split _ _ _ _ _ _ _ _ Hx) as (s1 & now1 & s2 & now2 & Hx1 & Hx2 & Ha).
  specialize (IH _ _ Hx1). rewrite app_assoc, <- (shares_clock _ _ _ Hx2). rewrite <- (shares_clock _ _ _ Hx1) in IH.
  apply (clock_step 0%nat) in Ha as [_ Ha]. lia.
Qed.

(** ** Instants *)

(** A step of thread [i] at which the specification does the call. *)
Lemma effect_at tr i e c answer s now :
  shares from works tr s now -> NoDup (omap created_value tr) -> (i, e) ∈ tr ->
  (forall tr1 tr2 s1 s2, tr = tr1 ++ (i, e) :: tr2 -> event_answers (@store_answers _) e s1 s2 ->
     sh_clock s1 = clock_after from tr1 -> store_inv tr1 s1 -> store_inv (tr1 ++ [(i, e)]) s2 ->
     store_call (sh_clock s2) c (spec_after works tr1) = (answer, effect works (spec_after works tr1) (i, e))) ->
  takes_effect from works tr i c answer.
Proof.
  intros Hx Hn (tr1 & tr2 & ->)%list_elem_of_split Hc. right.
  destruct (execution_split _ _ _ _ _ _ _ _ Hx) as (s1 & now1 & s2 & now2 & Hx1 & Hx2 & Ha).
  exists tr1, e, tr2. split; [done|].
  rewrite cons_middle, app_assoc, omap_app in Hn. apply NoDup_app in Hn as [Hn2 _].
  assert (NoDup (omap created_value tr1)) as Hn1 by (rewrite omap_app in Hn2; by apply NoDup_app in Hn2 as [? _]).
  rewrite <- (shares_clock _ _ _ Hx2), spec_after_snoc.
  eapply Hc; [done|exact Ha|by eapply shares_clock|by eapply shares_inv|by eapply shares_inv].
Qed.

(** The clock that a lookup reads is read after it has looked. *)
Lemma looked_before tr s now i key session t tr1 tr2 :
  shares from works tr s now -> events_of i tr = [Ev (step_Lookup key) (Some session); Ev step_now t] ->
  tr = tr1 ++ (i, Ev (step_Lookup key) (Some session)) :: tr2 -> clock_after from tr1 <= t.
Proof.
  intros Hx He ->. rewrite cons_middle, app_assoc in He. unfold events_of in He. rewrite !omap_app in He. cbn in He.
  rewrite decide_True in He by done. fold (events_of i tr1) in He. fold (events_of i tr2) in He.
  destruct (events_of i tr1) as [|e1 [|e2 l]]; cbn in He.
  - apply (f_equal tail) in He. cbn in He.
    assert (Ev step_now t ∈ events_of i tr2) as Hin by (rewrite He; set_solver).
    apply elem_of_events_of, list_elem_of_split in Hin as (u & v & ->). rewrite app_comm_cons, app_assoc in Hx.
    destruct (execution_split _ _ _ _ _ _ _ _ Hx) as (s1 & now1 & s2 & now2 & Hx1 & _ & [Hle _]).
    rewrite (shares_clock _ _ _ Hx1) in Hle. etrans; [by eapply clock_grows|done].
  - by apply (f_equal (fun l => (l !! 1%nat) ≫= clock_read)) in He.
  - apply (f_equal length) in He. cbn in He. rewrite !length_app in He. cbn in He. lia.
Qed.

(** A lookup.  What it finds and is still live was live in the specification when it was found; what
    it finds and has expired since is not found there when the clock is read. *)
Lemma get_effect tr s now i raw answer :
  shares from works tr s now -> NoDup (omap created_value tr) ->
  run (shared_getSession raw) (events_of i tr) answer -> takes_effect from works tr i (CallGet raw) (Found answer).
Proof.
  intros Hx Hn Hr. unfold shared_getSession in Hr. destruct (raw =?s "") eqn:Er.
  { destruct Hr as [_ <-]. left. intros t a. cbn. unfold spec_find. by rewrite Er. }
  apply run_bind in Hr as (found & t1 & t2 & Et & ->%run_call & Hr).
  assert ((i, Ev (step_Lookup (sha256_hex raw)) found) ∈ tr) as Hlook by (apply elem_of_events_of; rewrite Et; set_solver).
  destruct found as [session|].
  2: { destruct Hr as [_ <-]. eapply effect_at; [done|done|exact Hlook|]. intros tr1 tr2 s1 s2 _ [Hnone ->] _ Hinv _.
       cbn. rewrite <- (getSession_spec (sh_clock s1) (sh_sessions s1)) by apply Hinv.
       unfold getSession. by rewrite Er, <- Hnone. }
  apply run_bind in Hr as (t & t3 & t4 & -> & ->%run_call & Hr).
  assert ((i, Ev step_now t) ∈ tr) as Hnow by (apply elem_of_events_of; rewrite Et; set_solver).
  destruct (live t session) eqn:El; cbn [negb] in Hr.
  - destruct Hr as [-> <-]. eapply effect_at; [done|done|exact Hlook|]. intros tr1 tr2 s1 s2 Etr [Hsome ->] Hclock Hinv _.
    cbn. rewrite <- (getSession_spec (sh_clock s1) (sh_sessions s1)) by apply Hinv.
    unfold getSession. rewrite Er, <- Hsome, (live_mono (sh_clock s1) t); [done| |done].
    rewrite Hclock. by eapply looked_before.
  - apply run_bind in Hr as (u & t5 & t6 & -> & _ & [_ <-]).
    eapply effect_at; [done|done|exact Hnow|]. intros tr1 tr2 s1 s2 Etr [Hle ->] _ Hinv1 Hinv.
    apply si_simulates in Hinv. rewrite spec_after_snoc in Hinv. cbn in Hinv |- *.
    rewrite <- (getSession_spec t (sh_sessions s1)) by done.
    unfold getSession. rewrite Er. destruct (sh_sessions s1 !! sha256_hex raw) as [x|] eqn:E1; [|done].
    assert (x = session) as ->; [|by rewrite El].
    eapply created_unique; [done| |by eapply si_found, Hlook; eapply shares_inv].
    eapply created_in_sub; [|by eapply si_created]. rewrite Etr. set_solver.
Qed.

Lemma create_effect tr s now i session answer :
  shares from works tr s now -> NoDup (omap created_value tr) ->
  run (shared_createSession session) (events_of i tr) answer ->
  exists random, (i, Ev step_randomValue random) ∈ tr
    /\ takes_effect from works tr i (CallCreate random session) (Created answer).
Proof.
  intros Hx Hn Hr. unfold shared_createSession, prog_try in Hr.
  apply run_bind in Hr as (random & t1 & t2 & Et & ->%run_call & Hr). exists random.
  split; [apply elem_of_events_of; rewrite Et; set_solver|].
  destruct random as [raw|e]; [|destruct Hr as [_ <-]; by left].
  apply run_bind in Hr as (created & t3 & t4 & -> & ->%run_call & [_ <-]).
  assert ((i, Ev (step_Create raw session) created) ∈ tr) as Hin by (apply elem_of_events_of; rewrite Et; set_solver).
  eapply effect_at; [done|done|exact Hin|]. intros tr1 tr2 s1 s2 _ Ha _ Hinv _.
  destruct (create_inv _ i _ _ _ _ _ Hinv Ha) as [_ Hc]. destruct Ha as (_ & Hclock & _).
  rewrite (surjective_pairing (store_call _ _ _)), <- Hc, Hclock. done.
Qed.

Lemma delete_effect tr s now i raw :
  shares from works tr s now -> NoDup (omap created_value tr) -> works i = DeleteWork raw ->
  run (shared_deleteSession raw) (events_of i tr) tt -> takes_effect from works tr i (CallDelete raw) Done.
Proof.
  intros Hx Hn Hw Hr. unfold shared_deleteSession in Hr. destruct (raw =?s "") eqn:Er.
  { left. intros t a. cbn. by rewrite Er. }
  apply run_call in Hr. assert ((i, Ev (step_Delete raw) tt) ∈ tr) as Hin by (apply elem_of_events_of; rewrite Hr; set_solver).
  eapply effect_at; [done|done|exact Hin|]. intros tr1 tr2 s1 s2 _ _ _ _ _. cbn. by rewrite Er, Hw.
Qed.

End linearizable.

(** ** Theorem *)

Section session_theorems.
Context `{Sha256}.

(** C18. The session store is linearizable.  In every interleaving of any number of sign-ins, lookups
    and logouts with each other and with the clean-up loop, the store never exceeds its capacity, and
    every call that has returned was answered as if it had been made in one go at the instant of one
    of its own steps, by a map from cookie values to sessions in which nothing is ever collected.
    That a lookup releases the mutex before it compares the expiry and deletes is never observed, and
    no session is lost by clean-ups or by concurrent lookups.  Assumed are a clock that does not run
    backwards, a digest without collisions, and that no random value is used for two sessions. *)
Theorem sessions_linearizable (from : Time) (works : nat -> SessionWork) tr s now i answer :
  Inj (=) (=) sha256_hex -> shares from works tr s now -> NoDup (omap created_value tr) -> now i = Ret answer ->
  (size (sh_sessions s) <= maxSessions)%nat
  /\ exists c, call_of tr i (works i) c /\ takes_effect from works tr i c answer.
Proof.
  intros Hinj Hx Hn Hi. split; [by eapply si_size, shares_inv|].
  pose proof (execution_returned _ _ _ _ _ _ _ _ Hx Hi) as Hr. cbv beta in Hr.
  destruct (works i) as [session|raw|raw|rounds] eqn:Ew; cbn [store_thread call_of] in *;
    apply run_bind in Hr as (out & t1 & t2 & Et & Hr & [-> <-]); rewrite app_nil_r in Et; subst t1.
  - destruct (create_effect from works _ _ _ _ _ _ Hx Hn Hr) as (random & Hin & He). eauto.
  - eauto using get_effect.
  - destruct out. eauto using delete_effect.
  - exists CallCleanup. split; [done|by left].
Qed.

End session_theorems.
