(* ===== verification/TokenValidation.v ===== *)
(** * Validation of Entra tokens by MISE

    [cmd/aks-sandbox-dashboard/mise.go].  A token is sent to the MISE endpoint, which answers
    with the token's claims as response headers.  The Go code ranges over those headers in an
    unspecified order; here the order is that of the header list, and the theorems hold for
    every list.  An endpoint that does not parse as a URL is one of the failures of the call.  The
    validator's errors are only logged, so their texts are shortened. *)

From S2P Require Import Prelude GoStrings GoEncoding GoJson DashboardTypes Kube.
From stdpp Require Import options.

(** [tokenValidator]. *)
Class TokenValidator := { Validate : string -> KProg (result authenticatedIdentity) }.

Record miseTokenValidator := {
  mise_endpoint : string;
  mise_policy : string;
  mise_tenantID : string;
  mise_requiredScope : string;
  mise_requiredRole : string
}.

(** [time.Unix(sec, 0)]: the seconds since year 1 are kept in 64 bits and wrap. *)
Definition unixToInternal : Z := 62135596800.
Definition time_Unix (sec : Z) : Time := (wrap64 (sec + unixToInternal) - unixToInternal) * Second.

Abbreviation claimSet := (gmap string (list string)).

Definition plainPrefix : string := "subject-token-claim-".
Definition encodedPrefix : string := "subject-token-encoded-claim-".

Section mise.
Context `{UnicodeTables}.

Definition claim_first (c : claimSet) (name : string) : string :=
  match default [] (c !! ToLower name) with [] => "" | value :: _ => value end.

Fixpoint firstNonEmptyClaim (claims : claimSet) (names : list string) : string :=
  match names with
  | [] => ""
  | name :: rest =>
      let value := claim_first claims name in
      if value <>?s "" then value else firstNonEmptyClaim claims rest
  end.

(** The decoded values of one encoded claim header. *)
Fixpoint decode_values (claim : string) (values : list string) : result (list string) :=
  match values with
  | [] => Ok []
  | value :: rest =>
      match StdEncoding_DecodeString value with
      | Err e => Err (ErrWrap ("decode MISE claim " +:+ claim) e)
      | Ok decoded => out <-! decode_values claim rest ;; Ok (decoded :: out)
      end
  end.

Definition add_claims (claim : string) (values : list string) (claims : claimSet) : claimSet :=
  <[claim := default [] (claims !! claim) ++ values]> claims.

Fixpoint claims_loop (headers : Header) (claims : claimSet) : result claimSet :=
  match headers with
  | [] => Ok claims
  | (name, values) :: rest =>
      let lowerName := ToLower name in
      if HasPrefix lowerName plainPrefix
      then claims_loop rest (add_claims (TrimPrefix lowerName plainPrefix) values claims)
      else if HasPrefix lowerName encodedPrefix
      then
        let claim := TrimPrefix lowerName encodedPrefix in
        decoded <-! decode_values claim values ;;
        claims_loop rest (if Nat.eqb (length values) 0 then claims else add_claims claim decoded claims)
      else claims_loop rest claims
  end.

Definition subjectClaims (headers : Header) : result claimSet := claims_loop headers ∅.

Definition expandedClaimValue (value : string) : list string :=
  match json_strings value with
  | Ok array => array
  | Err _ => FieldsFunc " ," value
  end.
Definition expandedClaimValues (values : list string) : list string := mjoin (expandedClaimValue <$> values).

(** The identity the claims describe, before its expiry is known. *)
Definition claimed_identity (claims : claimSet) (expiresAt : Time) : authenticatedIdentity := {|
  ai_TenantID := claim_first claims "tid";
  ai_ObjectID := claim_first claims "oid";
  ai_Name := firstNonEmptyClaim claims ["preferred_username"; "upn"; "name"];
  ai_Roles := expandedClaimValues (default [] (claims !! "roles"));
  ai_Scopes := expandedClaimValues (default [] (claims !! "scp"));
  ai_ExpiresAt := expiresAt |}.

Definition mise_headers (v : miseTokenValidator) (token : string) : Header :=
  let h := header_Set [] "Authorization" ("Bearer " +:+ token) in
  let h := header_Set h "Original-Uri" "/dashboard/auth/session" in
  let h := header_Set h "Original-Method" "POST" in
  let h := header_Set h "Return-All-Subject-Token-Claims" "1" in
  if mise_policy v <>?s "" then header_Set h "Mise-Inbound-Policies-To-Filter" (mise_policy v) else h.

(** The checks on the claims, up to the expiry. *)
Definition check_claims (v : miseTokenValidator) (claims : claimSet) : result authenticatedIdentity :=
  let identity := claimed_identity claims zero_time in
  if ai_TenantID identity <>?s mise_tenantID v
  then Err (ErrMsg "validated token tenant does not match configured tenant")
  else if ai_ObjectID identity =?s "" then Err (ErrMsg "validated token does not include oid")
  else if (mise_requiredScope v <>?s "") && negb (contains (mise_requiredScope v) (ai_Scopes identity))
  then Err (ErrMsg "validated token does not include required scope")
  else if (mise_requiredRole v <>?s "") && negb (contains (mise_requiredRole v) (ai_Roles identity))
  then Err (ErrMsg "validated token does not include required role")
  else match ParseInt 64 (claim_first claims "exp") with
  | Err _ => Err (ErrMsg "validated token has invalid exp claim")
  | Ok expirationUnix => Ok (claimed_identity claims (time_Unix expirationUnix))
  end.

Definition mise_Validate (v : miseTokenValidator) (token : string) : KProg (result authenticatedIdentity) :=
  response <-- call (Mise_Do (mise_endpoint v) (mise_headers v token)) ;;
  match response with
  | Err e => Ret (Err (ErrWrap "validate token with MISE" e))
  | Ok response =>
      if negb (resp_StatusCode response =? StatusOK) then Ret (Err (ErrMsg "MISE rejected token"))
      else match subjectClaims (resp_Header response) with
      | Err e => Ret (Err e)
      | Ok claims =>
          match check_claims v claims with
          | Err e => Ret (Err e)
          | Ok who =>
              now <-- call time_Now ;;
              if negb (time_after (ai_ExpiresAt who) now)
              then Ret (Err (ErrMsg "validated token has expired"))
              else Ret (Ok who)
          end
      end
  end.

Definition mise_validator (v : miseTokenValidator) : TokenValidator := {| Validate := mise_Validate v |}.

(** ** Properties *)

(** What an accepted identity satisfies. *)
Record identity_accepted (v : miseTokenValidator) (token : string) (tr : list KEvent)
  (identity : authenticatedIdentity) : Prop := {
  acc_response : exists response claims now,
    tr = [Ev (Mise_Do (mise_endpoint v) (mise_headers v token)) (Ok response); Ev time_Now now] /\
    resp_StatusCode response = StatusOK /\ subjectClaims (resp_Header response) = Ok claims /\
    identity = claimed_identity claims (ai_ExpiresAt identity) /\ now < ai_ExpiresAt identity;
  acc_tenant : ai_TenantID identity = mise_tenantID v;
  acc_object : ai_ObjectID identity <> "";
  acc_scope : mise_requiredScope v <> "" -> mise_requiredScope v ∈ ai_Scopes identity;
  acc_role : mise_requiredRole v <> "" -> mise_requiredRole v ∈ ai_Roles identity
}.

Lemma required_member wanted values :
  (wanted <>?s "") && negb (contains wanted values) = false -> wanted <> "" -> wanted ∈ values.
Proof.
  intros E Hne. apply seqb_neq in Hne. rewrite Hne in E. cbn in E. by bool_to_prop.
Qed.

Lemma check_claims_Ok v claims identity :
  check_claims v claims = Ok identity ->
  identity = claimed_identity claims (ai_ExpiresAt identity) /\
  ai_TenantID identity = mise_tenantID v /\ ai_ObjectID identity <> "" /\
  (mise_requiredScope v <> "" -> mise_requiredScope v ∈ ai_Scopes identity) /\
  (mise_requiredRole v <> "" -> mise_requiredRole v ∈ ai_Roles identity).
Proof.
  unfold check_claims. cbv zeta. intros Hc.
  destruct (ai_TenantID _ <>?s _) eqn:E1; [done|]. destruct (ai_ObjectID _ =?s "") eqn:E2; [done|].
  destruct ((mise_requiredScope v <>?s "") && _) eqn:E3; [done|].
  destruct ((mise_requiredRole v <>?s "") && _) eqn:E4; [done|].
  destruct (ParseInt _ _) as [exp|]; [|done]. injection Hc as <-.
  bool_to_prop. split_and!; try done; by apply required_member.
Qed.

Lemma mise_Validate_ok v token tr identity :
  run (mise_Validate v token) tr (Ok identity) -> identity_accepted v token tr identity.
Proof.
  unfold mise_Validate. intros Hr. run_step Hr. destruct a as [response|e]; [|by run_step Hr].
  destruct (resp_StatusCode response =? StatusOK) eqn:Es; cbn [negb] in Hr; [|by run_step Hr].
  destruct (subjectClaims _) as [claims|e] eqn:Ec; [|by run_step Hr].
  destruct (check_claims v claims) as [i|e] eqn:Ek; [|by run_step Hr].
  run_step Hr. destruct (time_after _ _) eqn:Et; cbn [negb] in Hr; run_step Hr.
  apply check_claims_Ok in Ek as (Hi & Ht & Ho & Hs & Hro). constructor; try done.
  exists response, claims, a. split_and!; try done; [by apply Z.eqb_eq|by apply Z.ltb_lt].
Qed.

End mise.
