(* ===== verification/DashboardAuth.v ===== *)
(** * Dashboard sign-in

    [cmd/aks-sandbox-dashboard/auth.go] and [dev_auth.go]: the handlers that turn a bearer token
    into a cookie session, and the middleware that turns a cookie into a request context.  The
    middleware is modelled up to the point where it hands the request on, with the request that
    the next handler sees.  The session store is called through its operations; [SessionStore]
    says what they do.  A page is its template with the values it is given. *)

From S2P Require Import Prelude GoStrings GoEncoding DashboardTypes Kube TokenValidation.
From stdpp Require Import options.

(** ** Requests and responses *)

(** [hr_SessionCookie] is [r.Cookie(sessionCookieName)]. *)
Record DashRequest := {
  hr_Method : string;
  hr_Path : string;
  hr_RawQuery : string;
  hr_Header : Header;
  hr_SessionCookie : option string;
  hr_Body : result string;
  hr_Context : RequestContext
}.

Definition with_context (ctx : RequestContext) (r : DashRequest) : DashRequest := {|
  hr_Method := hr_Method r; hr_Path := hr_Path r; hr_RawQuery := hr_RawQuery r; hr_Header := hr_Header r;
  hr_SessionCookie := hr_SessionCookie r; hr_Body := hr_Body r; hr_Context := ctx |}.
Definition without_query (r : DashRequest) : DashRequest := {|
  hr_Method := hr_Method r; hr_Path := hr_Path r; hr_RawQuery := ""; hr_Header := hr_Header r;
  hr_SessionCookie := hr_SessionCookie r; hr_Body := hr_Body r; hr_Context := hr_Context r |}.

Record Cookie := {
  ck_Value : string;
  ck_Path : string;
  ck_Expires : option Time;
  ck_MaxAge : Z;
  ck_HttpOnly : bool;
  ck_Secure : bool;
  ck_SameSiteLax : bool
}.

Inductive AuthBody :=
  | BodyText (text : string)
  | BodyLoginPage (loginURL : string)
  | BodyFlowPage (action message script configURL : string)
  | BodyConfig (fields : list (string * string))
  | BodyScript.

Record AuthReply := {
  au_Status : Z;
  au_Location : string;
  au_Header : list (string * string);
  au_Cookie : option Cookie;
  au_Body : AuthBody
}.

Definition http_Error (message : string) (status : Z) : AuthReply := {|
  au_Status := status; au_Location := ""; au_Header := []; au_Cookie := None; au_Body := BodyText message |}.

(** ** The authenticator *)

Definition sessionCookieName : string := "osb_dashboard_session".

Record dashboardAuth := {
  da_basePath : string;
  da_cookieSecure : bool;
  da_sessionLifetime : Duration;
  da_tenantID : string;
  da_clientID : string;
  da_scope : string;
  da_redirectURI : string
}.

Definition publicPath (a : dashboardAuth) (path : string) : bool :=
  contains path [da_basePath a +:+ "/login"; da_basePath a +:+ "/auth/login";
                 da_basePath a +:+ "/auth/redirect/"; da_basePath a +:+ "/auth/config";
                 da_basePath a +:+ "/auth/pkce.js"; da_basePath a +:+ "/auth/session";
                 da_basePath a +:+ "/healthz"]
  || HasPrefix path (da_basePath a +:+ "/assets/").

Definition clearSessionCookie (a : dashboardAuth) : Cookie := {|
  ck_Value := ""; ck_Path := da_basePath a; ck_Expires := None; ck_MaxAge := -1; ck_HttpOnly := true;
  ck_Secure := da_cookieSecure a; ck_SameSiteLax := true |}.

Definition sessionCookie (a : dashboardAuth) (value : string) (expiresAt now : Time) : Cookie := {|
  ck_Value := value; ck_Path := da_basePath a; ck_Expires := Some expiresAt;
  ck_MaxAge := Z.quot (time_sub expiresAt now) Second; ck_HttpOnly := true;
  ck_Secure := da_cookieSecure a; ck_SameSiteLax := true |}.

Definition authPageHeaders : list (string * string) :=
  [("Content-Type", "text/html; charset=utf-8"); ("Cache-Control", "no-store");
   ("Content-Security-Policy", "default-src 'none'; script-src 'self'; style-src 'unsafe-inline'; connect-src 'self' https://login.microsoftonline.com; base-uri 'self'; frame-ancestors 'none'")].

Definition redirect (location : string) (header : list (string * string)) (cookie : option Cookie) : AuthReply := {|
  au_Status := StatusSeeOther; au_Location := location; au_Header := header; au_Cookie := cookie;
  au_Body := BodyText "" |}.

Definition randomValue (bytes : nat) : KProg (result string) :=
  value <-? call (rand_Read bytes) ;;
  Ret (Ok (RawURLEncoding_EncodeToString value)).

Fixpoint minimum_loop (values : list Time) (minimum : Time) : Time :=
  match values with
  | [] => minimum
  | value :: rest =>
      if time_is_zero value then minimum_loop rest minimum
      else if time_is_zero minimum || time_before value minimum then minimum_loop rest value
      else minimum_loop rest minimum
  end.
Definition minimumTime (values : list Time) : Time := minimum_loop values zero_time.

Section handlers.
Context `{UnicodeTables} `{TokenValidator}.

Definition shouldRedirectToLogin (r : DashRequest) : bool :=
  if (hr_Method r <>?s "GET") || EqualFold (header_Get (hr_Header r) "Upgrade") "websocket" then false
  else if EqualFold (header_Get (hr_Header r) "Hx-Request") "true" then false
  else
    let accept := header_Get (hr_Header r) "Accept" in
    (accept =?s "") || strings_Contains accept "text/html".

Definition session_context (session : dashboardSession) : RequestContext := {|
  ctx_identity := Some (ds_Identity session); ctx_csrf := Some (ds_CSRFToken session) |}.

(** The reply to a request without a session. *)
Definition signed_out (a : dashboardAuth) (r : DashRequest) : AuthReply :=
  let noStore := [("Cache-Control", "no-store")] in
  if shouldRedirectToLogin r
  then redirect (da_basePath a +:+ "/login") noStore (Some (clearSessionCookie a))
  else {| au_Status := StatusUnauthorized; au_Location := ""; au_Header := noStore;
          au_Cookie := Some (clearSessionCookie a); au_Body := BodyText "Unauthorized" |}.

(** [Middleware]: a reply, or the request as the next handler sees it. *)
Definition Middleware (a : dashboardAuth) (r : DashRequest) : KProg (AuthReply + DashRequest) :=
  if publicPath a (hr_Path r) then
    if (hr_Path r =?s da_basePath a +:+ "/auth/redirect/") && (hr_RawQuery r <>?s "")
    then Ret (inr (without_query r)) else Ret (inr r)
  else match hr_SessionCookie r with
  | None => Ret (inl (signed_out a r))
  | Some cookie =>
      session <-- call (Sessions (store_getSession cookie)) ;;
      match session with
      | Some session => Ret (inr (with_context (session_context session) r))
      | None => Ret (inl (signed_out a r))
      end
  end.

Definition loginPage (a : dashboardAuth) (r : DashRequest) : KProg AuthReply :=
  session <-- match hr_SessionCookie r with
              | Some cookie => call (Sessions (store_getSession cookie))
              | None => Ret None
              end ;;
  match session with
  | Some _ => Ret (redirect (da_basePath a +:+ "/") [] None)
  | None => Ret {| au_Status := StatusOK; au_Location := ""; au_Header := authPageHeaders; au_Cookie := None;
                   au_Body := BodyLoginPage (da_basePath a +:+ "/auth/login") |}
  end.

Definition renderAuthFlowPage (a : dashboardAuth) (action message : string) : AuthReply := {|
  au_Status := StatusOK; au_Location := ""; au_Header := authPageHeaders; au_Cookie := None;
  au_Body := BodyFlowPage action message (da_basePath a +:+ "/auth/pkce.js") (da_basePath a +:+ "/auth/config") |}.

Definition startLoginPage (a : dashboardAuth) : AuthReply :=
  renderAuthFlowPage a "start" "Redirecting to Microsoft sign in…".
Definition callbackPage (a : dashboardAuth) : AuthReply :=
  renderAuthFlowPage a "callback" "Completing sign in…".

Definition authConfig (a : dashboardAuth) : AuthReply := {|
  au_Status := StatusOK; au_Location := ""; au_Cookie := None;
  au_Header := [("Content-Type", "application/json"); ("Cache-Control", "no-store")];
  au_Body := BodyConfig
    [("authorizationEndpoint", "https://login.microsoftonline.com/" +:+ da_tenantID a +:+ "/oauth2/v2.0/authorize");
     ("tokenEndpoint", "https://login.microsoftonline.com/" +:+ da_tenantID a +:+ "/oauth2/v2.0/token");
     ("clientId", da_clientID a); ("scope", "openid profile " +:+ da_scope a);
     ("redirectUri", da_redirectURI a); ("basePath", da_basePath a)] |}.

Definition pkceScript : AuthReply := {|
  au_Status := StatusOK; au_Location := ""; au_Cookie := None; au_Body := BodyScript;
  au_Header := [("Content-Type", "text/javascript; charset=utf-8"); ("Cache-Control", "no-store")] |}.

(** The bearer token of an [Authorization] header. *)
Definition bearer (authorization : string) : option string :=
  if (slen authorization <? 7) || negb (EqualFold (String.substring 0 7 authorization) "Bearer ") then None
  else
    let token := TrimSpace (String.substring 7 (String.length authorization - 7) authorization) in
    if token =?s "" then None else Some token.

(** [createSession]: every clock reading of the handler is its own. *)
Definition createSession (a : dashboardAuth) (r : DashRequest) : KProg AuthReply :=
  match bearer (header_Get (hr_Header r) "Authorization") with
  | None => Ret (http_Error "Bearer token is required" StatusUnauthorized)
  | Some token =>
      validated <-- Validate token ;;
      match validated with
      | Err _ => Ret (http_Error "Token validation failed" StatusUnauthorized)
      | Ok who =>
          now <-- call time_Now ;;
          let expiresAt := minimumTime [ai_ExpiresAt who; time_add now (da_sessionLifetime a)] in
          checked <-- call time_Now ;;
          if negb (time_after expiresAt checked) then Ret (http_Error "Token has expired" StatusUnauthorized)
          else
            csrfToken <-- randomValue 32 ;;
            match csrfToken with
            | Err _ => Ret (http_Error "Failed to create dashboard session" StatusServiceUnavailable)
            | Ok csrfToken =>
                createdAt <-- call time_Now ;;
                sessionID <-- call (Sessions (store_createSession
                  {| ds_Identity := who; ds_CSRFToken := csrfToken; ds_CreatedAt := createdAt;
                     ds_ExpiresAt := expiresAt |})) ;;
                match sessionID with
                | Err _ => Ret (http_Error "Failed to create dashboard session" StatusServiceUnavailable)
                | Ok sessionID =>
                    set <-- call time_Now ;;
                    Ret {| au_Status := StatusNoContent; au_Location := "";
                           au_Header := [("Cache-Control", "no-store")];
                           au_Cookie := Some (sessionCookie a sessionID expiresAt set);
                           au_Body := BodyText "" |}
                end
            end
      end
  end.

Definition logout (a : dashboardAuth) (r : DashRequest) : KProg AuthReply :=
  _ <-- match hr_SessionCookie r with
        | Some cookie => call (Sessions (store_deleteSession cookie))
        | None => Ret tt
        end ;;
  Ret (redirect (da_basePath a +:+ "/login") [("Cache-Control", "no-store")] (Some (clearSessionCookie a))).

End handlers.

(** ** Development sign-in: one fixed identity *)

Record developmentDashboardAuth := { dev_identity : authenticatedIdentity; dev_csrf : string }.

Definition dev_role_list (devRoles : string) : list string :=
  List.filter (fun role => role <>?s "") (TrimSpace <$> split_byte "," devRoles).

Definition newDevelopmentDashboardAuth (tenantID objectID name devRoles : string)
  : KProg (result developmentDashboardAuth) :=
  tokenBytes <-- call (rand_Read 32) ;;
  match tokenBytes with
  | Err _ => Ret (Err (ErrMsg "generate development CSRF token"))
  | Ok tokenBytes =>
      let roles := dev_role_list devRoles in
      if Nat.eqb (length roles) 0 then Ret (Err (ErrMsg "development roles are empty"))
      else Ret (Ok {|
        dev_identity := {| ai_TenantID := tenantID; ai_ObjectID := objectID; ai_Name := name;
                           ai_Roles := roles; ai_Scopes := []; ai_ExpiresAt := zero_time |};
        dev_csrf := RawURLEncoding_EncodeToString tokenBytes |})
  end.

Definition dev_Middleware (a : developmentDashboardAuth) (r : DashRequest) : DashRequest :=
  with_context {| ctx_identity := Some (dev_identity a); ctx_csrf := Some (dev_csrf a) |} r.

(** ** Properties *)

(** The session a call asks the store to keep. *)
Definition session_created (e : KEvent) : option dashboardSession :=
  match e with
  | Ev op _ =>
      match op with
      | Sessions sop => match sop with store_createSession session => Some session | _ => None end
      | _ => None
      end
  end.
Definition creates_session (e : KEvent) : bool := bool_decide (is_Some (session_created e)).

Lemma minimumTime_two t u :
  u <> zero_time -> minimumTime [t; u] = if time_is_zero t then u else Z.min t u.
Proof.
  intros Hu. unfold minimumTime. cbn [minimum_loop].
  assert (time_is_zero u = false) as Eu by by apply Z.eqb_neq. rewrite Eu.
  destruct (time_is_zero t) eqn:Et; [done|].
  assert (time_is_zero zero_time = true) as -> by done. cbn [orb].
  unfold time_before. destruct (Z.ltb_spec u t); cbn; lia.
Qed.

(** A time earlier than any clock reading is treated as an identity without an expiry. *)
Lemma minimumTime_bounds t u :
  zero_time < t -> zero_time < u -> minimumTime [t; u] <= t /\ minimumTime [t; u] <= u.
Proof.
  intros Ht Hu. rewrite minimumTime_two by lia.
  assert (time_is_zero t = false) as -> by (apply Z.eqb_neq; lia). lia.
Qed.

Section auth_theorems.
Context `{UnicodeTables}.

Lemma mise_Validate_quiet v token : quiet creates_session (mise_Validate v token).
Proof. unfold mise_Validate. solve_quiet. Qed.
#[local] Hint Resolve mise_Validate_quiet : gov.

Lemma randomValue_quiet kind n : (forall r, kind (Ev (rand_Read n) r) = false) -> quiet kind (randomValue n).
Proof. intros Hk. unfold randomValue. apply quiet_try; [by apply quiet_call|]. intros. solve_quiet. Qed.

(** The trace of a sign-in that stores a session. *)
Lemma createSession_stores v a r tr reply e session :
  run (createSession (H0 := mise_validator v) a r) tr reply -> e ∈ tr -> session_created e = Some session ->
  exists token validation now checked rest,
    tr = validation ++ Ev time_Now now :: Ev time_Now checked :: rest /\
    bearer (header_Get (hr_Header r) "Authorization") = Some token /\
    identity_accepted v token validation (ds_Identity session) /\
    ds_ExpiresAt session = minimumTime [ai_ExpiresAt (ds_Identity session); time_add now (da_sessionLifetime a)] /\
    checked < ds_ExpiresAt session.
Proof.
  intros Hr He Hs. assert (creates_session e = true) as Hk by (apply bool_decide_eq_true; by eexists).
  unfold createSession in Hr. destruct (bearer _) as [token|] eqn:Eb; [|run_step Hr; set_solver].
  apply run_bind in Hr as ([who|err] & t1 & t2 & -> & Hv & Hr).
  2: { run_step Hr. exfalso. rewrite app_nil_r in He. by eapply (quiet_elem _ _ _ _ _ (mise_Validate_quiet v token)). }
  apply elem_of_app in He as [He|He].
  { exfalso. by eapply (quiet_elem _ _ _ _ _ (mise_Validate_quiet v token)). }
  cbn [Validate mise_validator] in Hv. apply mise_Validate_ok in Hv.
  apply run_bind in Hr as (now & t3 & t4 & -> & ->%run_call & Hr).
  apply run_bind in Hr as (checked & t5 & t6 & -> & ->%run_call & Hr). cbv zeta in Hr.
  destruct (time_after _ checked) eqn:Ea; cbn [negb] in Hr; [|run_step Hr; set_solver].
  apply run_bind in Hr as (csrf & t7 & t8 & -> & Hc & Hr).
  assert (existsb creates_session t7 = false) as Hq by (eapply randomValue_quiet; [done|exact Hc]).
  rewrite !elem_of_app in He.
  destruct He as [->%list_elem_of_singleton|[->%list_elem_of_singleton|[He|He]]]; [done|done| |].
  { exfalso. assert (existsb creates_session t7 = true); [|congruence]. apply existsb_exists.
    exists e. by rewrite <- list_elem_of_In. }
  exists token, t1, now, checked, (t7 ++ t8). split; [done|]. split; [done|].
  destruct csrf as [csrf|err]; [|run_step Hr; set_solver].
  run_step Hr. run_step Hr.
  assert (session = {| ds_Identity := who; ds_CSRFToken := csrf; ds_CreatedAt := a0;
    ds_ExpiresAt := minimumTime [ai_ExpiresAt who; time_add now (da_sessionLifetime a)] |}) as ->.
  { destruct a1; [run_step Hr; run_step Hr|run_step Hr];
      repeat (apply elem_of_app in He as [He|He] || apply elem_of_cons in He as [->|He]);
      cbn in Hs; simplify_eq; try done; set_solver. }
  cbn [ds_Identity ds_ExpiresAt]. split; [done|]. split; [done|]. by apply Z.ltb_lt.
Qed.


(** A request reaches the dashboard unchanged on a public path, or with the identity and CSRF
    token of the live session its cookie names; every other request is answered with 401 or a
    redirect to the login page, and its cookie is cleared. *)
Theorem session_Middleware_sound a r tr out :
  run (Middleware a r) tr out ->
  match out with
  | inr r' =>
      (publicPath a (hr_Path r) = true /\ tr = [] /\ hr_Context r' = hr_Context r /\ hr_Path r' = hr_Path r) \/
      (exists cookie session, hr_SessionCookie r = Some cookie /\
         tr = [Ev (Sessions (store_getSession cookie)) (Some session)] /\
         r' = with_context (session_context session) r)
  | inl reply =>
      publicPath a (hr_Path r) = false /\
      (hr_SessionCookie r = None \/
       exists cookie, hr_SessionCookie r = Some cookie /\ tr = [Ev (Sessions (store_getSession cookie)) None]) /\
      (au_Status reply = StatusUnauthorized \/
       au_Status reply = StatusSeeOther /\ au_Location reply = da_basePath a +:+ "/login") /\
      au_Cookie reply = Some (clearSessionCookie a)
  end.
Proof.
  unfold Middleware. intros Hr. destruct (publicPath a (hr_Path r)) eqn:Ep.
  { destruct (_ && _); run_step Hr; left; done. }
  assert (forall x, x = signed_out a r ->
    (au_Status x = StatusUnauthorized \/
     au_Status x = StatusSeeOther /\ au_Location x = da_basePath a +:+ "/login") /\
    au_Cookie x = Some (clearSessionCookie a)) as Hout.
  { intros x ->. unfold signed_out. destruct (shouldRedirectToLogin r); cbn; auto. }
  destruct (hr_SessionCookie r) as [cookie|] eqn:Ec.
  - run_step Hr. destruct a0 as [session|]; run_step Hr.
    + right. exists cookie, session. done.
    + destruct (Hout (signed_out a r) eq_refl). split_and!; eauto.
  - run_step Hr. destruct (Hout (signed_out a r) eq_refl). split_and!; eauto.
Qed.

(** Signing out removes the cookie's session from the store. *)
Lemma logout_deletes a r cookie tr reply :
  run (logout a r) tr reply -> hr_SessionCookie r = Some cookie ->
  exists u, tr = [Ev (Sessions (store_deleteSession cookie)) u].
Proof.
  unfold logout. intros Hr Hc. rewrite Hc in Hr. run_step Hr. run_step Hr. by exists a0.
Qed.

End auth_theorems.
