(* ===== verification/DashboardConfig.v ===== *)
(** * Dashboard configuration

    [cmd/aks-sandbox-dashboard/config.go].  The environment is a function from names to values;
    the flags are a set of [GoFlag], from which the configuration is read.  Of [required], a Go
    map, the first missing entry is reported in one order. *)

From S2P Require Import Prelude GoStrings GoEncoding NetIP GoTime GoFlag.
From stdpp Require Import options.

Record config := {
  cf_listenAddress : string;
  cf_basePath : string;
  cf_kubeconfigPath : string;
  cf_openSandboxNamespace : string;
  cf_sandboxNamespace : string;
  cf_assignmentNamespace : string;
  cf_sandboxImage : string;
  cf_lifecycleEndpoint : string;
  cf_lifecycleTokenFile : string;
  cf_sandboxTemplate : string;
  cf_tenantID : string;
  cf_clientID : string;
  cf_scope : string;
  cf_redirectURI : string;
  cf_miseURL : string;
  cf_misePolicy : string;
  cf_requiredScope : string;
  cf_requiredRole : string;
  cf_adminRole : string;
  cf_sessionLifetime : Duration;
  cf_cookieSecure : bool;
  cf_devAuth : bool;
  cf_devName : string;
  cf_devTenantID : string;
  cf_devObjectID : string;
  cf_devRoles : string
}.

Definition with_basePath (basePath : string) (c : config) : config := {|
  cf_listenAddress := cf_listenAddress c; cf_basePath := basePath; cf_kubeconfigPath := cf_kubeconfigPath c;
  cf_openSandboxNamespace := cf_openSandboxNamespace c; cf_sandboxNamespace := cf_sandboxNamespace c;
  cf_assignmentNamespace := cf_assignmentNamespace c; cf_sandboxImage := cf_sandboxImage c;
  cf_lifecycleEndpoint := cf_lifecycleEndpoint c; cf_lifecycleTokenFile := cf_lifecycleTokenFile c;
  cf_sandboxTemplate := cf_sandboxTemplate c; cf_tenantID := cf_tenantID c; cf_clientID := cf_clientID c;
  cf_scope := cf_scope c; cf_redirectURI := cf_redirectURI c; cf_miseURL := cf_miseURL c;
  cf_misePolicy := cf_misePolicy c; cf_requiredScope := cf_requiredScope c;
  cf_requiredRole := cf_requiredRole c; cf_adminRole := cf_adminRole c;
  cf_sessionLifetime := cf_sessionLifetime c; cf_cookieSecure := cf_cookieSecure c;
  cf_devAuth := cf_devAuth c; cf_devName := cf_devName c; cf_devTenantID := cf_devTenantID c;
  cf_devObjectID := cf_devObjectID c; cf_devRoles := cf_devRoles c |}.

Section config.
Context (Getenv : string -> string).

Definition envOr (name fallback : string) : string :=
  if Getenv name <>?s "" then Getenv name else fallback.

Definition envBool (name : string) (fallback : bool) : bool :=
  if Getenv name =?s "" then fallback
  else match ParseBool (Getenv name) with Ok parsed => parsed | Err _ => fallback end.

Definition envDuration (name : string) (fallback : Duration) : Duration :=
  if Getenv name =?s "" then fallback
  else match ParseDuration (Getenv name) with Ok parsed => parsed | Err _ => fallback end.

(** The flags with their defaults. *)
Definition flag_defaults : FlagSet := list_to_map [
  ("listen", StringFlag (envOr "HTTP_ADDR" "0.0.0.0:8080"));
  ("base-path", StringFlag (envOr "OSB_DASHBOARD_BASE_PATH" "/dashboard"));
  ("kubeconfig", StringFlag (Getenv "OSB_DASHBOARD_KUBECONFIG"));
  ("opensandbox-namespace", StringFlag (envOr "OSB_DASHBOARD_OPENSANDBOX_NAMESPACE" "opensandbox-system"));
  ("sandbox-namespace", StringFlag (envOr "OSB_DASHBOARD_SANDBOX_NAMESPACE" "opensandbox"));
  ("assignment-namespace", StringFlag (envOr "OSB_DASHBOARD_ASSIGNMENT_NAMESPACE" "aks-sandbox-system"));
  ("sandbox-image", StringFlag (envOr "OSB_DASHBOARD_SANDBOX_IMAGE" "python:3.12-slim"));
  ("lifecycle-endpoint", StringFlag (Getenv "OSB_DASHBOARD_LIFECYCLE_ENDPOINT"));
  ("lifecycle-token-file", StringFlag (Getenv "OSB_DASHBOARD_LIFECYCLE_TOKEN_FILE"));
  ("sandbox-template", StringFlag (envOr "OSB_DASHBOARD_SANDBOX_TEMPLATE" "python-kata-reader-v2"));
  ("tenant-id", StringFlag (Getenv "OSB_DASHBOARD_ENTRA_TENANT_ID"));
  ("client-id", StringFlag (Getenv "OSB_DASHBOARD_ENTRA_CLIENT_ID"));
  ("scope", StringFlag (Getenv "OSB_DASHBOARD_ENTRA_SCOPE"));
  ("redirect-uri", StringFlag (Getenv "OSB_DASHBOARD_ENTRA_REDIRECT_URI"));
  ("mise-url", StringFlag (envOr "OSB_DASHBOARD_MISE_URL" "http://127.0.0.1:5000/ValidateRequest"));
  ("mise-policy", StringFlag (envOr "OSB_DASHBOARD_MISE_POLICY" "osb-dashboard-inbound-policy"));
  ("required-scope", StringFlag (envOr "OSB_DASHBOARD_REQUIRED_SCOPE" "access_as_user"));
  ("required-role", StringFlag (Getenv "OSB_DASHBOARD_REQUIRED_ROLE"));
  ("admin-role", StringFlag (envOr "OSB_DASHBOARD_ADMIN_ROLE" "OpenSandbox.Admin"));
  ("session-lifetime", DurationFlag (envDuration "OSB_DASHBOARD_SESSION_LIFETIME" (30 * Minute)));
  ("cookie-secure", BoolFlag (envBool "OSB_DASHBOARD_COOKIE_SECURE" true));
  ("dev-auth", BoolFlag (envBool "OSB_DASHBOARD_DEV_AUTH" false));
  ("dev-name", StringFlag (envOr "OSB_DASHBOARD_DEV_NAME" "POC Administrator"));
  ("dev-tenant-id", StringFlag (envOr "OSB_DASHBOARD_DEV_TENANT_ID" "00000000-0000-4000-8000-000000000001"));
  ("dev-object-id", StringFlag (envOr "OSB_DASHBOARD_DEV_OBJECT_ID" "00000000-0000-4000-8000-000000000002"));
  ("dev-roles", StringFlag (envOr "OSB_DASHBOARD_DEV_ROLES" "OpenSandbox.Admin"))
].

End config.

(** The variables the flags are bound to. *)
Definition config_of (flags : FlagSet) : config := {|
  cf_listenAddress := string_flag flags "listen";
  cf_basePath := string_flag flags "base-path";
  cf_kubeconfigPath := string_flag flags "kubeconfig";
  cf_openSandboxNamespace := string_flag flags "opensandbox-namespace";
  cf_sandboxNamespace := string_flag flags "sandbox-namespace";
  cf_assignmentNamespace := string_flag flags "assignment-namespace";
  cf_sandboxImage := string_flag flags "sandbox-image";
  cf_lifecycleEndpoint := string_flag flags "lifecycle-endpoint";
  cf_lifecycleTokenFile := string_flag flags "lifecycle-token-file";
  cf_sandboxTemplate := string_flag flags "sandbox-template";
  cf_tenantID := string_flag flags "tenant-id";
  cf_clientID := string_flag flags "client-id";
  cf_scope := string_flag flags "scope";
  cf_redirectURI := string_flag flags "redirect-uri";
  cf_miseURL := string_flag flags "mise-url";
  cf_misePolicy := string_flag flags "mise-policy";
  cf_requiredScope := string_flag flags "required-scope";
  cf_requiredRole := string_flag flags "required-role";
  cf_adminRole := string_flag flags "admin-role";
  cf_sessionLifetime := duration_flag flags "session-lifetime";
  cf_cookieSecure := bool_flag flags "cookie-secure";
  cf_devAuth := bool_flag flags "dev-auth";
  cf_devName := string_flag flags "dev-name";
  cf_devTenantID := string_flag flags "dev-tenant-id";
  cf_devObjectID := string_flag flags "dev-object-id";
  cf_devRoles := string_flag flags "dev-roles" |}.

(** [net.ParseIP]: an address without a zone. *)
Definition ParseIP (s : string) : option Addr :=
  match ParseAddr s with
  | Some (Addr6 groups zone) => if zone =?s "" then Some (Addr6 groups zone) else None
  | other => other
  end.

(** [IP.IsLoopback]: 127.0.0.0/8, also IPv4-mapped, and ::1. *)
Definition IsLoopback (ip : Addr) : bool :=
  match Unmap ip with
  | Addr4 a _ _ _ => (a =? 127)%N
  | Addr6 groups _ => bool_decide (groups = [0; 0; 0; 0; 0; 0; 0; 1]%N)
  end.

Definition validateLoopbackListenAddress (address : string) : result unit :=
  match SplitHostPort address with
  | None => Err (ErrMsg "--listen must be host:port")
  | Some (host, _) =>
      match ParseIP host with
      | None => Err (ErrMsg "--dev-auth requires --listen to use a loopback IP")
      | Some ip => if negb (IsLoopback ip) then Err (ErrMsg "--dev-auth requires --listen to use a loopback IP")
                   else Ok tt
      end
  end.

Definition required_flags (c : config) : list (string * string) :=
  [("--listen", cf_listenAddress c); ("--redirect-uri", cf_redirectURI c);
   ("--sandbox-template", cf_sandboxTemplate c); ("--assignment-namespace", cf_assignmentNamespace c);
   ("--admin-role", cf_adminRole c)]
  ++ if cf_devAuth c
     then [("--dev-name", cf_devName c); ("--dev-tenant-id", cf_devTenantID c);
           ("--dev-object-id", cf_devObjectID c); ("--dev-roles", cf_devRoles c)]
     else [("--tenant-id", cf_tenantID c); ("--client-id", cf_clientID c); ("--scope", cf_scope c);
           ("--mise-url", cf_miseURL c)].

Fixpoint check_required (flags : list (string * string)) : result unit :=
  match flags with
  | [] => Ok tt
  | (name, value) :: rest =>
      if TrimSpace value =?s "" then Err (ErrMsg (name +:+ " is required")) else check_required rest
  end.

Definition checked_config (parsed : config) : result config :=
  let c := with_basePath ("/" +:+ Trim_byte "/" (TrimSpace (cf_basePath parsed))) parsed in
  if cf_basePath c =?s "/" then Err (ErrMsg "--base-path must not be the site root")
  else
    _ <-! (if cf_devAuth c then validateLoopbackListenAddress (cf_listenAddress c) else Ok tt) ;;
    _ <-! check_required (required_flags c) ;;
    if cf_sessionLifetime c <=? 0 then Err (ErrMsg "--session-lifetime must be greater than zero")
    else if (cf_lifecycleEndpoint c <>?s "") && (TrimSpace (cf_lifecycleTokenFile c) =?s "")
    then Err (ErrMsg "--lifecycle-token-file is required with --lifecycle-endpoint")
    else Ok c.

Definition parseConfig (Getenv : string -> string) (args : list string) : result config :=
  flags <-! parse_flags (flag_defaults Getenv) args ;;
  checked_config (config_of flags).

(** ** Properties *)

Lemma trim_left_byte_head c s : HasPrefix (trim_left_byte c s) (String c "") = false.
Proof.
  induction s as [|d s IH]; cbn; [done|]. case_bool_decide as E; [done|]. cbn.
  by rewrite bool_decide_false, andb_false_l by congruence.
Qed.

Lemma Trim_byte_no_suffix c s : HasSuffix (Trim_byte c s) (String c "") = false.
Proof. unfold Trim_byte, HasSuffix. rewrite string_rev_involutive. apply trim_left_byte_head. Qed.

Lemma check_required_ok flags u :
  check_required flags = Ok u -> forall name value, (name, value) ∈ flags -> TrimSpace value <> "".
Proof.
  induction flags as [|[n v] rest IH]; cbn; [set_solver|]. destruct (TrimSpace v =?s "") eqn:E; [done|].
  intros Hc name value [[= -> ->]|Hin]%elem_of_cons; [by apply seqb_neq|eauto].
Qed.

Lemma HasSuffix_slash_app p : HasSuffix p "/" = false -> p <> "" -> HasSuffix ("/" +:+ p) "/" = false.
Proof.
  unfold HasSuffix. rewrite string_rev_app_distr. intros Hs Hne.
  destruct (string_rev p) as [|c t] eqn:E; [|exact Hs].
  by rewrite <- (string_rev_involutive p), E in Hne.
Qed.

(** What a parsed configuration guarantees to the components built from it. *)
Record config_ok (c : config) : Prop := {
  ok_basePath : exists p, cf_basePath c = "/" +:+ p /\ p <> "" /\ HasSuffix (cf_basePath c) "/" = false;
  ok_lifetime : 0 < cf_sessionLifetime c;
  ok_required : forall name value, (name, value) ∈ required_flags c -> TrimSpace value <> "";
  ok_dev : cf_devAuth c = true -> exists host port ip,
    SplitHostPort (cf_listenAddress c) = Some (host, port) /\ ParseIP host = Some ip /\ IsLoopback ip = true;
  ok_lifecycle : cf_lifecycleEndpoint c <> "" -> TrimSpace (cf_lifecycleTokenFile c) <> ""
}.

(** A configuration that is accepted is well formed: its base path is an absolute path other
    than the root with no trailing slash, sessions have a positive lifetime, every required
    value is present, a lifecycle endpoint comes with a token file, and the fixed development
    identity is served on a loopback address only. *)
Theorem parseConfig_ok Getenv args c : parseConfig Getenv args = Ok c -> config_ok c.
Proof.
  unfold parseConfig. destruct (parse_flags _ _) as [flags|]; cbn [res_bind]; [|done].
  unfold checked_config. cbv zeta. generalize (config_of flags). intros parsed.
  set (p := Trim_byte "/" (TrimSpace (cf_basePath parsed))). set (c' := with_basePath ("/" +:+ p) parsed).
  destruct (cf_basePath c' =?s "/") eqn:Eb; [done|]. intros Hc.
  destruct (if cf_devAuth c' then _ else _) as [u|] eqn:Ed; [|done]. cbn [res_bind] in Hc.
  destruct (check_required _) as [u'|] eqn:Er; [|done]. cbn [res_bind] in Hc.
  destruct (cf_sessionLifetime c' <=? 0) eqn:El; [done|].
  destruct ((cf_lifecycleEndpoint c' <>?s "") && _) eqn:Ef; [done|]. injection Hc as <-.
  apply seqb_neq in Eb. assert (p <> "") as Hp by (intros E; apply Eb; cbn; by rewrite E).
  constructor.
  - exists p. split_and!; [done|done|]. apply HasSuffix_slash_app; [apply Trim_byte_no_suffix|done].
  - bool_to_prop. lia.
  - by eapply check_required_ok.
  - intros E. rewrite E in Ed. unfold validateLoopbackListenAddress in Ed.
    destruct (SplitHostPort _) as [[host port]|]; [|done]. destruct (ParseIP host) as [ip|] eqn:Ei; [|done].
    destruct (IsLoopback ip) eqn:Eip; [|done]. by exists host, port, ip.
  - intros Hne. apply seqb_neq in Hne. rewrite Hne in Ef. cbn in Ef. by apply seqb_neq.
Qed.
