(* ===== verification/DashboardCore.v ===== *)
(** * What the dashboard's governance handlers share

    [cmd/aks-sandbox-dashboard/governance.go] and [tenants.go]: the request context, the checks
    that every mutation passes (administrator role, origin, content type, form fields, CSRF
    token), the tenant scope of an administrator, and the mapping of errors to replies. *)

From S2P Require Import Prelude GoStrings GoEncoding GoURL GoMime ApiTypes ApiJson DashboardTypes Kube Governance Principals Admission.
From S2P Require Import DashboardAuth DashboardConfig.
From stdpp Require Import options.

Definition governanceBodyLimit : Z := 16 * 2 ^ 10.

(** [k8s.io/apimachinery/pkg/util/validation.IsDNS1123Label]. *)
Class K8sLabelValidation := { IsDNS1123Label : string -> list string }.

Record governanceDashboard := {
  gd_namespace : string;
  gd_basePath : string;
  gd_publicOrigin : string;
  gd_adminRole : string
}.

Definition newGovernanceDashboard (client_present : bool) (cfg : config) : result governanceDashboard :=
  if negb client_present then Err (ErrMsg "dashboard governance Kubernetes client is required")
  else match url_Parse (cf_redirectURI cfg) with
  | Err _ => Err (ErrMsg "dashboard redirect URI must have an origin")
  | Ok redirect =>
      if (u_Scheme redirect =?s "") || (u_Host redirect =?s "")
      then Err (ErrMsg "dashboard redirect URI must have an origin")
      else Ok {| gd_namespace := cf_assignmentNamespace cfg; gd_basePath := cf_basePath cfg;
                 gd_publicOrigin := u_Scheme redirect +:+ "://" +:+ u_Host redirect; gd_adminRole := cf_adminRole cfg |}
  end.

(** ** Replies *)

Inductive GovReply :=
  | GovError (message : string) (status : Z)
  | GovRedirect (location : string).

(** Go's [x, ok := f(); if !ok { return }], where [f] has written the reply. *)
Definition or_reply {A B} (c : KProg (GovReply + A)) (k : A -> KProg (GovReply + B)) : KProg (GovReply + B) :=
  x <-- c ;; match x with inl reply => Ret (inl reply) | inr a => k a end.
Notation "x <-| c ;; k" := (or_reply c (fun x => k))
  (at level 20, c at level 99, k at level 200, only parsing) : go_scope.

(** A step that may end the handler with an error reply. *)
Definition reply_if {B} (c : bool) (message : string) (status : Z) (k : KProg (GovReply + B)) : KProg (GovReply + B) :=
  if c then Ret (inl (GovError message status)) else k.

Definition resourceError (e : error) : GovReply :=
  if IsNotFound e then GovError "Resource not found" StatusNotFound
  else if IsConflict e then GovError "Resource changed; reload and retry" StatusConflict
  else if IsForbidden e then GovError "Kubernetes authorization denied" StatusForbidden
  else GovError "Governance operation failed" StatusInternalServerError.

Definition internalError : GovReply := GovError "Governance operation failed" StatusInternalServerError.

(** A failing call ends the handler with the reply [f] makes of its error. *)
Definition call_or {A B} (c : KProg (result A)) (f : error -> GovReply) (k : A -> KProg (GovReply + B))
  : KProg (GovReply + B) :=
  x <-- c ;; match x with Err e => Ret (inl (f e)) | Ok a => k a end.

Definition redirectWithMessage (g : governanceDashboard) (path message : string) : GovReply :=
  GovRedirect (gd_basePath g +:+ path +:+ "?message=" +:+ QueryEscape message).

(** ** Who is asking *)

Definition governanceRequestContext (ctx : RequestContext) : option (authenticatedIdentity * string) :=
  match authenticatedIdentityFromContext ctx, csrfTokenFromContext ctx with
  | Some who, Some csrf => Some (who, csrf)
  | _, _ => None
  end.

Definition requireAdmin (g : governanceDashboard) (ctx : RequestContext) : GovReply + authenticatedIdentity :=
  match governanceRequestContext ctx with
  | None => inl (GovError "Unauthorized" StatusUnauthorized)
  | Some (who, _) =>
      if negb (contains (gd_adminRole g) (ai_Roles who)) then inl (GovError "Forbidden" StatusForbidden)
      else inr who
  end.

Definition principalScopes (g : governanceDashboard) (who : authenticatedIdentity) :=
  loadPrincipalScopes (gd_namespace g) who.

(** The administrator's binding covers the tenant. *)
Definition authorizeAdminTenant (g : governanceDashboard) (who : authenticatedIdentity) (logicalTenant : string)
  : KProg (GovReply + unit) :=
  scopes <-- principalScopes g who ;;
  let refused := inl (GovError "Administrator is not authorized for this logical tenant" StatusForbidden) in
  match scopes with
  | Err _ => Ret refused
  | Ok scopes => if negb (tenantAllowed (admin scopes) logicalTenant) then Ret refused else Ret (inr tt)
  end.

Definition requireAdminTenant (g : governanceDashboard) (ctx : RequestContext) (logicalTenant : string)
  : KProg (GovReply + authenticatedIdentity) :=
  who <-| Ret (requireAdmin g ctx) ;;
  _ <-| authorizeAdminTenant g who logicalTenant ;;
  Ret (inr who).

(** ** Mutations *)

Section mutation.
Context `{UnicodeTables}.

Definition formContentType : string := "application/x-www-form-urlencoded".

Definition content_type (r : DashRequest) : string :=
  ToLower (TrimSpace (hd "" (split_byte ";" (header_Get (hr_Header r) "Content-Type")))).

(** [r.ParseForm] under [http.MaxBytesReader]: the parsed body of a form post. *)
Definition ParseForm (limit : Z) (r : DashRequest) : option Values :=
  if negb (contains (hr_Method r) ["POST"; "PUT"; "PATCH"]) then Some ∅
  else if negb (mime_params_ok (header_Get (hr_Header r) "Content-Type")) then None
  else match read_limited limit (hr_Body r) with
  | Err _ => None
  | Ok body => ParseQuery body
  end.

(** No form field is unknown or repeated. *)
Definition unexpected_field (allowed : list string) (form : Values) : bool :=
  existsb (fun '(name, values) => negb (contains name allowed) || negb (Nat.eqb (length values) 1))
    (map_to_list form).

Fixpoint missing_field (allowed : list string) (form : Values) : option string :=
  match allowed with
  | [] => None
  | name :: rest => if negb (Nat.eqb (length (values_All form name)) 1) then Some name else missing_field rest form
  end.

Definition parseMutation (g : governanceDashboard) (r : DashRequest) (allowed : list string) : GovReply + Values :=
  if hr_RawQuery r <>?s "" then inl (GovError "Query parameters are not accepted" StatusBadRequest)
  else if (header_Get (hr_Header r) "Origin" <>?s gd_publicOrigin g)
          || EqualFold (header_Get (hr_Header r) "Sec-Fetch-Site") "cross-site"
  then inl (GovError "Cross-site request rejected" StatusForbidden)
  else if content_type r <>?s formContentType
  then inl (GovError "Unsupported content type" StatusUnsupportedMediaType)
  else match ParseForm governanceBodyLimit r with
  | None => inl (GovError "Invalid form body" StatusBadRequest)
  | Some form =>
      if unexpected_field allowed form then inl (GovError "Invalid form fields" StatusBadRequest)
      else match missing_field allowed form with
      | Some name => inl (GovError ("Missing form field: " +:+ name) StatusBadRequest)
      | None =>
          match csrfTokenFromContext (hr_Context r) with
          | None => inl (GovError "Invalid CSRF token" StatusForbidden)
          | Some expected =>
              let provided := values_Get form "csrf" in
              if negb (slen expected =? slen provided) || (expected <>?s provided)
              then inl (GovError "Invalid CSRF token" StatusForbidden)
              else inr form
          end
      end
  end.

End mutation.

(** ** Tenant policies *)

Definition policy_matches (logicalTenant : string) (policy : SandboxTenantPolicy) : bool :=
  tps_Enabled (tp_Spec policy) && (tps_LogicalTenant (tp_Spec policy) =?s logicalTenant)
  && negb (om_deleting (tp_meta policy)).

Fixpoint policies_loop (logicalTenant : string) (items : list (Unstructured SandboxTenantPolicy))
  (matches : list SandboxTenantPolicy) : result (list SandboxTenantPolicy) :=
  match items with
  | [] => Ok matches
  | item :: rest =>
      match FromUnstructured item with
      | Err e => Err e
      | Ok policy =>
          policies_loop logicalTenant rest
            (if policy_matches logicalTenant policy then matches ++ [policy] else matches)
      end
  end.

Definition maxAccessDurationSeconds `{QuoteLib} (g : governanceDashboard) (logicalTenant : string) : KProg (result Z) :=
  items <-? call (List TenantPolicies (gd_namespace g) list_all) ;;
  match policies_loop logicalTenant items [] with
  | Err e => Ret (Err e)
  | Ok [policy] => Ret (Ok (tps_MaxAccessRequestDurationSeconds (tp_Spec policy)))
  | Ok _ => Ret (Err (ErrMsg ("logical tenant " +:+ Quote logicalTenant
                             +:+ " must have exactly one enabled tenant policy")))
  end.

(** ** Runs of handlers *)

Lemma run_or_reply {A B} (c : KProg (GovReply + A)) (k : A -> KProg (GovReply + B)) tr out :
  run (or_reply c k) tr out <->
  (exists reply, run c tr (inl reply) /\ out = inl reply) \/
  (exists a t1 t2, tr = t1 ++ t2 /\ run c t1 (inr a) /\ run (k a) t2 out).
Proof.
  unfold or_reply. rewrite run_bind. split.
  - intros ([reply|a] & t1 & t2 & -> & H1 & H2); [|right; eauto 10].
    destruct H2 as [-> <-]. rewrite app_nil_r. left. eauto.
  - intros [(reply & H1 & ->)|(a & t1 & t2 & -> & H1 & H2)].
    + exists (inl reply), tr, []. by rewrite app_nil_r.
    + by exists (inr a), t1, t2.
Qed.

Lemma run_call_or {A B} (c : KProg (result A)) f (k : A -> KProg (GovReply + B)) tr out :
  run (call_or c f k) tr out <->
  (exists e, run c tr (Err e) /\ out = inl (f e)) \/
  (exists a t1 t2, tr = t1 ++ t2 /\ run c t1 (Ok a) /\ run (k a) t2 out).
Proof.
  unfold call_or. rewrite run_bind. split.
  - intros ([a|e] & t1 & t2 & -> & H1 & H2); [right; eauto 10|].
    destruct H2 as [-> <-]. rewrite app_nil_r. left. eauto.
  - intros [(e & H1 & ->)|(a & t1 & t2 & -> & H1 & H2)].
    + exists (Err e), tr, []. by rewrite app_nil_r.
    + by exists (Ok a), t1, t2.
Qed.

Lemma run_reply_if {B} c message status (k : KProg (GovReply + B)) tr out :
  run (reply_if c message status k) tr out <->
  (c = true /\ tr = [] /\ out = inl (GovError message status)) \/ (c = false /\ run k tr out).
Proof. unfold reply_if. destruct c; cbn [run]; naive_solver. Qed.

Lemma quiet_or_reply {A B} kind (c : KProg (GovReply + A)) (k : A -> KProg (GovReply + B)) :
  quiet kind c -> (forall a, quiet kind (k a)) -> quiet kind (or_reply c k).
Proof. intros Hc Hk. apply quiet_bind; [done|]. intros [reply|a]; [apply quiet_ret|apply Hk]. Qed.

Lemma quiet_call_or {A B} kind (c : KProg (result A)) f (k : A -> KProg (GovReply + B)) :
  quiet kind c -> (forall a, quiet kind (k a)) -> quiet kind (call_or c f k).
Proof. intros Hc Hk. apply quiet_bind; [done|]. intros [a|e]; [apply Hk|apply quiet_ret]. Qed.

Lemma guarded_or_reply {A B} kind P (c : KProg (GovReply + A)) (k : A -> KProg (GovReply + B)) :
  guarded kind P c ->
  (forall a t1, run c t1 (inr a) -> guarded kind (fun t2 e => P (t1 ++ t2) e) (k a)) ->
  guarded kind P (or_reply c k).
Proof. intros Hc Hk. apply guarded_bind; [done|]. intros [r|a] t1 Hr; [apply guarded_ret|by apply Hk]. Qed.

Lemma guarded_call_or {A B} kind P (c : KProg (result A)) f (k : A -> KProg (GovReply + B)) :
  guarded kind P c ->
  (forall a t1, run c t1 (Ok a) -> guarded kind (fun t2 e => P (t1 ++ t2) e) (k a)) ->
  guarded kind P (call_or c f k).
Proof. intros Hc Hk. apply guarded_bind; [done|]. intros [a|e] t1 Hr; [by apply Hk|apply guarded_ret]. Qed.

Lemma guarded_reply_if {B} kind P (c : bool) message status (k : KProg (GovReply + B)) :
  (c = false -> guarded kind P k) -> guarded kind P (reply_if c message status k).
Proof. intros Hk. unfold reply_if. destruct c; [apply guarded_ret|auto]. Qed.

(** [gov_quiet] follows a handler down to its calls, like [solve_quiet]. *)
Ltac gov_quiet :=
  cbv zeta;
  lazymatch goal with
  | |- quiet _ (or_reply _ _) => apply quiet_or_reply; [gov_quiet|intros ?; gov_quiet]
  | |- quiet _ (call_or _ _ _) => apply quiet_call_or; [gov_quiet|intros ?; gov_quiet]
  | |- quiet _ (reply_if _ _ _ _) => unfold reply_if; gov_quiet
  | |- quiet _ (Ret _) => apply quiet_ret
  | |- quiet _ (prog_bind _ _) => apply quiet_bind; [gov_quiet|intros ?; gov_quiet]
  | |- quiet _ (prog_try _ _) => apply quiet_try; [gov_quiet|intros ?; gov_quiet]
  | |- quiet _ (call _) => apply quiet_call; intros ?; reflexivity
  | |- quiet _ (match ?x with _ => _ end) => destruct x; gov_quiet
  | |- _ => solve [auto with gov]
  end.

(** [gov_step H] takes one check of a handler that did not reply apart. *)
Ltac gov_step H :=
  cbn beta iota zeta in H;
  lazymatch type of H with
  | run (or_reply _ _) _ _ =>
      let a := fresh "a" in let t1 := fresh "t" in let t2 := fresh "t" in let H1 := fresh "Hc" in
      apply run_or_reply in H as [(? & _ & ?)|(a & t1 & t2 & -> & H1 & H)]; [done|]; gov_step H1
  | run (call_or _ _ _) _ _ =>
      let a := fresh "a" in let t1 := fresh "t" in let t2 := fresh "t" in let H1 := fresh "Hc" in
      apply run_call_or in H as [(? & _ & ?)|(a & t1 & t2 & -> & H1 & H)]; [done|]; gov_step H1
  | run (reply_if ?c _ _ _) _ _ =>
      let E := fresh "Eg" in apply run_reply_if in H as [(_ & _ & ?)|[E H]]; [done|]
  | run (prog_bind _ _) _ _ =>
      let a := fresh "a" in let t1 := fresh "t" in let t2 := fresh "t" in let H1 := fresh "Hc" in
      apply run_bind in H as (a & t1 & t2 & -> & H1 & H); gov_step H1
  | run (call _) _ _ => apply run_call in H; subst
  | run (Ret _) _ _ => let E := fresh "Er" in destruct H as [-> H]
  | _ => idtac
  end.

(** ** What the checks establish *)

Lemma requireAdmin_ok g ctx who :
  requireAdmin g ctx = inr who ->
  ctx_identity ctx = Some who /\ gd_adminRole g ∈ ai_Roles who /\ is_Some (csrfTokenFromContext ctx).
Proof.
  unfold requireAdmin, governanceRequestContext, authenticatedIdentityFromContext.
  destruct (ctx_identity ctx) as [i|]; [|done]. destruct (_ && _); [|done].
  destruct (csrfTokenFromContext ctx) as [csrf|]; [|done].
  destruct (contains _ _) eqn:Ec; cbn [negb]; [|done]. intros [= <-]. bool_to_prop. done.
Qed.

(** The tenant is one the sole active binding of the administrator lists. *)
Lemma authorizeAdminTenant_ok g who tenant tr u :
  run (authorizeAdminTenant g who tenant) tr (inr u) ->
  exists items binding,
    tr = [Ev (List PrincipalBindings (gd_namespace g) list_all) (Ok items)] /\
    sole_binding who items binding /\ tenant ∈ pbs_AdminTenants (pb_Spec binding).
Proof.
  unfold authorizeAdminTenant. intros Hr.
  apply run_bind in Hr as ([scopes|e] & t1 & t2 & -> & Hs & Hr); [|by run_step Hr].
  destruct (tenantAllowed _ _) eqn:Et; cbn [negb] in Hr; run_step Hr. rewrite app_nil_r.
  apply loadPrincipalScopes_ok in Hs as (items & b & -> & Hb & ->).
  apply tenantAllowed_scopes in Et. eauto.
Qed.

Lemma authorizeAdminTenant_quiet g who tenant : quiet is_write (authorizeAdminTenant g who tenant).
Proof.
  unfold authorizeAdminTenant. apply quiet_bind; [by apply loadPrincipalScopes_quiet|]. intros r. solve_quiet.
Qed.

#[export] Hint Resolve authorizeAdminTenant_quiet : gov.

Lemma requireAdminTenant_quiet g ctx tenant : quiet is_write (requireAdminTenant g ctx tenant).
Proof. unfold requireAdminTenant. gov_quiet. Qed.
#[export] Hint Resolve requireAdminTenant_quiet : gov.

Lemma requireAdminTenant_ok g ctx tenant tr who :
  run (requireAdminTenant g ctx tenant) tr (inr who) ->
  requireAdmin g ctx = inr who /\ exists items binding,
    tr = [Ev (List PrincipalBindings (gd_namespace g) list_all) (Ok items)] /\
    sole_binding who items binding /\ tenant ∈ pbs_AdminTenants (pb_Spec binding).
Proof.
  unfold requireAdminTenant. intros Hr.
  apply run_or_reply in Hr as [(? & _ & ?)|(w & t1 & t2 & -> & Hw & Hr)]; [done|]. destruct Hw as [-> Hw].
  apply run_or_reply in Hr as [(? & _ & ?)|(u & t1 & t3 & -> & Ha & Hr)]; [done|]. run_step Hr.
  apply authorizeAdminTenant_ok in Ha as (items & b & -> & ? & ?). eauto 10.
Qed.

Section mutation_proofs.
Context `{UnicodeTables}.

(** A form that passed: posted from the dashboard's own origin, exactly the allowed fields once
    each, and the session's CSRF token. *)
Record mutation_ok (g : governanceDashboard) (r : DashRequest) (allowed : list string) (form : Values) : Prop := {
  mo_query : hr_RawQuery r = "";
  mo_origin : header_Get (hr_Header r) "Origin" = gd_publicOrigin g;
  mo_site : EqualFold (header_Get (hr_Header r) "Sec-Fetch-Site") "cross-site" = false;
  mo_type : content_type r = formContentType;
  mo_form : exists body, hr_Body r = Ok body /\ slen body <= governanceBodyLimit /\ ParseQuery body = Some form;
  mo_fields : forall name, is_Some (form !! name) <-> name ∈ allowed;
  mo_once : forall name, name ∈ allowed -> form !! name = Some [values_Get form name];
  mo_csrf : "csrf" ∈ allowed -> csrfTokenFromContext (hr_Context r) = Some (values_Get form "csrf")
}.

Lemma unexpected_field_false allowed form :
  unexpected_field allowed form = false ->
  forall name values, form !! name = Some values -> name ∈ allowed /\ length values = 1%nat.
Proof.
  unfold unexpected_field. intros Hu name values Hl.
  assert (~ exists e, e ∈ map_to_list form /\
    (let '(n, vs) := e in negb (contains n allowed) || negb (Nat.eqb (length vs) 1)) = true) as Hn.
  { intros (e & He & Hb). apply not_true_iff_false in Hu. apply Hu, existsb_exists. exists e.
    by rewrite <- list_elem_of_In. }
  destruct (negb (contains name allowed) || negb (Nat.eqb (length values) 1)) eqn:E.
  - exfalso. apply Hn. exists (name, values). split; [by apply elem_of_map_to_list|done].
  - apply orb_false_iff in E as [E1 E2]. apply negb_false_iff in E1, E2.
    split; [by apply contains_true|by apply Nat.eqb_eq].
Qed.

Lemma missing_field_None allowed form :
  missing_field allowed form = None -> forall name, name ∈ allowed -> length (values_All form name) = 1%nat.
Proof.
  induction allowed as [|n rest IH]; cbn; [set_solver|].
  destruct (Nat.eqb (length (values_All form n)) 1) eqn:E; cbn; [|done].
  intros Hm name [->|Hin]%elem_of_cons; [by apply Nat.eqb_eq|eauto].
Qed.

Lemma parseMutation_ok g r allowed form :
  "csrf" ∈ allowed -> parseMutation g r allowed = inr form -> mutation_ok g r allowed form.
Proof.
  unfold parseMutation. intros Hcsrf Hp.
  destruct (hr_RawQuery r <>?s "") eqn:E1; [done|].
  destruct (_ || EqualFold _ _) eqn:E2; [done|]. apply orb_false_iff in E2 as [E2 E2'].
  destruct (content_type r <>?s _) eqn:E3; [done|].
  destruct (ParseForm _ r) as [f|] eqn:E4; [|done].
  destruct (unexpected_field allowed f) eqn:E5; [done|].
  destruct (missing_field allowed f) eqn:E6; [done|].
  destruct (csrfTokenFromContext _) as [expected|] eqn:E7; [|done]. cbv zeta in Hp.
  destruct (negb (_ =? _) || _) eqn:E8; [done|]. injection Hp as ->. bool_to_prop.
  pose proof (unexpected_field_false _ _ E5) as Hu. pose proof (missing_field_None _ _ E6) as Hm.
  assert (forall name, name ∈ allowed -> form !! name = Some [values_Get form name]) as Honce.
  { intros name Hin. specialize (Hm name Hin). unfold values_All, values_Get in *.
    destruct (form !! name) as [[|v [|? ?]]|]; cbn in *; done. }
  constructor; try done.
  - unfold ParseForm in E4. destruct (negb (contains _ _)) eqn:Em.
    + injection E4 as <-. specialize (Honce "csrf" Hcsrf). by rewrite lookup_empty in Honce.
    + destruct (negb (mime_params_ok _)); [done|]. unfold read_limited in E4.
      destruct (hr_Body r) as [body|e]; cbn [res_bind] in E4; [|done].
      destruct (governanceBodyLimit <? slen body) eqn:El; [done|]. exists body. by bool_to_prop.
  - intros name. split; [intros [values Hl]; by apply (Hu _ _ Hl)|]. intros Hin. by eexists; apply Honce.
  - intros _. congruence.
Qed.

End mutation_proofs.

(** ** The access budget of a tenant *)

Lemma policies_loop_matching tenant items acc :
  match policies_loop tenant items acc, matching_policies tenant items with
  | Ok out, Ok ms => out = acc ++ ms
  | Err _, Err _ => True
  | _, _ => False
  end.
Proof.
  revert acc. induction items as [|item rest IH]; intros acc; cbn [policies_loop matching_policies].
  { by rewrite app_nil_r. }
  destruct (FromUnstructured item) as [policy|]; cbn [res_bind]; [|done].
  specialize (IH (if policy_matches tenant policy then acc ++ [policy] else acc)).
  destruct (policies_loop _ _ _) as [out|], (matching_policies tenant rest) as [ms|]; cbn [res_bind]; try done.
  change (policy_matches tenant policy) with (policy_applies tenant policy) in *.
  rewrite IH. destruct (policy_applies tenant policy); [by rewrite <- app_assoc|done].
Qed.

(** The dashboard and the admission package agree on the access budget of a tenant: from the
    same list of policies one returns a budget exactly when the other returns the same one. *)
Theorem maxAccessDurationSeconds_equiv `{QuoteLib} g workloads kube tenant tr n :
  run (maxAccessDurationSeconds g tenant) tr (Ok n) <->
  run (MaxAccessDuration {| ka_assignmentNamespace := gd_namespace g; ka_workloadNamespace := workloads;
                            ka_kube := kube |} tenant) tr (Ok n).
Proof.
  unfold maxAccessDurationSeconds, MaxAccessDuration, policyForTenant. cbn [ka_assignmentNamespace].
  rewrite !run_try. split.
  - intros [(e & _ & ?)|(items & t1 & t2 & -> & Hc & Hr)]; [done|]. right.
    pose proof (policies_loop_matching tenant items []) as Hm.
    destruct (policies_loop tenant items []) as [[|p [|? ?]]|]; run_step Hr.
    destruct (matching_policies tenant items) as [ms|] eqn:Em; [|done]. cbn in Hm. subst ms.
    exists p, (t1 ++ []), []. split; [by rewrite !app_nil_r|]. split; [|done].
    apply run_try. right. exists items, t1, []. rewrite Em. done.
  - intros [(e & _ & ?)|(p & t1 & t2 & -> & Hp & Hr)]; [done|]. run_step Hr.
    apply run_try in Hp as [(e & _ & ?)|(items & t2 & t3 & -> & Hc & Hr)]; [done|]. right.
    pose proof (policies_loop_matching tenant items []) as Hm.
    destruct (matching_policies tenant items) as [[|q [|? ?]]|]; run_step Hr.
    destruct (policies_loop tenant items []) as [out|] eqn:El; [|done]. cbn in Hm. subst out.
    exists items, t2, []. rewrite El. by rewrite !app_nil_r.
Qed.

Lemma maxAccessDurationSeconds_quiet `{QuoteLib} g tenant : quiet is_write (maxAccessDurationSeconds g tenant).
Proof. unfold maxAccessDurationSeconds. solve_quiet. Qed.
#[export] Hint Resolve maxAccessDurationSeconds_quiet : gov.

(** A budget comes from the one enabled policy of the tenant. *)
Lemma maxAccessDurationSeconds_ok `{QuoteLib} g tenant tr n :
  run (maxAccessDurationSeconds g tenant) tr (Ok n) ->
  exists items policy, tr = [Ev (List TenantPolicies (gd_namespace g) list_all) (Ok items)] /\
    List.filter (policy_applies tenant) (u_obj <$> items) = [policy] /\
    n = tps_MaxAccessRequestDurationSeconds (tp_Spec policy).
Proof.
  unfold maxAccessDurationSeconds. intros Hr. run_step Hr.
  pose proof (policies_loop_matching tenant a []) as Hm.
  destruct (policies_loop tenant a []) as [[|p [|? ?]]|]; run_step Hr.
  destruct (matching_policies tenant a) as [ms|] eqn:Em; [|done]. cbn in Hm. subst ms.
  exists a, p. split_and!; [done| |done]. symmetry. by apply matching_policies_filter.
Qed.
