(* ===== verification/AccessRequests.v ===== *)
(** * Access requests in the dashboard

    The handlers of [cmd/aks-sandbox-dashboard/governance.go] that create, approve and deny a
    [SandboxAccessRequest], and the functions they use.  The converter to unstructured content
    writes instants with whole seconds.  [r.PathValue("name")] is the argument [name]. *)

From S2P Require Import Prelude GoStrings GoEncoding ApiTypes ApiJson DashboardTypes Kube Governance Principals.
From S2P Require Import Admission DashboardAuth DashboardConfig DashboardCore.
From stdpp Require Import options.

(** [int32(n)]. *)
Definition wrap32 (z : Z) : Z := (z + 2 ^ 31) mod 2 ^ 32 - 2 ^ 31.

Definition requestState (status : SandboxAccessRequestStatus) : string :=
  if rst_State status =?s "" then SandboxAccessRequestPending else rst_State status.

Definition parseDurationMinutes (value : string) : result Duration :=
  match Atoi value with
  | Err _ => Err (ErrMsg "duration must be a whole number of minutes")
  | Ok minutes =>
      let duration := dur_mul minutes Minute in
      if (duration <? MinimumRequestedDuration) || (MaximumRequestedDuration <? duration)
      then Err (ErrMsg "duration must be between 1 and 480 minutes")
      else Ok duration
  end.

(** The typed status as the converter writes it. *)
Definition stored_status (s : SandboxAccessRequestStatus) : SandboxAccessRequestStatus := {|
  rst_State := rst_State s; rst_Approver := rst_Approver s; rst_DecisionReason := rst_DecisionReason s;
  rst_ApprovedAt := json_time <$> rst_ApprovedAt s; rst_ExpiresAt := json_time <$> rst_ExpiresAt s |}.

Definition empty_request_status : SandboxAccessRequestStatus := {|
  rst_State := ""; rst_Approver := None; rst_DecisionReason := ""; rst_ApprovedAt := None;
  rst_ExpiresAt := None |}.

Definition with_state (state : string) (s : SandboxAccessRequestStatus) : SandboxAccessRequestStatus := {|
  rst_State := state; rst_Approver := rst_Approver s; rst_DecisionReason := rst_DecisionReason s;
  rst_ApprovedAt := rst_ApprovedAt s; rst_ExpiresAt := rst_ExpiresAt s |}.

Definition request_with_status (status : SandboxAccessRequestStatus) (r : SandboxAccessRequest)
  : SandboxAccessRequest := {| req_meta := req_meta r; req_Spec := req_Spec r; req_Status := status |}.

(** The object is decoded again; its metadata, and so its resource version, is kept. *)
Definition updateRequestStatus (g : governanceDashboard) (object : Unstructured SandboxAccessRequest)
  (status : SandboxAccessRequestStatus) : KProg (result unit) :=
  match FromUnstructured object with
  | Err e => Ret (Err e)
  | Ok request =>
      _ <-? call (UpdateStatus AccessRequests (gd_namespace g)
                    (wf (request_with_status (stored_status status) request))) ;;
      Ret (Ok tt)
  end.

(** ** The assignment a request is about *)

Definition resolved_name (o : Unstructured SandboxAssignment) : string :=
  nested_string o ["status"; "resolvedCapabilityBundle"; "name"]
    (rcb_Name <$> ss_ResolvedCapabilityBundle (sa_Status (u_obj o))).
Definition resolved_revision (o : Unstructured SandboxAssignment) : string :=
  nested_string o ["status"; "resolvedCapabilityBundle"; "policyRevision"]
    (rcb_PolicyRevision <$> ss_ResolvedCapabilityBundle (sa_Status (u_obj o))).

Definition incarnation_stale (o : Unstructured SandboxAssignment) (uid : string) : bool :=
  om_deleting (sa_meta (u_obj o)) || (om_UID (sa_meta (u_obj o)) <>?s uid).

Definition validateEventAssignment (g : governanceDashboard) (event : SandboxEgressEvent) : KProg (result unit) :=
  r <-- call (Get Assignments (gd_namespace g) (ar_Name (ee_AssignmentRef (ev_Spec event)))) ;;
  match r with
  | Err _ => Ret (Err (ErrMsg "assignment is no longer available"))
  | Ok o =>
      if incarnation_stale o (ar_UID (ee_AssignmentRef (ev_Spec event)))
      then Ret (Err (ErrMsg "denied event belongs to a stale assignment incarnation"))
      else if (resolved_name o <>?s ee_CapabilityBundleName (ev_Spec event))
              || (resolved_revision o <>?s ee_CapabilityBundleRevision (ev_Spec event))
      then Ret (Err (ErrMsg "denied event belongs to a stale capability policy revision"))
      else Ret (Ok tt)
  end.

Definition validateRequestAssignment (g : governanceDashboard) (request : SandboxAccessRequest) : KProg (result unit) :=
  r <-- call (Get Assignments (gd_namespace g) (ar_Name (rs_AssignmentRef (req_Spec request)))) ;;
  match r with
  | Err _ => Ret (Err (ErrMsg "assignment is no longer available"))
  | Ok o =>
      if incarnation_stale o (ar_UID (rs_AssignmentRef (req_Spec request)))
      then Ret (Err (ErrMsg "access request belongs to a stale assignment incarnation"))
      else if resolved_revision o <>?s rs_BasePolicyRevision (req_Spec request)
      then Ret (Err (ErrMsg "access request belongs to a stale capability policy revision"))
      else Ret (Ok tt)
  end.

(** ** Duplicates *)

Definition same_target (a b : SandboxAccessRequestSpec) : bool :=
  bool_decide (rs_AssignmentRef a = rs_AssignmentRef b)
  && (rs_BasePolicyRevision a =?s rs_BasePolicyRevision b)
  && (rs_Backend a =?s rs_Backend b) && (rs_Method a =?s rs_Method b)
  && (rs_Host a =?s rs_Host b) && (rs_Path a =?s rs_Path b).

(** One pass; the clock is read for every approved request that has an expiry. *)
Fixpoint duplicate_loop (spec : SandboxAccessRequestSpec) (items : list (Unstructured SandboxAccessRequest))
  : KProg (result bool) :=
  match items with
  | [] => Ret (Ok false)
  | item :: rest =>
      match FromUnstructured item with
      | Err e => Ret (Err e)
      | Ok request =>
          let state := requestState (req_Status request) in
          if (state <>?s SandboxAccessRequestPending) && (state <>?s SandboxAccessRequestApproved)
          then duplicate_loop spec rest
          else
            expired <-- (if state =?s SandboxAccessRequestApproved then
                           match rst_ExpiresAt (req_Status request) with
                           | None => Ret true
                           | Some expiresAt => now <-- call time_Now ;; Ret (negb (time_after expiresAt now))
                           end
                         else Ret false) ;;
            if (expired : bool) then duplicate_loop spec rest
            else if same_target (req_Spec request) spec then Ret (Ok true)
            else duplicate_loop spec rest
      end
  end.

Definition hasActiveDuplicate (g : governanceDashboard) (spec : SandboxAccessRequestSpec) : KProg (result bool) :=
  items <-? call (List AccessRequests (gd_namespace g) list_all) ;;
  duplicate_loop spec items.

(** ** Handlers *)

Definition governanceIdentity `{UnicodeTables} `{UuidLib} (who : authenticatedIdentity)
  (logicalTenant team : string) : result GovernanceIdentity :=
  let out := {| gi_TenantID := ai_TenantID who; gi_ObjectID := ai_ObjectID who; gi_DisplayName := ai_Name who;
                gi_LogicalTenant := logicalTenant; gi_Team := team |} in
  _ <-! ValidateIdentity out ;; Ok out.

Section handlers.
Context `{UnicodeTables} `{K8sValidation} `{UuidLib} `{QuoteLib}.

Definition invalid_reason (reason : string) : bool :=
  (slen (TrimSpace reason) <? 3) || (512 <? slen reason).

Definition pendingRequest (g : governanceDashboard) (name : string)
  : KProg (GovReply + Unstructured SandboxAccessRequest * SandboxAccessRequest) :=
  reply_if (negb (Nat.eqb (length (IsDNS1123Subdomain name)) 0)) "Invalid access request name" StatusBadRequest (
  call_or (call (Get AccessRequests (gd_namespace g) name)) resourceError (fun object =>
  match FromUnstructured object with
  | Err _ => Ret (inl internalError)
  | Ok request =>
      reply_if (requestState (req_Status request) <>?s SandboxAccessRequestPending)
        "Access request has already been decided" StatusConflict (
      Ret (inr (object, request)))
  end)).

Definition event_requester (who : authenticatedIdentity) (event : SandboxEgressEvent) : GovernanceIdentity := {|
  gi_TenantID := ai_TenantID who; gi_ObjectID := ai_ObjectID who; gi_DisplayName := ai_Name who;
  gi_LogicalTenant := ee_LogicalTenant (ev_Spec event); gi_Team := ee_Team (ev_Spec event) |}.

Definition event_spec (who : authenticatedIdentity) (event : SandboxEgressEvent) (target : Target)
  (reason : string) (duration : Duration) : SandboxAccessRequestSpec := {|
  rs_AssignmentRef := ee_AssignmentRef (ev_Spec event); rs_PodUID := ee_PodUID (ev_Spec event);
  rs_BasePolicyRevision := ee_CapabilityBundleRevision (ev_Spec event);
  rs_Backend := t_Backend target; rs_Method := t_Method target; rs_Host := t_Host target;
  rs_Path := t_Path target; rs_Reason := reason; rs_Requester := event_requester who event;
  rs_RequestedDurationSeconds := wrap32 (Z.quot duration Second) |}.

Definition new_request (namespace : string) (spec : SandboxAccessRequestSpec) : SandboxAccessRequest := {|
  req_meta := {| om_Name := ""; om_GenerateName := "access-"; om_Namespace := namespace; om_UID := "";
                 om_ResourceVersion := ""; om_Generation := 0; om_CreationTimestamp := zero_time;
                 om_DeletionTimestamp := None; om_Labels := ∅; om_Annotations := ∅;
                 om_Finalizers := []; om_OwnerReferences := [] |};
  req_Spec := spec; req_Status := empty_request_status |}.

Definition target_of_event (event : SandboxEgressEvent) : option Target :=
  let e := ev_Spec event in
  match NormalizeTarget (ee_Backend e) (ee_Method e) (ee_Host e) (ee_Path e) with
  | Err _ => None
  | Ok target =>
      if (t_Backend target <>?s ee_Backend e) || (t_Method target <>?s ee_Method e)
         || (t_Host target <>?s ee_Host e) || (t_Path target <>?s ee_Path e)
      then None else Some target
  end.

(** The checks of [createAccessRequest], up to the specification of the new request. *)
Definition prepareAccessRequest (g : governanceDashboard) (r : DashRequest)
  : KProg (GovReply + SandboxAccessRequestSpec) :=
  match governanceRequestContext (hr_Context r) with
  | None => Ret (inl (GovError "Unauthorized" StatusUnauthorized))
  | Some (who, _) =>
      scopes <-- principalScopes g who ;;
      match scopes with
      | Err _ => Ret (inl (GovError "Forbidden" StatusForbidden))
      | Ok scopes =>
      reply_if (Nat.eqb (len_tenants (requester scopes)) 0) "Forbidden" StatusForbidden (
      form <-| Ret (parseMutation g r ["csrf"; "eventName"; "reason"; "durationMinutes"]) ;;
      let eventName := values_Get form "eventName" in
      reply_if (negb (Nat.eqb (length (IsDNS1123Subdomain eventName)) 0)) "Invalid event name" StatusBadRequest (
      call_or (Ret (parseDurationMinutes (values_Get form "durationMinutes")))
        (fun e => GovError (error_string e) StatusBadRequest) (fun duration =>
      call_or (call (Get EgressEvents (gd_namespace g) eventName)) resourceError (fun eventObject =>
      call_or (Ret (FromUnstructured eventObject)) (fun _ => internalError) (fun event =>
      reply_if (ee_Allowed (ev_Spec event) || (ee_DecisionSource (ev_Spec event) <>?s DecisionSourceDeny))
        "Access can only be requested from a denied event" StatusConflict (
      reply_if (negb (tenantAllowed (requester scopes) (ee_LogicalTenant (ev_Spec event))))
        "Denied event belongs to another logical tenant" StatusForbidden (
      match target_of_event event with
      | None => Ret (inl (GovError "Denied event target is invalid" StatusConflict))
      | Some target =>
      call_or (validateEventAssignment g event) (fun e => GovError (error_string e) StatusConflict) (fun _ =>
      call_or (maxAccessDurationSeconds g (ee_LogicalTenant (ev_Spec event)))
        (fun e => GovError (error_string e) StatusConflict) (fun maxAccessSeconds =>
      reply_if (dur_mul maxAccessSeconds Second <? duration)
        "Requested duration exceeds the tenant access budget" StatusBadRequest (
      let spec := event_spec who event target (values_Get form "reason") duration in
      call_or (Ret (ValidateAccessRequestSpec spec))
        (fun e => GovError ("Invalid access request: " +:+ error_string e) StatusBadRequest) (fun _ =>
      call_or (hasActiveDuplicate g spec) (fun _ => internalError) (fun duplicate =>
      reply_if duplicate "An active request already exists for this exact target" StatusConflict (
      Ret (inr spec)))))))
      end)))))))
      end
  end.

Definition createAccessRequest (g : governanceDashboard) (r : DashRequest) : KProg (GovReply + Empty_set) :=
  spec <-| prepareAccessRequest g r ;;
  call_or (call (Create AccessRequests (gd_namespace g) (wf (new_request (gd_namespace g) spec)))) resourceError (fun created =>
  call_or (Ret (FromUnstructured created)) (fun _ => internalError) (fun createdRequest =>
  call_or (updateRequestStatus g created (with_state SandboxAccessRequestPending (req_Status createdRequest)))
    (fun _ => internalError) (fun _ =>
  Ret (inl (redirectWithMessage g "/access" ("Access request " +:+ om_Name (req_meta (u_obj created)) +:+ " created")))))).

Definition assignment_bundle_name (o : Unstructured SandboxAssignment) : string :=
  nested_string o ["spec"; "capabilityBundleRef"; "name"]
    (Some (cbr_Name (as_CapabilityBundleRef (sa_Spec (u_obj o))))).
Definition bundle_logical_tenant (o : Unstructured CapabilityBundle) : string :=
  nested_string o ["spec"; "governance"; "logicalTenant"] (gb_LogicalTenant <$> cbs_Governance (cb_Spec (u_obj o))).

(** The checks of [approveAccessRequest]: the request and the approved duration. *)
Definition approvalChecks (g : governanceDashboard) (r : DashRequest) (name : string)
  : KProg (GovReply + Unstructured SandboxAccessRequest * SandboxAccessRequest * GovernanceIdentity * string * Duration) :=
  who <-| Ret (requireAdmin g (hr_Context r)) ;;
  form <-| Ret (parseMutation g r ["csrf"; "decisionReason"; "durationMinutes"]) ;;
  call_or (Ret (parseDurationMinutes (values_Get form "durationMinutes")))
    (fun e => GovError (error_string e) StatusBadRequest) (fun duration =>
  let reason := values_Get form "decisionReason" in
  reply_if (invalid_reason reason) "Decision reason must be 3-512 characters" StatusBadRequest (
  pending <-| pendingRequest g name ;;
  let '(object, request) := pending in
  _ <-| authorizeAdminTenant g who (gi_LogicalTenant (rs_Requester (req_Spec request))) ;;
  reply_if (negb (is_ok (ValidateAccessRequestSpec (req_Spec request)))) "Access request is invalid" StatusConflict (
  reply_if (dur_mul (rs_RequestedDurationSeconds (req_Spec request)) Second <? duration)
    "Approved duration exceeds the requested duration" StatusBadRequest (
  call_or (validateRequestAssignment g request) (fun e => GovError (error_string e) StatusConflict) (fun _ =>
  call_or (call (Get Assignments (gd_namespace g) (ar_Name (rs_AssignmentRef (req_Spec request))))) resourceError
    (fun assignmentObject =>
  call_or (call (Get Bundles (gd_namespace g) (assignment_bundle_name assignmentObject))) resourceError
    (fun bundleObject =>
  call_or (maxAccessDurationSeconds g (bundle_logical_tenant bundleObject))
    (fun e => GovError (error_string e) StatusConflict) (fun maxAccessSeconds =>
  reply_if (dur_mul maxAccessSeconds Second <? duration)
    "Approved duration exceeds the tenant access budget" StatusBadRequest (
  call_or (Ret (governanceIdentity who "" ""))
    (fun _ => GovError "Authenticated administrator identity is invalid" StatusForbidden) (fun approver =>
  Ret (inr (object, request, approver, reason, duration)))))))))))).

Definition approved_status (approver : GovernanceIdentity) (reason : string) (now : Time) (duration : Duration)
  : SandboxAccessRequestStatus := {|
  rst_State := SandboxAccessRequestApproved; rst_Approver := Some approver; rst_DecisionReason := reason;
  rst_ApprovedAt := Some now; rst_ExpiresAt := Some (time_add now duration) |}.

Definition approveAccessRequest (g : governanceDashboard) (r : DashRequest) (name : string)
  : KProg (GovReply + Empty_set) :=
  checked <-| approvalChecks g r name ;;
  let '(object, request, approver, reason, duration) := checked in
  now <-- call time_Now ;;
  call_or (updateRequestStatus g object (approved_status approver reason now duration)) resourceError (fun _ =>
  Ret (inl (redirectWithMessage g "/admin" ("Access request " +:+ om_Name (req_meta request) +:+ " approved")))).

Definition denied_status (approver : GovernanceIdentity) (reason : string) : SandboxAccessRequestStatus := {|
  rst_State := SandboxAccessRequestDenied; rst_Approver := Some approver; rst_DecisionReason := reason;
  rst_ApprovedAt := None; rst_ExpiresAt := None |}.

Definition denyAccessRequest (g : governanceDashboard) (r : DashRequest) (name : string)
  : KProg (GovReply + Empty_set) :=
  who <-| Ret (requireAdmin g (hr_Context r)) ;;
  form <-| Ret (parseMutation g r ["csrf"; "decisionReason"]) ;;
  let reason := values_Get form "decisionReason" in
  reply_if (invalid_reason reason) "Decision reason must be 3-512 characters" StatusBadRequest (
  pending <-| pendingRequest g name ;;
  let '(object, request) := pending in
  _ <-| authorizeAdminTenant g who (gi_LogicalTenant (rs_Requester (req_Spec request))) ;;
  call_or (Ret (governanceIdentity who "" ""))
    (fun _ => GovError "Authenticated administrator identity is invalid" StatusForbidden) (fun approver =>
  call_or (updateRequestStatus g object (denied_status approver reason)) resourceError (fun _ =>
  Ret (inl (redirectWithMessage g "/admin" ("Access request " +:+ om_Name (req_meta request) +:+ " denied")))))).

End handlers.

(** ** Properties *)

(** The access request whose status a call tries to write, and the request a call creates. *)
Definition request_of {T} (r : Resource T) : T -> option (Unstructured SandboxAccessRequest) :=
  match r in Resource T return T -> option (Unstructured SandboxAccessRequest) with
  | AccessRequests => fun o => Some o
  | _ => fun _ => None
  end.
Definition request_status_write (e : KEvent) : option (Unstructured SandboxAccessRequest) :=
  match e with Ev op _ => match op with UpdateStatus r _ o => request_of r o | _ => None end end.
Definition request_create (e : KEvent) : option (Unstructured SandboxAccessRequest) :=
  match e with Ev op _ => match op with Create r _ o => request_of r o | _ => None end end.

(** A duration that was parsed is between one minute and eight hours. *)
Lemma parseDurationMinutes_range value d :
  parseDurationMinutes value = Ok d -> MinimumRequestedDuration <= d <= MaximumRequestedDuration.
Proof.
  unfold parseDurationMinutes. destruct (Atoi value); [|done]. cbv zeta. case_match eqn:E; [done|].
  intros [= <-]. bool_to_prop. lia.
Qed.

Lemma json_time_le t : json_time t <= t < json_time t + Second.
Proof. unfold json_time, Second. pose proof (Z.div_mod t 1000000000). pose proof (Z.mod_pos_bound t 1000000000). lia. Qed.

Lemma json_time_mono t u : t <= u -> json_time t <= json_time u.
Proof. unfold json_time, Second. intros. apply Z.mul_le_mono_nonneg_r; [lia|]. apply Z.div_le_mono; lia. Qed.

(** Storing whole seconds never stretches an approval beyond a whole number of seconds. *)
Lemma json_time_span now d n : d <= n * Second -> json_time (now + d) - json_time now <= n * Second.
Proof.
  intros Hd. assert (json_time (now + n * Second) = json_time now + n * Second) as E.
  { unfold json_time, Second. rewrite Z.div_add by lia. lia. }
  pose proof (json_time_mono (now + d) (now + n * Second)). lia.
Qed.

Section proofs.
Context `{UnicodeTables} `{K8sValidation} `{UuidLib} `{QuoteLib}.

Lemma validateRequestAssignment_quiet g request : quiet is_write (validateRequestAssignment g request).
Proof. unfold validateRequestAssignment. solve_quiet. Qed.
Lemma validateEventAssignment_quiet g event : quiet is_write (validateEventAssignment g event).
Proof. unfold validateEventAssignment. solve_quiet. Qed.
Lemma pendingRequest_quiet g name : quiet is_write (pendingRequest g name).
Proof. unfold pendingRequest. gov_quiet. Qed.
Lemma duplicate_loop_quiet spec items : quiet is_write (duplicate_loop spec items).
Proof.
  induction items as [|item rest IH]; cbn [duplicate_loop]; [solve_quiet|].
  destruct (FromUnstructured item); [|solve_quiet]. cbv zeta. destruct (_ && _); [done|].
  apply quiet_bind; [solve_quiet|]. intros []; [done|]. destruct (same_target _ _); [solve_quiet|done].
Qed.
#[local] Hint Resolve validateRequestAssignment_quiet validateEventAssignment_quiet pendingRequest_quiet
  duplicate_loop_quiet : gov.
Lemma hasActiveDuplicate_quiet g spec : quiet is_write (hasActiveDuplicate g spec).
Proof. unfold hasActiveDuplicate. gov_quiet. Qed.
#[local] Hint Resolve hasActiveDuplicate_quiet : gov.
Lemma principalScopes_quiet g who : quiet is_write (principalScopes g who).
Proof. by apply loadPrincipalScopes_quiet. Qed.
#[local] Hint Resolve principalScopes_quiet : gov.

Lemma approvalChecks_quiet g r name : quiet is_write (approvalChecks g r name).
Proof. unfold approvalChecks. gov_quiet. Qed.
Lemma prepareAccessRequest_quiet g r : quiet is_write (prepareAccessRequest g r).
Proof. unfold prepareAccessRequest. gov_quiet. Qed.

Lemma pendingRequest_ok g name tr object request :
  run (pendingRequest g name) tr (inr (object, request)) ->
  object = wf request /\ tr = [Ev (Get AccessRequests (gd_namespace g) name) (Ok (wf request))] /\
  requestState (req_Status request) = SandboxAccessRequestPending.
Proof.
  unfold pendingRequest. intros Hr. do 2 gov_step Hr.
  destruct (FromUnstructured a) as [q|] eqn:Ef; [|by destruct Hr]. apply FromUnstructured_Ok in Ef as ->.
  gov_step Hr. gov_step Hr. simplify_eq. bool_to_prop. split_and!; done.
Qed.

(** The request names a live assignment with its resolved revision. *)
Definition assignment_current (g : governanceDashboard) (spec : SandboxAccessRequestSpec) (t : list KEvent) : Prop :=
  exists o, Ev (Get Assignments (gd_namespace g) (ar_Name (rs_AssignmentRef spec))) (Ok o) ∈ t /\
    om_DeletionTimestamp (sa_meta (u_obj o)) = None /\
    om_UID (sa_meta (u_obj o)) = ar_UID (rs_AssignmentRef spec) /\
    resolved_revision o = rs_BasePolicyRevision spec.

Lemma incarnation_stale_false o uid :
  incarnation_stale o uid = false ->
  om_DeletionTimestamp (sa_meta (u_obj o)) = None /\ om_UID (sa_meta (u_obj o)) = uid.
Proof.
  unfold incarnation_stale, om_deleting. intros E. apply orb_false_iff in E as [E1 E2]. bool_to_prop.
  split; [|done]. by apply eq_None_not_Some.
Qed.

Lemma validateRequestAssignment_ok g request tr u :
  run (validateRequestAssignment g request) tr (Ok u) -> assignment_current g (req_Spec request) tr.
Proof.
  unfold validateRequestAssignment. intros Hr. run_step Hr. destruct a as [o|]; [|by run_step Hr].
  destruct (incarnation_stale _ _) eqn:Es; [by run_step Hr|]. destruct (_ <>?s _) eqn:Er; run_step Hr.
  apply incarnation_stale_false in Es as [? ?]. bool_to_prop. exists o. split_and!; try done. set_solver.
Qed.

(** What is known when an approval is written. *)
Record approval_evidence (g : governanceDashboard) (r : DashRequest) (name : string) (t : list KEvent)
  (request : SandboxAccessRequest) (approver : GovernanceIdentity) (reason : string) (duration : Duration) : Prop := {
  ape_admin : exists who, ctx_identity (hr_Context r) = Some who /\ gd_adminRole g ∈ ai_Roles who /\
    approver = {| gi_TenantID := ai_TenantID who; gi_ObjectID := ai_ObjectID who; gi_DisplayName := ai_Name who;
                  gi_LogicalTenant := ""; gi_Team := "" |} /\ identity_ok approver /\
    exists items binding, Ev (List PrincipalBindings (gd_namespace g) list_all) (Ok items) ∈ t /\
      sole_binding who items binding /\
      gi_LogicalTenant (rs_Requester (req_Spec request)) ∈ pbs_AdminTenants (pb_Spec binding);
  ape_form : exists form, mutation_ok g r ["csrf"; "decisionReason"; "durationMinutes"] form /\
    reason = values_Get form "decisionReason" /\ invalid_reason reason = false /\
    parseDurationMinutes (values_Get form "durationMinutes") = Ok duration;
  ape_pending : Ev (Get AccessRequests (gd_namespace g) name) (Ok (wf request)) ∈ t /\
    requestState (req_Status request) = SandboxAccessRequestPending;
  ape_spec : ValidateAccessRequestSpec (req_Spec request) = Ok tt;
  ape_requested : duration <= dur_mul (rs_RequestedDurationSeconds (req_Spec request)) Second;
  ape_assignment : assignment_current g (req_Spec request) t;
  ape_budget : exists o bundle (items : list (Unstructured SandboxTenantPolicy)) policy,
    Ev (Get Assignments (gd_namespace g) (ar_Name (rs_AssignmentRef (req_Spec request)))) (Ok o) ∈ t /\
    Ev (Get Bundles (gd_namespace g) (assignment_bundle_name o)) (Ok bundle) ∈ t /\
    Ev (List TenantPolicies (gd_namespace g) list_all) (Ok items) ∈ t /\
    List.filter (policy_applies (bundle_logical_tenant bundle)) (u_obj <$> items) = [policy] /\
    duration <= dur_mul (tps_MaxAccessRequestDurationSeconds (tp_Spec policy)) Second
}.

Lemma governanceIdentity_ok who tenant team out :
  governanceIdentity who tenant team = Ok out ->
  out = {| gi_TenantID := ai_TenantID who; gi_ObjectID := ai_ObjectID who; gi_DisplayName := ai_Name who;
           gi_LogicalTenant := tenant; gi_Team := team |} /\ identity_ok out.
Proof.
  unfold governanceIdentity. cbv zeta. destruct (ValidateIdentity _) as [u|] eqn:E; [|done].
  intros [= <-]. split; [done|]. by apply (ValidateIdentity_ok _ u).
Qed.

Lemma approvalChecks_ok g r name tr object request approver reason duration :
  run (approvalChecks g r name) tr (inr (object, request, approver, reason, duration)) ->
  object = wf request /\ approval_evidence g r name tr request approver reason duration.
Proof.
  unfold approvalChecks. intros Hr.
  gov_step Hr. rename a into who, Hc into Hwho. apply requireAdmin_ok in Hwho as (Hid & Hrole & _).
  gov_step Hr. rename a into form, Hc into Hform. apply parseMutation_ok in Hform; [|set_solver].
  gov_step Hr. rename a into d, Hc into Hd. gov_step Hr. rename Eg into Hreason.
  gov_step Hr. destruct a as [obj q]. apply pendingRequest_ok in Hc as (-> & -> & Hp).
  gov_step Hr. apply authorizeAdminTenant_ok in Hc as (items & binding & -> & Hb & Hin).
  gov_step Hr. rename Eg into Hspec. gov_step Hr. rename Eg into Hreq.
  gov_step Hr. apply validateRequestAssignment_ok in Hc.
  gov_step Hr. rename a1 into o. gov_step Hr. rename a1 into bundle.
  gov_step Hr. apply maxAccessDurationSeconds_ok in Hc0 as (policies & policy & -> & Hf & ->).
  gov_step Hr. rename Eg into Hbudget. gov_step Hr. apply governanceIdentity_ok in Hc0 as [-> Hok].
  gov_step Hr. simplify_eq. split; [done|].
  bool_to_prop. constructor.
  - exists who. split_and!; try done. exists items, binding. split_and!; try done. set_solver.
  - exists form. split_and!; done.
  - split; [set_solver|done].
  - destruct (ValidateAccessRequestSpec (req_Spec request)) as [[]|]; done.
  - done.
  - destruct Hc as (o' & Hin' & Hrest). exists o'. split; [set_solver|done].
  - exists o, bundle, policies, policy. split_and!; try done; set_solver.
Qed.

Lemma approval_evidence_app g r name t t' request approver reason duration :
  approval_evidence g r name t request approver reason duration ->
  approval_evidence g r name (t ++ t') request approver reason duration.
Proof.
  intros [(who & ? & ? & ? & ? & items & b & ? & ? & ?) Hf [Hp ?] ? ? (o & ? & ?) (o' & bu & ps & po & ? & ? & ? & ? & ?)].
  constructor; try done.
  - exists who. split_and!; try done. exists items, b. split_and!; try done. set_solver.
  - split; [set_solver|done].
  - exists o. split; [set_solver|done].
  - exists o', bu, ps, po. split_and!; try done; set_solver.
Qed.

Lemma updateRequestStatus_guarded g request status (P : list KEvent -> KEvent -> Prop) :
  (forall answer, P [] (Ev (UpdateStatus AccessRequests (gd_namespace g)
     (wf (request_with_status (stored_status status) request))) answer)) ->
  guarded is_write P (updateRequestStatus g (wf request) status).
Proof.
  intros HP. unfold updateRequestStatus. cbn [FromUnstructured wf u_malformed u_obj].
  apply guarded_try; [by apply guarded_call|]. intros. apply guarded_ret.
Qed.

(** The status an approval writes, and what was checked before. *)
Definition approves (g : governanceDashboard) (r : DashRequest) (name : string) (t : list KEvent) (e : KEvent) : Prop :=
  exists request approver reason duration now,
    approval_evidence g r name t request approver reason duration /\ Ev time_Now now ∈ t /\
    request_status_write e =
      Some (wf (request_with_status (stored_status (approved_status approver reason now duration)) request)).

Lemma approve_guarded g r name : guarded is_write (approves g r name) (approveAccessRequest g r name).
Proof.
  unfold approveAccessRequest.
  apply guarded_or_reply; [apply guarded_quiet, approvalChecks_quiet|].
  intros [[[[object request] approver] reason] duration] t1 [-> He]%approvalChecks_ok.
  apply guarded_bind; [apply guarded_quiet; solve_quiet|]. intros now t2 ->%run_call.
  apply guarded_call_or; [|intros; apply guarded_ret].
  apply updateRequestStatus_guarded. intros answer. exists request, approver, reason, duration, now.
  split; [by apply approval_evidence_app|]. split; [|done]. set_solver.
Qed.

(** The specification of a new request: every field that decides what it grants comes from the
    denied event, and the duration is what the form asked for. *)
Record request_evidence (g : governanceDashboard) (r : DashRequest) (t : list KEvent)
  (spec : SandboxAccessRequestSpec) : Prop := {
  rqe_denied : exists who eventName event reason duration target,
    ctx_identity (hr_Context r) = Some who /\
    Ev (Get EgressEvents (gd_namespace g) eventName) (Ok (wf event)) ∈ t /\
    ee_Allowed (ev_Spec event) = false /\ ee_DecisionSource (ev_Spec event) = DecisionSourceDeny /\
    event_target event = target /\ spec = event_spec who event target reason duration /\
    MinimumRequestedDuration <= duration <= MaximumRequestedDuration /\
    (exists items binding, Ev (List PrincipalBindings (gd_namespace g) list_all) (Ok items) ∈ t /\
       sole_binding who items binding /\
       ee_LogicalTenant (ev_Spec event) ∈ pbs_RequesterTenants (pb_Spec binding)) /\
    (exists (policies : list (Unstructured SandboxTenantPolicy)) policy,
       Ev (List TenantPolicies (gd_namespace g) list_all) (Ok policies) ∈ t /\
       List.filter (policy_applies (ee_LogicalTenant (ev_Spec event))) (u_obj <$> policies) = [policy] /\
       duration <= dur_mul (tps_MaxAccessRequestDurationSeconds (tp_Spec policy)) Second);
  rqe_form : exists form, mutation_ok g r ["csrf"; "eventName"; "reason"; "durationMinutes"] form;
  rqe_spec : ValidateAccessRequestSpec spec = Ok tt;
  rqe_assignment : assignment_current g spec t;
  rqe_unique : exists items, Ev (List AccessRequests (gd_namespace g) list_all) (Ok items) ∈ t /\
    forall request, wf request ∈ items -> same_target (req_Spec request) spec = true ->
      requestState (req_Status request) <> SandboxAccessRequestPending
}.

Lemma target_of_event_ok event target :
  target_of_event event = Some target -> target = event_target event.
Proof.
  unfold target_of_event, event_target. cbv zeta. destruct (NormalizeTarget _ _ _ _) as [tg|]; [|done].
  case_match eqn:E; [done|]. intros [= <-]. bool_to_prop. destruct tg; cbn in *. congruence.
Qed.

Lemma validateEventAssignment_ok g event tr u who target reason duration :
  run (validateEventAssignment g event) tr (Ok u) ->
  assignment_current g (event_spec who event target reason duration) tr.
Proof.
  unfold validateEventAssignment. intros Hr. run_step Hr. destruct a as [o|]; [|by run_step Hr].
  destruct (incarnation_stale _ _) eqn:Es; [by run_step Hr|]. destruct (_ || _) eqn:Er; run_step Hr.
  apply incarnation_stale_false in Es as [? ?]. bool_to_prop. exists o. split_and!; try done. set_solver.
Qed.

Lemma duplicate_loop_false spec items tr :
  run (duplicate_loop spec items) tr (Ok false) ->
  forall request, wf request ∈ items -> same_target (req_Spec request) spec = true ->
    requestState (req_Status request) <> SandboxAccessRequestPending.
Proof.
  revert tr. induction items as [|item rest IH]; intros tr; cbn [duplicate_loop]; [set_solver|].
  destruct (FromUnstructured item) as [q|] eqn:Ef; [|by intros [_ ?]]. apply FromUnstructured_Ok in Ef as ->.
  cbv zeta. intros Hr request [[= ->]|Hin]%elem_of_cons Hs.
  - intros Hp. rewrite Hp in Hr. change (SandboxAccessRequestPending =?s SandboxAccessRequestApproved) with false in Hr.
    cbn [negb andb] in Hr. rewrite seqb_refl in Hr. cbn [negb andb] in Hr.
    gov_step Hr. subst a. rewrite Hs in Hr. by destruct Hr.
  - destruct (_ && _); [by eapply IH|]. apply run_bind in Hr as (ex & t1 & t2 & -> & _ & Hr).
    destruct ex; [by eapply IH|]. destruct (same_target (req_Spec q) spec); [by destruct Hr|]. by eapply IH.
Qed.

Lemma prepareAccessRequest_ok g r tr spec :
  run (prepareAccessRequest g r) tr (inr spec) -> request_evidence g r tr spec.
Proof.
  unfold prepareAccessRequest, governanceRequestContext, authenticatedIdentityFromContext. intros Hr.
  destruct (ctx_identity (hr_Context r)) as [who|] eqn:Hid; [|by destruct Hr].
  destruct (_ && _); [|by destruct Hr]. destruct (csrfTokenFromContext _); [|by destruct Hr].
  apply run_bind in Hr as ([scopes|] & t1 & t2 & -> & Hs & Hr); [|by destruct Hr].
  apply loadPrincipalScopes_ok in Hs as (items & binding & -> & Hb & ->).
  gov_step Hr. gov_step Hr. rename a into form. apply parseMutation_ok in Hc; [|set_solver].
  cbv zeta in Hr. gov_step Hr. gov_step Hr. rename a into d. apply parseDurationMinutes_range in Hc0.
  gov_step Hr. rename a into eventObject. gov_step Hr. rename a into event. apply FromUnstructured_Ok in Hc1 as ->.
  gov_step Hr. rename Eg1 into Hdenied. gov_step Hr. rename Eg1 into Htenant.
  destruct (target_of_event event) as [target|] eqn:Et; [|by destruct Hr]. apply target_of_event_ok in Et.
  gov_step Hr. apply (validateEventAssignment_ok _ _ _ _ who target (values_Get form "reason") d) in Hc1.
  gov_step Hr. apply maxAccessDurationSeconds_ok in Hc2 as (policies & policy & -> & Hf & ->).
  gov_step Hr. rename Eg1 into Hbudget. gov_step Hr. rename Hc2 into Hspec.
  gov_step Hr. gov_step Hr. gov_step Hr. simplify_eq.
  apply run_try in Hc2 as [(e & _ & ?)|(requests & t3 & t4 & -> & ->%run_call & Hd)]; [done|].
  apply negb_false_iff, tenantAllowed_scopes in Htenant. bool_to_prop.
  constructor.
  - exists who, (values_Get form "eventName"), event, (values_Get form "reason"), d, (event_target event).
    split_and!; try done; [set_solver|lia|lia|exists items, binding|exists policies, policy];
      split_and!; try done; set_solver.
  - by exists form.
  - by destruct a0.
  - destruct Hc1 as (o & Ho & Hrest). exists o. split; [set_solver|done].
  - exists requests. split; [set_solver|]. by eapply duplicate_loop_false.
Qed.

(** ** Theorems *)

(** C14. An access request becomes approved only by an authenticated administrator whose sole active
    binding lists the requester's tenant, through a form from the dashboard's origin with the
    session's CSRF token, while the request is pending, well formed and about the current
    incarnation and policy revision of its assignment, and for no longer than was requested
    and than the tenant's budget; what is written is the request that was read with that
    approval, from a clock reading of the handler. *)
Theorem approve_sound g r name tr reply e :
  run (approveAccessRequest g r name) tr reply -> e ∈ tr -> is_write e = true ->
  exists t1 t2, tr = t1 ++ e :: t2 /\ approves g r name t1 e.
Proof. intros Hr He Hw. by apply (guarded_elem _ _ _ _ _ _ (approve_guarded g r name) Hr He Hw). Qed.

(** What [createAccessRequest] writes: a new request, and then the pending state of the request
    that the API server returned. *)
Definition creates_request (g : governanceDashboard) (r : DashRequest) (t : list KEvent) (e : KEvent) : Prop :=
  exists spec, request_evidence g r t spec /\
    (request_create e = Some (wf (new_request (gd_namespace g) spec)) \/
    exists created, Ev (Create AccessRequests (gd_namespace g) (wf (new_request (gd_namespace g) spec)))
                       (Ok (wf created)) ∈ t /\
       request_status_write e = Some (wf (request_with_status
         (stored_status (with_state SandboxAccessRequestPending (req_Status created))) created))).

Lemma request_evidence_app g r t t' spec : request_evidence g r t spec -> request_evidence g r (t ++ t') spec.
Proof.
  intros [(who & n & event & reason & d & target & ? & ? & ? & ? & ? & ? & ? & (items & b & ? & ? & ?)
           & (ps & po & ? & ? & ?)) Hf ? (o & ? & ?) (rs & ? & ?)].
  constructor; try done.
  - exists who, n, event, reason, d, target. split_and!; try done; try (by destruct_and!); [set_solver| |].
    + exists items, b. split_and!; try done. set_solver.
    + exists ps, po. split_and!; try done. set_solver.
  - exists o. split; [set_solver|done].
  - exists rs. split; [set_solver|done].
Qed.

Lemma create_guarded g r : guarded is_write (creates_request g r) (createAccessRequest g r).
Proof.
  unfold createAccessRequest.
  apply guarded_or_reply; [apply guarded_quiet, prepareAccessRequest_quiet|]. intros spec t1 He%prepareAccessRequest_ok.
  apply guarded_call_or.
  { apply guarded_call. intros answer. exists spec. rewrite app_nil_r. auto. }
  intros created t2 ->%run_call.
  apply guarded_call_or; [apply guarded_ret|]. intros createdRequest t3 [-> ->%FromUnstructured_Ok].
  apply guarded_call_or; [|intros; apply guarded_ret].
  apply updateRequestStatus_guarded. intros answer. exists spec.
  split; [by apply request_evidence_app|]. right. exists createdRequest. split; [set_solver|done].
Qed.


(** What [denyAccessRequest] writes. *)
Definition denies (g : governanceDashboard) (r : DashRequest) (name : string) (t : list KEvent) (e : KEvent) : Prop :=
  exists who request approver form items binding,
    ctx_identity (hr_Context r) = Some who /\ gd_adminRole g ∈ ai_Roles who /\
    mutation_ok g r ["csrf"; "decisionReason"] form /\
    Ev (Get AccessRequests (gd_namespace g) name) (Ok (wf request)) ∈ t /\
    requestState (req_Status request) = SandboxAccessRequestPending /\
    Ev (List PrincipalBindings (gd_namespace g) list_all) (Ok items) ∈ t /\ sole_binding who items binding /\
    gi_LogicalTenant (rs_Requester (req_Spec request)) ∈ pbs_AdminTenants (pb_Spec binding) /\
    request_status_write e =
      Some (wf (request_with_status (stored_status (denied_status approver (values_Get form "decisionReason"))) request)).

Lemma deny_guarded g r name : guarded is_write (denies g r name) (denyAccessRequest g r name).
Proof.
  unfold denyAccessRequest.
  apply guarded_or_reply; [apply guarded_ret|]. intros who t1 [-> (Hid & Hrole & _)%requireAdmin_ok].
  apply guarded_or_reply; [apply guarded_ret|]. intros form t2 [-> Hf%parseMutation_ok]; [|set_solver]. cbv zeta.
  apply guarded_reply_if. intros Hreason.
  apply guarded_or_reply; [apply guarded_quiet, pendingRequest_quiet|].
  intros [object request] t3 (-> & -> & Hp)%pendingRequest_ok.
  apply guarded_or_reply; [apply guarded_quiet; auto with gov|].
  intros u t4 (items & binding & -> & Hb & Hin)%authorizeAdminTenant_ok.
  apply guarded_call_or; [apply guarded_ret|]. intros approver t5 [-> _].
  apply guarded_call_or; [|intros; apply guarded_ret].
  apply updateRequestStatus_guarded. intros answer.
  exists who, request, approver, form, items, binding. split_and!; try done; set_solver.
Qed.

(** An access request is denied only by an administrator of the requester's tenant, through the
    dashboard's own form, while it is pending. *)
Theorem deny_sound g r name : guarded is_write (denies g r name) (denyAccessRequest g r name).
Proof. apply deny_guarded. Qed.

(** The number of minutes is multiplied at 64 bits, so a number far outside the accepted range
    can wrap into it: such a form value is accepted, even with a duration that is not a whole
    number of minutes. *)
Theorem parseDurationMinutes_wraps :
  parseDurationMinutes "9007199254740993" = Ok Minute /\
  parseDurationMinutes "3749353613647812" = Ok (Minute + 2048).
Proof. by vm_compute. Qed.

End proofs.
