(* ===== verification/AccessLifecycle.v ===== *)
(** * The life of an access request

    What the parts that touch one access request do together: the dashboard creates, approves
    and denies it ([AccessRequests]), the audit sink expires it ([EgressAudit]), and the
    authorization endpoint honours it ([Checker]).

    First, an approval that the dashboard writes is a grant for the endpoint, from the instant
    of approval to its expiry and for exactly the target that was requested.  Then the requests'
    states: any number of administrators, the creating handler and the expiry pass interleave
    their reads and writes around the API server's optimistic concurrency, and still every
    request follows Pending, then Approved or Denied, then only Approved to Expired. *)

From stdpp Require Import relations.
From S2P Require Import Prelude GoStrings GoEncoding ApiTypes ApiJson DashboardTypes Kube Governance Principals.
From S2P Require Import AuthzServer Checker EgressAudit DashboardAuth DashboardConfig DashboardCore AccessRequests.
From stdpp Require Import options.

Section honoured.
Context `{UnicodeTables} `{K8sValidation} `{UuidLib} `{QuoteLib}.

(** The decision is about the sandbox, revision and target that the specification names. *)
Record decides (d : Decision) (spec : SandboxAccessRequestSpec) : Prop := {
  dec_assignment : rs_AssignmentRef spec = {| ar_Name := d_AssignmentName d; ar_UID := d_AssignmentUID d |};
  dec_pod : rs_PodUID spec = d_PodUID d;
  dec_revision : rs_BasePolicyRevision spec = d_CapabilityBundleRevision d;
  dec_target : rs_Backend spec = d_Backend d /\ rs_Method spec = d_Method d /\
    rs_Host spec = d_Host d /\ rs_Path spec = d_Path d
}.

Lemma approved_active_grant g r name t request approver reason now duration d at_ :
  approval_evidence g r name t request approver reason duration ->
  om_DeletionTimestamp (req_meta request) = None ->
  in_int32 (rs_RequestedDurationSeconds (req_Spec request)) ->
  decides d (req_Spec request) ->
  json_time now <= at_ < json_time (now + duration) ->
  active_grant d at_ (wf (request_with_status (stored_status (approved_status approver reason now duration)) request)).
Proof.
  intros He Hlive H32 [Ha Hp Hr Ht] Hat.
  destruct He as [(who & _ & _ & _ & Hid & _) (form & _ & _ & Hreason & Hd) _ Hspec Hreq _ _].
  apply parseDurationMinutes_range in Hd. apply ValidateAccessRequestSpec_ok in Hspec; [|done].
  rewrite dur_mul_seconds_int32 in Hreq by done.
  constructor; cbn; try done.
  exists approver, (json_time now), (json_time (now + duration)). split_and!; try done; try lia.
  - cbn [rst_DecisionReason req_Status request_with_status stored_status approved_status]. intros E. unfold invalid_reason in Hreason. rewrite E in Hreason. done.
  - cbn. by apply json_time_span.
  - pose proof (json_time_span now duration 28800). unfold MaximumRequestedDuration, Hour, Minute, Second in *. lia.
Qed.


End honoured.

(** ** Concurrent decisions

    The API server keeps one object.  A status update carries the resource version of the object
    that its author read and is refused if the stored version has changed since; every accepted
    write gets a version that was never used before.  The expiry pass sends a merge patch of the
    state alone, which is not conditional.  Between the read that a write rests on and the write
    itself anything may happen, so writes are kept in flight and arrive, or get lost, in any
    order. *)

(** The writes a handler makes of a request it has read. *)
Inductive decision : SandboxAccessRequest -> SandboxAccessRequest -> Prop :=
  | decision_approve request approver reason now duration :
      requestState (req_Status request) = SandboxAccessRequestPending ->
      decision request (request_with_status (stored_status (approved_status approver reason now duration)) request)
  | decision_deny request approver reason :
      requestState (req_Status request) = SandboxAccessRequestPending ->
      decision request (request_with_status (stored_status (denied_status approver reason)) request).

(** The creating handler's write of the initial state. *)
Definition initial_write (request : SandboxAccessRequest) : SandboxAccessRequest :=
  request_with_status (stored_status (with_state SandboxAccessRequestPending (req_Status request))) request.

Lemma approves_decision `{UnicodeTables} `{K8sValidation} `{UuidLib} g r name t e :
  approves g r name t e ->
  exists request written, Ev (Get AccessRequests (gd_namespace g) name) (Ok (wf request)) ∈ t /\
    request_status_write e = Some (wf written) /\ decision request written.
Proof.
  intros (request & approver & reason & duration & now & Hev & _ & Hw).
  destruct (ape_pending _ _ _ _ _ _ _ _ Hev) as [Hg Hp].
  exists request. eexists. split; [done|]. split; [done|]. by constructor.
Qed.

Lemma denies_decision `{UnicodeTables} g r name t e :
  denies g r name t e ->
  exists request written, Ev (Get AccessRequests (gd_namespace g) name) (Ok (wf request)) ∈ t /\
    request_status_write e = Some (wf written) /\ decision request written.
Proof.
  intros (who & request & approver & form & items & b & _ & _ & _ & Hg & Hp & _ & _ & _ & Hw).
  exists request. eexists. split; [done|]. split; [done|]. by constructor.
Qed.

Lemma request_expired_approved now u : request_expired now u = true -> rst_State (req_Status (u_obj u)) = SandboxAccessRequestApproved.
Proof.
  unfold request_expired. cbv zeta. intros E. apply andb_true_iff in E as [E _]. apply seqb_eq in E. revert E.
  unfold nested_string, nested. by destruct (path_malformed _ _).
Qed.

Inductive Write :=
  | WriteStatus (object : SandboxAccessRequest)
  | WriteExpired.

Record Server := {
  srv_request : SandboxAccessRequest;
  srv_used : gset string;
  srv_flight : list Write
}.

Definition version (r : SandboxAccessRequest) : string := om_ResourceVersion (req_meta r).

Definition set_version (v : string) (r : SandboxAccessRequest) : SandboxAccessRequest := {|
  req_meta := {| om_Name := om_Name (req_meta r); om_GenerateName := om_GenerateName (req_meta r);
                 om_Namespace := om_Namespace (req_meta r); om_UID := om_UID (req_meta r);
                 om_ResourceVersion := v; om_Generation := om_Generation (req_meta r);
                 om_CreationTimestamp := om_CreationTimestamp (req_meta r);
                 om_DeletionTimestamp := om_DeletionTimestamp (req_meta r); om_Labels := om_Labels (req_meta r);
                 om_Annotations := om_Annotations (req_meta r); om_Finalizers := om_Finalizers (req_meta r);
                 om_OwnerReferences := om_OwnerReferences (req_meta r) |};
  req_Spec := req_Spec r; req_Status := req_Status r |}.

Definition expired_request (r : SandboxAccessRequest) : SandboxAccessRequest :=
  request_with_status (with_state SandboxAccessRequestExpired (req_Status r)) r.

Inductive server_step : Server -> Server -> Prop :=
  | step_decide s written :
      decision (srv_request s) written ->
      server_step s {| srv_request := srv_request s; srv_used := srv_used s;
                       srv_flight := WriteStatus written :: srv_flight s |}
  | step_find_expired s now :
      request_expired now (wf (srv_request s)) = true ->
      server_step s {| srv_request := srv_request s; srv_used := srv_used s;
                       srv_flight := WriteExpired :: srv_flight s |}
  | step_accept s f1 f2 written v :
      srv_flight s = f1 ++ WriteStatus written :: f2 ->
      version written = version (srv_request s) -> v ∉ srv_used s ->
      server_step s {| srv_request := set_version v (request_with_status (req_Status written) (srv_request s));
                       srv_used := {[v]} ∪ srv_used s; srv_flight := f1 ++ f2 |}
  | step_expire s f1 f2 v :
      srv_flight s = f1 ++ WriteExpired :: f2 -> v ∉ srv_used s ->
      server_step s {| srv_request := set_version v (expired_request (srv_request s));
                       srv_used := {[v]} ∪ srv_used s; srv_flight := f1 ++ f2 |}
  | step_drop s f1 w f2 :
      srv_flight s = f1 ++ w :: f2 ->
      server_step s {| srv_request := srv_request s; srv_used := srv_used s; srv_flight := f1 ++ f2 |}.

(** A request as it was created, with its initial state possibly still to be written. *)
Inductive created : Server -> Prop :=
  | created_request request flight :
      rst_State (req_Status request) = "" -> (flight = [] \/ flight = [WriteStatus (initial_write request)]) ->
      created {| srv_request := request; srv_used := {[version request]}; srv_flight := flight |}.

(** The specification: the phases of a request. *)
Inductive Phase := PhasePending | PhaseApproved | PhaseDenied | PhaseExpired.

Definition phase (r : SandboxAccessRequest) : Phase :=
  let state := requestState (req_Status r) in
  if state =?s SandboxAccessRequestApproved then PhaseApproved
  else if state =?s SandboxAccessRequestDenied then PhaseDenied
  else if state =?s SandboxAccessRequestExpired then PhaseExpired
  else PhasePending.

Inductive phase_step : Phase -> Phase -> Prop :=
  | phase_approve : phase_step PhasePending PhaseApproved
  | phase_deny : phase_step PhasePending PhaseDenied
  | phase_expire : phase_step PhaseApproved PhaseExpired.

(** The invariant: a conditional write that can still be accepted rests on a pending request,
    and an expiry in flight on one that was approved. *)
Record server_inv (s : Server) : Prop := {
  si_version : version (srv_request s) ∈ srv_used s;
  si_known : requestState (req_Status (srv_request s)) ∈
    [SandboxAccessRequestPending; SandboxAccessRequestApproved; SandboxAccessRequestDenied; SandboxAccessRequestExpired];
  si_flight : forall written, WriteStatus written ∈ srv_flight s ->
    version written ∈ srv_used s /\
    rst_State (req_Status written) ∈
      [SandboxAccessRequestPending; SandboxAccessRequestApproved; SandboxAccessRequestDenied] /\
    (version written = version (srv_request s) ->
     requestState (req_Status (srv_request s)) = SandboxAccessRequestPending);
  si_expired : WriteExpired ∈ srv_flight s ->
    phase (srv_request s) = PhaseApproved \/ phase (srv_request s) = PhaseExpired
}.

Lemma decision_written request written :
  decision request written ->
  version written = version request /\ requestState (req_Status request) = SandboxAccessRequestPending /\
  rst_State (req_Status written) ∈ [SandboxAccessRequestApproved; SandboxAccessRequestDenied].
Proof. destruct 1; cbn; split_and!; try done; set_solver. Qed.

Lemma created_inv s : created s -> server_inv s.
Proof.
  destruct 1 as [request flight He Hf]. assert (requestState (req_Status request) = SandboxAccessRequestPending) as Hp
    by (unfold requestState; by rewrite He). constructor; cbn.
  - set_solver.
  - rewrite Hp. set_solver.
  - intros written Hin. destruct Hf as [->| ->]; [set_solver|]. apply list_elem_of_singleton in Hin as [= ->].
    cbn. split_and!; try done; set_solver.
  - destruct Hf as [->| ->]; set_solver.
Qed.

(** The state a conditional write leaves. *)
Lemma accepted_state r written v :
  requestState (req_Status (set_version v (request_with_status (req_Status written) r))) =
  requestState (req_Status written).
Proof. done. Qed.

Lemma known_state state :
  state ∈ [SandboxAccessRequestPending; SandboxAccessRequestApproved; SandboxAccessRequestDenied] ->
  (state =?s "") = false.
Proof. intros Hin. apply seqb_neq. intros ->. set_solver. Qed.

Lemma flight_remove (f1 f2 : list Write) w x : x ∈ f1 ++ f2 -> x ∈ f1 ++ w :: f2.
Proof. set_solver. Qed.

(** Every step keeps the invariant and is a step of the specification, or leaves the phase. *)
Lemma server_step_simulates s s' :
  server_step s s' -> server_inv s ->
  server_inv s' /\
  (phase (srv_request s') = phase (srv_request s) \/ phase_step (phase (srv_request s)) (phase (srv_request s'))) /\
  (phase (srv_request s) <> PhasePending ->
     stored_status (with_state "" (req_Status (srv_request s'))) =
     stored_status (with_state "" (req_Status (srv_request s)))).
Proof.
  intros Hstep [Hv Hk Hf He]. destruct Hstep as [s written Hd|s now Hx|s f1 f2 written v Ef Ev Hn|s f1 f2 v Ef Hn|s f1 w f2 Ef]; cbn in *.
  - split; [|by auto]. apply decision_written in Hd as (Hver & Hp & Hw). constructor; cbn; try done.
    + intros w [[= ->]|Hin]%elem_of_cons; [|by auto]. rewrite Hver. split_and!; [done| |done]. set_solver.
    + intros [?|Hin]%elem_of_cons; [done|by auto].
  - split; [|by auto]. constructor; cbn; try done.
    + intros w [?|Hin]%elem_of_cons; [done|by auto].
    + intros _. apply request_expired_approved in Hx. left. unfold phase, requestState. cbn in Hx. by rewrite Hx.
  - destruct (Hf written) as (Huse & Hst & Hpend); [rewrite Ef; set_solver|]. specialize (Hpend Ev).
    pose proof (known_state _ Hst) as Hne.
    assert (phase (srv_request s) = PhasePending) as Hph by (unfold phase; by rewrite Hpend).
    split; [constructor; cbn|split].
    + set_solver.
    + unfold requestState. rewrite Hne. set_solver.
    + intros w Hin. destruct (Hf w) as (Hu & Hs & _); [rewrite Ef; by apply flight_remove|].
      split; [set_solver|]. split; [done|]. intros E. exfalso. apply Hn. by rewrite <- E.
    + intros Hin. exfalso. destruct He as [E|E]; [rewrite Ef; by apply flight_remove|congruence|congruence].
    + rewrite Hph. unfold phase. cbn. unfold requestState. rewrite Hne.
      repeat (apply elem_of_cons in Hst as [->|Hst]; [cbn; auto using phase_approve, phase_deny|]). set_solver.
    + by rewrite Hph.
  - assert (phase (srv_request s) = PhaseApproved \/ phase (srv_request s) = PhaseExpired) as Hph
      by (apply He; rewrite Ef; set_solver).
    split; [constructor; cbn|split].
    + set_solver.
    + set_solver.
    + intros w Hin. destruct (Hf w) as (Hu & Hs & _); [rewrite Ef; by apply flight_remove|].
      split; [set_solver|]. split; [done|]. intros E. exfalso. apply Hn. by rewrite <- E.
    + intros _. right. done.
    + destruct Hph as [-> | ->]; cbn; auto using phase_expire.
    + done.
  - split; [|by auto]. constructor; cbn; try done.
    + intros w' Hin. apply Hf. rewrite Ef. by apply flight_remove.
    + intros Hin. apply He. rewrite Ef. by apply flight_remove.
Qed.

(** C13. Whatever the interleaving of administrators, of the creating handler and of the expiry pass,
    a request follows the specified phases: it is decided at most once, a denied request is
    never approved, an approved one can only expire, and once a request has been decided its
    approver, reason and approval window never change. *)
Theorem access_request_lifecycle s0 s s' :
  created s0 -> rtc server_step s0 s -> rtc server_step s s' ->
  rtc phase_step PhasePending (phase (srv_request s)) /\
  rtc phase_step (phase (srv_request s)) (phase (srv_request s')) /\
  (phase (srv_request s) <> PhasePending ->
     stored_status (with_state "" (req_Status (srv_request s'))) =
     stored_status (with_state "" (req_Status (srv_request s)))).
Proof.
  assert (forall a b, rtc server_step a b -> server_inv a ->
    server_inv b /\ rtc phase_step (phase (srv_request a)) (phase (srv_request b)) /\
    (phase (srv_request a) <> PhasePending ->
       stored_status (with_state "" (req_Status (srv_request b))) =
       stored_status (with_state "" (req_Status (srv_request a))))) as Hsim.
  { induction 1 as [a|a b c Hab Hbc IH]; intros Hi; [split_and!; done|].
    destruct (server_step_simulates _ _ Hab Hi) as (Hi' & Hp & Hs). destruct (IH Hi') as (Hic & Hpc & Hsc).
    split; [done|]. split; [destruct Hp as [<- | Hp]; [done|by eapply rtc_l]|].
    intros Hne. assert (phase (srv_request b) <> PhasePending) as Hne'.
    { destruct Hp as [->|Hp]; [done|]. by inversion Hp. }
    rewrite Hsc by done. by apply Hs. }
  intros Hc H0 H1. pose proof (created_inv _ Hc) as Hi0. destruct (Hsim _ _ H0 Hi0) as (Hi & Hp & _).
  destruct (Hsim _ _ H1 Hi) as (_ & Hp' & Hs). split; [|done].
  destruct Hc as [request flight He _]. cbn in Hp. unfold phase at 1, requestState in Hp. by rewrite He in Hp.
Qed.
