(* ===== verification/RequesterAuthz.v ===== *)
(** * Authorization of dashboard requesters

    [cmd/aks-sandbox-dashboard/requester_authorization.go].  A signed-in requester may see and
    control the sandboxes of the tenants its binding lists.  The authorizer guards the embedded
    dashboard twice: as HTTP middleware, by the request's path, and as a wrapper around the
    client the dashboard uses, by the sandbox each operation names.  The client's operations are
    the calls [OsbOp], so the wrapper is a program for each of them.

    An error made with [fmt.Errorf("%w: ...")] wraps its sentinel; its text is never shown. *)

From S2P Require Import Prelude GoStrings GoEncoding GoMime ApiTypes ApiJson DashboardTypes Kube Governance Principals.
From S2P Require Import DashboardAuth DashboardConfig DashboardCore.
From stdpp Require Import options.

Definition errRequesterUnauthorized : error := ErrMsg "dashboard requester identity is unavailable".
Definition errRequesterForbidden : error := ErrMsg "dashboard requester authorization denied".
Definition errRequesterUnavailable : error := ErrMsg "dashboard requester authorization is unavailable".

Definition errSandboxAssignmentMissing : error := ErrMsg "sandbox is not bound to a governed assignment".
Definition errSandboxAssignmentAmbiguous : error := ErrMsg "sandbox matches multiple governed assignments".
Definition errSandboxLogicalTenantEmpty : error := ErrMsg "sandbox assignment has no logical tenant".
Definition errTemplateLogicalTenantEmpty : error := ErrMsg "dashboard sandbox template has no logical tenant".

Record requesterLifecycleAuthorizer := {
  ra_namespace : string;
  ra_basePath : string;
  ra_templateName : string
}.

Definition newRequesterLifecycleAuthorizer (client_present reader_present : bool) (cfg : config)
  : result requesterLifecycleAuthorizer :=
  if negb client_present || negb reader_present
  then Err (ErrMsg "requester dashboard authorization requires Kubernetes and sandbox readers")
  else if (cf_assignmentNamespace cfg =?s "") || (cf_basePath cfg =?s "") || (cf_sandboxTemplate cfg =?s "")
  then Err (ErrMsg "requester dashboard authorization requires assignment namespace, base path, and sandbox template")
  else Ok {| ra_namespace := cf_assignmentNamespace cfg; ra_basePath := cf_basePath cfg;
             ra_templateName := cf_sandboxTemplate cfg |}.

(** ** Paths *)

Definition relativePath (a : requesterLifecycleAuthorizer) (path : string) : option string :=
  match CutPrefix path (ra_basePath a) with
  | None => None
  | Some rest =>
      if rest =?s "" then Some "/"
      else if negb (HasPrefix rest "/") then Some ("/" +:+ rest)
      else Some rest
  end.

Definition isAggregateSandboxPath (relative : string) : bool :=
  contains relative ["/"; "/stats"; "/snapshots"; "/dashboard/overview"; "/dashboard/stats"; "/dashboard/snapshots"].

Definition pathHead (value : string) : string :=
  match cut_byte "/" value with Some (head, _) => head | None => value end.

Definition usesSandboxSnapshotTotals (relative : string) : bool :=
  if HasPrefix relative "/sandboxes/" then negb (contains_byte "/" (TrimPrefix relative "/sandboxes/"))
  else if HasPrefix relative "/dashboard/sandboxes/" then
    let rest := TrimPrefix relative "/dashboard/sandboxes/" in
    (rest <>?s "") && ((rest =?s pathHead rest) || HasSuffix relative "/fragment")
  else false.

Fixpoint first_sandbox (prefixes : list string) (relative : string) : option string :=
  match prefixes with
  | [] => None
  | prefix :: more =>
      match CutPrefix relative prefix with
      | None => first_sandbox more relative
      | Some rest =>
          if rest =?s "" then first_sandbox more relative
          else let sandboxID := pathHead rest in
               if sandboxID <>?s "" then Some sandboxID else first_sandbox more relative
      end
  end.
Definition sandboxPathValue (relative : string) : option string :=
  first_sandbox ["/sandboxes/"; "/dashboard/sandboxes/"] relative.

Definition writeRequesterAuthorizationError (e : error) : GovReply :=
  if error_Is e errRequesterUnauthorized then GovError "Unauthorized" StatusUnauthorized
  else if error_Is e errRequesterForbidden then GovError "Forbidden" StatusForbidden
  else GovError "Requester authorization is unavailable" StatusServiceUnavailable.

(** ** Tenants *)

Section authorizer.
Context (a : requesterLifecycleAuthorizer) (ctx : RequestContext).

Definition requesterTenants : KProg (result TenantSet) :=
  match authenticatedIdentityFromContext ctx with
  | None => Ret (Err errRequesterUnauthorized)
  | Some who =>
      scopes <-- loadPrincipalScopes (ra_namespace a) who ;;
      match scopes with
      | Err e =>
          if error_Is e errPrincipalBindingMissing || error_Is e errPrincipalBindingAmbiguous
          then Ret (Err (ErrWrap (error_string e) errRequesterForbidden))
          else Ret (Err (ErrWrap ("load principal scopes: " +:+ error_string e) errRequesterUnavailable))
      | Ok scopes =>
          if Nat.eqb (len_tenants (requester scopes)) 0
          then Ret (Err (ErrWrap "principal has no requester tenant scopes" errRequesterForbidden))
          else Ret (Ok (requester scopes))
      end
  end.

Definition bundleLogicalTenant (bundleName : string) : KProg (result string) :=
  bundle <-- call (Get Bundles (ra_namespace a) bundleName) ;;
  match bundle with
  | Err e => Ret (Err (ErrWrap ("get capability bundle: " +:+ error_string e) errRequesterUnavailable))
  | Ok bundle =>
      let logicalTenant := nested_string bundle ["spec"; "governance"; "logicalTenant"]
        (gb_LogicalTenant <$> cbs_Governance (cb_Spec (u_obj bundle))) in
      if TrimSpace logicalTenant =?s "" then Ret (Err errSandboxLogicalTenantEmpty)
      else Ret (Ok logicalTenant)
  end.

Definition templateLogicalTenant : KProg (result string) :=
  template <-- call (Get Templates (ra_namespace a) (ra_templateName a)) ;;
  match template with
  | Err e => Ret (Err (ErrWrap ("get sandbox template: " +:+ error_string e) errRequesterUnavailable))
  | Ok template =>
      let bundleName := nested_string template ["spec"; "capabilityBundleRef"; "name"]
        (Some (cbr_Name (sts_CapabilityBundleRef (st_Spec (u_obj template))))) in
      if TrimSpace bundleName =?s "" then Ret (Err errTemplateLogicalTenantEmpty)
      else bundleLogicalTenant bundleName
  end.

(** ** The assignment of a sandbox *)

Definition names_sandbox (sandboxID : string) (value : SandboxAssignment) : bool :=
  negb (om_deleting (sa_meta value))
  && ((map_get (om_Annotations (sa_meta value)) SandboxIDAnnotation =?s sandboxID)
      || (map_get (om_Labels (sa_meta value)) SandboxIDLabel =?s sandboxID)).

Definition assignmentForSandboxID (sandboxID : string) : KProg (result SandboxAssignment) :=
  items <-? call (List Assignments (ra_namespace a) list_all) ;;
  match sole_match (names_sandbox sandboxID) errSandboxAssignmentAmbiguous items None with
  | Err e => Ret (Err e)
  | Ok None => Ret (Err errSandboxAssignmentMissing)
  | Ok (Some value) => Ret (Ok value)
  end.

Definition assignmentByName (assignmentName : string) : KProg (result SandboxAssignment) :=
  object <-- call (Get Assignments (ra_namespace a) assignmentName) ;;
  match object with
  | Err e => Ret (Err (ErrWrap (error_string e) errSandboxAssignmentMissing))
  | Ok object =>
      if om_deleting (sa_meta (u_obj object)) then Ret (Err errSandboxAssignmentMissing)
      else Ret (FromUnstructured object)
  end.

Definition assignmentForSandbox (sandbox : OsbSandbox) : KProg (result SandboxAssignment) :=
  let assignmentName := TrimSpace (map_get (default ∅ (osb_Metadata sandbox)) AssignmentLabel) in
  if assignmentName <>?s "" then assignmentByName assignmentName
  else assignmentForSandboxID (osb_ID sandbox).

Definition assignment_tenant (value : SandboxAssignment) : KProg (result string) :=
  let logicalTenant := TrimSpace (as_LogicalTenant (sa_Spec value)) in
  if logicalTenant <>?s "" then Ret (Ok logicalTenant)
  else bundleLogicalTenant (cbr_Name (as_CapabilityBundleRef (sa_Spec value))).

Definition sandboxLogicalTenant (sandboxID : string) : KProg (result string) :=
  value <-? assignmentForSandboxID sandboxID ;; assignment_tenant value.

Definition sandboxLogicalTenantForSandbox (sandbox : OsbSandbox) : KProg (result string) :=
  value <-? assignmentForSandbox sandbox ;; assignment_tenant value.

(** ** Decisions *)

(** Errors that mean "not governed by one tenant" deny; the others make the check unavailable. *)
Definition ungoverned (e : error) : bool :=
  error_Is e errSandboxAssignmentMissing || error_Is e errSandboxAssignmentAmbiguous
  || error_Is e errSandboxLogicalTenantEmpty.

Definition allowed_if (tenants : TenantSet) (resolved : KProg (result string)) : KProg (result bool) :=
  logicalTenant <-- resolved ;;
  match logicalTenant with
  | Ok logicalTenant => Ret (Ok (tenantAllowed tenants logicalTenant))
  | Err e => if ungoverned e then Ret (Ok false)
             else Ret (Err (ErrWrap ("resolve sandbox: " +:+ error_string e) errRequesterUnavailable))
  end.

Definition sandboxAllowed (sandboxID : string) (tenants : TenantSet) : KProg (result bool) :=
  allowed_if tenants (sandboxLogicalTenant sandboxID).

Definition sandboxAllowedByObject (sandbox : OsbSandbox) (tenants : TenantSet) : KProg (result bool) :=
  allowed_if tenants (sandboxLogicalTenantForSandbox sandbox).

Definition snapshotAllowed (snapshot : OsbSnapshot) (tenants : TenantSet) : KProg (result bool) :=
  if TrimSpace (snap_SandboxID snapshot) =?s "" then Ret (Ok false)
  else sandboxAllowed (snap_SandboxID snapshot) tenants.

Definition forbidden (what : string) : error := ErrWrap what errRequesterForbidden.

Definition authorizeTemplate : KProg (result unit) :=
  tenants <-? requesterTenants ;;
  logicalTenant <-? templateLogicalTenant ;;
  if negb (tenantAllowed tenants logicalTenant) then Ret (Err (forbidden "sandbox template tenant"))
  else Ret (Ok tt).

Definition authorizeSandbox (sandboxID : string) : KProg (result unit) :=
  tenants <-? requesterTenants ;;
  allowed <-? sandboxAllowed sandboxID tenants ;;
  if negb allowed then Ret (Err (forbidden ("sandbox " +:+ sandboxID))) else Ret (Ok tt).

(** Every item of a list must be allowed. *)
Fixpoint all_allowed {A} (check : A -> KProg (result bool)) (items : list A) : KProg (result unit) :=
  match items with
  | [] => Ret (Ok tt)
  | item :: rest =>
      allowed <-? check item ;;
      if negb (allowed : bool) then Ret (Err (forbidden "listed item")) else all_allowed check rest
  end.

(** The items that are allowed, in order. *)
Fixpoint filter_allowed {A} (check : A -> KProg (result bool)) (items : list A) : KProg (result (list A)) :=
  match items with
  | [] => Ret (Ok [])
  | item :: rest =>
      allowed <-? check item ;;
      filtered <-? filter_allowed check rest ;;
      Ret (Ok (if (allowed : bool) then item :: filtered else filtered))
  end.

Definition unavailable (what : string) (e : error) : error :=
  ErrWrap (what +:+ ": " +:+ error_string e) errRequesterUnavailable.

Definition authorizeAggregateSandboxes : KProg (result unit) :=
  tenants <-? requesterTenants ;;
  sandboxes <-- call (Osb osb_ListSandboxes) ;;
  match sandboxes with
  | Err e => Ret (Err (unavailable "list sandboxes" e))
  | Ok sandboxes => all_allowed (fun sandbox => sandboxAllowedByObject sandbox tenants) sandboxes
  end.

Definition authorizeAggregateSnapshots : KProg (result unit) :=
  tenants <-? requesterTenants ;;
  snapshots <-- call (Osb osb_ListSnapshots) ;;
  match snapshots with
  | Err e => Ret (Err (unavailable "list snapshots" e))
  | Ok snapshots => all_allowed (fun snapshot => snapshotAllowed snapshot tenants) snapshots
  end.

(** ** The wrapped client *)

Definition filterSandboxes (sandboxes : list OsbSandbox) : KProg (result (list OsbSandbox)) :=
  tenants <-? requesterTenants ;;
  filter_allowed (fun sandbox => sandboxAllowedByObject sandbox tenants) sandboxes.

Definition filterSnapshots (snapshots : list OsbSnapshot) : KProg (result (list OsbSnapshot)) :=
  tenants <-? requesterTenants ;;
  filter_allowed (fun snapshot => snapshotAllowed snapshot tenants) snapshots.

Definition client_ListSandboxes : KProg (result (list OsbSandbox)) :=
  sandboxes <-? call (Osb osb_ListSandboxes) ;; filterSandboxes sandboxes.

Definition client_ListSnapshots : KProg (result (list OsbSnapshot)) :=
  snapshots <-? call (Osb osb_ListSnapshots) ;; filterSnapshots snapshots.

Definition client_GetSnapshot (snapshotID : string) : KProg (result OsbSnapshot) :=
  snapshot <-? call (Osb (osb_GetSnapshot snapshotID)) ;;
  tenants <-? requesterTenants ;;
  allowed <-? snapshotAllowed snapshot tenants ;;
  if negb allowed then Ret (Err (forbidden ("snapshot " +:+ snapshotID))) else Ret (Ok snapshot).

(** An operation on one sandbox reaches the client only after [authorizeSandbox]. *)
Definition after_authorization {R} (sandboxID : string) (op : OsbOp (result R)) : KProg (result R) :=
  _ <-? authorizeSandbox sandboxID ;; call (Osb op).

Definition client_ListRecentSandboxEvents (sandboxes : list OsbSandbox) : KProg (result (list string)) :=
  filtered <-? filterSandboxes sandboxes ;; call (Osb (osb_ListRecentSandboxEvents filtered)).

Definition client_DeleteSnapshot (snapshotID : string) : KProg (result unit) :=
  snapshot <-? client_GetSnapshot snapshotID ;; call (Osb (osb_DeleteSnapshot (snap_ID snapshot))).

(** [authorizedDashboardClient]: creation relies on the middleware, and node loads are not
    filtered. *)
Definition authorizedDashboardClient {R} (op : OsbOp R) : KProg R :=
  match op in OsbOp R return KProg R with
  | osb_ListSandboxes => client_ListSandboxes
  | osb_ListSnapshots => client_ListSnapshots
  | osb_GetSnapshot snapshotID => client_GetSnapshot snapshotID
  | osb_ListSandboxNodeLoads => call (Osb osb_ListSandboxNodeLoads)
  | osb_ListPodEvents sandboxID => after_authorization sandboxID (osb_ListPodEvents sandboxID)
  | osb_ListRecentSandboxEvents sandboxes => client_ListRecentSandboxEvents sandboxes
  | osb_CreateSandbox request => call (Osb (osb_CreateSandbox request))
  | osb_DeleteSandbox sandbox => after_authorization (osb_ID sandbox) (osb_DeleteSandbox sandbox)
  | osb_PauseSandbox sandboxID => after_authorization sandboxID (osb_PauseSandbox sandboxID)
  | osb_ResumeSandbox sandboxID => after_authorization sandboxID (osb_ResumeSandbox sandboxID)
  | osb_CreateSnapshot sandboxID name => after_authorization sandboxID (osb_CreateSnapshot sandboxID name)
  | osb_DeleteSnapshot snapshotID => client_DeleteSnapshot snapshotID
  | osb_OpenPTY sandboxID => after_authorization sandboxID (osb_OpenPTY sandboxID)
  | osb_RunCommand sandboxID command => after_authorization sandboxID (osb_RunCommand sandboxID command)
  | osb_Close => call (Osb osb_Close)
  end.

End authorizer.

(** ** The middleware *)

Section middleware.
Context `{UnicodeTables}.

(** [r.ParseForm] and [r.FormValue]: body values of a form post come before query values. *)
Definition defaultMaxForm : Z := 10 * 2 ^ 20.
Definition body_values (r : DashRequest) : option Values :=
  if header_Get (hr_Header r) "Content-Type" =?s "" then Some ∅
  else if content_type r =?s formContentType then ParseForm defaultMaxForm r
  else if mime_params_ok (header_Get (hr_Header r) "Content-Type") then Some ∅ else None.

Definition FormValue (r : DashRequest) (name : string) : option string :=
  match body_values r, ParseQuery (hr_RawQuery r) with
  | Some body, Some query =>
      Some (match values_All body name ++ values_All query name with [] => "" | value :: _ => value end)
  | _, _ => None
  end.

(** The check a path asks for. *)
Definition authorizePath (a : requesterLifecycleAuthorizer) (r : DashRequest) (relative : string)
  : KProg (result unit) :=
  let ctx := hr_Context r in
  if (hr_Method r =?s "POST") && (relative =?s "/dashboard/sandboxes") then authorizeTemplate a ctx
  else if isAggregateSandboxPath relative then
    _ <-? authorizeAggregateSandboxes a ctx ;; authorizeAggregateSnapshots a ctx
  else if (hr_Method r =?s "GET") && usesSandboxSnapshotTotals relative then
    match sandboxPathValue relative with
    | Some sandboxID => _ <-? authorizeSandbox a ctx sandboxID ;; authorizeAggregateSnapshots a ctx
    | None => Ret (Ok tt)
    end
  else if (hr_Method r =?s "POST") && (relative =?s "/dashboard/snapshots") then
    match FormValue r "sandboxID" with
    | None => Ret (Err (ErrWrap "parse snapshot form" errRequesterUnavailable))
    | Some value =>
        let sandboxID := TrimSpace value in
        if sandboxID <>?s "" then authorizeSandbox a ctx sandboxID else Ret (Ok tt)
    end
  else match sandboxPathValue relative with
  | Some sandboxID => authorizeSandbox a ctx sandboxID
  | None => Ret (Ok tt)
  end.

(** A reply, or the request goes on to the dashboard. *)
Definition requester_Middleware (a : requesterLifecycleAuthorizer) (r : DashRequest) : KProg (GovReply + unit) :=
  match relativePath a (hr_Path r) with
  | None => Ret (inr tt)
  | Some relative =>
      checked <-- authorizePath a r relative ;;
      match checked with
      | Err e => Ret (inl (writeRequesterAuthorizationError e))
      | Ok _ => Ret (inr tt)
      end
  end.

End middleware.

(** ** Properties *)

Section evidence.
Context (a : requesterLifecycleAuthorizer) (ctx : RequestContext).

(** The tenant of an assignment: its own, or else that of its capability bundle. *)
Definition tenant_resolved (value : SandboxAssignment) (tenant : string) (t : list KEvent) : Prop :=
  (TrimSpace (as_LogicalTenant (sa_Spec value)) <> "" /\ tenant = TrimSpace (as_LogicalTenant (sa_Spec value))) \/
  (TrimSpace (as_LogicalTenant (sa_Spec value)) = "" /\ exists bundle,
     Ev (Get Bundles (ra_namespace a) (cbr_Name (as_CapabilityBundleRef (sa_Spec value)))) (Ok bundle) ∈ t /\
     tenant = nested_string bundle ["spec"; "governance"; "logicalTenant"]
       (gb_LogicalTenant <$> cbs_Governance (cb_Spec (u_obj bundle))) /\ TrimSpace tenant <> "").

(** The requester's sole binding lists the tenant of the assignment. *)
Definition requester_of (value : SandboxAssignment) (t : list KEvent) : Prop :=
  exists who items binding tenant,
    ctx_identity ctx = Some who /\ Ev (List PrincipalBindings (ra_namespace a) list_all) (Ok items) ∈ t /\
    sole_binding who items binding /\ tenant ∈ pbs_RequesterTenants (pb_Spec binding) /\
    tenant_resolved value tenant t.

(** One live assignment, and no other, names the sandbox, and the requester has its tenant. *)
Definition owns_sandbox (sandboxID : string) (t : list KEvent) : Prop :=
  exists items value, Ev (List Assignments (ra_namespace a) list_all) (Ok items) ∈ t /\
    sole (names_sandbox sandboxID) items value /\ requester_of value t.

(** The same for a listed sandbox, whose metadata may name its assignment. *)
Definition owns_listed (sandbox : OsbSandbox) (t : list KEvent) : Prop :=
  owns_sandbox (osb_ID sandbox) t \/
  exists name value, name = TrimSpace (map_get (default ∅ (osb_Metadata sandbox)) AssignmentLabel) /\ name <> "" /\
    Ev (Get Assignments (ra_namespace a) name) (Ok (wf value)) ∈ t /\
    om_DeletionTimestamp (sa_meta value) = None /\ requester_of value t.

(** The tenant set of the requester, from its sole binding. *)
Definition scoped (tenants : TenantSet) (t : list KEvent) : Prop :=
  exists who items binding, ctx_identity ctx = Some who /\
    Ev (List PrincipalBindings (ra_namespace a) list_all) (Ok items) ∈ t /\ sole_binding who items binding /\
    tenants = requester (binding_scopes binding).

Lemma tenant_resolved_mono value tenant t t' : t ⊆ t' -> tenant_resolved value tenant t -> tenant_resolved value tenant t'.
Proof. intros Hs [?|(? & b & ? & ?)]; [by left|right]. split; [done|]. exists b. set_solver. Qed.

Lemma requester_of_mono value t t' : t ⊆ t' -> requester_of value t -> requester_of value t'.
Proof.
  intros Hs (who & items & b & tenant & ? & ? & ? & ? & ?). exists who, items, b, tenant.
  split_and!; try done; [set_solver|]. by eapply tenant_resolved_mono.
Qed.

Lemma owns_sandbox_mono i t t' : t ⊆ t' -> owns_sandbox i t -> owns_sandbox i t'.
Proof.
  intros Hs (items & value & ? & ? & ?). exists items, value.
  split_and!; [set_solver|done|]. by eapply requester_of_mono.
Qed.

Lemma owns_listed_mono s t t' : t ⊆ t' -> owns_listed s t -> owns_listed s t'.
Proof.
  intros Hs [?|(name & value & ? & ? & ? & ? & ?)]; [left; by eapply owns_sandbox_mono|right].
  exists name, value. split_and!; try done; [set_solver|]. by eapply requester_of_mono.
Qed.

Lemma requesterTenants_ok t tenants : run (requesterTenants a ctx) t (Ok tenants) -> scoped tenants t.
Proof.
  unfold requesterTenants, authenticatedIdentityFromContext. intros Hr.
  destruct (ctx_identity ctx) as [who|] eqn:Hid; [|by destruct Hr]. destruct (_ && _); [|by destruct Hr].
  apply run_bind in Hr as ([scopes|e] & t1 & t2 & -> & Hs & Hr); [|destruct (_ || _); by destruct Hr].
  destruct (Nat.eqb _ 0); [by destruct Hr|]. run_step Hr.
  apply loadPrincipalScopes_ok in Hs as (items & b & -> & Hb & ->). exists who, items, b.
  split_and!; try done. set_solver.
Qed.

Lemma bundleLogicalTenant_ok name t tenant :
  run (bundleLogicalTenant a name) t (Ok tenant) ->
  exists bundle, Ev (Get Bundles (ra_namespace a) name) (Ok bundle) ∈ t /\
    tenant = nested_string bundle ["spec"; "governance"; "logicalTenant"]
       (gb_LogicalTenant <$> cbs_Governance (cb_Spec (u_obj bundle))) /\ TrimSpace tenant <> "".
Proof.
  unfold bundleLogicalTenant. intros Hr. run_step Hr. destruct a0 as [bundle|]; [|by destruct Hr].
  cbv zeta in Hr. destruct (TrimSpace _ =?s "") eqn:E; run_step Hr. bool_to_prop. exists bundle.
  split_and!; try done. set_solver.
Qed.

Lemma assignment_tenant_ok value t tenant :
  run (assignment_tenant a value) t (Ok tenant) -> tenant_resolved value tenant t.
Proof.
  unfold assignment_tenant. cbv zeta. intros Hr. destruct (TrimSpace _ <>?s "") eqn:E.
  - run_step Hr. left. by bool_to_prop.
  - right. bool_to_prop. split; [done|]. by apply bundleLogicalTenant_ok.
Qed.

(** A tenant set of the requester that allows the tenant of an assignment. *)
Lemma scoped_requester tenants t value tenant :
  scoped tenants t -> tenantAllowed tenants tenant = true -> tenant_resolved value tenant t -> requester_of value t.
Proof.
  intros (who & items & b & ? & ? & ? & ->) Ha%tenantAllowed_scopes Ht. by exists who, items, b, tenant.
Qed.

Lemma allowed_if_true tenants p t :
  run (allowed_if tenants p) t (Ok true) -> exists tenant, run p t (Ok tenant) /\ tenantAllowed tenants tenant = true.
Proof.
  unfold allowed_if. intros (r & t1 & t2 & -> & Hp & Hr)%run_bind. destruct r as [tenant|e].
  - destruct Hr as [-> [= E]]. rewrite app_nil_r. eauto.
  - destruct (ungoverned e); by destruct Hr.
Qed.

Lemma sandboxAllowed_true i tenants t0 t :
  scoped tenants t0 -> run (sandboxAllowed a i tenants) t (Ok true) -> owns_sandbox i (t0 ++ t).
Proof.
  intros Hs (tenant & Hr & Ha)%allowed_if_true. unfold sandboxLogicalTenant in Hr.
  apply run_try in Hr as [(e & _ & ?)|(value & t1 & t2 & -> & Hv & Hr)]; [done|].
  unfold assignmentForSandboxID in Hv. run_step Hv.
  destruct (sole_match _ _ a0 None) as [[v|]|] eqn:Em; run_step Hv. apply sole_match_sole in Em.
  apply assignment_tenant_ok in Hr. exists a0, value. split_and!; [set_solver|done|].
  apply (scoped_requester tenants _ value tenant); [|done|eapply tenant_resolved_mono; [|done]; set_solver].
  destruct Hs as (who & items & b & ? & ? & ? & ?). exists who, items, b. split_and!; try done. set_solver.
Qed.

Lemma sandboxAllowedByObject_true s tenants t0 t :
  scoped tenants t0 -> run (sandboxAllowedByObject a s tenants) t (Ok true) -> owns_listed s (t0 ++ t).
Proof.
  intros Hs Hr. pose proof Hr as Hr'. apply allowed_if_true in Hr as (tenant & Hr & Ha).
  unfold sandboxLogicalTenantForSandbox, assignmentForSandbox in Hr. cbv zeta in Hr.
  destruct (TrimSpace _ <>?s "") eqn:En.
  2: { left. eapply sandboxAllowed_true; [done|]. unfold sandboxAllowedByObject, sandboxLogicalTenantForSandbox,
         assignmentForSandbox in Hr'. cbv zeta in Hr'. by rewrite En in Hr'. }
  right. apply run_try in Hr as [(e & _ & ?)|(value & t1 & t2 & -> & Hv & Hr)]; [done|].
  unfold assignmentByName in Hv. run_step Hv. destruct a0 as [o|]; [|by run_step Hv].
  unfold om_deleting in Hv. case_bool_decide as Hd; [by run_step Hv|]. destruct Hv as [-> Hv].
  apply FromUnstructured_Ok in Hv as ->. apply assignment_tenant_ok in Hr. bool_to_prop.
  eexists _, value. split_and!; [done|done|set_solver|by apply eq_None_not_Some|].
  apply (scoped_requester tenants _ value tenant); [|done|eapply tenant_resolved_mono; [|done]; set_solver].
  destruct Hs as (who & items & b & ? & ? & ? & ?). exists who, items, b. split_and!; try done. set_solver.
Qed.

Lemma authorizeSandbox_ok i t u : run (authorizeSandbox a ctx i) t (Ok u) -> owns_sandbox i t.
Proof.
  unfold authorizeSandbox. intros Hr.
  apply run_try in Hr as [(e & _ & ?)|(tenants & t1 & t2 & -> & Ht%requesterTenants_ok & Hr)]; [done|].
  apply run_try in Hr as [(e & _ & ?)|(allowed & t3 & t4 & -> & Ha & Hr)]; [done|].
  destruct allowed; cbn [negb] in Hr; [|by destruct Hr]. run_step Hr. rewrite app_nil_r. by eapply sandboxAllowed_true.
Qed.

Lemma filter_allowed_ok {A} (check : A -> KProg (result bool)) (P : A -> list KEvent -> Prop) items t out :
  (forall x t, run (check x) t (Ok true) -> P x t) -> (forall x t t', t ⊆ t' -> P x t -> P x t') ->
  run (filter_allowed check items) t (Ok out) -> sublist out items /\ forall x, x ∈ out -> P x t.
Proof.
  intros Hc Hm. revert t out. induction items as [|x rest IH]; intros t out Hr; cbn [filter_allowed] in Hr.
  { run_step Hr. split; [done|]. set_solver. }
  apply run_try in Hr as [(e & _ & ?)|(allowed & t1 & t2 & -> & Ha & Hr)]; [done|].
  apply run_try in Hr as [(e & _ & ?)|(filtered & t3 & t4 & -> & Hf & Hr)]; [done|]. run_step Hr.
  apply IH in Hf as [Hs Hp]. rewrite app_nil_r. destruct allowed.
  - split; [by apply sublist_skip|]. intros y [->|Hy]%elem_of_cons; (eapply Hm; [|eauto]); set_solver.
  - split; [by apply sublist_cons|]. intros y Hy. eapply Hm; [|eauto]. set_solver.
Qed.

Lemma all_allowed_ok {A} (check : A -> KProg (result bool)) (P : A -> list KEvent -> Prop) items t u :
  (forall x t, run (check x) t (Ok true) -> P x t) -> (forall x t t', t ⊆ t' -> P x t -> P x t') ->
  run (all_allowed check items) t (Ok u) -> forall x, x ∈ items -> P x t.
Proof.
  intros Hc Hm. revert t. induction items as [|x rest IH]; intros t Hr; cbn [all_allowed] in Hr; [set_solver|].
  apply run_try in Hr as [(e & _ & ?)|(allowed & t1 & t2 & -> & Ha & Hr)]; [done|].
  destruct allowed; [|by destruct Hr]. cbn [negb] in Hr.
  intros y [->|Hy]%elem_of_cons; (eapply Hm; [|eauto]); set_solver.
Qed.

End evidence.

(** ** Theorems *)

(** What a client call acts on: a sandbox, or a snapshot. *)
Definition acts_on (e : KEvent) : option (string + string) :=
  match e with
  | Ev op _ =>
      match op with
      | Osb o =>
          match o with
          | osb_ListPodEvents i | osb_PauseSandbox i | osb_ResumeSandbox i | osb_CreateSnapshot i _
          | osb_OpenPTY i | osb_RunCommand i _ => Some (inl i)
          | osb_DeleteSandbox s => Some (inl (osb_ID s))
          | osb_DeleteSnapshot i => Some (inr i)
          | _ => None
          end
      | _ => None
      end
  end.
Definition acts (e : KEvent) : bool := bool_decide (is_Some (acts_on e)).

Section theorems.
Context (a : requesterLifecycleAuthorizer) (ctx : RequestContext).

(** The object a call acts on belongs to a tenant of the requester. *)
Definition acts_on_owned (t : list KEvent) (e : KEvent) : Prop :=
  match acts_on e with
  | Some (inl i) => owns_sandbox a ctx i t
  | Some (inr i) => exists requested snapshot,
      Ev (Osb (osb_GetSnapshot requested)) (Ok snapshot) ∈ t /\ snap_ID snapshot = i /\
      owns_sandbox a ctx (snap_SandboxID snapshot) t
  | None => True
  end.

Lemma loadPrincipalScopes_no_acts ns who : quiet acts (loadPrincipalScopes ns who).
Proof. by apply loadPrincipalScopes_quiet. Qed.
#[local] Hint Resolve loadPrincipalScopes_no_acts : gov.
Lemma requesterTenants_quiet : quiet acts (requesterTenants a ctx).
Proof. unfold requesterTenants. solve_quiet. Qed.
Lemma bundleLogicalTenant_quiet name : quiet acts (bundleLogicalTenant a name).
Proof. unfold bundleLogicalTenant. cbv zeta. solve_quiet. Qed.
#[local] Hint Resolve requesterTenants_quiet bundleLogicalTenant_quiet : gov.
Lemma assignment_tenant_quiet value : quiet acts (assignment_tenant a value).
Proof. unfold assignment_tenant. cbv zeta. solve_quiet. Qed.
Lemma assignmentForSandboxID_quiet i : quiet acts (assignmentForSandboxID a i).
Proof. unfold assignmentForSandboxID. solve_quiet. Qed.
#[local] Hint Resolve assignment_tenant_quiet assignmentForSandboxID_quiet : gov.
Lemma sandboxLogicalTenant_quiet i : quiet acts (sandboxLogicalTenant a i).
Proof. unfold sandboxLogicalTenant. solve_quiet. Qed.
Lemma sandboxLogicalTenantForSandbox_quiet s : quiet acts (sandboxLogicalTenantForSandbox a s).
Proof. unfold sandboxLogicalTenantForSandbox, assignmentForSandbox, assignmentByName. cbv zeta. solve_quiet. Qed.
#[local] Hint Resolve sandboxLogicalTenant_quiet sandboxLogicalTenantForSandbox_quiet : gov.
Lemma sandboxAllowed_quiet i tenants : quiet acts (sandboxAllowed a i tenants).
Proof. unfold sandboxAllowed, allowed_if. solve_quiet. Qed.
Lemma sandboxAllowedByObject_quiet s tenants : quiet acts (sandboxAllowedByObject a s tenants).
Proof. unfold sandboxAllowedByObject, allowed_if. solve_quiet. Qed.
#[local] Hint Resolve sandboxAllowed_quiet sandboxAllowedByObject_quiet : gov.
Lemma snapshotAllowed_quiet s tenants : quiet acts (snapshotAllowed a s tenants).
Proof. unfold snapshotAllowed. solve_quiet. Qed.
Lemma authorizeSandbox_quiet i : quiet acts (authorizeSandbox a ctx i).
Proof. unfold authorizeSandbox. solve_quiet. Qed.
#[local] Hint Resolve snapshotAllowed_quiet authorizeSandbox_quiet : gov.

Lemma filter_allowed_quiet {A} (check : A -> KProg (result bool)) items :
  (forall x, quiet acts (check x)) -> quiet acts (filter_allowed check items).
Proof. intros Hc. induction items as [|x rest IH]; cbn [filter_allowed]; solve_quiet. Qed.
Lemma filterSandboxes_quiet items : quiet acts (filterSandboxes a ctx items).
Proof.
  unfold filterSandboxes. apply quiet_try; [auto with gov|]. intros tenants.
  apply filter_allowed_quiet. auto with gov.
Qed.
Lemma filterSnapshots_quiet items : quiet acts (filterSnapshots a ctx items).
Proof.
  unfold filterSnapshots. apply quiet_try; [auto with gov|]. intros tenants.
  apply filter_allowed_quiet. auto with gov.
Qed.
#[local] Hint Resolve filterSandboxes_quiet filterSnapshots_quiet : gov.
Lemma client_GetSnapshot_quiet i : quiet acts (client_GetSnapshot a ctx i).
Proof. unfold client_GetSnapshot. solve_quiet. Qed.
#[local] Hint Resolve client_GetSnapshot_quiet : gov.

Lemma snapshotAllowed_true s tenants t0 t :
  scoped a ctx tenants t0 -> run (snapshotAllowed a s tenants) t (Ok true) ->
  owns_sandbox a ctx (snap_SandboxID s) (t0 ++ t).
Proof.
  intros Hs Hr. unfold snapshotAllowed in Hr. destruct (TrimSpace _ =?s ""); [by destruct Hr|].
  by eapply sandboxAllowed_true.
Qed.

Lemma client_GetSnapshot_ok i t snapshot :
  run (client_GetSnapshot a ctx i) t (Ok snapshot) ->
  Ev (Osb (osb_GetSnapshot i)) (Ok snapshot) ∈ t /\ owns_sandbox a ctx (snap_SandboxID snapshot) t.
Proof.
  unfold client_GetSnapshot. intros Hr. run_step Hr.
  apply run_try in Hr as [(e & _ & ?)|(tenants & t1 & t2 & -> & Ht%requesterTenants_ok & Hr)]; [done|].
  apply run_try in Hr as [(e & _ & ?)|(allowed & t3 & t4 & -> & Ha & Hr)]; [done|].
  destruct allowed; cbn [negb] in Hr; run_step Hr. split; [set_solver|].
  eapply owns_sandbox_mono; [|by eapply snapshotAllowed_true]. set_solver.
Qed.

Lemma after_authorization_guarded {R} i (op : OsbOp (result R)) :
  (forall r, acts_on (Ev (Osb op) r) = Some (inl i)) ->
  guarded acts acts_on_owned (after_authorization a ctx i op).
Proof.
  intros Hop. unfold after_authorization.
  apply guarded_try; [apply guarded_quiet; auto with gov|]. intros u t Hr%authorizeSandbox_ok.
  apply guarded_call. intros r. unfold acts_on_owned. rewrite Hop, app_nil_r. done.
Qed.

Lemma client_guarded {R} (op : OsbOp R) : guarded acts acts_on_owned (authorizedDashboardClient a ctx op).
Proof.
  destruct op; cbn [authorizedDashboardClient];
    try (by apply after_authorization_guarded); try (apply guarded_quiet; solve [solve_quiet]).
  - apply guarded_quiet. unfold client_ListSandboxes. solve_quiet.
  - apply guarded_quiet. unfold client_ListSnapshots. solve_quiet.
  - apply guarded_quiet. unfold client_ListRecentSandboxEvents. solve_quiet.
  - unfold client_DeleteSnapshot. apply guarded_try; [apply guarded_quiet; auto with gov|].
    intros snapshot t [Hg Ho]%client_GetSnapshot_ok. apply guarded_call. intros r.
    unfold acts_on_owned. cbn. exists snapshotID, snapshot. by rewrite app_nil_r.
Qed.


(** A list of sandboxes shown to a requester is a sublist of what the service returned, of
    sandboxes whose assignment is in a tenant of the requester. *)
Theorem client_lists_owned tr out :
  run (authorizedDashboardClient a ctx osb_ListSandboxes) tr (Ok out) ->
  exists all, Ev (Osb osb_ListSandboxes) (Ok all) ∈ tr /\ sublist out all /\
    forall sandbox, sandbox ∈ out -> owns_listed a ctx sandbox tr.
Proof.
  cbn [authorizedDashboardClient]. unfold client_ListSandboxes, filterSandboxes. intros Hr. run_step Hr.
  apply run_try in Hr as [(e & _ & ?)|(tenants & t1 & t2 & -> & Ht%requesterTenants_ok & Hr)]; [done|].
  exists a0. split; [set_solver|].
  apply (filter_allowed_ok _ (fun s t => owns_listed a ctx s (t1 ++ t))) in Hr as [Hs Hp].
  - split; [done|]. intros s Hin. eapply owns_listed_mono; [|by apply Hp]. set_solver.
  - intros s t. by apply sandboxAllowedByObject_true.
  - intros s t t' Hsub. apply owns_listed_mono. set_solver.
Qed.

End theorems.

Section middleware_theorems.
Context `{UnicodeTables}.

Lemma pathHead_app i rest :
  contains_byte "/" i = false -> (rest = "" \/ HasPrefix rest "/" = true) -> pathHead (i +:+ rest) = i.
Proof.
  intros Hi Hrest. unfold pathHead. destruct Hrest as [->|Hp].
  - rewrite string_app_nil_r. by rewrite cut_byte_None.
  - destruct rest as [|c t]; [done|]. cbn in Hp. apply andb_true_iff in Hp as [Hc _].
    apply bool_decide_eq_true in Hc as <-.
    assert (cut_byte "/" (i +:+ String "/" t) = Some (i, t)) as ->; [by apply cut_byte_Some|done].
Qed.

Lemma string_app_nonempty i rest : i <> "" -> (i +:+ rest =?s "") = false.
Proof. intros Hi. apply seqb_neq. by destruct i. Qed.

Lemma sandboxPathValue_path prefix i rest :
  prefix ∈ ["/sandboxes/"; "/dashboard/sandboxes/"] -> i <> "" -> contains_byte "/" i = false ->
  (rest = "" \/ HasPrefix rest "/" = true) -> sandboxPathValue (prefix +:+ i +:+ rest) = Some i.
Proof.
  intros Hp Hi Hs Hrest. unfold sandboxPathValue. cbn [first_sandbox].
  assert (pathHead (i +:+ rest) = i) as Hh by by apply pathHead_app.
  pose proof (string_app_nonempty i rest Hi) as Hne. apply seqb_neq in Hi.
  apply elem_of_cons in Hp as [->|Hp].
  { rewrite CutPrefix_app, Hne, Hh, Hi. done. }
  apply list_elem_of_singleton in Hp as ->.
  assert (CutPrefix ("/dashboard/sandboxes/" +:+ i +:+ rest) "/sandboxes/" = None) as -> by done.
  rewrite CutPrefix_app, Hne, Hh, Hi. done.
Qed.

Lemma relativePath_slash a rest : relativePath a (ra_basePath a +:+ String "/" rest) = Some (String "/" rest).
Proof. unfold relativePath. by rewrite CutPrefix_app. Qed.

Lemma aggregate_no_sandbox relative : isAggregateSandboxPath relative = true -> sandboxPathValue relative = None.
Proof.
  unfold isAggregateSandboxPath. intros Hc%contains_true.
  repeat (apply elem_of_cons in Hc as [->|Hc]; [done|]). set_solver.
Qed.

Lemma authorizePath_sandbox a r relative i tr u :
  sandboxPathValue relative = Some i -> run (authorizePath a r relative) tr (Ok u) ->
  owns_sandbox a (hr_Context r) i tr.
Proof.
  intros Hi. unfold authorizePath. cbv zeta. intros Hr.
  destruct ((hr_Method r =?s "POST") && (relative =?s "/dashboard/sandboxes")) eqn:E1.
  { bool_to_prop. subst. done. }
  destruct (isAggregateSandboxPath relative) eqn:E2; [apply aggregate_no_sandbox in E2; congruence|].
  destruct ((hr_Method r =?s "GET") && _) eqn:E3.
  { rewrite Hi in Hr.
    apply run_try in Hr as [(e & _ & ?)|(u' & t1 & t2 & -> & Ha%authorizeSandbox_ok & _)]; [done|].
    eapply owns_sandbox_mono; [|done]. set_solver. }
  destruct ((hr_Method r =?s "POST") && (relative =?s "/dashboard/snapshots")) eqn:E4.
  { bool_to_prop. subst. done. }
  rewrite Hi in Hr. by eapply authorizeSandbox_ok.
Qed.

(** A request below the path of a sandbox, for a page or for an action, reaches the dashboard only
    if the requester owns that sandbox. *)
Theorem requester_Middleware_sound a r prefix i rest tr u :
  hr_Path r = ra_basePath a +:+ prefix +:+ i +:+ rest ->
  prefix ∈ ["/sandboxes/"; "/dashboard/sandboxes/"] -> i <> "" -> contains_byte "/" i = false ->
  (rest = "" \/ HasPrefix rest "/" = true) ->
  run (requester_Middleware a r) tr (inr u) -> owns_sandbox a (hr_Context r) i tr.
Proof.
  intros Hpath Hp Hi Hs Hrest Hr. unfold requester_Middleware in Hr. rewrite Hpath in Hr.
  assert (relativePath a (ra_basePath a +:+ prefix +:+ i +:+ rest) = Some (prefix +:+ i +:+ rest)) as E.
  { repeat (apply elem_of_cons in Hp as [->|Hp]; [apply relativePath_slash|]). set_solver. }
  rewrite E in Hr. apply run_bind in Hr as ([u'|e] & t1 & t2 & -> & Ha & Hr); [|by destruct Hr].
  eapply owns_sandbox_mono; [|eapply authorizePath_sandbox; [by apply sandboxPathValue_path|done]]. set_solver.
Qed.

(** A sandbox is created through the dashboard only if the configured template's bundle belongs
    to a tenant of the requester. *)
Theorem create_needs_template_tenant a r tr u :
  hr_Method r = "POST" -> hr_Path r = ra_basePath a +:+ "/dashboard/sandboxes" ->
  run (requester_Middleware a r) tr (inr u) ->
  exists who items binding template bundleName bundle tenant,
    ctx_identity (hr_Context r) = Some who /\
    Ev (List PrincipalBindings (ra_namespace a) list_all) (Ok items) ∈ tr /\ sole_binding who items binding /\
    Ev (Get Templates (ra_namespace a) (ra_templateName a)) (Ok template) ∈ tr /\
    bundleName = nested_string template ["spec"; "capabilityBundleRef"; "name"]
      (Some (cbr_Name (sts_CapabilityBundleRef (st_Spec (u_obj template))))) /\
    Ev (Get Bundles (ra_namespace a) bundleName) (Ok bundle) ∈ tr /\
    tenant = nested_string bundle ["spec"; "governance"; "logicalTenant"]
      (gb_LogicalTenant <$> cbs_Governance (cb_Spec (u_obj bundle))) /\
    TrimSpace tenant <> "" /\ tenant ∈ pbs_RequesterTenants (pb_Spec binding).
Proof.
  intros Hm Hpath Hr. unfold requester_Middleware in Hr. rewrite Hpath in Hr.
  assert (relativePath a (ra_basePath a +:+ "/dashboard/sandboxes") = Some "/dashboard/sandboxes") as E
    by apply relativePath_slash.
  rewrite E in Hr. apply run_bind in Hr as ([u'|e] & t1 & t2 & -> & Ha & Hr); [|by destruct Hr].
  unfold authorizePath in Ha. rewrite Hm in Ha. cbn [andb] in Ha. cbv zeta in Ha.
  change (("POST" =?s "POST") && ("/dashboard/sandboxes" =?s "/dashboard/sandboxes")) with true in Ha.
  cbv iota in Ha. unfold authorizeTemplate in Ha.
  apply run_try in Ha as [(e & _ & ?)|(tenants & t3 & t4 & -> & Ht%requesterTenants_ok & Ha)]; [done|].
  apply run_try in Ha as [(e & _ & ?)|(tenant & t5 & t6 & -> & Htpl & Ha)]; [done|].
  destruct (tenantAllowed tenants tenant) eqn:Eallow; cbn [negb] in Ha; run_step Ha.
  destruct Ht as (who & items & b & Hid & Hin & Hb & ->). apply tenantAllowed_scopes in Eallow.
  unfold templateLogicalTenant in Htpl. run_step Htpl. destruct a0 as [template|]; [|by destruct Htpl].
  cbv zeta in Htpl. destruct (TrimSpace _ =?s ""); [by destruct Htpl|].
  apply bundleLogicalTenant_ok in Htpl as (bundle & Hbundle & Htenant & Hne).
  exists who, items, b, template. eexists _, bundle, tenant. split_and!; try done; set_solver.
Qed.

(** A post that creates a snapshot is checked as an aggregate page: the sandbox named in its form
    is never looked at, and the requester needs every listed sandbox and snapshot. *)
Theorem snapshot_form_ignored a r :
  authorizePath a r "/dashboard/snapshots" =
  (_ <-? authorizeAggregateSandboxes a (hr_Context r) ;; authorizeAggregateSnapshots a (hr_Context r)).
Proof.
  unfold authorizePath.
  assert (("/dashboard/snapshots" =?s "/dashboard/sandboxes") = false) as -> by done.
  rewrite andb_false_r. done.
Qed.

End middleware_theorems.
