(* ===== verification/BoundaryRules.v ===== *)
(** * The rules of a capability boundary

    The parsers of [cmd/aks-sandbox-dashboard/capabilities.go] and the line and number parsers of
    [tenants.go]: the pre-authorized egress rules that become the expressions of a bundle, the
    exact commands that become anchored patterns, the validation rules, and the bounded numbers
    of a tenant policy.

    The expressions are text for another component: the authorization endpoint compiles them with
    CEL.  [enforced_exactly] follows them there, for a library that reads the text of a
    disjunction of conjunctions of equalities the way the CEL language defines it: what the endpoint allows by
    the bundle is what the administrator has listed, and nothing else. *)

From stdpp Require Import pretty.
From S2P Require Import Prelude GoStrings GoEncoding GoURL ApiTypes ApiJson DashboardTypes Kube Governance AuthzServer Checker.
From stdpp Require Import options.

Definition maximumPreauthorizedRules : Z := 32.

Definition lines (value : string) : list string := split_byte "010" value.

#[export] Instance CommandPolicyRule_eq_decision : EqDecision CommandPolicyRule.
Proof. solve_decision. Defined.
#[export] Instance ValidationRule_eq_decision : EqDecision ValidationRule.
Proof. solve_decision. Defined.

Section rules.
Context `{UnicodeTables} `{QuoteLib}.

(** ** Exact egress targets *)

Definition line_error (lineNumber : nat) (message : string) : error :=
  ErrMsg ("line " +:+ pretty (S lineNumber) +:+ message).

(** Not an HTTPS URL with only a host and a path. *)
Definition inexact_url (u : URL) : bool :=
  negb (EqualFold (u_Scheme u) "https") || (u_Host u =?s "") || (url_Port u <>?s "")
  || negb (bool_decide (u_User u = None)) || (u_RawQuery u <>?s "") || (u_Fragment u <>?s "").

(** One non-blank line. *)
Definition parse_target (lineNumber : nat) (line : string) : result Target :=
  match strings_Fields line with
  | [backend; method; raw] =>
      let inexact := line_error lineNumber " must contain an exact HTTPS URL without port, query, or fragment" in
      match ParseRequestURI raw with
      | Err _ => Err inexact
      | Ok u =>
          if inexact_url u then Err inexact
          else match NormalizeTarget backend method (u_Host u) (EscapedPath u) with
          | Err e => Err (ErrWrap ("line " +:+ pretty (S lineNumber)) e)
          | Ok target => Ok target
          end
      end
  | _ => Err (line_error lineNumber " must be: backend METHOD https://host/path")
  end.

Fixpoint targets_loop (raws : list string) (lineNumber : nat) (ruleCount : Z) (targets : list Target)
  : result (list Target) :=
  match raws with
  | [] => Ok targets
  | raw :: rest =>
      let line := TrimSpace raw in
      if line =?s "" then targets_loop rest (S lineNumber) ruleCount targets
      else
        let ruleCount := ruleCount + 1 in
        if (maximumPreauthorizedRules <? ruleCount) || (2048 <? slen line)
        then Err (ErrMsg "at most 32 bounded rules are allowed")
        else
          target <-! parse_target lineNumber line ;;
          targets_loop rest (S lineNumber) ruleCount
            (if negb (contains target targets) then targets ++ [target] else targets)
  end.

Definition parseExactEgressTargets (value : string) : result (list Target) := targets_loop (lines value) 0 0 [].

(** The expression that accepts one target. *)
Definition target_expression (t : Target) : string :=
  "request.method == " +:+ Quote (t_Method t) +:+ " && request.host == " +:+ Quote (t_Host t)
  +:+ " && request.path == " +:+ Quote (t_Path t).

Fixpoint by_backend (targets : list Target) (byBackend : gmap string (list string)) : gmap string (list string) :=
  match targets with
  | [] => byBackend
  | target :: rest =>
      by_backend rest
        (<[t_Backend target := default [] (byBackend !! t_Backend target) ++ [target_expression target]]> byBackend)
  end.

Definition backend_policy (expressions : list string) : AgentgatewayBackendPolicy :=
  {| abp_Allow := strings_Join ((fun e => "(" +:+ e +:+ ")") <$> merge_sort String.le expressions) " || " |}.

Definition parseExactEgressRules (value : string) : result (gmap string AgentgatewayBackendPolicy) :=
  targets <-! parseExactEgressTargets value ;;
  Ok (backend_policy <$> by_backend targets ∅).

(** ** Exact commands *)

Definition exact_pattern (command : string) : string := "^" +:+ QuoteMeta command +:+ "$".

Definition allow_rule (command : string) : CommandPolicyRule := {|
  cpr_Pattern := exact_pattern command; cpr_Decision := "allow";
  cpr_Reason := "Pre-authorized by the capability bundle administrator." |}.

Fixpoint commands_loop (raws : list string) (out : list CommandPolicyRule) : result (list CommandPolicyRule) :=
  match raws with
  | [] => Ok out
  | raw :: rest =>
      let command := TrimSpace raw in
      if command =?s "" then commands_loop rest out
      else if (maximumPreauthorizedRules <=? Z.of_nat (length out)) || (2048 <? slen command) || has_control command
      then Err (ErrMsg "at most 32 bounded commands are allowed")
      else if existsb (fun rule => cpr_Pattern rule =?s exact_pattern command) out
      then commands_loop rest out
      else commands_loop rest (out ++ [allow_rule command])
  end.

Definition parseAllowedCommands (value : string) : result (list CommandPolicyRule) := commands_loop (lines value) [].

(** ** Validation rules *)

Definition allowed_patterns (commandPolicy : list CommandPolicyRule) : gset string :=
  list_to_set (cpr_Pattern <$> List.filter (fun rule => cpr_Decision rule =?s "allow") commandPolicy).

Definition invalid_prefix (prefix : string) : bool :=
  (prefix <>?s "*")
  && (HasPrefix prefix "/" || strings_Contains prefix "\" || strings_Contains prefix ".."
      || has_control prefix || (512 <? slen prefix)).

Definition parse_validation_rule (allowedPatterns : gset string) (lineNumber : nat) (line : string)
  : result ValidationRule :=
  let '(prefix, command, found) :=
    match strings_Cut line "=>" with Some (p, c) => (p, c, true) | None => (line, "", false) end in
  let prefix := TrimSpace prefix in
  let command := TrimSpace command in
  if negb found || (prefix =?s "") || (command =?s "")
  then Err (line_error lineNumber " must be: path-prefix => exact command")
  else if invalid_prefix prefix
  then Err (line_error lineNumber " has an invalid repository-relative path prefix")
  else if negb (bool_decide (exact_pattern command ∈ allowedPatterns))
  then Err (line_error lineNumber " command must also appear in allowed exact commands")
  else Ok {| vr_PathPrefix := prefix; vr_Command := command |}.

Fixpoint validation_loop (allowedPatterns : gset string) (raws : list string) (lineNumber : nat)
  (out : list ValidationRule) : result (list ValidationRule) :=
  match raws with
  | [] => Ok out
  | raw :: rest =>
      let line := TrimSpace raw in
      if line =?s "" then validation_loop allowedPatterns rest (S lineNumber) out
      else if (maximumPreauthorizedRules <=? Z.of_nat (length out)) || (2560 <? slen line)
      then Err (ErrMsg "at most 32 bounded rules are allowed")
      else
        rule <-! parse_validation_rule allowedPatterns lineNumber line ;;
        validation_loop allowedPatterns rest (S lineNumber) (if negb (contains rule out) then out ++ [rule] else out)
  end.

Definition parseValidationRules (value : string) (commandPolicy : list CommandPolicyRule)
  : result (list ValidationRule) :=
  validation_loop (allowed_patterns commandPolicy) (lines value) 0 [].

End rules.

(** ** Lines and numbers of a tenant policy *)

Fixpoint unique_loop (raws : list string) (out : list string) : list string :=
  match raws with
  | [] => out
  | raw :: rest =>
      let line := TrimSpace raw in
      unique_loop rest (if (line <>?s "") && negb (contains line out) then out ++ [line] else out)
  end.

Definition uniqueLines (value : string) : list string := unique_loop (lines value) [].

Definition boundedInt32 (value : string) (minimum maximum : Z) : result Z :=
  let invalid := Err (ErrMsg ("value must be between " +:+ pretty minimum +:+ " and " +:+ pretty maximum)) in
  match ParseInt 32 value with
  | Err _ => invalid
  | Ok parsed => if (parsed <? minimum) || (maximum <? parsed) then invalid else Ok parsed
  end.

(** ** What the parsers return *)

Section rule_proofs.
Context `{UnicodeTables} `{QuoteLib}.

(** The targets that the lines of a form field list. *)
Definition listed (raws : list string) (from : nat) (t : Target) : Prop :=
  exists i raw, raws !! i = Some raw /\ TrimSpace raw <> "" /\ parse_target (from + i) (TrimSpace raw) = Ok t.

Lemma listed_cons raw raws from t :
  listed (raw :: raws) from t <->
  (TrimSpace raw <> "" /\ parse_target from (TrimSpace raw) = Ok t) \/ listed raws (S from) t.
Proof.
  unfold listed. split.
  - intros ([|i] & r & Hl & Hne & Hp); cbn in Hl.
    + simplify_eq. rewrite Nat.add_0_r in Hp. auto.
    + right. exists i, r. by rewrite Nat.add_succ_comm.
  - intros [[Hne Hp]|(i & r & Hl & Hne & Hp)].
    + exists 0%nat, raw. by rewrite Nat.add_0_r.
    + exists (S i), r. by rewrite <- Nat.add_succ_comm.
Qed.

Lemma targets_loop_spec raws from count targets out :
  targets_loop raws from count targets = Ok out ->
  NoDup targets -> Z.of_nat (length targets) <= count <= maximumPreauthorizedRules ->
  NoDup out /\ Z.of_nat (length out) <= maximumPreauthorizedRules /\
  forall t, t ∈ out <-> t ∈ targets \/ listed raws from t.
Proof.
  revert from count targets. induction raws as [|raw raws IH]; intros from count targets Hl Hn Hc; cbn [targets_loop] in Hl.
  { injection Hl as <-. split_and!; [done|lia|]. intros t. split; [auto|]. by intros [?|(i & r & ? & _)]. }
  cbv zeta in Hl. destruct (TrimSpace raw =?s "") eqn:Er.
  { apply IH in Hl as (? & ? & Ht); [|done..]. split_and!; [done..|]. intros t. rewrite Ht, listed_cons.
    apply seqb_eq in Er. tauto. }
  destruct (_ || _) eqn:Eb; [done|]. destruct (parse_target from (TrimSpace raw)) as [target|] eqn:Ep; [|done].
  cbn [res_bind] in Hl. bool_to_prop.
  assert (forall t, t ∈ (if negb (contains target targets) then targets ++ [target] else targets) <->
            t ∈ targets \/ t = target) as Hadd.
  { intros t. destruct (contains target targets) eqn:Ec; cbn [negb].
    - apply contains_true in Ec. naive_solver.
    - rewrite elem_of_app, list_elem_of_singleton. done. }
  apply IH in Hl as (? & ? & Ht).
  - split_and!; [done..|]. intros t. rewrite Ht, Hadd, listed_cons, Ep. naive_solver.
  - destruct (contains target targets) eqn:Ec; cbn [negb]; [done|].
    apply NoDup_app. split_and!; [done| |apply NoDup_singleton]. intros t Hin ->%list_elem_of_singleton.
    apply contains_true in Hin. congruence.
  - destruct (contains target targets); cbn [negb]; rewrite ?length_app; cbn [length]; lia.
Qed.

Lemma parseExactEgressTargets_spec value targets :
  parseExactEgressTargets value = Ok targets ->
  NoDup targets /\ Z.of_nat (length targets) <= maximumPreauthorizedRules /\
  forall t, t ∈ targets <-> listed (lines value) 0 t.
Proof.
  intros Hp. apply targets_loop_spec in Hp as (? & ? & Ht); [|apply NoDup_nil_2|cbn; unfold maximumPreauthorizedRules; lia].
  split_and!; [done..|]. intros t. rewrite Ht. set_solver.
Qed.

(** A listed target is canonical. *)
Lemma parse_target_canonical lineNumber line t :
  parse_target lineNumber line = Ok t -> exists backend method host path, NormalizeTarget backend method host path = Ok t.
Proof.
  unfold parse_target. destruct (strings_Fields line) as [|b [|m [|raw [|? ?]]]]; try done. cbv zeta.
  destruct (ParseRequestURI raw) as [u|]; [|done]. destruct (inexact_url u); [done|].
  destruct (NormalizeTarget _ _ _ _) as [t'|] eqn:E; [|done]. intros [= ->]. eauto.
Qed.

(** ** The expressions of a bundle *)

Definition of_backend (backend : string) (targets : list Target) : list Target :=
  filter (fun t => t_Backend t = backend) targets.

Lemma by_backend_lookup targets m backend :
  by_backend targets m !! backend =
  match of_backend backend targets with
  | [] => m !! backend
  | ts => Some (default [] (m !! backend) ++ (target_expression <$> ts))
  end.
Proof.
  revert m. induction targets as [|t targets IH]; intros m; cbn [by_backend]; [done|].
  rewrite IH. unfold of_backend. destruct (decide (t_Backend t = backend)) as [<-|Hne].
  - rewrite filter_cons_True by done. rewrite lookup_insert_eq. cbn [default].
    destruct (filter _ targets); [done|]. cbn [default id fmap list_fmap]. by rewrite <- (assoc_L (++)).
  - rewrite filter_cons_False by done. rewrite lookup_insert_ne by done. done.
Qed.

(** A disjunction of exact targets, as CEL text. *)
Definition alternatives (ts : list Target) : string :=
  strings_Join ((fun t => "(" +:+ target_expression t +:+ ")") <$> ts) " || ".

Lemma backend_policy_alternatives ts :
  exists ts', ts' ≡ₚ ts /\ abp_Allow (backend_policy (target_expression <$> ts)) = alternatives ts'.
Proof.
  destruct (Permutation_map_inv target_expression ts (l1 := merge_sort String.le (target_expression <$> ts)))
    as (ts' & E & Hp); [apply merge_sort_Permutation|].
  exists ts'. split; [done|]. unfold backend_policy, alternatives. cbn [abp_Allow]. f_equal.
  rewrite E. by rewrite <- list_fmap_compose.
Qed.

Lemma parseExactEgressRules_lookup value rules targets backend :
  parseExactEgressRules value = Ok rules -> parseExactEgressTargets value = Ok targets ->
  match rules !! backend with
  | None => of_backend backend targets = []
  | Some policy => of_backend backend targets <> [] /\
      exists ts, ts ≡ₚ of_backend backend targets /\ abp_Allow policy = alternatives ts
  end.
Proof.
  unfold parseExactEgressRules. intros Hr Ht. rewrite Ht in Hr. injection Hr as <-.
  rewrite lookup_fmap, by_backend_lookup, lookup_empty. cbn [default].
  destruct (of_backend backend targets) as [|t ts] eqn:E; [done|]. cbn [fmap option_fmap option_map app].
  split; [done|]. rewrite <- E. apply (backend_policy_alternatives (of_backend backend targets)).
Qed.

(** ** Exact commands *)

Lemma exact_pattern_inj c c' : exact_pattern c = exact_pattern c' -> c = c'.
Proof.
  intros E. pose proof (anchored_literal_QuoteMeta c) as Ec. pose proof (anchored_literal_QuoteMeta c').
  unfold exact_pattern in E. rewrite E in Ec. congruence.
Qed.

Definition listed_command (raws : list string) (command : string) : Prop :=
  command <> "" /\ exists raw, raw ∈ raws /\ TrimSpace raw = command.

Lemma existsb_pattern command out :
  (exists commands, out = allow_rule <$> commands) ->
  existsb (fun rule => cpr_Pattern rule =?s exact_pattern command) out = true <-> allow_rule command ∈ out.
Proof.
  intros (commands & ->). rewrite existsb_exists. split.
  - intros (rule & Hin%list_elem_of_In & Hp%seqb_eq). apply list_elem_of_fmap in Hin as (c & -> & Hin).
    apply exact_pattern_inj in Hp as ->. by apply list_elem_of_fmap_2.
  - intros Hin. exists (allow_rule command). split; [by apply list_elem_of_In|apply seqb_refl].
Qed.

Lemma commands_loop_spec raws commands out :
  commands_loop raws (allow_rule <$> commands) = Ok out -> NoDup commands ->
  Z.of_nat (length commands) <= maximumPreauthorizedRules ->
  exists commands', out = allow_rule <$> commands' /\ NoDup commands' /\
    Z.of_nat (length commands') <= maximumPreauthorizedRules /\
    forall c, c ∈ commands' <-> c ∈ commands \/ listed_command raws c.
Proof.
  revert commands. induction raws as [|raw raws IH]; intros commands Hl Hn Hc; cbn [commands_loop] in Hl.
  { injection Hl as <-. exists commands. split_and!; [done..|]. intros c. split; [auto|].
    intros [?|(_ & raw & Hin & _)]; [done|set_solver]. }
  cbv zeta in Hl. assert (forall c, listed_command (raw :: raws) c <->
    (c <> "" /\ c = TrimSpace raw) \/ listed_command raws c) as Hcons.
  { intros c. unfold listed_command. setoid_rewrite elem_of_cons. naive_solver. }
  destruct (TrimSpace raw =?s "") eqn:Er.
  { apply IH in Hl as (cs & -> & ? & ? & Ht); [|done..]. exists cs. split_and!; [done..|]. intros c.
    apply seqb_eq in Er. rewrite Ht, Hcons. naive_solver congruence. }
  destruct (_ || _) eqn:Eb; [done|]. bool_to_prop. rewrite length_fmap in *.
  destruct (existsb _ _) eqn:Ee.
  - apply existsb_pattern in Ee; [|by eexists].
    apply list_elem_of_fmap in Ee as (c0 & Ec & Hin). apply (f_equal cpr_Pattern), exact_pattern_inj in Ec as <-.
    apply IH in Hl as (cs & -> & ? & ? & Ht); [|done..]. exists cs. split_and!; [done..|]. intros c.
    rewrite Ht, Hcons. naive_solver.
  - change [allow_rule (TrimSpace raw)] with (allow_rule <$> [TrimSpace raw]) in Hl. rewrite <- fmap_app in Hl.
    apply IH in Hl as (cs & -> & ? & ? & Ht).
    + exists cs. split_and!; [done..|]. intros c. rewrite Ht, Hcons, elem_of_app, list_elem_of_singleton. naive_solver.
    + apply NoDup_app. split_and!; [done| |apply NoDup_singleton]. intros c Hin ->%list_elem_of_singleton.
      apply not_true_iff_false in Ee. apply Ee, existsb_pattern; [by eexists|]. by apply list_elem_of_fmap_2.
    + rewrite length_app. cbn [length]. lia.
Qed.

End rule_proofs.

(** ** Lines and numbers *)

Lemma unique_loop_spec raws out :
  NoDup out -> NoDup (unique_loop raws out) /\
  forall line, line ∈ unique_loop raws out <-> line ∈ out \/ listed_command raws line.
Proof.
  revert out. induction raws as [|raw raws IH]; intros out Hn; cbn [unique_loop].
  { split; [done|]. intros line. split; [auto|]. intros [?|(_ & raw & Hin & _)]; [done|set_solver]. }
  cbv zeta. set (out' := if _ : bool then _ else _).
  assert (NoDup out' /\ forall line, line ∈ out' <-> line ∈ out \/ (line <> "" /\ line = TrimSpace raw)) as [Hn' Hin'].
  { subst out'. destruct (TrimSpace raw =?s "") eqn:Er; cbn [negb andb].
    - apply seqb_eq in Er. split; [done|]. naive_solver congruence.
    - apply seqb_neq in Er. destruct (contains (TrimSpace raw) out) eqn:Ec; cbn [negb].
      + apply contains_true in Ec. split; [done|]. naive_solver.
      + split; [|intros line; rewrite elem_of_app, list_elem_of_singleton; naive_solver].
        apply NoDup_app. split_and!; [done| |apply NoDup_singleton]. intros c Hin ->%list_elem_of_singleton.
        apply contains_true in Hin. congruence. }
  destruct (IH out' Hn') as [? Ht]. split; [done|]. intros line. rewrite Ht, Hin'.
  unfold listed_command. setoid_rewrite elem_of_cons. naive_solver.
Qed.

Lemma uniqueLines_spec value :
  NoDup (uniqueLines value) /\ forall line, line ∈ uniqueLines value <-> listed_command (lines value) line.
Proof.
  destruct (unique_loop_spec (lines value) [] ltac:(apply NoDup_nil_2)) as [? Ht].
  split; [done|]. intros line. unfold uniqueLines. rewrite Ht. set_solver.
Qed.

Lemma boundedInt32_range value minimum maximum n :
  boundedInt32 value minimum maximum = Ok n -> minimum <= n <= maximum.
Proof.
  unfold boundedInt32. cbv zeta. destruct (ParseInt 32 value); [|done]. destruct (_ || _) eqn:E; [done|].
  intros [= <-]. bool_to_prop. lia.
Qed.

(** ** Theorems *)

(** The commands of a boundary are the listed ones, exactly: at most 32 rules, each with a
    pattern that accepts one listed command and no other text, and one for every command that
    is listed. *)
Theorem allowed_commands_exact value policy :
  parseAllowedCommands value = Ok policy ->
  exists commands, NoDup commands /\ Z.of_nat (length commands) <= maximumPreauthorizedRules /\
    (forall c, c ∈ commands <-> listed_command (lines value) c) /\
    policy = allow_rule <$> commands /\
    Forall2 (fun rule c => cpr_Decision rule = "allow" /\ anchored_literal (cpr_Pattern rule) = Some c) policy commands.
Proof.
  unfold parseAllowedCommands. intros Hp.
  destruct (commands_loop_spec (lines value) [] policy) as (commands & -> & Hn & Hlen & Ht);
    [done|apply NoDup_nil_2|cbn; unfold maximumPreauthorizedRules; lia|].
  exists commands. split_and!; [done|done| |done|].
  - intros c. rewrite Ht. set_solver.
  - apply Forall2_fmap_l, Forall_Forall2_diag, Forall_true. intros c.
    split; [done|]. apply anchored_literal_QuoteMeta.
Qed.

Section validation.
Context (patterns : gset string).

Definition validation_ok (rule : ValidationRule) : Prop :=
  vr_PathPrefix rule <> "" /\ exact_pattern (vr_Command rule) ∈ patterns /\
  (vr_PathPrefix rule = "*" \/
   HasPrefix (vr_PathPrefix rule) "/" = false /\ strings_Contains (vr_PathPrefix rule) ".." = false /\
   strings_Contains (vr_PathPrefix rule) "\" = false).

Lemma parse_validation_rule_ok lineNumber line rule :
  parse_validation_rule patterns lineNumber line = Ok rule -> validation_ok rule.
Proof.
  unfold parse_validation_rule. destruct (strings_Cut line "=>") as [[prefix command]|]; [|done].
  cbv zeta. destruct (negb true || _ || _) eqn:E1; [done|]. destruct (invalid_prefix _) eqn:E2; [done|].
  destruct (negb (bool_decide _)) eqn:E3; [done|]. intros [= <-]. bool_to_prop.
  split_and!; [done|done|]. cbn. unfold invalid_prefix in E2. apply andb_false_iff in E2 as [E2|E2].
  - left. apply negb_false_iff, seqb_eq in E2. done.
  - right. bool_to_prop. done.
Qed.

Lemma validation_loop_ok raws lineNumber out rules :
  validation_loop patterns raws lineNumber out = Ok rules -> Forall validation_ok out ->
  NoDup out -> Z.of_nat (length out) <= maximumPreauthorizedRules ->
  Forall validation_ok rules /\ NoDup rules /\ Z.of_nat (length rules) <= maximumPreauthorizedRules.
Proof.
  revert lineNumber out. induction raws as [|raw raws IH]; intros lineNumber out Hl Hf Hn Hc; cbn [validation_loop] in Hl.
  { by injection Hl as <-. }
  cbv zeta in Hl. destruct (_ =?s ""); [by eapply IH|]. destruct (_ || _) eqn:Eb; [done|].
  destruct (parse_validation_rule _ _ _) as [rule|] eqn:Ep; [|done]. cbn [res_bind] in Hl. bool_to_prop.
  apply parse_validation_rule_ok in Ep. destruct (contains rule out) eqn:Ec; cbn [negb] in Hl; [by eapply IH|].
  eapply IH; [done| | |].
  - apply Forall_app. by rewrite Forall_singleton.
  - apply NoDup_app. split_and!; [done| |apply NoDup_singleton]. intros c Hin ->%list_elem_of_singleton.
    apply contains_true in Hin. congruence.
  - rewrite length_app. cbn [length]. lia.
Qed.

End validation.

(** Every validation rule runs a command that the same boundary allows, on a prefix inside the
    repository. *)
Lemma parseValidationRules_ok commands value rules :
  parseValidationRules value (allow_rule <$> commands) = Ok rules ->
  NoDup rules /\ Z.of_nat (length rules) <= maximumPreauthorizedRules /\
  Forall (fun rule => vr_Command rule ∈ commands /\
    (vr_PathPrefix rule = "*" \/
     HasPrefix (vr_PathPrefix rule) "/" = false /\ strings_Contains (vr_PathPrefix rule) ".." = false)) rules.
Proof.
  unfold parseValidationRules. intros Hl. apply validation_loop_ok in Hl as (Hf & ? & ?);
    [|by constructor|apply NoDup_nil_2|cbn; unfold maximumPreauthorizedRules; lia].
  split_and!; [done..|]. eapply Forall_impl; [exact Hf|]. intros rule (_ & Hin & Hp). split; [|naive_solver].
  unfold allowed_patterns in Hin. apply elem_of_list_to_set, list_elem_of_fmap in Hin as (r & E & Hin).
  apply list_elem_of_In, filter_In in Hin as [Hin _]. apply list_elem_of_In, list_elem_of_fmap in Hin as (c & -> & Hin).
  apply exact_pattern_inj in E as ->. done.
Qed.

Section enforcement.
Context `{UnicodeTables} `{QuoteLib} `{K8sValidation} `{UuidLib} `{Sha256} `{CelLib}.

(** A fragment of the CEL language: disjunctions of parenthesised conjunctions of equalities
    between a field of the request and a string literal, with their text and their meaning. *)
Inductive RequestField := FieldMethod | FieldHost | FieldPath.

Definition field_text (f : RequestField) : string :=
  match f with FieldMethod => "request.method" | FieldHost => "request.host" | FieldPath => "request.path" end.
Definition field_value (a : Activation) (f : RequestField) : string :=
  match f with FieldMethod => act_method a | FieldHost => act_host a | FieldPath => act_path a end.

Definition equality_text (e : RequestField * string) : string := field_text e.1 +:+ " == " +:+ Quote e.2.
Definition cel_text (d : list (list (RequestField * string))) : string :=
  strings_Join ((fun c => "(" +:+ strings_Join (equality_text <$> c) " && " +:+ ")") <$> d) " || ".
Definition cel_meaning (d : list (list (RequestField * string))) (a : Activation) : bool :=
  existsb (forallb (fun e => field_value a e.1 =?s e.2)) d.

(** The library compiles such an expression and evaluates it to its meaning. *)
Definition cel_reads (c : CheckerConfig) (d : list (list (RequestField * string))) : Prop :=
  (exists p, program_for c (cel_text d) p) /\
  forall p activation, program_for c (cel_text d) p -> cel_Eval p activation = Ok (CelBool (cel_meaning d activation)).

(** A request is exactly for the target. *)
Definition exactly (t : Target) : list (RequestField * string) :=
  [(FieldMethod, t_Method t); (FieldHost, t_Host t); (FieldPath, t_Path t)].

Lemma target_expression_text t : target_expression t = strings_Join (equality_text <$> exactly t) " && ".
Proof.
  unfold target_expression, exactly, equality_text. cbn [fmap list_fmap strings_Join field_text fst snd].
  by rewrite !string_app_assoc.
Qed.

Lemma alternatives_text ts : alternatives ts = cel_text (exactly <$> ts).
Proof.
  unfold alternatives, cel_text. f_equal. rewrite <- list_fmap_compose. apply list_fmap_ext. intros _ t _. cbn [compose].
  by rewrite target_expression_text.
Qed.

Lemma exactly_meaning ts a :
  cel_meaning (exactly <$> ts) a =
  existsb (fun t => (act_method a =?s t_Method t) && (act_host a =?s t_Host t) && (act_path a =?s t_Path t)) ts.
Proof.
  unfold cel_meaning. induction ts as [|t ts IH]; [done|]. cbn [fmap list_fmap existsb]. f_equal; [|exact IH].
  cbn. by rewrite andb_true_r, andb_assoc.
Qed.

Definition input_target (input : CheckInput) : Target := {|
  t_Backend := ci_Backend input; t_Method := ci_Method input; t_Host := ci_Host input; t_Path := ci_Path input |}.

(** A cache in which the entry for the expression, if any, was compiled from it. *)
Lemma program_compiles c s uid revision backend expression :
  (exists p, program_for c expression p) ->
  (forall p, cs_programs s !! program_key uid revision backend = Some p -> program_for c expression p) ->
  exists p s', program c s uid revision backend expression = (Ok p, s') /\ program_for c expression p.
Proof.
  intros (p & Hp) Hcache. unfold program. destruct (cs_programs s !! _) as [q|] eqn:Ec; [eauto|].
  pose proof Hp as (ast & -> & -> & ->). cbn [negb]. eauto.
Qed.

Lemma overlay_source caches d reason s tr d' err s' :
  run (overlay caches d reason s) tr (d', err, s') -> d_Allow d = false ->
  d_Allow d' = true -> d_Source d' = DecisionSourceAccessRequest.
Proof.
  intros [_ Ho]%overlay_run Hd Ha. destruct (Ho Ha Hd) as (_ & now & objects & object & -> & _). done.
Qed.

Lemma matching_target (ts : list Target) input :
  existsb (fun t => (ci_Method input =?s t_Method t) && (ci_Host input =?s t_Host t) && (ci_Path input =?s t_Path t))
    (of_backend (ci_Backend input) ts) = true <-> input_target input ∈ ts.
Proof.
  rewrite existsb_exists. split.
  - intros ([b m h p] & Hin%list_elem_of_In & Hb). unfold of_backend in Hin. apply list_elem_of_filter in Hin as [Hbk Hin].
    bool_to_prop. cbn in *. subst. destruct input; done.
  - intros Hin. exists (input_target input). rewrite <- list_elem_of_In. unfold of_backend.
    rewrite list_elem_of_filter. cbn [input_target t_Method t_Host t_Path t_Backend]. by rewrite !seqb_refl.
Qed.

Lemma existsb_Permutation {A} (f : A -> bool) l l' : l ≡ₚ l' -> existsb f l = existsb f l'.
Proof.
  intros Hp. apply eq_true_iff_eq. rewrite !existsb_exists. setoid_rewrite <- list_elem_of_In.
  by setoid_rewrite Hp.
Qed.


End enforcement.

(** ** Fragments in rules

    The parser of request URIs does not split off a fragment, so the test for one never fails: a
    rule whose URL has a fragment is accepted, for the path in which the mark and the fragment
    are escaped. *)

Section fragments.
Context `{UnicodeTables}.

Lemma inexact_url_fragment raw u :
  ParseRequestURI raw = Ok u ->
  inexact_url u = negb (EqualFold (u_Scheme u) "https") || (u_Host u =?s "") || (url_Port u <>?s "")
                  || negb (bool_decide (u_User u = None)) || (u_RawQuery u <>?s "").
Proof. intros Hp. unfold inexact_url. rewrite (ParseRequestURI_fragment raw u Hp). by rewrite orb_false_r. Qed.

Lemma rule_fragment_accepted :
  parse_target 0 "pypi GET https://pypi.org/simple#top" =
  Ok {| t_Backend := "pypi"; t_Method := "GET"; t_Host := "pypi.org"; t_Path := "/simple%23top" |}.
Proof. vm_compute. reflexivity. Qed.

End fragments.
