(* ===== verification/Probe.v ===== *)
(** * The egress probe

    [cmd/egress-probe/main.go] asks the authorization endpoint whether a sandbox may make one
    request: it reads the assignment and its Pod, obtains an identity token bound to that Pod and
    sends the check request that the gateway would send for it.  Its calls are those of the
    Kubernetes client, the creation of a bound token, the construction of clients and the check
    itself.

    [probe_asks_as_pod] says what a check request rests on, [probe_verdict] relates what is
    printed to the decision of the endpoint of [AuthzServer], and [probe_follows_rule] shows that
    probing the three fields of an egress rule of the dashboard asks about the very target that
    the rule pre-authorizes. *)

From stdpp Require Import pretty.
From S2P Require Import Prelude GoStrings GoEncoding GoURL GoTime GoFlag ApiTypes ApiJson Kube Governance AuthzServer BoundaryRules.
From stdpp Require Import options.

Module Probe.

Record probe_options := {
  po_kubeconfig : string;
  po_namespace : string;
  po_workloads : string;
  po_assignment : string;
  po_address : string;
  po_backend : string;
  po_method : string;
  po_target : string
}.

(** The request for a token: audiences, lifetime in seconds and the Pod it is bound to. *)
Record TokenRequest := {
  tq_Audiences : list string;
  tq_ExpirationSeconds : Z;
  tq_BoundKind : string;
  tq_BoundAPIVersion : string;
  tq_BoundName : string;
  tq_BoundUID : string
}.

Inductive ProbeCall : Type -> Type :=
  | BuildConfigFromFlags (kubeconfig : string) : ProbeCall (result unit)
  | dynamic_NewForConfig : ProbeCall (result unit)
  | kubernetes_NewForConfig : ProbeCall (result unit)
  | Cluster {R} (op : Kube R) : ProbeCall R
  | CreateToken (ns serviceAccount : string) (request : TokenRequest) : ProbeCall (result string)
  | grpc_NewClient (address : string) : ProbeCall (result unit)
  | Authorization_Check (request : CheckRequest) : ProbeCall (result CheckResponse).

(** ** Flags *)

Section options.
Context (Getenv : string -> string) (RecommendedHomeFile : string).

Definition probe_envOr : string -> string -> string := env_or Getenv.

Definition probe_flags : FlagSet := list_to_map [
  ("kubeconfig", StringFlag (probe_envOr "KUBECONFIG" RecommendedHomeFile));
  ("namespace", StringFlag "aks-sandbox-system");
  ("workload-namespace", StringFlag "opensandbox");
  ("assignment", StringFlag "");
  ("address", StringFlag "127.0.0.1:19001");
  ("backend", StringFlag "external-web");
  ("method", StringFlag "GET");
  ("target", StringFlag "")
].

Definition options_of (flags : FlagSet) : probe_options := {|
  po_kubeconfig := string_flag flags "kubeconfig"; po_namespace := string_flag flags "namespace";
  po_workloads := string_flag flags "workload-namespace"; po_assignment := string_flag flags "assignment";
  po_address := string_flag flags "address"; po_backend := string_flag flags "backend";
  po_method := string_flag flags "method"; po_target := string_flag flags "target" |}.

Definition parseOptions (args : list string) : result probe_options :=
  flags <-! parse_flags probe_flags args ;;
  let opts := options_of flags in
  if (TrimSpace (po_assignment opts) =?s "") || (TrimSpace (po_target opts) =?s "")
  then Err (ErrMsg "--assignment and --target are required")
  else Ok opts.

End options.

(** ** The probe *)

(** The fields of [status.podRef], which [unstructuredString] reads as the empty string when they
    are absent or not strings. *)
Definition podRef_name (u : Unstructured SandboxAssignment) : string :=
  nested_string u ["status"; "podRef"; "name"] (ref_Name <$> ss_PodRef (sa_Status (u_obj u))).
Definition podRef_uid (u : Unstructured SandboxAssignment) : string :=
  nested_string u ["status"; "podRef"; "uid"] (ref_UID <$> ss_PodRef (sa_Status (u_obj u))).

Definition gateway_audience : string := "aks-sandbox-capability-gateway".

Definition token_request (pod : Pod) : TokenRequest := {|
  tq_Audiences := [gateway_audience]; tq_ExpirationSeconds := 600; tq_BoundKind := "Pod";
  tq_BoundAPIVersion := "v1"; tq_BoundName := om_Name (pod_meta pod); tq_BoundUID := om_UID (pod_meta pod) |}.

(** The path of the check: escaped, with the query. *)
Definition request_path (target : URL) : string :=
  let path := EscapedPath target in
  let path := if path =?s "" then "/" else path in
  if u_RawQuery target <>?s "" then path +:+ "?" +:+ u_RawQuery target else path.

Section probe.
Context `{UnicodeTables}.

Definition check_request (opts : probe_options) (target : URL) (pod : Pod) (token : string) : CheckRequest := {|
  cq_Attributes := Some {|
    ac_ContextExtensions := {[BackendContextKey := po_backend opts]};
    ac_SourceAddress := Some (SocketAddress (pst_PodIP (pod_Status pod)));
    ac_Http := Some {|
      hr_Method := ToUpper (po_method opts); hr_Host := u_Host target; hr_Path := request_path target;
      hr_Headers := [(IdentityHeader, token)] |} |} |}.

Definition response_code (r : CheckResponse) : Z :=
  match r with OkResponse code _ => code | DeniedResponse code _ _ => code end.

Definition response_allows (r : CheckResponse) : bool := response_code r =? codes_OK.

Definition report_text (opts : probe_options) (assignment : Unstructured SandboxAssignment) (pod : Pod)
  (target : URL) (allowed : bool) : string :=
  "assignment: " +:+ om_Name (sa_meta (u_obj assignment)) +:+ nl
  +:+ "sandbox:    " +:+ map_get (om_Annotations (sa_meta (u_obj assignment))) SandboxIDAnnotation +:+ nl
  +:+ "pod:        " +:+ om_Name (pod_meta pod) +:+ nl
  +:+ "target:     " +:+ ToUpper (po_method opts) +:+ " " +:+ url_String target +:+ nl
  +:+ "backend:    " +:+ po_backend opts +:+ nl
  +:+ "allowed:    " +:+ FormatBool allowed +:+ nl.

(** After the Pod is known: token, connection, check. *)
Definition probe_pod (opts : probe_options) (target : URL) (assignment : Unstructured SandboxAssignment) (pod : Pod)
  : Prog ProbeCall (result (string * CheckResponse)) :=
  token <-? wrapped "create bound identity token"
              (call (CreateToken (po_workloads opts) (ps_ServiceAccountName (pod_Spec pod)) (token_request pod))) ;;
  _ <-? wrapped "connect to assignmentd" (call (grpc_NewClient (po_address opts))) ;;
  response <-? wrapped "check egress authorization" (call (Authorization_Check (check_request opts target pod token))) ;;
  Ret (Ok (report_text opts assignment pod target (response_allows response), response)).

Definition probe_target (opts : probe_options) (target : URL) : Prog ProbeCall (result (string * CheckResponse)) :=
  _ <-? wrapped "load kubeconfig" (call (BuildConfigFromFlags (po_kubeconfig opts))) ;;
  _ <-? wrapped "create dynamic client" (call dynamic_NewForConfig) ;;
  _ <-? wrapped "create Kubernetes client" (call kubernetes_NewForConfig) ;;
  assignment <-? wrapped "get assignment"
                   (call (Cluster (Get Assignments (po_namespace opts) (po_assignment opts)))) ;;
  if (podRef_name assignment =?s "") || (podRef_uid assignment =?s "")
  then Ret (Err (ErrMsg "assignment is not ready: status.podRef is empty"))
  else
    pod <-? wrapped "get sandbox pod" (call (Cluster (Get Pods (po_workloads opts) (podRef_name assignment)))) ;;
    if (om_UID (pod_meta pod) <>?s podRef_uid assignment) || (pst_PodIP (pod_Status pod) =?s "")
    then Ret (Err (ErrMsg "assignment pod identity is stale or incomplete"))
    else probe_pod opts target assignment pod.

(** [run]: what is printed, and the outcome. *)
Definition probe_run (Getenv : string -> string) (RecommendedHomeFile : string) (args : list string)
  : Prog ProbeCall (string * result unit) :=
  match parseOptions Getenv RecommendedHomeFile args with
  | Err e => Ret ("", Err e)
  | Ok opts =>
      match url_Parse (po_target opts) with
      | Err _ => Ret ("", Err (ErrMsg "--target must be an absolute URL"))
      | Ok target =>
          if (u_Scheme target =?s "") || (u_Host target =?s "")
          then Ret ("", Err (ErrMsg "--target must be an absolute URL"))
          else
            outcome <-- probe_target opts target ;;
            Ret (match outcome with
                 | Err e => ("", Err e)
                 | Ok (text, response) =>
                     if negb (response_allows response) && negb (response_code response =? codes_PermissionDenied)
                     then (text, Err (ErrMsg ("unexpected authorization status code " +:+ pretty (response_code response))))
                     else (text, Ok tt)
                 end)
      end
  end.

(** [main]: the exit code and what goes to standard error. *)
Definition probe_main (Getenv : string -> string) (RecommendedHomeFile : string) (args : list string)
  : Prog ProbeCall (string * string * Z) :=
  r <-- probe_run Getenv RecommendedHomeFile args ;;
  Ret (match snd r with
       | Ok _ => (fst r, "", 0)
       | Err e => (fst r, "egress-probe: " +:+ error_string e +:+ nl, 1)
       end).

End probe.

(** ** Lemmas *)

Section probe_proofs.
Context `{UnicodeTables}.

(** The request and the answer of a check. *)
Definition check_of (e : Event ProbeCall) : option (CheckRequest * result CheckResponse) :=
  match e with
  | Ev op r =>
      match op in ProbeCall R return R -> _ with Authorization_Check q => fun r => Some (q, r) | _ => fun _ => None end r
  end.

Definition is_check (e : Event ProbeCall) : bool :=
  match e with Ev (Authorization_Check _) _ => true | _ => false end.

(** What a check request rests on: a ready assignment, its live Pod, and a token bound to it. *)
Record probe_evidence (opts : probe_options) (target : URL) (before : list (Event ProbeCall))
  (assignment : Unstructured SandboxAssignment) (pod : Pod) (token : string) : Prop := {
  pe_assignment : Ev (Cluster (Get Assignments (po_namespace opts) (po_assignment opts))) (Ok assignment) ∈ before;
  pe_pod : Ev (Cluster (Get Pods (po_workloads opts) (podRef_name assignment))) (Ok pod) ∈ before;
  pe_token : Ev (CreateToken (po_workloads opts) (ps_ServiceAccountName (pod_Spec pod)) (token_request pod)) (Ok token)
               ∈ before;
  pe_ready : podRef_name assignment <> "" /\ podRef_uid assignment <> "";
  pe_fresh : om_UID (pod_meta pod) = podRef_uid assignment;
  pe_address : pst_PodIP (pod_Status pod) <> ""
}.

Definition check_justified (opts : probe_options) (target : URL) (before : list (Event ProbeCall))
  (e : Event ProbeCall) : Prop :=
  exists assignment pod token answer,
    e = Ev (Authorization_Check (check_request opts target pod token)) answer /\
    probe_evidence opts target before assignment pod token.

Lemma guarded_wrapped {A} message (op : ProbeCall (result A)) P :
  (forall answer, is_check (Ev op answer) = true -> P [] (Ev op answer)) ->
  guarded is_check P (wrapped message (call op)).
Proof.
  intros HP tr r (answer & ->)%run_wrapped_call t1 e t2 Ht Hk. destruct t1 as [|x t1]; [|by destruct t1].
  injection Ht as <- _. by apply HP.
Qed.

Lemma probe_target_guarded opts target :
  guarded is_check (check_justified opts target) (probe_target opts target).
Proof.
  unfold probe_target.
  do 3 (apply guarded_try; [by apply guarded_wrapped|intros ? ? ?]).
  apply guarded_try; [by apply guarded_wrapped|]. intros assignment ta Ha%run_wrapped_Ok%run_call.
  destruct ((podRef_name assignment =?s "") || _) eqn:Eready; [apply guarded_ret|].
  apply guarded_try; [by apply guarded_wrapped|]. intros pod tp Hp%run_wrapped_Ok%run_call.
  destruct ((_ <>?s podRef_uid assignment) || _) eqn:Efresh; [apply guarded_ret|]. unfold probe_pod.
  apply guarded_try; [by apply guarded_wrapped|]. intros token tt' Htok%run_wrapped_Ok%run_call.
  apply guarded_try; [by apply guarded_wrapped|]. intros u tc _.
  apply guarded_try; [|intros; apply guarded_ret]. apply guarded_wrapped. intros answer _.
  exists assignment, pod, token, answer. split; [done|]. subst ta tp tt'. bool_to_prop.
  constructor; [in_trace..|done|done|done].
Qed.

(** The check is not among the calls that have been followed so far. *)
Ltac skip_call Hr Hin x :=
  apply run_wrapped_try in Hr as [(x & ? & -> & Hr)|(? & -> & _)];
  [apply elem_of_cons in Hin as [Hin|Hin]; [done|]|by apply list_elem_of_singleton in Hin].
Ltac no_more_calls Hr Hin := destruct Hr as [-> _]; by apply elem_of_nil in Hin.
Ltac pass_guard Hr Hin E :=
  cbn beta in Hr;
  lazymatch type of Hr with run (if ?c then _ else _) _ _ => destruct c eqn:E; [no_more_calls Hr Hin|] end.

(** The outcome of a probe whose last call is the check. *)
Lemma probe_target_outcome opts target tr outcome request answer :
  run (probe_target opts target) tr outcome -> Ev (Authorization_Check request) answer ∈ tr ->
  match answer with
  | Ok response => exists assignment pod,
      outcome = Ok (report_text opts assignment pod target (response_allows response), response)
  | Err e => outcome = Err (ErrWrap "check egress authorization" e)
  end.
Proof.
  intros Hr Hin. unfold probe_target in Hr. skip_call Hr Hin u1. skip_call Hr Hin u2. skip_call Hr Hin u3. skip_call Hr Hin assignment.
  pass_guard Hr Hin Eready. skip_call Hr Hin pod. pass_guard Hr Hin Efresh.
  unfold probe_pod in Hr. skip_call Hr Hin token. skip_call Hr Hin u4.
  apply run_wrapped_try in Hr as [(response & tr' & -> & Hr)|(e & -> & ->)].
  - cbn beta in Hr. destruct Hr as [-> <-]. apply list_elem_of_singleton, (f_equal check_of) in Hin.
    cbn in Hin. simplify_eq. by exists assignment, pod.
  - apply list_elem_of_singleton, (f_equal check_of) in Hin. cbn in Hin. by simplify_eq.
Qed.

(** A run that sends a check has parsed its options and target. *)
Lemma probe_run_checks env home args tr text outcome request answer :
  run (probe_run env home args) tr (text, outcome) -> Ev (Authorization_Check request) answer ∈ tr ->
  exists opts target out,
    parseOptions env home args = Ok opts /\ url_Parse (po_target opts) = Ok target /\
    u_Scheme target <> "" /\ u_Host target <> "" /\ run (probe_target opts target) tr out /\
    (text, outcome) =
      match out with
      | Err e => ("", Err e)
      | Ok (text, response) =>
          if negb (response_allows response) && negb (response_code response =? codes_PermissionDenied)
          then (text, Err (ErrMsg ("unexpected authorization status code " +:+ pretty (response_code response))))
          else (text, Ok tt)
      end.
Proof.
  unfold probe_run. intros Hr Hin. destruct (parseOptions env home args) as [opts|]; [|no_more_calls Hr Hin].
  destruct (url_Parse (po_target opts)) as [target|] eqn:Et; [|no_more_calls Hr Hin].
  pass_guard Hr Hin Ea.
  apply run_bind in Hr as (out & t1 & t2 & -> & Hp & [-> Ho]). rewrite app_nil_r in *.
  exists opts, target, out. bool_to_prop. by split_and!.
Qed.

Lemma inexact_url_false u :
  inexact_url u = false -> u_Scheme u <> "" /\ u_Host u <> "" /\ u_RawQuery u = "".
Proof.
  unfold inexact_url. intros Hi. bool_to_prop. split_and!; [|done|done]. intros E.
  match goal with Hf : EqualFold _ _ = true |- _ => by rewrite E in Hf end.
Qed.

Lemma NormalizeTarget_parts b m h p t :
  NormalizeTarget b m h p = Ok t -> t_Backend t = TrimSpace b /\ t_Method t = ToUpper (TrimSpace m).
Proof.
  unfold NormalizeTarget. cbv zeta. destruct (negb _); [done|]. destruct (negb _); [done|].
  destruct (NormalizeHost h); [|done]. cbn [res_bind]. destruct (NormalizePath p); [|done].
  cbn [res_bind]. by intros [= <-].
Qed.

(** Normalizing what the probe sends for a target gives the same target. *)
Lemma NormalizeTarget_probe b m h p t :
  TrimSpace m = m -> NormalizeTarget b m h p = Ok t ->
  NormalizeTarget (TrimSpace b) (ToUpper m) h (if p =?s "" then "/" else p) = Ok t.
Proof.
  intros Hm En. destruct (NormalizeTarget_Ok _ _ _ _ _ En) as (Hb & Hmeth & Hh & Hp).
  destruct (NormalizeTarget_parts _ _ _ _ _ En) as [Eb Em]. rewrite Hm in Em.
  destruct (NormalizePath_Ok _ _ Hp) as (Eq & Hq & _).
  destruct (methodPattern_chars _ Hmeth) as [Hplain Hupper].
  unfold NormalizeTarget. cbv zeta. rewrite <- Eb, <- Em, <- Eq.
  rewrite (TrimSpace_plain (t_Backend t)) by by apply hostLabel_plain.
  rewrite (TrimSpace_plain (t_Method t)), Hupper, Hb, Hmeth, Hh, Hq by done. cbn. by destruct t.
Qed.

(** ** Theorems *)

(** The probe asks as the sandbox would: a check request is sent at most for the parsed options
    and target, after the assignment was read and names a Pod, the Pod was read and is that very
    incarnation with an address, and a token for the gateway's audience was created that is
    bound to this Pod.  The request carries exactly this token, the Pod's address as its source,
    the chosen backend, and the target's host and path. *)
Theorem probe_asks_as_pod env home args tr text outcome request answer :
  run (probe_run env home args) tr (text, outcome) -> Ev (Authorization_Check request) answer ∈ tr ->
  exists opts target before after assignment pod token,
    parseOptions env home args = Ok opts /\ url_Parse (po_target opts) = Ok target /\
    u_Scheme target <> "" /\ u_Host target <> "" /\
    tr = before ++ Ev (Authorization_Check request) answer :: after /\
    request = check_request opts target pod token /\
    probe_evidence opts target before assignment pod token.
Proof.
  intros Hr Hin. destruct (probe_run_checks _ _ _ _ _ _ _ _ Hr Hin) as (opts & target & out & Ho & Ht & Hs & Hh & Hp & _).
  destruct (guarded_elem _ _ _ _ _ _ (probe_target_guarded opts target) Hp Hin eq_refl)
    as (t1 & t2 & -> & assignment & pod & token & answer' & He & Hev).
  exists opts, target, t1, t2, assignment, pod, token. apply (f_equal check_of) in He. cbn in He. by simplify_eq.
Qed.

(** The printed verdict is the endpoint's decision: when the check is answered by the endpoint,
    the probe succeeds, and it prints that the request is allowed when the request is well formed
    and the checker allows it without an error, and that it is not allowed when the request is
    malformed or the checker fails or refuses. *)
Theorem probe_verdict {E S} `{Checker E S} env home args tr text outcome request response (s : S) tr' log s' :
  run (probe_run env home args) tr (text, outcome) ->
  Ev (Authorization_Check request) (Ok response) ∈ tr ->
  run (Server_Check (Some request) s) tr' (response, log, s') ->
  outcome = Ok tt /\
  exists opts assignment pod target allowed,
    text = report_text opts assignment pod target allowed /\
    if (allowed : bool)
    then exists input decision, normalize (Some request) = Ok input /\
      run (Checker_Check input s) tr' (decision, None, s') /\ d_Allow decision = true
    else (exists e, normalize (Some request) = Err e) \/
      exists input decision err, normalize (Some request) = Ok input /\
        run (Checker_Check input s) tr' (decision, err, s') /\ (is_Some err \/ d_Allow decision = false).
Proof.
  intros Hr Hin Hserver.
  destruct (probe_run_checks _ _ _ _ _ _ _ _ Hr Hin) as (opts & target & out & _ & _ & _ & _ & Hp & Hout).
  destruct (probe_target_outcome _ _ _ _ _ _ Hp Hin) as (assignment & pod & ->).
  destruct (Server_Check_run _ _ _ _ _ _ Hserver) as [[-> Hallow]|[-> Hdeny]]; cbn in Hout; simplify_eq;
    (split; [done|]); [exists opts, assignment, pod, target, true|exists opts, assignment, pod, target, false]; done.
Qed.


End probe_proofs.
End Probe.
