(* ===== verification/DashboardAdmin.v ===== *)
(** * Capability bundles, templates and tenant policies

    The administrator's forms of the dashboard that create governance objects:
    [createCapabilityBundle] of [capabilities.go], [createSandboxTemplate] of [templates.go] and
    [createTenantPolicy] of [tenants.go].  Each handler is its sequence of checks, which ends in
    a reply or in the object to create, followed by the create itself.

    The objects are made for other components: [created_template_resolves] hands a template to
    the lifecycle facade's resolver, and [policy_creation_sound] bounds the budgets that a tenant policy hands to the
    admission package and to the dashboard's own access budget. *)

From S2P Require Import Prelude GoStrings GoJson GoEncoding ApiTypes ApiJson DashboardTypes Kube Governance Principals Admission.
From S2P Require Import Facade TokenValidation DashboardAuth DashboardConfig DashboardCore AccessRequests AuthzServer Checker BoundaryRules.
From stdpp Require Import options.

Definition named_meta (namespace name : string) : ObjectMeta := {|
  om_Name := name; om_GenerateName := ""; om_Namespace := namespace; om_UID := "";
  om_ResourceVersion := ""; om_Generation := 0; om_CreationTimestamp := zero_time;
  om_DeletionTimestamp := None; om_Labels := ∅; om_Annotations := ∅;
  om_Finalizers := []; om_OwnerReferences := [] |}.

(** [digestPinnedImagePattern]: a non-empty name without line feeds and a SHA-256 digest. *)
Definition digest_char (c : ascii) : bool := is_digit c || in_range 97 102 (byte c).
Definition digestPinned (image : string) : bool :=
  let n := (String.length image - 72)%nat in
  Nat.ltb 72 (String.length image) && negb (contains_byte "010" (String.substring 0 n image))
  && match CutPrefix (String.substring n 72 image) "@sha256:" with
     | Some digest => string_forallb digest_char digest
     | None => false
     end.

Section admin.
Context `{UnicodeTables} `{K8sValidation} `{K8sLabelValidation} `{QuoteLib}
        `{Quantities} `{Sha256}.

Definition invalid {A} (problems : list A) : bool := negb (Nat.eqb (length problems) 0).

(** ** Capability bundles *)

Definition bundle_spec_of (logicalTenant team permissionLevel displayName : string)
  (egress : gmap string AgentgatewayBackendPolicy) (commandPolicy : list CommandPolicyRule)
  (validationRules : list ValidationRule) : CapabilityBundleSpec := {|
  cbs_Egress := if Nat.eqb (size egress) 0 then None else Some {| ep_Agentgateway := egress |};
  cbs_Harness := if Nat.eqb (length commandPolicy) 0 && Nat.eqb (length validationRules) 0 then None
                 else Some {| hp_CommandPolicy := commandPolicy; hp_ValidationRules := validationRules |};
  cbs_Governance := Some {| gb_LogicalTenant := logicalTenant; gb_Team := team;
                            gb_PermissionLevel := permissionLevel; gb_DisplayName := displayName |} |}.

Definition bundle_fields : list string :=
  ["csrf"; "name"; "displayName"; "logicalTenant"; "team"; "permissionLevel"; "egressRules"; "allowedCommands";
   "validationRules"].

Definition prepareCapabilityBundle (g : governanceDashboard) (r : DashRequest) : KProg (GovReply + CapabilityBundle) :=
  _ <-| Ret (requireAdmin g (hr_Context r)) ;;
  form <-| Ret (parseMutation g r bundle_fields) ;;
  let name := TrimSpace (values_Get form "name") in
  let displayName := TrimSpace (values_Get form "displayName") in
  let logicalTenant := TrimSpace (values_Get form "logicalTenant") in
  let team := TrimSpace (values_Get form "team") in
  let permissionLevel := TrimSpace (values_Get form "permissionLevel") in
  reply_if (invalid (IsDNS1123Subdomain name) || (slen displayName <? 3) || (128 <? slen displayName)
            || has_control displayName || invalid (IsDNS1123Label logicalTenant)
            || invalid (IsDNS1123Label team) || invalid (IsDNS1123Label permissionLevel))
    "Capability boundary fields are invalid" StatusBadRequest (
  _ <-| requireAdminTenant g (hr_Context r) logicalTenant ;;
  call_or (Ret (parseExactEgressRules (values_Get form "egressRules")))
    (fun e => GovError ("Invalid pre-authorized egress: " +:+ error_string e) StatusBadRequest) (fun egress =>
  call_or (Ret (parseAllowedCommands (values_Get form "allowedCommands")))
    (fun e => GovError ("Invalid allowed commands: " +:+ error_string e) StatusBadRequest) (fun commandPolicy =>
  call_or (Ret (parseValidationRules (values_Get form "validationRules") commandPolicy))
    (fun e => GovError ("Invalid validation rules: " +:+ error_string e) StatusBadRequest) (fun validationRules =>
  Ret (inr {| cb_meta := named_meta (gd_namespace g) name;
              cb_Spec := bundle_spec_of logicalTenant team permissionLevel displayName egress commandPolicy
                           validationRules |}))))).

Definition createCapabilityBundle (g : governanceDashboard) (r : DashRequest) : KProg (GovReply + Empty_set) :=
  bundle <-| prepareCapabilityBundle g r ;;
  call_or (call (Create Bundles (gd_namespace g) (wf bundle))) resourceError (fun _ =>
  Ret (inl (redirectWithMessage g "/admin" ("Capability bundle " +:+ om_Name (cb_meta bundle) +:+ " created")))).

(** ** Templates *)

Definition templatePolicyRevision (bundle : Unstructured CapabilityBundle) : result string :=
  PolicyRevision (match nested bundle ["spec"] (Some (cb_Spec (u_obj bundle))) with Ok spec => spec | Err _ => None end).

Definition invalid_entrypoint (entrypoint : list string) : bool :=
  existsb (fun value => (TrimSpace value =?s "") || (512 <? slen value)) entrypoint.

Definition template_fields : list string :=
  ["csrf"; "name"; "displayName"; "description"; "image"; "entrypoint"; "capabilityBundle"; "cpu"; "memory";
   "timeoutSeconds"; "enabled"].

Definition prepareSandboxTemplate (g : governanceDashboard) (r : DashRequest) : KProg (GovReply + SandboxTemplate) :=
  _ <-| Ret (requireAdmin g (hr_Context r)) ;;
  form <-| Ret (parseMutation g r template_fields) ;;
  let name := TrimSpace (values_Get form "name") in
  reply_if (invalid (IsDNS1123Subdomain name)) "Template name must be a DNS subdomain" StatusBadRequest (
  let displayName := TrimSpace (values_Get form "displayName") in
  let description := TrimSpace (values_Get form "description") in
  let image := TrimSpace (values_Get form "image") in
  let bundle := TrimSpace (values_Get form "capabilityBundle") in
  reply_if ((slen displayName <? 3) || (128 <? slen displayName) || (512 <? slen description)
            || (512 <? slen image) || negb (digestPinned image) || (slen bundle =? 0) || (253 <? slen bundle))
    "Template fields are invalid" StatusBadRequest (
  call_or (call (Get Bundles (gd_namespace g) bundle))
    (fun e => if IsNotFound e then GovError "Capability bundle does not exist" StatusBadRequest else resourceError e)
    (fun bundleObject =>
  let logicalTenant := bundle_logical_tenant bundleObject in
  reply_if (TrimSpace logicalTenant =?s "") "Capability bundle has no logical tenant" StatusBadRequest (
  _ <-| requireAdminTenant g (hr_Context r) logicalTenant ;;
  call_or (Ret (templatePolicyRevision bundleObject)) (fun _ => internalError) (fun policyRevision =>
  let malformed := GovError "Entrypoint must be a JSON string array" StatusBadRequest in
  call_or (Ret (json_strings (values_Get form "entrypoint"))) (fun _ => malformed) (fun entrypoint =>
  reply_if (Nat.eqb (length entrypoint) 0 || Nat.ltb 32 (length entrypoint))
    "Entrypoint must be a JSON string array" StatusBadRequest (
  reply_if (invalid_entrypoint entrypoint) "Entrypoint values are invalid" StatusBadRequest (
  let cpu := TrimSpace (values_Get form "cpu") in
  let memory := TrimSpace (values_Get form "memory") in
  call_or (Ret (ParseQuantity cpu)) (fun _ => GovError "CPU quantity is invalid" StatusBadRequest) (fun _ =>
  call_or (Ret (ParseQuantity memory)) (fun _ => GovError "Memory quantity is invalid" StatusBadRequest) (fun _ =>
  let lifetime := "Lifetime must be between 60 and 3600 seconds" in
  call_or (Ret (ParseInt 64 (values_Get form "timeoutSeconds")))
    (fun _ => GovError lifetime StatusBadRequest) (fun timeoutSeconds =>
  reply_if ((timeoutSeconds <? 60) || (3600 <? timeoutSeconds)) lifetime StatusBadRequest (
  call_or (Ret (ParseBool (values_Get form "enabled")))
    (fun _ => GovError "Enabled must be true or false" StatusBadRequest) (fun enabled =>
  Ret (inr {| st_meta := named_meta (gd_namespace g) name;
              st_Spec := {| sts_DisplayName := displayName; sts_Description := description; sts_Image := image;
                            sts_Entrypoint := entrypoint;
                            sts_CapabilityBundleRef := {| cbr_Name := bundle; cbr_PolicyRevision := policyRevision |};
                            sts_Resources := {| str_CPU := cpu; str_Memory := memory |};
                            sts_TimeoutSeconds := timeoutSeconds; sts_Enabled := enabled |} |})))))))))))))).

Definition createSandboxTemplate (g : governanceDashboard) (r : DashRequest) : KProg (GovReply + Empty_set) :=
  template <-| prepareSandboxTemplate g r ;;
  call_or (call (Create Templates (gd_namespace g) (wf template))) resourceError (fun _ =>
  Ret (inl (redirectWithMessage g "/admin" ("Sandbox template " +:+ om_Name (st_meta template) +:+ " created")))).

(** ** Tenant policies *)

Definition invalid_bundle_prefix (prefix : string) : bool :=
  negb (HasSuffix prefix "-") || invalid (IsDNS1123Label (TrimSuffix prefix "-")).

Definition nonpositive_quantity (value : string) : bool :=
  match ParseQuantity value with Err _ => true | Ok quantity => quantity_Sign quantity <=? 0 end.

Definition policy_fields : list string :=
  ["csrf"; "name"; "logicalTenant"; "workloadNamespace"; "allowedCapabilityBundles"; "allowedCapabilityBundlePrefixes";
   "maxConcurrentSandboxes"; "maxLifetimeSeconds"; "maxAccessMinutes"; "maxCpu"; "maxMemory"; "enabled"].

Definition prepareTenantPolicy (g : governanceDashboard) (r : DashRequest) : KProg (GovReply + SandboxTenantPolicy) :=
  _ <-| Ret (requireAdmin g (hr_Context r)) ;;
  form <-| Ret (parseMutation g r policy_fields) ;;
  let name := TrimSpace (values_Get form "name") in
  let logicalTenant := TrimSpace (values_Get form "logicalTenant") in
  let workloadNamespace := TrimSpace (values_Get form "workloadNamespace") in
  reply_if (invalid (IsDNS1123Subdomain name) || invalid (IsDNS1123Label logicalTenant)
            || invalid (IsDNS1123Label workloadNamespace))
    "Tenant policy identity fields are invalid" StatusBadRequest (
  _ <-| requireAdminTenant g (hr_Context r) logicalTenant ;;
  let bundles := uniqueLines (values_Get form "allowedCapabilityBundles") in
  let prefixes := uniqueLines (values_Get form "allowedCapabilityBundlePrefixes") in
  reply_if (Nat.eqb (length bundles + length prefixes) 0 || Nat.ltb 128 (length bundles)
            || Nat.ltb 128 (length prefixes))
    "At least one allowed capability bundle or prefix is required" StatusBadRequest (
  reply_if (existsb (fun bundle => invalid (IsDNS1123Subdomain bundle)) bundles)
    "Allowed capability bundle name is invalid" StatusBadRequest (
  reply_if (existsb invalid_bundle_prefix prefixes)
    "Allowed capability bundle prefix is invalid" StatusBadRequest (
  call_or (Ret (boundedInt32 (values_Get form "maxConcurrentSandboxes") 1 1000))
    (fun _ => GovError "Concurrent sandbox budget is invalid" StatusBadRequest) (fun maxConcurrent =>
  call_or (Ret (boundedInt32 (values_Get form "maxLifetimeSeconds") 60 86400))
    (fun _ => GovError "Lifetime budget is invalid" StatusBadRequest) (fun maxLifetime =>
  call_or (Ret (boundedInt32 (values_Get form "maxAccessMinutes") 1 480))
    (fun _ => GovError "Access duration budget is invalid" StatusBadRequest) (fun maxAccessMinutes =>
  let maxCPU := TrimSpace (values_Get form "maxCpu") in
  let maxMemory := TrimSpace (values_Get form "maxMemory") in
  reply_if (nonpositive_quantity maxCPU) "CPU budget is invalid" StatusBadRequest (
  reply_if (nonpositive_quantity maxMemory) "Memory budget is invalid" StatusBadRequest (
  Ret (inr {| tp_meta := named_meta (gd_namespace g) name;
              tp_Spec := {| tps_LogicalTenant := logicalTenant; tps_WorkloadNamespace := workloadNamespace;
                            tps_AllowedCapabilityBundles := bundles; tps_AllowedCapabilityBundlePrefixes := prefixes;
                            tps_MaxConcurrentSandboxes := maxConcurrent; tps_MaxLifetimeSeconds := maxLifetime;
                            tps_MaxAccessRequestDurationSeconds := wrap32 (maxAccessMinutes * 60);
                            tps_MaxCPU := maxCPU; tps_MaxMemory := maxMemory;
                            tps_Enabled := values_Get form "enabled" =?s "true" |} |})))))))))).

Definition createTenantPolicy (g : governanceDashboard) (r : DashRequest) : KProg (GovReply + Empty_set) :=
  policy <-| prepareTenantPolicy g r ;;
  call_or (call (Create TenantPolicies (gd_namespace g) (wf policy))) resourceError (fun _ =>
  Ret (inl (redirectWithMessage g "/admin" ("Tenant policy " +:+ om_Name (tp_meta policy) +:+ " created")))).

End admin.

(** ** Properties *)

(** The template a call tries to create. *)
Definition template_of {T} (r : Resource T) : T -> option (Unstructured SandboxTemplate) :=
  match r with Templates => Some | _ => fun _ => None end.
Definition template_create (e : KEvent) : option (Unstructured SandboxTemplate) :=
  match e with Ev op _ => match op with Create r _ o => template_of r o | _ => None end end.

Section admin_proofs.
Context `{UnicodeTables} `{K8sValidation} `{K8sLabelValidation} `{QuoteLib}
        `{Quantities} `{Sha256}.

(** The signed-in administrator's sole active binding lists the tenant, and the object was posted
    with the dashboard's own form. *)
Record admin_posted (g : governanceDashboard) (r : DashRequest) (fields : list string) (form : Values)
  (tenant : string) (t : list KEvent) : Prop := {
  ap_admin : exists who items binding,
    ctx_identity (hr_Context r) = Some who /\ gd_adminRole g ∈ ai_Roles who /\
    Ev (List PrincipalBindings (gd_namespace g) list_all) (Ok items) ∈ t /\
    sole_binding who items binding /\ tenant ∈ pbs_AdminTenants (pb_Spec binding);
  ap_form : mutation_ok g r fields form
}.

(** The checks that each of the handlers makes of the administrator and of the form. *)
Lemma admin_posted_intro g r fields form tenant who' who t t' :
  "csrf" ∈ fields -> requireAdmin g (hr_Context r) = inr who' -> parseMutation g r fields = inr form ->
  run (requireAdminTenant g (hr_Context r) tenant) t (inr who) -> t ⊆ t' -> admin_posted g r fields form tenant t'.
Proof.
  intros Hc Ha Hf (Hw & items & binding & -> & Hb & Hin)%requireAdminTenant_ok Hsub.
  apply requireAdmin_ok in Hw as (Hid & Hrole & _). constructor; [|by apply parseMutation_ok].
  exists who, items, binding. split_and!; try done. set_solver.
Qed.

Lemma invalid_false {A} (l : list A) : invalid l = false <-> l = [].
Proof. destruct l; done. Qed.

(** A handler that checks, creates one object and redirects. *)
Lemma checked_create_guarded {T : Type} (R : Resource (Unstructured T)) g (prepare : KProg (GovReply + T))
  (message : T -> GovReply) (P : list KEvent -> KEvent -> Prop) :
  quiet is_write prepare ->
  (forall o t answer, run prepare t (inr o) -> P t (Ev (Create R (gd_namespace g) (wf o)) answer)) ->
  guarded is_write P
    (o <-| prepare ;; call_or (call (Create R (gd_namespace g) (wf o))) resourceError (fun _ =>
       Ret (inl (message o) : GovReply + Empty_set))).
Proof.
  intros Hq HP. apply guarded_or_reply; [by apply guarded_quiet|]. intros o t Hr.
  apply guarded_call_or; [|intros; apply guarded_ret].
  apply guarded_call. intros answer. rewrite app_nil_r. by apply HP.
Qed.

Lemma prepareCapabilityBundle_quiet g r : quiet is_write (prepareCapabilityBundle g r).
Proof. unfold prepareCapabilityBundle. gov_quiet. Qed.
Lemma prepareSandboxTemplate_quiet g r : quiet is_write (prepareSandboxTemplate g r).
Proof. unfold prepareSandboxTemplate. gov_quiet. Qed.
Lemma prepareTenantPolicy_quiet g r : quiet is_write (prepareTenantPolicy g r).
Proof. unfold prepareTenantPolicy. gov_quiet. Qed.

(** *** Bundles *)

Definition creates_bundle (g : governanceDashboard) (r : DashRequest) (t : list KEvent) (e : KEvent) : Prop :=
  exists form bundle boundary commands answer,
    e = Ev (Create Bundles (gd_namespace g) (wf bundle)) answer /\
    cbs_Governance (cb_Spec bundle) = Some boundary /\
    admin_posted g r bundle_fields form (gb_LogicalTenant boundary) t /\
    om_Namespace (cb_meta bundle) = gd_namespace g /\ IsDNS1123Subdomain (om_Name (cb_meta bundle)) = [] /\
    parseExactEgressRules (values_Get form "egressRules") =
      Ok (default ∅ (ep_Agentgateway <$> cbs_Egress (cb_Spec bundle))) /\
    default [] (hp_CommandPolicy <$> cbs_Harness (cb_Spec bundle)) = allow_rule <$> commands /\
    (forall c, c ∈ commands <-> listed_command (lines (values_Get form "allowedCommands")) c) /\
    Forall (fun rule => vr_Command rule ∈ commands)
      (default [] (hp_ValidationRules <$> cbs_Harness (cb_Spec bundle))).

Lemma parseAllowedCommands_listed value policy :
  parseAllowedCommands value = Ok policy ->
  exists commands, policy = allow_rule <$> commands /\ forall c, c ∈ commands <-> listed_command (lines value) c.
Proof.
  unfold parseAllowedCommands. intros Hp.
  destruct (commands_loop_spec (lines value) [] policy) as (commands & -> & _ & _ & Ht);
    [done|apply NoDup_nil_2|cbn; unfold maximumPreauthorizedRules; lia|].
  exists commands. split; [done|]. intros c. rewrite Ht. set_solver.
Qed.

Lemma bundle_spec_of_egress tenant team level name egress policy rules :
  default ∅ (ep_Agentgateway <$> cbs_Egress (bundle_spec_of tenant team level name egress policy rules)) = egress.
Proof.
  cbn. destruct (Nat.eqb (size egress) 0) eqn:E; [|done]. apply Nat.eqb_eq, map_size_empty_inv in E as ->. done.
Qed.

Lemma bundle_spec_of_harness tenant team level name egress policy rules :
  default [] (hp_CommandPolicy <$> cbs_Harness (bundle_spec_of tenant team level name egress policy rules)) = policy /\
  default [] (hp_ValidationRules <$> cbs_Harness (bundle_spec_of tenant team level name egress policy rules)) = rules.
Proof. cbn. destruct policy, rules; done. Qed.

Lemma prepareCapabilityBundle_ok g r t bundle answer :
  run (prepareCapabilityBundle g r) t (inr bundle) ->
  creates_bundle g r t (Ev (Create Bundles (gd_namespace g) (wf bundle)) answer).
Proof.
  unfold prepareCapabilityBundle. intros Hr. gov_step Hr. gov_step Hr. rename a0 into form. cbv zeta in Hr.
  gov_step Hr. gov_step Hr. gov_step Hr. rename a1 into egress, Hc2 into Hegress.
  gov_step Hr. rename a1 into policy, Hc2 into Hpolicy. gov_step Hr. rename a1 into rules, Hc2 into Hrules.
  gov_step Hr. injection Hr as <-.
  destruct (parseAllowedCommands_listed _ _ Hpolicy) as (commands & -> & Hlisted).
  destruct (bundle_spec_of_harness (TrimSpace (values_Get form "logicalTenant")) (TrimSpace (values_Get form "team"))
    (TrimSpace (values_Get form "permissionLevel")) (TrimSpace (values_Get form "displayName")) egress
    (allow_rule <$> commands) rules) as [Hh Hv].
  bool_to_prop. exists form. eexists _, _, commands, answer. split; [done|]. split; [done|]. split.
  { eapply admin_posted_intro; [|done..|]; set_solver. }
  split; [done|]. split; [by apply invalid_false|]. cbn [cb_Spec]. split; [by rewrite bundle_spec_of_egress|].
  split; [exact Hh|]. split; [done|]. rewrite Hv.
  apply parseValidationRules_ok in Hrules as (_ & _ & Hf). eapply Forall_impl; [exact Hf|]. naive_solver.
Qed.

(** *** Templates *)

Definition creates_template (g : governanceDashboard) (r : DashRequest) (t : list KEvent) (e : KEvent) : Prop :=
  exists form template bundle answer, let spec := st_Spec template in
    e = Ev (Create Templates (gd_namespace g) (wf template)) answer /\
    Ev (Get Bundles (gd_namespace g) (cbr_Name (sts_CapabilityBundleRef spec))) (Ok bundle) ∈ t /\
    admin_posted g r template_fields form (bundle_tenant bundle) t /\ bundle_tenant bundle <> "" /\
    path_malformed bundle ["spec"] = false /\
    PolicyRevision (Some (cb_Spec (u_obj bundle))) = Ok (cbr_PolicyRevision (sts_CapabilityBundleRef spec)) /\
    digestPinned (sts_Image spec) = true /\ 60 <= sts_TimeoutSeconds spec <= 3600 /\
    is_ok (ParseQuantity (str_CPU (sts_Resources spec))) = true /\
    is_ok (ParseQuantity (str_Memory (sts_Resources spec))) = true /\
    (0 < length (sts_Entrypoint spec) <= 32)%nat.

(** A bundle that names a tenant has a well-formed specification. *)
Lemma bundle_tenant_wf bundle : bundle_tenant bundle <> "" -> path_malformed bundle ["spec"] = false.
Proof.
  unfold bundle_tenant, nested_string, nested. intros Hne. apply not_true_iff_false. intros E.
  assert (path_malformed bundle ["spec"; "governance"; "logicalTenant"] = true) as Hm; [|by rewrite Hm in Hne].
  unfold path_malformed in *. apply existsb_exists in E as (p & Hin & Hp). apply existsb_exists. exists p.
  split; [done|]. apply bool_decide_eq_true in Hp. apply bool_decide_eq_true.
  destruct Hp as [k Hk]. exists (k ++ ["governance"; "logicalTenant"]).
  rewrite (assoc_L (++)), <- Hk. done.
Qed.

Lemma TrimSpace_empty : TrimSpace "" = "".
Proof. done. Qed.

Lemma prepareSandboxTemplate_ok g r t template answer :
  run (prepareSandboxTemplate g r) t (inr template) ->
  creates_template g r t (Ev (Create Templates (gd_namespace g) (wf template)) answer).
Proof.
  unfold prepareSandboxTemplate. intros Hr. gov_step Hr. gov_step Hr. rename a0 into form. cbv zeta in Hr.
  gov_step Hr. gov_step Hr. rename Eg0 into Hfields. gov_step Hr. rename a0 into bundle. cbv zeta in Hr.
  gov_step Hr. rename Eg0 into Htenant. gov_step Hr. rename Hc1 into Hadmin.
  gov_step Hr. rename a1 into rev, Hc1 into Hrev. gov_step Hr. rename a1 into entrypoint.
  gov_step Hr. rename Eg0 into Hlen. gov_step Hr. gov_step Hr. rename Hc2 into Hcpu. gov_step Hr. rename Hc2 into Hmem.
  gov_step Hr. gov_step Hr. rename a3 into seconds, Eg1 into Hseconds. gov_step Hr. gov_step Hr. injection Hr as <-.
  assert (bundle_tenant bundle <> "") as Hne.
  { intros E. apply seqb_neq in Htenant. apply Htenant. change (bundle_logical_tenant bundle) with (bundle_tenant bundle).
    by rewrite E. }
  pose proof (bundle_tenant_wf bundle Hne) as Hwf. unfold templatePolicyRevision, nested in Hrev. rewrite Hwf in Hrev.
  apply orb_false_iff in Hlen as [Hsome%Nat.eqb_neq Hmax%Nat.ltb_ge].
  bool_to_prop. exists form. eexists _, bundle, answer. cbv zeta. split; [done|]. split; [cbn; set_solver|]. split.
  { eapply admin_posted_intro; [|done|done|exact Hadmin|]; set_solver. }
  cbn [st_Spec sts_CapabilityBundleRef cbr_PolicyRevision sts_Image sts_TimeoutSeconds sts_Resources str_CPU
       str_Memory sts_Entrypoint].
  rewrite Hcpu, Hmem. split_and!; done || lia.
Qed.

(** *** Policies *)

Record policy_spec_ok (spec : SandboxTenantPolicySpec) : Prop := {
  ps_bundles : NoDup (tps_AllowedCapabilityBundles spec) /\ (length (tps_AllowedCapabilityBundles spec) <= 128)%nat /\
    Forall (fun b => IsDNS1123Subdomain b = []) (tps_AllowedCapabilityBundles spec);
  ps_prefixes : NoDup (tps_AllowedCapabilityBundlePrefixes spec) /\
    (length (tps_AllowedCapabilityBundlePrefixes spec) <= 128)%nat /\
    Forall (fun p => HasSuffix p "-" = true /\ IsDNS1123Label (TrimSuffix p "-") = [])
      (tps_AllowedCapabilityBundlePrefixes spec);
  ps_some : tps_AllowedCapabilityBundles spec ++ tps_AllowedCapabilityBundlePrefixes spec <> [];
  ps_concurrent : 1 <= tps_MaxConcurrentSandboxes spec <= 1000;
  ps_lifetime : 60 <= tps_MaxLifetimeSeconds spec <= 86400;
  ps_access : MinimumRequestedDuration <= dur_mul (tps_MaxAccessRequestDurationSeconds spec) Second
              <= MaximumRequestedDuration;
  ps_cpu : exists q, ParseQuantity (tps_MaxCPU spec) = Ok q /\ 0 < quantity_Sign q;
  ps_memory : exists q, ParseQuantity (tps_MaxMemory spec) = Ok q /\ 0 < quantity_Sign q
}.

Definition creates_policy (g : governanceDashboard) (r : DashRequest) (t : list KEvent) (e : KEvent) : Prop :=
  exists form policy answer,
    e = Ev (Create TenantPolicies (gd_namespace g) (wf policy)) answer /\
    admin_posted g r policy_fields form (tps_LogicalTenant (tp_Spec policy)) t /\
    IsDNS1123Label (tps_LogicalTenant (tp_Spec policy)) = [] /\ policy_spec_ok (tp_Spec policy).

Lemma nonpositive_quantity_false value :
  nonpositive_quantity value = false -> exists q, ParseQuantity value = Ok q /\ 0 < quantity_Sign q.
Proof. unfold nonpositive_quantity. destruct (ParseQuantity value) as [q|]; [|done]. intros. bool_to_prop. eauto. Qed.

Lemma existsb_false_Forall {A} (f : A -> bool) l : existsb f l = false -> Forall (fun x => f x = false) l.
Proof.
  intros Hf. apply Forall_forall. intros x Hin. apply not_true_iff_false. intros Hx.
  apply not_true_iff_false in Hf. apply Hf, existsb_exists. exists x. by rewrite <- list_elem_of_In.
Qed.

Lemma access_minutes n : 1 <= n <= 480 ->
  MinimumRequestedDuration <= dur_mul (wrap32 (n * 60)) Second <= MaximumRequestedDuration.
Proof.
  intros Hn. assert (wrap32 (n * 60) = n * 60) as ->.
  { unfold wrap32. rewrite Z.mod_small; lia. }
  rewrite dur_mul_seconds_int32 by (unfold in_int32; lia).
  unfold MinimumRequestedDuration, MaximumRequestedDuration, Hour, Minute, Second. lia.
Qed.

Lemma prepareTenantPolicy_ok g r t policy answer :
  run (prepareTenantPolicy g r) t (inr policy) ->
  creates_policy g r t (Ev (Create TenantPolicies (gd_namespace g) (wf policy)) answer).
Proof.
  unfold prepareTenantPolicy. intros Hr. gov_step Hr. gov_step Hr. rename a0 into form. cbv zeta in Hr.
  gov_step Hr. rename Eg into Hid. gov_step Hr. rename Hc1 into Hadmin. cbv zeta in Hr.
  gov_step Hr. rename Eg into Hsome. gov_step Hr. rename Eg into Hbundles. gov_step Hr. rename Eg into Hprefixes.
  gov_step Hr. rename a1 into concurrent, Hc1 into Hconcurrent. gov_step Hr. rename a1 into lifetime, Hc1 into Hlifetime.
  gov_step Hr. rename a1 into minutes, Hc1 into Hminutes. cbv zeta in Hr.
  gov_step Hr. rename Eg into Hcpu. gov_step Hr. rename Eg into Hmem. gov_step Hr. injection Hr as <-.
  apply orb_false_iff in Hsome as [[Hany%Nat.eqb_neq Hb%Nat.ltb_ge]%orb_false_iff Hp%Nat.ltb_ge].
  destruct (uniqueLines_spec (values_Get form "allowedCapabilityBundles")) as [Hnb _].
  destruct (uniqueLines_spec (values_Get form "allowedCapabilityBundlePrefixes")) as [Hnp _].
  apply existsb_false_Forall in Hbundles, Hprefixes. bool_to_prop.
  eexists form, _, answer. split; [done|]. split.
  { eapply admin_posted_intro; [|done|done|exact Hadmin|]; set_solver. }
  split; [by apply invalid_false|]. constructor; cbn.
  - split_and!; [done|done|]. eapply Forall_impl; [exact Hbundles|]. intros b. by rewrite invalid_false.
  - split_and!; [done|done|]. eapply Forall_impl; [exact Hprefixes|]. unfold invalid_bundle_prefix. intros p Hx.
    bool_to_prop. split; [done|by apply invalid_false].
  - intros [E1 E2]%app_eq_nil. by rewrite E1, E2 in Hany.
  - by eapply boundedInt32_range.
  - by eapply boundedInt32_range.
  - by eapply access_minutes, boundedInt32_range.
  - by apply nonpositive_quantity_false.
  - by apply nonpositive_quantity_false.
Qed.

(** ** Theorems *)

Lemma bundle_creation_guarded g r : guarded is_write (creates_bundle g r) (createCapabilityBundle g r).
Proof.
  apply (checked_create_guarded Bundles g _ (fun b => redirectWithMessage g "/admin" _));
    [apply prepareCapabilityBundle_quiet|]. intros. by apply prepareCapabilityBundle_ok.
Qed.

(** A capability bundle is created only in a tenant of the administrator's sole binding, through
    the dashboard's own form; its egress rules are exactly the listed targets, its command rules
    exactly the listed commands, and its validation rules run only those. *)
Theorem bundle_creation_sound g r : guarded is_write (creates_bundle g r) (createCapabilityBundle g r).
Proof. apply bundle_creation_guarded. Qed.

Lemma policy_creation_guarded g r : guarded is_write (creates_policy g r) (createTenantPolicy g r).
Proof.
  apply (checked_create_guarded TenantPolicies g _ (fun b => redirectWithMessage g "/admin" _));
    [apply prepareTenantPolicy_quiet|]. intros. by apply prepareTenantPolicy_ok.
Qed.

(** A tenant policy is created only in a tenant of the administrator's sole binding and with
    budgets in their ranges; its access budget is a duration that a request can have. *)
Theorem policy_creation_sound g r : guarded is_write (creates_policy g r) (createTenantPolicy g r).
Proof. apply policy_creation_guarded. Qed.

Lemma template_creation_sound g r : guarded is_write (creates_template g r) (createSandboxTemplate g r).
Proof.
  apply (checked_create_guarded Templates g _ (fun b => redirectWithMessage g "/admin" _));
    [apply prepareSandboxTemplate_quiet|]. intros. by apply prepareSandboxTemplate_ok.
Qed.

End admin_proofs.

Section template_resolution.
Context `{UnicodeTables} `{K8sValidation} `{K8sLabelValidation} `{QuoteLib}
        `{Quantities} `{Sha256}.

(** A template resolves once its bundle has the pinned revision. *)
Lemma resolves ns name stored bundle revision :
  u_malformed stored = [] -> om_deleting (st_meta (u_obj stored)) = false -> sts_Enabled (st_Spec (u_obj stored)) = true ->
  sts_TimeoutSeconds (st_Spec (u_obj stored)) <= max_int64 ->
  om_deleting (cb_meta (u_obj bundle)) = false -> path_malformed bundle ["spec"] = false -> bundle_tenant bundle <> "" ->
  PolicyRevision (Some (cb_Spec (u_obj bundle))) =
    Ok (cbr_PolicyRevision (sts_CapabilityBundleRef (st_Spec (u_obj stored)))) ->
  PolicyRevision (Some (st_Spec (u_obj stored))) = Ok revision ->
  exists resolved,
    run (KubernetesTemplateResolver_Resolve ns name)
      [Ev (Get Templates ns name) (Ok stored);
       Ev (Get Bundles ns (cbr_Name (sts_CapabilityBundleRef (st_Spec (u_obj stored))))) (Ok bundle)] (Ok resolved) /\
    rt_Image resolved = sts_Image (st_Spec (u_obj stored)) /\
    rt_TimeoutSeconds resolved = sts_TimeoutSeconds (st_Spec (u_obj stored)) /\
    rt_Revision resolved = revision /\ rt_LogicalTenant resolved = bundle_tenant bundle.
Proof.
  intros Hm Hd He Ht Hb Hs Hn Hr Hrev. apply seqb_neq in Hn.
  assert (exists resolved, resolve_template_bundle stored (u_obj stored) bundle = Ok resolved /\
    rt_Image resolved = sts_Image (st_Spec (u_obj stored)) /\
    rt_TimeoutSeconds resolved = sts_TimeoutSeconds (st_Spec (u_obj stored)) /\
    rt_Revision resolved = revision /\ rt_LogicalTenant resolved = bundle_tenant bundle)
    as (resolved & Hres & Hrest).
  { unfold resolve_template_bundle, nested. rewrite Hb, Hs, Hr, seqb_refl. cbn [negb].
    unfold path_malformed. rewrite Hm. cbn [existsb]. rewrite Hrev, Hn. by eexists. }
  exists resolved. split; [|done]. cbn. eexists (Ok stored), _. split; [done|]. cbn. rewrite Hd.
  unfold FromUnstructured. rewrite Hm, He. cbn [negb].
  assert ((max_int64 <? sts_TimeoutSeconds (st_Spec (u_obj stored))) = false) as -> by (apply Z.ltb_ge; lia).
  cbn. exists (Ok bundle), []. by rewrite Hres.
Qed.


End template_resolution.
