(* ===== verification/DashboardPages.v ===== *)
(** * The dashboard's pages

    The read side of [cmd/aks-sandbox-dashboard/governance.go], [templates.go] and [tenants.go]:
    the tenant each object belongs to, the rows of each table, the access page, the
    administration page and the policy simulation.  A page is the data its HTML template is
    executed with.  [slices.SortFunc] leaves the order of equal keys open; the model takes one. *)

From stdpp Require Import pretty sorting.
From S2P Require Import Prelude GoStrings GoEncoding GoTime ApiTypes ApiJson DashboardTypes Kube Governance Principals Admission.
From S2P Require Import DashboardAuth DashboardConfig DashboardCore AccessRequests AuthzServer Checker BoundaryRules.
From stdpp Require Import options.

(** ** Rows *)

Record assignmentPageRow := {
  apr_Name : string; apr_UID : string; apr_SandboxID : string; apr_Pod : string; apr_Bundle : string;
  apr_Boundary : string; apr_LogicalTenant : string; apr_Team : string; apr_Permission : string; apr_Ready : string
}.
Record bundlePageRow := {
  bpr_Name : string; bpr_UID : string; bpr_Boundary : string; bpr_LogicalTenant : string; bpr_Team : string;
  bpr_Permission : string; bpr_Egress : string; bpr_Commands : string
}.
Record eventPageRow := {
  epr_Name : string; epr_Timestamp : string; epr_Assignment : string; epr_SandboxID : string; epr_Bundle : string;
  epr_Boundary : string; epr_Permission : string; epr_Backend : string; epr_Method : string; epr_Host : string;
  epr_Path : string; epr_Allowed : string; epr_Source : string; epr_AccessRequest : string; epr_Reason : string
}.
Record requestPageRow := {
  rpr_Name : string; rpr_State : string; rpr_Assignment : string; rpr_Requester : string;
  rpr_RequestedDuration : string; rpr_Target : string; rpr_Reason : string; rpr_Approver : string;
  rpr_DecisionReason : string; rpr_ApprovedAt : string; rpr_ExpiresAt : string; rpr_ApproveAction : string;
  rpr_DenyAction : string; rpr_RequestedMinutes : Z
}.
Record credentialPageRow := {
  cpr_Timestamp : string; cpr_Action : string; cpr_GrantID : string; cpr_TaskID : string; cpr_SandboxID : string;
  cpr_Assignment : string; cpr_Target : string; cpr_ExpiresAt : string
}.
Record validationPageRow := {
  vpr_Name : string; vpr_State : string; vpr_TaskID : string; vpr_Repository : string; vpr_Revision : string;
  vpr_SandboxID : string; vpr_Assignment : string; vpr_Template : string; vpr_Commands : string;
  vpr_Results : string; vpr_CleanedUp : string; vpr_Message : string
}.
Record tenantPolicyPageRow := {
  ppr_Name : string; ppr_LogicalTenant : string; ppr_WorkloadNamespace : string; ppr_Bundles : string;
  ppr_Concurrent : string; ppr_Lifetime : string; ppr_Access : string; ppr_CPU : string; ppr_Memory : string;
  ppr_Enabled : string
}.
Record templatePageRow := {
  tpr_Name : string; tpr_DisplayName : string; tpr_Description : string; tpr_Image : string;
  tpr_Entrypoint : string; tpr_CapabilityBundle : string; tpr_CPU : string; tpr_Memory : string;
  tpr_Timeout : string; tpr_Enabled : string
}.

(** [URL.Query]: malformed parts are dropped. *)
Definition url_Query (rawQuery : string) : Values :=
  fold_left (fun v part =>
    if contains_byte ";" part || (part =?s "") then v else default v (parse_pair part v)) (split_byte "&" rawQuery) ∅.
Definition page_message (r : DashRequest) : string := values_Get (url_Query (hr_RawQuery r)) "message".

(** ** Lists of objects *)

(** The loops that decode every item of a list and keep those that [keep] accepts. *)
Fixpoint decode_kept {T} (keep : T -> bool) (items : list (Unstructured T)) : result (list T) :=
  match items with
  | [] => Ok []
  | item :: rest =>
      match FromUnstructured item with
      | Err e => Err e
      | Ok o => out <-! decode_kept keep rest ;; Ok (if keep o then o :: out else out)
      end
  end.

Definition name_le {A} (name : A -> string) (a b : A) : Prop := String.le (name a) (name b).
#[export] Instance name_le_dec {A} (name : A -> string) : RelDecision (name_le name).
Proof. intros a b. unfold name_le. apply _. Defined.

(** Newest first. *)
Definition newer {A} (time : A -> Time) (a b : A) : Prop := time b <= time a.
#[export] Instance newer_dec {A} (time : A -> Time) : RelDecision (newer time).
Proof. intros a b. unfold newer. apply _. Defined.

Definition newest {A} (limit : nat) (time : A -> Time) (l : list A) : list A := take limit (merge_sort (newer time) l).

(** [result[object.Name] = object] for every item in order. *)
Definition by_name {T} (name : T -> string) (objects : list T) : gmap string T :=
  fold_left (fun m o => <[name o := o]> m) objects ∅.

Section pages.
Context (g : governanceDashboard).

Definition assignmentMap : KProg (result (gmap string SandboxAssignment)) :=
  items <-? call (List Assignments (gd_namespace g) list_all) ;;
  Ret (objects <-! decode_kept (fun _ => true) items ;; Ok (by_name (fun o => om_Name (sa_meta o)) objects)).

Definition bundleMap : KProg (result (gmap string CapabilityBundle)) :=
  items <-? call (List Bundles (gd_namespace g) list_all) ;;
  Ret (objects <-! decode_kept (fun _ => true) items ;; Ok (by_name (fun o => om_Name (cb_meta o)) objects)).

End pages.

(** ** The tenant of an object; [None] is a nil pointer *)

Definition bundleLogicalTenant (bundle : option CapabilityBundle) : string :=
  match bundle ≫= (fun b => cbs_Governance (cb_Spec b)) with
  | Some boundary => TrimSpace (gb_LogicalTenant boundary)
  | None => ""
  end.

Definition assignmentLogicalTenant (bundles : gmap string CapabilityBundle) (assignment : option SandboxAssignment)
  : string :=
  match assignment with
  | None => ""
  | Some a =>
      let logicalTenant := TrimSpace (as_LogicalTenant (sa_Spec a)) in
      if logicalTenant <>?s "" then logicalTenant
      else bundleLogicalTenant (bundles !! cbr_Name (as_CapabilityBundleRef (sa_Spec a)))
  end.

Section tenants.
Context (assignments : gmap string SandboxAssignment) (bundles : gmap string CapabilityBundle).

Definition requestLogicalTenant (request : SandboxAccessRequest) : string :=
  let logicalTenant := TrimSpace (gi_LogicalTenant (rs_Requester (req_Spec request))) in
  if logicalTenant <>?s "" then logicalTenant
  else assignmentLogicalTenant bundles (assignments !! ar_Name (rs_AssignmentRef (req_Spec request))).

Definition credentialEventLogicalTenant (event : SandboxCredentialEvent) : string :=
  let logicalTenant := assignmentLogicalTenant bundles (assignments !! ar_Name (ce_AssignmentRef (cev_Spec event))) in
  if logicalTenant <>?s "" then logicalTenant
  else bundleLogicalTenant (bundles !! ce_CapabilityBundleName (cev_Spec event)).

Definition validationRunLogicalTenant (r : SandboxValidationRun) : string :=
  let logicalTenant := assignmentLogicalTenant bundles (assignments !! ar_Name (vrs_AssignmentRef (vrun_Spec r))) in
  if logicalTenant <>?s "" then logicalTenant
  else bundleLogicalTenant (bundles !! vrs_CapabilityBundleName (vrun_Spec r)).

End tenants.

(** ** Tables *)

Definition assignmentReady (value : SandboxAssignment) : string :=
  match List.find (fun c => c_Type c =?s "Ready") (ss_Conditions (sa_Status value)) with
  | Some condition => c_Status condition
  | None => "Unknown"
  end.

Definition identityDisplay (who : GovernanceIdentity) : string :=
  gi_DisplayName who +:+ " (" +:+ gi_TenantID who +:+ "/" +:+ gi_ObjectID who +:+ ")".

Definition assignment_row (bundles : gmap string CapabilityBundle) (o : SandboxAssignment) : assignmentPageRow :=
  let boundary := (bundles !! cbr_Name (as_CapabilityBundleRef (sa_Spec o))) ≫= (fun b => cbs_Governance (cb_Spec b)) in
  {| apr_Name := om_Name (sa_meta o); apr_UID := om_UID (sa_meta o);
     apr_SandboxID := map_get (om_Annotations (sa_meta o)) SandboxIDAnnotation;
     apr_Pod := default "" (ref_Name <$> ss_PodRef (sa_Status o));
     apr_Bundle := cbr_Name (as_CapabilityBundleRef (sa_Spec o));
     apr_Boundary := default "" (gb_DisplayName <$> boundary);
     apr_LogicalTenant := assignmentLogicalTenant bundles (Some o);
     apr_Team := default "" (gb_Team <$> boundary); apr_Permission := default "" (gb_PermissionLevel <$> boundary);
     apr_Ready := assignmentReady o |}.

Definition bundle_row (b : CapabilityBundle) : bundlePageRow :=
  let boundary := cbs_Governance (cb_Spec b) in
  {| bpr_Name := om_Name (cb_meta b); bpr_UID := om_UID (cb_meta b);
     bpr_Boundary := default "" (gb_DisplayName <$> boundary);
     bpr_LogicalTenant := default "" (gb_LogicalTenant <$> boundary);
     bpr_Team := default "" (gb_Team <$> boundary); bpr_Permission := default "" (gb_PermissionLevel <$> boundary);
     bpr_Egress := match cbs_Egress (cb_Spec b) with
       | Some egress => strings_Join (merge_sort String.le
           ((fun '(backend, policy) => backend +:+ ": " +:+ abp_Allow policy) <$> map_to_list (ep_Agentgateway egress))) "; "
       | None => ""
       end;
     bpr_Commands := match cbs_Harness (cb_Spec b) with
       | Some harness => pretty (length (hp_CommandPolicy harness)) +:+ " allowed pattern(s)"
       | None => ""
       end |}.

Definition event_row (event : SandboxEgressEvent) : eventPageRow :=
  let e := ev_Spec event in
  {| epr_Name := om_Name (ev_meta event); epr_Timestamp := format_RFC3339 (ee_Timestamp e);
     epr_Assignment := ar_Name (ee_AssignmentRef e); epr_SandboxID := ee_SandboxID e;
     epr_Bundle := ee_CapabilityBundleName e; epr_Boundary := ee_BoundaryDisplayName e;
     epr_Permission := ee_PermissionLevel e; epr_Backend := ee_Backend e; epr_Method := ee_Method e;
     epr_Host := ee_Host e; epr_Path := ee_Path e; epr_Allowed := FormatBool (ee_Allowed e);
     epr_Source := ee_DecisionSource e; epr_AccessRequest := ee_AccessRequestName e; epr_Reason := ee_Reason e |}.

Definition request_row (g : governanceDashboard) (request : SandboxAccessRequest) : requestPageRow :=
  let s := req_Spec request in
  let action (verb : string) := gd_basePath g +:+ "/admin/requests/" +:+ om_Name (req_meta request) +:+ "/" +:+ verb in
  {| rpr_Name := om_Name (req_meta request); rpr_State := requestState (req_Status request);
     rpr_Assignment := ar_Name (rs_AssignmentRef s); rpr_Requester := identityDisplay (rs_Requester s);
     rpr_RequestedDuration := Duration_String (dur_mul (rs_RequestedDurationSeconds s) Second);
     rpr_Target := rs_Method s +:+ " " +:+ rs_Backend s +:+ "://" +:+ rs_Host s +:+ rs_Path s;
     rpr_Reason := rs_Reason s;
     rpr_Approver := default "" (identityDisplay <$> rst_Approver (req_Status request));
     rpr_DecisionReason := rst_DecisionReason (req_Status request);
     rpr_ApprovedAt := default "" (format_RFC3339 <$> rst_ApprovedAt (req_Status request));
     rpr_ExpiresAt := default "" (format_RFC3339 <$> rst_ExpiresAt (req_Status request));
     rpr_ApproveAction := action "approve"; rpr_DenyAction := action "deny";
     rpr_RequestedMinutes := Z.quot (rs_RequestedDurationSeconds s) 60 |}.

Definition credential_row (event : SandboxCredentialEvent) : credentialPageRow :=
  let e := cev_Spec event in
  {| cpr_Timestamp := format_RFC3339 (ce_Timestamp e); cpr_Action := ce_Action e; cpr_GrantID := ce_GrantID e;
     cpr_TaskID := ce_TaskID e; cpr_SandboxID := ce_SandboxID e; cpr_Assignment := ar_Name (ce_AssignmentRef e);
     cpr_Target := ce_Method e +:+ " " +:+ ce_Backend e +:+ "://" +:+ ce_Host e +:+ ce_Path e;
     cpr_ExpiresAt := format_RFC3339 (ce_ExpiresAt e) |}.

Definition validation_row (r : SandboxValidationRun) : validationPageRow :=
  let s := vrun_Spec r in
  {| vpr_Name := om_Name (vrun_meta r); vpr_State := vst_State (vrun_Status r); vpr_TaskID := vrs_TaskID s;
     vpr_Repository := vrs_Repository s; vpr_Revision := vrs_SourceRevision s; vpr_SandboxID := vrs_SandboxID s;
     vpr_Assignment := ar_Name (vrs_AssignmentRef s); vpr_Template := vrs_TemplateName s;
     vpr_Commands := pretty (length (vrs_SelectedCommands s));
     vpr_Results := pretty (length (vst_Results (vrun_Status r)));
     vpr_CleanedUp := FormatBool (vst_CleanedUp (vrun_Status r)); vpr_Message := vst_Message (vrun_Status r) |}.

Definition policy_row (policy : SandboxTenantPolicy) : tenantPolicyPageRow :=
  let s := tp_Spec policy in
  {| ppr_Name := om_Name (tp_meta policy); ppr_LogicalTenant := tps_LogicalTenant s;
     ppr_WorkloadNamespace := tps_WorkloadNamespace s;
     ppr_Bundles := strings_Join (tps_AllowedCapabilityBundles s ++ tps_AllowedCapabilityBundlePrefixes s) ", ";
     ppr_Concurrent := pretty (tps_MaxConcurrentSandboxes s); ppr_Lifetime := pretty (tps_MaxLifetimeSeconds s) +:+ "s";
     ppr_Access := pretty (Z.quot (tps_MaxAccessRequestDurationSeconds s) 60) +:+ "m";
     ppr_CPU := tps_MaxCPU s; ppr_Memory := tps_MaxMemory s; ppr_Enabled := FormatBool (tps_Enabled s) |}.

(** The template's fields, each read from the unstructured object. *)
Definition template_bundle (item : Unstructured SandboxTemplate) : string :=
  nested_string item ["spec"; "capabilityBundleRef"; "name"]
    (Some (cbr_Name (sts_CapabilityBundleRef (st_Spec (u_obj item))))).

Definition template_row (item : Unstructured SandboxTemplate) : templatePageRow :=
  let s := st_Spec (u_obj item) in
  let field (path : list string) (value : string) := nested_string item ("spec" :: path) (Some value) in
  {| tpr_Name := om_Name (st_meta (u_obj item)); tpr_DisplayName := field ["displayName"] (sts_DisplayName s);
     tpr_Description := field ["description"] (sts_Description s); tpr_Image := field ["image"] (sts_Image s);
     tpr_Entrypoint := strings_Join (match nested item ["spec"; "entrypoint"] (Some (sts_Entrypoint s)) with
                                     | Ok (Some values) => values | _ => [] end) " ";
     tpr_CapabilityBundle := template_bundle item;
     tpr_CPU := field ["resources"; "cpu"] (str_CPU (sts_Resources s));
     tpr_Memory := field ["resources"; "memory"] (str_Memory (sts_Resources s));
     tpr_Timeout := Duration_String (dur_mul (match nested item ["spec"; "timeoutSeconds"] (Some (sts_TimeoutSeconds s)) with
                                              | Ok (Some seconds) => seconds | _ => 0 end) Second);
     tpr_Enabled := FormatBool (match nested item ["spec"; "enabled"] (Some (sts_Enabled s)) with
                                | Ok (Some enabled) => enabled | _ => false end) |}.

Definition pageLimit : nat := 100.

Section tables.
Context (g : governanceDashboard).

(** The two maps by which the tenant of an object is found; they stay nil without a scope. *)
Definition tenant_maps (tenants : TenantSet)
  : KProg (result (gmap string SandboxAssignment * gmap string CapabilityBundle)) :=
  match tenants with
  | None => Ret (Ok (∅, ∅))
  | Some _ => assignments <-? assignmentMap g ;; bundles <-? bundleMap g ;; Ret (Ok (assignments, bundles))
  end.

Definition assignmentRows (tenants : TenantSet) : KProg (result (list assignmentPageRow)) :=
  items <-? call (List Assignments (gd_namespace g) list_all) ;;
  bundles <-? bundleMap g ;;
  Ret (objects <-! decode_kept (fun o => tenantAllowed tenants (assignmentLogicalTenant bundles (Some o))) items ;;
       Ok (merge_sort (name_le apr_Name) (assignment_row bundles <$> objects))).

Definition bundleRows (tenants : TenantSet) : KProg (result (list bundlePageRow)) :=
  bundles <-? bundleMap g ;;
  let kept := List.filter (fun b => tenantAllowed tenants (bundleLogicalTenant (Some b))) (map_to_list bundles).*2 in
  Ret (Ok (merge_sort (name_le bpr_Name) (bundle_row <$> kept))).

Definition eventRows (deniedOnly : bool) (tenants : TenantSet) : KProg (result (list eventPageRow)) :=
  items <-? call (List EgressEvents (gd_namespace g) list_all) ;;
  Ret (events <-! decode_kept (fun event =>
         negb (deniedOnly && (ee_Allowed (ev_Spec event) || (ee_DecisionSource (ev_Spec event) <>?s DecisionSourceDeny)))
         && tenantAllowed tenants (ee_LogicalTenant (ev_Spec event))) items ;;
       Ok (event_row <$> newest pageLimit (fun event => ee_Timestamp (ev_Spec event)) events)).

Definition requestRows (tenants : TenantSet) : KProg (result (list requestPageRow)) :=
  items <-? call (List AccessRequests (gd_namespace g) list_all) ;;
  maps <-? tenant_maps tenants ;;
  let '(assignments, bundles) := maps in
  Ret (requests <-! decode_kept (fun _ => true) items ;;
       let sorted := merge_sort (newer (fun request => om_CreationTimestamp (req_meta request))) requests in
       Ok (request_row g <$>
           List.filter (fun request => tenantAllowed tenants (requestLogicalTenant assignments bundles request)) sorted)).

Definition credentialRows (tenants : TenantSet) : KProg (result (list credentialPageRow)) :=
  items <-? call (List CredentialEvents (gd_namespace g) list_all) ;;
  maps <-? tenant_maps tenants ;;
  let '(assignments, bundles) := maps in
  Ret (events <-! decode_kept (fun event =>
         tenantAllowed tenants (credentialEventLogicalTenant assignments bundles event)) items ;;
       Ok (credential_row <$> newest pageLimit (fun event => ce_Timestamp (cev_Spec event)) events)).

Definition validationRows (tenants : TenantSet) : KProg (result (list validationPageRow)) :=
  items <-? call (List ValidationRuns (gd_namespace g) list_all) ;;
  maps <-? tenant_maps tenants ;;
  let '(assignments, bundles) := maps in
  Ret (runs <-! decode_kept (fun r => tenantAllowed tenants (validationRunLogicalTenant assignments bundles r)) items ;;
       Ok (validation_row <$> newest pageLimit (fun r => vrs_StartedAt (vrun_Spec r)) runs)).

Definition tenantPolicyRows (tenants : TenantSet) : KProg (result (list tenantPolicyPageRow)) :=
  items <-? call (List TenantPolicies (gd_namespace g) list_all) ;;
  Ret (policies <-! decode_kept (fun policy => tenantAllowed tenants (tps_LogicalTenant (tp_Spec policy))) items ;;
       Ok (merge_sort (name_le ppr_Name) (policy_row <$> policies))).

Definition templateRows (tenants : TenantSet) : KProg (result (list templatePageRow)) :=
  items <-? call (List Templates (gd_namespace g) list_all) ;;
  bundles <-? (match tenants with None => Ret (Ok ∅) | Some _ => bundleMap g end) ;;
  Ret (Ok (template_row <$>
    List.filter (fun item => tenantAllowed tenants (bundleLogicalTenant (bundles !! template_bundle item))) items)).

(** ** Pages *)

Record accessPageData := {
  acp_BasePath : string; acp_IdentityName : string; acp_CSRFToken : string; acp_Message : string; acp_IsAdmin : bool;
  acp_Assignments : list assignmentPageRow; acp_DeniedEvents : list eventPageRow
}.

Record adminPageData := {
  adp_BasePath : string; adp_IdentityName : string; adp_CSRFToken : string; adp_Message : string;
  adp_Templates : list templatePageRow; adp_Requests : list requestPageRow;
  adp_Assignments : list assignmentPageRow; adp_Bundles : list bundlePageRow; adp_Events : list eventPageRow;
  adp_Credentials : list credentialPageRow; adp_Validations : list validationPageRow;
  adp_TenantPolicies : list tenantPolicyPageRow
}.

Record policySimulationPageData := {
  psp_BasePath : string; psp_IdentityName : string; psp_DeniedEvents : Z; psp_NewlyAllowed : Z;
  psp_AffectedTenants : string; psp_AffectedTeams : string; psp_Matches : list PolicyImpactMatch
}.

Definition accessPage (r : DashRequest) : KProg (GovReply + accessPageData) :=
  match governanceRequestContext (hr_Context r) with
  | None => Ret (inl (GovError "Unauthorized" StatusUnauthorized))
  | Some (who, csrf) =>
      call_or (principalScopes g who) (fun _ => GovError "Forbidden" StatusForbidden) (fun scopes =>
      reply_if (Nat.eqb (len_tenants (requester scopes)) 0) "Forbidden" StatusForbidden (
      call_or (assignmentRows (requester scopes)) (fun _ => internalError) (fun assignments =>
      call_or (eventRows true (requester scopes)) (fun _ => internalError) (fun events =>
      Ret (inr {| acp_BasePath := gd_basePath g; acp_IdentityName := ai_Name who; acp_CSRFToken := csrf;
                  acp_Message := page_message r;
                  acp_IsAdmin := contains (gd_adminRole g) (ai_Roles who);
                  acp_Assignments := assignments; acp_DeniedEvents := events |})))))
  end.

Definition adminPage (r : DashRequest) : KProg (GovReply + adminPageData) :=
  match governanceRequestContext (hr_Context r) with
  | None => Ret (inl (GovError "Unauthorized" StatusUnauthorized))
  | Some (who, csrf) =>
      reply_if (negb (contains (gd_adminRole g) (ai_Roles who))) "Forbidden" StatusForbidden (
      call_or (principalScopes g who) (fun _ => GovError "Forbidden" StatusForbidden) (fun scopes =>
      let tenants := admin scopes in
      reply_if (Nat.eqb (len_tenants tenants) 0) "Forbidden" StatusForbidden (
      call_or (templateRows tenants) (fun _ => internalError) (fun templates =>
      call_or (requestRows tenants) (fun _ => internalError) (fun requests =>
      call_or (assignmentRows tenants) (fun _ => internalError) (fun assignments =>
      call_or (bundleRows tenants) (fun _ => internalError) (fun bundles =>
      call_or (eventRows false tenants) (fun _ => internalError) (fun events =>
      call_or (credentialRows tenants) (fun _ => internalError) (fun credentials =>
      call_or (validationRows tenants) (fun _ => internalError) (fun validations =>
      call_or (tenantPolicyRows tenants) (fun _ => internalError) (fun tenantPolicies =>
      Ret (inr {| adp_BasePath := gd_basePath g; adp_IdentityName := ai_Name who; adp_CSRFToken := csrf;
                  adp_Message := page_message r;
                  adp_Templates := templates; adp_Requests := requests; adp_Assignments := assignments;
                  adp_Bundles := bundles; adp_Events := events; adp_Credentials := credentials;
                  adp_Validations := validations; adp_TenantPolicies := tenantPolicies |}))))))))))))
  end.

End tables.

Section simulation.
Context `{UnicodeTables}.

Definition simulateCapabilityBundle (g : governanceDashboard) (r : DashRequest)
  : KProg (GovReply + policySimulationPageData) :=
  who <-| Ret (requireAdmin g (hr_Context r)) ;;
  form <-| Ret (parseMutation g r ["csrf"; "egressRules"]) ;;
  call_or (Ret (parseExactEgressTargets (values_Get form "egressRules")))
    (fun e => GovError ("Invalid candidate egress: " +:+ error_string e) StatusBadRequest) (fun targets =>
  call_or (call (List EgressEvents (gd_namespace g) list_all)) (fun _ => internalError) (fun items =>
  call_or (Ret (decode_kept (fun _ => true) items)) (fun _ => internalError) (fun events =>
  let impact := SimulatePolicyImpact events targets in
  Ret (inr {| psp_BasePath := gd_basePath g; psp_IdentityName := ai_Name who;
              psp_DeniedEvents := pi_DeniedEvents impact; psp_NewlyAllowed := pi_NewlyAllowed impact;
              psp_AffectedTenants := strings_Join (pi_AffectedTenants impact) ", ";
              psp_AffectedTeams := strings_Join (pi_AffectedTeams impact) ", ";
              psp_Matches := pi_Matches impact |})))).

End simulation.

(** ** What the tables show *)

Lemma decode_kept_ok {T} (keep : T -> bool) items out :
  decode_kept keep items = Ok out -> exists all, items = wf <$> all /\ out = List.filter keep all.
Proof.
  revert out. induction items as [|item rest IH]; intros out; cbn [decode_kept].
  { intros [= <-]. by exists []. }
  destruct (FromUnstructured item) as [o|] eqn:Ef; [|done]. apply FromUnstructured_Ok in Ef as ->.
  destruct (decode_kept keep rest) as [tail|]; [|done]. cbn [res_bind]. intros [= <-].
  destruct (IH tail eq_refl) as (all & -> & ->). exists (o :: all). cbn. by destruct (keep o).
Qed.

Lemma decode_kept_elem {T} (keep : T -> bool) items out o :
  decode_kept keep items = Ok out -> o ∈ out -> wf o ∈ items /\ keep o = true.
Proof.
  intros (all & -> & ->)%decode_kept_ok Hin%list_elem_of_In%filter_In. destruct Hin as [Hin%list_elem_of_In Hk].
  split; [by apply list_elem_of_fmap_2|done].
Qed.

Lemma elem_of_newest {A} limit (time : A -> Time) l x : x ∈ newest limit time l -> x ∈ l.
Proof.
  unfold newest. intros Hin. apply (elem_of_submseteq (take limit (merge_sort (newer time) l)) _ _ Hin).
  etrans; [apply sublist_submseteq, sublist_take|]. by rewrite merge_sort_Permutation.
Qed.

Lemma elem_of_sorted_fmap {A B} (R : relation B) `{!RelDecision R} (f : A -> B) l y :
  y ∈ merge_sort R (f <$> l) -> exists x, y = f x /\ x ∈ l.
Proof. rewrite merge_sort_Permutation. apply list_elem_of_fmap_1. Qed.

Lemma elem_of_filter_fmap {A B} (f : A -> B) (p : A -> bool) l y :
  y ∈ f <$> List.filter p l -> exists x, y = f x /\ x ∈ l /\ p x = true.
Proof.
  intros (x & -> & Hin)%list_elem_of_fmap_1. apply list_elem_of_In, filter_In in Hin as [? ?].
  exists x. by rewrite list_elem_of_In.
Qed.

(** Well-formed stored objects. *)
Definition stored {T} (l : list T) : list (Unstructured T) := wf <$> l.

Lemma by_name_elem {T} (name : T -> string) (objects : list T) k o : by_name name objects !! k = Some o -> o ∈ objects.
Proof.
  unfold by_name.
  assert (forall rest (m : gmap string T), (forall k o, m !! k = Some o -> o ∈ objects) -> rest ⊆ objects ->
    fold_left (fun m o => <[name o := o]> m) rest m !! k = Some o -> o ∈ objects) as Hgen.
  { induction rest as [|x rest IH]; intros m Hm Hsub Hl; cbn [fold_left] in Hl; [by eapply Hm|].
    eapply IH; [|set_solver|exact Hl]. intros k' o' [[_ <-]|[_ ?]]%lookup_insert_Some; [set_solver|by eapply Hm]. }
  apply Hgen; [|done]. intros k' o'. by rewrite lookup_empty.
Qed.

Section shown.
Context (g : governanceDashboard).

(** Every row is made from a listed object whose tenant is in scope. *)
Definition shown {X Row} (R : Resource X) (row_of : X -> Row) (tenant_of : X -> string) (tenants : gset string)
  (t : list KEvent) (rows : list Row) : Prop :=
  exists items, Ev (List R (gd_namespace g) list_all) (Ok items) ∈ t /\
    forall row, row ∈ rows -> exists item, item ∈ items /\ row = row_of item /\ tenant_of item ∈ tenants.

(** The maps were built from lists of the same page. *)
Definition bundles_listed (bundles : gmap string CapabilityBundle) (t : list KEvent) : Prop :=
  exists all : list CapabilityBundle, Ev (List Bundles (gd_namespace g) list_all) (Ok (stored all)) ∈ t /\
    bundles = by_name (fun o => om_Name (cb_meta o)) all.
Definition assignments_listed (assignments : gmap string SandboxAssignment) (t : list KEvent) : Prop :=
  exists all : list SandboxAssignment, Ev (List Assignments (gd_namespace g) list_all) (Ok (stored all)) ∈ t /\
    assignments = by_name (fun o => om_Name (sa_meta o)) all.

Lemma shown_mono {X Row} (R : Resource X) (row_of : X -> Row) tenant_of tenants t t' rows :
  t ⊆ t' -> shown R row_of tenant_of tenants t rows -> shown R row_of tenant_of tenants t' rows.
Proof. intros Hs (items & Hin & Hr). exists items. split; [set_solver|done]. Qed.
Lemma bundles_listed_mono bundles t t' : t ⊆ t' -> bundles_listed bundles t -> bundles_listed bundles t'.
Proof. intros Hs (all & Hin & ->). exists all. split; [set_solver|done]. Qed.
Lemma assignments_listed_mono assignments t t' :
  t ⊆ t' -> assignments_listed assignments t -> assignments_listed assignments t'.
Proof. intros Hs (all & Hin & ->). exists all. split; [set_solver|done]. Qed.

(** The same for a table whose tenants are found through those maps. *)
Definition shown_by_bundles {X Row} (R : Resource X) (row_of : gmap string CapabilityBundle -> X -> Row)
  (tenant_of : gmap string CapabilityBundle -> X -> string) (tenants : gset string) (t : list KEvent) (rows : list Row)
  : Prop :=
  exists bundles, bundles_listed bundles t /\ shown R (row_of bundles) (tenant_of bundles) tenants t rows.
Definition shown_by_maps {X Row} (R : Resource X) (row_of : X -> Row)
  (tenant_of : gmap string SandboxAssignment -> gmap string CapabilityBundle -> X -> string) (tenants : gset string)
  (t : list KEvent) (rows : list Row) : Prop :=
  exists assignments bundles, assignments_listed assignments t /\ bundles_listed bundles t /\
    shown R row_of (tenant_of assignments bundles) tenants t rows.

Lemma shown_by_bundles_mono {X Row} (R : Resource X) (row_of : _ -> X -> Row) tenant_of tenants t t' rows :
  t ⊆ t' -> shown_by_bundles R row_of tenant_of tenants t rows -> shown_by_bundles R row_of tenant_of tenants t' rows.
Proof. intros Hs (b & Hb & Hr). exists b. split; [by eapply bundles_listed_mono|by eapply shown_mono]. Qed.
Lemma shown_by_maps_mono {X Row} (R : Resource X) (row_of : X -> Row) tenant_of tenants t t' rows :
  t ⊆ t' -> shown_by_maps R row_of tenant_of tenants t rows -> shown_by_maps R row_of tenant_of tenants t' rows.
Proof.
  intros Hs (a & b & Ha & Hb & Hr). exists a, b.
  split_and!; [by eapply assignments_listed_mono|by eapply bundles_listed_mono|by eapply shown_mono].
Qed.

Lemma decode_all_ok {T} (items : list (Unstructured T)) all :
  decode_kept (fun _ => true) items = Ok all -> items = stored all.
Proof.
  intros (all' & -> & ->)%decode_kept_ok. f_equal. induction all' as [|x l IH]; cbn; congruence.
Qed.

Lemma bundleMap_ok t bundles : run (bundleMap g) t (Ok bundles) -> bundles_listed bundles t.
Proof.
  unfold bundleMap. intros Hr. run_step Hr. destruct Hr as [-> Hr].
  destruct (decode_kept _ _) as [all|] eqn:Ed; [|done]. injection Hr as <-. apply decode_all_ok in Ed as ->.
  exists all. split; [set_solver|done].
Qed.

Lemma assignmentMap_ok t assignments : run (assignmentMap g) t (Ok assignments) -> assignments_listed assignments t.
Proof.
  unfold assignmentMap. intros Hr. run_step Hr. destruct Hr as [-> Hr].
  destruct (decode_kept _ _) as [all|] eqn:Ed; [|done]. injection Hr as <-. apply decode_all_ok in Ed as ->.
  exists all. split; [set_solver|done].
Qed.

Lemma tenant_maps_ok tenants t maps :
  run (tenant_maps g (Some tenants)) t (Ok maps) -> assignments_listed maps.1 t /\ bundles_listed maps.2 t.
Proof.
  cbn [tenant_maps]. intros Hr.
  apply run_try in Hr as [(e & _ & ?)|(a & t1 & t2 & -> & Ha%assignmentMap_ok & Hr)]; [done|].
  apply run_try in Hr as [(e & _ & ?)|(b & t3 & t4 & -> & Hb%bundleMap_ok & Hr)]; [done|].
  destruct Hr as [-> [= <-]]. split; [eapply assignments_listed_mono; [|done]|eapply bundles_listed_mono; [|done]]; set_solver.
Qed.

Context (tenants : gset string).
Let scope : TenantSet := Some tenants.

Lemma tenantAllowed_Some tenant : tenantAllowed scope tenant = true -> tenant ∈ tenants.
Proof. apply bool_decide_eq_true. Qed.

(** A table of the decoded objects of one list. *)
Lemma shown_decoded {T Row} (R : Resource (Unstructured T)) (row_of : T -> Row) (tenant_of : T -> string) keep items
  out rows t :
  Ev (List R (gd_namespace g) list_all) (Ok items) ∈ t -> decode_kept keep items = Ok out ->
  (forall row, row ∈ rows -> exists o, row = row_of o /\ o ∈ out /\ (keep o = true -> tenantAllowed scope (tenant_of o) = true)) ->
  shown R (fun u => row_of (u_obj u)) (fun u => tenant_of (u_obj u)) tenants t rows.
Proof.
  intros Hl Hd Hrows. exists items. split; [done|]. intros row (o & -> & Hin & Hk)%Hrows.
  destruct (decode_kept_elem _ _ _ _ Hd Hin) as [Hw Hkeep]. exists (wf o). split; [done|]. split; [done|].
  cbn. by apply tenantAllowed_Some, Hk.
Qed.

Lemma assignmentRows_shown t rows :
  run (assignmentRows g scope) t (Ok rows) ->
  shown_by_bundles Assignments (fun b u => assignment_row b (u_obj u))
    (fun b u => assignmentLogicalTenant b (Some (u_obj u))) tenants t rows.
Proof.
  unfold assignmentRows. intros Hr. run_step Hr.
  apply run_try in Hr as [(e & _ & ?)|(bundles & t1 & t2 & -> & Hb%bundleMap_ok & Hr)]; [done|]. destruct Hr as [-> Hr].
  destruct (decode_kept _ a) as [out|] eqn:Ed; [|done]. injection Hr as <-.
  exists bundles. split; [eapply bundles_listed_mono; [|done]; set_solver|].
  eapply (shown_decoded Assignments (assignment_row bundles) (fun o => assignmentLogicalTenant bundles (Some o))); [|done|]; [set_solver|]. intros row (o & -> & Hin)%elem_of_sorted_fmap. by exists o.
Qed.

Lemma eventRows_shown deniedOnly t rows :
  run (eventRows g deniedOnly scope) t (Ok rows) ->
  shown EgressEvents (fun u => event_row (u_obj u)) (fun u => ee_LogicalTenant (ev_Spec (u_obj u))) tenants t rows.
Proof.
  unfold eventRows. intros Hr. run_step Hr. destruct Hr as [-> Hr].
  destruct (decode_kept _ a) as [out|] eqn:Ed; [|done]. injection Hr as <-.
  eapply (shown_decoded EgressEvents event_row (fun o => ee_LogicalTenant (ev_Spec o))); [|done|]; [set_solver|]. intros row (o & -> & Hin%elem_of_newest)%list_elem_of_fmap_1.
  exists o. split_and!; [done..|]. intros Hk. by apply andb_true_iff in Hk as [_ ?].
Qed.

Lemma tenantPolicyRows_shown t rows :
  run (tenantPolicyRows g scope) t (Ok rows) ->
  shown TenantPolicies (fun u => policy_row (u_obj u)) (fun u => tps_LogicalTenant (tp_Spec (u_obj u))) tenants t rows.
Proof.
  unfold tenantPolicyRows. intros Hr. run_step Hr. destruct Hr as [-> Hr].
  destruct (decode_kept _ a) as [out|] eqn:Ed; [|done]. injection Hr as <-.
  eapply (shown_decoded TenantPolicies policy_row (fun o => tps_LogicalTenant (tp_Spec o))); [|done|]; [set_solver|]. intros row (o & -> & Hin)%elem_of_sorted_fmap. by exists o.
Qed.

(** The tables that look a tenant up through the assignment and the bundle of an object. *)
Lemma mapped_rows {T Row} (R : Resource (Unstructured T)) (rows_of : gmap string SandboxAssignment ->
    gmap string CapabilityBundle -> list (Unstructured T) -> result (list Row)) t rows :
  run (items <-? call (List R (gd_namespace g) list_all) ;;
       maps <-? tenant_maps g scope ;;
       let '(assignments, bundles) := maps in Ret (rows_of assignments bundles items)) t (Ok rows) ->
  exists assignments bundles items, assignments_listed assignments t /\ bundles_listed bundles t /\
    Ev (List R (gd_namespace g) list_all) (Ok items) ∈ t /\ rows_of assignments bundles items = Ok rows.
Proof.
  intros Hr. apply run_try in Hr as [(e & _ & ?)|(items & t0 & t5 & -> & ->%run_call & Hr)]; [done|].
  apply run_try in Hr as [(e & _ & ?)|([assignments bundles] & t1 & t2 & -> & [Ha Hb]%tenant_maps_ok & Hr)]; [done|].
  destruct Hr as [-> Hr]. exists assignments, bundles, items.
  split; [eapply assignments_listed_mono; [|exact Ha]; set_solver|].
  split; [eapply bundles_listed_mono; [|exact Hb]; set_solver|]. split; [set_solver|done].
Qed.

Lemma requestRows_shown t rows :
  run (requestRows g scope) t (Ok rows) ->
  shown_by_maps AccessRequests (fun u => request_row g (u_obj u)) (fun a b u => requestLogicalTenant a b (u_obj u)) tenants t rows.
Proof.
  intros (assignments & bundles & items & Ha & Hb & Hl & Hr)%mapped_rows.
  exists assignments, bundles. split; [done|]. split; [done|].
  destruct (decode_kept _ items) as [out|] eqn:Ed; [|done]. injection Hr as <-.
  eapply (shown_decoded AccessRequests (request_row g) (requestLogicalTenant assignments bundles)); [done|done|]. intros row (o & -> & Hin & Hk)%elem_of_filter_fmap. exists o.
  rewrite merge_sort_Permutation in Hin. done.
Qed.

Lemma credentialRows_shown t rows :
  run (credentialRows g scope) t (Ok rows) ->
  shown_by_maps CredentialEvents (fun u => credential_row (u_obj u)) (fun a b u => credentialEventLogicalTenant a b (u_obj u)) tenants t rows.
Proof.
  intros (assignments & bundles & items & Ha & Hb & Hl & Hr)%mapped_rows.
  exists assignments, bundles. split; [done|]. split; [done|].
  destruct (decode_kept _ items) as [out|] eqn:Ed; [|done]. injection Hr as <-.
  eapply (shown_decoded CredentialEvents credential_row (credentialEventLogicalTenant assignments bundles)); [done|done|]. intros row (o & -> & Hin%elem_of_newest)%list_elem_of_fmap_1. by exists o.
Qed.

Lemma validationRows_shown t rows :
  run (validationRows g scope) t (Ok rows) ->
  shown_by_maps ValidationRuns (fun u => validation_row (u_obj u)) (fun a b u => validationRunLogicalTenant a b (u_obj u)) tenants t rows.
Proof.
  intros (assignments & bundles & items & Ha & Hb & Hl & Hr)%mapped_rows.
  exists assignments, bundles. split; [done|]. split; [done|].
  destruct (decode_kept _ items) as [out|] eqn:Ed; [|done]. injection Hr as <-.
  eapply (shown_decoded ValidationRuns validation_row (validationRunLogicalTenant assignments bundles)); [done|done|]. intros row (o & -> & Hin%elem_of_newest)%list_elem_of_fmap_1. by exists o.
Qed.

Lemma templateRows_shown t rows :
  run (templateRows g scope) t (Ok rows) ->
  shown_by_bundles Templates (fun _ => template_row) (fun b item => bundleLogicalTenant (b !! template_bundle item))
    tenants t rows.
Proof.
  unfold templateRows. intros Hr. run_step Hr. cbv iota in Hr.
  apply run_try in Hr as [(e & _ & ?)|(bundles & t1 & t2 & -> & Hb%bundleMap_ok & Hr)]; [done|].
  destruct Hr as [-> [= <-]]. exists bundles. split; [eapply bundles_listed_mono; [|done]; set_solver|].
  exists a. split; [set_solver|]. intros row (o & -> & Hin & Hk)%elem_of_filter_fmap. exists o.
  split_and!; [done..|]. by apply tenantAllowed_Some.
Qed.

Lemma bundleRows_shown t rows :
  run (bundleRows g scope) t (Ok rows) ->
  shown Bundles (fun u => bundle_row (u_obj u)) (fun u => bundleLogicalTenant (Some (u_obj u))) tenants t rows.
Proof.
  unfold bundleRows. intros Hr.
  apply run_try in Hr as [(e & _ & ?)|(bundles & t1 & t2 & -> & (all & Hl & ->)%bundleMap_ok & Hr)]; [done|].
  destruct Hr as [-> [= <-]]. exists (stored all). split; [set_solver|].
  intros row (o & -> & Hin)%elem_of_sorted_fmap. apply list_elem_of_In, filter_In in Hin as [Hin Hk].
  apply list_elem_of_In, list_elem_of_fmap in Hin as ([k b] & -> & Hin%elem_of_map_to_list). cbn in *.
  exists (wf b). split; [|split; [done|by apply tenantAllowed_Some]].
  apply list_elem_of_fmap_2. by eapply by_name_elem.
Qed.

End shown.

(** A table that is cut off at [limit] rows keeps the newest. *)
Lemma newest_spec {A} limit (time : A -> Time) l :
  (length (newest limit time l) <= limit)%nat /\ Sorted (newer time) (newest limit time l) /\
  exists omitted, newest limit time l ++ omitted ≡ₚ l /\
    (omitted <> [] -> length (newest limit time l) = limit) /\
    forall x y, x ∈ newest limit time l -> y ∈ omitted -> time y <= time x.
Proof.
  set (sorted := merge_sort (newer time) l).
  assert (StronglySorted (newer time) (take limit sorted ++ drop limit sorted)) as Hs.
  { rewrite take_drop. apply Sorted_StronglySorted; [unfold newer; intros ???; lia|].
    apply Sorted_merge_sort. unfold Total, newer. intros. lia. }
  unfold newest. fold sorted. split_and!.
  - rewrite length_take. lia.
  - apply StronglySorted_Sorted, (StronglySorted_app_1_l _ _ _ Hs).
  - exists (drop limit sorted). rewrite take_drop. split_and!.
    + apply merge_sort_Permutation.
    + intros Hne. rewrite length_take. destruct (Nat.le_gt_cases limit (length sorted)); [lia|].
      by rewrite drop_ge in Hne by lia.
    + intros x y Hx Hy. by apply (StronglySorted_app_1_elem_of _ _ _ x y Hs).
Qed.

Lemma governanceRequestContext_ok ctx who csrf :
  governanceRequestContext ctx = Some (who, csrf) -> ctx_identity ctx = Some who.
Proof.
  unfold governanceRequestContext, authenticatedIdentityFromContext.
  destruct (ctx_identity ctx) as [i|]; [|done]. destruct (_ && _); [|done].
  destruct (csrfTokenFromContext ctx); [|done]. by intros [= <- _].
Qed.

(** ** Theorems *)

Section page_theorems.
Context (g : governanceDashboard).

(** C25. What the administration page shows.  It is shown to a signed-in administrator with exactly
    one active binding, and every row of its eight tables is made from an object of a tenant
    that this binding lists for administration. *)
Theorem admin_page_scoped r tr page :
  run (adminPage g r) tr (inr page) ->
  exists who items binding,
    ctx_identity (hr_Context r) = Some who /\ gd_adminRole g ∈ ai_Roles who /\
    Ev (List PrincipalBindings (gd_namespace g) list_all) (Ok items) ∈ tr /\ sole_binding who items binding /\
    let tenants := list_to_set (pbs_AdminTenants (pb_Spec binding)) in
    shown_by_bundles g Templates (fun _ => template_row)
      (fun b item => bundleLogicalTenant (b !! template_bundle item)) tenants tr (adp_Templates page) /\
    shown_by_maps g AccessRequests (fun u => request_row g (u_obj u))
      (fun a b u => requestLogicalTenant a b (u_obj u)) tenants tr (adp_Requests page) /\
    shown_by_bundles g Assignments (fun b u => assignment_row b (u_obj u))
      (fun b u => assignmentLogicalTenant b (Some (u_obj u))) tenants tr (adp_Assignments page) /\
    shown g Bundles (fun u => bundle_row (u_obj u))
      (fun u => bundleLogicalTenant (Some (u_obj u))) tenants tr (adp_Bundles page) /\
    shown g EgressEvents (fun u => event_row (u_obj u))
      (fun u => ee_LogicalTenant (ev_Spec (u_obj u))) tenants tr (adp_Events page) /\
    shown_by_maps g CredentialEvents (fun u => credential_row (u_obj u))
      (fun a b u => credentialEventLogicalTenant a b (u_obj u)) tenants tr (adp_Credentials page) /\
    shown_by_maps g ValidationRuns (fun u => validation_row (u_obj u))
      (fun a b u => validationRunLogicalTenant a b (u_obj u)) tenants tr (adp_Validations page) /\
    shown g TenantPolicies (fun u => policy_row (u_obj u))
      (fun u => tps_LogicalTenant (tp_Spec (u_obj u))) tenants tr (adp_TenantPolicies page).
Proof.
  unfold adminPage. intros Hr. destruct (governanceRequestContext _) as [[who csrf]|] eqn:Hid; [|by destruct Hr].
  apply governanceRequestContext_ok in Hid. gov_step Hr. rename Eg into Hrole. gov_step Hr. rename a into scopes.
  apply loadPrincipalScopes_ok in Hc as (items & binding & -> & Hb & ->). cbn [admin binding_scopes] in Hr.
  gov_step Hr. gov_step Hr. apply templateRows_shown in Hc. gov_step Hr. apply requestRows_shown in Hc0.
  gov_step Hr. apply assignmentRows_shown in Hc1. gov_step Hr. apply bundleRows_shown in Hc2.
  gov_step Hr. apply eventRows_shown in Hc3. gov_step Hr. apply credentialRows_shown in Hc4.
  gov_step Hr. apply validationRows_shown in Hc5. gov_step Hr. apply tenantPolicyRows_shown in Hc6.
  gov_step Hr. injection Hr as <-. bool_to_prop. exists who, items, binding. cbv zeta.
  split_and!; try done; [set_solver|..]; cbn;
    first [eapply shown_by_maps_mono; [|eassumption]|eapply shown_by_bundles_mono; [|eassumption]
          |eapply shown_mono; [|eassumption]]; set_solver.
Qed.

(** What the access page shows: assignments and denied events of the tenants that the requester's
    only active binding lists. *)
Theorem access_page_scoped r tr page :
  run (accessPage g r) tr (inr page) ->
  exists who items binding,
    ctx_identity (hr_Context r) = Some who /\
    Ev (List PrincipalBindings (gd_namespace g) list_all) (Ok items) ∈ tr /\ sole_binding who items binding /\
    let tenants := list_to_set (pbs_RequesterTenants (pb_Spec binding)) in
    shown_by_bundles g Assignments (fun b u => assignment_row b (u_obj u))
      (fun b u => assignmentLogicalTenant b (Some (u_obj u))) tenants tr (acp_Assignments page) /\
    shown g EgressEvents (fun u => event_row (u_obj u))
      (fun u => ee_LogicalTenant (ev_Spec (u_obj u))) tenants tr (acp_DeniedEvents page).
Proof.
  unfold accessPage. intros Hr. destruct (governanceRequestContext _) as [[who csrf]|] eqn:Hid; [|by destruct Hr].
  apply governanceRequestContext_ok in Hid. gov_step Hr. rename a into scopes.
  apply loadPrincipalScopes_ok in Hc as (items & binding & -> & Hb & ->). cbn [requester binding_scopes] in Hr.
  gov_step Hr. gov_step Hr. apply assignmentRows_shown in Hc. gov_step Hr. apply eventRows_shown in Hc0.
  gov_step Hr. injection Hr as <-. exists who, items, binding. cbv zeta.
  split_and!; try done; [set_solver|..]; cbn;
    first [eapply shown_by_bundles_mono; [|eassumption]|eapply shown_mono; [|eassumption]]; set_solver.
Qed.

(** The event table shows the newest events: at most 100 rows, newest first, made from the events
    in scope (the denied ones where only those are asked for), and every such event that is
    left out is no newer than any that is shown, and only left out of a full table. *)
Theorem event_rows_newest deniedOnly tenants tr rows :
  run (eventRows g deniedOnly tenants) tr (Ok rows) ->
  exists all shown_events omitted,
    let time event := ee_Timestamp (ev_Spec event) in
    tr = [Ev (List EgressEvents (gd_namespace g) list_all) (Ok (stored all))] /\
    rows = event_row <$> shown_events /\ (length rows <= 100)%nat /\ Sorted (newer time) shown_events /\
    shown_events ++ omitted ≡ₚ
      List.filter (fun event => (negb deniedOnly || event_denied event) && tenantAllowed tenants (ee_LogicalTenant (ev_Spec event))) all /\
    (omitted <> [] -> length rows = 100%nat) /\
    forall x y, x ∈ shown_events -> y ∈ omitted -> time y <= time x.
Proof.
  unfold eventRows. intros Hr. run_step Hr. destruct Hr as [-> Hr].
  destruct (decode_kept _ a) as [out|] eqn:Ed; [|done]. injection Hr as <-.
  apply decode_kept_ok in Ed as (all & -> & ->).
  set (kept := List.filter _ all). destruct (newest_spec pageLimit (fun event => ee_Timestamp (ev_Spec event)) kept)
    as (Hlen & Hs & omitted & Hp & Hfull & Hold).
  exists all, (newest pageLimit (fun event => ee_Timestamp (ev_Spec event)) kept), omitted. cbv zeta.
  rewrite length_fmap. split_and!; try done.
  rewrite Hp. subst kept. apply eq_subrelation; [apply _|]. apply List.filter_ext. intros event. unfold event_denied.
  by destruct deniedOnly, (ee_Allowed _ || _).
Qed.

End page_theorems.

Section simulation_theorems.
Context `{UnicodeTables}.

(** The policy simulation is not scoped to the administrator's tenants: no binding is read, and
    the page lists every recorded denial that a candidate target covers, of any tenant. *)
Theorem simulation_unscoped g r tr page :
  run (simulateCapabilityBundle g r) tr (inr page) ->
  exists all form targets,
    tr = [Ev (List EgressEvents (gd_namespace g) list_all) (Ok (stored all))] /\
    mutation_ok g r ["csrf"; "egressRules"] form /\
    parseExactEgressTargets (values_Get form "egressRules") = Ok targets /\
    forall event, event ∈ all -> event_denied event = true -> event_target event ∈ targets ->
      event_match event ∈ psp_Matches page.
Proof.
  unfold simulateCapabilityBundle. intros Hr. gov_step Hr. gov_step Hr. rename a0 into form.
  gov_step Hr. rename a0 into targets. gov_step Hr. gov_step Hr. rename a1 into all. cbv zeta in Hr.
  gov_step Hr. injection Hr as <-. apply decode_all_ok in Hc2 as ->.
  exists all, form, targets. split; [done|]. split; [apply parseMutation_ok; [set_solver|done]|]. split; [done|].
  intros event Hin Hd Ht. cbn [psp_Matches]. unfold SimulatePolicyImpact. rewrite simulate_loop_spec.
  cbn zeta. cbn [pi_Matches app]. rewrite merge_sort_Permutation. apply list_elem_of_fmap_2, list_elem_of_In, filter_In.
  split; [by apply list_elem_of_In|]. unfold newly_allowed. rewrite Hd. by apply contains_true.
Qed.

End simulation_theorems.
