(* ===== verification/DashboardMain.v ===== *)
(** * The dashboard's request path

    How [cmd/aks-sandbox-dashboard/main.go] puts the parts together:
    [auth.Middleware(requesterAuthorizer.Middleware(app.Handler()))], where [app] is the embedded
    dashboard with the routes of the authenticator and of the governance backend registered below
    its base path.  The interface [dashboardAuthenticator] of [dev_auth.go] has two
    implementations: sign-in with Entra tokens, and the fixed development identity.  What the
    embedded dashboard serves itself is library code; it uses the wrapped client of
    [RequesterAuthz].  As in [http.ServeMux], a GET pattern also serves HEAD.

    [dashboard_write_authenticated] follows a request through the whole chain to a write. *)

From S2P Require Import Prelude GoStrings GoEncoding GoTime ApiTypes ApiJson DashboardTypes Kube Governance Principals Admission.
From S2P Require Import AuthzServer Checker Facade TokenValidation DashboardAuth DashboardConfig DashboardCore AccessRequests.
From S2P Require Import RequesterAuthz BoundaryRules DashboardAdmin DashboardPages.
From stdpp Require Import options.

(** ** Construction *)

Definition newMISETokenValidator (cfg : config) : miseTokenValidator := {|
  mise_endpoint := cf_miseURL cfg; mise_policy := cf_misePolicy cfg; mise_tenantID := cf_tenantID cfg;
  mise_requiredScope := cf_requiredScope cfg; mise_requiredRole := cf_requiredRole cfg |}.

Definition newDashboardAuth (cfg : config) : dashboardAuth := {|
  da_basePath := cf_basePath cfg; da_cookieSecure := cf_cookieSecure cfg; da_sessionLifetime := cf_sessionLifetime cfg;
  da_tenantID := cf_tenantID cfg; da_clientID := cf_clientID cfg; da_scope := cf_scope cfg;
  da_redirectURI := cf_redirectURI cfg |}.

(** ** Authenticators *)

Record dashboardAuthenticator := {
  authenticator_Middleware : DashRequest -> KProg (AuthReply + DashRequest);
  authenticator_RegisterRoutes : string -> string -> option (DashRequest -> KProg AuthReply)
}.

(** The methods that a GET pattern serves. *)
Definition served_by_get (method : string) : bool := (method =?s "GET") || (method =?s "HEAD").

Section authenticators.
Context `{UnicodeTables}.

Definition session_RegisterRoutes (v : miseTokenValidator) (a : dashboardAuth) (method path : string)
  : option (DashRequest -> KProg AuthReply) :=
  if served_by_get method then
    if path =?s "/login" then Some (loginPage a)
    else if path =?s "/auth/login" then Some (fun _ => Ret (startLoginPage a))
    else if HasPrefix path "/auth/redirect/" then Some (fun _ => Ret (callbackPage a))
    else if path =?s "/auth/config" then Some (fun _ => Ret (authConfig a))
    else if path =?s "/auth/pkce.js" then Some (fun _ => Ret pkceScript)
    else None
  else if method =?s "POST" then
    if path =?s "/auth/session" then Some (createSession (H0 := mise_validator v) a)
    else if path =?s "/auth/logout" then Some (logout a)
    else None
  else None.

Definition session_authenticator (v : miseTokenValidator) (a : dashboardAuth) : dashboardAuthenticator := {|
  authenticator_Middleware := Middleware a; authenticator_RegisterRoutes := session_RegisterRoutes v a |}.

Definition development_authenticator (a : developmentDashboardAuth) : dashboardAuthenticator := {|
  authenticator_Middleware := fun r => Ret (inr (dev_Middleware a r));
  authenticator_RegisterRoutes := fun _ _ => None |}.

End authenticators.

(** The authenticator of a configuration. *)
Definition configured_authenticator `{UnicodeTables} (cfg : config)
  : KProg (result dashboardAuthenticator) :=
  if cf_devAuth cfg then
    auth <-? newDevelopmentDashboardAuth (cf_devTenantID cfg) (cf_devObjectID cfg) (cf_devName cfg) (cf_devRoles cfg) ;;
    Ret (Ok (development_authenticator auth))
  else Ret (Ok (session_authenticator (newMISETokenValidator cfg) (newDashboardAuth cfg))).

(** ** Routes *)

Inductive GovernanceRoute :=
  | RouteAccess | RouteCreateRequest | RouteAdmin | RouteCreateBundle | RouteSimulate | RouteCreateTemplate
  | RouteCreatePolicy | RouteApprove (name : string) | RouteDeny (name : string).

(** The path pattern [/admin/requests/{name}/action]. *)
Definition request_action (path : string) : option (string * string) :=
  rest ← CutPrefix path "/admin/requests/";
  '(name, action) ← cut_byte "/" rest;
  if name =?s "" then None else Some (name, action).

Definition RegisterRoutes (method path : string) : option GovernanceRoute :=
  if served_by_get method then
    if path =?s "/access" then Some RouteAccess
    else if path =?s "/admin" then Some RouteAdmin
    else None
  else if method =?s "POST" then
    if path =?s "/access/requests" then Some RouteCreateRequest
    else if path =?s "/admin/bundles" then Some RouteCreateBundle
    else if path =?s "/admin/bundles/simulate" then Some RouteSimulate
    else if path =?s "/admin/templates" then Some RouteCreateTemplate
    else if path =?s "/admin/tenant-policies" then Some RouteCreatePolicy
    else match request_action path with
    | Some (name, action) =>
        if action =?s "approve" then Some (RouteApprove name)
        else if action =?s "deny" then Some (RouteDeny name)
        else None
    | None => None
    end
  else None.

Inductive GovernancePage :=
  | PageAccess (data : accessPageData)
  | PageAdmin (data : adminPageData)
  | PageSimulation (data : policySimulationPageData).

(** A handler's page, and a handler that only replies. *)
Definition paged {A} (f : A -> GovernancePage) (p : KProg (GovReply + A)) : KProg (GovReply + GovernancePage) :=
  x <-- p ;; Ret (match x with inl reply => inl reply | inr data => inr (f data) end).
Definition replied (p : KProg (GovReply + Empty_set)) : KProg (GovReply + GovernancePage) :=
  x <-- p ;; Ret (match x with inl reply => inl reply | inr impossible => match impossible with end end).

Inductive Served :=
  | ServedAuth (reply : AuthReply)
  | ServedGovernance (reply : GovReply)
  | ServedPage (page : GovernancePage)
  | ServedEmbedded (r : DashRequest).

Section serve.
Context `{UnicodeTables} `{K8sValidation} `{K8sLabelValidation} `{UuidLib} `{QuoteLib}
        `{Quantities} `{Sha256}.

Definition governance_serve (g : governanceDashboard) (r : DashRequest) (route : GovernanceRoute)
  : KProg (GovReply + GovernancePage) :=
  match route with
  | RouteAccess => paged PageAccess (accessPage g r)
  | RouteAdmin => paged PageAdmin (adminPage g r)
  | RouteSimulate => paged PageSimulation (simulateCapabilityBundle g r)
  | RouteCreateRequest => replied (createAccessRequest g r)
  | RouteCreateBundle => replied (createCapabilityBundle g r)
  | RouteCreateTemplate => replied (createSandboxTemplate g r)
  | RouteCreatePolicy => replied (createTenantPolicy g r)
  | RouteApprove name => replied (approveAccessRequest g r name)
  | RouteDeny name => replied (denyAccessRequest g r name)
  end.

Definition dashboard_serve (auth : dashboardAuthenticator) (requester : requesterLifecycleAuthorizer)
  (g : governanceDashboard) (r : DashRequest) : KProg Served :=
  authenticated <-- authenticator_Middleware auth r ;;
  match authenticated with
  | inl reply => Ret (ServedAuth reply)
  | inr r =>
      authorized <-- requester_Middleware requester r ;;
      match authorized with
      | inl reply => Ret (ServedGovernance reply)
      | inr _ =>
          match path ← CutPrefix (hr_Path r) (gd_basePath g); authenticator_RegisterRoutes auth (hr_Method r) path with
          | Some handler => reply <-- handler r ;; Ret (ServedAuth reply)
          | None =>
          match path ← CutPrefix (hr_Path r) (gd_basePath g); RegisterRoutes (hr_Method r) path with
          | None => Ret (ServedEmbedded r)
          | Some route =>
              page <-- governance_serve g r route ;;
              Ret (match page with inl reply => ServedGovernance reply | inr page => ServedPage page end)
          end
          end
      end
  end.

End serve.

(** ** The checks before the handlers only read *)

Section quiet.
Context (a : requesterLifecycleAuthorizer) (ctx : RequestContext).

Lemma loadPrincipalScopes_reads ns who : quiet is_write (loadPrincipalScopes ns who).
Proof. by apply loadPrincipalScopes_quiet. Qed.
#[local] Hint Resolve loadPrincipalScopes_reads : gov.
Lemma requesterTenants_reads : quiet is_write (requesterTenants a ctx).
Proof. unfold requesterTenants. solve_quiet. Qed.
Lemma requester_bundleLogicalTenant_reads name : quiet is_write (RequesterAuthz.bundleLogicalTenant a name).
Proof. unfold RequesterAuthz.bundleLogicalTenant. cbv zeta. solve_quiet. Qed.
#[local] Hint Resolve requesterTenants_reads requester_bundleLogicalTenant_reads : gov.
Lemma assignment_tenant_reads value : quiet is_write (assignment_tenant a value).
Proof. unfold assignment_tenant. cbv zeta. solve_quiet. Qed.
#[local] Hint Resolve assignment_tenant_reads : gov.
Lemma sandboxAllowed_reads i tenants : quiet is_write (sandboxAllowed a i tenants).
Proof. unfold sandboxAllowed, allowed_if, sandboxLogicalTenant, assignmentForSandboxID. solve_quiet. Qed.
Lemma sandboxAllowedByObject_reads s tenants : quiet is_write (sandboxAllowedByObject a s tenants).
Proof.
  unfold sandboxAllowedByObject, allowed_if, sandboxLogicalTenantForSandbox, assignmentForSandbox, assignmentByName,
    assignmentForSandboxID. cbv zeta. solve_quiet.
Qed.
#[local] Hint Resolve sandboxAllowed_reads sandboxAllowedByObject_reads : gov.
Lemma snapshotAllowed_reads s tenants : quiet is_write (snapshotAllowed a s tenants).
Proof. unfold snapshotAllowed. solve_quiet. Qed.
Lemma authorizeSandbox_reads i : quiet is_write (authorizeSandbox a ctx i).
Proof. unfold authorizeSandbox. solve_quiet. Qed.
Lemma all_allowed_reads {A} (check : A -> KProg (result bool)) items :
  (forall x, quiet is_write (check x)) -> quiet is_write (all_allowed check items).
Proof. intros Hc. induction items as [|x rest IH]; cbn [all_allowed]; solve_quiet. Qed.
#[local] Hint Resolve snapshotAllowed_reads authorizeSandbox_reads all_allowed_reads : gov.
Lemma authorizeAggregateSandboxes_reads : quiet is_write (authorizeAggregateSandboxes a ctx).
Proof. unfold authorizeAggregateSandboxes. solve_quiet. Qed.
Lemma authorizeAggregateSnapshots_reads : quiet is_write (authorizeAggregateSnapshots a ctx).
Proof. unfold authorizeAggregateSnapshots. solve_quiet. Qed.
Lemma authorizeTemplate_reads : quiet is_write (authorizeTemplate a ctx).
Proof. unfold authorizeTemplate, templateLogicalTenant. cbv zeta. solve_quiet. Qed.

End quiet.

#[export] Hint Resolve authorizeSandbox_reads authorizeAggregateSandboxes_reads authorizeAggregateSnapshots_reads
  authorizeTemplate_reads : gov.

Section chain.
Context `{UnicodeTables} `{K8sValidation} `{K8sLabelValidation} `{UuidLib} `{QuoteLib}
        `{Quantities} `{Sha256}.

Lemma requester_Middleware_reads a r : quiet is_write (requester_Middleware a r).
Proof. unfold requester_Middleware, authorizePath. cbv zeta. solve_quiet. Qed.

Lemma Middleware_reads a r : quiet is_write (Middleware a r).
Proof. unfold Middleware. solve_quiet. Qed.

(** Signing in and out changes no stored object. *)
Lemma session_RegisterRoutes_reads v a method path handler r :
  session_RegisterRoutes v a method path = Some handler -> quiet is_write (handler r).
Proof.
  unfold session_RegisterRoutes. intros E. repeat case_match; simplify_eq; cbn beta; try apply quiet_ret.
  - unfold loginPage. solve_quiet.
  - unfold createSession, randomValue. cbn [Validate mise_validator]. unfold mise_Validate. cbv zeta. solve_quiet.
  - unfold logout. solve_quiet.
Qed.

(** A write of the governance handlers: posted with the form of the session, by an identity with
    exactly one active binding. *)
Definition signed_mutation (g : governanceDashboard) (r : DashRequest) (t : list KEvent) (_ : KEvent) : Prop :=
  exists who fields form items binding,
    ctx_identity (hr_Context r) = Some who /\ "csrf" ∈ fields /\ mutation_ok g r fields form /\
    Ev (List PrincipalBindings (gd_namespace g) list_all) (Ok items) ∈ t /\ sole_binding who items binding.

Lemma admin_posted_signed g r fields form tenant t e :
  "csrf" ∈ fields -> admin_posted g r fields form tenant t -> signed_mutation g r t e.
Proof. intros Hf [(who & items & b & ? & _ & ? & ? & _) Hm]. exists who, fields, form, items, b. done. Qed.

Lemma replied_guarded P (p : KProg (GovReply + Empty_set)) : guarded is_write P p -> guarded is_write P (replied p).
Proof. intros Hp. apply guarded_bind; [done|]. intros. apply guarded_ret. Qed.
Lemma paged_guarded {A} P (f : A -> GovernancePage) p : quiet is_write p -> guarded is_write P (paged f p).
Proof. intros Hp. apply guarded_bind; [by apply guarded_quiet|]. intros. apply guarded_ret. Qed.

Lemma tenant_maps_reads g tenants : quiet is_write (tenant_maps g tenants).
Proof. unfold tenant_maps, assignmentMap, bundleMap. destruct tenants; solve_quiet. Qed.
#[local] Hint Resolve tenant_maps_reads loadPrincipalScopes_reads : gov.
Lemma principalScopes_reads g who : quiet is_write (principalScopes g who).
Proof. apply loadPrincipalScopes_reads. Qed.
Lemma assignmentRows_reads g tenants : quiet is_write (assignmentRows g tenants).
Proof. unfold assignmentRows, bundleMap. solve_quiet. Qed.
Lemma eventRows_reads g denied tenants : quiet is_write (eventRows g denied tenants).
Proof. unfold eventRows. solve_quiet. Qed.
Lemma bundleRows_reads g tenants : quiet is_write (bundleRows g tenants).
Proof. unfold bundleRows, bundleMap. cbv zeta. solve_quiet. Qed.
Lemma requestRows_reads g tenants : quiet is_write (requestRows g tenants).
Proof. unfold requestRows. solve_quiet. Qed.
Lemma credentialRows_reads g tenants : quiet is_write (credentialRows g tenants).
Proof. unfold credentialRows. solve_quiet. Qed.
Lemma validationRows_reads g tenants : quiet is_write (validationRows g tenants).
Proof. unfold validationRows. solve_quiet. Qed.
Lemma tenantPolicyRows_reads g tenants : quiet is_write (tenantPolicyRows g tenants).
Proof. unfold tenantPolicyRows. solve_quiet. Qed.
Lemma templateRows_reads g tenants : quiet is_write (templateRows g tenants).
Proof. unfold templateRows, bundleMap. destruct tenants; solve_quiet. Qed.
#[local] Hint Resolve principalScopes_reads assignmentRows_reads eventRows_reads bundleRows_reads requestRows_reads
  credentialRows_reads validationRows_reads tenantPolicyRows_reads templateRows_reads : gov.

Lemma governance_serve_guarded g r route : guarded is_write (signed_mutation g r) (governance_serve g r route).
Proof.
  destruct route; cbn [governance_serve]; try apply replied_guarded; try apply paged_guarded.
  - unfold accessPage. gov_quiet.
  - eapply guarded_weaken; [apply create_guarded|]. intros t e (spec & [(who & n & ev & reason & d & tg & Hid & _ & _ & _ & _
      & _ & _ & (items & b & Hin & Hb & _) & _) (form & Hf) _ _ _] & _).
    exists who, ["csrf"; "eventName"; "reason"; "durationMinutes"], form, items, b. split_and!; try done. set_solver.
  - unfold adminPage. gov_quiet.
  - eapply guarded_weaken; [apply bundle_creation_guarded|].
    intros t e (form & bundle & boundary & commands & answer & _ & _ & Hp & _).
    eapply admin_posted_signed; [|exact Hp]. set_solver.
  - unfold simulateCapabilityBundle. gov_quiet.
  - eapply guarded_weaken; [apply template_creation_sound|].
    intros t e (form & template & bundle & answer & _ & _ & Hp & _). eapply admin_posted_signed; [|exact Hp]. set_solver.
  - eapply guarded_weaken; [apply policy_creation_guarded|].
    intros t e (form & policy & answer & _ & Hp & _). eapply admin_posted_signed; [|exact Hp]. set_solver.
  - eapply guarded_weaken; [apply approve_guarded|].
    intros t e (q & approver & reason & d & now & [(who & Hid & _ & _ & _ & items & b & Hin & Hb & _) (form & Hf & _)
      _ _ _ _ _] & _).
    exists who, ["csrf"; "decisionReason"; "durationMinutes"], form, items, b. split_and!; try done. set_solver.
  - eapply guarded_weaken; [apply deny_guarded|].
    intros t e (who & q & approver & form & items & b & Hid & _ & Hf & _ & _ & Hin & Hb & _).
    exists who, ["csrf"; "decisionReason"], form, items, b. split_and!; try done. set_solver.
Qed.

(** The form a handler accepted does not depend on the context, except for the token. *)
Lemma signed_mutation_identity g r t e : signed_mutation g r t e -> ctx_identity (hr_Context r) <> None.
Proof. intros (who & _ & _ & _ & _ & -> & _). done. Qed.

(** What lies behind a governance write of the whole dashboard. *)
Definition session_write (g : governanceDashboard) (r : DashRequest) (t : list KEvent) : Prop :=
  exists cookie session fields form items binding,
    hr_SessionCookie r = Some cookie /\ Ev (Sessions (store_getSession cookie)) (Some session) ∈ t /\
    "csrf" ∈ fields /\ mutation_ok g (with_context (session_context session) r) fields form /\
    values_Get form "csrf" = ds_CSRFToken session /\
    Ev (List PrincipalBindings (gd_namespace g) list_all) (Ok items) ∈ t /\
    sole_binding (ds_Identity session) items binding.

Lemma dashboard_serve_guarded v a requester g r :
  ctx_identity (hr_Context r) = None ->
  guarded is_write (fun t _ => session_write g r t) (dashboard_serve (session_authenticator v a) requester g r).
Proof.
  intros Hctx. unfold dashboard_serve. cbn [authenticator_Middleware authenticator_RegisterRoutes session_authenticator].
  apply guarded_bind; [apply guarded_quiet, Middleware_reads|]. intros [reply|r'] t1 Hm; [apply guarded_ret|].
  apply guarded_bind; [apply guarded_quiet, requester_Middleware_reads|]. intros [reply|u] t2 _; [apply guarded_ret|].
  destruct (path ← CutPrefix (hr_Path r') (gd_basePath g); session_RegisterRoutes v a (hr_Method r') path)
    as [handler|] eqn:Ea.
  { apply guarded_bind; [|intros; apply guarded_ret]. apply guarded_quiet.
    apply bind_Some in Ea as (path & _ & Ea). by eapply session_RegisterRoutes_reads. }
  destruct (path ← CutPrefix (hr_Path r') (gd_basePath g); RegisterRoutes (hr_Method r') path) as [route|];
    [|apply guarded_ret].
  apply guarded_bind; [|intros; apply guarded_ret].
  eapply guarded_weaken; [apply governance_serve_guarded|]. intros t e Hs.
  pose proof (signed_mutation_identity _ _ _ _ Hs) as Hid.
  unfold Middleware in Hm. destruct (publicPath a (hr_Path r)).
  { exfalso. apply Hid. destruct (_ && _); destruct Hm as [_ [= <-]]; done. }
  destruct (hr_SessionCookie r) as [cookie|] eqn:Hc; [|by destruct Hm].
  run_step Hm. destruct a0 as [session|]; [|by run_step Hm]. run_step Hm. simplify_eq.
  destruct Hs as (who & fields & form & items & b & Hwho & Hf & Hmut & Hin & Hb). cbn in Hwho. injection Hwho as <-.
  exists cookie, session, fields, form, items, b. pose proof (mo_csrf _ _ _ _ Hmut Hf) as Hcsrf.
  split_and!; try done; [set_solver| |set_solver].
  unfold csrfTokenFromContext in Hcsrf. cbn in Hcsrf. destruct (_ <>?s ""); [|done]. congruence.
Qed.


End chain.
