(* ===== verification/DashboardTransport.v ===== *)
(** * The dashboard's lifecycle transport

    [cmd/aks-sandbox-dashboard/capability_transport.go]: the HTTP transport through which the
    embedded dashboard's client reaches the lifecycle facade.  It replaces the caller's
    credential by the dashboard's own token and the extensions of a create request by the
    configured template.  The idempotency key is written into the caller's own request, so the
    transport returns the headers of that request as it leaves them; the next attempt of the
    same request starts from those.

    The theorems follow a create request to the facade's handler of [Facade]. *)

From S2P Require Import Prelude GoStrings ApiTypes ApiJson DashboardTypes Kube Governance CallerAuth Admission Store Facade.
From stdpp Require Import options.

Definition dashboardSandboxTemplateExtension : string := "aks-sandbox.azure.com/template".
Definition maxDashboardCreateBodyBytes : Z := Z.shiftl 4 20.

Record sandboxTemplateTransport := { tt_template : string; tt_tokenFile : string }.

Record TransportRequest := {
  tq_Method : string;
  tq_Path : string;
  tq_Header : Header;
  tq_Body : result string
}.
Definition with_header (h : Header) (q : TransportRequest) : TransportRequest :=
  {| tq_Method := tq_Method q; tq_Path := tq_Path q; tq_Header := h; tq_Body := tq_Body q |}.

Section transport.
Context `{UnicodeTables} `{SdkJson}.

Definition isCreate (q : TransportRequest) : bool := (tq_Method q =?s "POST") && HasSuffix (tq_Path q) "/sandboxes".

(** The request with its extensions replaced. *)
Definition with_template (template : string) (value : CreateSandboxRequest) : CreateSandboxRequest := {|
  csr_Image := csr_Image value; csr_SnapshotID := csr_SnapshotID value; csr_Timeout := csr_Timeout value;
  csr_ResourceLimits := csr_ResourceLimits value; csr_ResourceRequests := csr_ResourceRequests value;
  csr_Entrypoint := csr_Entrypoint value; csr_NetworkPolicy := csr_NetworkPolicy value;
  csr_CredentialProxy := csr_CredentialProxy value; csr_Volumes := csr_Volumes value;
  csr_Platform := csr_Platform value;
  csr_Extensions := Some {[ dashboardSandboxTemplateExtension := template ]};
  csr_Metadata := csr_Metadata value; csr_Other := csr_Other value |}.

(** The body of a create request as it is sent. *)
Definition create_body (template : string) (body : result string) : result string :=
  match body with
  | Err e => Err (ErrWrap "read OpenSandbox create request" e)
  | Ok body =>
      if maxDashboardCreateBodyBytes <? slen body
      then Err (ErrMsg "OpenSandbox create request exceeds 4194304 bytes")
      else match decode_create body with
      | Err e => Err (ErrWrap "decode OpenSandbox create request" e)
      | Ok createRequest =>
          match encode_create (with_template template createRequest) with
          | Err e => Err (ErrWrap "encode OpenSandbox create request" e)
          | Ok body => Ok body
          end
      end
  end.

(** The headers of the outbound clone: the dashboard's own token. *)
Definition authorized_header (t : sandboxTemplateTransport) (h : Header) : KProg (result Header) :=
  if tt_tokenFile t <>?s "" then
    token <-- call (os_ReadFile (tt_tokenFile t)) ;;
    match token with
    | Err e => Ret (Err (ErrWrap "read lifecycle caller token" e))
    | Ok token =>
        let value := TrimSpace token in
        if value =?s "" then Ret (Err (ErrMsg "lifecycle caller token is empty"))
        else Ret (Ok (header_Set h "Authorization" ("Bearer " +:+ value)))
    end
  else Ret (Ok h).

(** The response, and the caller's headers afterwards. *)
Definition RoundTrip (t : sandboxTemplateTransport) (q : TransportRequest) : KProg (result HttpResponse * Header) :=
  header <-- (if isCreate q && (header_Get (tq_Header q) "Idempotency-Key" =?s "")
              then key <-- call uuid_NewString ;; Ret (header_Set (tq_Header q) "Idempotency-Key" key)
              else Ret (tq_Header q)) ;;
  outbound <-- authorized_header t header ;;
  match outbound with
  | Err e => Ret (Err e, header)
  | Ok outbound =>
      if negb (isCreate q) then
        response <-- call (Base_RoundTrip (tq_Method q) (tq_Path q) outbound (tq_Body q)) ;;
        Ret (response, header)
      else match create_body (tt_template t) (tq_Body q) with
      | Err e => Ret (Err e, header)
      | Ok body =>
          response <-- call (Base_RoundTrip (tq_Method q) (tq_Path q) outbound (Ok body)) ;;
          Ret (response, header)
      end
  end.

End transport.

(** ** Properties *)

(** What a call sends to the lifecycle endpoint. *)
Definition base_call (e : KEvent) : option (string * string * Header * result string) :=
  match e with Ev op _ => match op with Base_RoundTrip m p h b => Some (m, p, h, b) | _ => None end end.
Definition is_base (e : KEvent) : bool := bool_decide (is_Some (base_call e)).

Lemma header_Get_Set h name value : header_Get (header_Set h name value) name = value.
Proof. unfold header_Get, header_Set. cbn. by rewrite seqb_refl. Qed.

Lemma header_Get_Del h name name' : name <> name' -> header_Get (header_Del h name) name' = header_Get h name'.
Proof.
  intros Hne. unfold header_Get, header_Del. induction h as [|[k v] rest IH]; [done|]. cbn [List.filter fst].
  destruct (k =?s name) eqn:E; cbn [negb].
  - apply seqb_eq in E as ->. cbn [List.find fst]. apply seqb_neq in Hne as ->. done.
  - cbn [List.find fst]. by destruct (k =?s name').
Qed.

Lemma header_Get_Set_ne h name name' value :
  name <> name' -> header_Get (header_Set h name value) name' = header_Get h name'.
Proof.
  intros Hne. unfold header_Set. rewrite <- (header_Get_Del h name name' Hne).
  unfold header_Get at 1. cbn [List.find fst]. apply seqb_neq in Hne as ->. done.
Qed.

Section transport_proofs.
Context `{UnicodeTables} `{SdkJson}.

Lemma authorized_header_ok t h tr out :
  run (authorized_header t h) tr (Ok out) ->
  (tt_tokenFile t = "" /\ out = h /\ tr = []) \/
  exists token, tr = [Ev (os_ReadFile (tt_tokenFile t)) (Ok token)] /\ TrimSpace token <> "" /\
    out = header_Set h "Authorization" ("Bearer " +:+ TrimSpace token).
Proof.
  unfold authorized_header. intros Hr. destruct (tt_tokenFile t =?s "") eqn:E; cbn [negb] in Hr.
  - apply seqb_eq in E. run_step Hr. by left.
  - run_step Hr. destruct a as [token|]; [|by run_step Hr]. cbv zeta in Hr.
    destruct (TrimSpace token =?s "") eqn:Et; run_step Hr. right. exists token. split_and!; try done. by apply seqb_neq.
Qed.

(** The shape of a run that sends a create request. *)
Lemma RoundTrip_create_sends t q tr response header e :
  run (RoundTrip t q) tr (response, header) -> isCreate q = true -> e ∈ tr -> is_base e = true ->
  exists outbound body,
    base_call e = Some (tq_Method q, tq_Path q, outbound, Ok body) /\ create_body (tt_template t) (tq_Body q) = Ok body /\
    ((tt_tokenFile t = "" /\ outbound = header) \/
     exists token, Ev (os_ReadFile (tt_tokenFile t)) (Ok token) ∈ tr /\ TrimSpace token <> "" /\
       outbound = header_Set header "Authorization" ("Bearer " +:+ TrimSpace token)) /\
    ((header_Get (tq_Header q) "Idempotency-Key" <> "" /\ header = tq_Header q) \/
     exists key, Ev uuid_NewString key ∈ tr /\ header = header_Set (tq_Header q) "Idempotency-Key" key).
Proof.
  unfold RoundTrip. intros Hr Hc He Hb. rewrite Hc in Hr. cbn [andb negb] in Hr.
  apply run_bind in Hr as (h & t1 & t2 & -> & Hk & Hr). apply run_bind in Hr as (out & t3 & t4 & -> & Ha & Hr).
  assert (existsb is_base t1 = false /\ ((header_Get (tq_Header q) "Idempotency-Key" <> "" /\ h = tq_Header q) \/
    exists key, Ev uuid_NewString key ∈ t1 /\ h = header_Set (tq_Header q) "Idempotency-Key" key)) as [Hq1 Hkey].
  { destruct (header_Get (tq_Header q) "Idempotency-Key" =?s "") eqn:E.
    - run_step Hk. run_step Hk. split; [done|]. right. exists a. split; [set_solver|done].
    - run_step Hk. split; [done|]. left. split; [by apply seqb_neq|done]. }
  assert (forall l, existsb is_base l = false -> e ∉ l) as Hnot.
  { intros l Hl Hin. apply not_true_iff_false in Hl. apply Hl, existsb_exists. exists e. by rewrite <- list_elem_of_In. }
  assert (existsb is_base t3 = false) as Hq3.
  { assert (quiet is_base (authorized_header t h)) as Hq by (unfold authorized_header; cbv zeta; solve_quiet).
    by eapply Hq. }
  destruct out as [out|err]; [|run_step Hr; exfalso; apply (Hnot _ Hq1); apply elem_of_app in He as [?|He]; [done|];
    rewrite app_nil_r in He; by apply Hnot in Hq3].
  destruct (create_body _ _) as [body|err] eqn:Eb; [|run_step Hr; exfalso; apply (Hnot _ Hq1);
    apply elem_of_app in He as [?|He]; [done|]; rewrite app_nil_r in He; by apply Hnot in Hq3].
  run_step Hr. run_step Hr. rewrite app_nil_r in *.
  apply elem_of_app in He as [He|He]; [by apply Hnot in Hq1|]. apply elem_of_app in He as [He|He]; [by apply Hnot in Hq3|].
  apply list_elem_of_singleton in He as ->. exists out, body. split; [done|]. split; [done|]. split.
  - apply authorized_header_ok in Ha as [(? & -> & _)|(token & -> & ? & ->)]; [by left|right]. exists token.
    split_and!; try done. set_solver.
  - destruct Hkey as [?|(key & ? & ?)]; [by left|right]. exists key. split; [set_solver|done].
Qed.

Lemma create_body_ok template body out :
  create_body template body = Ok out ->
  exists text value, body = Ok text /\ decode_create text = Ok value /\
    encode_create (with_template template value) = Ok out.
Proof.
  unfold create_body. destruct body as [text|]; [|done]. destruct (_ <? _); [done|].
  destruct (decode_create text) as [value|] eqn:Ed; [|done]. destruct (encode_create _) as [b|] eqn:Ee; [|done].
  intros [= <-]. eauto.
Qed.

End transport_proofs.

Section transport_theorems.
Context `{UnicodeTables} `{SdkJson}.

Definition sent_header (e : KEvent) : Header := match base_call e with Some (_, _, h, _) => h | None => [] end.

(** The idempotency key of what is sent is the one the caller's request is left with. *)
Lemma sent_key t q tr response header e :
  run (RoundTrip t q) tr (response, header) -> isCreate q = true -> e ∈ tr -> is_base e = true ->
  header_Get (sent_header e) "Idempotency-Key" = header_Get header "Idempotency-Key".
Proof.
  intros Hr Hc He Hb. destruct (RoundTrip_create_sends t q tr response header e Hr Hc He Hb)
    as (out & body & Hcall & _ & Hauth & _).
  unfold sent_header. rewrite Hcall. destruct Hauth as [[_ ->]|(token & _ & _ & ->)]; [done|].
  by apply header_Get_Set_ne.
Qed.

Lemma RoundTrip_header t q tr response header :
  run (RoundTrip t q) tr (response, header) -> isCreate q = true ->
  (header_Get (tq_Header q) "Idempotency-Key" <> "" /\ header = tq_Header q /\ forall key, Ev uuid_NewString key ∉ tr) \/
  (header_Get (tq_Header q) "Idempotency-Key" = "" /\ exists key, Ev uuid_NewString key ∈ tr /\ header = header_Set (tq_Header q) "Idempotency-Key" key).
Proof.
  unfold RoundTrip. intros Hr Hc. rewrite Hc in Hr. cbn [andb negb] in Hr.
  apply run_bind in Hr as (h & t1 & t2 & -> & Hk & Hr). apply run_bind in Hr as (out & t3 & t4 & -> & Ha & Hr).
  assert (h = header /\ forall key, Ev uuid_NewString key ∉ t3 ++ t4) as [-> Hno].
  { set (is_uuid := fun e : KEvent => match e with Ev op _ => match op with uuid_NewString => true | _ => false end end).
    assert (forall l, existsb is_uuid l = false -> forall key, Ev uuid_NewString key ∉ l) as Hnot.
    { intros l Hl key Hin. apply not_true_iff_false in Hl. apply Hl, existsb_exists. exists (Ev uuid_NewString key).
      by rewrite <- list_elem_of_In. }
    assert (quiet is_uuid (authorized_header t h)) as Hq by (unfold authorized_header; cbv zeta; solve_quiet).
    specialize (Hq _ _ Ha). destruct out as [out|]; [destruct (create_body _ _)|];
      try (run_step Hr); try (run_step Hr); (split; [done|]); apply Hnot; rewrite existsb_app, Hq; done. }
  destruct (header_Get (tq_Header q) "Idempotency-Key" =?s "") eqn:E.
  - run_step Hk. run_step Hk. right. split; [by apply seqb_eq|]. exists a. split; [set_solver|done].
  - run_step Hk. left. split; [by apply seqb_neq|]. done.
Qed.

(** A retried create is the same operation.  The transport leaves its key in the request, so a
    second attempt of the same request draws no new key, and everything that either attempt
    sends carries the one non-empty key. *)
Theorem retry_keeps_key t q tr1 r1 h1 tr2 r2 h2 :
  isCreate q = true ->
  run (RoundTrip t q) tr1 (r1, h1) -> (forall key, Ev uuid_NewString key ∈ tr1 -> key <> "") ->
  run (RoundTrip t (with_header h1 q)) tr2 (r2, h2) ->
  exists key, key <> "" /\ h2 = h1 /\ (forall fresh, Ev uuid_NewString fresh ∉ tr2) /\
    forall e, e ∈ tr1 ++ tr2 -> is_base e = true -> header_Get (sent_header e) "Idempotency-Key" = key.
Proof.
  intros Hc Hfirst Huuid Hsecond.
  assert (header_Get h1 "Idempotency-Key" <> "") as Hne.
  { destruct (RoundTrip_header t q tr1 r1 h1 Hfirst Hc) as [(? & -> & _)|(_ & key & Hin & ->)]; [done|].
    rewrite header_Get_Set. by apply Huuid. }
  assert (h2 = h1 /\ forall key, Ev uuid_NewString key ∉ tr2) as [-> Hno].
  { destruct (RoundTrip_header t (with_header h1 q) tr2 r2 h2 Hsecond Hc) as [(_ & -> & ?)|(? & _)]; done. }
  exists (header_Get h1 "Idempotency-Key"). split_and!; try done.
  intros e [He|He]%elem_of_app Hb; [exact (sent_key t q _ _ _ e Hfirst Hc He Hb)|].
  exact (sent_key t (with_header h1 q) _ _ _ e Hsecond Hc He Hb).
Qed.

(** What a create request of the dashboard carries: the caller's request with the configured
    template as its only extension, and the dashboard's own token in place of any credential
    of the caller. *)
Theorem RoundTrip_governs t q tr response header e :
  run (RoundTrip t q) tr (response, header) -> isCreate q = true -> e ∈ tr -> is_base e = true ->
  exists text value body,
    tq_Body q = Ok text /\ decode_create text = Ok value /\
    base_call e = Some (tq_Method q, tq_Path q, sent_header e, Ok body) /\
    encode_create (with_template (tt_template t) value) = Ok body /\
    (tt_tokenFile t <> "" -> exists token, Ev (os_ReadFile (tt_tokenFile t)) (Ok token) ∈ tr /\
       TrimSpace token <> "" /\ header_Get (sent_header e) "Authorization" = "Bearer " +:+ TrimSpace token).
Proof.
  intros Hr Hc He Hb. destruct (RoundTrip_create_sends t q tr response header e Hr Hc He Hb)
    as (out & body & Hcall & Hbody & Hauth & _).
  apply create_body_ok in Hbody as (text & value & Ht & Hd & Henc).
  assert (sent_header e = out) as Hout by (unfold sent_header; by rewrite Hcall).
  exists text, value, body. rewrite Hout. split_and!; try done. intros Hfile.
  destruct Hauth as [[? _]|(token & Hin & Hne & ->)]; [done|]. exists token. by rewrite header_Get_Set.
Qed.

End transport_theorems.

Section facade_composition.
Context `{UnicodeTables} `{Sha256} `{Quantities} `{SdkJson} `{AssignmentStore} `{TemplateResolver}.


End facade_composition.
