(* ===== verification/DashboardProcess.v ===== *)
(** * The dashboard's process

    [main], [run] and [loadDashboardKubernetesConfig] of [cmd/aks-sandbox-dashboard/main.go]: the
    configuration, the clients, the components in the order in which they are built, the HTTP
    server with the whole handler chain, and the deferred calls, which run in the reverse order on
    every way out.  The embedded dashboard and the OpenSandbox client are library code: their
    construction and closing are calls.  The goroutine that shuts the server down runs when the root
    context ends; [run] cancels that context after [ListenAndServe] and then waits for it, so that
    its one call of [Shutdown] is complete before the deferred calls.

    [dashboard_serves_configured] says what is behind a server that listens and how the process
    ends. *)

From S2P Require Import Prelude GoStrings GoURL GoTime GoFlag ApiTypes ApiJson DashboardTypes Kube Governance Principals Admission.
From S2P Require Import AuthzServer Checker Facade TokenValidation DashboardAuth DashboardConfig DashboardCore AccessRequests.
From S2P Require Import RequesterAuthz BoundaryRules DashboardAdmin DashboardPages DashboardMain DashboardTransport.
From stdpp Require Import options.

Module DashboardProcess.

(** [osbclient.Options]; the transport of [LifecycleHTTPClient], if it is set. *)
Record ClientOptions := {
  co_Namespace : string;
  co_WorkloadNamespace : string;
  co_LifecycleEndpoint : string;
  co_LifecycleTransport : option sandboxTemplateTransport
}.

(** The handler of the server: [auth.Middleware(requesterAuthorizer.Middleware(app.Handler()))], with
    the routes of the authenticator and the governance backend in [app]. *)
Record chain := {
  ch_auth : dashboardAuthenticator;
  ch_requester : requesterLifecycleAuthorizer;
  ch_governance : governanceDashboard
}.

Inductive Process : Type -> Type :=
  | BuildConfigFromFlags (kubeconfig : string) : Process (result unit)
  | InClusterConfig : Process (result unit)
  | dynamic_NewForConfig : Process (result unit)
  | osb_NewInCluster (options : ClientOptions) : Process (result unit)
  | osb_NewFromKubeconfig (kubeconfig : string) (options : ClientOptions) : Process (result unit)
  | osb_Close : Process (result unit)
  | OfCluster {R} (op : Kube R) : Process R                    (** the random bytes of the development identity *)
  | dashboard_New (basePath image : string) : Process (result unit)
  | ListenAndServe (address : string) (handler : chain) : Process (option error)  (** [None]: [ErrServerClosed] *)
  | server_Shutdown : Process (result unit)
  | app_Close : Process unit
  | auth_Close : Process unit
  | cancelRoot : Process unit.

(** [defer close()] around the rest of a function. *)
Definition deferring {C A} (close : Process C) (body : Prog Process A) : Prog Process A :=
  r <-- body ;; _ <-- call close ;; Ret r.

Definition loadDashboardKubernetesConfig (kubeconfigPath : string) : Process (result unit) :=
  if kubeconfigPath <>?s "" then BuildConfigFromFlags kubeconfigPath else InClusterConfig.

(** The options of the client, from the configuration. *)
Definition client_options (cfg : config) : ClientOptions := {|
  co_Namespace := cf_openSandboxNamespace cfg; co_WorkloadNamespace := cf_sandboxNamespace cfg;
  co_LifecycleEndpoint := cf_lifecycleEndpoint cfg;
  co_LifecycleTransport :=
    if cf_lifecycleEndpoint cfg <>?s ""
    then Some {| tt_template := cf_sandboxTemplate cfg; tt_tokenFile := cf_lifecycleTokenFile cfg |} else None |}.

Definition with_endpoint (endpoint : string) (o : ClientOptions) : ClientOptions := {|
  co_Namespace := co_Namespace o; co_WorkloadNamespace := co_WorkloadNamespace o;
  co_LifecycleEndpoint := endpoint; co_LifecycleTransport := co_LifecycleTransport o |}.

Definition new_client (cfg : config) : Process (result unit) :=
  let options := client_options cfg in
  if cf_kubeconfigPath cfg =?s "" then
    osb_NewInCluster
      (if co_LifecycleEndpoint options =?s ""
       then with_endpoint ("http://opensandbox-server." +:+ cf_openSandboxNamespace cfg +:+ ".svc.cluster.local") options
       else options)
  else osb_NewFromKubeconfig (cf_kubeconfigPath cfg) options.

(** The server: from listening to the end of [run]. *)
Definition serve_http (cfg : config) (handler : chain) : Prog Process (result unit) :=
  ended <-- call (ListenAndServe (cf_listenAddress cfg) handler) ;;
  _ <-- call cancelRoot ;;
  _ <-- call server_Shutdown ;;
  Ret (match ended with Some e => Err (ErrWrap "serve dashboard" e) | None => Ok tt end).

Section process.
Context `{UnicodeTables}.

(** Once the client exists. *)
Definition run_with_client (cfg : config) : Prog Process (result unit) :=
  match newRequesterLifecycleAuthorizer true true cfg with
  | Err e => Ret (Err (ErrWrap "create dashboard requester authorizer" e))
  | Ok requester =>
      deferring cancelRoot (
        auth <-? within (@OfCluster) (configured_authenticator cfg) ;;
        deferring auth_Close (
          match newGovernanceDashboard true cfg with
          | Err e => Ret (Err e)
          | Ok governance =>
              _ <-? wrapped "create embedded dashboard" (call (dashboard_New (cf_basePath cfg) (cf_sandboxImage cfg))) ;;
              deferring app_Close
                (serve_http cfg {| ch_auth := auth; ch_requester := requester; ch_governance := governance |})
          end))
  end.

(** [run]. *)
Definition dashboard_run (Getenv : string -> string) (args : list string) : Prog Process (result unit) :=
  match parseConfig Getenv args with
  | Err e => Ret (Err e)
  | Ok cfg =>
      _ <-? wrapped "load dashboard Kubernetes configuration"
              (call (loadDashboardKubernetesConfig (cf_kubeconfigPath cfg))) ;;
      _ <-? wrapped "create dashboard governance client" (call dynamic_NewForConfig) ;;
      _ <-? wrapped "create OpenSandbox dashboard client" (call (new_client cfg)) ;;
      deferring osb_Close (run_with_client cfg)
  end.

(** [main]: the exit status. *)
Definition dashboard_main (Getenv : string -> string) (args : list string) : Prog Process Z :=
  r <-- dashboard_run Getenv args ;;
  Ret (match r with
       | Ok _ => 0
       | Err e => if error_Is e (ErrMsg "flag: help requested") then 0 else 1
       end).

(** ** Theorems *)

Lemma run_deferring {C A} (close : Process C) (body : Prog Process A) tr r :
  run (deferring close body) tr r -> exists t c, tr = t ++ [Ev close c] /\ run body t r.
Proof.
  unfold deferring. intros (x & t1 & t2 & -> & Hb & Hr)%run_bind.
  apply run_bind in Hr as (c & t3 & t4 & -> & ->%run_call & [-> <-]). by exists t1, c.
Qed.

(** The servers that listened in a trace. *)
Definition listen_of (e : Event Process) : option (string * chain * option error) :=
  match e with
  | Ev op r =>
      match op in Process R return R -> _ with
      | ListenAndServe address handler => fun r => Some (address, handler, r)
      | _ => fun _ => None
      end r
  end.
Definition listens (t : list (Event Process)) : list (string * chain * option error) := omap listen_of t.

Lemma listens_app t u : listens (t ++ u) = listens t ++ listens u.
Proof. apply omap_app. Qed.

Lemma listens_cons e t : listens (e :: t) = match listen_of e with Some x => x :: listens t | None => listens t end.
Proof. reflexivity. Qed.

Lemma listens_elem t address handler ended :
  (address, handler, ended) ∈ listens t -> Ev (ListenAndServe address handler) ended ∈ t.
Proof.
  unfold listens. rewrite list_elem_of_omap. intros ([R op r] & Hin & E). destruct op; try done.
  cbn in E. by simplify_eq.
Qed.

Lemma cluster_no_listen t : listens (event_within (@OfCluster) <$> t) = [].
Proof. induction t as [|[R op r] t IH]; [done|]. exact IH. Qed.

(** From listening to the end of [run]. *)
Definition ending (address : string) (handler : chain) (ended : option error) (shut closed : result unit)
  : list (Event Process) :=
  [Ev (ListenAndServe address handler) ended; Ev cancelRoot tt; Ev server_Shutdown shut; Ev app_Close tt;
   Ev auth_Close tt; Ev cancelRoot tt; Ev osb_Close closed].

(** The components behind a handler were built from the configuration. *)
Record built_from (cfg : config) (handler : chain) : Prop := {
  bf_requester : newRequesterLifecycleAuthorizer true true cfg = Ok (ch_requester handler);
  bf_governance : newGovernanceDashboard true cfg = Ok (ch_governance handler);
  bf_auth : exists t, run (configured_authenticator cfg) t (Ok (ch_auth handler))
}.

Lemma run_with_client_run cfg t r closed :
  run (run_with_client cfg) t r ->
  listens t = [] \/
  exists before handler ended shut, t ++ [Ev osb_Close closed] = before ++ ending (cf_listenAddress cfg) handler ended shut closed /\
    listens before = [] /\ built_from cfg handler /\
    r = match ended with Some e => Err (ErrWrap "serve dashboard" e) | None => Ok tt end.
Proof.
  unfold run_with_client. destruct (newRequesterLifecycleAuthorizer _ _ _) as [requester|] eqn:Er;
    [|intros [-> _]; by left].
  intros (t1 & [] & -> & Hr)%run_deferring.
  apply run_try in Hr as [(e & (ta & -> & _)%run_within & ->)|(auth & ta' & t2 & -> & (ta & -> & Ha)%run_within & Hr)].
  { left. rewrite listens_app, cluster_no_listen. done. }
  apply run_deferring in Hr as (t3 & [] & -> & Hr).
  destruct (newGovernanceDashboard _ _) as [governance|] eqn:Eg.
  2: { destruct Hr as [-> _]. left. rewrite !listens_app, cluster_no_listen. done. }
  apply run_wrapped_try in Hr as [([] & t4 & -> & Hr)|(e & -> & ->)].
  2: { left. rewrite !listens_app, cluster_no_listen. done. }
  apply run_deferring in Hr as (t5 & [] & -> & Hr). unfold serve_http in Hr.
  apply run_bind in Hr as (ended & ? & t6 & -> & ->%run_call & Hr).
  apply run_bind in Hr as ([] & ? & t7 & -> & ->%run_call & Hr).
  apply run_bind in Hr as (shut & ? & t8 & -> & ->%run_call & [-> <-]).
  right. eexists ((event_within (@OfCluster) <$> ta) ++ [Ev (dashboard_New _ _) (Ok tt)]), _, ended, shut.
  split_and!; [|by rewrite listens_app, cluster_no_listen| |reflexivity].
  - unfold ending. rewrite <- !app_assoc. reflexivity.
  - constructor; [exact Er|exact Eg|by exists ta].
Qed.

(** C38. A dashboard that listens was built from an accepted configuration: it listens on the configured
    address, its handler chain authenticates with the configured authenticator (the development
    identity on a loopback address only), authorizes requesters and serves the governance backend
    of that configuration, over a client that was created with its options.  When it stops, the
    server is shut down, and the embedded dashboard, the authenticator and the client are closed
    in this order; the outcome is the failure to serve, or success. *)
Theorem dashboard_serves_configured Getenv args tr r address handler ended :
  run (dashboard_run Getenv args) tr r -> Ev (ListenAndServe address handler) ended ∈ tr ->
  exists cfg before shut closed,
    parseConfig Getenv args = Ok cfg /\ config_ok cfg /\ address = cf_listenAddress cfg /\ built_from cfg handler /\
    Ev (new_client cfg) (Ok tt) ∈ before /\ tr = before ++ ending address handler ended shut closed /\
    r = match ended with Some e => Err (ErrWrap "serve dashboard" e) | None => Ok tt end.
Proof.
  intros Hr Hin. assert ((address, handler, ended) ∈ listens tr) as Hl by (apply list_elem_of_omap; by eexists).
  unfold dashboard_run in Hr. destruct (parseConfig Getenv args) as [cfg|] eqn:Ec;
    [|destruct Hr as [-> _]; by apply elem_of_nil in Hl].
  assert (forall t, listen_of (Ev (loadDashboardKubernetesConfig (cf_kubeconfigPath cfg)) t) = None /\
                    listen_of (Ev (new_client cfg) t) = None) as Hfirst.
  { intros t. unfold loadDashboardKubernetesConfig, new_client. by destruct (_ <>?s ""), (_ =?s ""). }
  apply run_wrapped_try in Hr as [([] & t1 & -> & Hr)|(e & -> & ->)].
  2: { rewrite !listens_cons in Hl. rewrite (proj1 (Hfirst _)) in Hl. by apply elem_of_nil in Hl. }
  apply run_wrapped_try in Hr as [([] & t2 & -> & Hr)|(e & -> & ->)].
  2: { rewrite !listens_cons in Hl. rewrite (proj1 (Hfirst _)) in Hl. by apply elem_of_nil in Hl. }
  apply run_wrapped_try in Hr as [([] & t3 & -> & Hr)|(e & -> & ->)].
  2: { rewrite !listens_cons in Hl. rewrite (proj1 (Hfirst _)), (proj2 (Hfirst _)) in Hl. by apply elem_of_nil in Hl. }
  apply run_deferring in Hr as (t4 & closed & -> & Hr).
  assert ((address, handler, ended) ∈ listens (t4 ++ [Ev osb_Close closed])) as Hl4.
  { rewrite !listens_cons in Hl. by rewrite (proj1 (Hfirst _)), (proj2 (Hfirst _)) in Hl. }
  clear Hl Hin. apply run_with_client_run with (closed := closed) in Hr
    as [Hno|(before & h & en & shut & E & Hbefore & Hb & ->)].
  { rewrite listens_app, Hno in Hl4. by apply elem_of_nil in Hl4. }
  rewrite E in *. rewrite listens_app, Hbefore in Hl4. apply list_elem_of_singleton in Hl4. simplify_eq.
  eexists cfg, (_ :: _ :: _ :: before), shut, closed.
  split_and!; [done|by eapply parseConfig_ok|done|done| |reflexivity|done]. set_solver.
Qed.

End process.
End DashboardProcess.
