(* ===== verification/Doctor.v ===== *)
(** * The readiness doctor

    [internal/doctor/doctor.go]: nine checks of a cluster and the report made of them.  The label
    selectors of [k8s.io/apimachinery] are library code.  Every check only reads.

    The theorems say what a report that is ready has established about the cluster, and relate
    [roleAllows] to the permissions a role grants: RBAC rules are additive, while the function
    decides on the first rule for the resource. *)

From stdpp Require Import pretty.
From S2P Require Import Prelude GoStrings GoEncoding ApiTypes Kube.
From stdpp Require Import options.

Definition StatusPass : string := "pass".
Definition StatusWarning : string := "warning".
Definition StatusFail : string := "fail".

(** [labels.NewRequirement(key, selection.Equals, ...)] and the selector made of requirements. *)
Class LabelsLib := {
  labels_NewRequirement : string -> string -> bool;
  labels_Matches : gmap string string -> gmap string string -> bool
}.

Module Doctor.

Record Config := { AssignmentNamespace : string; WorkloadNamespace : string; RuntimeClassName : string }.

Record Check := { chk_Name : string; chk_Status : string; chk_Summary : string; chk_Remediation : string }.

Record Report := { rep_Ready : bool; rep_Checks : list Check }.

Definition New (config : Config) : Config := {|
  AssignmentNamespace := if AssignmentNamespace config =?s "" then "aks-sandbox-system" else AssignmentNamespace config;
  WorkloadNamespace := if WorkloadNamespace config =?s "" then "opensandbox" else WorkloadNamespace config;
  RuntimeClassName := if RuntimeClassName config =?s "" then "kata-optimized" else RuntimeClassName config |}.

Definition pass (name summary : string) : Check :=
  {| chk_Name := name; chk_Status := StatusPass; chk_Summary := summary; chk_Remediation := "" |}.
Definition warning (name summary remediation : string) : Check :=
  {| chk_Name := name; chk_Status := StatusWarning; chk_Summary := summary; chk_Remediation := remediation |}.
Definition failed (name summary remediation : string) : Check :=
  {| chk_Name := name; chk_Status := StatusFail; chk_Summary := summary; chk_Remediation := remediation |}.

(** ** Helpers *)

Definition nodeReady (node : Node) : bool :=
  match List.find (fun c => pc_Type c =?s "Ready") (node_Conditions node) with
  | Some condition => pc_Status condition =?s "True"
  | None => false
  end.

Definition deploymentEnv (deployment : Deployment) (name : string) : string :=
  match List.find (fun v => env_Name v =?s name) (concat (dep_ContainerEnv deployment)) with
  | Some variable => env_Value variable
  | None => ""
  end.

(** [contains] of the package: a wildcard is a member of every set. *)
Definition grants (values : list string) (wanted : string) : bool :=
  existsb (fun value => (value =?s wanted) || (value =?s "*")) values.

Fixpoint roleAllows (rules : list PolicyRule) (apiGroup resource : string) (verbs : list string) : bool :=
  match rules with
  | [] => false
  | rule :: rest =>
      if negb (grants (rule_APIGroups rule) apiGroup) || negb (grants (rule_Resources rule) resource)
      then roleAllows rest apiGroup resource verbs
      else forallb (grants (rule_Verbs rule)) verbs
  end.

Definition hasServiceAccountSubject (subjects : list Subject) (namespace name : string) : bool :=
  existsb (fun s => (sub_Kind s =?s "ServiceAccount") && (sub_Namespace s =?s namespace) && (sub_Name s =?s name))
    subjects.

Section doctor.
Context `{LabelsLib} `{QuoteLib} (r : Config).

(** ** Checks *)

Definition runtimeClass : KProg Check :=
  got <-- call (Get RuntimeClasses "" (RuntimeClassName r)) ;;
  match got with
  | Err _ => Ret (failed "kata-runtime" ("RuntimeClass " +:+ Quote (RuntimeClassName r) +:+ " is unavailable")
                    "Install the AKS Kata runtime and verify the RuntimeClass name.")
  | Ok class => Ret (pass "kata-runtime" ("RuntimeClass " +:+ Quote (rc_Name class) +:+ " uses handler "
                                         +:+ Quote (rc_Handler class)))
  end.

(** The selector of the class: [None] selects everything, an invalid requirement is an error. *)
Definition class_selector (class : RuntimeClass) : option (option (gmap string string)) :=
  match rc_NodeSelector class with
  | None => Some None
  | Some selector =>
      if Nat.eqb (size selector) 0 then Some None
      else if forallb (fun '(key, value) => labels_NewRequirement key value) (map_to_list selector)
      then Some (Some selector) else None
  end.

Definition eligible (selector : option (gmap string string)) (node : Node) : bool :=
  negb (node_Unschedulable node || negb (nodeReady node)
        || negb (match selector with None => true | Some s => labels_Matches s (node_Labels node) end))
  && negb (node_CpuZero node || node_MemoryZero node).

Definition kataCapacity : KProg Check :=
  got <-- call (Get RuntimeClasses "" (RuntimeClassName r)) ;;
  match got with
  | Err _ => Ret (failed "kata-capacity" "Kata capacity cannot be evaluated without its RuntimeClass"
                    "Install the RuntimeClass first.")
  | Ok class =>
      listed <-- call (List Nodes "" list_all) ;;
      match listed with
      | Err _ => Ret (failed "kata-capacity" "Nodes could not be listed"
                        "Grant the doctor identity permission to list nodes.")
      | Ok nodes =>
          match class_selector class with
          | None => Ret (failed "kata-capacity" "RuntimeClass contains an invalid node selector"
                           "Repair the RuntimeClass scheduling selector.")
          | Some selector =>
              let count := length (List.filter (eligible selector) nodes) in
              if Nat.eqb count 0
              then Ret (failed "kata-capacity" "No ready schedulable node satisfies the Kata RuntimeClass selector"
                          "Scale or repair the Kata node pool.")
              else Ret (pass "kata-capacity" (pretty count +:+ " ready schedulable node(s) satisfy the Kata runtime contract"))
          end
      end
  end.

Definition required_crds : list string :=
  ["capabilitybundles.aks-sandbox.azure.com"; "sandboxaccessrequests.aks-sandbox.azure.com";
   "sandboxassignments.aks-sandbox.azure.com"; "sandboxcredentialevents.aks-sandbox.azure.com";
   "sandboxcredentialrevocations.aks-sandbox.azure.com"; "sandboxegressevents.aks-sandbox.azure.com";
   "sandboxprincipalbindings.aks-sandbox.azure.com"; "sandboxtemplates.aks-sandbox.azure.com";
   "sandboxtenantpolicies.aks-sandbox.azure.com"; "sandboxvalidationruns.aks-sandbox.azure.com"].

Fixpoint missing_crds (names : list string) : KProg (list string) :=
  match names with
  | [] => Ret []
  | name :: rest =>
      got <-- call (Get CustomResourceDefinitions "" name) ;;
      missing <-- missing_crds rest ;;
      Ret (if is_ok got then missing else name :: missing)
  end.

Definition governanceCRDs : KProg Check :=
  missing <-- missing_crds required_crds ;;
  if negb (Nat.eqb (length missing) 0)
  then Ret (failed "governance-crds" ("Missing CRDs: " +:+ strings_Join missing ", ") "Apply deploy/governance/k8s/crds.yaml.")
  else Ret (pass "governance-crds" ("All " +:+ pretty (length required_crds) +:+ " required governance CRDs are installed")).

(** One step of [assignmentService]: an object that must exist and satisfy a condition. *)
Definition require {T} (got : KProg (result T)) (ok : T -> bool) (summary remediation : string) (k : T -> KProg Check)
  : KProg Check :=
  x <-- got ;;
  match x with
  | Ok o => if ok o then k o else Ret (failed "assignmentd" summary remediation)
  | Err _ => Ret (failed "assignmentd" summary remediation)
  end.

Definition bound_to_assignmentd (kind role : string) (binding : RoleBinding) : bool :=
  negb ((rb_RoleRefKind binding <>?s kind) || (rb_RoleRefName binding <>?s role)
        || negb (hasServiceAccountSubject (rb_Subjects binding) (AssignmentNamespace r) "assignmentd")).

Definition workload_rules_ok (rules : list PolicyRule) : bool :=
  roleAllows rules "sandbox.opensandbox.io" "batchsandboxes" ["get"; "list"; "watch"; "delete"]
  && roleAllows rules "" "pods" ["get"; "list"; "watch"]
  && roleAllows rules "" "serviceaccounts" ["get"; "list"; "watch"].

Definition lease_verbs : list string := ["create"; "get"; "update"; "patch"; "delete"].

Definition identity_mode_ok (mode : string) : bool := (mode =?s "projected-sidecar") || (mode =?s "external-mediator").

(** The checks of the roles and bindings. *)
Definition assignment_permissions (k : KProg Check) : KProg Check :=
  require (call (Get Roles (AssignmentNamespace r) "assignmentd"))
    (fun rules => roleAllows rules "coordination.k8s.io" "leases" lease_verbs)
    "assignmentd cannot manage admission and leader-election Leases"
    "Grant the assignmentd Role create, get, update, patch, and delete on coordination.k8s.io Leases." (fun _ =>
  require (call (Get RoleBindings (AssignmentNamespace r) "assignmentd")) (bound_to_assignmentd "Role" "assignmentd")
    "assignmentd Lease permissions are not bound to its ServiceAccount"
    "Bind the assignmentd Role to the assignmentd ServiceAccount." (fun _ =>
  require (call (Get ClusterRoles "" "assignmentd-tokenreview"))
    (fun rules => roleAllows rules "authentication.k8s.io" "tokenreviews" ["create"])
    "assignmentd cannot authenticate caller or Pod tokens" "Grant create on authentication.k8s.io TokenReviews." (fun _ =>
  require (call (Get ClusterRoleBindings "" "assignmentd-tokenreview"))
    (bound_to_assignmentd "ClusterRole" "assignmentd-tokenreview")
    "TokenReview permission is not bound to assignmentd"
    "Bind assignmentd-tokenreview to the assignmentd ServiceAccount." (fun _ =>
  require (call (Get Roles (WorkloadNamespace r) "assignmentd-workloads")) workload_rules_ok
    "assignmentd cannot reconcile workload identities"
    "Grant the assignmentd-workloads Role access to BatchSandboxes, Pods, and ServiceAccounts." (fun _ =>
  require (call (Get RoleBindings (WorkloadNamespace r) "assignmentd-workloads"))
    (bound_to_assignmentd "Role" "assignmentd-workloads")
    "workload reconciliation permission is not bound to assignmentd"
    "Bind assignmentd-workloads to the assignmentd ServiceAccount." (fun _ => k)))))).

Definition rollout_ok (deployment : Deployment) : bool :=
  match dep_Replicas deployment with
  | None => false
  | Some replicas => negb ((replicas <? 2) || (dep_StrategyType deployment <>?s "RollingUpdate"))
  end.

Definition assignmentService : KProg Check :=
  require (call (Get Deployments (AssignmentNamespace r) "assignmentd")) (fun _ => true)
    "assignmentd Deployment is unavailable" "Deploy the governance assignment service." (fun deployment =>
  require (Ret (Ok deployment)) rollout_ok
    "assignmentd must run with at least two replicas and RollingUpdate"
    "Deploy multiple replicas; Kubernetes Leases serialize tenant admission and elect one assignment controller." (fun _ =>
  require (Ret (Ok deployment)) (fun d => negb (dep_ReadyReplicas d <? 2))
    "assignmentd does not have at least two ready replicas"
    "Inspect the Deployment rollout, image pull, Secret, and scheduling events." (fun _ =>
  require (call (Get PodDisruptionBudgets (AssignmentNamespace r) "assignmentd"))
    (fun minAvailable => match minAvailable with None => false | Some n => negb (n <? 1) end)
    "assignmentd PodDisruptionBudget is missing or ineffective"
    "Apply a PodDisruptionBudget with minAvailable of at least one." (fun _ =>
  assignment_permissions (
  let mode := deploymentEnv deployment "ASSIGNMENTD_EGRESS_IDENTITY_MODE" in
  require (Ret (Ok mode)) identity_mode_ok
    "assignmentd has an invalid egress identity mode"
    "Set ASSIGNMENTD_EGRESS_IDENTITY_MODE to projected-sidecar or external-mediator." (fun _ =>
  require (call (Get Services (AssignmentNamespace r) "assignmentd")) (fun _ => true)
    "assignmentd Service is unavailable" "Apply the assignmentd Service manifest." (fun _ =>
  Ret (pass "assignmentd" (pretty (dep_ReadyReplicas deployment) +:+ " assignmentd replicas are ready in "
                          +:+ mode +:+ " identity mode"))))))))).

Definition openSandboxService : KProg Check :=
  got <-- call (Get Services (WorkloadNamespace r) "opensandbox-server") ;;
  if is_ok got then Ret (pass "opensandbox-service" "OpenSandbox lifecycle Service is discoverable")
  else Ret (failed "opensandbox-service" "OpenSandbox lifecycle Service is unavailable"
              "Deploy OpenSandbox before governance components.").

Definition safe_identity (sa : ServiceAccount) : bool :=
  negb ((map_get (om_Labels (sva_meta sa)) EligibleServiceAccountLabel <>?s "true")
        || match sva_AutomountServiceAccountToken sa with None => true | Some automount => automount end).

Definition sandboxServiceAccount : KProg Check :=
  got <-- call (Get ServiceAccounts (WorkloadNamespace r) "opensandbox-workload") ;;
  match got with
  | Err _ => Ret (failed "sandbox-identity" "Sandbox ServiceAccount is unavailable"
                    "Apply deploy/governance/k8s/sandbox-serviceaccount.yaml.")
  | Ok sa =>
      if negb (safe_identity sa)
      then Ret (failed "sandbox-identity" "Sandbox ServiceAccount permits unsafe token behavior"
                  "Mark it eligible and set automountServiceAccountToken: false.")
      else Ret (pass "sandbox-identity" "Sandbox ServiceAccount is eligible and disables token automount")
  end.

Definition nested_enabled {T} (item : Unstructured T) (enabled : bool) : bool :=
  match nested item ["spec"; "enabled"] (Some enabled) with Ok (Some value) => value | _ => false end.
Definition template_enabled (item : Unstructured SandboxTemplate) : bool :=
  nested_enabled item (sts_Enabled (st_Spec (u_obj item))).
Definition policy_enabled (item : Unstructured SandboxTenantPolicy) : bool :=
  nested_enabled item (tps_Enabled (tp_Spec (u_obj item))).

Definition governanceInventory : KProg Check :=
  templates <-- call (List Templates (AssignmentNamespace r) list_all) ;;
  bundles <-- call (List Bundles (AssignmentNamespace r) list_all) ;;
  tenants <-- call (List TenantPolicies (AssignmentNamespace r) list_all) ;;
  match templates, bundles, tenants with
  | Ok templates, Ok bundles, Ok tenants =>
      let enabled := length (List.filter template_enabled templates) in
      let enabledTenants := length (List.filter policy_enabled tenants) in
      if Nat.eqb enabled 0 || Nat.eqb (length bundles) 0 || Nat.eqb enabledTenants 0
      then Ret (failed "governance-inventory" "No enabled template, capability bundle, and tenant policy set is available"
                  "Create at least one enabled immutable template, capability bundle, and tenant policy.")
      else Ret (pass "governance-inventory" (pretty enabled +:+ " enabled template(s), " +:+ pretty (length bundles)
             +:+ " capability bundle(s), and " +:+ pretty enabledTenants +:+ " enabled tenant policy revision(s) are available"))
  | _, _, _ => Ret (failed "governance-inventory" "Templates, capability bundles, or tenant policies could not be listed"
                      "Apply the sample resources and verify RBAC.")
  end.

Definition resourceQuota : KProg Check :=
  listed <-- call (List ResourceQuotas (WorkloadNamespace r) list_all) ;;
  match listed with
  | Err _ => Ret (failed "resource-quota" "ResourceQuotas could not be listed" "Grant permission to list ResourceQuotas.")
  | Ok quotas =>
      if Nat.eqb (length quotas) 0
      then Ret (warning "resource-quota" "No workload namespace ResourceQuota is installed"
                  "Install tenant or workload budgets before shared use.")
      else Ret (pass "resource-quota" (pretty (length quotas) +:+ " ResourceQuota object(s) protect the workload namespace"))
  end.

Definition required_policies : list string := ["sandbox-allow-assignmentd"; "sandbox-default-deny-egress"].

Definition networkPolicy : KProg Check :=
  listed <-- call (List NetworkPolicies (WorkloadNamespace r) list_all) ;;
  match listed with
  | Err _ => Ret (failed "network-policy" "NetworkPolicies could not be listed" "Grant permission to list NetworkPolicies.")
  | Ok policies =>
      if Nat.eqb (length policies) 0
      then Ret (warning "network-policy" "No workload namespace NetworkPolicy is installed"
                  "Install fail-closed ingress and mediated-egress policies.")
      else
        let missing := List.filter (fun name => negb (contains name policies)) required_policies in
        if negb (Nat.eqb (length missing) 0)
        then Ret (warning "network-policy" ("Forced-egress policies are missing: " +:+ strings_Join missing ", ")
                    "Apply deploy/governance/k8s/forced-egress-networkpolicy.yaml.")
        else Ret (pass "network-policy" ("NetworkPolicies installed: " +:+ strings_Join (merge_sort String.le policies) ", "))
  end.

Definition report_of (checks : list Check) : Report :=
  {| rep_Ready := negb (existsb (fun check => chk_Status check =?s StatusFail) checks); rep_Checks := checks |}.

Definition Run : KProg Report :=
  c1 <-- runtimeClass ;; c2 <-- kataCapacity ;; c3 <-- governanceCRDs ;;
  c4 <-- assignmentService ;; c5 <-- openSandboxService ;; c6 <-- sandboxServiceAccount ;;
  c7 <-- governanceInventory ;; c8 <-- resourceQuota ;; c9 <-- networkPolicy ;;
  Ret (report_of [c1; c2; c3; c4; c5; c6; c7; c8; c9]).

End doctor.

(** ** Permissions *)

(** What a role grants: some rule covers the group, the resource and the verb. *)
Definition rbac_allows (rules : list PolicyRule) (apiGroup resource verb : string) : Prop :=
  exists rule, rule ∈ rules /\ grants (rule_APIGroups rule) apiGroup = true /\
    grants (rule_Resources rule) resource = true /\ grants (rule_Verbs rule) verb = true.

Lemma roleAllows_sound rules apiGroup resource verbs :
  roleAllows rules apiGroup resource verbs = true -> forall verb, verb ∈ verbs -> rbac_allows rules apiGroup resource verb.
Proof.
  induction rules as [|rule rest IH]; cbn [roleAllows]; [done|]. intros Ha verb Hv.
  destruct (_ || _) eqn:E.
  - destruct (IH Ha verb Hv) as (r & Hin & ?). exists r. split; [set_solver|done].
  - exists rule. bool_to_prop. split; [set_solver|]. split_and!; [done..|].
    rewrite forallb_forall in Ha. by apply Ha, list_elem_of_In.
Qed.

(** Rules that cover the resource at all. *)
Definition covers (apiGroup resource : string) (rule : PolicyRule) : bool :=
  grants (rule_APIGroups rule) apiGroup && grants (rule_Resources rule) resource.

Lemma roleAllows_covering rules apiGroup resource verbs :
  roleAllows rules apiGroup resource verbs =
  match List.filter (covers apiGroup resource) rules with
  | [] => false
  | rule :: _ => forallb (grants (rule_Verbs rule)) verbs
  end.
Proof.
  induction rules as [|rule rest IH]; [done|]. cbn [roleAllows List.filter].
  replace (covers apiGroup resource rule) with (grants (rule_APIGroups rule) apiGroup && grants (rule_Resources rule) resource)
    by done.
  destruct (grants (rule_APIGroups rule) apiGroup), (grants (rule_Resources rule) resource); done.
Qed.

(** The permission check is sound, and complete for roles with one rule per resource: it accepts a
    role exactly when the role grants every verb, provided at most one rule covers the
    resource. *)
Theorem roleAllows_iff rules apiGroup resource verbs :
  (length (List.filter (covers apiGroup resource) rules) <= 1)%nat -> verbs <> [] ->
  roleAllows rules apiGroup resource verbs = true <->
  forall verb, verb ∈ verbs -> rbac_allows rules apiGroup resource verb.
Proof.
  intros Hone Hne. split; [apply roleAllows_sound|]. intros Hall. rewrite roleAllows_covering.
  assert (forall verb, verb ∈ verbs -> exists rule, rule ∈ List.filter (covers apiGroup resource) rules /\
    grants (rule_Verbs rule) verb = true) as Hv.
  { intros verb (rule & Hin & Hg & Hr & Hvb)%Hall. exists rule. split; [|done].
    apply list_elem_of_In, filter_In. rewrite <- list_elem_of_In. split; [done|]. unfold covers. by rewrite Hg, Hr. }
  destruct (List.filter (covers apiGroup resource) rules) as [|rule [|? ?]]; cbn in Hone; [|..|lia].
  - destruct verbs as [|v vs]; [done|]. destruct (Hv v) as (? & ? & _); set_solver.
  - apply forallb_forall. intros verb Hin%list_elem_of_In. destruct (Hv verb Hin) as (rule' & Hr & Hg).
    apply list_elem_of_singleton in Hr as ->. done.
Qed.

(** The check decides on the first rule that covers the resource, so a role that grants what is
    needed in two rules is refused, although RBAC rules add up. *)
Theorem roleAllows_split_refused : exists rules,
  (forall verb, verb ∈ lease_verbs -> rbac_allows rules "coordination.k8s.io" "leases" verb) /\
  roleAllows rules "coordination.k8s.io" "leases" lease_verbs = false.
Proof.
  pose (lease_rule verbs :=
    {| rule_APIGroups := ["coordination.k8s.io"]; rule_Resources := ["leases"]; rule_Verbs := verbs |}).
  exists [lease_rule ["get"; "update"; "patch"]; lease_rule ["create"; "delete"]].
  split; [|by vm_compute]. intros verb Hv. unfold lease_verbs in Hv.
  repeat (apply elem_of_cons in Hv as [->|Hv];
    [first [exists (lease_rule ["get"; "update"; "patch"]); split_and!; [set_solver|by vm_compute..]
           |exists (lease_rule ["create"; "delete"]); split_and!; [set_solver|by vm_compute..]]|]).
  set_solver.
Qed.

(** ** Readiness *)

Section readiness.
Context `{LabelsLib} `{QuoteLib} (r : Config).

Definition unfailing (c : Check) : Prop := chk_Status c <> StatusFail.

Lemma run_require {T} (got : KProg (result T)) ok summary remediation k t c :
  run (require got ok summary remediation k) t c -> unfailing c ->
  exists o t1 t2, t = t1 ++ t2 /\ run got t1 (Ok o) /\ ok o = true /\ run (k o) t2 c.
Proof.
  unfold require. intros (x & t1 & t2 & -> & Hg & Hr)%run_bind Hc.
  destruct x as [o|]; [destruct (ok o) eqn:E|]; [by exists o, t1, t2|..]; destruct Hr as [_ <-]; by destruct Hc.
Qed.

(** The role grants the verbs on the resource and is bound to assignmentd's ServiceAccount. *)
Definition role_granted (rules : list PolicyRule) (apiGroup resource : string) (verbs : list string) : Prop :=
  forall verb, verb ∈ verbs -> rbac_allows rules apiGroup resource verb.

Record assignmentd_ready (t : list KEvent) : Prop := {
  ar_deployment : exists deployment replicas,
    Ev (Get Deployments (AssignmentNamespace r) "assignmentd") (Ok deployment) ∈ t /\
    dep_Replicas deployment = Some replicas /\ 2 <= replicas /\ dep_StrategyType deployment = "RollingUpdate" /\
    2 <= dep_ReadyReplicas deployment /\
    deploymentEnv deployment "ASSIGNMENTD_EGRESS_IDENTITY_MODE" ∈ ["projected-sidecar"; "external-mediator"];
  ar_disruption : exists n,
    Ev (Get PodDisruptionBudgets (AssignmentNamespace r) "assignmentd") (Ok (Some n)) ∈ t /\ 1 <= n;
  ar_leases : exists rules binding,
    Ev (Get Roles (AssignmentNamespace r) "assignmentd") (Ok rules) ∈ t /\
    role_granted rules "coordination.k8s.io" "leases" lease_verbs /\
    Ev (Get RoleBindings (AssignmentNamespace r) "assignmentd") (Ok binding) ∈ t /\
    bound_to_assignmentd r "Role" "assignmentd" binding = true;
  ar_tokens : exists rules binding,
    Ev (Get ClusterRoles "" "assignmentd-tokenreview") (Ok rules) ∈ t /\
    role_granted rules "authentication.k8s.io" "tokenreviews" ["create"] /\
    Ev (Get ClusterRoleBindings "" "assignmentd-tokenreview") (Ok binding) ∈ t /\
    bound_to_assignmentd r "ClusterRole" "assignmentd-tokenreview" binding = true;
  ar_workloads : exists rules binding,
    Ev (Get Roles (WorkloadNamespace r) "assignmentd-workloads") (Ok rules) ∈ t /\
    role_granted rules "sandbox.opensandbox.io" "batchsandboxes" ["get"; "list"; "watch"; "delete"] /\
    role_granted rules "" "pods" ["get"; "list"; "watch"] /\
    role_granted rules "" "serviceaccounts" ["get"; "list"; "watch"] /\
    Ev (Get RoleBindings (WorkloadNamespace r) "assignmentd-workloads") (Ok binding) ∈ t /\
    bound_to_assignmentd r "Role" "assignmentd-workloads" binding = true;
  ar_service : exists u, Ev (Get Services (AssignmentNamespace r) "assignmentd") (Ok u) ∈ t
}.

Ltac require_step H :=
  let o := fresh "o" in let t1 := fresh "t" in let t2 := fresh "t" in let Hg := fresh "Hg" in let Hk := fresh "Hk" in
  apply run_require in H as (o & t1 & t2 & -> & Hg & Hk & H); [|done];
  first [apply run_call in Hg; subst t1|destruct Hg as [-> [= <-]]]; cbv beta in Hk.

Lemma assignmentService_ready t c : run (assignmentService r) t c -> unfailing c -> assignmentd_ready t.
Proof.
  intros Hr Hc. unfold assignmentService, assignment_permissions in Hr.
  require_step Hr. rename o into deployment. require_step Hr. rename Hk0 into Hrollout. require_step Hr. rename Hk0 into Hready.
  require_step Hr. rename o into budget, Hk0 into Hbudget. require_step Hr. rename o into leases, Hk0 into Hleases.
  require_step Hr. rename o into leasesBound, Hk0 into HleasesBound.
  require_step Hr. rename o into tokens, Hk0 into Htokens. require_step Hr. rename o into tokensBound, Hk0 into HtokensBound.
  require_step Hr. rename o into workloads, Hk0 into Hworkloads.
  require_step Hr. rename o into workloadsBound, Hk0 into HworkloadsBound. cbv zeta in Hr.
  require_step Hr. rename Hk0 into Hmode. require_step Hr. rename o into service. clear Hr.
  unfold rollout_ok in Hrollout. destruct (dep_Replicas deployment) as [replicas|] eqn:Ereplicas; [|done].
  destruct budget as [n|]; [|done]. unfold workload_rules_ok in Hworkloads. bool_to_prop.
  constructor.
  - exists deployment, replicas. split_and!; try done; [set_solver|].
    unfold identity_mode_ok in Hmode. apply orb_true_iff in Hmode as [Hm|Hm]; apply seqb_eq in Hm; rewrite Hm; set_solver.
  - exists n. split; [set_solver|done].
  - exists leases, leasesBound. split_and!; [set_solver|by intros ?; apply roleAllows_sound|set_solver|done].
  - exists tokens, tokensBound. split_and!; [set_solver|by intros ?; apply roleAllows_sound|set_solver|done].
  - exists workloads, workloadsBound. split_and!; [set_solver|by intros ?; apply roleAllows_sound..|set_solver|done].
  - exists service. set_solver.
Qed.

(** What a ready cluster provides. *)
Record cluster_ready (t : list KEvent) : Prop := {
  cr_capacity : exists class nodes selector node,
    Ev (Get RuntimeClasses "" (RuntimeClassName r)) (Ok class) ∈ t /\ Ev (List Nodes "" list_all) (Ok nodes) ∈ t /\
    class_selector class = Some selector /\ node ∈ nodes /\
    node_Unschedulable node = false /\ nodeReady node = true /\ node_CpuZero node = false /\ node_MemoryZero node = false /\
    (forall s, selector = Some s -> labels_Matches s (node_Labels node) = true);
  cr_crds : forall name, name ∈ required_crds -> exists u, Ev (Get CustomResourceDefinitions "" name) (Ok u) ∈ t;
  cr_assignmentd : assignmentd_ready t;
  cr_opensandbox : exists u, Ev (Get Services (WorkloadNamespace r) "opensandbox-server") (Ok u) ∈ t;
  cr_identity : exists sa, Ev (Get ServiceAccounts (WorkloadNamespace r) "opensandbox-workload") (Ok sa) ∈ t /\
    om_Labels (sva_meta sa) !! EligibleServiceAccountLabel = Some "true" /\
    sva_AutomountServiceAccountToken sa = Some false;
  cr_inventory : exists templates bundles tenants template tenant,
    Ev (List Templates (AssignmentNamespace r) list_all) (Ok templates) ∈ t /\
    Ev (List Bundles (AssignmentNamespace r) list_all) (Ok bundles) ∈ t /\
    Ev (List TenantPolicies (AssignmentNamespace r) list_all) (Ok tenants) ∈ t /\ bundles <> [] /\
    template ∈ templates /\ template_enabled template = true /\ tenant ∈ tenants /\ policy_enabled tenant = true
}.

Lemma filter_nonempty {A} (f : A -> bool) l : length (List.filter f l) <> 0%nat -> exists x, x ∈ l /\ f x = true.
Proof.
  intros Hl. destruct (List.filter f l) as [|x rest] eqn:E; [done|].
  exists x. rewrite list_elem_of_In. apply filter_In. rewrite E. by left.
Qed.

Lemma kataCapacity_ready t c :
  run (kataCapacity r) t c -> unfailing c ->
  exists class nodes selector node,
    Ev (Get RuntimeClasses "" (RuntimeClassName r)) (Ok class) ∈ t /\ Ev (List Nodes "" list_all) (Ok nodes) ∈ t /\
    class_selector class = Some selector /\ node ∈ nodes /\ eligible selector node = true.
Proof.
  unfold kataCapacity, unfailing. intros Hr Hc. run_step Hr. destruct a as [class|]; [|by run_step Hr].
  run_step Hr. destruct a as [nodes|]; [|by run_step Hr].
  destruct (class_selector class) as [selector|] eqn:Es; [|by run_step Hr]. cbv zeta in Hr.
  destruct (Nat.eqb _ 0) eqn:En; run_step Hr. apply Nat.eqb_neq, filter_nonempty in En as (node & Hin & He).
  exists class, nodes, selector, node. split_and!; try done; set_solver.
Qed.

Lemma missing_crds_none names t :
  run (missing_crds names) t [] -> forall name, name ∈ names -> exists u, Ev (Get CustomResourceDefinitions "" name) (Ok u) ∈ t.
Proof.
  revert t. induction names as [|n rest IH]; intros t Hr; cbn [missing_crds] in Hr; [set_solver|].
  apply run_bind in Hr as (got & t1 & t2 & -> & ->%run_call & Hr).
  apply run_bind in Hr as (missing & t3 & t4 & -> & Hm & Hr). destruct Hr as [-> Hr].
  destruct got as [u|]; cbn [is_ok] in Hr; [subst missing|done].
  intros name [->|Hin]%elem_of_cons; [exists u; set_solver|]. destruct (IH _ Hm name Hin) as [u' Hu]. exists u'. set_solver.
Qed.

Lemma governanceCRDs_ready t c :
  run governanceCRDs t c -> unfailing c ->
  forall name, name ∈ required_crds -> exists u, Ev (Get CustomResourceDefinitions "" name) (Ok u) ∈ t.
Proof.
  unfold governanceCRDs, unfailing. intros Hr Hc.
  apply run_bind in Hr as (missing & t1 & t2 & -> & Hm & Hr).
  destruct missing; cbn [length Nat.eqb negb] in Hr; [|by run_step Hr]. run_step Hr. rewrite app_nil_r.
  by apply missing_crds_none.
Qed.

Lemma sandboxServiceAccount_ready t c :
  run (sandboxServiceAccount r) t c -> unfailing c ->
  exists sa, Ev (Get ServiceAccounts (WorkloadNamespace r) "opensandbox-workload") (Ok sa) ∈ t /\
    om_Labels (sva_meta sa) !! EligibleServiceAccountLabel = Some "true" /\
    sva_AutomountServiceAccountToken sa = Some false.
Proof.
  unfold sandboxServiceAccount, unfailing. intros Hr Hc. run_step Hr. destruct a as [sa|]; [|by run_step Hr].
  unfold safe_identity in Hr. rewrite negb_involutive in Hr. destruct (_ || _) eqn:E; run_step Hr.
  bool_to_prop. exists sa. split; [set_solver|]. split.
  - unfold map_get in *. destruct (om_Labels _ !! _); cbn in *; by subst.
  - by destruct (sva_AutomountServiceAccountToken sa) as [[]|].
Qed.

Lemma governanceInventory_ready t c :
  run (governanceInventory r) t c -> unfailing c ->
  exists templates bundles tenants template tenant,
    Ev (List Templates (AssignmentNamespace r) list_all) (Ok templates) ∈ t /\
    Ev (List Bundles (AssignmentNamespace r) list_all) (Ok bundles) ∈ t /\
    Ev (List TenantPolicies (AssignmentNamespace r) list_all) (Ok tenants) ∈ t /\ bundles <> [] /\
    template ∈ templates /\ template_enabled template = true /\ tenant ∈ tenants /\ policy_enabled tenant = true.
Proof.
  unfold governanceInventory, unfailing. intros Hr Hc. run_step Hr. run_step Hr. run_step Hr.
  destruct a as [templates|]; [|by run_step Hr]. destruct a0 as [bundles|]; [|by run_step Hr].
  destruct a1 as [tenants|]; [|by run_step Hr]. cbv zeta in Hr. destruct (_ || _) eqn:E; run_step Hr.
  apply orb_false_iff in E as [[E1 E2]%orb_false_iff E3].
  apply Nat.eqb_neq, filter_nonempty in E1 as (template & ? & ?), E3 as (tenant & ? & ?). apply Nat.eqb_neq in E2.
  exists templates, bundles, tenants, template, tenant. split_and!; try done; [set_solver..|]. by intros ->.
Qed.

Lemma openSandboxService_ready t c :
  run (openSandboxService r) t c -> unfailing c ->
  exists u, Ev (Get Services (WorkloadNamespace r) "opensandbox-server") (Ok u) ∈ t.
Proof.
  unfold openSandboxService, unfailing. intros Hr Hc. run_step Hr.
  destruct a as [u|]; cbn [is_ok] in Hr; run_step Hr. exists u. set_solver.
Qed.

Lemma assignmentd_ready_mono t t' : t ⊆ t' -> assignmentd_ready t -> assignmentd_ready t'.
Proof.
  intros Hs [(d & n & ? & ?) (b & ? & ?) (l1 & l2 & ? & ? & ? & ?) (k1 & k2 & ? & ? & ? & ?)
    (w1 & w2 & ? & ? & ? & ? & ? & ?) (u & ?)].
  constructor; [exists d, n|exists b|exists l1, l2|exists k1, k2|exists w1, w2|exists u]; split_and?; set_solver.
Qed.

(** A report that is ready has seen the whole runtime contract: a ready, schedulable Kata node with
    capacity that the runtime class selects, every governance CRD, an assignmentd rolled out with
    two ready replicas, a disruption budget, a valid identity mode and the permissions it uses
    bound to its ServiceAccount, the OpenSandbox service, a sandbox ServiceAccount without a
    mounted token, and an enabled template, a bundle and an enabled tenant policy. *)
Theorem ready_sound t report :
  run (Run r) t report -> rep_Ready report = true -> cluster_ready t.
Proof.
  unfold Run. intros Hr Hready.
  apply run_bind in Hr as (c1 & t1 & u1 & -> & H1 & Hr). apply run_bind in Hr as (c2 & t2 & u2 & -> & H2 & Hr).
  apply run_bind in Hr as (c3 & t3 & u3 & -> & H3 & Hr). apply run_bind in Hr as (c4 & t4 & u4 & -> & H4 & Hr).
  apply run_bind in Hr as (c5 & t5 & u5 & -> & H5 & Hr). apply run_bind in Hr as (c6 & t6 & u6 & -> & H6 & Hr).
  apply run_bind in Hr as (c7 & t7 & u7 & -> & H7 & Hr). apply run_bind in Hr as (c8 & t8 & u8 & -> & H8 & Hr).
  apply run_bind in Hr as (c9 & t9 & u9 & -> & H9 & Hr). destruct Hr as [-> <-].
  cbn [report_of rep_Ready existsb] in Hready. bool_to_prop.
  set (t := t1 ++ _). assert (t2 ⊆ t /\ t3 ⊆ t /\ t4 ⊆ t /\ t5 ⊆ t /\ t6 ⊆ t /\ t7 ⊆ t) as (S2 & S3 & S4 & S5 & S6 & S7).
  { subst t. clear. set_solver. }
  clearbody t.
  apply kataCapacity_ready in H2 as (class & nodes & selector & node & Hclass & Hnodes & Hsel & Hin & He); [|done].
  pose proof (governanceCRDs_ready _ _ H3) as Hcrds. pose proof (assignmentService_ready _ _ H4) as Hsvc.
  apply sandboxServiceAccount_ready in H6 as (sa & Hsa & Hsafe); [|done].
  apply governanceInventory_ready in H7 as (ts & bs & ps & tm & tn & ? & ? & ? & ? & ? & ? & ? & ?); [|done].
  constructor.
  - exists class, nodes, selector, node. unfold eligible in He. bool_to_prop. split_and!; auto. by intros s ->.
  - intros name Hn. destruct (Hcrds ltac:(done) name Hn) as [u Hu]. eauto.
  - eapply assignmentd_ready_mono; [exact S4|]. by apply Hsvc.
  - apply openSandboxService_ready in H5 as [u Hu]; [|done]. eauto.
  - exists sa. split; [by apply S6|done].
  - exists ts, bs, ps, tm, tn. split_and!; auto.
Qed.

End readiness.

End Doctor.
