(* ===== verification/DoctorMain.v ===== *)
(** * The command [sandbox-doctor]

    [cmd/sandbox-doctor/main.go]: flags, clients, the checks of [Doctor], the report as JSON or as a
    table, and the exit status.  The report is given as the JSON tree, or as the text written to the
    tab writer, whose column layout is not modelled.

    [doctor_exit_sound] says what an exit with status 0 means for the cluster. *)

From S2P Require Import Prelude GoStrings GoEncoding GoTime GoFlag GoJson ApiTypes Kube Governance Doctor.
From stdpp Require Import options.

Module DoctorMain.
Import Doctor.

Inductive DoctorCall : Type -> Type :=
  | BuildConfigFromFlags (kubeconfig : string) : DoctorCall (result unit)
  | kubernetes_NewForConfig : DoctorCall (result unit)
  | dynamic_NewForConfig : DoctorCall (result unit)
  | OfCluster {R} (op : Kube R) : DoctorCall R.

Inductive Output := JsonReport (v : json) | TableReport (text : string).

(** What the process leaves behind. *)
Record Exit := { ex_stdout : option Output; ex_stderr : string; ex_code : Z }.

Definition exitError (err : error) : Exit :=
  {| ex_stdout := None; ex_stderr := "sandbox-doctor: " +:+ error_string err +:+ nl; ex_code := 2 |}.

Definition doctor_flags (Getenv : string -> string) (RecommendedHomeFile : string) : FlagSet := list_to_map [
  ("kubeconfig", StringFlag (env_or Getenv "KUBECONFIG" RecommendedHomeFile));
  ("assignment-namespace", StringFlag "aks-sandbox-system");
  ("workload-namespace", StringFlag "opensandbox");
  ("runtime-class", StringFlag "kata-optimized");
  ("output", StringFlag "table")
].

(** The encoding of the report: struct fields in their order. *)
Definition check_json (c : Check) : json := JObject (present [
  ("name", Some (JString (chk_Name c))); ("status", Some (JString (chk_Status c)));
  ("summary", Some (JString (chk_Summary c))); ("remediation", omit_empty (chk_Remediation c))]).

Definition report_json (r : Report) : json :=
  JObject [("ready", JBool (rep_Ready r)); ("checks", JArray (check_json <$> rep_Checks r))].

Definition tab : string := String "009" "".

Definition check_rows (c : Check) : string :=
  chk_Name c +:+ tab +:+ chk_Status c +:+ tab +:+ chk_Summary c +:+ nl
  +:+ (if chk_Remediation c <>?s "" then tab +:+ tab +:+ "remediation: " +:+ chk_Remediation c +:+ nl else "").

Definition report_table (r : Report) : string :=
  "CHECK" +:+ tab +:+ "STATUS" +:+ tab +:+ "SUMMARY" +:+ nl +:+ String.concat "" (check_rows <$> rep_Checks r).

Section main.
Context `{LabelsLib} `{QuoteLib}.

(** After the report: the output and the status. *)
Definition finish (output : string) (report : Report) : Exit :=
  let code := if rep_Ready report then 0 else 1 in
  if output =?s "json" then {| ex_stdout := Some (JsonReport (report_json report)); ex_stderr := ""; ex_code := code |}
  else if output =?s "table"
  then {| ex_stdout := Some (TableReport (report_table report)); ex_stderr := ""; ex_code := code |}
  else exitError (ErrMsg ("unsupported output format " +:+ Quote output)).

Definition doctor_config (flags : FlagSet) : Config := {|
  AssignmentNamespace := string_flag flags "assignment-namespace";
  WorkloadNamespace := string_flag flags "workload-namespace";
  RuntimeClassName := string_flag flags "runtime-class" |}.

(** [main] once the flags are parsed. *)
Definition diagnose (flags : FlagSet) : Prog DoctorCall Exit :=
  built <-- call (BuildConfigFromFlags (string_flag flags "kubeconfig")) ;;
  match built with
  | Err e => Ret (exitError e)
  | Ok _ =>
      kube <-- call kubernetes_NewForConfig ;;
      match kube with
      | Err e => Ret (exitError e)
      | Ok _ =>
          client <-- call dynamic_NewForConfig ;;
          match client with
          | Err e => Ret (exitError e)
          | Ok _ =>
              report <-- within (@OfCluster) (Run (New (doctor_config flags))) ;;
              Ret (finish (string_flag flags "output") report)
          end
      end
  end.

(** [flag.Parse] of the command line ends the process itself: with status 0 when help was asked
    for, with status 2 otherwise.  Positional arguments are ignored. *)
Definition doctor_main (Getenv : string -> string) (RecommendedHomeFile : string) (args : list string)
  : Prog DoctorCall Exit :=
  match flags_Parse (doctor_flags Getenv RecommendedHomeFile) args with
  | Err e =>
      Ret {| ex_stdout := None; ex_stderr := error_string e +:+ nl;
             ex_code := if bool_decide (e = ErrMsg "flag: help requested") then 0 else 2 |}
  | Ok (flags, _) => diagnose flags
  end.

(** The events of the cluster in a trace. *)
Definition cluster_events (tr : list (Event DoctorCall)) : list KEvent :=
  omap (fun e => match e with Ev op r => match op in DoctorCall R return R -> option KEvent with
                                         | OfCluster op => fun r => Some (Ev op r)
                                         | _ => fun _ => None
                                         end r end) tr.

Lemma cluster_events_within t : cluster_events (event_within (@OfCluster) <$> t) = t.
Proof. induction t as [|[R op r] t IH]; [done|]. cbn. by rewrite <- IH at 2. Qed.

Lemma finish_ready output report :
  ex_code (finish output report) = 0 -> rep_Ready report = true /\
  (ex_stdout (finish output report) = Some (JsonReport (report_json report)) \/
   ex_stdout (finish output report) = Some (TableReport (report_table report))).
Proof.
  unfold finish. destruct (output =?s "json"); [|destruct (output =?s "table")]; cbn;
    destruct (rep_Ready report); try done; auto.
Qed.

(** C26. The status of the command: a run that prints a report and exits with 0 has seen the whole runtime
    contract in the cluster that its flags name, the report is ready and it is what is printed;
    a run that prints nothing exits with 0 only when help was asked for. *)
Theorem doctor_exit_sound Getenv home args tr exit :
  run (doctor_main Getenv home args) tr exit -> ex_code exit = 0 ->
  match ex_stdout exit with
  | Some out => exists flags rest report,
      flags_Parse (doctor_flags Getenv home) args = Ok (flags, rest) /\ rep_Ready report = true /\
      (out = JsonReport (report_json report) \/ out = TableReport (report_table report)) /\
      cluster_ready (New (doctor_config flags)) (cluster_events tr)
  | None => tr = [] /\ flags_Parse (doctor_flags Getenv home) args = Err (ErrMsg "flag: help requested")
  end.
Proof.
  unfold doctor_main. destruct (flags_Parse _ args) as [[flags rest]|e] eqn:Ef.
  2: { intros [-> <-]. cbn. case_bool_decide; [subst; done|done]. }
  unfold diagnose. intros Hr Hcode.
  run_step Hr. destruct a as [[]|e]; [|by run_step Hr].
  run_step Hr. destruct a as [[]|e]; [|by run_step Hr].
  run_step Hr. destruct a as [[]|e]; [|by run_step Hr].
  apply run_bind in Hr as (report & t1 & t2 & -> & (t & -> & Hrun)%run_within & [-> <-]).
  rewrite app_nil_r. apply finish_ready in Hcode as [Hready Hout].
  assert (cluster_ready (New (doctor_config flags)) t) as Hc by (by eapply ready_sound).
  destruct Hout as [Hout|Hout]; rewrite Hout; exists flags, rest, report; split_and!; auto;
    cbn; fold (cluster_events (event_within (@OfCluster) <$> t)); by rewrite cluster_events_within.
Qed.

End main.
End DoctorMain.
