(* ===== verification/Fixtures.v ===== *)
(** * A concrete cluster

    Concrete instances of the libraries and one small, consistent cluster: a ready sandbox with
    its template, bundle, tenant policy, principal binding, workload, Pod and access request.
    The witnesses of the other files' theorems run the modelled code against it. *)

From stdpp Require Import pretty countable.
From S2P Require Import Prelude GoStrings GoEncoding GoJson NetIP ApiTypes ApiJson DashboardTypes Kube Governance AuthzServer.
From S2P Require Import Checker EgressAudit CallerAuth Admission Controller Broker Store Facade.
From stdpp Require Import options.

(** ** Libraries *)

#[export] Instance ascii_tables : UnicodeTables :=
  {| upper_table := fun r => r; lower_table := fun r => r; fold_table := fun r => r |}.
#[export] Instance nonempty_names_valid : K8sValidation :=
  {| IsDNS1123Subdomain := fun s => if s =?s "" then ["name is empty"] else [] |}.
#[export] Instance nonempty_uuids : UuidLib := {| uuid_Parse := fun s => s <>?s "" |}.

(** An expression language with the constants [true] and [false]. *)
#[export] Instance boolean_cel : CelLib := {|
  cel_Env := unit; cel_Ast := bool; cel_Program := bool;
  cel_NewEnv := fun _ => Ok tt;
  cel_Compile := fun _ e => if e =?s "true" then Ok true else if e =?s "false" then Ok false
                            else Err (ErrMsg "syntax error");
  cel_OutputIsBool := fun _ => true; cel_MakeProgram := fun _ ast _ => Ok ast;
  cel_Eval := fun p _ => Ok (CelBool p) |}.

#[export] Instance no_expiry : JwtUnverified := {| jwt_ParseUnverified := fun _ => Ok None |}.

(** Quantities are the lengths of their texts. *)
#[export] Instance unary_quantities : Quantities := {|
  Quantity := Z; ParseQuantity := fun s => Ok (slen s);
  quantity_Sign := Z.sgn; quantity_Cmp := fun x y => x - y |}.

(** The bits of a number. *)
Fixpoint bits (p : positive) : string :=
  match p with xH => "" | xO p => String "0" (bits p) | xI p => String "1" (bits p) end.

Definition bundle_spec : CapabilityBundleSpec := {|
  cbs_Egress := Some {| ep_Agentgateway := {[ "github" := {| abp_Allow := "true" |};
                                               "pypi" := {| abp_Allow := "false" |} ]} |};
  cbs_Harness := None;
  cbs_Governance := Some {| gb_LogicalTenant := "tenant-a"; gb_Team := "team-a";
                            gb_PermissionLevel := "standard"; gb_DisplayName := "Team A" |} |}.

Definition revision : string := "sha256:62".

Definition template_spec : SandboxTemplateSpec := {|
  sts_DisplayName := "Python"; sts_Description := ""; sts_Image := "python:3"; sts_Entrypoint := ["sleep"];
  sts_CapabilityBundleRef := {| cbr_Name := "bundle-a"; cbr_PolicyRevision := revision |};
  sts_Resources := {| str_CPU := "1"; str_Memory := "1" |};
  sts_TimeoutSeconds := 600; sts_Enabled := true |}.

(** The digest is injective, and short on the specifications of the cluster. *)
Definition bundle_text : string := Eval vm_compute in json_text (bundle_json bundle_spec).
Definition template_text : string := Eval vm_compute in json_text (template_json template_spec).

#[export] Instance labelled_digest : Sha256 := {| sha256_Sum256 := fun s =>
  if s =?s bundle_text then "b" else if s =?s template_text then "t" else String "#" s |}.

#[export] Instance labelled_digest_inj : Inj (=) (=) sha256_hex.
Proof.
  intros s t E. apply (inj hex_EncodeToString) in E. cbn [sha256_Sum256 labelled_digest] in E.
  destruct (s =?s bundle_text) eqn:E1, (t =?s bundle_text) eqn:E2, (s =?s template_text) eqn:E3,
    (t =?s template_text) eqn:E4; bool_to_prop; congruence.
Qed.

(** A token is the bits of a code of its key identifier, key and claims. *)
#[export] Instance GrantClaims_eq_dec : EqDecision GrantClaims.
Proof. solve_decision. Defined.

#[export] Program Instance GrantClaims_countable : Countable GrantClaims :=
  inj_countable'
    (fun c => (gc_AssignmentName c, gc_AssignmentUID c, gc_SandboxID c, gc_PodUID c,
               gc_CapabilityBundleName c, gc_CapabilityBundleRevision c, gc_TaskID c, gc_Backend c,
               gc_Method c, gc_Host c, gc_Path c, gc_Issuer c, gc_Subject c, gc_Audience c,
               gc_ExpiresAt c, gc_NotBefore c, gc_IssuedAt c, gc_ID c))
    (fun '(an, au, si, pu, bn, br, ti, b, m, h, p, i, su, a, e, n, ia, gi) =>
       Build_GrantClaims an au si pu bn br ti b m h p i su a e n ia gi) _.
Next Obligation. by intros []. Qed.

Fixpoint unbits (s : string) : positive :=
  match s with
  | EmptyString => xH
  | String c s => if bool_decide (c = "1"%char) then xI (unbits s) else xO (unbits s)
  end.

Lemma unbits_bits p : unbits (bits p) = p.
Proof. induction p; cbn; try case_bool_decide; congruence. Qed.

Definition broker : Broker.Config := {|
  bc_SigningKey := "0123456789abcdef0123456789abcdef"; bc_SigningKeyID := "current";
  bc_PreviousSigningKeys := ∅; bc_Issuer := defaultIssuer; bc_Audience := defaultAudience |}.

(** A credential for the ready sandbox, signed by the broker. *)
Definition grant_request : issueRequest := {|
  iq_IdentityToken := "token"; iq_Backend := "github"; iq_Method := "GET"; iq_Host := "api.github.com";
  iq_Path := "/repos"; iq_TaskID := "task-1"; iq_TTLSeconds := 300 |}.
Definition grant_target : Target :=
  {| t_Backend := "github"; t_Method := "GET"; t_Host := "api.github.com"; t_Path := "/repos" |}.
Definition grant_decision : Decision := {|
  d_Allow := true; d_Reason := ""; d_Source := DecisionSourceBundle; d_AccessRequestName := "";
  d_AssignmentName := "assignment-1"; d_AssignmentUID := "assignment-uid"; d_SandboxID := "sandbox-1";
  d_PodUID := "pod-uid"; d_CapabilityBundleName := "bundle-a"; d_CapabilityBundleRevision := revision;
  d_LogicalTenant := "tenant-a"; d_Team := ""; d_PermissionLevel := ""; d_BoundaryDisplayName := "";
  d_Backend := "github"; d_Method := "GET"; d_Host := "api.github.com"; d_Path := "/repos" |}.
Definition grant : GrantClaims :=
  grant_claims broker grant_request grant_target grant_decision (1000 * Second) (300 * Second) "uuid".
Definition credential : string := "credential".

(** The fixture's grant has a short token. *)
Definition sign (kid key : string) (claims : GrantClaims) : string :=
  if bool_decide ((kid, key, claims) = (bc_SigningKeyID broker, bc_SigningKey broker, grant))
  then credential else bits (encode (kid, key, claims)).
Definition unsign (token : string) : option (string * string * GrantClaims) :=
  if token =?s credential then Some (bc_SigningKeyID broker, bc_SigningKey broker, grant)
  else decode (unbits token).

Lemma bits_not_credential p : bits p <> credential.
Proof. by destruct p. Qed.

Lemma unsign_sign kid key claims : unsign (sign kid key claims) = Some (kid, key, claims).
Proof.
  unfold sign. case_bool_decide as E; unfold unsign; [by rewrite seqb_refl, E|].
  assert ((bits (encode (kid, key, claims)) =?s credential) = false) as ->
    by apply seqb_neq, bits_not_credential.
  by rewrite unbits_bits, decode_encode.
Qed.

Definition token_acceptable (claims : GrantClaims) (audience issuer : string) (now : Time) : bool :=
  contains audience (gc_Audience claims) && (gc_Issuer claims =?s issuer)
  && match gc_ExpiresAt claims with Some t => now <? t | None => true end
  && match gc_NotBefore claims with Some t => t <=? now | None => true end.

#[export] Instance transparent_jwt : JwtLib := {|
  jwt_Sign := fun kid key claims => Ok (sign kid key claims);
  jwt_Parse := fun token keyfunc audience issuer methods now =>
    match unsign token with
    | Some (kid, key, claims) =>
        match keyfunc HS256 kid with
        | Ok key' => if (key =?s key') && contains HS256 methods && token_acceptable claims audience issuer now
                     then Ok (claims, true) else Err (ErrMsg "token is invalid")
        | Err e => Err e
        end
    | None => Err (ErrMsg "token is malformed")
    end |}.

#[export] Instance transparent_jwt_laws : JwtLaws.
Proof.
  constructor.
  - intros kid key claims token keyfunc audience issuer now [= <-] Hk Ha <- He Hn. cbn [jwt_Parse transparent_jwt].
    rewrite unsign_sign, Hk, seqb_refl. unfold token_acceptable.
    apply contains_true in Ha as ->. rewrite seqb_refl.
    assert (match gc_ExpiresAt claims with Some t => now <? t | None => true end = true) as ->.
    { destruct (gc_ExpiresAt claims); [apply Z.ltb_lt; auto|done]. }
    assert (match gc_NotBefore claims with Some t => t <=? now | None => true end = true) as ->; [|done].
    destruct (gc_NotBefore claims); [apply Z.leb_le; auto|done].
  - intros token keyfunc audience issuer methods now claims. cbn [jwt_Parse transparent_jwt]. intros Hp.
    destruct (unsign token) as [[[kid key] c]|]; [|done]. destruct (keyfunc HS256 kid); [|done].
    case_match eqn:E; [|done]. injection Hp as ->. unfold token_acceptable in E. bool_to_prop.
    split_and!; try done. intros t Ht. rewrite Ht in *. by bool_to_prop.
Qed.

(** The bodies of two requests for it. *)
Definition issue_body (ttl : string) : string :=
  json_text (JObject [("identityToken", JString "token"); ("backend", JString "github"); ("method", JString "GET");
                      ("host", JString "api.github.com"); ("path", JString "/repos"); ("taskId", JString "task-1");
                      ("ttlSeconds", JNumber ttl)]).

(** ** The cluster *)

Definition meta_of (ns name uid : string) : ObjectMeta := {|
  om_Name := name; om_GenerateName := ""; om_Namespace := ns; om_UID := uid; om_ResourceVersion := "1";
  om_Generation := 1; om_CreationTimestamp := 100 * Second; om_DeletionTimestamp := None;
  om_Labels := ∅; om_Annotations := ∅; om_Finalizers := []; om_OwnerReferences := [] |}.

Definition bundle : Unstructured CapabilityBundle := wf {|
  cb_meta := set_finalizers [bundleFinalizer] (meta_of "governance" "bundle-a" "bundle-uid");
  cb_Spec := bundle_spec |}.


Definition template : Unstructured SandboxTemplate := wf {|
  st_meta := meta_of "governance" "python" "template-uid";
  st_Spec := template_spec |}.

Definition policy : Unstructured SandboxTenantPolicy := wf {|
  tp_meta := meta_of "governance" "policy-a" "policy-uid";
  tp_Spec := {| tps_LogicalTenant := "tenant-a"; tps_WorkloadNamespace := "sandboxes";
                tps_AllowedCapabilityBundles := ["bundle-a"]; tps_AllowedCapabilityBundlePrefixes := [];
                tps_MaxConcurrentSandboxes := 2; tps_MaxLifetimeSeconds := 3600;
                tps_MaxAccessRequestDurationSeconds := 3600; tps_MaxCPU := "11"; tps_MaxMemory := "11";
                tps_Enabled := true |} |}.

Definition binding : Unstructured SandboxPrincipalBinding := wf {|
  pb_meta := meta_of "governance" "binding-a" "binding-uid";
  pb_Spec := {| pbs_TenantID := ""; pbs_ObjectID := ""; pbs_ServiceAccountNamespace := "callers";
                pbs_ServiceAccountName := "agent"; pbs_RequesterTenants := ["tenant-a"];
                pbs_AdminTenants := [] |} |}.

Definition workload : Unstructured BatchSandbox := wf {|
  bs_meta := set_annotations {[ AssignmentUIDAnnotation := "assignment-uid" ]}
               (meta_of "sandboxes" "sandbox-1" "workload-uid");
  bs_APIVersion := "sandbox.opensandbox.io/v1alpha1"; bs_Kind := "BatchSandbox";
  bs_replicas := Some 1; bs_poolRef := None |}.

Definition pod : Pod := {|
  pod_meta := {| om_Name := "sandbox-1-0"; om_GenerateName := ""; om_Namespace := "sandboxes";
                 om_UID := "pod-uid"; om_ResourceVersion := "1"; om_Generation := 1;
                 om_CreationTimestamp := 100 * Second; om_DeletionTimestamp := None; om_Labels := ∅;
                 om_Annotations := {[ AssignmentUIDAnnotation := "assignment-uid" ]}; om_Finalizers := [];
                 om_OwnerReferences := [{| or_Kind := "BatchSandbox"; or_UID := "workload-uid";
                                           or_Controller := Some true |}] |};
  pod_Spec := {| ps_ServiceAccountName := "sandbox"; ps_AutomountServiceAccountToken := Some false;
                 ps_RuntimeClassName := Some "kata-vm-isolation";
                 ps_Volumes := [{| vol_Name := identityVolume;
                   vol_Projected := Some [Some {| satp_Audience := identityAudience;
                     satp_ExpirationSeconds := Some 600; satp_Path := "token" |}] |}];
                 ps_Containers := [{| ctr_Name := identityContainer; ctr_VolumeMounts :=
                   [{| vm_Name := identityVolume; vm_ReadOnly := true; vm_MountPath := identityMountPath;
                       vm_SubPath := ""; vm_SubPathExpr := "" |}] |}] |};
  pod_Status := {| pst_Phase := "Running"; pst_PodIP := "10.0.0.7"; pst_PodIPs := ["10.0.0.7"];
                   pst_Conditions := [{| pc_Type := "Ready"; pc_Status := "True" |}] |} |}.

Definition account : ServiceAccount := {|
  sva_meta := set_labels {[ EligibleServiceAccountLabel := "true" ]} (meta_of "sandboxes" "sandbox" "account-uid");
  sva_AutomountServiceAccountToken := Some false |}.

Definition ready_condition : Condition := {|
  c_Type := "Ready"; c_Status := "True"; c_Reason := "AssignmentReady"; c_Message := "";
  c_ObservedGeneration := 1; c_LastTransitionTime := 100 * Second |}.

(** The assignment of a created sandbox, with the status [status]. *)
Definition assignment_with (annotations : gmap string string) (deleted : option Time)
  (status : SandboxAssignmentStatus) : Unstructured SandboxAssignment := wf {|
  sa_meta := {| om_Name := "assignment-1"; om_GenerateName := ""; om_Namespace := "governance";
                om_UID := "assignment-uid"; om_ResourceVersion := "1"; om_Generation := 1;
                om_CreationTimestamp := 50 * Second; om_DeletionTimestamp := deleted; om_Labels := ∅;
                om_Annotations := annotations; om_Finalizers := [assignmentFinalizer];
                om_OwnerReferences := [] |};
  sa_Spec := {| as_TemplateRef := {| tr_Name := "python"; tr_UID := "template-uid";
                                     tr_SpecRevision := "sha256:74" |};
                as_LogicalTenant := "tenant-a";
                as_CapabilityBundleRef := {| cbr_Name := "bundle-a"; cbr_PolicyRevision := "" |} |};
  sa_Status := status |}.

Definition ready_status_of : SandboxAssignmentStatus := {|
  ss_WorkloadRef := Some (workloadReference workload); ss_PodRef := Some (podReference pod);
  ss_ResolvedCapabilityBundle := Some {| rcb_Name := "bundle-a"; rcb_UID := "bundle-uid";
                                         rcb_PolicyRevision := revision |};
  ss_Conditions := [ready_condition] |}.

Definition mapped : gmap string string := {[ SandboxIDAnnotation := "sandbox-1" ]}.
Definition assignment : Unstructured SandboxAssignment := assignment_with mapped None ready_status_of.
Definition pending : Unstructured SandboxAssignment := assignment_with mapped None empty_status.
Definition deleting : Unstructured SandboxAssignment :=
  assignment_with mapped (Some (900 * Second)) ready_status_of.

Definition identity : GovernanceIdentity := {|
  gi_TenantID := "t"; gi_ObjectID := "o"; gi_DisplayName := "Alice"; gi_LogicalTenant := "tenant-a";
  gi_Team := "team-a" |}.

Definition request_spec : SandboxAccessRequestSpec := {|
  rs_AssignmentRef := {| ar_Name := "assignment-1"; ar_UID := "assignment-uid" |};
  rs_PodUID := "pod-uid"; rs_BasePolicyRevision := "sha256:base"; rs_Backend := "pypi"; rs_Method := "GET";
  rs_Host := "pypi.org"; rs_Path := "/simple"; rs_Reason := "need it"; rs_Requester := identity;
  rs_RequestedDurationSeconds := 600 |}.

Definition access_request : Unstructured SandboxAccessRequest := wf {|
  req_meta := meta_of "governance" "request-1" "request-uid"; req_Spec := request_spec;
  req_Status := {| rst_State := SandboxAccessRequestApproved; rst_Approver := Some identity;
                   rst_DecisionReason := "fine"; rst_ApprovedAt := Some (900 * Second);
                   rst_ExpiresAt := Some (1400 * Second) |} |}.

Definition egress_event (name : string) (at_ : Time) : Unstructured SandboxEgressEvent := wf {|
  ev_meta := meta_of "governance" name ("uid-" +:+ name);
  ev_Spec := ev_Spec (egressEventForDecision "governance" at_ empty_decision) |}.

(** ** Answers *)

Definition NotFound : error := ErrApi ReasonNotFound.

(** What the services answer. *)
Record Answers := {
  an_get : forall T, Resource T -> string -> result T;
  an_list : forall T, Resource T -> result (list T);
  an_review : TokenReviewStatus;
  an_now : Time;
  an_upstream : HttpResponse
}.

Definition default_get (assigned : Unstructured SandboxAssignment) : forall T, Resource T -> string -> result T :=
  fun T r => match r in Resource T return string -> result T with
  | Assignments => fun _ => Ok assigned
  | Bundles => fun _ => Ok bundle
  | Templates => fun _ => Ok template
  | Pods => fun _ => Ok pod
  | ServiceAccounts => fun _ => Ok account
  | _ => fun _ => Err NotFound
  end.

Definition default_list (assigned : list (Unstructured SandboxAssignment)) : forall T, Resource T -> result (list T) :=
  fun T r => match r in Resource T return result (list T) with
  | Assignments => Ok assigned
  | Bundles => Ok [bundle]
  | TenantPolicies => Ok [policy]
  | PrincipalBindings => Ok [binding]
  | AccessRequests => Ok [access_request]
  | EgressEvents => Ok [egress_event "old" (10 * Second); egress_event "new" (990 * Second)]
  | Workloads => Ok [workload]
  | Pods => Ok [pod]
  | _ => Ok []
  end.

Definition review (username : string) : TokenReviewStatus := {|
  trs_Authenticated := true; trs_Error := ""; trs_Audiences := ["aud"]; trs_Username := username;
  trs_Extra := {[ podNameExtra := ["sandbox-1-0"]; podUIDExtra := ["pod-uid"] ]} |}.

Definition answers : Answers := {|
  an_get := default_get assignment; an_list := default_list [assignment];
  an_review := review "system:serviceaccount:sandboxes:sandbox"; an_now := 1000 * Second;
  an_upstream := {| resp_StatusCode := 200; resp_Header := []; resp_Body := "body" |} |}.

(** The session store holds one administrator session under the cookie value [random]. *)
Definition admin_identity : authenticatedIdentity := {|
  ai_TenantID := "t"; ai_ObjectID := "o"; ai_Name := "Alice"; ai_Roles := ["admin"]; ai_Scopes := [];
  ai_ExpiresAt := 2000 * Second |}.
Definition admin_session : dashboardSession := {|
  ds_Identity := admin_identity; ds_CSRFToken := "csrf"; ds_CreatedAt := 900 * Second;
  ds_ExpiresAt := 1800 * Second |}.
Definition serve_session {R} (op : SessionOp R) : R :=
  match op in SessionOp R return R with
  | store_createSession _ => Ok "random"
  | store_getSession raw => if raw =?s "random" then Some admin_session else None
  | store_deleteSession _ => tt
  end.

(** The embedded dashboard's client knows the governed sandbox and one snapshot of it. *)
Definition osb_sandbox : OsbSandbox := {| osb_ID := "sandbox-1"; osb_Metadata := None; osb_Rest := "" |}.
Definition osb_foreign : OsbSandbox := {| osb_ID := "sandbox-2"; osb_Metadata := None; osb_Rest := "" |}.
Definition osb_snapshot : OsbSnapshot :=
  {| snap_ID := "snapshot-1"; snap_SandboxID := "sandbox-1"; snap_Rest := "" |}.
Definition serve_osb {R} (op : OsbOp R) : R :=
  match op in OsbOp R return R with
  | osb_ListSandboxes => Ok [osb_sandbox; osb_foreign]
  | osb_ListSnapshots => Ok [osb_snapshot]
  | osb_GetSnapshot _ | osb_CreateSnapshot _ _ => Ok osb_snapshot
  | osb_ListSandboxNodeLoads | osb_ListPodEvents _ | osb_ListRecentSandboxEvents _ => Ok []
  | osb_CreateSandbox _ => Ok osb_sandbox
  | osb_DeleteSandbox _ | osb_PauseSandbox _ | osb_ResumeSandbox _ | osb_DeleteSnapshot _ | osb_Close => Ok tt
  | osb_OpenPTY _ | osb_RunCommand _ _ => Ok "output"
  end.

(** Writes succeed and return what was written. *)
Definition serve (a : Answers) : Handler Kube unit := fun R op w =>
  (match op in Kube R return R with
   | Get r _ name => an_get a _ r name
   | List r _ _ => an_list a _ r
   | Create _ _ o | Update _ _ o | UpdateStatus _ _ o => Ok o
   | MergePatchStatus r _ name _ => an_get a _ r name
   | Delete _ _ _ _ => Ok tt
   | TokenReviews_Create _ _ => Ok (an_review a)
   | time_Now => an_now a
   | uuid_NewString => "uuid"
   | ctx_Done => None
   | Upstream_Do _ _ _ _ | Proxy_ServeHTTP _ _ _ _ | Mise_Do _ _ | Base_RoundTrip _ _ _ _ => Ok (an_upstream a)
   | rand_Read _ => Ok "random"
   | os_ReadFile _ => Ok "token"
   | Sessions op => serve_session op
   | Osb op => serve_osb op
   end, w).

(** The informer caches of the same cluster. *)
Definition caches : Caches := {|
  ca_podsByUID := fun _ => Ok [pod]; ca_serviceAccountByKey := fun _ => Ok (Some account);
  ca_assignmentsByPodUID := fun _ => Ok [assignment]; ca_bundleByKey := fun _ => Ok (Some bundle);
  ca_accessRequestsByAssignmentUID := fun _ => Ok [Some access_request] |}.

Definition checker_config : CheckerConfig := {|
  cc_assignmentNamespace := "governance"; cc_workloadNamespace := "sandboxes"; cc_audience := "aud";
  cc_celEnv := tt |}.

Definition checker_state : CheckerState := {|
  cs_programs := ∅; cs_tokens := ∅; cs_lastFreshUnixNano := 995 * Second; cs_metrics := zero_metrics |}.

Definition sink : KubernetesAuditSink := {|
  kas_namespace := "governance"; kas_retention := 500 * Second; kas_cleanupInterval := Minute;
  kas_accepting := true;
  kas_metrics := {| am_Enqueued := 0; am_Written := 0; am_Dropped := 0; am_Errors := 0 |} |}.

Definition check_request : option CheckRequest := Some {| cq_Attributes := Some {|
  ac_ContextExtensions := {[ BackendContextKey := "github" ]};
  ac_Http := Some {| hr_Method := "GET"; hr_Path := "/repos"; hr_Host := "api.github.com";
                     hr_Headers := [("X-AKS-Sandbox-Identity", "token"); ("Accept", "json")] |};
  ac_SourceAddress := Some (SocketAddress "10.0.0.7") |} |}.

(** ** The lifecycle facade over this cluster *)

#[export] Instance opaque_parts : SdkTypes := {| sdk_Part := unit |}.

Definition caller_request : CreateSandboxRequest := {|
  csr_Image := Some "evil:latest"; csr_SnapshotID := "snapshot"; csr_Timeout := Some 999999;
  csr_ResourceLimits := {[ "cpu" := "64" ]}; csr_ResourceRequests := Some tt; csr_Entrypoint := ["sh"];
  csr_NetworkPolicy := Some tt; csr_CredentialProxy := Some tt; csr_Volumes := Some tt;
  csr_Platform := Some tt; csr_Extensions := Some {[ SandboxTemplateExtension := "python" ]};
  csr_Metadata := None; csr_Other := tt |}.

Definition stored_sandbox : sandboxResponse := {|
  sres_Metadata := {[ AssignmentLabel := "assignment-1"; "owner" := "alice" ]};
  sres_Extensions := {[ assignmentUIDExtension := "assignment-uid" ]}; sres_Other := tt |}.

#[export] Instance fixed_sdk_json : SdkJson := {|
  decode_create := fun _ => Ok caller_request; encode_create := fun _ => Ok "create";
  encode_hash_payload := fun _ _ _ _ => Ok "payload";
  decode_created := fun _ => Ok {| cres_ID := "sandbox-1"; cres_Metadata := ∅; cres_Extensions := ∅;
                                   cres_CreatedAt := 1000 * Second; cres_Other := None |};
  encode_created := fun _ => Ok "created"; decode_sandbox := fun _ => Ok stored_sandbox;
  encode_sandbox := fun v => Ok (strings_Join (map_to_list (sres_Metadata v)).*2 ",");
  decode_sandboxes := fun _ => Ok ([stored_sandbox], tt); encode_sandboxes := fun _ => Ok "sandboxes";
  decode_patch_keys := fun _ => Ok ["owner"] |}.

#[export] Instance cluster_store : AssignmentStore := kubernetes_store (fun _ => Ok [assignment]).
#[export] Instance cluster_resolver : TemplateResolver := kubernetes_resolver "governance".
#[export] Instance cluster_quiet : QuietDependencies := kubernetes_quiet _ _.

Definition tenant_admission : KubernetesAdmission := {|
  ka_assignmentNamespace := "governance"; ka_workloadNamespace := "sandboxes"; ka_kube := true |}.

Definition facade_at (base : string) : Facade.Config := {|
  cfg_Prefix := "/opensandbox"; cfg_UpstreamPath := base; cfg_APIKey := "key"; cfg_Namespace := "governance";
  cfg_TransitionTimeout := 30 * Second; cfg_Admission := Some tenant_admission; cfg_CallerAuthorizer := true;
  cfg_RequireIdempotency := true; cfg_PendingOperationTTL := 10 * Minute; cfg_polls := 3 |}.
Definition facade : Facade.Config := facade_at "".

Definition http (method path : string) : Request := {|
  r_Method := method; r_Path := path;
  r_Header := [("Authorization", ["Bearer token"]); ("Idempotency-Key", ["key-0001"])];
  r_Body := Ok "{}"; r_Scopes := Some {[ "tenant-a" ]} |}.

Definition caller_review : TokenReviewStatus := review "system:serviceaccount:callers:agent".

(** The same services, with other stored assignments, another reviewed token, another upstream
    answer or no Pods. *)
Definition with_assignments (one : Unstructured SandboxAssignment) (all : list (Unstructured SandboxAssignment))
  (a : Answers) : Answers := {|
  an_get := default_get one; an_list := default_list all; an_review := an_review a; an_now := an_now a;
  an_upstream := an_upstream a |}.
Definition with_review (status : TokenReviewStatus) (a : Answers) : Answers := {|
  an_get := an_get a; an_list := an_list a; an_review := status; an_now := an_now a;
  an_upstream := an_upstream a |}.
Definition with_upstream (response : HttpResponse) (a : Answers) : Answers := {|
  an_get := an_get a; an_list := an_list a; an_review := an_review a; an_now := an_now a;
  an_upstream := response |}.
Definition without_pods (a : Answers) : Answers := {|
  an_get := fun T r => match r in Resource T return string -> result T with
    | Pods => fun _ => Err NotFound | r => an_get a _ r end;
  an_list := fun T r => match r in Resource T return result (list T) with
    | Pods => Ok [] | r => an_list a _ r end;
  an_review := an_review a; an_now := an_now a; an_upstream := an_upstream a |}.
