(* ===== verification/Witnesses.v ===== *)
(** * Runs of the modelled code against the concrete cluster

    For each theorem with hypotheses, one closed instance: the code runs against the cluster of
    [Fixtures], the hypotheses hold there, and the theorem gives its conclusion. *)

From S2P Require Import Prelude GoStrings NetIP ApiTypes ApiJson Kube Governance AuthzServer Checker.
From S2P Require Import EgressAudit CallerAuth Admission AdmissionProtocol Controller Broker Store Facade Fixtures.
From stdpp Require Import options.

(** The trace of a program against the services [a]. *)
Definition trace_of {A} (a : Answers) (p : KProg A) : list KEvent := (record_trace (serve a) p tt).1.

Lemma ran {A} (a : Answers) (p : KProg A) r :
  (record_trace (serve a) p tt).2 = r -> run p (trace_of a p) r.
Proof. apply record_trace_run. Qed.

Ltac runs := apply ran; vm_compute; reflexivity.

(** The run with its own outcome, and with an outcome of a known form. *)
Lemma ran_self {A} (a : Answers) (p : KProg A) : exists r, run p (trace_of a p) r.
Proof. eexists. by apply ran. Qed.

Lemma ran_with {A} (a : Answers) (p : KProg A) (form : A -> bool) :
  form (record_trace (serve a) p tt).2 = true -> exists r, form r = true /\ run p (trace_of a p) r.
Proof. intros Hf. eexists. split; [exact Hf|by apply ran]. Qed.

Definition is_inr {A B} (x : A + B) : bool := match x with inr _ => true | inl _ => false end.
Definition is_some_ok {A} (x : option (result A)) : bool := match x with Some r => is_ok r | None => false end.
Definition is_some_err {A} (x : option (result A)) : bool :=
  match x with Some r => negb (is_ok r) | None => false end.
Definition is_pass (x : Facade.Reply) : bool :=
  match x with PassReply _ status _ => status =? 200 | _ => false end.

#[export] Instance CheckResponse_eq_dec : EqDecision CheckResponse.
Proof. solve_decision. Defined.
Definition is_allowed {A B} (x : CheckResponse * A * B) : bool := bool_decide (x.1.1 = allowedResponse).
Definition caches_token {A} (x : A * CheckerState) : bool :=
  match cs_tokens x.2 !! sha256_hex "token" with Some _ => true | None => false end.

(** ** Authorization *)

Lemma empty_checker_inv : checker_inv checker_config checker_state.
Proof.
  constructor; cbn.
  - rewrite map_size_empty. unfold maxCompiledPrograms. lia.
  - rewrite map_size_empty. unfold maxTokenCacheEntries. lia.
  - intros key p. by rewrite lookup_empty.
  - intros k cached. by rewrite lookup_empty.
Qed.

Lemma caches_text : bundles_text caches.
Proof. intros key b [= <-]. split; vm_compute; reflexivity. Qed.

Definition checked := Server_Check (H0 := kubernetes_checker checker_config caches) check_request
  (checker_state, Some sink).

Lemma checked_allows : exists log s' audit',
  run checked (trace_of answers checked) (allowedResponse, log, (s', audit')).
Proof.
  destruct (ran_with answers checked is_allowed ltac:(vm_compute; reflexivity))
    as ([[resp log] [s' audit']] & E & Hr).
  apply bool_decide_eq_true in E. cbn in E. subst resp. exists log, s', audit'. exact Hr.
Qed.

Lemma Server_Check_allow_sound_witness : exists log s' audit' input d,
  run checked (trace_of answers checked) (allowedResponse, log, (s', audit')) /\
  normalize check_request = Ok input /\ d_Allow d = true /\
  allow_evidence checker_config caches input checker_state (trace_of answers checked) d.
Proof.
  destruct checked_allows as (log & s' & audit' & Hr). exists log, s', audit'.
  destruct (Server_Check_allow_sound checker_config caches check_request checker_state (Some sink) _ _ _ _
    labelled_digest_inj caches_text empty_checker_inv Hr)
    as (input & d & Hn & Ha & He & _).
  exists input, d. split; [exact Hr|]. split; [exact Hn|]. split; [exact Ha|exact He].
Defined.

Lemma caches_have_uid : assignments_have_uid caches.
Proof. intros key objects object [= <-] ->%list_elem_of_singleton. done. Qed.

Lemma allowed_is_recorded_witness : exists log s' audit' d now stored,
  run checked (trace_of answers checked) (allowedResponse, log, (s', audit')) /\ d_Allow d = true /\
  Ev (Create EgressEvents "governance"
        (wf (egressEventForDecision "governance" now (sanitizeDecision d)))) (Ok stored)
    ∈ trace_of answers checked.
Proof.
  destruct checked_allows as (log & s' & audit' & Hr). exists log, s', audit'.
  destruct (allowed_is_recorded checker_config caches check_request checker_state sink _ _ _ _
    labelled_digest_inj caches_text caches_have_uid empty_checker_inv Hr)
    as (d & now & stored & Ha & _ & Hin & _).
  exists d, now, stored. split; [exact Hr|]. split; [exact Ha|exact Hin].
Defined.

Definition denied : Decision := {|
  d_Allow := false; d_Reason := ""; d_Source := DecisionSourceDeny; d_AccessRequestName := "";
  d_AssignmentName := "assignment-1"; d_AssignmentUID := "assignment-uid"; d_SandboxID := "sandbox-1";
  d_PodUID := "pod-uid"; d_CapabilityBundleName := "bundle-a"; d_CapabilityBundleRevision := "sha256:base";
  d_LogicalTenant := "tenant-a"; d_Team := ""; d_PermissionLevel := ""; d_BoundaryDisplayName := "";
  d_Backend := "pypi"; d_Method := "GET"; d_Host := "pypi.org"; d_Path := "/simple" |}.

Lemma matchAccessGrantObjects_iff_witness : active_grant denied (1000 * Second) access_request.
Proof.
  destruct (proj1 (matchAccessGrantObjects_iff [access_request] denied (1000 * Second) "request-1"
    ltac:(apply Forall_singleton; split; [reflexivity|unfold in_int32; cbn; lia])))
    as (l1 & object & l2 & E & Hg & _).
  - eexists. vm_compute. reflexivity.
  - destruct l1 as [|x [|? ?]]; inversion E; subst; exact Hg.
Defined.

Definition check_one : KProg _ :=
  Check checker_config caches
    {| ci_Backend := "github"; ci_IdentityToken := "token"; ci_Method := "GET"; ci_Host := "api.github.com";
       ci_Path := "/repos"; ci_Headers := ∅; ci_SourceAddress := "10.0.0.7";
       ci_DeriveSourceFromIdentity := false |} (checker_state, Some sink).

Lemma Check_preserves_inv_witness : exists d err s' audit',
  run check_one (trace_of answers check_one) (d, err, (s', audit')) /\ checker_inv checker_config s'.
Proof.
  destruct (ran_self answers check_one) as ([[d err] [s' audit']] & Hr).
  exists d, err, s', audit'. split; [exact Hr|].
  exact (Check_preserves_inv checker_config caches _ checker_state (Some sink) _ _ _ _ _
    labelled_digest_inj caches_text empty_checker_inv Hr).
Defined.

Lemma Check_stale_denied_witness : exists now,
  Ev time_Now now ∈ trace_of answers check_one /\ fresh checker_state now = true.
Proof.
  destruct (ran_with answers check_one (fun r => d_Allow r.1.1) ltac:(vm_compute; reflexivity))
    as ([[d err] [s' audit']] & Hd & Hr).
  destruct (Check_stale_denied checker_config caches _ checker_state (Some sink) _ _ _ _ _ Hr)
    as [Hf|(E & _)]; [exact Hf|]. rewrite E in Hd. discriminate Hd.
Defined.

Definition review_one := reviewToken checker_config checker_state "token".

Lemma reviewToken_cache_bound_witness : exists r s' cached now,
  run review_one (trace_of answers review_one) (r, s') /\ cs_tokens s' !! sha256_hex "token" = Some cached /\
  now < cid_expiresAt cached <= now + tokenCacheTTL.
Proof.
  destruct (ran_with answers review_one caches_token
    ltac:(vm_compute; reflexivity)) as ([r s'] & E & Hr).
  unfold caches_token in E. cbn [snd] in E.
  destruct (cs_tokens s' !! sha256_hex "token") as [cached|] eqn:Et; [|discriminate E].
  destruct (reviewToken_cache_bound checker_config checker_state "token" _ _ _ (sha256_hex "token") cached Hr Et)
    as [Hold|(_ & now & _ & Hb & _)]; [discriminate Hold|].
  exists r, s', cached, now. split; [exact Hr|]. split; [exact Et|exact Hb].
Defined.

(** ** Reconciliation *)

(** An event that a boolean test finds in a trace. *)
Lemma found_event (f : KEvent -> bool) tr : existsb f tr = true -> exists e, e ∈ tr /\ f e = true.
Proof. intros (e & Hin & Hf)%existsb_exists. exists e. by rewrite list_elem_of_In. Qed.

Definition controller : Controller.Config := {|
  cfg_AssignmentNamespace := "governance"; cfg_WorkloadNamespace := "sandboxes";
  cfg_AllowedRuntimeClasses := ["kata-vm-isolation"]; cfg_EgressIdentityMode := ProjectedSidecarIdentity;
  cfg_Interval := 2 * Second |}.

Definition reconcile_pending := reconcile controller pending.

(** One pass of the loop over the pending assignment. *)
Definition pending_answers : Answers := with_assignments pending [pending] answers.
Definition controlled := controller_Run 1 controller.


Lemma reconcile_single_write_witness :
  run reconcile_pending (trace_of answers reconcile_pending) (Ok tt) /\
  (length (writes (trace_of answers reconcile_pending)) <= 1)%nat.
Proof.
  assert (run reconcile_pending (trace_of answers reconcile_pending) (Ok tt)) as Hr by runs.
  split; [exact Hr|]. exact (reconcile_single_write controller pending _ _ eq_refl Hr).
Defined.

Definition reconcile_deleting := reconcile controller deleting.
Definition emptied : Answers := without_pods (with_assignments deleting [deleting] answers).


(** ** The lifecycle facade *)

Definition created := create facade (http "POST" "/opensandbox/sandboxes").


Lemma create_admitted_witness : exists e resolved key held t2,
  e ∈ trace_of answers created /\ is_upstream e = true /\ validIdempotencyKey key = true /\
  run (AuthorizeCreate 3 tenant_admission (rt_CapabilityBundleName resolved)
         {| cr_Timeout := Some (rt_TimeoutSeconds resolved);
            cr_ResourceLimits := {[ "cpu" := rt_CPU resolved; "memory" := rt_Memory resolved ]} |}) t2
    (Some (Ok held)).
Proof.
  destruct (found_event is_upstream (trace_of answers created) ltac:(vm_compute; reflexivity))
    as (e & Hin & He).
  destruct (ran_self answers created) as (reply & Hr).
  destruct (create_admitted facade tenant_admission _ _ _ e eq_refl eq_refl Hr Hin He)
    as (value & resolved & key & hash & c & held & t1 & t2 & t3 & t4 & t5 & u & _ & _ & Hk & _ & _ & Ha & _).
  exists e, resolved, key, held, t2. split; [exact Hin|]. split; [exact He|]. split; [exact Hk|exact Ha].
Defined.

Definition mounted := lifecycle_handler {| au_namespace := "governance"; au_audience := "aud" |} facade
  (http "DELETE" "/opensandbox/sandboxes/sandbox-1").
Definition called : Answers := with_review caller_review answers.


Definition paused := pause facade (http "POST" "/opensandbox/sandboxes/sandbox-1/pause") "sandbox-1".
Definition unready : Answers := with_assignments pending [pending] answers.

Lemma pause_fences_first_witness : exists e t2 t4 view,
  e ∈ trace_of unready paused /\ is_upstream e = true /\
  run (Store_SetLifecycleFence "governance" "assignment-1" true "") t2 (Ok tt) /\
  run (Store_Get "governance" "assignment-1") t4 (Ok view) /\ a_Ready view = false.
Proof.
  destruct (found_event is_upstream (trace_of unready paused) ltac:(vm_compute; reflexivity))
    as (e & Hin & He).
  destruct (ran_self unready paused) as (reply & Hr).
  destruct (pause_fences_first facade _ "sandbox-1" _ _ e Hr Hin He)
    as (value & t1 & t2 & t3 & t4 & view & _ & Hg & _ & Hf & Hv & Hready).
  vm_compute in Hg. destruct Hg as [_ [= Hg]]. rewrite <- Hg in Hf, Hv.
  exists e, t2, t4, view. split; [exact Hin|]. split; [exact He|]. split; [exact Hf|]. split; [exact Hv|exact Hready].
Defined.

Definition resumed := resume facade (http "POST" "/opensandbox/sandboxes/sandbox-1/resume") "sandbox-1".
Definition failing : Answers :=
  with_upstream {| resp_StatusCode := 500; resp_Header := []; resp_Body := "" |} answers.

Lemma resume_refences_witness : exists e name t3 r,
  e ∈ trace_of failing resumed /\ upstream_rejected e = true /\
  run (Store_SetLifecycleFence "governance" name true "") t3 r.
Proof.
  destruct (found_event upstream_rejected (trace_of failing resumed) ltac:(vm_compute; reflexivity))
    as (e & Hin & He).
  destruct (ran_self failing resumed) as (reply & Hr).
  destruct (resume_refences facade _ "sandbox-1" _ _ e Hr Hin He)
    as (value & t1 & t2 & t3 & r & _ & _ & _ & _ & Hf).
  exists e, (a_Name value), t3, r. split; [exact Hin|]. split; [exact He|exact Hf].
Defined.

Lemma sandboxOperation_escape_witness :
  sandboxOperation ("/sandboxes/" +:+ PathEscape "a b%" +:+ "/" +:+ "pause") = Some ("a b%", "pause").
Proof. apply (sandboxOperation_escape "a b%" "pause"); [discriminate|reflexivity|reflexivity]. Defined.

Definition read := proxy facade (http "GET" "/opensandbox/sandboxes/sandbox-1").

Lemma proxied_sandbox_sanitized_witness : exists h body clean,
  run read (trace_of answers read) (PassReply h 200 body) /\ encode_sandbox clean = Ok body /\
  sres_Metadata clean !! AssignmentLabel = None /\ sres_Extensions clean !! assignmentUIDExtension = None.
Proof.
  assert (exists h body, run read (trace_of answers read) (PassReply h 200 body)) as (h & body & Hr).
  { destruct (ran_with answers read is_pass ltac:(vm_compute; reflexivity)) as (r & Ep & Hr).
    destruct r as [| h status body | | |]; try discriminate Ep. exists h, body.
    apply Z.eqb_eq in Ep as ->. exact Hr. }
  exists h, body.
  destruct (proxied_sandbox_sanitized facade (http "GET" "/opensandbox/sandboxes/sandbox-1") "sandbox-1"
    _ _ _ _ (or_introl eq_refl) eq_refl eq_refl eq_refl Hr ltac:(lia))
    as (raw & value & clean & _ & He & Hm & Hx & _).
  exists clean. split; [exact Hr|]. split; [exact He|]. split; [exact Hm|exact Hx].
Defined.

Lemma nested_path_unauthorized_witness :
  ServeHTTP facade (http "GET" "/opensandbox/sandboxes/other/endpoints/8080") =
  proxy facade (http "GET" "/opensandbox/sandboxes/other/endpoints/8080").
Proof.
  exact (nested_path_unauthorized facade (http "GET" "/opensandbox/sandboxes/other/endpoints/8080")
    "other" "endpoints" "8080" eq_refl eq_refl eq_refl).
Defined.

Lemma base_path_unsanitized_witness : exists tr,
  run (proxy (facade_at "/v1") (http "GET" "/opensandbox/sandboxes/sandbox-1")) tr (PassReply [] 200 "secret").
Proof.
  destruct (base_path_unsanitized (facade_at "/v1") (http "GET" "/opensandbox/sandboxes/sandbox-1") "sandbox-1"
    {| resp_StatusCode := 200; resp_Header := []; resp_Body := "secret" |} eq_refl eq_refl eq_refl)
    as (tr & Hr & _).
  exists tr. exact Hr.
Defined.

Definition resolution := KubernetesTemplateResolver_Resolve "governance" "python".

Lemma Resolve_sound_witness : exists resolved object b,
  run resolution (trace_of answers resolution) (Ok resolved) /\
  rt_Image resolved = sts_Image (st_Spec (u_obj object)) /\ rt_LogicalTenant resolved = bundle_tenant b.
Proof.
  destruct (ran_with answers resolution is_ok ltac:(vm_compute; reflexivity)) as ([resolved|] & Eo & Hr);
    [exists resolved|discriminate Eo].
  destruct (Resolve_sound "governance" "python" _ _ Hr)
    as (object & b & _ & _ & _ & _ & _ & _ & _ & Hi & _ & _ & _ & _ & _ & _ & Ht & _).
  exists object, b. split; [exact Hr|]. split; [exact Hi|exact Ht].
Defined.

(** ** Callers, admission and the store *)

Definition authenticate :=
  Middleware {| au_namespace := "governance"; au_audience := "aud" |} "Bearer token".

Lemma Middleware_sound_witness : exists scopes binding',
  run authenticate (trace_of called authenticate) (inr scopes) /\ scopes = requester_tenants binding' /\
  scopes <> ∅.
Proof.
  destruct (ran_with called authenticate is_inr ltac:(vm_compute; reflexivity)) as ([?|scopes] & Ei & Hr);
    [discriminate Ei|exists scopes].
  destruct (Middleware_sound _ "Bearer token" _ _ Hr)
    as (token & status & ns & name & items & b & _ & _ & _ & _ & _ & _ & Hs & Hne).
  exists b. split; [exact Hr|]. split; [exact Hs|exact Hne].
Defined.

Definition shape : CreateShape :=
  {| cr_Timeout := Some 600; cr_ResourceLimits := {[ "cpu" := "1"; "memory" := "1" ]} |}.
Definition admit_one := AuthorizeCreate 3 tenant_admission "bundle-a" shape.

Lemma AuthorizeCreate_sound_witness : exists held b policy' bundles assignments,
  run admit_one (trace_of answers admit_one) (Some (Ok held)) /\
  policy_allows tenant_admission policy' "bundle-a" shape /\
  active_assignments (bundle_tenant b) bundles assignments < tps_MaxConcurrentSandboxes (tp_Spec policy').
Proof.
  destruct (ran_with answers admit_one is_some_ok ltac:(vm_compute; reflexivity))
    as ([[held|]|] & Eo & Hr); [exists held|discriminate Eo|discriminate Eo].
  destruct (AuthorizeCreate_sound 3 tenant_admission "bundle-a" shape _ _ Hr)
    as (b & items & p & bundles & assignments & tr0 & holder & e & _ & _ & _ & _ & _ & Hp & _ & Hlt).
  exists b, p, bundles, assignments. split; [exact Hr|]. split; [exact Hp|exact Hlt].
Defined.

(** Two live sandboxes exhaust the budget. *)
Definition full : Answers := with_assignments assignment [assignment; assignment] answers.


Definition acquire := acquireTenantLease 3 tenant_admission "tenant-a".

Lemma acquireTenantLease_terminates_witness : exists r,
  run acquire (trace_of answers acquire) r /\ r <> None.
Proof.
  destruct (ran_self answers acquire) as (r & Hr). exists r.
  split; [exact Hr|].
  exact (acquireTenantLease_terminates 3 tenant_admission "tenant-a" _ _ Hr ltac:(apply Nat.ltb_lt; vm_compute; reflexivity)).
Defined.

(** One replica admits one sandbox under a budget of one. *)
Definition quiet_state : PState := {| p_lease := None; p_now := 0; p_active := 0; p_phase := ∅ |}.

Definition own_release : Release := {| rel_namespace := "ns"; rel_name := "lease"; rel_uid := None |}.
Definition admitted_state : PState := {|
  p_lease := Some (with_uid "u" (new_lease "ns" "lease" "a" 0)); p_now := 0; p_active := 1;
  p_phase := <[0%nat := Created own_release]> (<[0%nat := Granted own_release]>
               (<[0%nat := Holding own_release]> ∅)) |}.


Definition create_q : CreateRequest := create_request facade
  {| rt_Name := "python"; rt_UID := "template-uid"; rt_Revision := "sha256:74"; rt_Image := "python:3";
     rt_Entrypoint := []; rt_CPU := "1"; rt_Memory := "1"; rt_TimeoutSeconds := 600;
     rt_CapabilityBundleName := "bundle-a"; rt_CapabilityBundleRevision := revision;
     rt_LogicalTenant := "tenant-a" |} "key-0001" "hash".
Definition store_create := KStore_Create create_q.

Lemma Create_idempotent_witness : exists a stored,
  run store_create (trace_of answers store_create) (Ok a) /\ a_Existing a = false /\
  Ev (Create Assignments "governance" (wf (assignment_object create_q))) (Ok stored)
    ∈ trace_of answers store_create /\ convert stored = Ok a.
Proof.
  destruct (ran_with answers store_create
    (fun r => match r with Ok a => negb (a_Existing a) | Err _ => false end) ltac:(vm_compute; reflexivity))
    as ([a|] & Ex & Hr); [|discriminate Ex]. apply negb_true_iff in Ex. exists a.
  pose proof (Create_idempotent create_q _ _ Hr) as Hc. rewrite Ex in Hc.
  destruct Hc as (stored & Hin & Hconv).
  exists stored. split; [exact Hr|]. split; [exact Ex|]. split; [exact Hin|exact Hconv].
Defined.

Definition fence := KStore_SetLifecycleFence "governance" "assignment-1" true "".

Lemma SetLifecycleFence_frame_witness : exists written,
  run fence (trace_of answers fence) (Ok tt) /\
  map_get (om_Annotations (sa_meta (u_obj written))) PausedAnnotation = "true".
Proof.
  assert (run fence (trace_of answers fence) (Ok tt)) as Hr by runs.
  destruct (SetLifecycleFence_frame "governance" "assignment-1" true "" _ Hr)
    as (tr0 & object & stored & written & _ & (Hp & _) & _).
  exists written. split; [exact Hr|]. apply Hp. reflexivity.
Defined.

(** ** Credentials *)

#[local] Instance cluster_checker : Checker Kube (CheckerState * option KubernetesAuditSink) :=
  kubernetes_checker checker_config caches.
#[local] Instance cluster_validator : GrantValidator := kubernetes_validator "governance" "sandboxes".
#[local] Instance cluster_revocations : RevocationStore := kubernetes_revocations "governance".

Definition issued := issue broker (Some (kubernetes_grant_audit "governance")) (issue_body "300")
  (checker_state, Some sink).
Definition is_issued {A} (x : Broker.Reply * A) : bool :=
  match x.1 with IssuedReply _ _ _ _ _ _ _ => true | _ => false end.

Lemma issue_sound_witness : exists token grantID expiresAt a sandbox task scope s' now ttl,
  run issued (trace_of answers issued) (IssuedReply token grantID expiresAt a sandbox task scope, s') /\
  minimumTTL <= ttl <= maximumTTL /\ expiresAt = now + ttl.
Proof.
  destruct (ran_with answers issued is_issued ltac:(vm_compute; reflexivity)) as ([reply s'] & Ei & Hr).
  destruct reply as [|token grantID expiresAt a sandbox task scope| | | |]; try discriminate Ei.
  pose proof Hr as Hi. unfold issued at 1 in Hi.
  destruct (issue_sound broker (Some (kubernetes_grant_audit "governance")) (issue_body "300")
              (checker_state, Some sink) _ _ _ _ _ _ _ _ _ Hi)
    as (request & target & decision & now & tr1 & tr2 & _ & _ & _ & _ & _ & _ & _ & Ht & He & _).
  exists token, grantID, expiresAt, a, sandbox, task, scope, s', now. eexists.
  split; [exact Hr|]. split; [exact Ht|exact He].
Defined.

Lemma issue_ttl_wraps_witness :
  issue broker None (issue_body "36028797018964268") (checker_state, Some sink) =
  issue broker None (issue_body "300") (checker_state, Some sink).
Proof.
  exact (issue_ttl_wraps broker None (issue_body "300") (issue_body "36028797018964268") grant_request (checker_state, Some sink)
  ltac:(vm_compute; reflexivity) ltac:(vm_compute; reflexivity)). Defined.

Lemma issued_credential_parses_witness :
  run (parseAuthorization broker ("Bearer " +:+ credential)) [Ev time_Now (1000 * Second)] (Ok grant).
Proof.
  apply (issued_credential_parses broker grant_request grant_target grant_decision (1000 * Second)
    (300 * Second) "uuid" credential); first [vm_compute; reflexivity|vm_compute; discriminate].
Defined.

Definition verified := verify broker None ("Bearer " +:+ credential).
Definition is_verified (x : Broker.Reply) : bool :=
  match x with VerifiedReply _ _ _ _ _ _ => true | _ => false end.


(** ** Targets, access requests and events *)

Lemma NormalizeTarget_idempotent_witness : exists t,
  NormalizeTarget "github" "get" "API.GitHub.com" "/repos" = Ok t /\
  NormalizeTarget (t_Backend t) (t_Method t) (t_Host t) (t_Path t) = Ok t.
Proof.
  eexists. split; [vm_compute; reflexivity|].
  apply (NormalizeTarget_idempotent "github" "get" "API.GitHub.com" "/repos"); vm_compute; reflexivity.
Defined.

Lemma NormalizeTarget_ipv6_not_stable_witness : exists t,
  NormalizeTarget "github" "GET" "[2001:db8::1]" "/" = Ok t /\
  is_ok (NormalizeTarget (t_Backend t) (t_Method t) (t_Host t) (t_Path t)) = false.
Proof.
  eexists. split; [vm_compute; reflexivity|].
  apply (NormalizeTarget_ipv6_not_stable "github" "GET" "[2001:db8::1]" "/"); vm_compute; reflexivity.
Defined.

Lemma ValidateAccessRequestSpec_iff_witness : access_request_ok request_spec.
Proof.
  apply (ValidateAccessRequestSpec_iff request_spec); [unfold in_int32; cbn; lia|].
  vm_compute. reflexivity.
Defined.

Lemma normalize_sound_witness : exists input,
  normalize check_request = Ok input /\ TrimSpace (ci_IdentityToken input) <> "".
Proof.
  eexists. split; [vm_compute; reflexivity|].
  apply (normalize_sound check_request). vm_compute. reflexivity.
Defined.

Lemma normalize_hides_identity_witness : exists input, normalize check_request = Ok input /\
  forall k v, ci_Headers input !! k = Some v -> HasPrefix k ":" = false.
Proof.
  destruct (normalize check_request) as [input|] eqn:E; [|discriminate E].
  exists input. split; [reflexivity|]. intros k v Hk.
  refine (proj1 (normalize_hides_identity check_request input E _ _ eq_refl eq_refl _ k v Hk)).
  repeat constructor.
Defined.

Lemma SimulatePolicyImpact_monotone_witness :
  pi_NewlyAllowed (SimulatePolicyImpact [u_obj (egress_event "e" 0)] [])
  <= pi_NewlyAllowed (SimulatePolicyImpact [u_obj (egress_event "e" 0)] [grant_target]).
Proof.
  apply (SimulatePolicyImpact_monotone [u_obj (egress_event "e" 0)] [] [grant_target]).
  apply list_subseteq_nil.
Defined.

Definition cleaned := cleanupEvents sink.

Lemma cleanupEvents_exact_witness : exists events now,
  run cleaned (trace_of answers cleaned) (Ok tt) /\
  Ev (List EgressEvents "governance" list_all) (Ok events) ∈ trace_of answers cleaned /\
  Ev time_Now now ∈ trace_of answers cleaned.
Proof.
  assert (run cleaned (trace_of answers cleaned) (Ok tt)) as Hr by runs.
  destruct (cleanupEvents_exact sink _ Hr) as (events & now & He & Hn & _).
  exists events, now. split; [exact Hr|]. split; [exact He|exact Hn].
Defined.

Definition expired := expireAccessRequests sink.

Lemma expireAccessRequests_exact_witness : exists requests now,
  run expired (trace_of answers expired) (Ok tt) /\
  Ev (List AccessRequests "governance" list_all) (Ok requests) ∈ trace_of answers expired /\
  Ev time_Now now ∈ trace_of answers expired.
Proof.
  assert (run expired (trace_of answers expired) (Ok tt)) as Hr by runs.
  destruct (expireAccessRequests_exact sink _ Hr) as (requests & now & He & Hn & _).
  exists requests, now. split; [exact Hr|]. split; [exact He|exact Hn].
Defined.
