(* ===== verification/DashboardFixtures.v ===== *)
(** * A concrete dashboard

    The cluster of [Fixtures] seen from the dashboard and the doctor: concrete instances of the
    libraries these use, a principal with requester and administrator scopes, a pending access
    request with the denied event it is about, forms as a browser posts them, and the platform
    objects of a cluster that is ready. *)

From S2P Require Import Prelude GoStrings GoJson GoEncoding NetIP GoTime GoFlag ApiTypes ApiJson DashboardTypes Kube Governance AuthzServer.
From S2P Require Import Checker EgressAudit CallerAuth Admission Controller Broker Store Facade Principals.
From S2P Require Import TokenValidation DashboardAuth DashboardConfig DashboardCore AccessRequests RequesterAuthz.
From S2P Require Import BoundaryRules DashboardAdmin DashboardTransport Doctor Fixtures.
From stdpp Require Import options.

(** ** Libraries *)

#[export] Instance ascii_quotes : QuoteLib := {| Quote_unicode := fun s => s |}.
#[export] Instance nonempty_labels_valid : K8sLabelValidation :=
  {| IsDNS1123Label := fun s => if s =?s "" then ["label is empty"] else [] |}.
#[export] Instance exact_labels : LabelsLib := {|
  labels_NewRequirement := fun key _ => key <>?s "";
  labels_Matches := fun selector labels => bool_decide (map_to_list selector ⊆ map_to_list labels) |}.

(** ** Principals and governed objects *)

Definition console_binding : Unstructured SandboxPrincipalBinding := wf {|
  pb_meta := meta_of "governance" "binding-b" "binding-b-uid";
  pb_Spec := {| pbs_TenantID := "t"; pbs_ObjectID := "o"; pbs_ServiceAccountNamespace := "";
                pbs_ServiceAccountName := ""; pbs_RequesterTenants := ["tenant-a"];
                pbs_AdminTenants := ["tenant-a"] |} |}.

Definition pending_spec : SandboxAccessRequestSpec := {|
  rs_AssignmentRef := {| ar_Name := "assignment-1"; ar_UID := "assignment-uid" |};
  rs_PodUID := "pod-uid"; rs_BasePolicyRevision := revision; rs_Backend := "pypi"; rs_Method := "GET";
  rs_Host := "pypi.org"; rs_Path := "/simple"; rs_Reason := "need it"; rs_Requester := identity;
  rs_RequestedDurationSeconds := 600 |}.
Definition pending_request : SandboxAccessRequest := {|
  req_meta := meta_of "governance" "request-2" "request-2-uid"; req_Spec := pending_spec;
  req_Status := empty_request_status |}.

(** A decision about the sandbox, revision and target of the pending request. *)
Definition refused : Decision := {|
  d_Allow := false; d_Reason := ""; d_Source := DecisionSourceDeny; d_AccessRequestName := "";
  d_AssignmentName := "assignment-1"; d_AssignmentUID := "assignment-uid"; d_SandboxID := "sandbox-1";
  d_PodUID := "pod-uid"; d_CapabilityBundleName := "bundle-a"; d_CapabilityBundleRevision := revision;
  d_LogicalTenant := "tenant-a"; d_Team := "team-a"; d_PermissionLevel := ""; d_BoundaryDisplayName := "";
  d_Backend := "pypi"; d_Method := "GET"; d_Host := "pypi.org"; d_Path := "/simple" |}.
Definition denied_event : Unstructured SandboxEgressEvent := wf {|
  ev_meta := meta_of "governance" "event-1" "event-uid";
  ev_Spec := ev_Spec (egressEventForDecision "governance" (950 * Second) refused) |}.

Definition dashboard_answers : Answers := {|
  an_get := fun T r => match r in Resource T return string -> result T with
    | AccessRequests => fun _ => Ok (wf pending_request)
    | EgressEvents => fun _ => Ok denied_event
    | r => an_get answers _ r end;
  an_list := fun T r => match r in Resource T return result (list T) with
    | PrincipalBindings => Ok [binding; console_binding]
    | EgressEvents => Ok [denied_event]
    | Templates => Ok [template]
    | r => an_list answers _ r end;
  an_review := an_review answers; an_now := an_now answers;
  an_upstream := {| resp_StatusCode := 200; resp_Body := "";
    resp_Header := [("Subject-Token-Claim-Tid", ["t"]); ("Subject-Token-Claim-Oid", ["o"]);
                    ("Subject-Token-Encoded-Claim-Name", ["QWxpY2U="]); ("Subject-Token-Claim-Scp", ["access_as_user"]);
                    ("Subject-Token-Claim-Roles", [json_text (JArray [JString "admin"])]); ("Subject-Token-Claim-Exp", ["2000"])] |} |}.

(** ** Requests *)

Definition governance : governanceDashboard := {|
  gd_namespace := "governance"; gd_basePath := "/dashboard"; gd_publicOrigin := "https://console.example";
  gd_adminRole := "admin" |}.
Definition requesters : requesterLifecycleAuthorizer :=
  {| ra_namespace := "governance"; ra_basePath := "/dashboard"; ra_templateName := "python" |}.
Definition sign_in : dashboardAuth := {|
  da_basePath := "/dashboard"; da_cookieSecure := true; da_sessionLifetime := 30 * Minute; da_tenantID := "t";
  da_clientID := "client"; da_scope := "scope"; da_redirectURI := "https://console.example/auth/redirect/" |}.
Definition mise : miseTokenValidator := {|
  mise_endpoint := "http://127.0.0.1:5000/ValidateRequest"; mise_policy := ""; mise_tenantID := "t";
  mise_requiredScope := "access_as_user"; mise_requiredRole := "" |}.

Definition admin_context : RequestContext := session_context admin_session.

(** A form posted from the dashboard's own page. *)
Definition posted (ctx : RequestContext) (path body : string) : DashRequest := {|
  hr_Method := "POST"; hr_Path := path; hr_RawQuery := "";
  hr_Header := [("Origin", ["https://console.example"]); ("Content-Type", ["application/x-www-form-urlencoded"])];
  hr_SessionCookie := Some "random"; hr_Body := Ok body; hr_Context := ctx |}.

Definition approval : DashRequest :=
  posted admin_context "/dashboard/admin/requests/request-2/approve" "csrf=csrf&decisionReason=looks+fine&durationMinutes=5".
Definition demand : DashRequest :=
  posted admin_context "/dashboard/access/requests" "csrf=csrf&eventName=event-1&reason=needed&durationMinutes=5".

Definition digest64 : string := "0123456789abcdef0123456789abcdef0123456789abcdef0123456789abcdef".
Definition template_form : DashRequest :=
  posted admin_context "/dashboard/admin/templates"
    ("csrf=csrf&name=node&displayName=Node&description=&image=node@sha256:" +:+ digest64
     +:+ "&entrypoint=%5B%22sleep%22%5D&capabilityBundle=bundle-a&cpu=1&memory=1&timeoutSeconds=600&enabled=true").

Definition browse (path : string) : DashRequest := {|
  hr_Method := "GET"; hr_Path := path; hr_RawQuery := ""; hr_Header := []; hr_SessionCookie := Some "random";
  hr_Body := Ok ""; hr_Context := admin_context |}.

Definition token_request : DashRequest := {|
  hr_Method := "POST"; hr_Path := "/dashboard/auth/session"; hr_RawQuery := "";
  hr_Header := [("Authorization", ["Bearer token"])]; hr_SessionCookie := None; hr_Body := Ok "";
  hr_Context := background |}.

(** ** The platform *)

Definition rule (group : string) (resources verbs : list string) : PolicyRule :=
  {| rule_APIGroups := [group]; rule_Resources := resources; rule_Verbs := verbs |}.
Definition bound (kind role : string) : RoleBinding := {|
  rb_RoleRefKind := kind; rb_RoleRefName := role;
  rb_Subjects := [{| sub_Kind := "ServiceAccount"; sub_Namespace := "aks-sandbox-system"; sub_Name := "assignmentd" |}] |}.

Definition platform : Answers := {|
  an_get := fun T r => match r in Resource T return string -> result T with
    | CustomResourceDefinitions | Services => fun _ => Ok tt
    | RuntimeClasses => fun name =>
        Ok {| rc_Name := name; rc_Handler := "kata"; rc_NodeSelector := Some {[ "kata" := "true" ]} |}
    | Deployments => fun _ =>
        Ok {| dep_Replicas := Some 2; dep_StrategyType := "RollingUpdate"; dep_ReadyReplicas := 2;
              dep_ContainerEnv := [[{| env_Name := "ASSIGNMENTD_EGRESS_IDENTITY_MODE"; env_Value := "projected-sidecar" |}]] |}
    | PodDisruptionBudgets => fun _ => Ok (Some 1)
    | Roles => fun name => Ok (if name =?s "assignmentd" then [rule "coordination.k8s.io" ["leases"] ["*"]]
        else [rule "sandbox.opensandbox.io" ["batchsandboxes"] ["get"; "list"; "watch"; "delete"];
              rule "" ["pods"; "serviceaccounts"] ["get"; "list"; "watch"]])
    | ClusterRoles => fun _ => Ok [rule "authentication.k8s.io" ["tokenreviews"] ["create"]]
    | RoleBindings => fun name => Ok (bound "Role" name)
    | ClusterRoleBindings => fun name => Ok (bound "ClusterRole" name)
    | r => an_get answers _ r end;
  an_list := fun T r => match r in Resource T return result (list T) with
    | Nodes => Ok [{| node_Labels := {[ "kata" := "true" ]}; node_Unschedulable := false;
                      node_Conditions := [{| pc_Type := "Ready"; pc_Status := "True" |}];
                      node_CpuZero := false; node_MemoryZero := false |}]
    | Templates => Ok [template]
    | r => an_list answers _ r end;
  an_review := an_review answers; an_now := an_now answers; an_upstream := an_upstream answers |}.
