(* ===== verification/DashboardWitnesses.v ===== *)
(** * Runs of the dashboard and the doctor

    Closed instances of the theorems about the dashboard and the doctor, against the fixtures of
    [DashboardFixtures]. *)

From stdpp Require Import relations.
From S2P Require Import Prelude GoStrings GoEncoding NetIP GoTime GoFlag ApiTypes ApiJson DashboardTypes Kube Governance AuthzServer.
From S2P Require Import Checker EgressAudit CallerAuth Admission Controller Broker Store Facade Principals.
From S2P Require Import SessionStore TokenValidation DashboardAuth DashboardConfig DashboardCore AccessRequests.
From S2P Require Import AccessLifecycle RequesterAuthz BoundaryRules DashboardAdmin DashboardPages DashboardMain.
From S2P Require Import DashboardTransport Doctor Fixtures Witnesses DashboardFixtures.
From stdpp Require Import options.

(** The first event that a partial function is defined on. *)
Lemma found_some {A} (f : KEvent -> option A) tr x : head (omap f tr) = Some x -> exists e, e ∈ tr /\ f e = Some x.
Proof.
  intros (e & Hin & E)%head_Some_elem_of%list_elem_of_omap. exists e. split; [exact Hin|exact E].
Qed.

Lemma every_event (f : KEvent -> bool) tr e : forallb f tr = true -> e ∈ tr -> f e = true.
Proof. rewrite forallb_forall. intros Hf Hin. by apply Hf, list_elem_of_In. Qed.

(** ** Access requests *)

Definition approving := approveAccessRequest governance approval "request-2".

Definition approved_request : SandboxAccessRequest := request_with_status
  (stored_status (approved_status
     {| gi_TenantID := "t"; gi_ObjectID := "o"; gi_DisplayName := "Alice"; gi_LogicalTenant := ""; gi_Team := "" |}
     "looks fine" (1000 * Second) (5 * Minute))) pending_request.

Lemma approve_sound_witness : exists e t1 t2,
  trace_of dashboard_answers approving = t1 ++ e :: t2 /\ is_write e = true /\
  approves governance approval "request-2" t1 e.
Proof.
  destruct (found_event is_write (trace_of dashboard_answers approving) ltac:(vm_compute; reflexivity))
    as (e & Hin & Hw).
  destruct (ran_self dashboard_answers approving) as (reply & Hr).
  destruct (approve_sound governance approval "request-2" _ _ e Hr Hin Hw) as (t1 & t2 & E & Ha).
  exists e, t1, t2. split; [exact E|]. split; [exact Hw|exact Ha].
Defined.


Definition demanding := createAccessRequest governance demand.


(** One administrator approves a new request while another denies it; the approval arrives. *)
Definition denied_request : SandboxAccessRequest := request_with_status
  (stored_status (denied_status identity "no")) pending_request.
Definition server_new : Server :=
  {| srv_request := pending_request; srv_used := {["1"]}; srv_flight := [] |}.
Definition server_contended : Server :=
  {| srv_request := pending_request; srv_used := {["1"]};
     srv_flight := [WriteStatus denied_request; WriteStatus approved_request] |}.
Definition server_approved : Server :=
  {| srv_request := set_version "2" (request_with_status (req_Status approved_request) pending_request);
     srv_used := {["2"]} ∪ {["1"]}; srv_flight := [WriteStatus denied_request] |}.

Lemma contended : rtc server_step server_new server_contended.
Proof.
  eapply rtc_l; [apply (step_decide server_new approved_request), decision_approve; reflexivity|].
  eapply rtc_l; [apply (step_decide _ denied_request), decision_deny; reflexivity|]. apply rtc_refl.
Qed.

Lemma contention_decided : rtc server_step server_contended server_approved.
Proof.
  apply rtc_once. apply (step_accept server_contended [WriteStatus denied_request] [] approved_request "2");
    [reflexivity|reflexivity|]. cbn. set_solver.
Qed.

Lemma access_request_lifecycle_witness :
  rtc phase_step PhasePending (phase (srv_request server_contended)) /\
  rtc phase_step PhasePending PhaseApproved.
Proof.
  destruct (access_request_lifecycle server_new server_contended server_approved
    (created_request pending_request [] eq_refl (or_introl eq_refl)) contended contention_decided) as (H1 & H2 & _).
  split; [exact H1|exact H2].
Defined.

(** ** Sessions *)

(** A session is created, found, expires, is collected, and is gone. *)
Definition session_history : list (Time * StoreCall) :=
  [(1000 * Second, CallCreate (Ok "cookie") admin_session); (1100 * Second, CallGet "cookie");
   (1900 * Second, CallGet "cookie"); (1950 * Second, CallCleanup); (1950 * Second, CallGet "cookie")].

Lemma session_store_refines_witness :
  answers_from session_history (store_init (S := memoryAuthStore)) =
  answers_from session_history (store_init (S := SessionSpec)) /\
  answers_from session_history (store_init (S := SessionSpec)) =
  [Created (Ok "cookie"); Found (Some admin_session); Found None; Done; Found None].
Proof.
  split; [|vm_compute; reflexivity].
  apply (session_store_refines (1000 * Second) session_history).
  - exact labelled_digest_inj.
  - cbn. unfold Second. lia.
Defined.

Definition signing_in := DashboardAuth.createSession (H0 := mise_validator mise) sign_in token_request.

Definition created_session : dashboardSession := {|
  ds_Identity := {| ai_TenantID := "t"; ai_ObjectID := "o"; ai_Name := "Alice"; ai_Roles := ["admin"];
                    ai_Scopes := ["access_as_user"]; ai_ExpiresAt := 2000 * Second |};
  ds_CSRFToken := "cmFuZG9t"; ds_CreatedAt := 1000 * Second; ds_ExpiresAt := 2000 * Second |}.

Definition after_year_one (e : KEvent) : bool :=
  match e with Ev op r =>
    match op in Kube R return R -> bool with time_Now => fun t => zero_time <? t | _ => fun _ => true end r
  end.

Lemma signing_in_clock t : Ev time_Now t ∈ trace_of dashboard_answers signing_in -> zero_time < t.
Proof.
  intros Hin. apply Z.ltb_lt. apply (every_event after_year_one _ _) in Hin; [exact Hin|vm_compute; reflexivity].
Qed.


(** ** The whole dashboard *)

Definition approval_arrives : DashRequest := with_context background approval.
Definition serving := dashboard_serve (session_authenticator mise sign_in) requesters governance approval_arrives.


Definition pausing := authorizedDashboardClient requesters admin_context (osb_PauseSandbox "sandbox-1").


Definition deleting_page := posted admin_context "/dashboard/dashboard/sandboxes/sandbox-1/delete" "".
Definition guarding := requester_Middleware requesters deleting_page.

Lemma requester_Middleware_sound_witness :
  owns_sandbox requesters admin_context "sandbox-1" (trace_of dashboard_answers guarding).
Proof.
  destruct (ran_with dashboard_answers guarding is_inr ltac:(vm_compute; reflexivity)) as ([?|u] & Ei & Hr);
    [discriminate Ei|].
  apply (requester_Middleware_sound requesters deleting_page "/dashboard/sandboxes/" "sandbox-1" "/delete" _ u);
    [reflexivity|apply list_elem_of_further, list_elem_of_here|discriminate|reflexivity|right; reflexivity|exact Hr].
Defined.

(** ** Administration *)

Definition creating_template := createSandboxTemplate governance template_form.

Definition created_template : SandboxTemplate := {|
  st_meta := named_meta "governance" "node";
  st_Spec := {| sts_DisplayName := "Node"; sts_Description := ""; sts_Image := "node@sha256:" +:+ digest64;
                sts_Entrypoint := ["sleep"];
                sts_CapabilityBundleRef := {| cbr_Name := "bundle-a"; cbr_PolicyRevision := revision |};
                sts_Resources := {| str_CPU := "1"; str_Memory := "1" |};
                sts_TimeoutSeconds := 600; sts_Enabled := true |} |}.

(** The namespace and object of a template that a call creates. *)
Definition template_creation (e : KEvent) : option (string * Unstructured SandboxTemplate) :=
  match e with Ev op _ => match op with Create r ns o => pair ns <$> template_of r o | _ => None end end.

Lemma template_creation_inv e ns o :
  template_creation e = Some (ns, o) -> exists answer, e = Ev (Create Templates ns o) answer.
Proof. destruct e as [R op answer]. destruct op as [| |T r ? ?| | | | | | | | | | | | | | | |]; try done. destruct r; try done. intros [= -> ->]. by exists answer. Qed.

Definition bundle_live (e : KEvent) : bool :=
  match e with Ev op r =>
    match op in Kube R return R -> bool with
    | Get k _ _ => fun r => match k in Resource T return result T -> bool with
        | Bundles => fun r => match r with Ok b => negb (om_deleting (cb_meta (u_obj b))) | Err _ => true end
        | _ => fun _ => true end r
    | _ => fun _ => true
    end r
  end.


Definition viewing := adminPage governance (browse "/dashboard/admin").

Lemma admin_page_scoped_witness : exists page items b,
  run viewing (trace_of dashboard_answers viewing) (inr page) /\ adp_Bundles page <> [] /\
  sole_binding admin_identity items b.
Proof.
  destruct (ran_with dashboard_answers viewing
    (fun x => match x with inr page => negb (Nat.eqb (length (adp_Bundles page)) 0) | _ => false end)
    ltac:(vm_compute; reflexivity)) as ([?|page] & Ei & Hr); [discriminate Ei|].
  destruct (admin_page_scoped governance (browse "/dashboard/admin") _ page Hr)
    as (who & items & b & Hwho & _ & _ & Hb & _).
  exists page, items, b. split; [exact Hr|]. injection Hwho as <-. split; [|exact Hb].
  intros E. rewrite E in Ei. discriminate Ei.
Defined.

(** *** Egress rules, with a library that knows the one expression they become *)

Definition listed_target : Target :=
  {| t_Backend := "github"; t_Method := "GET"; t_Host := "api.github.com"; t_Path := "/repos" |}.
Definition listed_rules : string := "github GET https://api.github.com/repos".

#[local] Instance listed_cel : CelLib := {|
  cel_Env := unit; cel_Ast := unit; cel_Program := unit; cel_NewEnv := fun _ => Ok tt;
  cel_Compile := fun _ e => if e =?s cel_text [exactly listed_target] then Ok tt else Err (ErrMsg "syntax error");
  cel_OutputIsBool := fun _ => true; cel_MakeProgram := fun _ ast _ => Ok ast;
  cel_Eval := fun _ a => Ok (CelBool ((act_method a =?s "GET") && (act_host a =?s "api.github.com")
                                     && (act_path a =?s "/repos"))) |}.

Definition listed_config : CheckerConfig := {|
  cc_assignmentNamespace := "governance"; cc_workloadNamespace := "sandboxes"; cc_audience := "aud";
  cc_celEnv := tt |}.
Definition listed_state : CheckerState := {|
  cs_programs := ∅; cs_tokens := ∅; cs_lastFreshUnixNano := 995 * Second; cs_metrics := zero_metrics |}.
Definition listed_policies : gmap string AgentgatewayBackendPolicy :=
  {[ "github" := {| abp_Allow := cel_text [exactly listed_target] |} ]}.
Definition listed_bundle : Unstructured CapabilityBundle := wf {|
  cb_meta := meta_of "governance" "bundle-b" "bundle-b-uid";
  cb_Spec := {| cbs_Egress := Some {| ep_Agentgateway := listed_policies |}; cbs_Harness := None;
                cbs_Governance := None |} |}.
Definition listed_resolved : Resolved := {|
  rv_decision := refused; rv_bundle := listed_bundle; rv_bundleUID := "bundle-b-uid"; rv_source := "10.0.0.7" |}.
Definition listed_input : CheckInput := {|
  ci_Backend := "github"; ci_IdentityToken := "token"; ci_Method := "GET"; ci_Host := "api.github.com";
  ci_Path := "/repos"; ci_Headers := ∅; ci_SourceAddress := "10.0.0.7"; ci_DeriveSourceFromIdentity := false |}.
Definition evaluating := evaluate listed_config caches listed_input listed_resolved listed_state.

Lemma listed_cel_reads ts : ts ≡ₚ of_backend (ci_Backend listed_input) [listed_target] ->
  cel_reads listed_config (exactly <$> ts).
Proof.
  change (of_backend _ [listed_target]) with [listed_target]. intros ->%Permutation_singleton_r. split.
  - exists tt, tt. split; [|done]. cbn [cel_Compile listed_cel]. by rewrite seqb_refl.
  - intros p activation _. rewrite exactly_meaning. cbn [existsb]. by rewrite orb_false_r.
Qed.


(** ** The lifecycle transport *)

Definition transport : sandboxTemplateTransport := {| tt_template := "python"; tt_tokenFile := "/var/run/token" |}.
Definition create_post : TransportRequest := {|
  tq_Method := "POST"; tq_Path := "/opensandbox/v1/sandboxes"; tq_Header := [("Authorization", ["Bearer other"])];
  tq_Body := Ok "{}" |}.
Definition first_attempt := RoundTrip transport create_post.
Definition keyed : Header := header_Set (tq_Header create_post) "Idempotency-Key" "uuid".
Definition second_attempt := RoundTrip transport (with_header keyed create_post).

Definition has_key (e : KEvent) : bool :=
  match e with Ev op r =>
    match op in Kube R return R -> bool with uuid_NewString => fun key => key <>?s "" | _ => fun _ => true end r
  end.

Lemma first_key key : Ev uuid_NewString key ∈ trace_of answers first_attempt -> key <> "".
Proof.
  intros Hin. apply (every_event has_key) in Hin; [|vm_compute; reflexivity]. cbn in Hin. by bool_to_prop.
Qed.

Lemma retry_keeps_key_witness : exists key e,
  e ∈ trace_of answers second_attempt /\ is_base e = true /\
  header_Get (sent_header e) "Idempotency-Key" = key /\ key <> "".
Proof.
  assert (run first_attempt (trace_of answers first_attempt) (Ok (an_upstream answers), keyed)) as Hr1 by runs.
  destruct (ran_self answers second_attempt) as ([r2 h2] & Hr2).
  destruct (found_event is_base (trace_of answers second_attempt) ltac:(vm_compute; reflexivity)) as (e & Hin & Hb).
  destruct (retry_keeps_key (H0 := opaque_parts) (H1 := fixed_sdk_json) transport create_post _ (Ok (an_upstream answers)) keyed _ r2 h2 eq_refl Hr1 first_key Hr2)
    as (key & Hne & _ & _ & Hkey).
  exists key, e. split; [exact Hin|]. split; [exact Hb|]. split; [|exact Hne].
  apply Hkey; [apply elem_of_app; right; exact Hin|exact Hb].
Defined.

(** A JSON library that encodes one create request. *)
#[local] Instance CreateSandboxRequest_eq_dec : EqDecision (CreateSandboxRequest (H := opaque_parts)).
Proof. unfold EqDecision, opaque_parts. solve_decision. Defined.

Definition governed_request : CreateSandboxRequest := with_template "python" caller_request.

#[local] Instance one_create_json : SdkJson := {|
  decode_create := fun body => if body =?s "governed" then Ok governed_request else Ok caller_request;
  encode_create := fun v => if bool_decide (v = governed_request) then Ok "governed" else Err (ErrMsg "unknown");
  encode_hash_payload := fun _ _ _ _ => Ok "payload";
  decode_created := decode_created (SdkJson := fixed_sdk_json); encode_created := encode_created (SdkJson := fixed_sdk_json);
  decode_sandbox := decode_sandbox (SdkJson := fixed_sdk_json); encode_sandbox := encode_sandbox (SdkJson := fixed_sdk_json);
  decode_sandboxes := decode_sandboxes (SdkJson := fixed_sdk_json);
  encode_sandboxes := encode_sandboxes (SdkJson := fixed_sdk_json); decode_patch_keys := fun _ => Ok ["owner"] |}.

Lemma governed_round_trip value : encode_create value = Ok "governed" -> decode_create "governed" = Ok value.
Proof. cbn [encode_create one_create_json]. case_bool_decide as E; [intros _; by subst|done]. Qed.

Definition sending := RoundTrip transport create_post.
Definition arriving : Request := {|
  r_Method := "POST"; r_Path := "/opensandbox/sandboxes";
  r_Header := [("Idempotency-Key", ["key-0001"])]; r_Body := Ok "governed"; r_Scopes := Some {[ "tenant-a" ]} |}.
Definition handling := create facade arriving.

Definition outbound_header : Header := header_Set keyed "Authorization" "Bearer token".

Lemma base_call_inv e m p h b : base_call e = Some (m, p, h, b) -> exists answer, e = Ev (Base_RoundTrip m p h b) answer.
Proof. destruct e as [R op answer]. destruct op; try done. intros [= -> -> -> ->]. by exists answer. Qed.


Definition config_env (name : string) : string :=
  if contains name ["OSB_DASHBOARD_ENTRA_TENANT_ID"; "OSB_DASHBOARD_ENTRA_CLIENT_ID"; "OSB_DASHBOARD_ENTRA_SCOPE";
                    "OSB_DASHBOARD_ENTRA_REDIRECT_URI"] then "value" else "".
Definition config_args : list string := ["--session-lifetime=1h30m"; "-cookie-secure"; "--sandbox-image"; "busybox"].
Definition dashboard_config : config :=
  with_basePath "/dashboard" (config_of (<["session-lifetime" := DurationFlag (90 * Minute)]>
    (<["sandbox-image" := StringFlag "busybox"]> (flag_defaults config_env)))).

Lemma parseConfig_ok_witness : config_ok dashboard_config.
Proof. apply (parseConfig_ok config_env config_args dashboard_config). vm_compute. reflexivity. Defined.

(** ** The doctor *)

Definition examining := Doctor.Run (Doctor.New {| Doctor.AssignmentNamespace := ""; Doctor.WorkloadNamespace := "";
                                                  Doctor.RuntimeClassName := "" |}).

Lemma ready_sound_witness : exists report,
  run examining (trace_of platform examining) report /\ Doctor.rep_Ready report = true /\
  Doctor.cluster_ready {| Doctor.AssignmentNamespace := "aks-sandbox-system"; Doctor.WorkloadNamespace := "opensandbox";
                          Doctor.RuntimeClassName := "kata-optimized" |} (trace_of platform examining).
Proof.
  destruct (ran_with platform examining Doctor.rep_Ready ltac:(vm_compute; reflexivity)) as (report & Hready & Hr).
  exists report. split; [exact Hr|]. split; [exact Hready|]. exact (Doctor.ready_sound _ _ report Hr Hready).
Defined.
