(* ===== verification/ProcessWitnesses.v ===== *)
(** * Witnesses: the commands and the running services

    Runs of the four commands and of the authorization service on the cluster of [Fixtures], at
    which the theorems of their files are applied. *)

From stdpp Require Import relations.
From S2P Require Import Prelude GoStrings GoEncoding GoURL GoTime GoFlag GoJson NetIP ApiTypes ApiJson DashboardTypes.
From S2P Require Import Kube Governance AuthzServer Checker EgressAudit CheckerService Threads CheckerConcurrency CallerAuth Admission Controller Broker.
From S2P Require Import Store Facade Assignmentd ApiServer LeaderElection Principals SessionStore SessionConcurrency TokenValidation DashboardAuth.
From S2P Require Import DashboardConfig DashboardCore RequesterAuthz BoundaryRules Probe DashboardMain DashboardTransport.
From S2P Require Import DashboardProcess Doctor DoctorMain Fixtures Witnesses DashboardFixtures DashboardWitnesses.
From stdpp Require Import options.

(** A run against a service of any signature. *)
Definition traced {E A} (h : Handler E unit) (p : Prog E A) : list (Event E) := (record_trace h p tt).1.

Lemma traced_run {E A} (h : Handler E unit) (p : Prog E A) : run p (traced h p) (record_trace h p tt).2.
Proof. by apply record_trace_run. Qed.

(** ** Revisions *)

Definition open_spec : CapabilityBundleSpec := {| cbs_Egress := None; cbs_Harness := None; cbs_Governance := None |}.

Lemma revision_determines_spec_witness :
  (PolicyRevision (Some bundle_spec) = PolicyRevision (Some open_spec) <-> bundle_spec = open_spec) /\
  PolicyRevision (Some bundle_spec) = Ok ("sha256:" +:+ sha256_hex (json_text (stored bundle_spec))) /\
  json_parse (json_text (stored bundle_spec)) = Some (stored bundle_spec).
Proof.
  apply (revision_determines_spec bundle_spec open_spec);
    [exact (labelled_digest_inj _ _)|vm_compute; reflexivity..].
Defined.

(** ** The authorization service *)

Definition created_state : CheckerState := {|
  cs_programs := ∅; cs_tokens := ∅; cs_lastFreshUnixNano := 0; cs_metrics := zero_metrics |}.

Definition service_history : list Activity := [Synchronised [Ev time_Now (995 * Second)]].

Lemma service_reached : service checker_config service_history (checker_state, Some sink).
Proof.
  change (service checker_config ([] ++ service_history) (SetAuditSink sink (checker_state, None))).
  apply service_sink, (service_start _ [] created_state None).
  - exact (service_new checker_config (fun _ => Ok tt) "governance" "sandboxes" "aud" created_state eq_refl).
  - exists (995 * Second), []. done.
Qed.

Lemma service_allow_sound_witness : exists log s' audit' input d t now,
  run checked (trace_of answers checked) (allowedResponse, log, (s', audit')) /\
  normalize check_request = Ok input /\ d_Allow d = true /\
  confirmed checker_config service_history t /\ now - t <= freshnessLimit.
Proof.
  destruct checked_allows as (log & s' & audit' & Hr). exists log, s', audit'.
  destruct (service_allow_sound labelled_digest_inj checker_config service_history caches check_request checker_state
              (Some sink) _ _ _ _ service_reached caches_text Hr)
    as (input & d & t & now & Hn & Ha & _ & Hc & _ & Hle).
  exists input, d, t, now. split; [exact Hr|]. split; [exact Hn|]. split; [exact Ha|]. split; [exact Hc|exact Hle].
Defined.

(** Two requests of one sandbox next to the freshness loop; the second finds the first one's review
    in the cache. *)
Definition shared_input : CheckInput :=
  match normalize check_request with Ok input => input | Err _ => {|
    ci_Backend := ""; ci_IdentityToken := ""; ci_Method := ""; ci_Host := ""; ci_Path := ""; ci_Headers := ∅;
    ci_SourceAddress := ""; ci_DeriveSourceFromIdentity := false |} end.

Definition three_works (i : nat) : Work :=
  match i with O => FreshnessWork 1 | _ => CheckWork caches shared_input end.

Definition shared_serve R (op : Shared R) (s : CheckerState) : R * CheckerState :=
  match op in Shared R return R * CheckerState with
  | Outside op => ((serve answers _ op tt).1, s)
  | Locked op => atomic op s
  | audit_Record _ => (Ok tt, s)
  end.

Lemma shared_serve_answers R (op : Shared R) s : shared_answers op s (shared_serve R op s).1 (shared_serve R op s).2.
Proof. destruct op as [R op|R op|d]; cbn; [done|by destruct (atomic op s)|done]. Qed.

Definition schedule : list nat :=
  [0; 0; 1; 1; 2; 1; 1; 1; 1; 1; 2; 2; 0; 1; 2; 1; 0; 2; 1; 2; 1; 2; 0; 1; 2; 1; 2; 1; 2; 0; 0; 0; 0; 0]%nat.

Definition played := play shared_serve schedule [] new_state (fun i => thread checker_config true (three_works i)).

Definition allowed_at (i : nat) : bool :=
  match played.2 i with Ret (Some (d, _)) => d_Allow d && (d_AssignmentUID d <>?s "") | _ => false end.

Definition reviews_of (i : nat) : nat :=
  length (List.filter (fun e => match e with Ev (Outside (TokenReviews_Create _ _)) _ => true | _ => false end)
            (events_of i played.1.1)).

Lemma played_serves : serves checker_config true three_works played.1.1 played.1.2 played.2.
Proof. apply play_execution; [apply shared_serve_answers|constructor]. Qed.

Lemma three_works_text i : work_text (three_works i).
Proof. destruct i; [done|exact caches_text]. Qed.

Lemma second_allowed : exists d err, played.2 2%nat = Ret (Some (d, err)) /\ d_Allow d = true /\ d_AssignmentUID d <> "".
Proof.
  assert (allowed_at 2 = true) as Ha by (vm_compute; reflexivity). revert Ha. unfold allowed_at.
  generalize (played.2 2%nat). intros [[[d err]|]|R op k]; [|done..].
  intros [Ha Hu]%andb_prop. exists d, err. split_and!; [done|done|]. by apply seqb_neq, negb_true_iff.
Qed.

Lemma second_reviews : reviews_of 2 = 0%nat /\ reviews_of 1 = 1%nat.
Proof. split; vm_compute; reflexivity. Qed.

Lemma concurrent_allow_sound_witness : exists d err,
  played.2 2%nat = Ret (Some (d, err)) /\ d_Allow d = true /\ err = None /\
  checker_inv checker_config played.1.2 /\
  concurrent_evidence checker_config played.1.1 2 caches shared_input d /\
  (2%nat, Ev (audit_Record d) (Ok tt)) ∈ played.1.1 /\ reviews_of 2 = 0%nat /\ reviews_of 1 = 1%nat.
Proof.
  destruct second_allowed as (d & err & E & Ha & Hu).
  destruct (concurrent_allow_sound checker_config true three_works three_works_text played.1.1 played.1.2 played.2
              2%nat caches shared_input d err labelled_digest_inj played_serves eq_refl E) as [Hinv Hall].
  destruct (Hall Ha) as (Herr & He & Hrec).
  exists d, err. split; [exact E|]. split; [exact Ha|]. split; [exact Herr|]. split; [exact Hinv|].
  split; [exact He|]. split; [exact (Hrec eq_refl Hu)|exact second_reviews].
Defined.

(** ** Sessions *)

(** A sign-in, two lookups of its cookie and the clean-up loop.  The second lookup finds the session,
    which then expires and is collected before the lookup compares its expiry. *)
Definition session_works (i : nat) : SessionWork :=
  match i with O => CleanupWork 1 | 1%nat => CreateWork admin_session | _ => GetWork "cookie" end.

(** Two hundred seconds pass from one reading of the clock to the next. *)
Definition session_serve R (op : StoreStep R) (s : SharedStore) : R * SharedStore :=
  let later := sh_clock s + 200 * Second in
  match op in StoreStep R return R * SharedStore with
  | step_randomValue => (Ok "cookie", s)
  | step_now => (later, {| sh_clock := later; sh_sessions := sh_sessions s |})
  | step_Done => (false, s)
  | step_Lookup key => (sh_sessions s !! key, s)
  | step_Delete raw => (tt, {| sh_clock := sh_clock s; sh_sessions := delete (sha256_hex raw) (sh_sessions s) |})
  | step_Create raw session =>
      let created := SessionStore.createSession (Ok raw) later session (sh_sessions s) in
      ((later, created.1), {| sh_clock := later; sh_sessions := created.2 |})
  | step_Cleanup => (later, {| sh_clock := later; sh_sessions := cleanup later (sh_sessions s) |})
  end.

Lemma session_serve_answers R (op : StoreStep R) s : store_answers op s (session_serve R op s).1 (session_serve R op s).2.
Proof.
  destruct op; cbn [store_answers session_serve fst snd sh_clock sh_sessions]; try done; try (split; [unfold Second; lia|done]).
  split; [unfold Second; lia|]. split; [done|]. by rewrite <- surjective_pairing.
Qed.

Definition session_played :=
  play session_serve [1; 1; 2; 2; 3; 0; 0; 3; 3]%nat []
    {| sh_clock := 1000 * Second; sh_sessions := newMemoryAuthStore |} (fun i => store_thread (session_works i)).

Lemma session_played_shares : shares (1000 * Second) session_works session_played.1.1 session_played.1.2 session_played.2.
Proof. apply play_execution; [apply session_serve_answers|constructor]. Qed.

Definition answered (p : Prog StoreStep StoreAnswer) : option StoreAnswer := if p is Ret a then Some a else None.

Lemma answered_ret p a : answered p = Some a -> p = Ret a.
Proof. destruct p; cbn; congruence. Qed.

Lemma session_answers :
  answered (session_played.2 2%nat) = Some (Found (Some admin_session)) /\ answered (session_played.2 3%nat) = Some (Found None).
Proof. split; vm_compute; reflexivity. Qed.

Lemma session_values_distinct : NoDup (omap created_value session_played.1.1).
Proof. apply (bool_decide_eq_true_1 _). vm_compute. reflexivity. Qed.

Lemma sessions_linearizable_witness :
  takes_effect (1000 * Second) session_works session_played.1.1 2%nat (CallGet "cookie") (Found (Some admin_session))
  /\ takes_effect (1000 * Second) session_works session_played.1.1 3%nat (CallGet "cookie") (Found None).
Proof.
  destruct (sessions_linearizable _ _ _ _ _ 2%nat _ labelled_digest_inj session_played_shares session_values_distinct
              (answered_ret _ _ (proj1 session_answers))) as (_ & c2 & E2 & Ht2).
  destruct (sessions_linearizable _ _ _ _ _ 3%nat _ labelled_digest_inj session_played_shares session_values_distinct
              (answered_ret _ _ (proj2 session_answers))) as (_ & c3 & E3 & Ht3).
  cbn in E2, E3. subst c2 c3. split; [exact Ht2|exact Ht3].
Defined.

(** ** The API server *)

Definition broker_services : Assignmentd.services := {|
  Assignmentd.sv_controller := Witnesses.controller; Assignmentd.sv_audit := sink;
  Assignmentd.sv_caller := {| au_namespace := "governance"; au_audience := "aud" |};
  Assignmentd.sv_upstream := blank_url; Assignmentd.sv_lifecycle := facade; Assignmentd.sv_broker := Some broker |}.

#[local] Instance process_checker : Checker Kube (CheckerState * option KubernetesAuditSink) :=
  kubernetes_checker checker_config caches.
#[local] Instance process_validator : GrantValidator := kubernetes_validator "governance" "sandboxes".
#[local] Instance process_revocations : RevocationStore := kubernetes_revocations "governance".

Definition bearer : Header := r_Header (http "DELETE" "/opensandbox/sandboxes/sandbox-1").

Definition api_delete := api_serve (Some (kubernetes_grant_audit "governance")) broker_services "DELETE"
  "/opensandbox/sandboxes/sandbox-1" bearer (Ok "") (checker_state, Some sink).

Lemma api_effects_admitted_witness : exists e reply s' u,
  run api_delete (trace_of called api_delete) (reply, s') /\
  e ∈ trace_of called api_delete /\ has_effect e = true /\
  ParseRequestURI "/opensandbox/sandboxes/sandbox-1" = Ok u.
Proof.
  destruct (found_event has_effect (trace_of called api_delete) ltac:(vm_compute; reflexivity)) as (e & Hin & He).
  destruct (ran_self called api_delete) as ([reply s'] & Hr). pose proof Hr as Ha. unfold api_delete at 1 in Ha.
  destruct (api_effects_admitted (Some (kubernetes_grant_audit "governance")) broker_services "DELETE"
              "/opensandbox/sandboxes/sandbox-1" bearer (Ok "") (checker_state, Some sink) _ _ _ e Ha Hin He) as (u & Hu & _).
  exists e, reply, s', u. split; [exact Hr|]. split; [exact Hin|]. split; [exact He|exact Hu].
Defined.

(** ** The elected controller *)

Import LeaderElection.

(** The Lease is acquired, the controller starts, the Lease is lost, and the function returns. *)
Definition lost_state : state := {|
  st_ctx_done := false; st_election_done := true; st_leader_done := true; st_elector := Stopped true;
  st_leading := Running; st_started := true; st_callbackErr := None;
  st_returned := Some (Some lost_leadership) |}.

Lemma lost_reachable : reachable lost_state.
Proof.
  eapply rtc_l; [by apply step_acquire|]. eapply rtc_l; [by apply step_start|]. eapply rtc_l; [by apply step_lose|].
  eapply rtc_l; [by apply step_stopped|]. eapply rtc_l; [by eapply step_return|]. apply rtc_refl.
Qed.

Lemma leadership_result_witness : st_returned lost_state = Some (Some lost_leadership) /\ leads lost_state.
Proof.
  split; [reflexivity|]. exact (leadership_result lost_state (Some lost_leadership) lost_reachable eq_refl).
Defined.


(** ** The probe *)

Definition probed : Probe.probe_options := {|
  Probe.po_kubeconfig := "config"; Probe.po_namespace := "governance"; Probe.po_workloads := "sandboxes";
  Probe.po_assignment := "assignment-1"; Probe.po_address := "127.0.0.1:19001"; Probe.po_backend := "pypi";
  Probe.po_method := "get"; Probe.po_target := "https://PyPI.org/simple/a%20b" |}.

Definition rule_line : string := "pypi get https://PyPI.org/simple/a%20b".


(** ** The doctor *)

Definition doctor_host : Handler DoctorMain.DoctorCall unit := fun R op w =>
  match op in DoctorMain.DoctorCall R return R * unit with
  | DoctorMain.OfCluster op => Fixtures.serve platform _ op w
  | _ => (Ok tt, w)
  end.

Definition no_env (name : string) : string := "".
Definition doctor_command := DoctorMain.doctor_main no_env "config" ["--output=json"; "ignored"].

Lemma doctor_exit_sound_witness : exists exit flags report,
  run doctor_command (traced doctor_host doctor_command) exit /\
  DoctorMain.ex_stdout exit = Some (DoctorMain.JsonReport (DoctorMain.report_json report)) /\
  Doctor.rep_Ready report = true /\
  Doctor.cluster_ready (Doctor.New (DoctorMain.doctor_config flags))
    (DoctorMain.cluster_events (traced doctor_host doctor_command)).
Proof.
  pose proof (traced_run doctor_host doctor_command) as Hr.
  assert (DoctorMain.ex_code (record_trace doctor_host doctor_command tt).2 = 0) as Hcode by (vm_compute; reflexivity).
  assert (match DoctorMain.ex_stdout (record_trace doctor_host doctor_command tt).2 with
          | Some (DoctorMain.JsonReport _) => true | _ => false end = true) as Hjson by (vm_compute; reflexivity).
  pose proof (DoctorMain.doctor_exit_sound no_env "config" ["--output=json"; "ignored"] _ _ Hr Hcode) as Hsound.
  destruct (DoctorMain.ex_stdout (record_trace doctor_host doctor_command tt).2) as [[v|text]|] eqn:Eo; try discriminate Hjson.
  destruct Hsound as (flags & rest & report & _ & Hready & [Hv|Hv] & Hc); [|discriminate Hv].
  exists (record_trace doctor_host doctor_command tt).2, flags, report.
  split; [exact Hr|]. split; [rewrite Eo; f_equal; exact Hv|]. split; [exact Hready|exact Hc].
Defined.

(** ** The dashboard's process *)

Definition process_env (name : string) : string :=
  if name =?s "OSB_DASHBOARD_ENTRA_REDIRECT_URI" then "https://dashboard.example.com/dashboard/auth/redirect/" else config_env name.

Definition dashboard_host : Handler DashboardProcess.Process unit := fun R op w =>
  match op in DashboardProcess.Process R return R * unit with
  | DashboardProcess.OfCluster op => Fixtures.serve dashboard_answers _ op w
  | DashboardProcess.ListenAndServe _ _ => (None, w)
  | DashboardProcess.app_Close | DashboardProcess.auth_Close | DashboardProcess.cancelRoot => (tt, w)
  | _ => (Ok tt, w)
  end.

Definition dashboard_process := DashboardProcess.dashboard_run process_env config_args.

Definition dashboard_trace : list (Event DashboardProcess.Process) := traced dashboard_host dashboard_process.

Lemma dashboard_listened : length (DashboardProcess.listens dashboard_trace) = 1%nat.
Proof. vm_compute. reflexivity. Qed.

Lemma dashboard_serves_configured_witness : exists r address handler ended cfg before shut closed,
  run dashboard_process dashboard_trace r /\ parseConfig process_env config_args = Ok cfg /\ config_ok cfg /\
  DashboardProcess.built_from cfg handler /\
  dashboard_trace = before ++ DashboardProcess.ending address handler ended shut closed.
Proof.
  pose proof (traced_run dashboard_host dashboard_process) as Hr. fold dashboard_trace in Hr.
  pose proof dashboard_listened as Hl.
  destruct (DashboardProcess.listens dashboard_trace) as [|[[address handler] ended] l] eqn:El; [discriminate Hl|].
  assert (Ev (DashboardProcess.ListenAndServe address handler) ended ∈ dashboard_trace) as Hin.
  { apply DashboardProcess.listens_elem. rewrite El. apply elem_of_cons. left. reflexivity. }
  destruct (DashboardProcess.dashboard_serves_configured process_env config_args dashboard_trace _ address handler ended Hr Hin)
    as (cfg & before & shut & closed & Hc & Hok & _ & Hb & _ & Ht & _).
  eexists _, address, handler, ended, cfg, before, shut, closed.
  split; [exact Hr|]. split; [exact Hc|]. split; [exact Hok|]. split; [exact Hb|exact Ht].
Defined.

(** ** The assignment daemon *)

Definition daemon_host : Handler Assignmentd.Process unit := fun R op w =>
  match op in Assignmentd.Process R return R * unit with
  | Assignmentd.select_stop => (None, w)
  | Assignmentd.grpc_GracefulStop | Assignmentd.WaitForCacheSync _ => (true, w)
  | Assignmentd.auditSink_Start | Assignmentd.spawn _ _ | Assignmentd.grpcHealth_SetServing _ | Assignmentd.grpc_Stop
  | Assignmentd.cancelRuntime | Assignmentd.stopSignals => (tt, w)
  | _ => (Ok tt, w)
  end.

Definition daemon := Assignmentd.assignmentd_run no_env 3 true.
Definition daemon_trace : list (Event Assignmentd.Process) := traced daemon_host daemon.

(** The first task that is started in a trace. *)
Definition first_spawn (t : list (Event Assignmentd.Process)) : option (Assignmentd.services * Assignmentd.Task) :=
  head (omap (fun e => match e with Ev (Assignmentd.spawn s task) _ => Some (s, task) | _ => None end) t).

Lemma first_spawn_elem t s task : first_spawn t = Some (s, task) -> exists r, Ev (Assignmentd.spawn s task) r ∈ t.
Proof.
  unfold first_spawn. intros Hh%head_Some_elem_of. apply list_elem_of_omap in Hh as ([R op r] & Hin & E).
  destruct op; try done. simplify_eq. eauto.
Qed.

Lemma assignmentd_serves_configured_witness : exists out s task before,
  run daemon daemon_trace out /\ Assignmentd.configured no_env s /\ Assignmentd.started before /\
  task = Assignmentd.ControllerTask true.
Proof.
  pose proof (traced_run daemon_host daemon) as Hr. fold daemon_trace in Hr.
  assert (snd <$> first_spawn daemon_trace = Some (Assignmentd.ControllerTask true)) as Hf by (vm_compute; reflexivity).
  destruct (first_spawn daemon_trace) as [[s task]|] eqn:Es; [|discriminate Hf]. injection Hf as Et.
  destruct (first_spawn_elem _ _ _ Es) as [r Hin].
  destruct (Assignmentd.assignmentd_serves_configured no_env 3 true daemon_trace _ s task r Hr Hin)
    as (Hc & before & after & _ & Hs).
  eexists _, s, task, before. split; [exact Hr|]. split; [exact Hc|]. split; [exact Hs|exact Et].
Defined.
